(* ===== verification/_CoqProject ===== *)
-Q . S2P
Prelude.v
Pmm.v
Kheap.v
CString.v
Block.v
Bcache.v
Ports.v
Ata.v
Sfs.v
SfsLayout.v
SfsInv.v
SfsFile.v
SfsDir.v
SfsOps.v
SfsTree.v
SfsSpec.v
Devices.v
Serial.v
Screen.v
Keyboard.v
Alloc.v
Cpu.v
Task.v
TaskSwitch.v
TaskInv.v
TaskSpec.v
Preempt.v
Elf.v
Paging.v
Segments.v
Interrupts.v
Green.v
GreenSpec.v
Shell.v
ShellRun.v
ShellFs.v
ShellRm.v
ShellSpec.v
ShellPwd.v
ShellWords.v
ShellProps.v
Os.v
Exec.v
ExecSpec.v
ExecUser.v
Hello.v
ExecProps.v
ShellMain.v
ShellGt.v
ShellLine.v
ShellTop.v
KernelTasks.v
Kernel.v
KernelSpec.v
KernelBoot.v
KernelProps.v
Session.v
