(* ===== verification/Prelude.v ===== *)
(** * JacobOS: a verification development

    JacobOS is a 32-bit x86 operating system in C: an MBR boot loader brings up
    a kernel that programs the machine, mounts a filesystem on an ATA disk,
    starts a preemptive scheduler and runs a shell on the keyboard's interrupt.
    The kernel's parts and how they call each other:

    - lib/string.c serves everything; drivers/serial.c, drivers/screen.c,
      drivers/keyboard.c, drivers/timer.c and drivers/ata.c talk to ports;
    - mem/pmm.c, mem/paging.c and mem/kheap.c manage memory; the heap serves
      tasks, fibers, the program loader and the shell;
    - fs/bcache.c caches disk blocks above drivers/ata.c; fs/sfs.c is the
      filesystem above it;
    - cpu/gdt.c, cpu/idt.c and cpu/isr.c install descriptors and dispatch
      interrupts; kernel/task.c switches tasks on the timer's interrupt;
      kernel/green.c runs cooperative fibers inside one task;
    - kernel/elf.c and kernel/exec.c load and run a ring-3 program, which comes
      back through cpu/syscall.c;
    - kernel/shell.c runs commands on all of these, and kernel/kernel.c boots.

    ** How the code is modelled

    A C function is a computation [M S A]: explicit state passing over a record
    of the variables it can reach, with [None] for behaviour C or the machine
    does not define (a store outside every object, fuel used up).  Machine
    integers are [Z] with the truncation of their type written out.  A routine
    that works on part of a larger state is run through a lens ([zoom]).  The
    filesystem's routines are block programs ([prog]) that run on a plain disk
    or on any layer that implements the two block operations.  What is not code
    of the repository (the devices behind the ports, the processor's reading of
    its tables, the code of a fiber or of a user program) enters as a class of
    documented laws or as a parameter.  The processor's segment registers and
    its cached page translations are part of the state: the code that reloads
    them (cpu/gdt_flush.asm, kernel/usermode.asm, the stubs, [paging_set_user])
    is modelled with these loads.  The PIO disk is busy for a while after every
    command and after the data of a write, and ignores commands meanwhile.

    ** Files

    - Prelude: integers, the monad, lenses, bit and byte-list lemmas.
    - Pmm (mem/pmm.c), Kheap (mem/kheap.c), Paging (mem/paging.c).
    - CString (lib/string.c).
    - Block: block programs and the interface [BlockLayer]; Bcache (fs/bcache.c)
      implements it over [AtaDisk]; Ports (cpu/ports.h); Ata (drivers/ata.c)
      implements [AtaDisk] over a documented PIO device.
    - Sfs (fs/sfs.c, all operations); SfsLayout, SfsInv, SfsFile, SfsDir,
      SfsOps, SfsTree: what each layer of it does; SfsSpec: its properties.
    - Devices: the documented devices; Serial, Screen, Keyboard (drivers).
    - Alloc: the interface [Allocator] of the heap; Cpu: registers, stacks and
      kernel/switch.asm; Task, TaskSwitch, TaskInv, TaskSpec (kernel/task.c);
      Preempt: the stub of hardware interrupts (cpu/interrupt.asm) around a
      switch; Green, GreenSpec (kernel/green.c).
    - Elf (kernel/elf.c); Segments (cpu/gdt.c); Interrupts (cpu/idt.c,
      cpu/isr.c, drivers/timer.c).
    - Shell (kernel/shell.c, paths, words and the file commands); ShellRun: the
      rules shell commands are reasoned about with; ShellFs, ShellRm, ShellSpec,
      ShellPwd, ShellWords: what the commands do; ShellProps: their properties.
    - Os: the state of the whole kernel as one record, with a lens for each
      part.  Exec (kernel/exec.c, kernel/usermode.asm, cpu/syscall.c and its
      stub), ExecSpec, ExecUser: what a call and a run do; Hello (user/hello.c)
      as a program of that model; ExecProps: the properties.
    - ShellMain (kernel/shell.c, the other commands, the dispatch of a line and
      the prompt), ShellGt, ShellLine: what a line does; ShellTop: properties.
    - KernelTasks: what creating the first tasks needs of the heap; Kernel
      (kernel/kernel.c); KernelSpec: the two files [main] keeps; KernelBoot: the
      stages of [main] and the state each leaves; KernelProps: properties.
    - Session: the running system, driven by the timer's and the keyboard's
      interrupts (cpu/isr.c, drivers/timer.c, drivers/keyboard.c) over the whole
      kernel, and what its user is promised.

    ** What is proved

    - Memory: frames and blocks handed out never overlap and are never lost,
      for requests of any 32-bit size; [kmalloc] is first fit, [kfree] merges;
      both always end.
    - Storage: the cache is transparent and durable after a sync; the driver
      moves sectors on a documented device of up to 2^28 sectors; every filesystem operation keeps
      the disk consistent (blocks owned once, bitmap exact, names a tree rooted
      at /, dot entries right), and write/read, create/lookup and unlink do
      what they promise, through the cache.
    - Console: the screen refines a linear terminal and the serial mirror, the
      keyboard a line editor.
    - Multitasking: the ring of tasks is kept, a task resumes with its
      registers, dead tasks never run, live ones run again within one round; a
      task that is interrupted anywhere and preempted does not notice;
      [gt_run] is a round-robin queue of fibers.
    - Protection: descriptor and page tables decode to what the kernel relies
      on, access bits included; user code reads and writes the pages opened with
      [paging_set_user] only; [elf_load] touches the user window only, for
      well-formed segments.
    - Programs: [exec_user] returns the exit code of a program that ends, after
      its output and with the caller's stack and registers, or refuses and
      leaves at most segments in the user window and bytes in a free heap block;
      a program's output comes from the user window only.
    - Shell: paths resolve as a walk over their components, the file commands
      return in every case, free what they allocate, leave the disk as
      specified and print exactly the text specified ([command] in ShellLine:
      out of memory exactly when the heap refuses the request, counters as they
      stand in the state the line is run in); a line is run as the command its
      words name, and is on the disk itself when the prompt comes back.  The
      theorem about lines leaves out [ps], [spawn], [exec] and [gt], which reach
      beyond the shell's part of the state ([exec] and [gt] have theorems of
      their own), and the recursive removal of a dot entry, which has one too.
    - Boot: from the state the loader leaves, [main] gets to its idle loop with
      the tables loaded, the allocators, three tasks and the shell ready and the
      start-up text shown; the counter on the disk counts the boots.
    - The whole: after the boot, whatever the order of ticks that find room on
      the stack, keys and the tasks' own work, as long as no key submits one of
      the lines left out above, the text printed is the one the typed keys call
      for, and every further interrupt of this kind is handled to its end.

    Properties marked in their comments as errors prove a defect of the code:
    names over 27 characters, ignored read errors, the wrap-around of [kmalloc],
    [atoi] of INT_MIN, a missing disk, signed characters on the screen, a
    segment with more file than memory bytes, [mv] onto itself, [rm -r ..],
    words after the sixteenth, a [sys_write] whose length wraps around, a boot
    with no inode left for the counter, a flush command that a busy disk misses.

    ** Fuel

    Loops whose end is not structural take fuel, and a theorem shows the fuel
    given is enough: a heap or ring walk takes as many steps as there are
    headers or tasks, a directory scan [COUNT_FUEL] (14 blocks of 16 slots and
    one more), [elf_load] one step per value of its 16-bit counter, [rm_rec]
    [RM_DEPTH] levels (more than there are inodes), the demonstration of fibers
    [GT_FUEL] turns (four fibers of six and one more).  A user program is given
    a bound on its system calls, and the theorem about a program that ends
    takes any bound from the number of its calls on.  The waits
    on the disk's busy bit have no bound in the source; their theorem assumes a
    device that becomes ready, and another shows that without one they do not
    return.

    ** Not modelled

    The boot loader and the stubs of exceptions (mode switches and register
    dumps, known here by the state they leave and the frame a C handler gets);
    interrupts during [main] after it enables them and during user programs (the
    handlers themselves, and so the shell's commands, run with interrupts off;
    Preempt shows that the registers and the stack of an interrupted task
    survive); docs/ (the browser demo). *)

From stdpp Require Export base numbers list list_numbers gmap strings.

#[global] Set Default Goal Selector "!".
#[global] Set Warnings "-clear-no-such-hyp".
Global Open Scope Z_scope.

(** ** Fixed-width integers (cpu/types.h)

    A machine integer is a [Z]; every operation that can leave its width is
    followed by the truncation the C type performs. *)

Definition u8 (z : Z) : Z := z `mod` 256.
Definition u16 (z : Z) : Z := z `mod` 65536.
Definition u32 (z : Z) : Z := z `mod` 4294967296.

(** Signed reinterpretations: [(char)b] for a byte and [(int)w] for a word. *)
Definition i8_of (b : Z) : Z := (b + 128) `mod` 256 - 128.
Definition i32_of (w : Z) : Z := (w + 2147483648) `mod` 4294967296 - 2147483648.

(** [in_int z]: the value is representable as a C [int]; signed arithmetic
    that leaves this range has no defined behaviour. *)
Definition in_int (z : Z) : bool := (-2147483648 <=? z) && (z <? 2147483648).

(** C truth value of an integer. *)
Definition truth (z : Z) : bool := negb (z =? 0).

Lemma u8_small z : 0 ≤ z < 256 → u8 z = z.
Proof. apply Z.mod_small. Qed.
Lemma u32_small z : 0 ≤ z < 4294967296 → u32 z = z.
Proof. apply Z.mod_small. Qed.
Lemma u32_range z : 0 ≤ u32 z < 4294967296.
Proof. by apply Z.mod_pos_bound. Qed.
Lemma truth_b2z b : truth (Z.b2z b) = b.
Proof. by destruct b. Qed.
Lemma truth_true z : truth z = true ↔ z ≠ 0.
Proof. unfold truth. rewrite negb_true_iff. apply Z.eqb_neq. Qed.
Lemma truth_false z : truth z = false ↔ z = 0.
Proof. unfold truth. rewrite negb_false_iff. apply Z.eqb_eq. Qed.

(** ** Computations with state and undefined behaviour

    [M S A] is a computation over a state [S] that returns an [A], or has no
    defined behaviour ([None]): an access outside every mapped object, or a
    loop that used up the fuel it was given. *)

Definition M (S A : Type) : Type := S → option (A * S).

#[global] Instance M_ret {S} : MRet (M S) := λ A a s, Some (a, s).
#[global] Instance M_bind {S} : MBind (M S) := λ A B k c s,
  match c s with Some (a, s') => k a s' | None => None end.

Definition fault {S A} : M S A := λ _, None.
Definition get {S} : M S S := λ s, Some (s, s).
Definition gets {S A} (f : S → A) : M S A := λ s, Some (f s, s).
Definition modify {S} (f : S → S) : M S unit := λ s, Some (tt, f s).
Definition lift {S A} (o : option A) : M S A := λ s, (λ a, (a, s)) <$> o.

(** [for (i = i0; i < i0 + n; i++) body(i)], left early when the body returns
    a value. *)
Fixpoint for_ret {m : Type → Type} `{MRet m, MBind m} {R}
    (n : nat) (i : Z) (body : Z → m (option R)) : m (option R) :=
  match n with
  | O => mret None
  | S n' => r ← body i;
            match r with
            | Some v => mret (Some v)
            | None => for_ret n' (i + 1) body
            end
  end.

Lemma M_bind_Some {S A B} (c : M S A) (k : A → M S B) s b s' :
  (c ≫= k) s = Some (b, s') → ∃ a s1, c s = Some (a, s1) ∧ k a s1 = Some (b, s').
Proof. unfold mbind, M_bind. destruct (c s) as [[a s1]|]; naive_solver. Qed.

Lemma M_bind_run {S A B} (c : M S A) (k : A → M S B) s a s1 :
  c s = Some (a, s1) → (c ≫= k) s = k a s1.
Proof. unfold mbind, M_bind. by intros ->. Qed.

Lemma bind_ret {S A B} (a : A) (k : A → M S B) s : (mret a ≫= k) s = k a s.
Proof. done. Qed.
Lemma bind_gets {S A B} (f : S → A) (k : A → M S B) s : (gets f ≫= k) s = k (f s) s.
Proof. done. Qed.
Lemma bind_modify {S B} (f : S → S) (k : unit → M S B) s : (modify f ≫= k) s = k tt (f s).
Proof. done. Qed.
Lemma bind_assoc {S A B C} (c : M S A) (f : A → M S B) (g : B → M S C) s :
  ((c ≫= f) ≫= g) s = (c ≫= (λ a, f a ≫= g)) s.
Proof. unfold mbind, M_bind. by destruct (c s) as [[]|]. Qed.

Lemma lift_run {S A} (a : A) (s : S) : lift (Some a) s = Some (a, s).
Proof. done. Qed.
Lemma bind_lift {S A B} (a : A) (k : A → M S B) s : (lift (Some a) ≫= k) s = k a s.
Proof. done. Qed.

(** The monad's equations for rewriting, and facts about ranges, bytes and
    strings for resolution. *)
Create HintDb os.
Create Rewrite HintDb monad.
#[export] Hint Rewrite @bind_ret @bind_gets @bind_modify @bind_assoc @bind_lift : monad.
#[export] Hint Resolve u32_range : os.

(** Run one step of a computation whose first operation is known. *)
Ltac mrun := repeat first
  [ progress autorewrite with monad
  | match goal with H : ?c ?s = Some (_, _) |- context [(?c ≫= _) ?s] =>
      rewrite (M_bind_run _ _ _ _ _ H) end ].

(** The loop rule: [P j] holds before iteration [j]; a body that returns a
    value establishes [Q]. The loop always ends, with one of the two. *)
Lemma for_ret_rule {S R} (P : Z → S → Prop) (Q : R → S → Prop)
    (body : Z → M S (option R)) (n : nat) (i : Z) (s : S) :
  (∀ j t, i ≤ j < i + Z.of_nat n → P j t → ∃ r t', body j t = Some (r, t') ∧
     match r with None => P (j + 1) t' | Some v => Q v t' end) →
  P i s →
  ∃ r s', for_ret n i body s = Some (r, s') ∧
    match r with None => P (i + Z.of_nat n) s' | Some v => Q v s' end.
Proof.
  revert i s. induction n as [|n IH]; intros i s Hbody HP; simpl.
  - exists None, s. split; [done|]. by replace (i + Z.of_nat 0) with i by lia.
  - destruct (Hbody i s ltac:(lia) HP) as (r & t & Hr & Hpost).
    rewrite (M_bind_run _ _ _ _ _ Hr). destruct r as [v|].
    + by exists (Some v), t.
    + destruct (IH (i + 1) t) as (r & s' & Hrun & Hfin); [|done|].
      { intros j t0 Hj. apply Hbody. lia. }
      exists r, s'. split; [done|]. destruct r; [done|].
      by replace (i + Z.of_nat (Datatypes.S n)) with (i + 1 + Z.of_nat n) by lia.
Qed.

(** ** Parts of a larger state

    A component's operations are computations over its own state; [zoom]
    runs them on a state that contains it. *)

Record lens (S T : Type) := Lens { view : S → T; update : T → S → S }.
Arguments Lens {S T}. Arguments view {S T}. Arguments update {S T}.

Class LensLaws {S T} (l : lens S T) := {
  view_update : ∀ t s, view l (update l t s) = t;
  update_update : ∀ t t' s, update l t (update l t' s) = update l t s;
  update_view : ∀ s, update l (view l s) s = s;
}.

Definition zoom {S T A} (l : lens S T) (c : M T A) : M S A := λ s,
  match c (view l s) with Some (a, t) => Some (a, update l t s) | None => None end.

Definition fst_lens {S T} : lens (S * T) S := Lens fst (λ a s, (a, s.2)).
Definition snd_lens {S T} : lens (S * T) T := Lens snd (λ b s, (s.1, b)).
#[global] Instance fst_lens_laws {S T} : LensLaws (@fst_lens S T).
Proof. split; [done..|]. by intros []. Qed.
#[global] Instance snd_lens_laws {S T} : LensLaws (@snd_lens S T).
Proof. split; [done..|]. by intros []. Qed.

Lemma zoom_run {S T A} (l : lens S T) (c : M T A) s a t :
  c (view l s) = Some (a, t) → zoom l c s = Some (a, update l t s).
Proof. unfold zoom. by intros ->. Qed.
Lemma zoom_bind {S T A B} (l : lens S T) (c : M T A) (k : A → M S B) s a t :
  c (view l s) = Some (a, t) → (zoom l c ≫= k) s = k a (update l t s).
Proof. intros E. by rewrite (M_bind_run _ _ _ _ _ (zoom_run l c s a t E)). Qed.

(** ** Bits of a machine word *)

Section bits.
Implicit Types w k j : Z.

Lemma shiftl_1_testbit k j : 0 ≤ k → 0 ≤ j → Z.testbit (Z.shiftl 1 k) j = (j =? k).
Proof.
  intros Hk Hj. rewrite Z.shiftl_1_l.
  destruct (Z.eqb_spec j k) as [->|Hne].
  - by rewrite Z.pow2_bits_true.
  - by rewrite Z.pow2_bits_false by lia.
Qed.

Lemma test_bit_spec w k : 0 ≤ k →
  truth (Z.land w (Z.shiftl 1 k)) = Z.testbit w k.
Proof.
  intros Hk. unfold truth. destruct (Z.testbit w k) eqn:E.
  - destruct (Z.eqb_spec (Z.land w (Z.shiftl 1 k)) 0) as [H0|]; [|done].
    assert (Z.testbit (Z.land w (Z.shiftl 1 k)) k = false) as H by (rewrite H0; apply Z.bits_0).
    rewrite Z.land_spec, E, shiftl_1_testbit, Z.eqb_refl in H by lia. done.
  - replace (Z.land w (Z.shiftl 1 k)) with 0; [done|].
    symmetry. apply Z.bits_inj_iff'. intros j Hj.
    rewrite Z.land_spec, Z.bits_0, shiftl_1_testbit by lia.
    destruct (Z.eqb_spec j k) as [->|]; [by rewrite E|by rewrite andb_false_r].
Qed.

Lemma set_bit_spec w k j : 0 ≤ k → 0 ≤ j →
  Z.testbit (Z.lor w (Z.shiftl 1 k)) j = Z.testbit w j || (j =? k).
Proof. intros. by rewrite Z.lor_spec, shiftl_1_testbit. Qed.

Lemma clear_bit_spec w k j : 0 ≤ k → 0 ≤ j →
  Z.testbit (Z.land w (Z.lnot (Z.shiftl 1 k))) j = Z.testbit w j && negb (j =? k).
Proof. intros. by rewrite Z.land_spec, Z.lnot_spec, shiftl_1_testbit. Qed.

(** A number below [2^n] has no bit at [n] or above, and conversely. *)
Lemma range_of_bits n w : 0 ≤ n → 0 ≤ w → (∀ j, n ≤ j → Z.testbit w j = false) → w < 2 ^ n.
Proof.
  intros Hn Hw Hb. destruct (decide (w < 2 ^ n)) as [|Hge]; [done|exfalso].
  assert (0 < w) by (pose proof (Z.pow_pos_nonneg 2 n); lia).
  assert (Z.testbit w (Z.log2 w) = true) as E by (apply Z.bit_log2; lia).
  rewrite Hb in E; [done|]. apply Z.log2_le_pow2; lia.
Qed.

Lemma bits_of_range n w j : 0 ≤ n → 0 ≤ w < 2 ^ n → n ≤ j → Z.testbit w j = false.
Proof.
  intros Hn Hw Hj. rewrite <-(Z.mod_small w (2 ^ n)) by done.
  apply Z.mod_pow2_bits_high. lia.
Qed.

Lemma set_bit_range n w k : 0 ≤ k < n → 0 ≤ w < 2 ^ n →
  0 ≤ Z.lor w (Z.shiftl 1 k) < 2 ^ n.
Proof.
  intros Hk Hw.
  assert (0 ≤ Z.lor w (Z.shiftl 1 k)) as Hp.
  { apply Z.lor_nonneg. split; [lia|]. apply Z.shiftl_nonneg. lia. }
  split; [done|]. apply range_of_bits; [lia|done|].
  intros j Hj. rewrite set_bit_spec by lia.
  rewrite (bits_of_range n w j) by lia. simpl. apply Z.eqb_neq. lia.
Qed.

Lemma clear_bit_range n w k : 0 ≤ k < n → 0 ≤ w < 2 ^ n →
  0 ≤ Z.land w (Z.lnot (Z.shiftl 1 k)) < 2 ^ n.
Proof.
  intros Hk Hw.
  assert (0 ≤ Z.land w (Z.lnot (Z.shiftl 1 k))) as Hp by (apply Z.land_nonneg; lia).
  split; [done|]. apply range_of_bits; [lia|done|].
  intros j Hj. rewrite clear_bit_spec by lia.
  by rewrite (bits_of_range n w j) by lia.
Qed.

(** Truncating a mask to the width of the masked word changes nothing. *)
Lemma land_trunc n w m : 0 ≤ n → 0 ≤ w < 2 ^ n → Z.land w (m `mod` 2 ^ n) = Z.land w m.
Proof.
  intros Hn Hw. apply Z.bits_inj_iff'. intros j Hj. rewrite !Z.land_spec.
  destruct (decide (j < n)).
  - by rewrite Z.mod_pow2_bits_low by lia.
  - by rewrite (bits_of_range n w j) by lia.
Qed.

(** Rounding down to a multiple of [2^n] by masking. *)
Lemma land_lnot_ones w n : 0 ≤ n → Z.land w (Z.lnot (Z.ones n)) = w / 2 ^ n * 2 ^ n.
Proof.
  intros Hn. rewrite <-Z.ldiff_land, Z.ldiff_ones_r, Z.shiftl_mul_pow2, Z.shiftr_div_pow2 by lia. done.
Qed.
End bits.

(** ** Byte buffers

    A buffer is the list of its bytes.  [slice o n b] is the [n] bytes at
    offset [o]; storing bytes at an offset is stdpp's [list_inserts]. *)

Definition slice {A} (o n : nat) (b : list A) : list A := take n (drop o b).
Definition byte_at (b : list Z) (i : nat) : Z := default 0 (b !! i).

(** A 32-bit word in memory, least significant byte first. *)
Definition le32 (z : Z) : list Z := [u8 z; u8 (z / 256); u8 (z / 65536); u8 (z / 16777216)].
Definition ld32 (b : list Z) (o : nat) : Z :=
  byte_at b o + 256 * byte_at b (o + 1) + 65536 * byte_at b (o + 2) + 16777216 * byte_at b (o + 3).

Fixpoint words (n : nat) (b : list Z) : list Z :=
  match n with O => [] | S n' => ld32 b 0 :: words n' (drop 4 b) end.

(** The elements before the first 0: the characters of a C string, the block
    numbers of an inode. *)
Fixpoint upto0 (l : list Z) : list Z :=
  match l with [] => [] | c :: l' => if truth c then c :: upto0 l' else [] end.

Definition is_byte (b : Z) : Prop := 0 ≤ b < 256.
Definition is_word (w : Z) : Prop := 0 ≤ w < 4294967296.
#[global] Instance is_byte_dec b : Decision (is_byte b).
Proof. apply _. Defined.

Section buffers.
Context {A : Type}.
Implicit Types b x : list A.

Lemma slice_lookup o n b i : slice o n b !! i = if decide (i < n)%nat then b !! (o + i)%nat else None.
Proof. unfold slice. rewrite lookup_take. case_decide; [by rewrite lookup_drop|done]. Qed.

Lemma length_slice o n b : (o + n ≤ length b)%nat → length (slice o n b) = n.
Proof. intros. unfold slice. rewrite length_take, length_drop. lia. Qed.

Lemma slice_inserts_same o x b : (o + length x ≤ length b)%nat → slice o (length x) (list_inserts o x b) = x.
Proof.
  intros Hb. apply list_eq. intros i. rewrite slice_lookup. case_decide as Hi.
  - rewrite list_lookup_inserts by lia. f_equal. lia.
  - symmetry. apply lookup_ge_None. lia.
Qed.

Lemma slice_inserts_other o n o' x b : (o + n ≤ o' ∨ o' + length x ≤ o)%nat →
  slice o n (list_inserts o' x b) = slice o n b.
Proof.
  intros Hd. apply list_eq. intros i. rewrite !slice_lookup. case_decide as Hi; [|done].
  destruct Hd; [rewrite list_lookup_inserts_lt by lia|rewrite list_lookup_inserts_ge by lia]; done.
Qed.

Lemma slice_all b n : length b = n → slice 0 n b = b.
Proof. intros <-. unfold slice. rewrite drop_0. by rewrite firstn_all. Qed.

Lemma list_inserts_split o x b : (o + length x ≤ length b)%nat →
  list_inserts o x b = take o b ++ x ++ drop (o + length x) b.
Proof.
  intros Hb. apply list_eq. intros i. destruct (decide (i < o)%nat) as [Hi|Hi].
  - rewrite list_lookup_inserts_lt, lookup_app_l, lookup_take_lt; [done|lia|rewrite length_take; lia|lia].
  - rewrite lookup_app_r; rewrite length_take; [|lia]. rewrite Nat.min_l by lia.
    destruct (decide (i < o + length x)%nat).
    + rewrite list_lookup_inserts, lookup_app_l by lia. done.
    + rewrite list_lookup_inserts_ge, lookup_app_r, lookup_drop by lia. f_equal. lia.
Qed.
End buffers.

Lemma upto0_nonzero l : Forall (λ c, c ≠ 0) (upto0 l).
Proof. induction l as [|c l IH]; simpl; [constructor|]. case_match eqn:E; constructor; [by apply truth_true|done]. Qed.

Lemma upto0_all l : Forall (λ c, c ≠ 0) l → upto0 l = l.
Proof. induction 1 as [|c l Hc _ IH]; simpl; [done|]. apply truth_true in Hc. by rewrite Hc, IH. Qed.

Lemma upto0_app_0 l r : Forall (λ c, c ≠ 0) l → upto0 (l ++ 0 :: r) = l.
Proof. induction 1 as [|c l Hc _ IH]; simpl; [done|]. apply truth_true in Hc. by rewrite Hc, IH. Qed.

Lemma upto0_pad l n : Forall (λ c, c ≠ 0) l → upto0 (l ++ replicate n 0) = l.
Proof. intros Hl. destruct n; simpl; [rewrite app_nil_r; by apply upto0_all|by apply upto0_app_0]. Qed.

Lemma u8_byte z : is_byte (u8 z).
Proof. by apply Z.mod_pos_bound. Qed.
#[export] Hint Resolve u8_byte : os.

Lemma le32_bytes z : Forall is_byte (le32 z).
Proof. repeat constructor; apply Z.mod_pos_bound; lia. Qed.

Lemma ld32_app z l : is_word z → ld32 (le32 z ++ l) 0 = z.
Proof.
  unfold is_word. intros Hz. unfold ld32, byte_at, le32, u8. simpl.
  Z.div_mod_to_equations. lia.
Qed.

Lemma byte_at_range b i : Forall is_byte b → is_byte (byte_at b i).
Proof.
  intros Hb. unfold byte_at. destruct (b !! i) eqn:E; simpl; [|unfold is_byte; lia].
  by eapply Forall_lookup_1 in E.
Qed.

Lemma ld32_word b o : Forall is_byte b → is_word (ld32 b o).
Proof.
  intros Hb. pose proof (λ i, byte_at_range b i Hb) as H.
  pose proof (H o). pose proof (H (o + 1)%nat). pose proof (H (o + 2)%nat). pose proof (H (o + 3)%nat).
  unfold is_byte, is_word, ld32 in *. lia.
Qed.

Lemma byte_at_drop b o i : byte_at (drop o b) i = byte_at b (o + i).
Proof. unfold byte_at. by rewrite lookup_drop. Qed.

Lemma ld32_drop b o : ld32 b o = ld32 (drop o b) 0.
Proof. unfold ld32. by rewrite !byte_at_drop, Nat.add_0_r. Qed.

Lemma ld32_take b o n : (o + 4 ≤ n)%nat → ld32 (take n b) o = ld32 b o.
Proof. intros. unfold ld32, byte_at. by rewrite !lookup_take_lt by lia. Qed.

Lemma ld32_slice b o : ld32 b o = ld32 (slice o 4 b) 0.
Proof. unfold slice. rewrite ld32_take by lia. apply ld32_drop. Qed.

Lemma ld32_inserts_same b o z : is_word z → (o + 4 ≤ length b)%nat →
  ld32 (list_inserts o (le32 z) b) o = z.
Proof.
  intros Hz Hb. rewrite ld32_slice, (slice_inserts_same o (le32 z)) by done.
  rewrite <-(app_nil_r (le32 z)). by apply ld32_app.
Qed.

Lemma ld32_inserts_other b o o' x : (o + 4 ≤ o' ∨ o' + length x ≤ o)%nat →
  ld32 (list_inserts o' x b) o = ld32 b o.
Proof. intros Hd. by rewrite ld32_slice, slice_inserts_other, <-ld32_slice. Qed.

Lemma words_encode ws l : Forall is_word ws → words (length ws) ((ws ≫= le32) ++ l) = ws.
Proof.
  induction 1 as [|w ws Hw _ IH]; [done|].
  rewrite bind_cons, <-app_assoc. cbn [words length]. f_equal; [by apply ld32_app|done].
Qed.

Lemma length_words n b : length (words n b) = n.
Proof. revert b. induction n as [|n IH]; intros b; simpl; [done|]. by rewrite IH. Qed.

Lemma words_word n b : Forall is_byte b → Forall is_word (words n b).
Proof.
  revert b. induction n as [|n IH]; intros b Hb; simpl; constructor; [by apply ld32_word|].
  by apply IH, Forall_drop.
Qed.

Lemma length_encode ws : length (ws ≫= le32) = (4 * length ws)%nat.
Proof. induction ws as [|w ws IH]; [done|]. rewrite bind_cons, length_app, IH. simpl. lia. Qed.

Lemma encode_bytes ws : Forall is_byte (ws ≫= le32).
Proof. induction ws as [|w ws IH]; [constructor|]. apply Forall_app. split; [apply le32_bytes|done]. Qed.

Lemma Forall_slice {A} (P : A → Prop) o n b : Forall P b → Forall P (slice o n b).
Proof. intros. by apply Forall_take, Forall_drop. Qed.

Lemma bind_ext_elem {A B} (f g : A → list B) l : (∀ x, x ∈ l → f x = g x) → l ≫= f = l ≫= g.
Proof.
  induction l as [|x l IH]; intros H; [done|]. rewrite !bind_cons, H by left. f_equal.
  apply IH. intros y Hy. apply H. by right.
Qed.
