(* ===== verification/Pmm.v ===== *)
(** * The physical frame allocator (mem/pmm.c, mem/pmm.h)

    State: the bitmap of used frames, one bit per 4 KB frame, and the counter
    of used frames.  The abstract view of a state is the set of used frame
    numbers ([frames]); [pmm_ok] ties the counter to the size of that set.  A
    client history ([pmm_step]) allocates frames and gives back frames it
    holds. *)

From S2P Require Import Prelude.

Definition FRAME_SIZE : Z := 4096.
Definition PHYS_MEM_SIZE : Z := 33554432.
Definition PMM_RESERVED_END : Z := 12582912.
Definition NUM_FRAMES : Z := PHYS_MEM_SIZE / FRAME_SIZE.

Record pmm := Pmm { bitmap : list Z; used_frames : Z }.

(** Array accesses: outside [bitmap] there is no defined behaviour. *)
Definition bm_read (i : Z) : M pmm Z := λ s,
  (λ w, (w, s)) <$> (bitmap s !! Z.to_nat i).
Definition bm_write (i w : Z) : M pmm unit := λ s,
  if decide (Z.to_nat i < length (bitmap s))%nat
  then Some (tt, Pmm (<[Z.to_nat i := w]> (bitmap s)) (used_frames s)) else None.
Definition used_add (d : Z) : M pmm unit :=
  modify (λ s, Pmm (bitmap s) (u32 (used_frames s + d))).

Definition set_frame (frame : Z) : M pmm unit :=
  w ← bm_read (frame / 32);
  bm_write (frame / 32) (Z.lor w (u32 (Z.shiftl 1 (frame `mod` 32)))).

Definition clear_frame (frame : Z) : M pmm unit :=
  w ← bm_read (frame / 32);
  bm_write (frame / 32) (Z.land w (u32 (Z.lnot (u32 (Z.shiftl 1 (frame `mod` 32)))))).

Definition test_frame (frame : Z) : M pmm Z :=
  w ← bm_read (frame / 32);
  mret (Z.land w (u32 (Z.shiftl 1 (frame `mod` 32)))).

Definition pmm_init : M pmm unit :=
  _ ← for_ret (R:=unit) (Z.to_nat (NUM_FRAMES / 32)) 0 (λ i, _ ← bm_write i 0; mret None);
  _ ← modify (λ s, Pmm (bitmap s) 0);
  let nres := PMM_RESERVED_END / FRAME_SIZE in
  _ ← for_ret (R:=unit) (Z.to_nat nres) 0
        (λ i, _ ← set_frame i; _ ← used_add 1; mret None);
  mret tt.

Definition pmm_alloc_frame : M pmm Z :=
  r ← for_ret (Z.to_nat NUM_FRAMES) 0 (λ i,
    t ← test_frame i;
    if truth t then mret None
    else _ ← set_frame i; _ ← used_add 1; mret (Some (u32 (i * FRAME_SIZE))));
  mret (default 0 r).

Definition pmm_free_frame (addr : Z) : M pmm unit :=
  let frame := addr / FRAME_SIZE in
  if NUM_FRAMES <=? frame then mret tt
  else t ← test_frame frame;
       if truth t then _ ← clear_frame frame; used_add (-1) else mret tt.

Definition pmm_total_frames : M pmm Z := mret NUM_FRAMES.
Definition pmm_used_frames : M pmm Z := gets used_frames.

(** ** The abstract view: the set of used frames *)

Definition frame_used (bm : list Z) (f : Z) : bool :=
  Z.testbit (default 0 (bm !! Z.to_nat (f / 32))) (f `mod` 32).

(** Sealed, so that automation never evaluates the 8192-element sets. *)
Definition frames_def (s : pmm) : gset Z :=
  list_to_set (filter (λ f, frame_used (bitmap s) f) (seqZ 0 NUM_FRAMES)).
Definition frames_aux : seal frames_def.
Proof. by eexists. Qed.
Definition frames : pmm → gset Z := unseal frames_aux.
Definition frames_eq : frames = frames_def := seal_eq frames_aux.

Definition bm_ok (bm : list Z) : Prop :=
  length bm = 256%nat ∧ Forall (λ w, 0 ≤ w < 2 ^ 32) bm.

Definition pmm_ok (s : pmm) : Prop :=
  bm_ok (bitmap s) ∧ used_frames s = Z.of_nat (size (frames s)).

Definition reserved_def : gset Z := list_to_set (seqZ 0 (PMM_RESERVED_END / FRAME_SIZE)).
Definition reserved_aux : seal reserved_def.
Proof. by eexists. Qed.
Definition reserved : gset Z := unseal reserved_aux.
Definition reserved_eq : reserved = reserved_def := seal_eq reserved_aux.

(** What allocation and release promise on the set of used frames. *)
Definition alloc_spec (U : gset Z) (r : Z) (U' : gset Z) : Prop :=
  (∃ f : Z, 0 ≤ f < NUM_FRAMES ∧ (f ∉ U) ∧ (∀ g, 0 ≤ g < f → g ∈ U) ∧
        r = f * FRAME_SIZE ∧ U' = {[f]} ∪ U) ∨
  ((∀ g, 0 ≤ g < NUM_FRAMES → g ∈ U) ∧ r = 0 ∧ U' = U).

Definition free_spec (U : gset Z) (addr : Z) (U' : gset Z) : Prop :=
  U' = U ∖ {[addr / FRAME_SIZE]}.

(** A client: it holds the addresses it was given and frees only those. *)
Inductive pmm_step : pmm * gset Z → pmm * gset Z → Prop :=
| step_alloc s r s' live :
    pmm_alloc_frame s = Some (r, s') → r ≠ 0 →
    pmm_step (s, live) (s', {[r]} ∪ live)
| step_alloc_full s s' live :
    pmm_alloc_frame s = Some (0, s') → pmm_step (s, live) (s', live)
| step_free s a s' live :
    a ∈ live → pmm_free_frame a s = Some (tt, s') →
    pmm_step (s, live) (s', live ∖ {[a]}).

(** ** Lemmas *)

Lemma frames_elem s f : f ∈ frames s ↔ 0 ≤ f < NUM_FRAMES ∧ frame_used (bitmap s) f = true.
Proof.
  rewrite frames_eq. unfold frames_def.
  rewrite elem_of_list_to_set, list_elem_of_filter, elem_of_seqZ, Is_true_true. intuition lia.
Qed.

Lemma reserved_elem f : f ∈ reserved ↔ 0 ≤ f < 3072.
Proof.
  rewrite reserved_eq. unfold reserved_def. rewrite elem_of_list_to_set, elem_of_seqZ. done.
Qed.

Lemma bm_read_ok s f : bm_ok (bitmap s) → 0 ≤ f < NUM_FRAMES →
  ∃ w, bm_read (f / 32) s = Some (w, s) ∧ bitmap s !! Z.to_nat (f / 32) = Some w ∧ 0 ≤ w < 2 ^ 32.
Proof.
  intros [Hlen Hall] Hf. change NUM_FRAMES with 8192 in Hf.
  destruct (lookup_lt_is_Some_2 (bitmap s) (Z.to_nat (f / 32))) as [w Hw].
  { rewrite Hlen. pose proof (Z.div_lt_upper_bound f 32 256). lia. }
  exists w. unfold bm_read. rewrite Hw.
  split; [done|]. split; [done|]. by apply (Forall_lookup_1 _ _ _ _ Hall Hw).
Qed.

Lemma u32_shift f : u32 (Z.shiftl 1 (f `mod` 32)) = Z.shiftl 1 (f `mod` 32).
Proof.
  pose proof (Z.mod_pos_bound f 32 ltac:(lia)). unfold u32. apply Z.mod_small.
  rewrite Z.shiftl_1_l. split; [lia|]. apply (Z.pow_lt_mono_r 2 (f `mod` 32) 32); lia.
Qed.

Lemma test_frame_ok s f : bm_ok (bitmap s) → 0 ≤ f < NUM_FRAMES →
  ∃ t, test_frame f s = Some (t, s) ∧ truth t = frame_used (bitmap s) f.
Proof.
  intros Hok Hf. destruct (bm_read_ok s f Hok Hf) as (w & Hr & Hw & _).
  unfold test_frame. rewrite (M_bind_run _ _ _ _ _ Hr). eexists. split; [done|].
  unfold frame_used. rewrite Hw, u32_shift. simpl.
  apply test_bit_spec. apply Z.mod_pos_bound. lia.
Qed.

(** Two frames share a word and a bit only if they are the same frame. *)
Lemma frame_used_insert bm f g v w : bm !! Z.to_nat (f / 32) = Some w →
  0 ≤ f → 0 ≤ g →
  frame_used (<[Z.to_nat (f / 32) := v]> bm) g =
  if decide (g / 32 = f / 32) then Z.testbit v (g `mod` 32) else frame_used bm g.
Proof.
  intros Hw Hf Hg. unfold frame_used.
  assert (0 ≤ f / 32) by (apply Z.div_pos; lia).
  assert (0 ≤ g / 32) by (apply Z.div_pos; lia).
  case_decide as E.
  - rewrite E, list_lookup_insert_eq; [done|]. by eapply lookup_lt_Some.
  - rewrite list_lookup_insert_ne by lia. done.
Qed.

Lemma same_bit f g : 0 ≤ f → 0 ≤ g → g / 32 = f / 32 →
  (g `mod` 32 =? f `mod` 32) = bool_decide (g = f).
Proof.
  intros Hf Hg Hd. pose proof (Z.div_mod f 32 ltac:(lia)). pose proof (Z.div_mod g 32 ltac:(lia)).
  destruct (Z.eqb_spec (g `mod` 32) (f `mod` 32)).
  - rewrite bool_decide_eq_true_2; [done|congruence].
  - rewrite bool_decide_eq_false_2; [done|congruence].
Qed.

Lemma set_frame_ok s f : bm_ok (bitmap s) → 0 ≤ f < NUM_FRAMES →
  ∃ bm', set_frame f s = Some (tt, Pmm bm' (used_frames s)) ∧ bm_ok bm' ∧
    ∀ g, 0 ≤ g → frame_used bm' g = frame_used (bitmap s) g || bool_decide (g = f).
Proof.
  intros Hok Hf. destruct (bm_read_ok s f Hok Hf) as (w & Hr & Hw & Hrange).
  pose proof (Z.mod_pos_bound f 32 ltac:(lia)) as Hm.
  unfold set_frame. rewrite (M_bind_run _ _ _ _ _ Hr), u32_shift. unfold bm_write.
  rewrite decide_True by (by eapply lookup_lt_Some). eexists. split; [done|]. split.
  - destruct Hok as [Hlen Hall]. split; [by rewrite length_insert|].
    apply Forall_insert; [done|]. by apply set_bit_range.
  - intros g Hg. rewrite (frame_used_insert _ _ _ _ w) by lia || done. case_decide as E.
    + rewrite set_bit_spec, same_bit by (try apply Z.mod_pos_bound; lia).
      unfold frame_used. by rewrite E, Hw.
    + rewrite bool_decide_eq_false_2 by (by intros ->). by rewrite orb_false_r.
Qed.

Lemma clear_frame_ok s f : bm_ok (bitmap s) → 0 ≤ f < NUM_FRAMES →
  ∃ bm', clear_frame f s = Some (tt, Pmm bm' (used_frames s)) ∧ bm_ok bm' ∧
    ∀ g, 0 ≤ g → frame_used bm' g = frame_used (bitmap s) g && negb (bool_decide (g = f)).
Proof.
  intros Hok Hf. destruct (bm_read_ok s f Hok Hf) as (w & Hr & Hw & Hrange).
  pose proof (Z.mod_pos_bound f 32 ltac:(lia)) as Hm.
  unfold clear_frame. rewrite (M_bind_run _ _ _ _ _ Hr), u32_shift. unfold bm_write, u32.
  rewrite (land_trunc 32) by lia.
  rewrite decide_True by (by eapply lookup_lt_Some). eexists. split; [done|]. split.
  - destruct Hok as [Hlen Hall]. split; [by rewrite length_insert|].
    apply Forall_insert; [done|]. by apply clear_bit_range.
  - intros g Hg. rewrite (frame_used_insert _ _ _ _ w) by lia || done. case_decide as E.
    + rewrite clear_bit_spec, same_bit by (try apply Z.mod_pos_bound; lia).
      unfold frame_used. by rewrite E, Hw.
    + rewrite bool_decide_eq_false_2 by (by intros ->). by rewrite andb_true_r.
Qed.

Lemma frames_insert s bm' n f : 0 ≤ f < NUM_FRAMES →
  (∀ g, 0 ≤ g → frame_used bm' g = frame_used (bitmap s) g || bool_decide (g = f)) →
  frames (Pmm bm' n) = {[f]} ∪ frames s.
Proof.
  intros Hf Hbit. apply set_eq. intros g.
  rewrite elem_of_union, elem_of_singleton, !frames_elem. simpl.
  destruct (decide (0 ≤ g)) as [Hg|]; [|lia].
  rewrite Hbit, orb_true_iff, bool_decide_eq_true by lia. intuition (subst; auto).
Qed.

Lemma frames_delete s bm' n f : 0 ≤ f < NUM_FRAMES →
  (∀ g, 0 ≤ g → frame_used bm' g = frame_used (bitmap s) g && negb (bool_decide (g = f))) →
  frames (Pmm bm' n) = frames s ∖ {[f]}.
Proof.
  intros Hf Hbit. apply set_eq. intros g.
  rewrite elem_of_difference, elem_of_singleton, !frames_elem. simpl.
  destruct (decide (0 ≤ g)) as [Hg|]; [|lia].
  rewrite Hbit, andb_true_iff, negb_true_iff, bool_decide_eq_false by lia.
  intuition (subst; auto).
Qed.

Lemma frames_size s : Z.of_nat (size (frames s)) ≤ NUM_FRAMES.
Proof.
  rewrite frames_eq. unfold frames_def. rewrite size_list_to_set by (apply NoDup_filter, NoDup_seqZ).
  pose proof (length_filter (λ f, frame_used (bitmap s) f) (seqZ 0 NUM_FRAMES)) as H.
  rewrite length_seqZ in H. change NUM_FRAMES with 8192 in *. lia.
Qed.

(** Marking an unused frame and counting it keeps the state well formed. *)
Lemma take_frame_ok s f : pmm_ok s → 0 ≤ f < NUM_FRAMES → f ∉ frames s →
  ∃ s', (_ ← set_frame f; used_add 1) s = Some (tt, s') ∧ pmm_ok s' ∧
        frames s' = {[f]} ∪ frames s.
Proof.
  intros [Hbm Hcnt] Hf Hfree.
  destruct (set_frame_ok s f Hbm Hf) as (bm' & Hset & Hbm' & Hbit).
  rewrite (M_bind_run _ _ _ _ _ Hset). eexists. split; [done|]. simpl.
  pose proof (frames_insert s bm' (u32 (used_frames s + 1)) f Hf Hbit) as HF.
  split; [|done]. split; [done|]. rewrite HF. simpl.
  rewrite size_union, size_singleton by set_solver.
  pose proof (frames_size (Pmm bm' 0)) as Hmax.
  rewrite (frames_insert s bm' 0 f Hf Hbit), size_union, size_singleton in Hmax by set_solver.
  change NUM_FRAMES with 8192 in Hmax. rewrite Hcnt. unfold u32. rewrite Z.mod_small; lia.
Qed.

Lemma pmm_alloc_ok s : pmm_ok s →
  ∃ r s', pmm_alloc_frame s = Some (r, s') ∧ pmm_ok s' ∧ alloc_spec (frames s) r (frames s').
Proof.
  intros Hok. unfold pmm_alloc_frame.
  edestruct (for_ret_rule (λ j t, t = s ∧ ∀ g, 0 ≤ g < j → g ∈ frames s)
    (λ r t, pmm_ok t ∧ ∃ f, 0 ≤ f < NUM_FRAMES ∧ (f ∉ frames s) ∧
       (∀ g, 0 ≤ g < f → g ∈ frames s) ∧ r = f * FRAME_SIZE ∧ frames t = {[f]} ∪ frames s))
    as (r & s' & Hrun & Hpost); [| |rewrite (M_bind_run _ _ _ _ _ Hrun); clear Hrun].
  - intros j t Hj [-> Hbelow].
    assert (0 ≤ j < NUM_FRAMES) as Hj' by (change NUM_FRAMES with 8192 in *; lia).
    destruct (test_frame_ok s j) as (b & Htest & Hb); [apply Hok|done|].
    rewrite (M_bind_run _ _ _ _ _ Htest), Hb. destruct (frame_used (bitmap s) j) eqn:E.
    + eexists _, _. split; [done|]. split; [done|]. intros g Hg.
      destruct (decide (g = j)) as [->|]; [apply frames_elem; by split|apply Hbelow; lia].
    + assert (j ∉ frames s) as Hfree by (rewrite frames_elem; intros [_ ?]; congruence).
      destruct (take_frame_ok s j Hok ltac:(done) Hfree) as (s' & Hrun & Hok' & HF).
      apply M_bind_Some in Hrun as ([] & s1 & Hs & Hu).
      rewrite (M_bind_run _ _ _ _ _ Hs), (M_bind_run _ _ _ _ _ Hu).
      eexists _, _. split; [done|]. simpl. split; [done|]. exists j. split; [done|]. split; [done|]. split; [done|]. split; [|done].
      change NUM_FRAMES with 8192 in Hj'. unfold u32, FRAME_SIZE. rewrite Z.mod_small; lia.
  - split; [done|]. intros; lia.
  - eexists _, s'. split; [done|]. destruct r as [v|]; simpl.
    + destruct Hpost as [? (f & ?)]. split; [done|]. left. exists f. naive_solver.
    + destruct Hpost as [-> Hall]. split; [done|]. right. done.
Qed.

Lemma pmm_free_ok s addr : pmm_ok s → 0 ≤ addr →
  ∃ s', pmm_free_frame addr s = Some (tt, s') ∧ pmm_ok s' ∧ free_spec (frames s) addr (frames s').
Proof.
  intros Hok Ha. unfold pmm_free_frame, free_spec.
  assert (0 ≤ addr / FRAME_SIZE) as Hf0 by (apply Z.div_pos; unfold FRAME_SIZE; lia).
  destruct (Z.leb_spec NUM_FRAMES (addr / FRAME_SIZE)) as [Hge|Hlt].
  { exists s. split; [done|]. split; [done|].
    assert (addr / FRAME_SIZE ∉ frames s) by (rewrite frames_elem; lia). set_solver. }
  set (f := addr / FRAME_SIZE) in *.
  destruct (test_frame_ok s f) as (b & Htest & Hb); [apply Hok|lia|].
  rewrite (M_bind_run _ _ _ _ _ Htest), Hb. destruct (frame_used (bitmap s) f) eqn:E.
  - destruct Hok as [Hbm Hcnt]. destruct (clear_frame_ok s f Hbm ltac:(lia)) as (bm' & Hc & Hbm' & Hbit).
    rewrite (M_bind_run _ _ _ _ _ Hc). eexists. split; [done|]. simpl.
    pose proof (frames_delete s bm' (u32 (used_frames s + -1)) f ltac:(lia) Hbit) as HF.
    split; [|done]. split; [done|]. rewrite HF. simpl.
    assert (f ∈ frames s) by (by apply frames_elem).
    rewrite size_difference, size_singleton by set_solver.
    pose proof (frames_size s). assert (size (frames s) ≠ 0%nat).
    { intros Hz%size_empty_inv. set_solver. }
    rewrite Hcnt. change NUM_FRAMES with 8192 in *. unfold u32. rewrite Z.mod_small; lia.
  - exists s. split; [done|]. split; [done|].
    assert (f ∉ frames s) by (rewrite frames_elem; intros [_ ?]; congruence). set_solver.
Qed.

Lemma frames_zero bm n : Forall (λ w, w = 0) bm → frames (Pmm bm n) = ∅.
Proof.
  intros Hz. apply set_eq. intros g. rewrite frames_elem. simpl. unfold frame_used.
  destruct (bm !! Z.to_nat (g / 32)) as [w|] eqn:E; simpl.
  - rewrite (Forall_lookup_1 _ _ _ _ Hz E), Z.bits_0. set_solver.
  - rewrite Z.bits_0. set_solver.
Qed.

Lemma clear_bitmap_ok s : length (bitmap s) = 256%nat →
  ∃ r s', for_ret (R:=unit) 256 0 (λ i, _ ← bm_write i 0; mret None) s = Some (r, s') ∧
    length (bitmap s') = 256%nat ∧ Forall (λ w, w = 0) (bitmap s').
Proof.
  intros Hlen.
  destruct (for_ret_rule (R:=unit) (λ j t, length (bitmap t) = 256%nat ∧
      ∀ i w, (Z.of_nat i < j) → bitmap t !! i = Some w → w = 0) (λ _ _, False)
      (λ i, _ ← bm_write i 0; mret None) 256 0 s) as (r & s' & Hrun & Hpost).
  - intros j t Hj [Hl Hz]. unfold bm_write, mbind, M_bind.
    rewrite decide_True by lia. eexists None, _. split; [done|]. simpl.
    split; [by rewrite length_insert|]. intros i w Hi.
    rewrite list_lookup_insert_Some. intros [(<- & <- & _)|[Hne Hw]]; [done|].
    apply (Hz i); [lia|done].
  - split; [done|]. intros; lia.
  - exists r, s'. split; [done|]. destruct r; [done|]. destruct Hpost as [Hl Hz].
    split; [done|]. apply Forall_lookup. intros i w Hw. apply (Hz i); [|done].
    apply lookup_lt_Some in Hw. lia.
Qed.

Lemma pmm_init_run s : length (bitmap s) = 256%nat →
  ∃ s', pmm_init s = Some (tt, s') ∧ pmm_ok s' ∧ frames s' = reserved.
Proof.
  intros Hlen. destruct (clear_bitmap_ok s Hlen) as (r & s1 & H1 & Hl1 & Hz1).
  unfold pmm_init. change (Z.to_nat (NUM_FRAMES / 32)) with 256%nat.
  rewrite (M_bind_run _ _ _ _ _ H1). clear H1. unfold modify at 1. unfold mbind at 1, M_bind at 1. cbv zeta.
  destruct (for_ret_rule (R:=unit) (λ j t, pmm_ok t ∧ ∀ g, g ∈ frames t ↔ 0 ≤ g < j) (λ _ _, False)
      (λ i, _ ← set_frame i; _ ← used_add 1; mret None)
      (Z.to_nat (PMM_RESERVED_END / FRAME_SIZE)) 0 (Pmm (bitmap s1) 0)) as (r2 & s2 & H2 & Hpost).
  - intros j t Hj [Hok HF]. change (PMM_RESERVED_END / FRAME_SIZE) with 3072 in Hj.
    destruct (take_frame_ok t j Hok) as (t' & Hrun & Hok' & HF').
    { change NUM_FRAMES with 8192. lia. }
    { rewrite HF. lia. }
    apply M_bind_Some in Hrun as ([] & s3 & Hs & Hu).
    rewrite (M_bind_run _ _ _ _ _ Hs), (M_bind_run _ _ _ _ _ Hu).
    eexists None, t'. split; [done|]. split; [done|].
    intros g. rewrite HF', elem_of_union, elem_of_singleton, HF. lia.
  - split; [split; [|by rewrite (frames_zero _ 0 Hz1)]|].
    2: { intros g. rewrite (frames_zero _ 0 Hz1). set_solver by lia. }
    split; [done|]. eapply Forall_impl; [exact Hz1|]. simpl. lia.
  - rewrite (M_bind_run _ _ _ _ _ H2). destruct r2; [done|].
    exists s2. split; [done|]. split; [apply Hpost|].
    apply set_eq. intros g. rewrite (proj2 Hpost), reserved_elem. done.
Qed.

(** ** Client histories *)

Definition held_frames (live : gset Z) : gset Z := set_map (λ a, a / FRAME_SIZE) live.

Definition client_inv (c : pmm * gset Z) : Prop :=
  pmm_ok c.1 ∧ frames c.1 = reserved ∪ held_frames c.2 ∧
  ∀ a, a ∈ c.2 → PMM_RESERVED_END ≤ a < PHYS_MEM_SIZE ∧ a `mod` FRAME_SIZE = 0.


(** An address handed out is a frame outside the reserved area that no
    holder has. *)
Lemma alloc_fresh s live r U' : client_inv (s, live) → alloc_spec (frames s) r U' → r ≠ 0 →
  (r ∉ live) ∧ PMM_RESERVED_END ≤ r < PHYS_MEM_SIZE ∧ r `mod` FRAME_SIZE = 0 ∧
  U' = {[r / FRAME_SIZE]} ∪ frames s.
Proof.
  intros (_ & HF & _) [(f & Hf & Hfree & _ & -> & ->)|(_ & -> & _)] Hr; [|done]. simpl in HF.
  assert (f * FRAME_SIZE / FRAME_SIZE = f) as Hdiv by (apply Z.div_mul; done).
  rewrite Hdiv. split_and!; try done.
  - intros Hl. apply Hfree. rewrite HF. apply elem_of_union_r. unfold held_frames.
    apply elem_of_map. by exists (f * FRAME_SIZE).
  - assert (3072 ≤ f); [|unfold PMM_RESERVED_END, FRAME_SIZE; lia].
    destruct (decide (3072 ≤ f)) as [|Hlt]; [done|]. exfalso. apply Hfree. rewrite HF.
    apply elem_of_union_l, reserved_elem. lia.
  - change NUM_FRAMES with 8192 in Hf. unfold PHYS_MEM_SIZE, FRAME_SIZE. lia.
  - apply Z.mod_mul. done.
Qed.

Lemma held_frames_insert r live : held_frames ({[r]} ∪ live) = {[r / FRAME_SIZE]} ∪ held_frames live.
Proof. unfold held_frames. by rewrite set_map_union_L, set_map_singleton_L. Qed.

Lemma aligned_eq a b : a `mod` FRAME_SIZE = 0 → b `mod` FRAME_SIZE = 0 →
  a / FRAME_SIZE = b / FRAME_SIZE → a = b.
Proof.
  intros Ha Hb Hd. rewrite (Z.div_mod a FRAME_SIZE), (Z.div_mod b FRAME_SIZE) by done. congruence.
Qed.

Lemma held_frames_delete a live :
  (∀ b, b ∈ live → PMM_RESERVED_END ≤ b < PHYS_MEM_SIZE ∧ b `mod` FRAME_SIZE = 0) → a ∈ live →
  (reserved ∪ held_frames live) ∖ {[a / FRAME_SIZE]} = reserved ∪ held_frames (live ∖ {[a]}).
Proof.
  intros Hl Ha. apply set_eq. intros f. unfold held_frames.
  rewrite elem_of_difference, !elem_of_union, elem_of_singleton, reserved_elem, !elem_of_map.
  setoid_rewrite elem_of_difference. setoid_rewrite elem_of_singleton.
  assert (¬ 0 ≤ a / FRAME_SIZE < 3072) as Hna.
  { destruct (Hl a Ha) as [Hra _]. unfold FRAME_SIZE, PMM_RESERVED_END in *.
    pose proof (Z.div_le_lower_bound a 4096 3072). lia. }
  split.
  - intros [[Hr|(b & -> & Hb)] Hne]; [by left|right]. exists b. naive_solver.
  - intros [Hr|(b & -> & Hb & Hne)].
    + split; [by left|]. by intros ->.
    + split; [right; by exists b|]. intros E. apply Hne. apply aligned_eq; [apply Hl..|done]; done.
Qed.

Lemma client_inv_step c c' : client_inv c → pmm_step c c' → client_inv c'.
Proof.
  intros Hinv Hstep. revert Hinv.
  destruct Hstep as [s r s' live Hrun Hr|s s' live Hrun|s a s' live Ha Hrun];
    intros Hinv; pose proof Hinv as (Hok & HF & Hl); simpl in *.
  - destruct (pmm_alloc_ok s Hok) as (r0 & s0 & Hrun' & Hok' & Hspec). simplify_eq.
    destruct (alloc_fresh s live r _ Hinv Hspec Hr) as (_ & Hrange & Hal & HU).
    split; [done|]. simpl. split; [rewrite HU, HF, held_frames_insert; set_solver|].
    intros b [->%elem_of_singleton|Hb]%elem_of_union; [done|by apply Hl].
  - destruct (pmm_alloc_ok s Hok) as (r0 & s0 & Hrun' & Hok' & Hspec). simplify_eq.
    split; [done|]. simpl. split; [|done].
    destruct Hspec as [(f & Hf & Hfree & _ & E & _)|(_ & _ & ->)]; [|done].
    exfalso. apply Hfree. rewrite HF. apply elem_of_union_l, reserved_elem.
    unfold FRAME_SIZE in E. lia.
  - destruct (pmm_free_ok s a Hok) as (s0 & Hrun' & Hok' & Hspec).
    { unfold PMM_RESERVED_END in Hl. specialize (Hl a Ha). lia. }
    simplify_eq. split; [done|]. simpl. split.
    + unfold free_spec in Hspec. rewrite Hspec, HF. by apply held_frames_delete.
    + intros b Hb. apply Hl. set_solver.
Qed.

Lemma client_inv_reach c c' : rtc pmm_step c c' → client_inv c → client_inv c'.
Proof. induction 1; eauto using client_inv_step. Qed.

(** ** Properties *)

(** The frame allocator returns the lowest unused frame and marks it used, or 0
    with the state unchanged when every frame is used; the call always ends
    and keeps the counter equal to the number of used frames. *)
Theorem pmm_alloc_refines s (Hok : pmm_ok s) :
  ∃ r s', pmm_alloc_frame s = Some (r, s') ∧ pmm_ok s' ∧ alloc_spec (frames s) r (frames s').
Proof. by apply pmm_alloc_ok. Qed.

Definition pmm_boot : pmm := Pmm (replicate 256 0) 0.

Lemma pmm_boot_ok : pmm_ok pmm_boot.
Proof.
  assert (Forall (λ w, w = 0) (bitmap pmm_boot)) as Hz by (by apply Forall_replicate).
  split; [|unfold pmm_boot; by rewrite frames_zero]. split; [done|].
  eapply Forall_impl; [exact Hz|]. simpl. lia.
Qed.

Lemma pmm_alloc_refines_witness :
  ∃ r s', pmm_alloc_frame pmm_boot = Some (r, s') ∧ pmm_ok s' ∧
          alloc_spec (frames pmm_boot) r (frames s').
Proof. apply (pmm_alloc_refines pmm_boot pmm_boot_ok). Defined.

(** C38. From [pmm_init] on, whatever frames a client takes and gives back, a
    successful allocation is a page-aligned address above the reserved 12 MB
    and below the end of RAM that nobody holds. *)
Theorem pmm_exclusive s0 s1 s live r s' :
  length (bitmap s0) = 256%nat → pmm_init s0 = Some (tt, s1) →
  rtc pmm_step (s1, ∅) (s, live) →
  pmm_alloc_frame s = Some (r, s') → r ≠ 0 →
  (r ∉ live) ∧ PMM_RESERVED_END ≤ r < PHYS_MEM_SIZE ∧ r `mod` FRAME_SIZE = 0.
Proof.
  intros Hlen Hinit Hreach Hrun Hr.
  destruct (pmm_init_run s0 Hlen) as (s1' & Hinit' & Hok & HF). simplify_eq.
  assert (client_inv (s, live)) as Hinv.
  { eapply client_inv_reach; [done|]. split; [done|]. simpl. split; [|set_solver].
    rewrite HF. unfold held_frames. set_solver. }
  destruct (pmm_alloc_ok s (proj1 Hinv)) as (r0 & s2 & Hrun' & _ & Hspec). simplify_eq.
  destruct (alloc_fresh s live r _ Hinv Hspec Hr) as (? & ? & ? & _). done.
Qed.

(** A boot followed by one allocation. *)
Definition pmm_booted : pmm := default pmm_boot (snd <$> pmm_init pmm_boot).

Lemma pmm_exclusive_witness :
  ∃ r s', pmm_alloc_frame pmm_booted = Some (r, s') ∧
    PMM_RESERVED_END ≤ r < PHYS_MEM_SIZE ∧ r `mod` FRAME_SIZE = 0.
Proof.
  eexists 12582912, _. split; [vm_compute; reflexivity|].
  apply (pmm_exclusive pmm_boot pmm_booted pmm_booted ∅ 12582912
    (default pmm_boot (snd <$> pmm_alloc_frame pmm_booted))).
  - reflexivity.
  - vm_compute. reflexivity.
  - apply rtc_refl.
  - vm_compute. reflexivity.
  - done.
Defined.
