(* ===== verification/Kheap.v ===== *)
(** * The kernel heap (mem/kheap.c, mem/kheap.h)

    State: the block headers in memory, by address, and the list head.  The
    abstract view is the sequence of blocks from [HEAP_START] up, each a
    payload size and a free flag ([lay] reads it off the headers); allocation
    and release are specified on it by [first_fit] and [merge]. *)

From S2P Require Import Prelude.

Definition HEAP_START : Z := 4194304.
Definition HEAP_SIZE : Z := 4194304.
Definition HEAP_END : Z := HEAP_START + HEAP_SIZE.

(** [header_t]; [HDR] is its size on the 32-bit target. *)
Record header := Header { size : Z; free : Z; next : Z }.
Definition HDR : Z := 12.
Definition ALIGN8 (x : Z) : Z := Z.land (u32 (x + 7)) (u32 (Z.lnot 7)).

Record kheap := Kheap { heap_head : Z; hdrs : gmap Z header }.

(** Reading a header where none was ever written has no defined behaviour. *)
Definition load (p : Z) : M kheap header := λ s, (λ h, (h, s)) <$> (hdrs s !! p).
Definition store (p : Z) (h : header) : M kheap unit :=
  modify (λ s, Kheap (heap_head s) (<[p := h]> (hdrs s))).
Definition set_free (p v : Z) : M kheap unit :=
  h ← load p; store p (Header (size h) v (next h)).

(** Loop fuel: one more than the number of headers. *)
Definition fuel : M kheap nat := gets (λ s, S (base.size (hdrs s))).

Definition kheap_init : M kheap unit :=
  _ ← modify (λ s, Kheap HEAP_START (hdrs s));
  p ← gets heap_head;
  store p (Header (u32 (HEAP_SIZE - HDR)) 1 0).

Fixpoint kmalloc_loop (n : nat) (cur sz : Z) : M kheap Z :=
  match n with
  | O => fault
  | S n' =>
    if negb (truth cur) then mret 0
    else
      h ← load cur;
      if negb (truth (free h)) || (size h <? sz) then kmalloc_loop n' (next h) sz
      else
        _ ← (if u32 (sz + HDR + 8) <=? size h then
               let nb := u32 (cur + HDR + sz) in
               _ ← store nb (Header (u32 (size h - sz - HDR)) 1 (next h));
               store cur (Header sz (free h) nb)
             else mret tt);
        _ ← set_free cur 0;
        mret (u32 (cur + HDR))
  end.

Definition kmalloc (sz : Z) : M kheap Z :=
  if sz =? 0 then mret 0
  else
    let sz := ALIGN8 sz in
    n ← fuel;
    head ← gets heap_head;
    kmalloc_loop n head sz.

(** The inner loop of [kfree]: absorb free successors of [cur]. *)
Fixpoint absorb_loop (n : nat) (cur : Z) : M kheap unit :=
  match n with
  | O => fault
  | S n' =>
    h ← load cur;
    if negb (truth (free h)) || negb (truth (next h)) then mret tt
    else
      h2 ← load (next h);
      if negb (truth (free h2)) then mret tt
      else
        _ ← store cur (Header (u32 (size h + u32 (HDR + size h2))) (free h) (next h));
        h3 ← load (next h);
        _ ← store cur (Header (u32 (size h + u32 (HDR + size h2))) (free h) (next h3));
        absorb_loop n' cur
  end.

Fixpoint coalesce_loop (n : nat) (cur : Z) : M kheap unit :=
  match n with
  | O => fault
  | S n' =>
    if negb (truth cur) then mret tt
    else
      k ← fuel;
      _ ← absorb_loop k cur;
      h ← load cur;
      coalesce_loop n' (next h)
  end.

Definition kfree (ptr : Z) : M kheap unit :=
  if negb (truth ptr) then mret tt
  else
    _ ← set_free (u32 (ptr - HDR)) 1;
    n ← fuel;
    head ← gets heap_head;
    coalesce_loop n head.

(** [kheap_used] and [kheap_free]: the sum of the sizes of the blocks whose
    free flag is (respectively is not) zero. *)
Fixpoint sum_loop (n : nat) (want : bool) (cur acc : Z) : M kheap Z :=
  match n with
  | O => fault
  | S n' =>
    if negb (truth cur) then mret acc
    else
      h ← load cur;
      sum_loop n' want (next h)
        (if Bool.eqb (truth (free h)) want then u32 (acc + size h) else acc)
  end.

Definition kheap_used : M kheap Z := n ← fuel; head ← gets heap_head; sum_loop n false head 0.
Definition kheap_free : M kheap Z := n ← fuel; head ← gets heap_head; sum_loop n true head 0.

(** ** The abstract view: consecutive blocks *)

Abbreviation seg := (Z * bool)%type.

(** The headers from [a] on describe exactly the blocks [segs], which fill
    the heap up to its end. *)
Fixpoint lay (m : gmap Z header) (a : Z) (segs : list seg) : Prop :=
  match segs with
  | [] => a = HEAP_END
  | (sz, fr) :: rest =>
      0 ≤ sz ∧
      m !! a = Some (Header sz (Z.b2z fr)
                       (match rest with [] => 0 | _ => a + HDR + sz end)) ∧
      lay m (a + HDR + sz) rest
  end.

(** No two neighbours are both free. *)
Fixpoint coalesced (segs : list seg) : Prop :=
  match segs with
  | (_, fr1) :: (((_, fr2) :: _) as rest) => fr1 && fr2 = false ∧ coalesced rest
  | _ => True
  end.

Definition heap_ok (s : kheap) (segs : list seg) : Prop :=
  heap_head s = HEAP_START ∧ segs ≠ [] ∧ lay (hdrs s) HEAP_START segs ∧ coalesced segs.

Fixpoint first_fit (sz a : Z) (segs : list seg) : option (Z * list seg) :=
  match segs with
  | [] => None
  | (bsz, fr) :: rest =>
      if fr && (sz <=? bsz)
      then Some (a + HDR, if sz + HDR + 8 <=? bsz
                          then (sz, false) :: (bsz - sz - HDR, true) :: rest
                          else (bsz, false) :: rest)
      else (λ r, (r.1, (bsz, fr) :: r.2)) <$> first_fit sz (a + HDR + bsz) rest
  end.

Fixpoint merge_from (sz : Z) (fr : bool) (rest : list seg) : list seg :=
  match rest with
  | [] => [(sz, fr)]
  | (sz2, fr2) :: rest2 =>
      if fr && fr2 then merge_from (sz + HDR + sz2) true rest2
      else (sz, fr) :: merge_from sz2 fr2 rest2
  end.

Definition merge (segs : list seg) : list seg :=
  match segs with [] => [] | (sz, fr) :: rest => merge_from sz fr rest end.

(** Payload address and size of the blocks in use. *)
Fixpoint allocs (a : Z) (segs : list seg) : list (Z * Z) :=
  match segs with
  | [] => []
  | (sz, fr) :: rest =>
      (if fr then [] else [(a + HDR, sz)]) ++ allocs (a + HDR + sz) rest
  end.

(** Release the block whose payload is at [p]. *)
Fixpoint release (p a : Z) (segs : list seg) : list seg :=
  match segs with
  | [] => []
  | (sz, fr) :: rest =>
      if a + HDR =? p then (sz, true) :: rest
      else (sz, fr) :: release p (a + HDR + sz) rest
  end.

(** Sum of the payload sizes of the blocks with the given free flag. *)
Definition total (want : bool) (segs : list seg) : Z :=
  foldr (λ b acc, (if Bool.eqb b.2 want then b.1 else 0) + acc) 0 segs.

(** ** Layout lemmas *)

Lemma lay_end m a segs : lay m a segs → a ≤ HEAP_END.
Proof.
  revert a. induction segs as [|[sz fr] rest IH]; intros a; simpl; [lia|].
  intros (Hsz & _ & Hrest). apply IH in Hrest. unfold HDR in *. lia.
Qed.

Lemma lay_bound m a sz fr rest : lay m a ((sz, fr) :: rest) → 0 ≤ sz ∧ a + HDR + sz ≤ HEAP_END.
Proof. intros (Hsz & _ & Hrest). apply lay_end in Hrest. lia. Qed.

(** The layout from [a] on depends only on the headers at [a] and above. *)
Lemma lay_frame m m' a segs : (∀ k, a ≤ k → m' !! k = m !! k) → lay m a segs → lay m' a segs.
Proof.
  revert a. induction segs as [|[sz fr] rest IH]; intros a Hm; simpl; [done|].
  intros (Hsz & Hh & Hrest). split; [done|]. split; [rewrite Hm; [done|lia]|].
  apply IH; [|done]. intros k Hk. apply Hm. unfold HDR in *. lia.
Qed.

Lemma lay_insert m a segs p h : p < a → lay m a segs → lay (<[p := h]> m) a segs.
Proof. intros Hp. apply lay_frame. intros k Hk. rewrite lookup_insert_ne; [done|lia]. Qed.

Fixpoint addrs (a : Z) (segs : list seg) : list Z :=
  match segs with [] => [] | (sz, _) :: rest => a :: addrs (a + HDR + sz) rest end.

Lemma addrs_above m a segs p : lay m a segs → p ∈ addrs a segs → a ≤ p.
Proof.
  revert a. induction segs as [|[sz fr] rest IH]; intros a; simpl; [set_solver|].
  intros (Hsz & _ & Hrest) [->|Hp]%elem_of_cons; [lia|].
  apply IH in Hp; [|done]. unfold HDR in *. lia.
Qed.

Lemma addrs_NoDup m a segs : lay m a segs → NoDup (addrs a segs).
Proof.
  revert a. induction segs as [|[sz fr] rest IH]; intros a; simpl; [constructor|].
  intros (Hsz & _ & Hrest). constructor; [|by apply IH].
  intros Hp. eapply addrs_above in Hp; [|done]. unfold HDR in *. lia.
Qed.

Lemma addrs_dom m a segs : lay m a segs → ∀ p, p ∈ addrs a segs → p ∈ dom m.
Proof.
  revert a. induction segs as [|[sz fr] rest IH]; intros a; simpl; [set_solver|].
  intros (Hsz & Hh & Hrest) p [->|Hp]%elem_of_cons; [by apply elem_of_dom|eauto].
Qed.

(** There are at least as many headers as blocks: the fuel of every loop. *)
Lemma lay_length m a segs : lay m a segs → (length segs ≤ base.size m)%nat.
Proof.
  intros Hlay. assert (length segs = length (addrs a segs)) as ->.
  { clear Hlay. revert a. induction segs as [|[sz fr] rest IH]; intros a; simpl; [done|]. by rewrite <-IH. }
  rewrite <-size_dom, <-(size_list_to_set (C:=gset Z)) by (by eapply addrs_NoDup).
  apply subseteq_size. intros p. rewrite elem_of_list_to_set. by eapply addrs_dom.
Qed.

Lemma truth_pos a : HEAP_START ≤ a → truth a = true.
Proof. unfold truth, HEAP_START. intros. by destruct (Z.eqb_spec a 0); [lia|]. Qed.

Lemma load_run s p h : hdrs s !! p = Some h → load p s = Some (h, s).
Proof. unfold load. by intros ->. Qed.

Lemma bind_store {B} p h (k : unit → M kheap B) s :
  (store p h ≫= k) s = k tt (Kheap (heap_head s) (<[p := h]> (hdrs s))).
Proof. done. Qed.

Lemma set_free_run s p v h : hdrs s !! p = Some h →
  set_free p v s = Some (tt, Kheap (heap_head s) (<[p := Header (size h) v (next h)]> (hdrs s))).
Proof. intros H%load_run. unfold set_free, store. by mrun. Qed.

(** A block in use lies after its header and inside the heap. *)
Lemma allocs_range m a segs p sz : lay m a segs → (p, sz) ∈ allocs a segs →
  a + HDR ≤ p ∧ 0 ≤ sz ∧ p + sz ≤ HEAP_END.
Proof.
  revert a. induction segs as [|[bsz fr] rest IH]; intros a Hlay; simpl; [set_solver|].
  pose proof (lay_bound _ _ _ _ _ Hlay). destruct Hlay as (? & _ & Hl).
  intros [Hin|Hin]%elem_of_app; [destruct fr; set_solver by lia|].
  apply IH in Hin; [unfold HDR in *; lia|done].
Qed.

(** ** Allocation *)

Lemma first_fit_cons sz a segs r segs' :
  first_fit sz a segs = Some (r, segs') → ∃ b l, segs' = b :: l.
Proof.
  destruct segs as [|[bsz fr] rest]; simpl; [done|]. repeat case_match; try naive_solver.
  destruct (first_fit _ _ _) as [[]|]; naive_solver.
Qed.

Lemma kmalloc_loop_ok n a segs s sz :
  HEAP_START ≤ a → lay (hdrs s) a segs → (length segs < n)%nat → 0 ≤ sz →
  match first_fit sz a segs with
  | None => kmalloc_loop n (match segs with [] => 0 | _ => a end) sz s = Some (0, s)
  | Some (r, segs') => ∃ s', kmalloc_loop n a sz s = Some (r, s') ∧
      heap_head s' = heap_head s ∧ lay (hdrs s') a segs' ∧
      ∀ k, k < a → hdrs s' !! k = hdrs s !! k
  end.
Proof.
  revert a segs s. induction n as [|n IH]; intros a segs s Ha Hlay Hn Hsz; [lia|].
  destruct segs as [|[bsz fr] rest]; [done|].
  pose proof (lay_bound _ _ _ _ _ Hlay) as Hb.
  destruct Hlay as (Hbsz & Hh & Hrest). unfold HEAP_END, HEAP_START, HEAP_SIZE, HDR in Hb, Ha.
  pose proof (load_run _ _ _ Hh) as Hload.
  simpl. rewrite truth_pos by done. simpl.
  destruct (fr && (sz <=? bsz)) eqn:Efit.
  - apply andb_true_iff in Efit as [-> Hle%Z.leb_le]. mrun. cbn [free size next].
    rewrite (u32_small (sz + HDR + 8)), (u32_small (a + HDR + sz)),
      (u32_small (a + HDR)), (proj2 (Z.ltb_ge _ _)) by (unfold HDR; lia). simpl.
    destruct (Z.leb_spec (sz + HDR + 8) bsz) as [Hsplit|Hsplit]; unfold store; mrun.
    + rewrite (u32_small (bsz - sz - HDR)) by (unfold HDR in *; lia). simpl.
      erewrite M_bind_run by (apply set_free_run; simpl; apply lookup_insert_eq).
      eexists. split; [done|]. simpl. split; [done|].
      unfold HDR in *. rewrite insert_insert_eq. split.
      * split; [done|]. split; [by rewrite lookup_insert_eq|].
        rewrite lookup_insert_ne, lookup_insert_eq by lia. split; [lia|].
        split; [destruct rest; [done|do 2 f_equal; lia]|].
        replace (a + 12 + sz + 12 + (bsz - sz - 12)) with (a + 12 + bsz) by lia.
        apply lay_insert; [lia|]. apply lay_insert; [lia|done].
      * intros k Hk. by rewrite !lookup_insert_ne by lia.
    + erewrite M_bind_run by (by apply set_free_run).
      eexists. split; [done|]. simpl. split; [done|]. split.
      * split; [done|]. rewrite lookup_insert_eq. split; [done|]. apply lay_insert; [unfold HDR; lia|done].
      * intros k Hk. by rewrite lookup_insert_ne by lia.
  - mrun. cbn [free size next].
    assert (negb (truth (Z.b2z fr)) || (bsz <? sz) = true) as ->.
    { rewrite truth_b2z. destruct fr; [|done]. simpl in *. by apply Z.ltb_lt, Z.leb_gt. }
    specialize (IH (a + HDR + bsz) rest s). unfold HEAP_START in IH.
    specialize (IH ltac:(unfold HDR; lia) Hrest ltac:(simpl in Hn; lia) Hsz).
    destruct (first_fit sz (a + HDR + bsz) rest) as [[r segs']|] eqn:Eff; simpl; [|by destruct rest].
    destruct rest as [|b rest]; [done|]. destruct IH as (s' & Hrun & Hhd & Hlay' & Hfr).
    exists s'. split; [done|]. split; [done|]. unfold HDR in *. split; [|intros k Hk; apply Hfr; lia].
    split; [done|]. split; [|done]. rewrite Hfr, Hh by lia.
    apply first_fit_cons in Eff as (b' & l & ->). done.
Qed.

(** ** Release *)

Lemma merge_from_cons sz fr rest : ∃ b l, merge_from sz fr rest = b :: l.
Proof.
  revert sz fr. induction rest as [|[sz2 fr2] rest IH]; intros sz fr; simpl; [eauto|].
  case_match; eauto.
Qed.

Lemma absorb_loop_ok n a sz fr rest s :
  HEAP_START ≤ a → lay (hdrs s) a ((sz, fr) :: rest) → (length rest < n)%nat →
  ∃ s' sz' rest', absorb_loop n a s = Some (tt, s') ∧ heap_head s' = heap_head s ∧
    lay (hdrs s') a ((sz', fr) :: rest') ∧ merge_from sz fr rest = (sz', fr) :: merge rest' ∧
    (length rest' ≤ length rest)%nat ∧ ∀ k, k < a → hdrs s' !! k = hdrs s !! k.
Proof.
  revert sz rest s. induction n as [|n IH]; intros sz rest s Ha Hlay Hn; [lia|].
  pose proof Hlay as (Hsz & Hh & Hrest). pose proof (load_run _ _ _ Hh) as Hload.
  simpl. mrun. cbn [free size next]. rewrite truth_b2z.
  destruct fr; simpl; [|exists s, sz, rest; by destruct rest as [|[]]].
  destruct rest as [|[sz2 fr2] rest2]; simpl; [by exists s, sz, []|].
  pose proof (lay_bound _ _ _ _ _ Hrest) as Hb.
  pose proof Hrest as (Hsz2 & Hh2 & Hrest2).
  unfold HEAP_END, HEAP_START, HEAP_SIZE, HDR in Hb, Ha.
  rewrite truth_pos by (unfold HDR, HEAP_START; lia). simpl.
  pose proof (load_run _ _ _ Hh2) as Hload2. mrun. cbn [free size next]. rewrite truth_b2z.
  destruct fr2; simpl; [|by exists s, sz, ((sz2, false) :: rest2)].
  rewrite bind_store.
  erewrite M_bind_run; [|apply load_run; simpl; rewrite lookup_insert_ne by (unfold HDR; lia); exact Hh2].
  rewrite bind_store. simpl. rewrite insert_insert_eq.
  rewrite (u32_small (HDR + sz2)), u32_small by (unfold HDR in *; lia).
  edestruct (IH (sz + (HDR + sz2)) rest2) as (s' & sz' & rest' & Hrun & Hhd & Hlay' & Hm & Hl & Hfr).
  4: { exists s', sz', rest'. split; [exact Hrun|]. split; [by rewrite Hhd|].
       split; [done|]. rewrite <-Z.add_assoc. split; [done|]. split; [simpl; lia|].
       intros k Hk. rewrite Hfr by done. simpl. by rewrite lookup_insert_ne by lia. }
  - done.
  - simpl. split; [unfold HDR in *; lia|]. split.
    + rewrite lookup_insert_eq. destruct rest2; [done|]. unfold HDR. do 2 f_equal; lia.
    + apply lay_insert; [unfold HDR; lia|]. by replace (a + HDR + (sz + (HDR + sz2))) with (a + HDR + sz + HDR + sz2) by lia.
  - simpl in Hn. lia.
Qed.

Lemma coalesce_loop_ok n a segs s :
  HEAP_START ≤ a → lay (hdrs s) a segs → (length segs < n)%nat → segs ≠ [] →
  ∃ s', coalesce_loop n a s = Some (tt, s') ∧ heap_head s' = heap_head s ∧
    lay (hdrs s') a (merge segs) ∧ ∀ k, k < a → hdrs s' !! k = hdrs s !! k.
Proof.
  revert a segs s. induction n as [|n IH]; intros a segs s Ha Hlay Hn Hne; [lia|].
  destruct segs as [|[sz fr] rest]; [done|].
  simpl. rewrite truth_pos by done. simpl. unfold fuel at 1. mrun.
  pose proof (lay_length _ _ _ Hlay) as Hlen.
  destruct (absorb_loop_ok (S (base.size (hdrs s))) a sz fr rest s Ha Hlay)
    as (s1 & sz' & rest' & Hrun & Hhd & Hlay' & Hm & Hl & Hfr); [simpl in Hlen; lia|].
  mrun. clear Hrun. pose proof Hlay' as (Hsz' & Hh' & Hrest').
  pose proof (load_run _ _ _ Hh') as Hload. mrun. cbn [next]. rewrite Hm.
  destruct rest' as [|b rest'].
  { exists s1. split; [by destruct n; [simpl in *; lia|]|]. done. }
  destruct (IH (a + HDR + sz') (b :: rest') s1) as (s' & Hrun & Hhd' & Hlay2 & Hfr2); try done.
  { unfold HDR. lia. }
  { simpl in *. lia. }
  exists s'. split; [done|]. split; [congruence|]. split.
  - split; [done|]. split; [|done]. rewrite Hfr2, Hh' by (unfold HDR; lia).
    destruct b as [sz2 fr2]. simpl. by destruct (merge_from_cons sz2 fr2 rest') as (b' & l & ->).
  - intros k Hk. rewrite Hfr2, Hfr; unfold HDR; lia || done.
Qed.

(** Freeing marks one block free without moving anything. *)
Lemma release_lay m a segs p sz : lay m a segs → (p, sz) ∈ allocs a segs →
  ∃ h, m !! (p - HDR) = Some h ∧ lay (<[p - HDR := Header (Kheap.size h) 1 (next h)]> m) a (release p a segs).
Proof.
  revert a. induction segs as [|[bsz fr] rest IH]; intros a; simpl; [set_solver|].
  intros (Hsz & Hh & Hrest) Hin.
  destruct (Z.eqb_spec (a + HDR) p) as [<-|Hne].
  - replace (a + HDR - HDR) with a by lia. eexists. split; [done|]. simpl.
    rewrite lookup_insert_eq. split; [done|]. split; [done|]. apply lay_insert; [unfold HDR; lia|done].
  - apply elem_of_app in Hin as [Hin|Hin].
    { destruct fr; set_solver. }
    destruct (IH _ Hrest Hin) as (h & Hp & Hlay). exists h. split; [done|]. simpl. split; [done|].
    destruct (allocs_range _ _ _ _ _ Hrest Hin) as [Hle _].
    rewrite lookup_insert_ne by (unfold HDR in *; lia). split; [|done].
    rewrite Hh. by destruct rest as [|[]]; simpl; [|destruct (_ =? _)].
Qed.

(** ** The block sequence under the operations *)

Lemma first_fit_allocs sz a segs r segs' : first_fit sz a segs = Some (r, segs') →
  ∃ bsz, sz ≤ bsz ∧ allocs a segs' ≡ₚ (r, bsz) :: allocs a segs.
Proof.
  revert a segs'. induction segs as [|[bsz fr] rest IH]; intros a segs'; simpl; [done|].
  destruct (fr && (sz <=? bsz)) eqn:E.
  - apply andb_true_iff in E as [-> Hle%Z.leb_le]. intros [= <- <-]. simpl.
    destruct (sz + HDR + 8 <=? bsz); [exists sz|exists bsz]; (split; [done|]); simpl; [|done].
    replace (a + HDR + sz + HDR + (bsz - sz - HDR)) with (a + HDR + bsz) by lia. done.
  - destruct (first_fit sz (a + HDR + bsz) rest) as [[r0 l]|] eqn:E2; [|done].
    simpl. intros [= <- <-]. destruct (IH _ _ E2) as (b & Hle & Hp). exists b. split; [done|].
    simpl. rewrite Hp. destruct fr; simpl; [done|]. by rewrite Permutation_swap.
Qed.

Lemma first_fit_None sz a segs : first_fit sz a segs = None ↔
  ∀ bsz, (bsz, true) ∈ segs → bsz < sz.
Proof.
  revert a. induction segs as [|[bsz fr] rest IH]; intros a; simpl; [set_solver|].
  destruct fr; simpl.
  - destruct (Z.leb_spec sz bsz) as [Hle|Hlt].
    { split; [done|]. intros Hall. specialize (Hall bsz). set_solver by lia. }
    rewrite fmap_None, IH. split; [|set_solver].
    intros Hall b [[= ->]|Hb]%elem_of_cons; [done|by apply Hall].
  - rewrite fmap_None, IH. split; [|set_solver].
    intros Hall b [[=]|Hb]%elem_of_cons. by apply Hall.
Qed.

Definition head_free (segs : list seg) : bool :=
  match segs with (_, fr) :: _ => fr | [] => false end.

Lemma coalesced_cons sz fr rest :
  coalesced ((sz, fr) :: rest) ↔ fr && head_free rest = false ∧ coalesced rest.
Proof. destruct rest as [|[]]; simpl; [by rewrite andb_false_r|done]. Qed.

Lemma first_fit_coalesced sz a segs r segs' : first_fit sz a segs = Some (r, segs') →
  coalesced segs → coalesced segs' ∧ (head_free segs' = true → head_free segs = true).
Proof.
  revert a segs'. induction segs as [|[bsz fr] rest IH]; intros a segs'; [done|].
  rewrite coalesced_cons. simpl. destruct (fr && (sz <=? bsz)) eqn:E.
  - apply andb_true_iff in E as [-> _]. intros [= _ <-] [Hh Hc].
    destruct (sz + HDR + 8 <=? bsz); rewrite ?coalesced_cons; simpl; auto.
  - destruct (first_fit sz (a + HDR + bsz) rest) as [[r0 l]|] eqn:E2; [|done].
    intros [= -> <-] [Hh Hc]. destruct (IH _ _ E2 Hc) as [Hc' Hhd]. cbn [fst snd]. rewrite coalesced_cons.
    split; [|done]. split; [|done]. destruct fr, (head_free l); naive_solver.
Qed.

Lemma merge_from_allocs a sz fr rest :
  allocs a (merge_from sz fr rest) = allocs a ((sz, fr) :: rest).
Proof.
  revert a sz fr. induction rest as [|[sz2 fr2] rest IH]; intros a sz fr; simpl; [done|].
  destruct (fr && fr2) eqn:E; simpl.
  - apply andb_true_iff in E as [-> ->]. rewrite IH. simpl.
    by replace (a + HDR + (sz + HDR + sz2)) with (a + HDR + sz + HDR + sz2) by lia.
  - by rewrite IH.
Qed.

Lemma merge_allocs a segs : allocs a (merge segs) = allocs a segs.
Proof. destruct segs as [|[sz fr] rest]; [done|]. apply merge_from_allocs. Qed.

Lemma merge_from_head sz fr rest : head_free (merge_from sz fr rest) = fr.
Proof.
  revert sz fr. induction rest as [|[sz2 fr2] rest IH]; intros sz fr; simpl; [done|].
  destruct fr, fr2; simpl; auto.
Qed.

Lemma merge_coalesced segs : coalesced (merge segs).
Proof.
  destruct segs as [|[sz fr] rest]; [done|]. simpl. revert sz fr.
  induction rest as [|[sz2 fr2] rest IH]; intros sz fr; simpl; [done|].
  destruct (fr && fr2) eqn:E; [done|]. rewrite coalesced_cons, merge_from_head. auto.
Qed.

Lemma release_allocs m a segs p sz : lay m a segs → (p, sz) ∈ allocs a segs →
  allocs a segs ≡ₚ (p, sz) :: allocs a (release p a segs).
Proof.
  revert a. induction segs as [|[bsz fr] rest IH]; intros a; simpl; [set_solver|].
  intros (Hsz & _ & Hrest) Hin. destruct (Z.eqb_spec (a + HDR) p) as [<-|Hne]; simpl.
  - apply elem_of_app in Hin as [Hin|Hin].
    + destruct fr; [set_solver|]. apply list_elem_of_singleton in Hin as [= ->]. done.
    + apply (allocs_range _ _ _ _ _ Hrest) in Hin. unfold HDR in *. lia.
  - apply elem_of_app in Hin as [Hin|Hin]; [destruct fr; set_solver|].
    rewrite (IH _ Hrest Hin). destruct fr; simpl; [done|]. by rewrite Permutation_swap.
Qed.

(** Every byte of the heap is in a header, a used payload or a free one. *)
Lemma lay_total m a segs : lay m a segs →
  total false segs + total true segs + HDR * Z.of_nat (length segs) = HEAP_END - a.
Proof.
  revert a. induction segs as [|[sz fr] rest IH]; intros a; simpl; [lia|].
  intros (_ & _ & Hrest%IH). unfold total in *. destruct fr; simpl; lia.
Qed.

(** ** The operations on a well-formed heap *)

Lemma ALIGN8_spec n : 0 < n ≤ 4294967288 → n ≤ ALIGN8 n < n + 8 ∧ ALIGN8 n `mod` 8 = 0.
Proof.
  intros Hn. unfold ALIGN8. rewrite u32_small by lia. unfold u32.
  rewrite (land_trunc 32) by lia. change 7 with (Z.ones 3) at 2 4 6.
  rewrite land_lnot_ones by lia. change (2 ^ 3) with 8.
  pose proof (Z.div_mod (n + 7) 8 ltac:(lia)). pose proof (Z.mod_pos_bound (n + 7) 8 ltac:(lia)).
  split; [lia|]. apply Z.mod_mul. lia.
Qed.

Lemma ALIGN8_wrap n : 4294967289 ≤ n < 4294967296 → ALIGN8 n = 0.
Proof.
  intros Hn. unfold ALIGN8.
  assert (u32 (n + 7) = n + 7 - 4294967296) as ->.
  { unfold u32. rewrite <-(Z.mod_add _ (-1)) by lia. apply Z.mod_small. lia. }
  assert (∃ k, n + 7 - 4294967296 = k ∧ 0 ≤ k < 7) as (k & -> & Hk) by (eexists; split; [done|lia]).
  assert (k = 0 ∨ k = 1 ∨ k = 2 ∨ k = 3 ∨ k = 4 ∨ k = 5 ∨ k = 6) as Hcase by lia.
  by destruct_or! Hcase; subst.
Qed.

(** The bytes of a block that a request for [n] may use: all of them, or none
    when rounding up has wrapped round. *)
Definition usable (n : Z) : Z := if n <=? 4294967288 then n else 0.
Definition is_u32 (n : Z) : Prop := 0 ≤ n < 4294967296.

Lemma ALIGN8_usable n : 0 < n → is_u32 n → usable n ≤ ALIGN8 n ∧ 0 ≤ ALIGN8 n ∧
  ALIGN8 n = if n <=? 4294967288 then (n + 7) / 8 * 8 else 0.
Proof.
  intros Hn Hu. unfold usable, is_u32 in *. destruct (Z.leb_spec n 4294967288) as [Hle|Hgt].
  - destruct (ALIGN8_spec n ltac:(lia)) as [Hr Hm]. split; [lia|]. split; [lia|]. Z.div_mod_to_equations. lia.
  - rewrite ALIGN8_wrap by lia. done.
Qed.

Lemma kmalloc_run s segs n : heap_ok s segs → 0 < n → is_u32 n →
  match first_fit (ALIGN8 n) HEAP_START segs with
  | None => kmalloc n s = Some (0, s)
  | Some (r, segs') => ∃ s', kmalloc n s = Some (r, s') ∧ heap_ok s' segs'
  end.
Proof.
  intros (Hhd & Hne & Hlay & Hc) Hn Hu. unfold kmalloc.
  destruct (Z.eqb_spec n 0); [lia|]. unfold fuel. mrun. rewrite Hhd.
  pose proof (ALIGN8_usable n Hn Hu) as (_ & Hal & _). pose proof (lay_length _ _ _ Hlay).
  pose proof (kmalloc_loop_ok (S (base.size (hdrs s))) HEAP_START segs s (ALIGN8 n)
    ltac:(done) Hlay ltac:(lia) ltac:(lia)) as Hloop.
  destruct (first_fit _ _ _) as [[r segs']|] eqn:E.
  - destruct Hloop as (s' & Hrun & Hhd' & Hlay' & _). exists s'. split; [done|].
    split; [congruence|]. split; [by apply first_fit_cons in E as (? & ? & ->)|].
    split; [done|]. by eapply first_fit_coalesced.
  - by destruct segs.
Qed.

Lemma kfree_run s segs p sz : heap_ok s segs → (p, sz) ∈ allocs HEAP_START segs →
  ∃ s', kfree p s = Some (tt, s') ∧ heap_ok s' (merge (release p HEAP_START segs)).
Proof.
  intros (Hhd & Hne & Hlay & Hc) Hin. unfold kfree.
  pose proof (allocs_range _ _ _ _ _ Hlay Hin) as Hr.
  unfold HEAP_END, HEAP_SIZE, HEAP_START, HDR in Hr.
  rewrite truth_pos by (unfold HEAP_START; lia). simpl.
  destruct (release_lay _ _ _ _ _ Hlay Hin) as (h & Hh & Hlay').
  rewrite u32_small by (unfold HDR; lia).
  erewrite M_bind_run by (by apply set_free_run). unfold fuel. mrun.
  set (s1 := Kheap _ _). change (heap_head s1) with (heap_head s). rewrite Hhd.
  assert (release p HEAP_START segs ≠ []) as Hne'.
  { destruct segs as [|[]]; [done|]. cbn [release]. by case_match. }
  destruct (coalesce_loop_ok (S (base.size (hdrs s1))) HEAP_START (release p HEAP_START segs) s1)
    as (s' & Hrun & Hhd' & Hl & _); try done.
  { pose proof (lay_length _ _ _ Hlay'). simpl in *. lia. }
  exists s'. split; [done|]. split; [rewrite Hhd'; done|]. split.
  { destruct (release p HEAP_START segs) as [|[sz1 fr1] l]; [done|]. simpl.
    by destruct (merge_from_cons sz1 fr1 l) as (? & ? & ->). }
  split; [done|]. apply merge_coalesced.
Qed.

Lemma kheap_init_run s : ∃ s', kheap_init s = Some (tt, s') ∧ heap_ok s' [(HEAP_SIZE - HDR, true)].
Proof.
  eexists. split; [done|]. split; [done|]. split; [done|]. split; [|done].
  simpl. split; [done|]. rewrite lookup_insert_eq. done.
Qed.

Lemma sum_loop_ok n want a segs s acc : HEAP_START ≤ a → lay (hdrs s) a segs → (length segs < n)%nat →
  0 ≤ acc → acc + (HEAP_END - a) < 4294967296 →
  sum_loop n want (match segs with [] => 0 | _ => a end) acc s = Some (acc + total want segs, s).
Proof.
  revert a segs acc. induction n as [|n IH]; intros a segs acc Ha Hlay Hn Hacc Hb; [lia|].
  destruct segs as [|[sz fr] rest]; simpl; [by rewrite Z.add_0_r|].
  pose proof (lay_bound _ _ _ _ _ Hlay) as Hbd. destruct Hlay as (Hsz & Hh%load_run & Hrest).
  rewrite truth_pos by done. simpl. mrun. cbn [Kheap.next Kheap.free Kheap.size]. rewrite truth_b2z.
  unfold HDR in *. rewrite (IH (a + 12 + sz) rest); try done; [|lia|simpl in *; lia|..].
  - unfold total. simpl. destruct (Bool.eqb fr want); [rewrite u32_small by lia|]; do 2 f_equal; lia.
  - destruct (Bool.eqb fr want); [rewrite u32_small by lia|]; lia.
  - destruct (Bool.eqb fr want); [rewrite u32_small by lia|]; lia.
Qed.

Lemma kheap_sum_run s segs : heap_ok s segs →
  kheap_used s = Some (total false segs, s) ∧ kheap_free s = Some (total true segs, s).
Proof.
  intros (Hhd & Hne & Hlay & _). pose proof (lay_length _ _ _ Hlay).
  unfold kheap_used, kheap_free, fuel. mrun. rewrite Hhd.
  pose proof (λ w, sum_loop_ok (S (base.size (hdrs s))) w HEAP_START segs s 0
    ltac:(done) Hlay ltac:(lia) ltac:(lia) ltac:(done)) as Hs.
  destruct segs; [done|]. by rewrite (Hs false), (Hs true).
Qed.

Lemma kmalloc_returns s segs n : heap_ok s segs → is_u32 n → is_Some (kmalloc n s).
Proof.
  intros Hok Hu. destruct (decide (n = 0)) as [->|]; [by eexists|].
  pose proof (kmalloc_run s segs n Hok ltac:(unfold is_u32 in Hu; lia) Hu) as Hk.
  destruct (first_fit _ _ _) as [[]|]; [destruct Hk as (? & -> & _)|rewrite Hk]; by eexists.
Qed.

(** ** Client histories *)

(** A client: it asks for any number of bytes, holds the payload addresses it was
    given, each with the number of bytes it may use, and frees only what it
    holds. *)
Inductive heap_step : kheap * gmap Z Z → kheap * gmap Z Z → Prop :=
| step_malloc s n r s' live :
    is_u32 n → kmalloc n s = Some (r, s') →
    heap_step (s, live) (s', if r =? 0 then live else <[r := usable n]> live)
| step_kfree s p n s' live :
    live !! p = Some n → kfree p s = Some (tt, s') →
    heap_step (s, live) (s', delete p live).

Definition heap_inv (c : kheap * gmap Z Z) : Prop :=
  ∃ segs, heap_ok c.1 segs ∧
    (∀ p sz, (p, sz) ∈ allocs HEAP_START segs → is_Some (c.2 !! p)) ∧
    (∀ p n, c.2 !! p = Some n → ∃ sz, n ≤ sz ∧ (p, sz) ∈ allocs HEAP_START segs).

Lemma allocs_disjoint m a segs p sz q tz : lay m a segs →
  (p, sz) ∈ allocs a segs → (q, tz) ∈ allocs a segs →
  (p, sz) = (q, tz) ∨ p + sz + HDR ≤ q ∨ q + tz + HDR ≤ p.
Proof.
  revert a. induction segs as [|[bsz fr] rest IH]; intros a; simpl; [set_solver|].
  intros (_ & _ & Hrest) [Hp|Hp]%elem_of_app [Hq|Hq]%elem_of_app; [| | |by eapply IH].
  - destruct fr; set_solver.
  - pose proof (allocs_range _ _ _ _ _ Hrest Hq). destruct fr; [set_solver|].
    apply list_elem_of_singleton in Hp as [= -> ->]. right. left. lia.
  - pose proof (allocs_range _ _ _ _ _ Hrest Hp). destruct fr; [set_solver|].
    apply list_elem_of_singleton in Hq as [= -> ->]. right. right. lia.
Qed.

Lemma allocs_NoDup m a segs : lay m a segs → NoDup (allocs a segs).*1.
Proof.
  revert a. induction segs as [|[b f] rest IH]; intros a; simpl; [constructor|].
  intros (? & _ & Hrest). rewrite fmap_app. apply NoDup_app. split; [destruct f; repeat constructor; set_solver|].
  split; [|by apply IH]. intros x Hx ([q tz] & -> & Hq)%list_elem_of_fmap.
  pose proof (allocs_range _ _ _ _ _ Hrest Hq). unfold HDR in *. destruct f; set_solver by lia.
Qed.

Lemma heap_inv_malloc s live n r s' : heap_inv (s, live) → is_u32 n →
  kmalloc n s = Some (r, s') → heap_inv (s', if r =? 0 then live else <[r := usable n]> live).
Proof.
  intros (segs & Hok & Hsub & Hlive) Hu Hrun. simpl in *. destruct (decide (n = 0)) as [->|Hn0].
  { injection Hrun as <- <-. by exists segs. }
  assert (0 < n) as Hn by (unfold is_u32 in Hu; lia).
  pose proof (kmalloc_run s segs n Hok Hn Hu) as Hk. pose proof (ALIGN8_usable n Hn Hu) as [Hal _].
  destruct (first_fit _ _ _) as [[r0 segs']|] eqn:E.
  - destruct Hk as (s0 & Hrun' & Hok'). rewrite Hrun in Hrun'. injection Hrun' as <- <-.
    destruct (first_fit_allocs _ _ _ _ _ E) as (bsz & Hle & Hperm).
    assert ((r, bsz) ∈ allocs HEAP_START segs') as Hin by (rewrite Hperm; set_solver).
    pose proof (allocs_range _ _ _ _ _ (proj1 (proj2 (proj2 Hok'))) Hin) as Hr.
    unfold HEAP_START, HDR in Hr. destruct (Z.eqb_spec r 0) as [|_]; [lia|].
    exists segs'. split; [done|]. simpl. split.
    + intros p sz. rewrite Hperm. destruct (decide (p = r)) as [->|]; [rewrite lookup_insert_eq; eauto|].
      rewrite lookup_insert_ne by done. intros [[= -> ->]|Hp]%elem_of_cons; [done|eauto].
    + intros p k. destruct (decide (p = r)) as [->|].
      * rewrite lookup_insert_eq. intros [= <-]. exists bsz. split; [lia|done].
      * rewrite lookup_insert_ne by done. intros (sz & ? & ?)%Hlive. exists sz. split; [done|].
        rewrite Hperm. by right.
  - rewrite Hrun in Hk. injection Hk as -> ->. simpl. by exists segs.
Qed.

Lemma heap_inv_free s live p n : heap_inv (s, live) → live !! p = Some n →
  ∃ s', kfree p s = Some (tt, s') ∧ heap_inv (s', delete p live).
Proof.
  intros (segs & Hok & Hsub & Hlive) Hp. simpl in *.
  destruct (Hlive _ _ Hp) as (sz & Hle & Hin).
  destruct (kfree_run s segs p sz Hok Hin) as (s' & Hrun & Hok'). exists s'. split; [done|].
  pose proof (proj1 (proj2 (proj2 Hok))) as Hlay.
  pose proof (release_allocs _ _ _ _ _ Hlay Hin) as Hperm.
  pose proof (proj1 (proj2 (proj2 Hok'))) as Hlay'.
  exists (merge (release p HEAP_START segs)). simpl. rewrite merge_allocs. split; [done|].
  pose proof (allocs_NoDup _ _ _ Hlay) as Hnd.
  rewrite Hperm in Hnd. apply NoDup_cons in Hnd as [Hfresh _]. split.
  - intros q tz Hq. destruct (decide (q = p)) as [->|].
    + destruct Hfresh. apply list_elem_of_fmap. by exists (p, tz).
    + rewrite lookup_delete_ne by done. apply (Hsub q tz). rewrite Hperm. by right.
  - intros q k. destruct (decide (q = p)) as [->|]; [by rewrite lookup_delete_eq|].
    rewrite lookup_delete_ne by done. intros (tz & Htz & Hq)%Hlive. exists tz. split; [done|].
    rewrite Hperm in Hq. apply elem_of_cons in Hq as [[= -> ->]|]; done.
Qed.

Lemma heap_inv_step c c' : heap_inv c → heap_step c c' → heap_inv c'.
Proof.
  intros Hinv Hstep. revert Hinv. destruct Hstep as [s n r s' live Hn Hrun|s p n s' live Hp Hrun]; intros Hinv.
  - by eapply heap_inv_malloc.
  - destruct (heap_inv_free s live p n Hinv Hp) as (s0 & Hrun' & ?). congruence.
Qed.

Lemma heap_inv_reach c c' : rtc heap_step c c' → heap_inv c → heap_inv c'.
Proof. induction 1; eauto using heap_inv_step. Qed.

Lemma heap_inv_init s s' : kheap_init s = Some (tt, s') → heap_inv (s', ∅).
Proof.
  intros Hrun. destruct (kheap_init_run s) as (s0 & Hrun' & Hok).
  rewrite Hrun in Hrun'. injection Hrun' as <-.
  exists [(HEAP_SIZE - HDR, true)]. split; [done|]. simpl. split; [set_solver|done].
Qed.

Lemma all_free_one a segs : segs ≠ [] → coalesced segs → allocs a segs = [] →
  ∃ sz, segs = [(sz, true)].
Proof.
  destruct segs as [|[sz fr] rest]; [done|]. intros _ Hc Ha.
  destruct fr; simpl in Ha; [|done].
  destruct rest as [|[sz2 fr2] rest]; [by exists sz|].
  destruct fr2; simpl in *; [by destruct Hc|done].
Qed.

(** ** Properties *)

(** C36. [kmalloc] is first fit, for every 32-bit request: 0 bytes give the null
    pointer; otherwise the request is rounded up to a multiple of 8 (a request in
    the last seven byte counts before 2^32 wraps round to 0), the first free
    block that is large enough for that is taken, the rest is split off when a
    header and 8 bytes fit there, and the null pointer is returned with the heap
    unchanged exactly when no free block is large enough.  The walk always
    ends. *)
Theorem kmalloc_first_fit s segs n (Hok : heap_ok s segs) (Hn : is_u32 n) :
  let sz := if n <=? 4294967288 then (n + 7) / 8 * 8 else 0 in
  (n = 0 ∧ kmalloc n s = Some (0, s)) ∨
  (n ≠ 0 ∧ ∃ r segs' s', first_fit sz HEAP_START segs = Some (r, segs') ∧
     kmalloc n s = Some (r, s') ∧ r ≠ 0 ∧ heap_ok s' segs') ∨
  (n ≠ 0 ∧ (∀ b, (b, true) ∈ segs → b < sz) ∧ kmalloc n s = Some (0, s)).
Proof.
  intros sz. destruct (decide (n = 0)) as [->|Hn0]; [by left|]. right.
  assert (0 < n) as Hpos by (unfold is_u32 in Hn; lia). destruct (ALIGN8_usable n Hpos Hn) as (_ & _ & Hal).
  pose proof (kmalloc_run s segs n Hok Hpos Hn) as Hk. rewrite Hal in Hk. fold sz in Hk.
  destruct (first_fit sz _ _) as [[r segs']|] eqn:E.
  - destruct Hk as (s' & ? & Hok'). left. split; [done|]. exists r, segs', s'. split_and!; try done.
    destruct (first_fit_allocs _ _ _ _ _ E) as (bsz & _ & Hperm).
    assert ((r, bsz) ∈ allocs HEAP_START segs') as Hin by (rewrite Hperm; set_solver).
    apply (allocs_range _ _ _ _ _ (proj1 (proj2 (proj2 Hok')))) in Hin. unfold HEAP_START, HDR in Hin. lia.
  - right. split; [done|]. split; [|done]. by apply (first_fit_None _ HEAP_START).
Qed.

Definition heap_empty : kheap := Kheap 0 ∅.
Definition heap_booted : kheap := default heap_empty (snd <$> kheap_init heap_empty).

Lemma heap_booted_ok : heap_ok heap_booted [(HEAP_SIZE - HDR, true)].
Proof.
  destruct (kheap_init_run heap_empty) as (s' & Hrun & Hok). unfold heap_booted. by rewrite Hrun.
Qed.

Lemma kmalloc_first_fit_witness :
  let sz := if 100 <=? 4294967288 then (100 + 7) / 8 * 8 else 0 in
  (100 = 0 ∧ kmalloc 100 heap_booted = Some (0, heap_booted)) ∨
  (100 ≠ 0 ∧ ∃ r segs' s', first_fit sz HEAP_START [(HEAP_SIZE - HDR, true)] = Some (r, segs') ∧
     kmalloc 100 heap_booted = Some (r, s') ∧ r ≠ 0 ∧ heap_ok s' segs') ∨
  (100 ≠ 0 ∧ (∀ b, (b, true) ∈ [(HEAP_SIZE - HDR, true)] → b < sz) ∧ kmalloc 100 heap_booted = Some (0, heap_booted)).
Proof. apply (kmalloc_first_fit heap_booted _ 100 heap_booted_ok). split; reflexivity || discriminate. Defined.

(** C37. [kfree] of a block in use frees exactly that block: every other block in
    use keeps its address and size, no two neighbouring free blocks are left,
    and the walk always ends. *)
Theorem kfree_releases s segs p sz (Hok : heap_ok s segs)
    (Hp : (p, sz) ∈ allocs HEAP_START segs) :
  ∃ s' segs', kfree p s = Some (tt, s') ∧ heap_ok s' segs' ∧ coalesced segs' ∧
    allocs HEAP_START segs ≡ₚ (p, sz) :: allocs HEAP_START segs'.
Proof.
  destruct (kfree_run s segs p sz Hok Hp) as (s' & Hrun & Hok').
  exists s', (merge (release p HEAP_START segs)). split; [done|]. split; [done|].
  split; [apply merge_coalesced|]. rewrite merge_allocs.
  eapply release_allocs; [apply Hok|done].
Qed.

Definition heap_one : kheap := default heap_empty (snd <$> kmalloc 100 heap_booted).

Lemma kfree_releases_witness :
  ∃ s' segs', kfree 4194316 heap_one = Some (tt, s') ∧ heap_ok s' segs' ∧ coalesced segs' ∧
    allocs HEAP_START [(104, false); (4194176, true)] ≡ₚ (4194316, 104) :: allocs HEAP_START segs'.
Proof.
  apply (kfree_releases heap_one [(104, false); (4194176, true)] 4194316 104).
  - split; [reflexivity|]. split; [done|]. split; [|done]. vm_compute. repeat split; done.
  - simpl. constructor.
Defined.

(** C10. Whatever a client allocates and frees after [kheap_init], in requests of
    any 32-bit size, the bytes it may use lie inside the heap, no two of its
    blocks overlap, freeing one of them always succeeds and so does asking for
    another.  A request in the last seven byte counts before 2^32 wraps round
    when it is rounded up, and gives no byte to use. *)
Theorem heap_safety s0 s1 s live p n (Hinit : kheap_init s0 = Some (tt, s1))
    (Hreach : rtc heap_step (s1, ∅) (s, live)) (Hp : live !! p = Some n) :
  HEAP_START + HDR ≤ p ∧ p + n ≤ HEAP_END ∧
  (∀ q k, live !! q = Some k → p ≠ q → p + n ≤ q ∨ q + k ≤ p) ∧
  (∃ s', kfree p s = Some (tt, s')) ∧ ∀ k, is_u32 k → is_Some (kmalloc k s).
Proof.
  pose proof (heap_inv_reach _ _ Hreach (heap_inv_init _ _ Hinit)) as Hinv.
  destruct (heap_inv_free s live p n Hinv Hp) as (s' & Hfree & _).
  destruct Hinv as (segs & Hok & _ & Hlive). simpl in *.
  pose proof (proj1 (proj2 (proj2 Hok))) as Hlay.
  destruct (Hlive _ _ Hp) as (sz & Hsz & Hin).
  pose proof (allocs_range _ _ _ _ _ Hlay Hin). unfold HDR in *.
  split; [lia|]. split; [lia|]. split; [|split; [eauto|intros k Hk; exact (kmalloc_returns s segs k Hok Hk)]]. intros q k Hq Hne.
  destruct (Hlive _ _ Hq) as (tz & Htz & Hin').
  destruct (allocs_disjoint _ _ _ _ _ _ _ Hlay Hin Hin') as [[= ]|[]]; [done|unfold HDR in *; lia..].
Qed.

Lemma heap_safety_witness :
  HEAP_START + HDR ≤ 4194316 ∧ 4194316 + 100 ≤ HEAP_END ∧
  (∀ q k, ({[4194316 := 100]} : gmap Z Z) !! q = Some k → 4194316 ≠ q →
     4194316 + 100 ≤ q ∨ q + k ≤ 4194316) ∧
  (∃ s', kfree 4194316 heap_one = Some (tt, s')) ∧ ∀ k, is_u32 k → is_Some (kmalloc k heap_one).
Proof.
  apply (heap_safety heap_empty heap_booted heap_one {[4194316 := 100]} 4194316 100).
  - reflexivity.
  - apply rtc_once. apply (step_malloc heap_booted 100 4194316 heap_one ∅); [split; reflexivity || discriminate|reflexivity].
  - reflexivity.
Defined.

(** Once a client has freed everything it allocated, the heap is again the
    single free block [kheap_init] made: nothing is lost to fragmentation. *)
Theorem heap_no_leak s0 s1 s (Hinit : kheap_init s0 = Some (tt, s1))
    (Hreach : rtc heap_step (s1, ∅) (s, ∅)) :
  heap_ok s [(HEAP_SIZE - HDR, true)] ∧ kheap_used s = Some (0, s) ∧
  kheap_free s = Some (HEAP_SIZE - HDR, s).
Proof.
  pose proof (heap_inv_reach _ _ Hreach (heap_inv_init _ _ Hinit)) as (segs & Hok & Hsub & _).
  simpl in *. assert (allocs HEAP_START segs = []) as Hnil.
  { destruct (allocs HEAP_START segs) as [|[p sz] l]; [done|].
    destruct (Hsub p sz ltac:(left)) as [? ?]. done. }
  destruct (all_free_one HEAP_START segs) as (sz & ->); [apply Hok|apply Hok|done|].
  pose proof (proj1 (proj2 (proj2 Hok))) as (_ & _ & Hend). simpl in Hend.
  assert (sz = HEAP_SIZE - HDR) as -> by (unfold HEAP_END in Hend; lia).
  split; [done|]. by apply kheap_sum_run in Hok.
Qed.

Definition heap_emptied : kheap := default heap_empty (snd <$> kfree 4194316 heap_one).

Lemma heap_no_leak_witness :
  heap_ok heap_emptied [(HEAP_SIZE - HDR, true)] ∧ kheap_used heap_emptied = Some (0, heap_emptied) ∧
  kheap_free heap_emptied = Some (HEAP_SIZE - HDR, heap_emptied).
Proof.
  apply (heap_no_leak heap_empty heap_booted heap_emptied); [reflexivity|].
  eapply rtc_l; [apply (step_malloc heap_booted 100 4194316 heap_one ∅); [split; reflexivity || discriminate|reflexivity]|].
  simpl. apply rtc_once.
  pose proof (step_kfree heap_one 4194316 100 heap_emptied {[4194316 := 100]}
    eq_refl eq_refl) as Hstep.
  assert (delete 4194316 ({[4194316 := 100]} : gmap Z Z) = ∅) as E by reflexivity.
  rewrite E in Hstep. exact Hstep.
Defined.

(** A request in the last seven byte counts before 2^32 wraps round to 0 when it
    is rounded up to 8: on a fresh heap [kmalloc] does not fail but returns a
    block with no payload at all. *)
Theorem kmalloc_wraps n (Hn : 4294967289 ≤ n < 4294967296) :
  ∃ s', kmalloc n heap_booted = Some (HEAP_START + HDR, s') ∧
        hdrs s' !! HEAP_START = Some (Header 0 0 (HEAP_START + HDR)).
Proof.
  unfold kmalloc. rewrite ALIGN8_wrap by done. destruct (Z.eqb_spec n 0); [lia|].
  eexists. split; [vm_compute; reflexivity|reflexivity].
Qed.

Lemma kmalloc_wraps_witness :
  ∃ s', kmalloc 4294967295 heap_booted = Some (HEAP_START + HDR, s') ∧
        hdrs s' !! HEAP_START = Some (Header 0 0 (HEAP_START + HDR)).
Proof. apply (kmalloc_wraps 4294967295). lia. Defined.

(** [kheap_used] and [kheap_free] count every payload byte once: with the
    headers they add up to the whole heap, whatever is allocated. *)
Theorem kheap_accounting s segs (Hok : heap_ok s segs) :
  ∃ u f, kheap_used s = Some (u, s) ∧ kheap_free s = Some (f, s) ∧
    u + f + HDR * Z.of_nat (length segs) = HEAP_SIZE ∧
    u = foldr (λ b acc, b.2 + acc) 0 (allocs HEAP_START segs).
Proof.
  destruct (kheap_sum_run s segs Hok) as [Hu Hf]. eexists _, _. split; [done|]. split; [done|].
  split.
  - pose proof (lay_total _ _ _ (proj1 (proj2 (proj2 Hok)))). unfold HEAP_END in *. lia.
  - generalize HEAP_START. clear. unfold total. induction segs as [|[sz fr] rest IH]; intros a; [done|].
    simpl. rewrite (IH (a + HDR + sz)). by destruct fr.
Qed.

Lemma kheap_accounting_witness :
  ∃ u f, kheap_used heap_booted = Some (u, heap_booted) ∧ kheap_free heap_booted = Some (f, heap_booted) ∧
    u + f + HDR * Z.of_nat (length [(HEAP_SIZE - HDR, true)]) = HEAP_SIZE ∧
    u = foldr (λ b acc, b.2 + acc) 0 (allocs HEAP_START [(HEAP_SIZE - HDR, true)]).
Proof. apply (kheap_accounting heap_booted _ heap_booted_ok). Defined.
