(* ===== verification/CString.v ===== *)
(** * The freestanding C library (lib/string.c, lib/string.h)

    Two views of memory are used.  The routines that move bytes between
    regions that may overlap ([memset], [memcpy], [memmove]) work on the flat
    RAM of the machine.  For the string routines a [char *] argument is the
    list of the bytes from the pointer to the end of the object it points
    into; reading past that end has no defined behaviour ([None]).  A [char]
    is the byte 0..255 that holds it; where the code compares characters as
    signed values the conversion is written out. *)

From S2P Require Import Prelude.

(** ** Flat memory *)

(** RAM is the identity-mapped 32 MB; a touch above it faults. Bytes never
    written read as 0. *)
Abbreviation mem := (gmap Z Z).
Definition RAM_TOP : Z := 33554432.

Definition mload (a : Z) (m : mem) : option Z :=
  if (0 <=? a) && (a <? RAM_TOP) then Some (default 0 (m !! a)) else None.
Definition mstore (a v : Z) (m : mem) : option mem :=
  if (0 <=? a) && (a <? RAM_TOP) then Some (<[a := v]> m) else None.

Fixpoint memset_loop (n : nat) (d c : Z) (m : mem) : option mem :=
  match n with
  | O => Some m
  | S n' => m' ← mstore d (u8 c) m; memset_loop n' (d + 1) c m'
  end.
Definition memset (dst c n : Z) (m : mem) : option mem := memset_loop (Z.to_nat n) dst c m.

Fixpoint copy_up (n : nat) (d s : Z) (m : mem) : option mem :=
  match n with
  | O => Some m
  | S n' => b ← mload s m; m' ← mstore d b m; copy_up n' (d + 1) (s + 1) m'
  end.
Definition memcpy (dst src n : Z) (m : mem) : option mem := copy_up (Z.to_nat n) dst src m.

(** [d] and [s] point one past the bytes still to be copied. *)
Fixpoint copy_down (n : nat) (d s : Z) (m : mem) : option mem :=
  match n with
  | O => Some m
  | S n' => b ← mload (s - 1) m; m' ← mstore (d - 1) b m; copy_down n' (d - 1) (s - 1) m'
  end.
Definition memmove (dst src n : Z) (m : mem) : option mem :=
  if (dst =? src) || (n =? 0) then Some m
  else if dst <? src then copy_up (Z.to_nat n) dst src m
  else copy_down (Z.to_nat n) (dst + n) (src + n) m.

(** ** Comparison and scanning *)

Fixpoint memcmp (a b : list Z) (n : nat) : option Z :=
  match n with
  | O => Some 0
  | S n' =>
      match a, b with
      | x :: a', y :: b' => if negb (x =? y) then Some (x - y) else memcmp a' b' n'
      | _, _ => None
      end
  end.

Fixpoint strlen (s : list Z) : option Z :=
  match s with
  | [] => None
  | c :: s' => if truth c then Z.succ <$> strlen s' else Some 0
  end.

Fixpoint strcmp (a b : list Z) : option Z :=
  match a, b with
  | x :: a', y :: b' => if truth x && (x =? y) then strcmp a' b' else Some (x - y)
  | _, _ => None
  end.

Fixpoint strncmp (a b : list Z) (n : nat) : option Z :=
  match n with
  | O => Some 0
  | S n' =>
      match a, b with
      | x :: a', y :: b' => if truth x && (x =? y) then strncmp a' b' n' else Some (x - y)
      | _, _ => None
      end
  end.

(** [strcpy] and [strncpy] return the bytes they store at [dst]. *)
Fixpoint strcpy (src : list Z) : option (list Z) :=
  match src with
  | [] => None
  | c :: src' => if truth c then cons c <$> strcpy src' else Some [c]
  end.

Fixpoint strncpy (src : list Z) (n : nat) : option (list Z) :=
  match n with
  | O => Some []
  | S n' =>
      match src with
      | [] => None
      | c :: src' => if truth c then cons c <$> strncpy src' n' else Some (replicate n 0)
      end
  end.

(** ** Numbers *)

Definition digits : list Z := [48;49;50;51;52;53;54;55;56;57;97;98;99;100;101;102].

(** The digits of [value], least significant first; [n] bounds [tmp]. *)
Fixpoint utoa_loop (n : nat) (value base : Z) : option (list Z) :=
  match n with
  | O => None
  | S n' =>
      if truth value
      then d ← digits !! Z.to_nat (value `mod` base); cons d <$> utoa_loop n' (value / base) base
      else Some []
  end.

Definition utoa (value base : Z) : option (list Z) :=
  if (base <? 2) || (16 <? base) then Some [0]
  else if value =? 0 then Some [48; 0]
  else tmp ← utoa_loop 33 value base; Some (rev tmp ++ [0]).

Definition itoa (value : Z) : option (list Z) :=
  if value <? 0 then cons 45 <$> utoa (u32 (- value)) 10
  else utoa (u32 value) 10.

Fixpoint atoi_digits (s : list Z) (v : Z) : option Z :=
  match s with
  | [] => None
  | c :: s' =>
      if (48 <=? i8_of c) && (i8_of c <=? 57) then
        let v10 := v * 10 in
        let v' := v10 + (i8_of c - 48) in
        if in_int v10 && in_int v' then atoi_digits s' v' else None
      else Some v
  end.

Fixpoint atoi_spaces (s : list Z) : option (list Z) :=
  match s with
  | [] => None
  | c :: s' => if (c =? 32) || (c =? 9) then atoi_spaces s' else Some s
  end.

Definition atoi (s : list Z) : option Z :=
  s1 ← atoi_spaces s;
  match s1 with
  | [] => None
  | c :: s2 =>
      let '(sign, s3) := if c =? 45 then (-1, s2) else if c =? 43 then (1, s2) else (1, s1) in
      v ← atoi_digits s3 0;
      if in_int (sign * v) then Some (sign * v) else None
  end.

(** ** Strings as values *)

(** The characters before the terminating 0. *)
Abbreviation cstr := upto0.

(** A string literal of the source, with its terminator. *)
Definition lit (s : string) : list Z :=
  (Z.of_N ∘ Ascii.N_of_ascii <$> String.list_ascii_of_string s) ++ [0].

(** ** Lemmas on strings *)

Lemma cstr_spec s : 0 ∈ s → ∃ l, s = cstr s ++ 0 :: l.
Proof.
  induction s as [|c s IH]; [set_solver|]. intros H. simpl. destruct (truth c) eqn:E.
  - apply truth_true in E. apply elem_of_cons in H as [H|H]; [done|].
    destruct (IH H) as [l Hl]. exists l. simpl. by rewrite <-Hl.
  - apply truth_false in E as ->. by exists s.
Qed.

Lemma strcmp_spec a b : 0 ∈ a → 0 ∈ b → ∃ r, strcmp a b = Some r ∧ (r = 0 ↔ cstr a = cstr b).
Proof.
  revert b. induction a as [|x a IH]; intros b Ha Hb; [set_solver|].
  destruct b as [|y b]; [set_solver|]. simpl.
  destruct (truth x && (x =? y)) eqn:E.
  - apply andb_true_iff in E as [Hx ->%Z.eqb_eq]. pose proof Hx as Hx'. apply truth_true in Hx'.
    apply elem_of_cons in Ha as [?|Ha], Hb as [?|Hb]; try done.
    destruct (IH b Ha Hb) as (r & -> & Hr). exists r. rewrite Hx. split; [done|].
    rewrite Hr. split; congruence.
  - exists (x - y). split; [done|]. destruct (truth x) eqn:Ex; simpl in E.
    + apply Z.eqb_neq in E. split; [lia|]. destruct (truth y); congruence.
    + apply truth_false in Ex as ->. destruct (truth y) eqn:Ey.
      * apply truth_true in Ey. split; [lia|done].
      * apply truth_false in Ey as ->. done.
Qed.

Lemma strncpy_spec src n : 0 ∈ src →
  strncpy src n = Some (take n (cstr src) ++ replicate (n - length (cstr src)) 0).
Proof.
  revert n. induction src as [|c src IH]; intros n H; [set_solver|].
  destruct n as [|n]; simpl; [done|]. destruct (truth c) eqn:E; [|done].
  apply truth_true in E. apply elem_of_cons in H as [H|H]; [done|].
  rewrite IH by done. done.
Qed.

Lemma strcpy_spec src : 0 ∈ src → strcpy src = Some (cstr src ++ [0]).
Proof.
  induction src as [|c src IH]; intros H; [set_solver|]. simpl. destruct (truth c) eqn:E.
  - apply truth_true in E. apply elem_of_cons in H as [H|H]; [done|]. by rewrite IH.
  - apply truth_false in E as ->. done.
Qed.

Lemma lit_nul s : 0 ∈ lit s.
Proof. unfold lit. set_solver. Qed.

(** ** Lemmas on flat memory *)

Definition mapped (a n : Z) : Prop := 0 ≤ a ∧ a + n ≤ RAM_TOP.

Lemma mload_mapped a m : mapped a 1 → ∃ v, mload a m = Some v.
Proof.
  intros [H1 H2]. unfold mload.
  destruct (Z.leb_spec 0 a), (Z.ltb_spec a RAM_TOP); simpl; eauto; lia.
Qed.

Lemma mstore_mapped a v m : mapped a 1 →
  ∃ m', mstore a v m = Some m' ∧ ∀ x, mload x m' = if decide (x = a) then Some v else mload x m.
Proof.
  intros [H1 H2]. unfold mstore, mload.
  destruct (Z.leb_spec 0 a), (Z.ltb_spec a RAM_TOP); simpl; try lia.
  eexists. split; [done|]. intros x. case_decide as E.
  - subst. rewrite lookup_insert_eq. destruct (Z.leb_spec 0 a), (Z.ltb_spec a RAM_TOP); simpl; done || lia.
  - by rewrite lookup_insert_ne.
Qed.

(** Copying upwards is right when the destination starts at or below the
    source, or past its end. *)
Lemma copy_up_spec n d s m : mapped d (Z.of_nat n) → mapped s (Z.of_nat n) →
  d ≤ s ∨ s + Z.of_nat n ≤ d →
  ∃ m', copy_up n d s m = Some m' ∧ ∀ x, mload x m' =
    if decide (d ≤ x < d + Z.of_nat n) then mload (s + (x - d)) m else mload x m.
Proof.
  unfold mapped. revert d s m. induction n as [|n IH]; intros d s m Hd Hs Hov; simpl.
  { exists m. split; [done|]. intros x. by rewrite decide_False by lia. }
  destruct (mload_mapped s m) as [b Hb]; [unfold mapped; lia|].
  destruct (mstore_mapped d b m) as (m1 & Hm1 & Hl1); [unfold mapped; lia|].
  rewrite Hb. simpl. rewrite Hm1. simpl.
  destruct (IH (d + 1) (s + 1) m1) as (m' & Hrun & Hl); [lia..|].
  exists m'. split; [done|]. intros x. rewrite Hl.
  case_decide as H1; [rewrite decide_True by lia|]; rewrite Hl1.
  - replace (s + 1 + (x - (d + 1))) with (s + (x - d)) by lia. by rewrite decide_False by lia.
  - destruct (decide (x = d)) as [->|]; [|by rewrite (decide_False (P := d ≤ x < _)) by lia].
    rewrite (decide_True (P := d ≤ d < _)) by lia. by replace (s + (d - d)) with s by lia.
Qed.

(** Copying downwards is right when the destination starts at or above the
    source. *)
Lemma copy_down_spec n d s m : mapped d (Z.of_nat n) → mapped s (Z.of_nat n) → s ≤ d →
  ∃ m', copy_down n (d + Z.of_nat n) (s + Z.of_nat n) m = Some m' ∧ ∀ x, mload x m' =
    if decide (d ≤ x < d + Z.of_nat n) then mload (s + (x - d)) m else mload x m.
Proof.
  unfold mapped. revert m. induction n as [|n IH]; intros m Hd Hs Hov; cbn [copy_down].
  { exists m. split; [done|]. intros x. by rewrite decide_False by lia. }
  replace (d + Z.of_nat (S n) - 1) with (d + Z.of_nat n) by lia.
  replace (s + Z.of_nat (S n) - 1) with (s + Z.of_nat n) by lia.
  destruct (mload_mapped (s + Z.of_nat n) m) as [b Hb]; [unfold mapped; lia|].
  destruct (mstore_mapped (d + Z.of_nat n) b m) as (m1 & Hm1 & Hl1); [unfold mapped; lia|].
  rewrite Hb. simpl. rewrite Hm1. simpl.
  destruct (IH m1) as (m' & Hrun & Hl); [lia..|].
  exists m'. split; [done|]. intros x. rewrite Hl.
  case_decide as H1; [rewrite decide_True by lia|]; rewrite Hl1.
  - by rewrite decide_False by lia.
  - destruct (decide (x = d + Z.of_nat n)) as [->|]; [|by rewrite (decide_False (P := d ≤ x < _)) by lia].
    rewrite (decide_True (P := d ≤ _ < _)) by lia. by replace (s + (d + Z.of_nat n - d)) with (s + Z.of_nat n) by lia.
Qed.

Lemma memset_spec dst c n m : 0 ≤ n → mapped dst n →
  ∃ m', memset dst c n m = Some m' ∧ ∀ x, mload x m' =
    if decide (dst ≤ x < dst + n) then Some (u8 c) else mload x m.
Proof.
  unfold memset, mapped. intros Hn. assert (n = Z.of_nat (Z.to_nat n)) as E by lia.
  revert E. generalize (Z.to_nat n). intros k ->. clear Hn. revert dst m.
  induction k as [|k IH]; intros d m Hd; simpl.
  { exists m. split; [done|]. intros x. by rewrite decide_False by lia. }
  destruct (mstore_mapped d (u8 c) m) as (m1 & Hm1 & Hl1); [unfold mapped; lia|].
  rewrite Hm1. simpl. destruct (IH (d + 1) m1) as (m' & Hrun & Hl); [lia|].
  exists m'. split; [done|]. intros x. rewrite Hl.
  case_decide as H1; [by rewrite decide_True by lia|]. rewrite Hl1.
  destruct (decide (x = d)) as [->|]; [by rewrite decide_True by lia|by rewrite decide_False by lia].
Qed.

Lemma memcpy_spec dst src n m : 0 ≤ n → mapped dst n → mapped src n →
  dst ≤ src ∨ src + n ≤ dst →
  ∃ m', memcpy dst src n m = Some m' ∧ ∀ x, mload x m' =
    if decide (dst ≤ x < dst + n) then mload (src + (x - dst)) m else mload x m.
Proof.
  intros Hn Hd Hs Hov. unfold memcpy.
  pose proof (copy_up_spec (Z.to_nat n) dst src m) as H. rewrite Z2Nat.id in H by done. by apply H.
Qed.

(** ** Lemmas on numbers *)

(** The value of a digit character, and of digits least significant first. *)
Definition dval (c : Z) : Z := if c <? 58 then c - 48 else c - 87.
Definition num (base : Z) (l : list Z) : Z := foldr (λ c acc, acc * base + dval c) 0 l.

Lemma digits_spec k : 0 ≤ k < 16 → ∃ d, digits !! Z.to_nat k = Some d ∧ dval d = k ∧
  (k < 10 → d = 48 + k) ∧ 0 < d.
Proof.
  intros Hk.
  assert (k = 0 ∨ k = 1 ∨ k = 2 ∨ k = 3 ∨ k = 4 ∨ k = 5 ∨ k = 6 ∨ k = 7 ∨ k = 8 ∨ k = 9 ∨
          k = 10 ∨ k = 11 ∨ k = 12 ∨ k = 13 ∨ k = 14 ∨ k = 15) as Hcase by lia.
  destruct_or! Hcase; subst; eexists; (split; [reflexivity|]); (split; [reflexivity|]); lia.
Qed.

Lemma utoa_loop_spec n v base : 2 ≤ base ≤ 16 → 0 ≤ v < 2 ^ Z.of_nat n →
  ∃ l, utoa_loop (S n) v base = Some l ∧ num base l = v ∧
    Forall (λ c, c ≠ 0 ∧ 0 ≤ dval c < base ∧ (base ≤ 10 → 48 ≤ c < 48 + base)) l.
Proof.
  intros Hb. revert v. induction n as [|n IH]; intros v Hv.
  { assert (v = 0) as -> by (simpl in Hv; lia). exists []. repeat constructor. }
  cbn [utoa_loop]. destruct (truth v) eqn:E; [|apply truth_false in E as ->; exists []; repeat constructor].
  pose proof (Z.mod_pos_bound v base ltac:(lia)) as Hm.
  destruct (digits_spec (v `mod` base)) as (d & -> & Hd & Hd10 & Hd0); [lia|]. simpl.
  destruct (IH (v / base)) as (l & Hl & Hnum & Hall).
  { split; [apply Z.div_pos; lia|]. apply Z.div_lt_upper_bound; [lia|].
    replace (Z.of_nat (S n)) with (1 + Z.of_nat n) in Hv by lia. rewrite Z.pow_add_r in Hv by lia. nia. }
  cbn [utoa_loop] in Hl. rewrite Hl. exists (d :: l). simpl. split; [done|]. rewrite Hnum, Hd. split.
  - rewrite Z.mul_comm. symmetry. apply Z.div_mod. lia.
  - constructor; [|done]. lia.
Qed.

Lemma dval_decimal c : 48 ≤ c < 58 → dval c = c - 48.
Proof. intros. unfold dval. destruct (Z.ltb_spec c 58); lia. Qed.

Lemma num_nonneg l : Forall (λ c, 48 ≤ c < 58) l → 0 ≤ num 10 l.
Proof. induction 1 as [|c l Hc _ IH]; simpl; [done|]. rewrite dval_decimal by done. lia. Qed.

Lemma in_int_true z : -2147483648 ≤ z < 2147483648 → in_int z = true.
Proof. intros. unfold in_int. apply andb_true_iff. rewrite Z.leb_le, Z.ltb_lt. lia. Qed.

Lemma atoi_digits_app l rest : Forall (λ c, 48 ≤ c < 58) l → num 10 l < 2147483648 →
  atoi_digits (rev l ++ rest) 0 = atoi_digits rest (num 10 l).
Proof.
  revert rest. induction l as [|c l IH]; intros rest Hall Hmax; simpl; [done|].
  apply Forall_cons in Hall as [Hc Hall]. pose proof (num_nonneg l Hall). simpl in Hmax.
  rewrite <-app_assoc. rewrite dval_decimal in * by done. rewrite IH by (done || lia).
  simpl. assert (i8_of c = c) as -> by (unfold i8_of; rewrite Z.mod_small by lia; lia).
  destruct (Z.leb_spec 48 c), (Z.leb_spec c 57); simpl; try lia.
  by rewrite !in_int_true by lia.
Qed.

Lemma utoa_decimal v : 0 ≤ v < 4294967296 →
  ∃ l, utoa v 10 = Some (rev l ++ [0]) ∧ Forall (λ c, 48 ≤ c < 58) l ∧ num 10 l = v ∧ l ≠ [].
Proof.
  intros Hv. unfold utoa. change ((10 <? 2) || (16 <? 10)) with false. cbv iota.
  destruct (Z.eqb_spec v 0) as [->|Hne].
  { exists [48]. split; [done|]. repeat constructor; lia || done. }
  destruct (utoa_loop_spec 32 v 10) as (l & Hl & Hnum & Hall); [lia|done|].
  rewrite Hl. exists l. split; [done|]. split; [|split; [done|]].
  - eapply Forall_impl; [done|]. simpl. lia.
  - intros ->. simpl in Hnum. lia.
Qed.

Lemma atoi_digits_stop v l : atoi_digits (0 :: l) v = Some v.
Proof. done. Qed.

Lemma rev_digits_head l : Forall (λ c, 48 ≤ c < 58) l → l ≠ [] →
  ∃ c r, rev l = c :: r ∧ 48 ≤ c < 58.
Proof.
  intros Hall Hne. destruct (rev l) as [|c r] eqn:E.
  - apply (f_equal (@rev Z)) in E. rewrite rev_involutive in E. done.
  - exists c, r. split; [done|]. rewrite Forall_forall in Hall. apply Hall.
    rewrite list_elem_of_In, in_rev, E. by left.
Qed.

(** What is printed is text. *)
Lemma utoa_text v base : 0 ≤ v < 4294967296 → 2 ≤ base ≤ 16 →
  ∃ s, utoa v base = Some (s ++ [0]) ∧ Forall (λ c, 0 < c < 128) s.
Proof.
  intros Hv Hb. unfold utoa. destruct (Z.ltb_spec base 2), (Z.ltb_spec 16 base); try lia. cbn [orb].
  destruct (Z.eqb_spec v 0) as [->|Hne]; [exists [48]; split; [done|by repeat constructor]|].
  destruct (utoa_loop_spec 32 v base) as (l & Hl & _ & Hall); [done|done|].
  rewrite Hl. exists (rev l). split; [done|]. apply Forall_rev. eapply Forall_impl; [done|]. simpl.
  intros c (? & Hd & _). unfold dval in Hd. destruct (Z.ltb_spec c 58); lia.
Qed.

Lemma itoa_text v : -2147483648 ≤ v < 2147483648 → ∃ s, itoa v = Some (s ++ [0]) ∧ Forall (λ c, 0 < c < 128) s.
Proof.
  intros Hv. unfold itoa. destruct (Z.ltb_spec v 0).
  - destruct (utoa_text (u32 (-v)) 10) as (s & -> & Hs); [apply u32_range|lia|].
    exists (45 :: s). split; [done|]. by constructor.
  - apply utoa_text; [apply u32_range|lia].
Qed.

Lemma lit_bytes s : Forall is_byte (lit s).
Proof.
  apply Forall_app. split; [|by repeat constructor]. apply Forall_fmap, Forall_forall. intros a _. simpl.
  pose proof (Ascii.N_ascii_bounded a). unfold is_byte. lia.
Qed.

Lemma itoa_atoi_run v (Hv : -2147483648 < v < 2147483648) :
  ∃ s, itoa v = Some s ∧ 0 ∈ s ∧ atoi s = Some v.
Proof.
  unfold itoa. destruct (Z.ltb_spec v 0).
  - rewrite u32_small by lia.
    destruct (utoa_decimal (- v)) as (l & -> & Hall & Hnum & _); [lia|].
    exists (45 :: rev l ++ [0]). split; [done|]. split; [set_solver|].
    unfold atoi. simpl. rewrite atoi_digits_app, atoi_digits_stop by (done || lia). simpl.
    rewrite Hnum. rewrite in_int_true by lia. f_equal. lia.
  - rewrite u32_small by lia.
    destruct (utoa_decimal v) as (l & -> & Hall & Hnum & Hne); [lia|].
    exists (rev l ++ [0]). split; [done|]. split; [set_solver|].
    destruct (rev_digits_head l Hall Hne) as (c & r & E & Hc).
    pose proof (atoi_digits_app l [0] Hall ltac:(lia)) as Hdig. rewrite atoi_digits_stop, Hnum in Hdig.
    rewrite E in *. unfold atoi. simpl app in *. simpl atoi_spaces.
    assert ((c =? 32) || (c =? 9) = false) as ->
      by (apply orb_false_iff; split; apply Z.eqb_neq; lia).
    simpl. assert ((c =? 45) = false) as -> by (apply Z.eqb_neq; lia).
    assert ((c =? 43) = false) as -> by (apply Z.eqb_neq; lia).
    rewrite Hdig. simpl. rewrite in_int_true by lia. f_equal; lia.
Qed.

(** Ten digits are enough. *)
Lemma utoa_loop_length n v k l : 0 ≤ v < 10 ^ Z.of_nat k → utoa_loop n v 10 = Some l → (length l ≤ k)%nat.
Proof.
  revert v k l. induction n as [|n IH]; intros v k l Hv E; cbn [utoa_loop] in E; [done|].
  destruct (truth v) eqn:Ev; [|by injection E as <-; simpl; lia].
  destruct k as [|k]; [apply truth_true in Ev; cbn in Hv; lia|].
  destruct (digits !! _); [|done]. cbn [mbind option_bind] in E.
  destruct (utoa_loop n (v / 10) 10) as [l'|] eqn:E'; [|done]. cbn in E. injection E as <-. cbn [length].
  enough (length l' ≤ k)%nat by lia. apply (IH (v / 10)); [|done].
  replace (Z.of_nat (S k)) with (1 + Z.of_nat k) in Hv by lia. rewrite Z.pow_add_r in Hv by lia.
  split; [apply Z.div_pos; lia|]. apply Z.div_lt_upper_bound; lia.
Qed.
Lemma itoa_short v x : 0 ≤ v < 2147483648 → itoa v = Some (x ++ [0]) → (length x ≤ 10)%nat.
Proof.
  intros Hv. unfold itoa. destruct (Z.ltb_spec v 0); [lia|]. rewrite u32_small by lia. unfold utoa. cbn [Z.ltb orb Z.compare Pos.compare Pos.compare_cont].
  destruct (Z.eqb_spec v 0); [intros E; injection E as E; apply (f_equal length) in E; rewrite length_app in E; simpl in E; lia|].
  destruct (utoa_loop 33 v 10) as [l|] eqn:E; [|done]. cbn [mbind option_bind]. intros [= Hx]. apply app_inj_2 in Hx as [<- _]; [|done].
  rewrite length_rev. eapply utoa_loop_length; [|exact E]. cbn. lia.
Qed.

(** ** Properties *)

(** [memmove] copies correctly however the two regions overlap: afterwards
    the destination holds what the source held before, and every other byte
    of memory is unchanged. *)
Theorem memmove_overlap dst src n m (Hn : 0 ≤ n) (Hd : mapped dst n) (Hs : mapped src n) :
  ∃ m', memmove dst src n m = Some m' ∧ ∀ x, mload x m' =
    if decide (dst ≤ x < dst + n) then mload (src + (x - dst)) m else mload x m.
Proof.
  unfold memmove. destruct ((dst =? src) || (n =? 0)) eqn:E.
  - exists m. split; [done|]. intros x. case_decide; [|done]. f_equal.
    apply orb_true_iff in E as [->%Z.eqb_eq| ->%Z.eqb_eq]; lia.
  - assert (n = Z.of_nat (Z.to_nat n)) as Hnat by lia.
    destruct (Z.ltb_spec dst src); rewrite Hnat.
    + rewrite Nat2Z.id. apply copy_up_spec; [by rewrite <-Hnat..|lia].
    + rewrite Nat2Z.id. apply copy_down_spec; [by rewrite <-Hnat..|lia].
Qed.

Lemma memmove_overlap_witness :
  ∃ m', memmove 101 100 3 {[100 := 1; 101 := 2; 102 := 3]} = Some m' ∧ ∀ x, mload x m' =
    if decide (101 ≤ x < 101 + 3) then mload (100 + (x - 101)) {[100 := 1; 101 := 2; 102 := 3]}
    else mload x {[100 := 1; 101 := 2; 102 := 3]}.
Proof. apply memmove_overlap; unfold mapped, RAM_TOP; lia. Defined.

(** [atoi] reads back what [itoa] writes, for every [int] but the smallest. *)
Theorem itoa_atoi v (Hv : -2147483648 < v < 2147483648) :
  ∃ s, itoa v = Some s ∧ 0 ∈ s ∧ atoi s = Some v.
Proof. by apply itoa_atoi_run. Qed.

Lemma itoa_atoi_witness : ∃ s, itoa (-1204) = Some s ∧ 0 ∈ s ∧ atoi s = Some (-1204).
Proof. apply itoa_atoi. lia. Defined.

(** [itoa] prints the smallest [int] correctly, but [atoi] of that string has no
    defined behaviour: it accumulates the magnitude 2147483648 in an [int]
    before it applies the sign. *)
Theorem atoi_int_min :
  itoa (-2147483648) = Some (lit "-2147483648") ∧ atoi (lit "-2147483648") = None.
Proof. split; reflexivity. Qed.

(** For every base from 2 to 16 [utoa] writes the numeral of its argument in
    that base, most significant digit first, within its 33-byte scratch. *)
Theorem utoa_numeral v base (Hv : 0 ≤ v < 4294967296) (Hb : 2 ≤ base ≤ 16) :
  ∃ l, utoa v base = Some (rev l ++ [0]) ∧ num base l = v ∧
    Forall (λ c, c ≠ 0 ∧ 0 ≤ dval c < base) l.
Proof.
  unfold utoa. destruct (Z.ltb_spec base 2), (Z.ltb_spec 16 base); try lia. cbn [orb].
  destruct (Z.eqb_spec v 0) as [->|Hne].
  { exists [48]. split; [done|]. split; [done|]. constructor; [|constructor].
    split; [done|]. change (dval 48) with 0. lia. }
  destruct (utoa_loop_spec 32 v base) as (l & Hl & Hnum & Hall); [done|done|].
  rewrite Hl. exists l. split; [done|]. split; [done|].
  eapply Forall_impl; [done|]. simpl. tauto.
Qed.

Lemma utoa_numeral_witness :
  ∃ l, utoa 48879 16 = Some (rev l ++ [0]) ∧ num 16 l = 48879 ∧
    Forall (λ c, c ≠ 0 ∧ 0 ≤ dval c < 16) l.
Proof. apply utoa_numeral; lia. Defined.
