(* ===== verification/Block.v ===== *)
(** * Block programs: what the filesystem asks of the layer below (fs/bcache.h)

    A filesystem routine is a program over two operations, reading and
    writing one 512-byte block.  Such a program can be run on a plain disk
    ([run_disk]: a map from block number to contents) or on any other layer
    that provides the two operations.  Proofs about the filesystem use the
    plain disk; [BlockLayer] states what an implementation has to promise so
    that they carry over ([run_refines]). *)

From S2P Require Import Prelude.

Definition BLOCK_SIZE : nat := 512.

Inductive prog (A : Type) : Type :=
| Ret (a : A)
| Fault
| Read (blk : Z) (k : list Z → prog A)
| Write (blk : Z) (buf : list Z) (k : prog A).
Arguments Ret {A} a.
Arguments Fault {A}.
Arguments Read {A} blk k.
Arguments Write {A} blk buf k.

Fixpoint prog_bind_def {A B} (k : A → prog B) (p : prog A) : prog B :=
  match p with
  | Ret a => k a
  | Fault => Fault
  | Read blk c => Read blk (λ buf, prog_bind_def k (c buf))
  | Write blk buf c => Write blk buf (prog_bind_def k c)
  end.

#[global] Instance prog_ret : MRet prog := @Ret.
#[global] Instance prog_bind : MBind prog := @prog_bind_def.

Definition of_option {A} (o : option A) : prog A := from_option Ret Fault o.

(** ** The plain disk *)

Abbreviation disk := (gmap Z (list Z)).
Definition zero_block : list Z := replicate BLOCK_SIZE 0.
(** What a buffer of one block holds. *)
Definition sec_ok (b : list Z) : Prop := length b = BLOCK_SIZE ∧ Forall is_byte b.
#[global] Instance sec_ok_dec b : Decision (sec_ok b).
Proof. apply _. Defined.

Definition sector (d : disk) (blk : Z) : list Z := default zero_block (d !! blk).

(** The filesystem's own extent: superblock to last data block. An access
    outside it, or a write from a buffer that is not a block of bytes, is outside the
    contract of the layer below. *)
Definition DISK_BLOCKS : Z := 2064.
Definition on_disk (blk : Z) : Prop := 0 ≤ blk < DISK_BLOCKS.
#[global] Instance on_disk_dec blk : Decision (on_disk blk).
Proof. apply _. Defined.

Fixpoint run_disk {A} (p : prog A) : M disk A := λ d,
  match p with
  | Ret a => Some (a, d)
  | Fault => None
  | Read blk k => if decide (on_disk blk) then run_disk (k (sector d blk)) d else None
  | Write blk buf k =>
      if decide (on_disk blk ∧ sec_ok buf)
      then run_disk k (<[blk := buf]> d) else None
  end.

(** ** What a block layer promises *)

Class BlockLayer (S : Type) := {
  layer_read : Z → M S (list Z);
  layer_write : Z → list Z → M S unit;
}.

(** [layer_ok] is the layer's invariant, [layer_view] the contents it shows. *)
Class BlockLayerSpec (S : Type) `{BlockLayer S} := {
  layer_ok : S → Prop;
  layer_view : S → Z → list Z;
  layer_read_spec : ∀ s blk, layer_ok s → on_disk blk →
    ∃ s', layer_read blk s = Some (layer_view s blk, s') ∧ layer_ok s' ∧
          ∀ b, on_disk b → layer_view s' b = layer_view s b;
  layer_write_spec : ∀ s blk buf, layer_ok s → on_disk blk → sec_ok buf →
    ∃ s', layer_write blk buf s = Some (tt, s') ∧ layer_ok s' ∧
          ∀ b, on_disk b → layer_view s' b = if decide (b = blk) then buf else layer_view s b;
}.

Section refinement.
Context {S : Type} `{BlockLayer S, !BlockLayerSpec S}.

Fixpoint run_layer {A} (p : prog A) : M S A :=
  match p with
  | Ret a => mret a
  | Fault => fault
  | Read blk k => buf ← layer_read blk; run_layer (k buf)
  | Write blk buf k => _ ← layer_write blk buf; run_layer k
  end.

(** The layer shows the same contents as the plain disk. *)
Definition shows (s : S) (d : disk) : Prop :=
  layer_ok s ∧ ∀ blk, on_disk blk → layer_view s blk = sector d blk.

Lemma sector_insert d blk buf b :
  sector (<[blk := buf]> d) b = if decide (b = blk) then buf else sector d b.
Proof.
  unfold sector. case_decide as E; [by rewrite E, lookup_insert_eq|by rewrite lookup_insert_ne].
Qed.

Lemma run_refines {A} (p : prog A) s d a d' : shows s d → run_disk p d = Some (a, d') →
  ∃ s', run_layer p s = Some (a, s') ∧ shows s' d'.
Proof.
  revert s d. induction p as [x| |blk k IH|blk buf k IH]; intros s d [Hok Hv]; simpl.
  - intros [= <- <-]. by exists s.
  - done.
  - case_decide as Hd; [|done]. intros Hrun.
    destruct (layer_read_spec s blk Hok Hd) as (s1 & Hr & Hok1 & Hv1).
    rewrite (M_bind_run _ _ _ _ _ Hr), Hv by done. eapply IH; [|done].
    split; [done|]. intros b Hb. rewrite Hv1 by done. by apply Hv.
  - case_decide as Hd; [|done]. intros Hrun. destruct Hd as [Hd Hlen].
    destruct (layer_write_spec s blk buf Hok Hd Hlen) as (s1 & Hw & Hok1 & Hv1).
    rewrite (M_bind_run _ _ _ _ _ Hw). eapply IH; [|done].
    split; [done|]. intros b Hb. rewrite Hv1, sector_insert by done. case_decide; [done|by apply Hv].
Qed.
End refinement.

(** ** Running sequences of block operations *)

Lemma run_bind {A B} (p : prog A) (k : A → prog B) d :
  run_disk (p ≫= k) d = match run_disk p d with Some (a, d') => run_disk (k a) d' | None => None end.
Proof.
  revert d. induction p as [x| |blk c IH|blk buf c IH]; intros d.
  - done.
  - done.
  - change (run_disk (Read blk c ≫= k) d) with
      (if decide (on_disk blk) then run_disk (c (sector d blk) ≫= k) d else None).
    cbn [run_disk]. case_decide; [apply IH|done].
  - change (run_disk (Write blk buf c ≫= k) d) with
      (if decide (on_disk blk ∧ sec_ok buf)
       then run_disk (c ≫= k) (<[blk := buf]> d) else None).
    cbn [run_disk]. case_decide; [apply IH|done].
Qed.

Lemma run_bind_Some {A B} (p : prog A) (k : A → prog B) d a d' :
  run_disk p d = Some (a, d') → run_disk (p ≫= k) d = run_disk (k a) d'.
Proof. intros E. by rewrite run_bind, E. Qed.

(** The rule for a bounded loop on the plain disk. *)
Lemma run_for_ret {R} (P : Z → disk → Prop) (Q : R → disk → Prop)
    (body : Z → prog (option R)) (n : nat) (i : Z) (d : disk) :
  (∀ j t, i ≤ j < i + Z.of_nat n → P j t → ∃ r t', run_disk (body j) t = Some (r, t') ∧
     match r with None => P (j + 1) t' | Some v => Q v t' end) →
  P i d →
  ∃ r d', run_disk (for_ret n i body) d = Some (r, d') ∧
    match r with None => P (i + Z.of_nat n) d' | Some v => Q v d' end.
Proof.
  revert i d. induction n as [|n IH]; intros i d Hbody HP; cbn [for_ret].
  - exists None, d. split; [done|]. by replace (i + Z.of_nat 0) with i by lia.
  - destruct (Hbody i d ltac:(lia) HP) as (r & t & Hr & Hpost).
    rewrite (run_bind_Some _ _ _ _ _ Hr). destruct r as [v|]; [by exists (Some v), t|].
    destruct (IH (i + 1) t) as (r & d' & Hrun & Hfin); [|done|].
    { intros j t0 Hj. apply Hbody. lia. }
    exists r, d'. split; [done|]. destruct r; [done|].
    by replace (i + Z.of_nat (S n)) with (i + 1 + Z.of_nat n) by lia.
Qed.

(** Loops whose body leaves the disk alone until the iteration that returns. *)
Lemma run_for_ret_none {R} (body : Z → prog (option R)) (n : nat) (i : Z) (d : disk) :
  (∀ j, i ≤ j < i + Z.of_nat n → run_disk (body j) d = Some (None, d)) →
  run_disk (for_ret n i body) d = Some (None, d).
Proof.
  revert i. induction n as [|n IH]; intros i Hb; cbn [for_ret]; [done|].
  rewrite (run_bind_Some _ _ _ _ _ (Hb i ltac:(lia))). apply IH. intros j Hj. apply Hb. lia.
Qed.

Lemma run_for_ret_first {R} (body : Z → prog (option R)) (n : nat) (i k : Z) (d d' : disk) (r : R) :
  i ≤ k < i + Z.of_nat n → (∀ j, i ≤ j < k → run_disk (body j) d = Some (None, d)) →
  run_disk (body k) d = Some (Some r, d') → run_disk (for_ret n i body) d = Some (Some r, d').
Proof.
  revert i. induction n as [|n IH]; intros i Hk Hb Hr; cbn [for_ret]; [lia|].
  destruct (decide (i = k)) as [->|Hne].
  - by rewrite (run_bind_Some _ _ _ _ _ Hr).
  - rewrite (run_bind_Some _ _ _ _ _ (Hb i ltac:(lia))). apply IH; [lia| |done].
    intros j Hj. apply Hb. lia.
Qed.
