(* ===== verification/Bcache.v ===== *)
(** * The write-back block cache (fs/bcache.c, fs/bcache.h)

    32 slots over a disk.  The disk is reached through the calls of
    drivers/ata.h; [AtaDisk] is their interface and [AtaDiskSpec] what a
    working disk promises.  The cache shows, for each block, the slot that
    holds it or else the disk ([view]); the theorems say that it is a block
    layer in the sense of [BlockLayerSpec], and that [bcache_sync] brings the
    disk up to date. *)

From S2P Require Import Prelude Block.

Definition SLOTS : nat := 32.

(** ** The disk below *)

(** [ata_read_sector lba buf] returns the status and the contents of [buf]
    afterwards. *)
Class AtaDisk (D : Type) := {
  ata_init : M D unit;
  ata_read_sector : Z → list Z → M D (Z * list Z);
  ata_write_sector : Z → list Z → M D Z;
}.

(** A disk is at rest when it has been reset and does nothing; it is ready for
    use after [ata_init]. *)
Class AtaDiskSpec (D : Type) `{AtaDisk D} := {
  disk_rest : D → Prop;
  disk_ok : D → Prop;
  disk_sector : D → Z → list Z;
  disk_sector_ok : ∀ d b, disk_ok d → on_disk b → sec_ok (disk_sector d b);
  disk_init_spec : ∀ d, disk_rest d →
    ∃ d', ata_init d = Some (tt, d') ∧ disk_ok d' ∧ ∀ b, on_disk b → disk_sector d' b = disk_sector d b;
  disk_read_spec : ∀ d lba buf, disk_ok d → on_disk lba → length buf = BLOCK_SIZE →
    ∃ d', ata_read_sector lba buf d = Some ((0, disk_sector d lba), d') ∧ disk_ok d' ∧
          ∀ b, on_disk b → disk_sector d' b = disk_sector d b;
  disk_write_spec : ∀ d lba buf, disk_ok d → on_disk lba → sec_ok buf →
    ∃ d', ata_write_sector lba buf d = Some (0, d') ∧ disk_ok d' ∧
          ∀ b, on_disk b → disk_sector d' b = if decide (b = lba) then buf else disk_sector d b;
}.

(** ** State and operations *)

Record slot_t := Slot { s_blk : Z; valid : Z; dirty : Z; data : list Z }.

Record bcache (D : Type) := Bcache {
  slots : list slot_t; hand : Z; hits : Z; misses : Z; dev : D }.
Arguments Bcache {D}.
Arguments slots {D}.
Arguments hand {D}.
Arguments hits {D}.
Arguments misses {D}.
Arguments dev {D}.

Section ops.
Context {D : Type} `{AtaDisk D}.
Abbreviation MC := (M (bcache D)).

Definition slot_at (i : Z) : MC slot_t := λ s, (λ x, (x, s)) <$> (slots s !! Z.to_nat i).
Definition set_slot (i : Z) (x : slot_t) : MC unit :=
  modify (λ s, Bcache (<[Z.to_nat i := x]> (slots s)) (hand s) (hits s) (misses s) (dev s)).
Definition set_hand (h : Z) : MC unit :=
  modify (λ s, Bcache (slots s) h (hits s) (misses s) (dev s)).
Definition count_hit : MC unit :=
  modify (λ s, Bcache (slots s) (hand s) (u32 (hits s + 1)) (misses s) (dev s)).
Definition count_miss : MC unit :=
  modify (λ s, Bcache (slots s) (hand s) (hits s) (u32 (misses s + 1)) (dev s)).
Definition on_dev {A} (c : M D A) : MC A := λ s,
  match c (dev s) with
  | Some (a, d') => Some (a, Bcache (slots s) (hand s) (hits s) (misses s) d')
  | None => None
  end.

Definition bcache_init : MC unit :=
  _ ← for_ret (R:=unit) SLOTS 0 (λ i,
        x ← slot_at i; _ ← set_slot i (Slot (s_blk x) 0 0 (data x)); mret None);
  modify (λ s, Bcache (slots s) 0 0 0 (dev s)).

Definition find (blk : Z) : MC (option Z) :=
  for_ret SLOTS 0 (λ i,
    x ← slot_at i;
    mret (if truth (valid x) && (s_blk x =? blk) then Some i else None)).

Definition evict : MC Z :=
  h ← gets hand;
  x ← slot_at h;
  _ ← set_hand (u32 (h + 1) `mod` Z.of_nat SLOTS);
  _ ← (if truth (valid x) && truth (dirty x)
       then on_dev (ata_write_sector (s_blk x) (data x)) else mret 0);
  mret h.

Definition bcache_read (blk : Z) : MC (list Z) :=
  f ← find blk;
  i ← match f with
      | Some i => _ ← count_hit; mret i
      | None =>
          _ ← count_miss;
          i ← evict;
          x ← slot_at i;
          r ← on_dev (ata_read_sector blk (data x));
          _ ← set_slot i (Slot blk 1 0 r.2);
          mret i
      end;
  x ← slot_at i;
  mret (data x).

Definition bcache_write (blk : Z) (buf : list Z) : MC unit :=
  f ← find blk;
  i ← match f with
      | Some i => mret i
      | None =>
          i ← evict;
          x ← slot_at i;
          _ ← set_slot i (Slot blk 1 (dirty x) (data x));
          mret i
      end;
  x ← slot_at i;
  if decide (length buf < BLOCK_SIZE)%nat then fault
  else set_slot i (Slot (s_blk x) (valid x) 1 (take BLOCK_SIZE buf)).

Definition bcache_sync : MC unit :=
  _ ← for_ret (R:=unit) SLOTS 0 (λ i,
        x ← slot_at i;
        if truth (valid x) && truth (dirty x) then
          _ ← on_dev (ata_write_sector (s_blk x) (data x));
          _ ← set_slot i (Slot (s_blk x) (valid x) 0 (data x));
          mret None
        else mret None);
  mret tt.

Definition bcache_hits : MC Z := gets hits.
Definition bcache_misses : MC Z := gets misses.
End ops.

#[global] Instance bcache_layer {D} `{AtaDisk D} : BlockLayer (bcache D) :=
  {| layer_read := bcache_read; layer_write := bcache_write |}.

(** ** Invariant and view *)

Section cache_spec.
Context {D : Type} `{AtaDisk D, !AtaDiskSpec D}.
Implicit Types s : bcache D.

Definition hit (blk : Z) (x : slot_t) : Prop := valid x ≠ 0 ∧ s_blk x = blk.
#[global] Instance hit_dec blk x : Decision (hit blk x).
Proof. apply _. Defined.

Definition view s (blk : Z) : list Z :=
  match list_find (hit blk) (slots s) with
  | Some (_, x) => data x
  | None => disk_sector (dev s) blk
  end.

(** A valid slot holds a block of the disk; while it is clean, the disk holds
    the same bytes. *)
Definition slot_ok (d : D) (x : slot_t) : Prop :=
  length (data x) = BLOCK_SIZE ∧
  (valid x ≠ 0 → on_disk (s_blk x) ∧ sec_ok (data x) ∧
                 (dirty x = 0 → data x = disk_sector d (s_blk x))).

Definition slots_distinct (l : list slot_t) : Prop :=
  ∀ i j x y, l !! i = Some x → l !! j = Some y →
    valid x ≠ 0 → valid y ≠ 0 → s_blk x = s_blk y → i = j.

Definition bc_ok s : Prop :=
  length (slots s) = SLOTS ∧ 0 ≤ hand s < Z.of_nat SLOTS ∧
  slots_distinct (slots s) ∧ Forall (slot_ok (dev s)) (slots s) ∧ disk_ok (dev s).

Definition synced s : Prop := Forall (λ x, valid x ≠ 0 → dirty x = 0) (slots s).

(** ** The cache is a block layer *)

Lemma view_hit s i x : bc_ok s → slots s !! i = Some x → valid x ≠ 0 → view s (s_blk x) = data x.
Proof.
  intros (_ & _ & Hd & _) Hi Hv. unfold view.
  destruct (list_find (hit (s_blk x)) (slots s)) as [[j y]|] eqn:E.
  - apply list_find_Some in E as (Hj & [Hvy Hby] & _).
    assert (j = i) as -> by (eapply Hd; eauto). congruence.
  - rewrite list_find_None, Forall_lookup in E. destruct (E i x Hi). done.
Qed.

Lemma view_miss s blk : (∀ i x, slots s !! i = Some x → ¬ hit blk x) →
  view s blk = disk_sector (dev s) blk.
Proof.
  intros Hn. unfold view. destruct (list_find _ _) as [[j y]|] eqn:E; [|done].
  apply list_find_Some in E as (Hj & Hh & _). destruct (Hn _ _ Hj Hh).
Qed.

Lemma slot_at_run s i x : slots s !! Z.to_nat i = Some x → slot_at i s = Some (x, s).
Proof. unfold slot_at. by intros ->. Qed.

Lemma bind_set_slot {B} i x (k : unit → M (bcache D) B) s : (set_slot i x ≫= k) s =
  k tt (Bcache (<[Z.to_nat i := x]> (slots s)) (hand s) (hits s) (misses s) (dev s)).
Proof. done. Qed.

Lemma find_run s blk : length (slots s) = SLOTS →
  find blk s = Some ((λ p, Z.of_nat p.1) <$> list_find (hit blk) (slots s), s).
Proof.
  intros Hlen.
  destruct (for_ret_rule (λ j t, t = s ∧ ∀ i x, (Z.of_nat i < j) → slots s !! i = Some x → ¬ hit blk x)
    (λ r t, t = s ∧ ∃ i x, r = Z.of_nat i ∧ list_find (hit blk) (slots s) = Some (i, x))
    (λ i, x ← slot_at i; mret (if truth (valid x) && (s_blk x =? blk) then Some i else None))
    SLOTS 0 s) as (r & s' & Hrun & Hpost).
  - intros j t Hj [-> Hno].
    destruct (lookup_lt_is_Some_2 (slots s) (Z.to_nat j)) as [x Hx]; [rewrite Hlen; lia|].
    rewrite (M_bind_run _ _ _ _ _ (slot_at_run _ _ _ Hx)). eexists _, s. split; [done|].
    destruct (truth (valid x) && (s_blk x =? blk)) eqn:E.
    + apply andb_true_iff in E as [Hv%truth_true Hb%Z.eqb_eq]. split; [done|].
      exists (Z.to_nat j), x. split; [lia|]. apply list_find_Some. split; [done|]. split; [done|].
      intros i y Hy Hi. apply (Hno i y); [lia|done].
    + split; [done|]. intros i y Hi Hy [Hv Hb].
      destruct (decide (Z.of_nat i = j)) as [<-|]; [|by apply (Hno i y ltac:(lia) Hy)].
      rewrite Nat2Z.id in Hx. simplify_eq. apply truth_true in Hv. rewrite Hv, Z.eqb_refl in E. done.
  - split; [done|]. intros; lia.
  - unfold find. rewrite Hrun. destruct r as [v|].
    + destruct Hpost as (-> & i & x & -> & ->). done.
    + destruct Hpost as [-> Hno]. destruct (list_find _ _) as [[i x]|] eqn:E; [|done].
      apply list_find_Some in E as (Hi & Hh & _). destruct (Hno i x); [|done|done].
      apply lookup_lt_Some in Hi. lia.
Qed.

(** The victim's bytes are on the disk before its slot is reused. *)
Definition flushed (d d' : D) (x : slot_t) : Prop :=
  disk_ok d' ∧ ∀ b, on_disk b → disk_sector d' b =
    if decide (hit b x ∧ dirty x ≠ 0) then data x else disk_sector d b.

Lemma evict_run s : bc_ok s → ∃ i x h d', evict s = Some (i, Bcache (slots s) h (hits s) (misses s) d') ∧
  slots s !! Z.to_nat i = Some x ∧ 0 ≤ i < Z.of_nat SLOTS ∧ 0 ≤ h < Z.of_nat SLOTS ∧ flushed (dev s) d' x.
Proof.
  intros (Hlen & Hh & Hd & Hall & Hdisk).
  destruct (lookup_lt_is_Some_2 (slots s) (Z.to_nat (hand s))) as [x Hx]; [rewrite Hlen; lia|].
  unfold evict. mrun. rewrite (M_bind_run _ _ _ _ _ (slot_at_run _ _ _ Hx)). unfold set_hand. mrun.
  assert (0 ≤ u32 (hand s + 1) `mod` Z.of_nat SLOTS < Z.of_nat SLOTS) as Hh'
    by (apply Z.mod_pos_bound; unfold SLOTS; lia).
  pose proof (Forall_lookup_1 _ _ _ _ Hall Hx) as Hok.
  destruct (truth (valid x) && truth (dirty x)) eqn:E.
  - apply andb_true_iff in E as [Hv%truth_true Hdi%truth_true].
    destruct (proj2 Hok Hv) as (Hb & Hl & _).
    destruct (disk_write_spec (dev s) (s_blk x) (data x) Hdisk Hb Hl) as (d' & Hw & Hok' & Hs).
    exists (hand s), x. eexists _, d'. split; [unfold on_dev, mbind, M_bind; simpl; by rewrite Hw|].
    split; [done|]. split; [done|]. split; [done|]. split; [done|]. intros b Hon. rewrite Hs by done.
    destruct (decide (b = s_blk x)) as [->|].
    + by rewrite decide_True by done.
    + rewrite decide_False; [done|]. intros [[_ ?] _]. congruence.
  - eexists _, x, _, _. split; [done|]. split; [done|]. split; [done|]. split; [done|]. split; [done|].
    intros b _. rewrite decide_False; [done|]. intros [[Hv%truth_true _] Hdi%truth_true].
    by rewrite Hv, Hdi in E.
Qed.

(** Putting block [blk] in the slot of a flushed victim. *)
Lemma replace_ok s i x h hi mi d' y : bc_ok s → slots s !! i = Some x → 0 ≤ h < Z.of_nat SLOTS →
  flushed (dev s) d' x → list_find (hit (s_blk y)) (slots s) = None →
  valid y ≠ 0 → slot_ok d' y →
  let s' := Bcache (<[i := y]> (slots s)) h hi mi d' in
  bc_ok s' ∧ ∀ b, on_disk b → view s' b = if decide (b = s_blk y) then data y else view s b.
Proof.
  intros Hok Hi Hh [Hdisk' Hfl] Hnone Hvy Hy s'. pose proof Hok as (Hlen & _ & Hd & Hall & Hdisk).
  rewrite list_find_None, Forall_lookup in Hnone.
  assert (i < length (slots s))%nat as Hlt by (by eapply lookup_lt_Some).
  assert (bc_ok s') as Hok'.
  { split; [simpl; by rewrite length_insert|]. split; [done|]. split; [|split; [|done]].
    - intros j k z w. simpl. rewrite !list_lookup_insert_Some.
      intros [(<- & <- & _)|[? Hz]] [(<- & <- & _)|[? Hw]] Hvz Hvw E; [done| | |by eapply Hd].
      + destruct (Hnone k w Hw). by split.
      + destruct (Hnone j z Hz). by split.
    - apply Forall_lookup. intros j z. simpl. rewrite list_lookup_insert_Some.
      intros [(<- & <- & _)|[Hne Hz]]; [done|].
      destruct (Forall_lookup_1 _ _ _ _ Hall Hz) as [Hzl Hz2]. split; [done|]. intros Hvz.
      destruct (Hz2 Hvz) as (Hon & Hl & Hclean).
      split; [done|]. split; [done|]. intros Hdz. rewrite Hfl by done. rewrite decide_False; [auto|].
      intros [[Hvx Hbx] _]. destruct Hne. eapply Hd; eauto. }
  split; [done|]. intros b Hon. destruct (decide (b = s_blk y)) as [->|Hb].
  { apply (view_hit s' i); [done| |done]. simpl. by apply list_lookup_insert_eq. }
  destruct (list_find (hit b) (slots s)) as [[j z]|] eqn:E.
  - pose proof E as E'. apply list_find_Some in E as (Hj & [Hvz Hbz] & _).
    rewrite <-Hbz at 2. rewrite (view_hit s j z Hok Hj Hvz).
    destruct (decide (j = i)) as [->|Hne].
    + simplify_eq. rewrite view_miss.
      * simpl. rewrite Hfl by done. destruct (decide (dirty x = 0)) as [Hc|Hc].
        -- rewrite decide_False by (by intros [_ ?]). symmetry.
           by apply (proj2 (Forall_lookup_1 _ _ _ _ Hall Hi) Hvz).
        -- by rewrite decide_True.
      * intros k w. simpl. rewrite list_lookup_insert_Some.
        intros [(<- & <- & _)|[Hne Hw]] [Hvw Hbw]; [congruence|]. destruct Hne. eapply Hd; eauto.
    + rewrite <-Hbz. apply (view_hit s' j); [done| |done]. simpl. by rewrite list_lookup_insert_ne.
  - rewrite list_find_None, Forall_lookup in E.
    rewrite (view_miss s b) by (by intros; eapply E). rewrite view_miss.
    + simpl. rewrite Hfl by done. rewrite decide_False; [done|]. intros [Hx _]. by apply (E i x).
    + intros k w. simpl. rewrite list_lookup_insert_Some.
      intros [(<- & <- & _)|[Hne Hw]]; [intros [_ ?]; congruence|by eapply E].
Qed.

(** Overwriting the slot that holds a block with newer bytes. *)
Lemma overwrite_ok s i x y : bc_ok s → slots s !! i = Some x → valid x ≠ 0 →
  s_blk y = s_blk x → valid y ≠ 0 → slot_ok (dev s) y →
  let s' := Bcache (<[i := y]> (slots s)) (hand s) (hits s) (misses s) (dev s) in
  bc_ok s' ∧ ∀ b, view s' b = if decide (b = s_blk y) then data y else view s b.
Proof.
  intros Hok Hi Hvx Hb Hvy Hy s'. pose proof Hok as (Hlen & Hh & Hd & Hall & Hdisk).
  assert (i < length (slots s))%nat as Hlt by (by eapply lookup_lt_Some).
  assert (bc_ok s') as Hok'.
  { split; [simpl; by rewrite length_insert|]. split; [done|]. split; [|split; [|done]].
    - intros j k z w. simpl. rewrite !list_lookup_insert_Some.
      intros [(<- & <- & _)|[? Hz]] [(<- & <- & _)|[? Hw]] Hvz Hvw E; [done| | |by eapply Hd].
      + eapply (Hd i k); eauto. congruence.
      + eapply (Hd j i); eauto. congruence.
    - by apply Forall_insert. }
  split; [done|]. intros b. destruct (decide (b = s_blk y)) as [->|Hne].
  { apply (view_hit s' i); [done| |done]. simpl. by apply list_lookup_insert_eq. }
  destruct (list_find (hit b) (slots s)) as [[j z]|] eqn:E.
  - apply list_find_Some in E as (Hj & [Hvz Hbz] & _). rewrite <-Hbz.
    rewrite (view_hit s j z Hok Hj Hvz). apply (view_hit s' j); [done| |done].
    simpl. rewrite list_lookup_insert_ne; [done|]. intros ->. congruence.
  - rewrite list_find_None, Forall_lookup in E. rewrite !view_miss; [done|by intros; eapply E|].
    intros k w. simpl. rewrite list_lookup_insert_Some.
    intros [(<- & <- & _)|[_ Hw]]; [intros [_ ?]; congruence|by eapply E].
Qed.

Lemma bcache_read_ok s blk : bc_ok s → on_disk blk →
  ∃ s', bcache_read blk s = Some (view s blk, s') ∧ bc_ok s' ∧
        ∀ b, on_disk b → view s' b = view s b.
Proof.
  intros Hok Hon. pose proof Hok as (Hlen & _ & _ & Hall & _). unfold bcache_read.
  rewrite (M_bind_run _ _ _ _ _ (find_run s blk Hlen)).
  destruct (list_find (hit blk) (slots s)) as [[i x]|] eqn:E; simpl; mrun.
  - unfold view at 1. rewrite E. apply list_find_Some in E as (Hi & _ & _).
    unfold count_hit. mrun. erewrite M_bind_run by (apply slot_at_run; by rewrite Nat2Z.id).
    eexists. by split.
  - unfold count_miss. mrun. set (s1 := Bcache _ _ _ _ _).
    destruct (evict_run s1 Hok) as (i & x & h & d' & He & Hx & Hi & Hh & Hfl). mrun.
    erewrite M_bind_run by (apply slot_at_run; exact Hx). mrun.
    destruct (disk_read_spec d' blk (data x) (proj1 Hfl) Hon (proj1 (Forall_lookup_1 _ _ _ _ Hall Hx))) as (d2 & Hr & Hok2 & Hs2).
    unfold on_dev. unfold mbind at 1, M_bind at 1. cbn [dev]. rewrite Hr. unfold set_slot. mrun. cbn [slots hand hits misses dev snd].
    assert (flushed (dev s1) d2 x) as Hfl2.
    { split; [done|]. intros b Hb. rewrite Hs2 by done. by apply Hfl. }
    pose proof (disk_sector_ok d' blk (proj1 Hfl) Hon) as Hl.
    assert (list_find (hit blk) (slots s1) = None) as E1 by exact E.
    destruct (replace_ok s1 (Z.to_nat i) x h (hits s) (u32 (misses s + 1)) d2
                (Slot blk 1 0 (disk_sector d' blk)) Hok Hx Hh Hfl2 E1) as [Hok' Hv']; [done|..].
    { split; [apply Hl|]. intros _. split; [done|]. split; [done|]. intros _. simpl. by rewrite Hs2. }
    erewrite M_bind_run; [|apply slot_at_run; simpl; apply list_lookup_insert_eq; by eapply lookup_lt_Some].
    assert (disk_sector d' blk = view s blk) as Hvb.
    { rewrite (proj2 Hfl) by done. unfold view. rewrite E. rewrite decide_False; [done|].
      rewrite list_find_None, Forall_lookup in E. intros [Hh' _]. by apply (E _ _ Hx). }
    eexists. split; [rewrite <-Hvb; reflexivity|]. split; [exact Hok'|].
    intros b Hb. etransitivity; [exact (Hv' b Hb)|]. case_decide as Eb; [|done].
    simpl in *. by rewrite Eb, Hvb.
Qed.

Lemma bcache_write_ok s blk buf : bc_ok s → on_disk blk → sec_ok buf →
  ∃ s', bcache_write blk buf s = Some (tt, s') ∧ bc_ok s' ∧
        ∀ b, on_disk b → view s' b = if decide (b = blk) then buf else view s b.
Proof.
  intros Hok Hon Hbuf. pose proof Hok as (Hlen & _ & _ & Hall & _). unfold bcache_write.
  rewrite (M_bind_run _ _ _ _ _ (find_run s blk Hlen)).
  destruct (list_find (hit blk) (slots s)) as [[i x]|] eqn:E; cbn [fmap option_fmap option_map fst]; mrun.
  - apply list_find_Some in E as (Hi & [Hv Hb] & _).
    erewrite M_bind_run by (apply slot_at_run; rewrite Nat2Z.id; exact Hi).
    rewrite decide_False, firstn_all2 by (destruct Hbuf; lia). unfold set_slot, modify. rewrite Nat2Z.id.
    eexists. split; [done|].
    destruct (overwrite_ok s i x (Slot (s_blk x) (valid x) 1 buf) Hok Hi Hv) as [Hok' Hv']; try done.
    { split; [apply Hbuf|]. intros _. simpl. rewrite Hb. done. }
    split; [exact Hok'|]. intros b _. rewrite Hv'. simpl. by rewrite Hb.
  - destruct (evict_run s Hok) as (i & x & h & d' & He & Hx & Hi & Hh & Hfl). mrun.
    erewrite M_bind_run by (apply slot_at_run; exact Hx). rewrite bind_assoc, bind_set_slot. mrun. cbn [slots hand hits misses dev].
    assert (Z.to_nat i < length (slots s))%nat as Hlt by (by eapply lookup_lt_Some).
    erewrite M_bind_run; [|apply slot_at_run; simpl; by apply list_lookup_insert_eq].
    rewrite decide_False, firstn_all2 by (destruct Hbuf; lia). unfold set_slot, modify. cbn [slots hand hits misses dev s_blk valid].
    rewrite list_insert_insert_eq.
    eexists. split; [done|].
    destruct (replace_ok s (Z.to_nat i) x h (hits s) (misses s) d' (Slot blk 1 1 buf) Hok Hx Hh Hfl E)
      as [Hok' Hv']; [done|by split; [apply Hbuf|intros _]|]. split; [exact Hok'|]. exact Hv'.
Qed.

(** One iteration of [bcache_sync]: slot [j] is clean afterwards, the contents
    shown are the same. *)
Definition sync_slot (i : Z) : M (bcache D) (option unit) :=
  x ← slot_at i;
  if truth (valid x) && truth (dirty x) then
    _ ← on_dev (ata_write_sector (s_blk x) (data x));
    _ ← set_slot i (Slot (s_blk x) (valid x) 0 (data x));
    mret None
  else mret None.

(** Writing a slot's bytes to the disk disturbs no slot. *)
Lemma write_through_ok t j x d' : bc_ok t → slots t !! j = Some x → valid x ≠ 0 → dirty x ≠ 0 → disk_ok d' →
  (∀ b, on_disk b → disk_sector d' b = if decide (b = s_blk x) then data x else disk_sector (dev t) b) →
  bc_ok (Bcache (slots t) (hand t) (hits t) (misses t) d').
Proof.
  intros (Hlen & Hh & Hd & Hall & _) Hx Hv Hdx Hok' Hs.
  split; [done|]. split; [done|]. split; [done|]. split; [|done].
  apply Forall_lookup. intros i y Hy. cbn [slots] in Hy.
  destruct (Forall_lookup_1 _ _ _ _ Hall Hy) as [Hyl Hy2]. split; [done|]. intros Hvy.
  destruct (Hy2 Hvy) as (Hony & Hly & Hcly).
  split; [done|]. split; [done|]. intros Hdy. cbn [dev]. rewrite Hs by done.
  case_decide as Eb; [|auto]. assert (j = i) as <- by (eapply Hd; eauto). congruence.
Qed.

Lemma sync_slot_run t j : bc_ok t → 0 ≤ j < Z.of_nat SLOTS →
  ∃ t', sync_slot j t = Some (None, t') ∧ bc_ok t' ∧ (∀ b, on_disk b → view t' b = view t b) ∧
    ∀ i y, slots t' !! i = Some y → valid y ≠ 0 →
      (Z.of_nat i = j ∧ dirty y = 0) ∨ (Z.of_nat i ≠ j ∧ slots t !! i = Some y).
Proof.
  intros Hokt Hj. pose proof Hokt as (Hlen & Hh & Hd & Hall & Hdisk). unfold sync_slot.
  destruct (lookup_lt_is_Some_2 (slots t) (Z.to_nat j)) as [x Hx]; [rewrite Hlen; lia|].
  rewrite (M_bind_run _ _ _ _ _ (slot_at_run _ _ _ Hx)).
  destruct (truth (valid x) && truth (dirty x)) eqn:E.
  - apply andb_true_iff in E as [Hv%truth_true Hdi%truth_true].
    destruct (proj2 (Forall_lookup_1 _ _ _ _ Hall Hx) Hv) as (Hon & Hl & _).
    destruct (disk_write_spec (dev t) (s_blk x) (data x) Hdisk Hon Hl) as (d' & Hw & Hok' & Hs).
    unfold on_dev. unfold mbind at 1, M_bind at 1. rewrite Hw. unfold set_slot. mrun.
    eexists. split; [done|]. cbn [slots hand hits misses dev].
    pose proof (write_through_ok t _ x d' Hokt Hx Hv Hdi Hok' Hs) as Hok1.
    destruct (overwrite_ok _ (Z.to_nat j) x (Slot (s_blk x) (valid x) 0 (data x)) Hok1 Hx Hv) as [Hok2 Hv2]; try done.
    { split; [apply Hl|]. intros _. simpl. split; [done|]. split; [done|]. intros _. rewrite Hs by done. by rewrite decide_True. }
    split; [exact Hok2|]. split.
    + intros b Hb. etransitivity; [exact (Hv2 b)|]. simpl. case_decide as Eb.
      * rewrite Eb. symmetry. by apply (view_hit t (Z.to_nat j)).
      * unfold view. simpl. destruct (list_find (hit b) (slots t)) as [[k y]|]; [done|].
        rewrite Hs by done. by rewrite decide_False.
    + intros i y. rewrite list_lookup_insert_Some.
      intros [(<- & <- & _)|[Hne Hy]] _; [left; split; [lia|done]|right; split; [lia|done]].
  - exists t. split; [done|]. split; [done|]. split; [done|]. intros i y Hy Hvy.
    destruct (decide (Z.of_nat i = j)) as [<-|]; [|by right]. left. split; [done|].
    rewrite Nat2Z.id in Hx. simplify_eq. apply truth_true in Hvy. rewrite Hvy in E. by apply truth_false.
Qed.

Lemma bcache_sync_ok s : bc_ok s →
  ∃ s', bcache_sync s = Some (tt, s') ∧ bc_ok s' ∧ synced s' ∧
        (∀ b, on_disk b → view s' b = view s b) ∧
        ∀ b, on_disk b → disk_sector (dev s') b = view s b.
Proof.
  intros Hok. unfold bcache_sync.
  destruct (for_ret_rule (R:=unit)
    (λ j t, bc_ok t ∧ (∀ b, on_disk b → view t b = view s b) ∧
       ∀ i x, (Z.of_nat i < j) → slots t !! i = Some x → valid x ≠ 0 → dirty x = 0) (λ _ _, False)
    sync_slot SLOTS 0 s) as (r & s' & Hrun & Hpost).
  - intros j t Hj (Hokt & Hvt & Hcl).
    destruct (sync_slot_run t j Hokt Hj) as (t' & Hr & Hok' & Hv' & Hsl).
    exists None, t'. split; [done|]. split; [done|]. split; [intros b Hb; rewrite Hv' by done; by apply Hvt|].
    intros i y Hi Hy Hvy. destruct (Hsl i y Hy Hvy) as [[_ ?]|[Hne Hold]]; [done|]. apply (Hcl i); [lia|done..].
  - split; [done|]. split; [done|]. intros; lia.
  - unfold sync_slot in Hrun. rewrite (M_bind_run _ _ _ _ _ Hrun). destruct r as [[]|]; [done|].
    destruct Hpost as (Hok' & Hv' & Hcl).
    exists s'. split; [done|]. split; [done|]. pose proof Hok' as (Hlen & _ & _ & Hall & _).
    assert (synced s') as Hsy.
    { apply Forall_lookup. intros i x Hx. apply (Hcl i); [|done]. apply lookup_lt_Some in Hx. lia. }
    split; [done|]. split; [done|]. intros b Hb. rewrite <-Hv' by done. unfold view.
    destruct (list_find (hit b) (slots s')) as [[k y]|] eqn:E; [|done].
    apply list_find_Some in E as (Hk & [Hvy <-] & _). symmetry.
    apply (proj2 (Forall_lookup_1 _ _ _ _ Hall Hk) Hvy). by apply (Forall_lookup_1 _ _ _ _ Hsy Hk).
Qed.

Lemma bcache_init_ok s : length (slots s) = SLOTS → Forall (λ x, length (data x) = BLOCK_SIZE) (slots s) →
  disk_ok (dev s) →
  ∃ s', bcache_init s = Some (tt, s') ∧ bc_ok s' ∧ dev s' = dev s ∧
        ∀ b, view s' b = disk_sector (dev s) b.
Proof.
  intros Hlen Hfull Hdisk. unfold bcache_init.
  destruct (for_ret_rule (R:=unit)
    (λ j t, length (slots t) = SLOTS ∧ Forall (λ x, length (data x) = BLOCK_SIZE) (slots t) ∧ dev t = dev s ∧
       ∀ i x, (Z.of_nat i < j) → slots t !! i = Some x → valid x = 0) (λ _ _, False)
    (λ i, x ← slot_at i; _ ← set_slot i (Slot (s_blk x) 0 0 (data x)); mret None) SLOTS 0 s)
    as (r & s' & Hrun & Hpost).
  - intros j t Hj (Hl & Hfu & Hde & Hinv).
    destruct (lookup_lt_is_Some_2 (slots t) (Z.to_nat j)) as [x Hx]; [rewrite Hl; lia|].
    rewrite (M_bind_run _ _ _ _ _ (slot_at_run _ _ _ Hx)). unfold set_slot. mrun.
    eexists None, _. split; [done|]. cbn [slots dev]. split; [by rewrite length_insert|].
    split; [apply Forall_insert; [done|]; by apply (Forall_lookup_1 _ _ _ _ Hfu Hx)|]. split; [done|].
    intros i y Hi. rewrite list_lookup_insert_Some. intros [(<- & <- & _)|[Hne Hy]]; [done|].
    apply (Hinv i); [lia|done].
  - split; [done|]. split; [done|]. split; [done|]. intros; lia.
  - rewrite (M_bind_run _ _ _ _ _ Hrun). destruct r as [[]|]; [done|]. destruct Hpost as (Hl & Hfu & Hde & Hinv).
    assert (∀ i x, slots s' !! i = Some x → valid x = 0) as Hz.
    { intros i x Hx. apply (Hinv i); [|done]. apply lookup_lt_Some in Hx. lia. }
    eexists. split; [done|]. cbn [dev]. split; [|split; [done|]].
    + split; [done|]. split; [simpl; unfold SLOTS; lia|]. split; [|split; [|by rewrite <-Hde in Hdisk]].
      * intros i j x y Hx _ Hv. destruct Hv. by eapply Hz.
      * apply Forall_lookup. intros i x Hx. split; [by apply (Forall_lookup_1 _ _ _ _ Hfu Hx)|].
        intros Hv. destruct Hv. by eapply Hz.
    + intros b. rewrite view_miss; [simpl; by rewrite Hde|].
      intros i x Hx [Hv _]. destruct Hv. by eapply Hz.
Qed.

#[global] Instance bcache_layer_spec : BlockLayerSpec (bcache D) :=
  {| layer_ok := bc_ok; layer_view := view;
     layer_read_spec := bcache_read_ok; layer_write_spec := bcache_write_ok |}.
End cache_spec.

(** ** A concrete disk, for the witnesses *)

Definition plain_ata : AtaDisk disk :=
  {| ata_init := mret tt; ata_read_sector := λ lba _ d, Some ((0, sector d lba), d);
     ata_write_sector := λ lba buf d, Some (0, <[lba := buf]> d) |}.

Definition plain_ok (d : disk) : Prop := ∀ b, sec_ok (sector d b).

Lemma plain_init_ok d : plain_ok d →
  ∃ d', @ata_init _ plain_ata d = Some (tt, d') ∧ plain_ok d' ∧ ∀ b, on_disk b → sector d' b = sector d b.
Proof. intros Hd. by exists d. Qed.

Lemma plain_read_ok d lba (buf : list Z) : plain_ok d → on_disk lba → length buf = BLOCK_SIZE →
  ∃ d', @ata_read_sector _ plain_ata lba buf d = Some ((0, sector d lba), d') ∧ plain_ok d' ∧
        ∀ b, on_disk b → sector d' b = sector d b.
Proof. intros Hd _ _. by exists d. Qed.

Lemma plain_write_ok d lba buf : plain_ok d → on_disk lba → sec_ok buf →
  ∃ d', @ata_write_sector _ plain_ata lba buf d = Some (0, d') ∧ plain_ok d' ∧
        ∀ b, on_disk b → sector d' b = if decide (b = lba) then buf else sector d b.
Proof.
  intros Hd _ Hl. eexists. split; [done|]. split; [|intros b _; apply sector_insert].
  intros b. rewrite sector_insert. by case_decide.
Qed.

Definition plain_ata_spec : @AtaDiskSpec disk plain_ata :=
  @Build_AtaDiskSpec disk plain_ata plain_ok plain_ok sector (λ d b H _, H b) plain_init_ok plain_read_ok plain_write_ok.

(** Slots as they are at boot, over a given disk. *)
Definition fresh_cache {D} (d : D) : bcache D :=
  Bcache (replicate SLOTS (Slot 0 0 0 zero_block)) 0 0 0 d.

Lemma empty_plain_ok : plain_ok ∅.
Proof. intros b. apply (bool_decide_unpack _). reflexivity. Qed.

Lemma fresh_shows d : plain_ok d →
  @shows _ _ (@bcache_layer_spec _ plain_ata plain_ata_spec) (fresh_cache d) d.
Proof.
  intros Hd. split.
  - split; [done|]. split; [done|]. split; [|split; [|exact Hd]].
    + intros i j x y Hx _ Hv. apply lookup_replicate in Hx as [-> _]. done.
    + apply Forall_replicate. split; [done|]. by intros [].
  - intros b _. reflexivity.
Qed.

(** ** Properties *)

(** C9. Any sequence of block reads and writes gives on the cache the results it
    gives on a plain disk, and leaves the cache showing the contents that
    disk ends with: the cache is transparent. *)
Theorem bcache_transparent {D} `{AtaDisk D, !AtaDiskSpec D} {A} (p : prog A)
    (s : bcache D) (d : disk) (a : A) (d' : disk)
    (Hs : shows s d) (Hrun : run_disk p d = Some (a, d')) :
  ∃ s', run_layer p s = Some (a, s') ∧ shows s' d'.
Proof. by eapply run_refines. Qed.

(** Write a block, then read it back. *)
Definition write_read (blk : Z) (buf : list Z) : prog (list Z) := Write blk buf (Read blk Ret).

Lemma bcache_transparent_witness :
  ∃ s', @run_layer _ (@bcache_layer _ plain_ata) _ (write_read 7 (replicate 512 3)) (fresh_cache ∅)
          = Some (replicate 512 3, s') ∧
        @shows _ _ (@bcache_layer_spec _ plain_ata plain_ata_spec) s' {[7 := replicate 512 3]}.
Proof.
  apply (@bcache_transparent disk plain_ata plain_ata_spec _ (write_read 7 (replicate 512 3))
           (fresh_cache ∅) ∅ (replicate 512 3) {[7 := replicate 512 3]}).
  - exact (fresh_shows ∅ empty_plain_ok).
  - reflexivity.
Defined.

(** [bcache_sync] makes everything durable: after it, a reboot that starts
    with empty slots on the same disk shows the contents the cache showed
    before the sync. *)
Theorem bcache_sync_durable {D} `{AtaDisk D, !AtaDiskSpec D} (s : bcache D) (Hok : bc_ok s) :
  ∃ s1, bcache_sync s = Some (tt, s1) ∧ bc_ok s1 ∧ synced s1 ∧
    ∀ boot, length (slots boot) = SLOTS → Forall (λ x, length (data x) = BLOCK_SIZE) (slots boot) →
      dev boot = dev s1 →
      ∃ s2, bcache_init boot = Some (tt, s2) ∧ bc_ok s2 ∧
            ∀ b, on_disk b → view s2 b = view s b.
Proof.
  destruct (bcache_sync_ok s Hok) as (s1 & Hrun & Hok1 & Hsy & _ & Hdisk).
  exists s1. split; [done|]. split; [done|]. split; [done|]. intros boot Hlen Hfull Hdev.
  destruct (bcache_init_ok boot Hlen Hfull) as (s2 & Hinit & Hok2 & _ & Hv).
  { rewrite Hdev. apply Hok1. }
  exists s2. split; [done|]. split; [done|]. intros b Hb. rewrite Hv, Hdev. by apply Hdisk.
Qed.

Lemma bcache_sync_durable_witness :
  ∃ s1, @bcache_sync _ plain_ata (fresh_cache ∅) = Some (tt, s1) ∧
    @bc_ok _ plain_ata plain_ata_spec s1 ∧ synced s1 ∧
    ∀ boot, length (slots boot) = SLOTS → Forall (λ x, length (data x) = BLOCK_SIZE) (slots boot) →
      dev boot = dev s1 →
      ∃ s2, bcache_init boot = Some (tt, s2) ∧ @bc_ok _ plain_ata plain_ata_spec s2 ∧
            ∀ b, on_disk b → @view _ plain_ata plain_ata_spec s2 b =
                             @view _ plain_ata plain_ata_spec (fresh_cache ∅) b.
Proof.
  apply (@bcache_sync_durable disk plain_ata plain_ata_spec (fresh_cache ∅)).
  exact (proj1 (fresh_shows ∅ empty_plain_ok)).
Defined.

(** A block that is in the cache is read and written without touching the disk. *)
Theorem bcache_hit_no_io {D} `{AtaDisk D, !AtaDiskSpec D} (s : bcache D) blk i x buf
    (Hok : bc_ok s) (Hhit : list_find (hit blk) (slots s) = Some (i, x))
    (Hbuf : sec_ok buf) :
  (∃ s', bcache_read blk s = Some (data x, s') ∧ dev s' = dev s ∧ hits s' = u32 (hits s + 1)) ∧
  (∃ s', bcache_write blk buf s = Some (tt, s') ∧ dev s' = dev s).
Proof.
  pose proof Hok as (Hlen & _). pose proof Hhit as Hf. apply list_find_Some in Hhit as (Hi & _ & _).
  unfold bcache_read, bcache_write. rewrite !(M_bind_run _ _ _ _ _ (find_run s blk Hlen)), Hf. simpl. mrun.
  split.
  - unfold count_hit. mrun. erewrite M_bind_run by (apply slot_at_run; by rewrite Nat2Z.id).
    eexists. split; [reflexivity|]. done.
  - erewrite M_bind_run by (apply slot_at_run; by rewrite Nat2Z.id).
    rewrite decide_False by (destruct Hbuf; lia). eexists. split; [reflexivity|]. done.
Qed.

(** A cache that holds block 7. *)
Definition cache_with_7 : bcache disk :=
  default (fresh_cache ∅) (snd <$> @bcache_read _ plain_ata 7 (fresh_cache ∅)).

Lemma cache_with_7_ok : @bc_ok _ plain_ata plain_ata_spec cache_with_7.
Proof.
  destruct (@bcache_read_ok _ plain_ata plain_ata_spec (fresh_cache ∅) 7) as (s' & Hrun & Hok & _).
  - exact (proj1 (fresh_shows ∅ empty_plain_ok)).
  - done.
  - unfold cache_with_7. by rewrite Hrun.
Qed.

Lemma bcache_hit_no_io_witness :
  (∃ s', @bcache_read _ plain_ata 7 cache_with_7 = Some (zero_block, s') ∧ dev s' = dev cache_with_7 ∧
         hits s' = u32 (hits cache_with_7 + 1)) ∧
  (∃ s', @bcache_write _ plain_ata 7 zero_block cache_with_7 = Some (tt, s') ∧ dev s' = dev cache_with_7).
Proof.
  apply (@bcache_hit_no_io disk plain_ata plain_ata_spec cache_with_7 7 0%nat (Slot 7 1 0 zero_block) zero_block).
  - exact cache_with_7_ok.
  - reflexivity.
  - exact (empty_plain_ok 7).
Defined.

(** [bcache_read] ignores the status of the disk: when the sector read fails and
    leaves the buffer as it was, the stale bytes of the evicted slot are
    returned as the block and kept as a valid, clean copy of it. *)
Theorem bcache_read_ignores_error {D} `{AtaDisk D} (s : bcache D) blk x rc d'
    (Hlen : length (slots s) = SLOTS) (Hmiss : list_find (hit blk) (slots s) = None)
    (Hx : slots s !! Z.to_nat (hand s) = Some x) (Hclean : dirty x = 0)
    (Hfail : rc ≠ 0 ∧ ata_read_sector blk (data x) (dev s) = Some ((rc, data x), d')) :
  ∃ s', bcache_read blk s = Some (data x, s') ∧
        slots s' !! Z.to_nat (hand s) = Some (Slot blk 1 0 (data x)).
Proof.
  destruct Hfail as [_ Hfail].
  assert (Z.to_nat (hand s) < length (slots s))%nat as Hlt by (by eapply lookup_lt_Some).
  unfold bcache_read. rewrite (M_bind_run _ _ _ _ _ (find_run s blk Hlen)), Hmiss.
  cbn [fmap option_fmap option_map]. unfold count_miss, evict. mrun. cbn [hand].
  erewrite M_bind_run by (apply slot_at_run; exact Hx).
  unfold set_hand. mrun. rewrite Hclean, andb_false_r. mrun.
  erewrite M_bind_run by (apply slot_at_run; exact Hx).
  unfold on_dev. rewrite bind_assoc. unfold mbind at 1, M_bind at 1. cbn [dev]. rewrite Hfail.
  rewrite bind_assoc, bind_set_slot. mrun. cbn [snd slots hand hits misses dev].
  erewrite M_bind_run by (apply slot_at_run; by apply list_lookup_insert_eq).
  eexists. split; [reflexivity|]. by apply list_lookup_insert_eq.
Qed.

(** A disk on which every transfer fails. *)
Definition broken_ata : AtaDisk unit :=
  {| ata_init := mret tt; ata_read_sector := λ _ buf d, Some ((-1, buf), d); ata_write_sector := λ _ _ d, Some (-1, d) |}.

Lemma bcache_read_ignores_error_witness :
  ∃ s', @bcache_read _ broken_ata 7 (fresh_cache tt) = Some (zero_block, s') ∧
        slots s' !! Z.to_nat 0 = Some (Slot 7 1 0 zero_block).
Proof.
  apply (@bcache_read_ignores_error unit broken_ata (fresh_cache tt) 7 (Slot 0 0 0 zero_block) (-1) tt).
  - reflexivity.
  - reflexivity.
  - reflexivity.
  - reflexivity.
  - split; [done|reflexivity].
Defined.
