(* ===== verification/Ports.v ===== *)
(** * Port input and output (cpu/ports.h)

    The inline functions of ports.h are one machine instruction each; what
    the instruction does is the hardware's business.  [Ports] is the interface
    to a machine state [H]; the drivers are written against it, and a device's
    documented behaviour is a class of laws on top of it. *)

From S2P Require Import Prelude.

Class Ports (H : Type) := {
  inb : Z → M H Z;
  outb : Z → Z → M H unit;
  inw : Z → M H Z;
  outw : Z → Z → M H unit;
}.

Section ports.
Context {H : Type} `{Ports H}.

(** [rep insw]: the bytes stored in the buffer. *)
Fixpoint insw (port : Z) (count : nat) : M H (list Z) :=
  match count with
  | O => mret []
  | S n => w ← inw port; rest ← insw port n; mret (u8 w :: u8 (w / 256) :: rest)
  end.

(** [rep outsw] *)
Fixpoint outsw (port : Z) (buf : list Z) (count : nat) {struct count} : M H unit :=
  match count with
  | O => mret tt
  | S n =>
      match buf with
      | b0 :: b1 :: buf' => _ ← outw port (b0 + 256 * b1); outsw port buf' n
      | _ => fault
      end
  end.

Definition io_wait : M H unit := outb 128 0.

(** [outb] to several ports in a row. *)
Fixpoint outbs (l : list (Z * Z)) : M H unit :=
  match l with [] => mret tt | (p, v) :: l' => _ ← outb p v; outbs l' end.
End ports.
