(* ===== verification/Ata.v ===== *)
(** * The disk driver (drivers/ata.c, drivers/ata.h)

    Programmed I/O on the primary bus.  The driver is written against [Ports];
    [AtaDevice] states the documented behaviour of a PIO disk that the driver
    relies on, and from it the driver is shown to be a disk in the sense of
    [AtaDiskSpec], which is what the block cache builds on.  The loops on the
    busy bit have no bound in the source; here they take fuel. *)

From S2P Require Import Prelude Block Bcache Ports.

Definition ATA_DATA : Z := 496.
Definition ATA_SECCOUNT : Z := 498.
Definition ATA_LBA_LO : Z := 499.
Definition ATA_LBA_MID : Z := 500.
Definition ATA_LBA_HI : Z := 501.
Definition ATA_DRIVE : Z := 502.
Definition ATA_STATUS : Z := 503.
Definition ATA_COMMAND : Z := 503.

Definition ST_BSY : Z := 128.
Definition ST_DRQ : Z := 8.
Definition ST_ERR : Z := 1.

Definition CMD_READ : Z := 32.
Definition CMD_WRITE : Z := 48.
Definition CMD_FLUSH : Z := 231.
Definition DRIVE_SLAVE : Z := 16.

Definition ATA_SECTOR_SIZE : nat := 512.
Definition SPIN : nat := Z.to_nat 1000000.

Section driver.
Context {H : Type} `{Ports H}.
Variable fuel : nat.

(** [while ((inb(ATA_STATUS) & ST_BSY) && spin-- > 0) ;] *)
Fixpoint spin_busy (spin : nat) : M H unit :=
  s ← inb ATA_STATUS;
  if truth (Z.land s ST_BSY) then
    match spin with O => mret tt | S spin' => spin_busy spin' end
  else mret tt.

(** The second loop of [wait_ready]. *)
Fixpoint poll_drq (spin : nat) : M H Z :=
  s ← inb ATA_STATUS;
  if truth (Z.land s ST_ERR) then mret (-1)
  else if truth (Z.land s ST_DRQ) then mret 0
  else match spin with O => mret (-1) | S spin' => poll_drq spin' end.

Definition wait_ready : M H Z := _ ← spin_busy SPIN; poll_drq SPIN.

(** [while (inb(ATA_STATUS) & ST_BSY) ;] *)
Fixpoint wait_not_busy (n : nat) : M H unit :=
  match n with
  | O => fault
  | S n' => s ← inb ATA_STATUS; if truth (Z.land s ST_BSY) then wait_not_busy n' else mret tt
  end.

Definition select_and_seek (lba count : Z) : M H unit :=
  _ ← wait_not_busy fuel;
  _ ← outb ATA_DRIVE (u8 (Z.lor (Z.lor 224 DRIVE_SLAVE) (Z.land (Z.shiftr lba 24) 15)));
  _ ← outb ATA_SECCOUNT count;
  _ ← outb ATA_LBA_LO (u8 (Z.land lba 255));
  _ ← outb ATA_LBA_MID (u8 (Z.land (Z.shiftr lba 8) 255));
  outb ATA_LBA_HI (u8 (Z.land (Z.shiftr lba 16) 255)).

Definition ata_init : M H unit := outb ATA_DRIVE (Z.lor 224 DRIVE_SLAVE).

(** The status and what the buffer holds afterwards. *)
Definition ata_read_sector (lba : Z) (buf : list Z) : M H (Z * list Z) :=
  _ ← select_and_seek lba 1;
  _ ← outb ATA_COMMAND CMD_READ;
  rc ← wait_ready;
  if negb (rc =? 0) then mret (-1, buf)
  else
    bytes ← insw ATA_DATA (ATA_SECTOR_SIZE / 2);
    mret (0, bytes ++ drop ATA_SECTOR_SIZE buf).

Definition ata_write_sector (lba : Z) (buf : list Z) : M H Z :=
  _ ← select_and_seek lba 1;
  _ ← outb ATA_COMMAND CMD_WRITE;
  rc ← wait_ready;
  if negb (rc =? 0) then mret (-1)
  else
    _ ← outsw ATA_DATA buf (ATA_SECTOR_SIZE / 2);
    _ ← outb ATA_COMMAND CMD_FLUSH;
    _ ← wait_not_busy fuel;
    mret 0.
End driver.

(** ** The device *)

Inductive phase := Idle | DataIn (ws : list Z) | DataOut (ws : list Z).

(** The state of the drive as its documentation describes it: its capacity,
    sectors as lists of 256 words, the task file registers, the transfer in
    progress, for how many more status reads it will show itself busy, and
    whether its write cache has been flushed since the last sector came in. *)
Record ata_dev := Dev {
  capacity : Z; image : Z → list Z; r_drive : Z; r_count : Z; r_lo : Z; r_mid : Z; r_hi : Z;
  ph : phase; busy : nat; flushed : bool }.

(** The sector the registers address. *)
Definition r_lba (v : ata_dev) : Z :=
  r_lo v + 256 * r_mid v + 65536 * r_hi v + 16777216 * Z.land (r_drive v) 15.

(** LBA mode, slave selected, one sector. *)
Definition addressed (v : ata_dev) : Prop := Z.land (r_drive v) 80 = 80 ∧ r_count v = 1.

Definition set_ph (v : ata_dev) (p : phase) (n : nat) : ata_dev :=
  Dev (capacity v) (image v) (r_drive v) (r_count v) (r_lo v) (r_mid v) (r_hi v) p n (flushed v).
Definition set_sector (v : ata_dev) (lba : Z) (ws : list Z) (p : phase) (n : nat) : ata_dev :=
  Dev (capacity v) (λ b, if decide (b = lba) then ws else image v b)
      (r_drive v) (r_count v) (r_lo v) (r_mid v) (r_hi v) p n false.
Definition set_flushed (v : ata_dev) (n : nat) : ata_dev :=
  Dev (capacity v) (image v) (r_drive v) (r_count v) (r_lo v) (r_mid v) (r_hi v) Idle n true.

(** The register a port names. *)
Definition set_reg (v : ata_dev) (port x : Z) : ata_dev :=
  Dev (capacity v) (image v)
    (if port =? ATA_DRIVE then x else r_drive v) (if port =? ATA_SECCOUNT then x else r_count v)
    (if port =? ATA_LBA_LO then x else r_lo v) (if port =? ATA_LBA_MID then x else r_mid v)
    (if port =? ATA_LBA_HI then x else r_hi v) (ph v) (busy v) (flushed v).

(** A sector the drive has. *)
Definition has_sector (v : ata_dev) (b : Z) : Prop := 0 ≤ b < capacity v.

Definition is_u16 (w : Z) : Prop := 0 ≤ w < 65536.
Definition sector_ok (ws : list Z) : Prop := length ws = 256%nat ∧ Forall is_u16 ws.

(** Documented behaviour of a PIO disk.  A command is answered after at most
    [SPIN] busy status reads.  With the last word of a sector the drive takes
    control and shows itself busy for a while as well, and as long as it is busy
    a command is ignored. *)
Class AtaDevice (H : Type) `{Ports H} := {
  dev_of : H → ata_dev;
  dev_status_busy : ∀ h n, busy (dev_of h) = S n →
    ∃ s h', inb ATA_STATUS h = Some (s, h') ∧ Z.testbit s 7 = true ∧
            dev_of h' = set_ph (dev_of h) (ph (dev_of h)) n;
  dev_status_ready : ∀ h, busy (dev_of h) = 0%nat →
    ∃ s h', inb ATA_STATUS h = Some (s, h') ∧ Z.testbit s 7 = false ∧ Z.testbit s 0 = false ∧
            Z.testbit s 3 = match ph (dev_of h) with Idle => false | _ => true end ∧ dev_of h' = dev_of h;
  dev_reg : ∀ h port x, busy (dev_of h) = 0%nat → ph (dev_of h) = Idle →
    port ∈ [ATA_DRIVE; ATA_SECCOUNT; ATA_LBA_LO; ATA_LBA_MID; ATA_LBA_HI] → is_byte x →
    ∃ h', outb port x h = Some (tt, h') ∧ dev_of h' = set_reg (dev_of h) port x;
  dev_cmd_read : ∀ h, busy (dev_of h) = 0%nat → ph (dev_of h) = Idle → addressed (dev_of h) →
    has_sector (dev_of h) (r_lba (dev_of h)) →
    ∃ h' n, outb ATA_COMMAND CMD_READ h = Some (tt, h') ∧ (n ≤ SPIN)%nat ∧
            dev_of h' = set_ph (dev_of h) (DataIn (image (dev_of h) (r_lba (dev_of h)))) n;
  dev_data_in : ∀ h w ws, busy (dev_of h) = 0%nat → ph (dev_of h) = DataIn (w :: ws) →
    ∃ h', inw ATA_DATA h = Some (w, h') ∧
          dev_of h' = set_ph (dev_of h) (if decide (ws = []) then Idle else DataIn ws) 0;
  dev_cmd_write : ∀ h, busy (dev_of h) = 0%nat → ph (dev_of h) = Idle → addressed (dev_of h) →
    has_sector (dev_of h) (r_lba (dev_of h)) →
    ∃ h' n, outb ATA_COMMAND CMD_WRITE h = Some (tt, h') ∧ (n ≤ SPIN)%nat ∧
            dev_of h' = set_ph (dev_of h) (DataOut []) n;
  dev_data_out : ∀ h w ws, busy (dev_of h) = 0%nat → ph (dev_of h) = DataOut ws → is_u16 w →
    ∃ h' n, outw ATA_DATA w h = Some (tt, h') ∧ (n ≤ SPIN)%nat ∧
            dev_of h' = if decide (length ws = 255%nat)
                        then set_sector (dev_of h) (r_lba (dev_of h)) (ws ++ [w]) Idle n
                        else set_ph (dev_of h) (DataOut (ws ++ [w])) 0;
  dev_cmd_flush : ∀ h, busy (dev_of h) = 0%nat → ph (dev_of h) = Idle →
    ∃ h' n, outb ATA_COMMAND CMD_FLUSH h = Some (tt, h') ∧ (n ≤ SPIN)%nat ∧ dev_of h' = set_flushed (dev_of h) n;
  dev_cmd_busy : ∀ h x, busy (dev_of h) ≠ 0%nat →
    ∃ h', outb ATA_COMMAND x h = Some (tt, h') ∧ dev_of h' = dev_of h;
}.

(** ** The driver drives the device *)

Section driver_spec.
Context {HW : Type} {PW : Ports HW} {DW : AtaDevice HW}.
Implicit Types h : HW.

Lemma set_ph_id v n : busy v = n → set_ph v (ph v) n = v.
Proof. destruct v. cbn. by intros ->. Qed.

Lemma bit7 s : truth (Z.land s ST_BSY) = Z.testbit s 7.
Proof. exact (test_bit_spec s 7 ltac:(lia)). Qed.
Lemma bit3 s : truth (Z.land s ST_DRQ) = Z.testbit s 3.
Proof. exact (test_bit_spec s 3 ltac:(lia)). Qed.
Lemma bit0 s : truth (Z.land s ST_ERR) = Z.testbit s 0.
Proof. exact (test_bit_spec s 0 ltac:(lia)). Qed.

(** Both busy loops end with the device ready and otherwise unchanged. *)
Lemma spin_busy_run k h : (busy (dev_of h) ≤ k)%nat →
  ∃ h', spin_busy k h = Some (tt, h') ∧ dev_of h' = set_ph (dev_of h) (ph (dev_of h)) 0.
Proof.
  revert h. induction k as [|k IH]; intros h Hk; cbn [spin_busy].
  - destruct (dev_status_ready h ltac:(lia)) as (s & h' & Hr & H7 & _ & _ & Hd).
    rewrite (M_bind_run _ _ _ _ _ Hr), bit7, H7. exists h'. split; [done|]. rewrite Hd, set_ph_id by lia. done.
  - destruct (busy (dev_of h)) as [|n] eqn:Hb.
    + destruct (dev_status_ready h Hb) as (s & h' & Hr & H7 & _ & _ & Hd).
      rewrite (M_bind_run _ _ _ _ _ Hr), bit7, H7. exists h'. split; [done|]. by rewrite Hd, set_ph_id.
    + destruct (dev_status_busy h n Hb) as (s & h' & Hr & H7 & Hd).
      rewrite (M_bind_run _ _ _ _ _ Hr), bit7, H7.
      destruct (IH h') as (h2 & Hr2 & Hd2); [rewrite Hd; cbn; lia|].
      exists h2. split; [done|]. by rewrite Hd2, Hd.
Qed.

Lemma wait_not_busy_run n h : (busy (dev_of h) < n)%nat →
  ∃ h', wait_not_busy n h = Some (tt, h') ∧ dev_of h' = set_ph (dev_of h) (ph (dev_of h)) 0.
Proof.
  revert h. induction n as [|n IH]; intros h Hn; cbn [wait_not_busy]; [lia|].
  destruct (busy (dev_of h)) as [|k] eqn:Hb.
  - destruct (dev_status_ready h Hb) as (s & h' & Hr & H7 & _ & _ & Hd).
    rewrite (M_bind_run _ _ _ _ _ Hr), bit7, H7. exists h'. split; [done|]. by rewrite Hd, set_ph_id.
  - destruct (dev_status_busy h k Hb) as (s & h' & Hr & H7 & Hd).
    rewrite (M_bind_run _ _ _ _ _ Hr), bit7, H7.
    destruct (IH h') as (h2 & Hr2 & Hd2); [rewrite Hd; cbn; lia|].
    exists h2. split; [done|]. by rewrite Hd2, Hd.
Qed.

Lemma poll_drq_run k h : busy (dev_of h) = 0%nat → ph (dev_of h) ≠ Idle →
  ∃ h', poll_drq k h = Some (0, h') ∧ dev_of h' = dev_of h.
Proof.
  intros Hb Hp. destruct (dev_status_ready h Hb) as (s & h' & Hr & _ & H0 & H3 & Hd).
  exists h'. split; [|done].
  assert (poll_drq k = s ← inb ATA_STATUS; if truth (Z.land s ST_ERR) then mret (-1)
    else if truth (Z.land s ST_DRQ) then mret 0
    else match k with O => mret (-1) | S spin' => poll_drq spin' end) as -> by (by destruct k).
  rewrite (M_bind_run _ _ _ _ _ Hr), bit0, H0, bit3, H3. by destruct (ph (dev_of h)).
Qed.

Lemma wait_ready_run h : (busy (dev_of h) ≤ SPIN)%nat → ph (dev_of h) ≠ Idle →
  ∃ h', wait_ready h = Some (0, h') ∧ dev_of h' = set_ph (dev_of h) (ph (dev_of h)) 0.
Proof.
  intros Hb Hp. unfold wait_ready. destruct (spin_busy_run SPIN h Hb) as (h1 & Hr1 & Hd1).
  rewrite (M_bind_run _ _ _ _ _ Hr1).
  destruct (poll_drq_run SPIN h1) as (h2 & Hr2 & Hd2); [by rewrite Hd1|by rewrite Hd1|].
  exists h2. split; [done|]. by rewrite Hd2.
Qed.

(** A sector number of 28 bits, and the register values [select_and_seek]
    computes from it. *)
Definition lba28 (lba : Z) : Prop := 0 ≤ lba < 268435456.

Lemma low_byte z : 0 ≤ z → u8 (Z.land z 255) = z `mod` 256.
Proof.
  intros Hz. change 255 with (Z.ones 8). rewrite Z.land_ones by lia. change (2 ^ 8) with 256. unfold u8. rewrite Z.mod_mod by lia. done.
Qed.

(** The drive register, by evaluation of the sixteen nibbles. *)
Lemma drive_nibble k : 0 ≤ k < 16 →
  u8 (Z.lor (Z.lor 224 DRIVE_SLAVE) (Z.land k 15)) = 240 + k ∧ Z.land (240 + k) 80 = 80 ∧ Z.land (240 + k) 15 = k.
Proof.
  intros Hk. assert (forallb (λ k, (u8 (Z.lor (Z.lor 224 DRIVE_SLAVE) (Z.land k 15)) =? 240 + k) && (Z.land (240 + k) 80 =? 80) && (Z.land (240 + k) 15 =? k))
    (seqZ 0 16) = true) as HT by (vm_compute; reflexivity).
  rewrite forallb_forall in HT. specialize (HT k ltac:(apply list_elem_of_In, elem_of_seqZ; lia)).
  rewrite !andb_true_iff, !Z.eqb_eq in HT. tauto.
Qed.

Lemma seek_bytes lba : lba28 lba →
  u8 (Z.lor (Z.lor 224 DRIVE_SLAVE) (Z.land (Z.shiftr lba 24) 15)) = 240 + lba / 16777216 ∧
  u8 (Z.land lba 255) = lba `mod` 256 ∧ u8 (Z.land (Z.shiftr lba 8) 255) = (lba / 256) `mod` 256 ∧
  u8 (Z.land (Z.shiftr lba 16) 255) = (lba / 65536) `mod` 256.
Proof.
  unfold lba28. intros Hl. rewrite !Z.shiftr_div_pow2 by lia. change (2 ^ 24) with 16777216. change (2 ^ 8) with 256. change (2 ^ 16) with 65536.
  rewrite !low_byte by (lia || (apply Z.div_pos; lia)). split; [|done]. apply drive_nibble. split; [apply Z.div_pos; lia|].
  apply Z.div_lt_upper_bound; lia.
Qed.

Lemma select_and_seek_run fuel lba h : (SPIN < fuel)%nat → (busy (dev_of h) ≤ SPIN)%nat → ph (dev_of h) = Idle →
  lba28 lba →
  ∃ h', select_and_seek fuel lba 1 h = Some (tt, h') ∧ image (dev_of h') = image (dev_of h) ∧ capacity (dev_of h') = capacity (dev_of h) ∧
    ph (dev_of h') = Idle ∧ busy (dev_of h') = 0%nat ∧ addressed (dev_of h') ∧ r_lba (dev_of h') = lba.
Proof.
  intros Hf Hb Hp Hl. destruct (seek_bytes lba Hl) as (E1 & E2 & E3 & E4). unfold select_and_seek.
  rewrite E1, E2, E3, E4. clear E1 E2 E3 E4. unfold lba28 in Hl.
  destruct (drive_nibble (lba / 16777216)) as (_ & Hmode & Hnib); [split; [apply Z.div_pos; lia|apply Z.div_lt_upper_bound; lia]|].
  destruct (wait_not_busy_run fuel h ltac:(lia)) as (h0 & Hr0 & Hd0). rewrite (M_bind_run _ _ _ _ _ Hr0).
  assert (busy (dev_of h0) = 0%nat ∧ ph (dev_of h0) = Idle ∧ image (dev_of h0) = image (dev_of h) ∧ capacity (dev_of h0) = capacity (dev_of h)) as (Hb0 & Hp0 & Hi0 & Hc0)
    by (by rewrite Hd0).
  assert (∀ z, is_byte (z `mod` 256)) as Hbyte by (intros z; apply (Z.mod_pos_bound z 256); lia).
  assert (is_byte (240 + lba / 16777216)) as Hdrv.
  { pose proof (Z.div_pos lba 16777216 ltac:(lia) ltac:(lia)). pose proof (Z.div_lt_upper_bound lba 16777216 16 ltac:(lia) ltac:(lia)). unfold is_byte. lia. }
  destruct (dev_reg h0 ATA_DRIVE _ Hb0 Hp0 ltac:(set_solver) Hdrv) as (h1 & Hr1 & Hd1).
  destruct (dev_reg h1 ATA_SECCOUNT 1 ltac:(by rewrite Hd1) ltac:(by rewrite Hd1) ltac:(set_solver) ltac:(done)) as (h2 & Hr2 & Hd2).
  rewrite Hd1 in Hd2.
  destruct (dev_reg h2 ATA_LBA_LO (lba `mod` 256) ltac:(by rewrite Hd2) ltac:(by rewrite Hd2) ltac:(set_solver) ltac:(done)) as (h3 & Hr3 & Hd3).
  rewrite Hd2 in Hd3.
  destruct (dev_reg h3 ATA_LBA_MID ((lba / 256) `mod` 256) ltac:(by rewrite Hd3) ltac:(by rewrite Hd3) ltac:(set_solver) ltac:(done)) as (h4 & Hr4 & Hd4).
  rewrite Hd3 in Hd4.
  destruct (dev_reg h4 ATA_LBA_HI ((lba / 65536) `mod` 256) ltac:(by rewrite Hd4) ltac:(by rewrite Hd4) ltac:(set_solver) ltac:(done)) as (h5 & Hr5 & Hd5).
  rewrite Hd4 in Hd5.
  rewrite (M_bind_run _ _ _ _ _ Hr1), (M_bind_run _ _ _ _ _ Hr2), (M_bind_run _ _ _ _ _ Hr3), (M_bind_run _ _ _ _ _ Hr4).
  exists h5. split; [done|]. rewrite Hd5. split; [exact Hi0|]. split; [exact Hc0|]. split; [exact Hp0|]. split; [exact Hb0|]. split; [by split|].
  change (lba `mod` 256 + 256 * ((lba / 256) `mod` 256) + 65536 * ((lba / 65536) `mod` 256) + 16777216 * Z.land (240 + lba / 16777216) 15 = lba).
  rewrite Hnib. Z.div_mod_to_equations. lia.
Qed.

(** The bytes of a sector of words. *)
Definition bytes_of (ws : list Z) : list Z := ws ≫= λ w, [u8 w; u8 (w / 256)].

Lemma insw_run ws h : ws ≠ [] → busy (dev_of h) = 0%nat → ph (dev_of h) = DataIn ws →
  ∃ h', insw ATA_DATA (length ws) h = Some (bytes_of ws, h') ∧ dev_of h' = set_ph (dev_of h) Idle 0.
Proof.
  revert h. induction ws as [|w ws IH]; intros h Hne Hb Hp; [done|]. cbn [length insw].
  destruct (dev_data_in h w ws Hb Hp) as (h1 & Hr1 & Hd1). rewrite (M_bind_run _ _ _ _ _ Hr1).
  destruct (decide (ws = [])) as [->|Hws].
  - exists h1. split; [done|done].
  - destruct (IH h1 Hws) as (h2 & Hr2 & Hd2); [by rewrite Hd1|by rewrite Hd1|].
    rewrite (M_bind_run _ _ _ _ _ Hr2). exists h2. split; [done|]. by rewrite Hd2, Hd1.
Qed.

(** The words of a buffer of bytes. *)
Fixpoint words16 (n : nat) (buf : list Z) {struct n} : list Z :=
  match n, buf with
  | S n', b0 :: b1 :: buf' => (b0 + 256 * b1) :: words16 n' buf'
  | _, _ => []
  end.

Lemma words16_spec n buf : length buf = (2 * n)%nat → Forall is_byte buf →
  length (words16 n buf) = n ∧ Forall is_u16 (words16 n buf) ∧ bytes_of (words16 n buf) = buf.
Proof.
  revert buf. induction n as [|n IH]; intros buf Hl Hb; cbn [words16].
  - destruct buf; [|cbn in Hl; lia]. split; [done|]. split; [constructor|done].
  - destruct buf as [|b0 [|b1 buf]]; [cbn in Hl; lia..|].
    apply Forall_cons in Hb as [H0 Hb]. apply Forall_cons in Hb as [H1 Hb].
    destruct (IH buf) as (Hl2 & Hf & Hby); [cbn in Hl; lia|done|]. unfold is_byte in *.
    split; [cbn; lia|]. split; [constructor; [unfold is_u16; lia|done]|].
    unfold bytes_of in *. rewrite bind_cons, Hby. cbn [app]. unfold u8.
    f_equal; [|f_equal]; Z.div_mod_to_equations; lia.
Qed.

Lemma outsw_run n buf h ws : length buf = (2 * n)%nat → Forall is_byte buf → (length ws + n = 256)%nat → (0 < n)%nat →
  busy (dev_of h) = 0%nat → ph (dev_of h) = DataOut ws →
  ∃ h' m, outsw ATA_DATA buf n h = Some (tt, h') ∧ (m ≤ SPIN)%nat ∧
    dev_of h' = set_sector (dev_of h) (r_lba (dev_of h)) (ws ++ words16 n buf) Idle m.
Proof.
  revert buf h ws. induction n as [|n IH]; intros buf h ws Hl Hby Hn Hpos Hb Hp; [lia|].
  destruct buf as [|b0 [|b1 buf]]; [cbn in Hl; lia..|]. cbn [outsw words16].
  apply Forall_cons in Hby as [H0 Hby]. apply Forall_cons in Hby as [H1 Hby].
  destruct (dev_data_out h (b0 + 256 * b1) ws Hb Hp) as (h1 & m1 & Hr1 & Hm1 & Hd1); [unfold is_u16, is_byte in *; lia|].
  rewrite (M_bind_run _ _ _ _ _ Hr1). case_decide as Hlast.
  - destruct n as [|n]; [|lia]. exists h1, m1. split; [reflexivity|]. split; [done|]. rewrite Hd1. by destruct buf as [|? [|? ?]].
  - destruct (IH buf h1 (ws ++ [b0 + 256 * b1])) as (h2 & m & Hr2 & Hm & Hd2).
    + cbn in Hl. lia.
    + done.
    + rewrite length_app. cbn. lia.
    + lia.
    + by rewrite Hd1.
    + by rewrite Hd1.
    + exists h2, m. split; [done|]. split; [done|]. rewrite Hd2, Hd1, <-app_assoc. done.
Qed.
End driver_spec.

(** ** The driver is a disk *)

(** The driver over a device, as the block cache sees it. *)
Definition ata_disk {HW} {PW : Ports HW} (fuel : nat) : AtaDisk HW :=
  {| Bcache.ata_init := ata_init; Bcache.ata_read_sector := ata_read_sector fuel; Bcache.ata_write_sector := ata_write_sector fuel |}.

Section disk.
Context {HW : Type} {PW : Ports HW} {DW : AtaDevice HW}.
Implicit Types h : HW.
Variable fuel : nat.
Hypothesis Hfuel : (SPIN < fuel)%nat.

(** No transfer in progress; busy for a bounded time; the sectors of a 28-bit
    drive. *)
Definition dev_idle h : Prop :=
  ph (dev_of h) = Idle ∧ (busy (dev_of h) ≤ SPIN)%nat ∧ capacity (dev_of h) ≤ 268435456 ∧
  ∀ b, has_sector (dev_of h) b → sector_ok (image (dev_of h) b).
Definition dev_bytes h (b : Z) : list Z := bytes_of (image (dev_of h) b).

Lemma length_bytes_of ws : length (bytes_of ws) = (2 * length ws)%nat.
Proof. unfold bytes_of. induction ws as [|w ws IH]; [done|]. rewrite bind_cons, length_app, IH. cbn. lia. Qed.

Lemma dev_bytes_sec h b : dev_idle h → has_sector (dev_of h) b → sec_ok (dev_bytes h b).
Proof.
  intros (_ & _ & _ & Hok) Hb. destruct (Hok b Hb) as [Hl Hf]. split.
  - unfold dev_bytes. by rewrite length_bytes_of, Hl.
  - unfold dev_bytes, bytes_of. clear. induction (image (dev_of h) b) as [|w ws IH]; [constructor|].
    rewrite bind_cons. apply Forall_app. split; [repeat constructor; apply u8_byte|done].
Qed.

Lemma idle_lba h lba : dev_idle h → has_sector (dev_of h) lba → lba28 lba.
Proof. intros (_ & _ & Hc & _) Hl. unfold has_sector, lba28 in *. lia. Qed.

Lemma ata_read_run h lba buf : dev_idle h → has_sector (dev_of h) lba → length buf = BLOCK_SIZE →
  ∃ h', ata_read_sector fuel lba buf h = Some ((0, dev_bytes h lba), h') ∧ dev_idle h' ∧
        capacity (dev_of h') = capacity (dev_of h) ∧ ∀ b, dev_bytes h' b = dev_bytes h b.
Proof.
  intros Hi Hl Hbuf. pose proof (idle_lba _ _ Hi Hl) as H28. destruct Hi as (Hp & Hb & Hc & Hok). unfold ata_read_sector.
  destruct (select_and_seek_run fuel lba h Hfuel Hb Hp H28) as (h1 & Hr1 & Hi1 & Hc1 & Hp1 & Hb1 & Ha1 & Hlba).
  rewrite (M_bind_run _ _ _ _ _ Hr1).
  destruct (dev_cmd_read h1 Hb1 Hp1 Ha1) as (h2 & n & Hr2 & Hn & Hd2); [unfold has_sector; by rewrite Hlba, Hc1|]. rewrite (M_bind_run _ _ _ _ _ Hr2).
  rewrite Hlba, Hi1 in Hd2. destruct (Hok lba Hl) as [Hlen _].
  destruct (wait_ready_run h2) as (h3 & Hr3 & Hd3); [by rewrite Hd2|by rewrite Hd2|].
  rewrite (M_bind_run _ _ _ _ _ Hr3). cbn [negb Z.eqb]. rewrite Hd2 in Hd3.
  change (ATA_SECTOR_SIZE / 2)%nat with 256%nat. rewrite <-Hlen.
  destruct (insw_run (image (dev_of h) lba) h3) as (h4 & Hr4 & Hd4);
    [intros E; by rewrite E in Hlen|by rewrite Hd3|by rewrite Hd3|].
  rewrite (M_bind_run _ _ _ _ _ Hr4). exists h4.
  assert (capacity (dev_of h4) = capacity (dev_of h) ∧ image (dev_of h4) = image (dev_of h)) as [Hc4 Hi4] by (rewrite Hd4, Hd3; done). split_and!.
  - rewrite drop_ge, app_nil_r by (rewrite Hbuf; done). done.
  - unfold dev_idle, has_sector. rewrite Hc4, Hi4, Hd4. split; [done|]. split; [cbn; lia|]. split; [done|exact Hok].
  - done.
  - intros b. unfold dev_bytes. by rewrite Hi4.
Qed.

(** The flush command after a write: carried out or ignored, it leaves the
    sectors alone. *)
Lemma flush_run h : ph (dev_of h) = Idle → (busy (dev_of h) ≤ SPIN)%nat →
  ∃ h', outb ATA_COMMAND CMD_FLUSH h = Some (tt, h') ∧ ph (dev_of h') = Idle ∧ (busy (dev_of h') ≤ SPIN)%nat ∧
    image (dev_of h') = image (dev_of h) ∧ capacity (dev_of h') = capacity (dev_of h) ∧
    flushed (dev_of h') = if decide (busy (dev_of h) = 0%nat) then true else flushed (dev_of h).
Proof.
  intros Hp Hb. case_decide as H0.
  - destruct (dev_cmd_flush h H0 Hp) as (h' & n & E & Hn & Hd). exists h'. by rewrite Hd.
  - destruct (dev_cmd_busy h CMD_FLUSH H0) as (h' & E & Hd). exists h'. by rewrite Hd.
Qed.

(** A write up to the flush command. *)
Lemma ata_write_data h lba buf : dev_idle h → has_sector (dev_of h) lba → sec_ok buf →
  ∃ h4 h3 h6, ata_write_sector fuel lba buf h = Some (0, h6) ∧
    ph (dev_of h3) = DataOut [] ∧ outsw ATA_DATA buf 256 h3 = Some (tt, h4) ∧ busy (dev_of h3) = 0%nat ∧
    flushed (dev_of h6) = (if decide (busy (dev_of h4) = 0%nat) then true else false) ∧
    ph (dev_of h6) = Idle ∧ busy (dev_of h6) = 0%nat ∧ capacity (dev_of h6) = capacity (dev_of h) ∧
    ∀ b, image (dev_of h6) b = if decide (b = lba) then words16 256 buf else image (dev_of h) b.
Proof.
  intros Hi Hl [Hbuf Hby]. pose proof (idle_lba _ _ Hi Hl) as H28. destruct Hi as (Hp & Hb & Hc & Hok). unfold ata_write_sector.
  destruct (select_and_seek_run fuel lba h Hfuel Hb Hp H28) as (h1 & Hr1 & Hi1 & Hc1 & Hp1 & Hb1 & Ha1 & Hlba).
  rewrite (M_bind_run _ _ _ _ _ Hr1).
  destruct (dev_cmd_write h1 Hb1 Hp1 Ha1) as (h2 & n & Hr2 & Hn & Hd2); [unfold has_sector; by rewrite Hlba, Hc1|]. rewrite (M_bind_run _ _ _ _ _ Hr2).
  destruct (wait_ready_run h2) as (h3 & Hr3 & Hd3); [by rewrite Hd2|by rewrite Hd2|].
  rewrite (M_bind_run _ _ _ _ _ Hr3). cbn [negb Z.eqb]. rewrite Hd2 in Hd3.
  change (ATA_SECTOR_SIZE / 2)%nat with 256%nat.
  destruct (outsw_run 256 buf h3 []) as (h4 & m & Hr4 & Hm & Hd4); [by rewrite Hbuf|done|done|lia|by rewrite Hd3|by rewrite Hd3|].
  rewrite (M_bind_run _ _ _ _ _ Hr4).
  destruct (flush_run h4) as (h5 & Hr5 & Hp5 & Hb5 & Hi5 & Hc5 & Hf5); [by rewrite Hd4|by rewrite Hd4|].
  rewrite (M_bind_run _ _ _ _ _ Hr5). destruct (wait_not_busy_run fuel h5) as (h6 & Hr6 & Hd6); [lia|].
  rewrite (M_bind_run _ _ _ _ _ Hr6). exists h4, h3, h6. split; [done|]. split; [by rewrite Hd3|]. split; [done|]. split; [by rewrite Hd3|].
  split; [|split; [by rewrite Hd6|split; [by rewrite Hd6|split]]].
  - rewrite Hd6. cbn [flushed set_ph]. rewrite Hf5. case_decide; [done|by rewrite Hd4].
  - rewrite Hd6. cbn [capacity set_ph]. rewrite Hc5, Hd4, Hd3. done.
  - intros b. rewrite Hd6. cbn [image set_ph]. rewrite Hi5, Hd4, Hd3. cbn [image set_ph set_sector].
    change (r_lba (set_ph (set_ph (dev_of h1) (DataOut []) n) (ph (set_ph (dev_of h1) (DataOut []) n)) 0))
      with (r_lba (dev_of h1)).
    rewrite Hlba. destruct (decide (b = lba)); [done|by rewrite Hi1].
Qed.

Lemma ata_write_run h lba buf : dev_idle h → has_sector (dev_of h) lba → sec_ok buf →
  ∃ h', ata_write_sector fuel lba buf h = Some (0, h') ∧ dev_idle h' ∧ capacity (dev_of h') = capacity (dev_of h) ∧
        ∀ b, dev_bytes h' b = if decide (b = lba) then buf else dev_bytes h b.
Proof.
  intros Hi Hl Hbuf. destruct (ata_write_data h lba buf Hi Hl Hbuf) as (_ & _ & h' & E & _ & _ & _ & _ & Hp & Hb & Hc & Himg).
  destruct Hi as (_ & _ & Hcap & Hok), Hbuf as [Hlen Hby]. destruct (words16_spec 256 buf Hlen Hby) as (Hwl & Hwf & Hwb).
  exists h'. split; [done|]. split; [|split; [done|]].
  - split; [done|]. split; [lia|]. split; [by rewrite Hc|]. intros b Hon. unfold has_sector in Hon. rewrite Hc in Hon. rewrite Himg. case_decide; [done|by apply Hok].
  - intros b. unfold dev_bytes. rewrite Himg. by case_decide.
Qed.

(** The drive as the block cache uses it: large enough for the filesystem. *)
Definition dev_ready h : Prop := dev_idle h ∧ DISK_BLOCKS ≤ capacity (dev_of h).
Lemma ready_sector h b : dev_ready h → on_disk b → has_sector (dev_of h) b.
Proof. intros [_ Hc] Hb. unfold on_disk, has_sector in *. lia. Qed.
Lemma dev_bytes_ok h b : dev_ready h → on_disk b → sec_ok (dev_bytes h b).
Proof. intros Hr Hb. apply dev_bytes_sec; [apply Hr|by apply ready_sector]. Qed.
Lemma dev_read_ok h lba buf : dev_ready h → on_disk lba → length buf = BLOCK_SIZE →
  ∃ h', ata_read_sector fuel lba buf h = Some ((0, dev_bytes h lba), h') ∧ dev_ready h' ∧ ∀ b, on_disk b → dev_bytes h' b = dev_bytes h b.
Proof.
  intros Hr Hl Hbuf. destruct (ata_read_run h lba buf (proj1 Hr) (ready_sector _ _ Hr Hl) Hbuf) as (h' & E & Hi & Hc & Hb).
  exists h'. split; [done|]. split; [split; [done|rewrite Hc; apply Hr]|]. by intros b _.
Qed.
Lemma dev_write_ok h lba buf : dev_ready h → on_disk lba → sec_ok buf →
  ∃ h', ata_write_sector fuel lba buf h = Some (0, h') ∧ dev_ready h' ∧
        ∀ b, on_disk b → dev_bytes h' b = if decide (b = lba) then buf else dev_bytes h b.
Proof.
  intros Hr Hl Hbuf. destruct (ata_write_run h lba buf (proj1 Hr) (ready_sector _ _ Hr Hl) Hbuf) as (h' & E & Hi & Hc & Hb).
  exists h'. split; [done|]. split; [split; [done|rewrite Hc; apply Hr]|]. by intros b _.
Qed.

(** A drive that is not busy takes the selection. *)
Definition dev_rest h : Prop := dev_ready h ∧ busy (dev_of h) = 0%nat.
Lemma ata_init_run h : dev_rest h →
  ∃ h', ata_init h = Some (tt, h') ∧ dev_ready h' ∧ ∀ b, on_disk b → dev_bytes h' b = dev_bytes h b.
Proof.
  intros [((Hp & Hb & Hok) & Hcap) H0]. destruct (dev_reg h ATA_DRIVE 240 H0 Hp) as (h' & Hr & Hd); [left|done|].
  exists h'. split; [exact Hr|]. unfold dev_ready, dev_idle, has_sector, dev_bytes. by rewrite Hd.
Qed.

(** The promise the block cache relies on, discharged by the driver. *)
Definition ata_disk_spec : @AtaDiskSpec HW (ata_disk fuel) :=
  @Build_AtaDiskSpec HW (ata_disk fuel) dev_rest dev_ready dev_bytes dev_bytes_ok ata_init_run dev_read_ok dev_write_ok.
End disk.

(** ** A concrete device, for the witnesses

    It is busy for one status read after each command and after the last word of
    a sector, and ignores commands meanwhile. *)

Definition sim_inb (p : Z) (v : ata_dev) : option (Z * ata_dev) :=
  if p =? ATA_STATUS then
    match busy v with
    | S n => Some (128, set_ph v (ph v) n)
    | O => Some (match ph v with Idle => 64 | _ => 72 end, v)
    end
  else Some (0, v).
Definition sim_outb (p x : Z) (v : ata_dev) : option (unit * ata_dev) :=
  if p =? ATA_COMMAND then
    if negb (busy v =? 0)%nat then Some (tt, v)
    else if x =? CMD_READ then Some (tt, set_ph v (DataIn (image v (r_lba v))) 1)
    else if x =? CMD_WRITE then Some (tt, set_ph v (DataOut []) 1)
    else Some (tt, set_flushed v 1)
  else Some (tt, set_reg v p x).
Definition sim_inw (p : Z) (v : ata_dev) : option (Z * ata_dev) :=
  match ph v with
  | DataIn (w :: ws) => Some (w, set_ph v (if decide (ws = []) then Idle else DataIn ws) 0)
  | _ => Some (0, v)
  end.
Definition sim_outw (p w : Z) (v : ata_dev) : option (unit * ata_dev) :=
  match ph v with
  | DataOut ws => Some (tt, if decide (length ws = 255%nat) then set_sector v (r_lba v) (ws ++ [w]) Idle 1
                            else set_ph v (DataOut (ws ++ [w])) 0)
  | _ => Some (tt, v)
  end.

Definition sim_ports : Ports ata_dev := {| inb := sim_inb; outb := sim_outb; inw := sim_inw; outw := sim_outw |}.

Lemma SPIN_pos : (1 ≤ SPIN)%nat.
Proof. unfold SPIN. lia. Qed.

Definition sim_device : @AtaDevice ata_dev sim_ports.
Proof.
  refine (@Build_AtaDevice ata_dev sim_ports id _ _ _ _ _ _ _ _ _); unfold id; cbn [inb outb inw outw sim_ports].
  - intros v n Hb. unfold sim_inb. rewrite Hb. by eexists _, _.
  - intros v Hb. unfold sim_inb. rewrite Hb. eexists _, v. split; [done|]. by destruct (ph v).
  - intros v p x Hb Hp Hin _. unfold sim_outb. destruct (Z.eqb_spec p ATA_COMMAND) as [->|]; [|by eexists].
    exfalso. revert Hin. compute_done.
  - intros v Hb Hp Ha _. unfold sim_outb. rewrite Hb. eexists _, 1%nat. split; [done|]. split; [exact SPIN_pos|done].
  - intros v w ws Hb Hp. unfold sim_inw. rewrite Hp. by eexists.
  - intros v Hb Hp Ha _. unfold sim_outb. rewrite Hb. eexists _, 1%nat. split; [done|]. split; [exact SPIN_pos|done].
  - intros v w ws Hb Hp Hw. unfold sim_outw. rewrite Hp. eexists _, 1%nat. split; [done|]. split; [exact SPIN_pos|done].
  - intros v Hb Hp. unfold sim_outb. rewrite Hb. eexists _, 1%nat. split; [done|]. split; [exact SPIN_pos|done].
  - intros v x Hb. unfold sim_outb. rewrite (proj2 (Nat.eqb_neq _ _) Hb). by eexists.
Defined.

(** A blank drive of 2^28 sectors. *)
Definition sim_blank : ata_dev := Dev 268435456 (λ _, replicate 256 0) 0 0 0 0 0 Idle 0 true.

Lemma sim_blank_idle : @dev_idle _ sim_ports sim_device sim_blank.
Proof.
  split; [done|]. split; [cbn; lia|]. split; [cbn; lia|]. intros b _. split; [done|]. apply Forall_replicate. done.
Qed.

(** ** Properties *)

(** C8. On a PIO disk that behaves as documented, the driver stores and fetches
    sectors: after a write of one sector, reading any sector succeeds and
    gives the bytes written if it is the same sector and what was there before
    otherwise, for all sectors of a drive of up to 2^28.  The drive may be busy
    for a while after the data of the write and then ignores the command that
    follows. *)
Theorem ata_write_then_read {HW} {PW : Ports HW} {DW : AtaDevice HW} fuel (h : HW) lba b buf tmp
    (Hfuel : (SPIN < fuel)%nat) (Hidle : dev_idle h) (Hlba : has_sector (dev_of h) lba) (Hb : has_sector (dev_of h) b)
    (Hbuf : sec_ok buf) (Htmp : length tmp = BLOCK_SIZE) :
  ∃ h', (rc ← ata_write_sector fuel lba buf; r ← ata_read_sector fuel b tmp; mret (rc, r)) h
        = Some ((0, (0, if decide (b = lba) then buf else dev_bytes h b)), h') ∧ dev_idle h'.
Proof.
  destruct (ata_write_run fuel Hfuel h lba buf Hidle Hlba Hbuf) as (h1 & Hr1 & Hok1 & Hc1 & Hs1).
  destruct (ata_read_run fuel Hfuel h1 b tmp Hok1) as (h2 & Hr2 & Hok2 & _); [unfold has_sector; by rewrite Hc1|done|].
  exists h2. split; [|done]. rewrite (M_bind_run _ _ _ _ _ Hr1), (M_bind_run _ _ _ _ _ Hr2), Hs1. done.
Qed.

Lemma ata_write_then_read_witness :
  ∃ h', (rc ← @ata_write_sector _ sim_ports (S SPIN) 19088743 (replicate 512 5);
         r ← @ata_read_sector _ sim_ports (S SPIN) 19088743 (replicate 512 0); mret (rc, r)) sim_blank
        = Some ((0, (0, replicate 512 5)), h') ∧ @dev_idle _ sim_ports sim_device h'.
Proof.
  apply (@ata_write_then_read _ sim_ports sim_device (S SPIN) sim_blank 19088743 19088743 (replicate 512 5) (replicate 512 0)).
  - apply Nat.lt_succ_diag_r.
  - exact sim_blank_idle.
  - split; reflexivity || discriminate.
  - split; reflexivity || discriminate.
  - split; [reflexivity|]. apply Forall_replicate. split; reflexivity || discriminate.
  - reflexivity.
Defined.

(** The flush can be lost: the driver writes the flush command without waiting
    for the drive to have taken the sector, so that on a drive that is still busy
    then, the write reports success with the cache not flushed. *)
Theorem ata_flush_lost {HW} {PW : Ports HW} {DW : AtaDevice HW} fuel (h : HW) lba buf
    (Hfuel : (SPIN < fuel)%nat) (Hidle : dev_idle h) (Hlba : has_sector (dev_of h) lba) (Hbuf : sec_ok buf)
    (Hslow : ∀ h h', ph (dev_of h) = DataOut [] → outsw ATA_DATA buf 256 h = Some (tt, h') → busy (dev_of h') ≠ 0%nat) :
  ∃ h', ata_write_sector fuel lba buf h = Some (0, h') ∧ dev_bytes h' lba = buf ∧ flushed (dev_of h') = false.
Proof.
  destruct (ata_write_data fuel Hfuel h lba buf Hidle Hlba Hbuf) as (h4 & h3 & h6 & E & Hp3 & E4 & _ & Hf & _ & _ & _ & Himg).
  exists h6. split; [done|]. split.
  - unfold dev_bytes. rewrite Himg, decide_True by done. apply words16_spec; apply Hbuf.
  - rewrite Hf, decide_False; [done|]. by apply (Hslow h3 h4).
Qed.

(** The last word leaves the sample drive busy. *)
Lemma sim_outsw_busy n (buf : list Z) (v v' : ata_dev) ws : (length ws + n = 256)%nat → (0 < n)%nat → ph v = DataOut ws →
  @outsw _ sim_ports ATA_DATA buf n v = Some (tt, v') → busy v' ≠ 0%nat.
Proof.
  revert buf v ws. induction n as [|n IH]; intros buf v ws Hl Hn Hp E; [lia|].
  destruct buf as [|b0 [|b1 buf]]; [done..|]. cbn [outsw] in E. unfold mbind, M_bind in E. cbn [outw sim_ports] in E. unfold sim_outw in E. rewrite Hp in E.
  case_decide.
  - destruct n; [|lia]. cbn [outsw] in E. assert (v' = set_sector v (r_lba v) (ws ++ [b0 + 256 * b1]) Idle 1) as ->; [|done].
    destruct buf as [|? [|? ?]]; by injection E as <-.
  - eapply (IH _ _ (ws ++ [b0 + 256 * b1])); [| | |exact E]; [rewrite length_app; cbn; lia|lia|done].
Qed.

Lemma ata_flush_lost_witness :
  ∃ v, @ata_write_sector _ sim_ports (S SPIN) 7 (replicate 512 5) sim_blank = Some (0, v) ∧
    @dev_bytes _ sim_ports sim_device v 7 = replicate 512 5 ∧ flushed v = false.
Proof.
  apply (@ata_flush_lost _ sim_ports sim_device (S SPIN) sim_blank 7 (replicate 512 5)).
  - apply Nat.lt_succ_diag_r.
  - exact sim_blank_idle.
  - split; reflexivity || discriminate.
  - split; [reflexivity|]. apply Forall_replicate. split; reflexivity || discriminate.
  - intros v v' Hp. apply (sim_outsw_busy 256 _ v v' []); [reflexivity|apply Nat.lt_0_succ|exact Hp].
Defined.

(** C40. A bus that always reads busy (as a port without a device does: all bits
    set) hangs the driver: however long it is left to poll, [select_and_seek]
    does not get past its first loop, and neither sector operation returns. *)
Theorem ata_missing_disk_hangs {HW} {PW : Ports HW} fuel (h : HW) lba buf
    (Hbusy : ∀ h, ∃ h', inb ATA_STATUS h = Some (255, h')) :
  ata_read_sector fuel lba buf h = None ∧ ata_write_sector fuel lba buf h = None.
Proof.
  assert (∀ n h, wait_not_busy n h = None) as Hloop.
  { induction n as [|n IH]; intros h0; cbn [wait_not_busy]; [done|].
    destruct (Hbusy h0) as [h1 Hr]. rewrite (M_bind_run _ _ _ _ _ Hr). apply IH. }
  assert (∀ count, select_and_seek fuel lba count h = None) as Hseek.
  { intros count. unfold select_and_seek, mbind, M_bind. by rewrite Hloop. }
  unfold ata_read_sector, ata_write_sector, mbind, M_bind. by rewrite !Hseek.
Qed.

(** An empty bus. *)
Definition no_device : Ports unit :=
  {| inb := λ _ u, Some (255, u); outb := λ _ _ u, Some (tt, u);
     inw := λ _ u, Some (65535, u); outw := λ _ _ u, Some (tt, u) |}.

Lemma ata_missing_disk_hangs_witness :
  @ata_read_sector _ no_device 1000 7 (replicate 512 0) tt = None ∧
  @ata_write_sector _ no_device 1000 7 (replicate 512 0) tt = None.
Proof.
  apply (@ata_missing_disk_hangs _ no_device 1000 tt 7 (replicate 512 0)).
  intros []. exists tt. reflexivity.
Defined.
