(* ===== verification/Sfs.v ===== *)
(** * The filesystem: data and operations (fs/sfs.c, fs/sfs.h)

    Every routine of sfs.c is a block program ([prog], file Block): it reads
    and writes whole blocks and computes on their bytes.  A local array is a
    list of bytes; [memcpy] between arrays is [slice] and [list_inserts], and
    [memset] is [replicate].  A name argument is the list of bytes from its
    pointer on.  Access outside an array is [Fault]. *)

From S2P Require Import Prelude CString Block.

Definition SFS_FREE : Z := 0.
Definition SFS_FILE : Z := 1.
Definition SFS_DIR : Z := 2.
Definition SFS_ROOT : Z := 0.
Definition SFS_NAME_MAX : Z := 27.

Definition SFS_MAGIC : Z := 1246971475.
Definition DIRECT : nat := 14.
Definition MAX_INODES : Z := 64.
Definition INODES_PER_BLOCK : Z := 8.
Definition INODE_TABLE_START : Z := 1.
Definition INODE_TABLE_BLOCKS : Z := MAX_INODES / INODES_PER_BLOCK.
Definition BITMAP_BLOCK : Z := 9.
Definition DATA_START : Z := 16.
Definition MAX_DATA_BLOCKS : Z := 2048.
Definition DIRENTS_PER_BLOCK : nat := 16.

(** [inode_t], 64 bytes: 16 little-endian words. *)
Record inode_t := Inode { type : Z; size : Z; blocks : list Z }.

Definition inode_of_bytes (b : list Z) : inode_t :=
  match words 16 b with t :: s :: bl => Inode t s bl | _ => Inode 0 0 [] end.
Definition inode_bytes (n : inode_t) : list Z := (type n :: size n :: blocks n) ≫= le32.

(** [n.blocks[b]] *)
Definition blk_at (bl : list Z) (b : Z) : Z := default 0 (bl !! Z.to_nat b).

Definition zero_inode : inode_t := Inode 0 0 (replicate DIRECT 0).

(** [dirent_t], 32 bytes: the child inode plus one, then the name. *)
Definition de_inum1 (buf : list Z) (e : Z) : Z := ld32 buf (Z.to_nat (32 * e)).
Definition de_name (buf : list Z) (e : Z) : list Z := drop (Z.to_nat (32 * e + 4)) buf.
Definition set_inum1 (buf : list Z) (e v : Z) : list Z :=
  list_inserts (Z.to_nat (32 * e)) (le32 v) buf.
Definition set_name (buf : list Z) (e : Z) (nm : list Z) : list Z :=
  list_inserts (Z.to_nat (32 * e + 4)) nm buf.

(** [superblock_t]. *)
Definition superblock_bytes : list Z :=
  [SFS_MAGIC; MAX_INODES; DATA_START; MAX_DATA_BLOCKS] ≫= le32.

(** ** Block layer *)

Definition read_block (blk : Z) : prog (list Z) := Read blk Ret.
Definition write_block (blk : Z) (buf : list Z) : prog unit := Write blk buf (Ret tt).

(** ** Inode access *)

Definition read_inode (i : Z) : prog inode_t :=
  let blk := u32 (INODE_TABLE_START + Z.quot i INODES_PER_BLOCK) in
  buf ← read_block blk;
  let off := Z.rem i INODES_PER_BLOCK * 64 in
  if decide (off < 0) then Fault
  else mret (inode_of_bytes (slice (Z.to_nat off) 64 buf)).

Definition write_inode (i : Z) (n : inode_t) : prog unit :=
  let blk := u32 (INODE_TABLE_START + Z.quot i INODES_PER_BLOCK) in
  buf ← read_block blk;
  let off := Z.rem i INODES_PER_BLOCK * 64 in
  if decide (off < 0) then Fault
  else write_block blk (list_inserts (Z.to_nat off) (inode_bytes n) buf).

Definition alloc_inode : prog Z :=
  r ← for_ret (Z.to_nat MAX_INODES) 0 (λ i,
    n ← read_inode i;
    mret (if type n =? SFS_FREE then Some i else None));
  mret (default (-1) r).

(** ** Data block bitmap *)

Definition alloc_block : prog Z :=
  bm ← read_block BITMAP_BLOCK;
  r ← for_ret (Z.to_nat MAX_DATA_BLOCKS) 0 (λ i,
    let k := Z.to_nat (i / 8) in
    if truth (Z.land (byte_at bm k) (Z.shiftl 1 (i `mod` 8))) then mret None
    else
      _ ← write_block BITMAP_BLOCK
            (<[k := u8 (Z.lor (byte_at bm k) (Z.shiftl 1 (i `mod` 8)))]> bm);
      _ ← write_block (DATA_START + i) (replicate BLOCK_SIZE 0);
      mret (Some (DATA_START + i)));
  mret (default 0 r).

Definition free_block (absblk : Z) : prog unit :=
  if absblk <? DATA_START then mret tt
  else
    let i := absblk - DATA_START in
    bm ← read_block BITMAP_BLOCK;
    let k := Z.to_nat (i / 8) in
    if decide (BLOCK_SIZE ≤ k)%nat then Fault
    else write_block BITMAP_BLOCK
           (<[k := u8 (Z.land (byte_at bm k) (Z.lnot (Z.shiftl 1 (i `mod` 8))))]> bm).

(** ** Directories *)

(** [for (b = 0; b < DIRECT && d.blocks[b]; b++)] with early return. *)
Fixpoint for_blocks {R} (bl : list Z) (body : Z → prog (option R)) : prog (option R) :=
  match bl with
  | [] => mret None
  | b :: bl' =>
      if truth b then r ← body b; match r with Some v => mret (Some v) | None => for_blocks bl' body end
      else mret None
  end.

Definition dir_lookup (dir : Z) (name : list Z) : prog Z :=
  d ← read_inode dir;
  if negb (type d =? SFS_DIR) then mret (-1)
  else
    r ← for_blocks (blocks d) (λ b,
      buf ← read_block b;
      for_ret DIRENTS_PER_BLOCK 0 (λ e,
        if truth (de_inum1 buf e) then
          c ← of_option (strcmp (de_name buf e) name);
          if c =? 0 then mret (Some (i32_of (de_inum1 buf e) - 1)) else mret None
        else mret None));
    mret (default (-1) r).

(** Fill slot [e] of a directory block. *)
Definition put_dirent (buf : list Z) (e : Z) (name : list Z) (child : Z) : prog (list Z) :=
  nm ← of_option (strncpy name 27);
  mret (set_name (set_inum1 buf e (u32 (child + 1))) e (nm ++ [0])).

(** Link a new block at index [b] and fill its first slot. *)
Definition dir_grow (dir : Z) (d : inode_t) (b : Z) (name : list Z) (child : Z) : prog Z :=
  nb ← alloc_block;
  if negb (truth nb) then mret (-1)
  else
    _ ← write_inode dir (Inode (type d) (u32 (size d + Z.of_nat BLOCK_SIZE))
                               (<[Z.to_nat b := nb]> (blocks d)));
    buf ← put_dirent (replicate BLOCK_SIZE 0) 0 name child;
    _ ← write_block nb buf;
    mret 0.

Definition dir_add (dir : Z) (name : list Z) (child : Z) : prog Z :=
  d ← read_inode dir;
  r ← for_blocks (blocks d) (λ b,
    buf ← read_block b;
    for_ret DIRENTS_PER_BLOCK 0 (λ e,
      if de_inum1 buf e =? 0 then
        buf' ← put_dirent buf e name child;
        _ ← write_block b buf';
        mret (Some 0)
      else mret None));
  match r with
  | Some v => mret v
  | None =>
      r ← for_ret DIRECT 0 (λ b,
        if negb (truth (blk_at (blocks d) b))
        then rc ← dir_grow dir d b name child; mret (Some rc)
        else mret None);
      mret (default (-1) r)
  end.

Definition dir_remove (dir : Z) (name : list Z) : prog Z :=
  d ← read_inode dir;
  r ← for_blocks (blocks d) (λ b,
    buf ← read_block b;
    for_ret DIRENTS_PER_BLOCK 0 (λ e,
      if truth (de_inum1 buf e) then
        c ← of_option (strcmp (de_name buf e) name);
        if c =? 0 then _ ← write_block b (set_inum1 buf e 0); mret (Some 0)
        else mret None
      else mret None));
  mret (default (-1) r).

(** ** Format and mount *)

Definition format : prog unit :=
  _ ← write_block 0 (list_inserts 0 superblock_bytes (replicate BLOCK_SIZE 0));
  _ ← for_ret (R:=unit) (Z.to_nat INODE_TABLE_BLOCKS) 0 (λ b,
        _ ← write_block (INODE_TABLE_START + b) (replicate BLOCK_SIZE 0); mret None);
  _ ← write_block BITMAP_BLOCK (replicate BLOCK_SIZE 0);
  _ ← write_inode SFS_ROOT (Inode SFS_DIR 0 (replicate DIRECT 0));
  _ ← dir_add SFS_ROOT (lit ".") SFS_ROOT;
  _ ← dir_add SFS_ROOT (lit "..") SFS_ROOT;
  mret tt.

Definition sfs_init : prog unit :=
  buf ← read_block 0;
  if negb (ld32 buf 0 =? SFS_MAGIC) then format else mret tt.

(** ** Public operations *)

Definition sfs_lookup (dir : Z) (name : list Z) : prog Z := dir_lookup dir name.
Definition sfs_type (i : Z) : prog Z := n ← read_inode i; mret (i32_of (type n)).
Definition sfs_size (i : Z) : prog Z := n ← read_inode i; mret (size n).

Definition sfs_create (dir : Z) (name : list Z) (ty : Z) : prog Z :=
  l ← dir_lookup dir name;
  if 0 <=? l then mret (-1)
  else
    ino ← alloc_inode;
    if ino <? 0 then mret (-1)
    else
      _ ← write_inode ino (Inode (u32 ty) 0 (replicate DIRECT 0));
      _ ← (if ty =? SFS_DIR then
             _ ← dir_add ino (lit ".") ino; dir_add ino (lit "..") dir
           else mret 0);
      rc ← dir_add dir name ino;
      mret (if negb (rc =? 0) then -1 else ino).

(** The loop over one block; [seen] counts the entries met so far.  The
    result is the return value with the bytes stored at [name_out], whose
    array has [cap] bytes. *)
Fixpoint readdir_block (n : nat) (e : Z) (buf : list Z) (index seen : Z) (cap : nat)
    : prog (Z + Z * list Z) :=
  match n with
  | O => mret (inl seen)
  | S n' =>
      if truth (de_inum1 buf e) then
        if seen =? index then
          nm ← of_option (strcpy (de_name buf e));
          if decide (cap < length nm)%nat then Fault
          else mret (inr (i32_of (de_inum1 buf e) - 1, nm))
        else readdir_block n' (e + 1) buf index (seen + 1) cap
      else readdir_block n' (e + 1) buf index seen cap
  end.

Fixpoint readdir_blocks (bl : list Z) (index seen : Z) (cap : nat) : prog (Z * list Z) :=
  match bl with
  | [] => mret (-1, [])
  | b :: bl' =>
      if truth b then
        buf ← read_block b;
        r ← readdir_block DIRENTS_PER_BLOCK 0 buf index seen cap;
        match r with
        | inl seen' => readdir_blocks bl' index seen' cap
        | inr v => mret v
        end
      else mret (-1, [])
  end.

Definition sfs_readdir (dir index : Z) (cap : nat) : prog (Z * list Z) :=
  d ← read_inode dir;
  if negb (type d =? SFS_DIR) then mret (-1, [])
  else readdir_blocks (blocks d) index 0 cap.

(** Free the blocks of an inode ([sfs_write], [sfs_unlink]). *)
Fixpoint free_blocks (bl : list Z) : prog unit :=
  match bl with
  | [] => mret tt
  | b :: bl' => _ ← (if truth b then free_block b else mret tt); free_blocks bl'
  end.

(** The write loop: [bl] are the block numbers stored so far, [n] bounds the
    iterations. *)
Fixpoint write_loop (n : nat) (data : list Z) (len written : Z) (bl : list Z) : prog (Z * list Z) :=
  match n with
  | O => Fault
  | S n' =>
      if written <? len then
        let chunk := Z.min (len - written) (Z.of_nat BLOCK_SIZE) in
        nb ← alloc_block;
        if negb (truth nb) then mret (written, bl)
        else
          let part := slice (Z.to_nat written) (Z.to_nat chunk) data in
          if decide (length part < Z.to_nat chunk)%nat then Fault
          else
            _ ← write_block nb (list_inserts 0 part (replicate BLOCK_SIZE 0));
            write_loop n' data len (written + chunk) (bl ++ [nb])
      else mret (written, bl)
  end.

Definition sfs_write (i : Z) (data : list Z) (len : Z) : prog Z :=
  n ← read_inode i;
  if negb (type n =? SFS_FILE) then mret (-1)
  else
    _ ← free_blocks (blocks n);
    let max_bytes := Z.of_nat (DIRECT * BLOCK_SIZE) in
    let len := if max_bytes <? len then max_bytes else len in
    r ← write_loop (S DIRECT) data len 0 [];
    _ ← write_inode i (Inode (type n) r.1 (r.2 ++ replicate (DIRECT - length r.2) 0));
    mret (i32_of r.1).

(** The read loop; [out] are the bytes stored so far. *)
Fixpoint read_loop (bl : list Z) (len : Z) (out : list Z) : prog (list Z) :=
  let done := Z.of_nat (length out) in
  if done <? len then
    match bl with
    | [] => mret out
    | b :: bl' =>
        if truth b then
          let chunk := Z.min (len - done) (Z.of_nat BLOCK_SIZE) in
          buf ← read_block b;
          read_loop bl' len (out ++ take (Z.to_nat chunk) buf)
        else mret out
    end
  else mret out.

(** The bytes stored at [out]; the return value is their number. *)
Definition sfs_read (i : Z) (max : Z) : prog (list Z) :=
  n ← read_inode i;
  let len := if max <? size n then max else size n in
  read_loop (blocks n) len [].

(** [for (i = 0; sfs_readdir(ino, i, tmp) >= 0; i++) count++] *)
Fixpoint count_entries (n : nat) (ino i count : Z) : prog Z :=
  match n with
  | O => Fault
  | S n' =>
      r ← sfs_readdir ino i 28;
      if 0 <=? r.1 then count_entries n' ino (i + 1) (count + 1) else mret count
  end.

(** A directory has at most 14 * 16 = 224 entries. *)
Definition COUNT_FUEL : nat := 225.

Definition sfs_unlink (dir : Z) (name : list Z) : prog Z :=
  c1 ← of_option (strcmp name (lit "."));
  c2 ← of_option (if c1 =? 0 then Some 0 else strcmp name (lit ".."));
  if (c1 =? 0) || (c2 =? 0) then mret (-1)
  else
    ino ← dir_lookup dir name;
    if ino <? 0 then mret (-1)
    else
      n ← read_inode ino;
      full ← ((if type n =? SFS_DIR then
                 count ← count_entries COUNT_FUEL ino 0 0; mret (2 <? count)
               else mret false) : prog bool);
      if (full : bool) then mret (-1)
      else
        _ ← free_blocks (blocks n);
        _ ← write_inode ino zero_inode;
        dir_remove dir name.
