(* ===== verification/SfsLayout.v ===== *)
(** * The filesystem on disk: inodes and the block bitmap

    What a disk means ([inode_at], [bit]) and what the lowest routines of
    sfs.c do to it: each of [read_inode], [write_inode], [alloc_inode],
    [alloc_block] and [free_block] runs without fault on a disk of whole
    byte blocks and changes exactly the part it names. *)

From S2P Require Import Prelude CString Block Sfs.

(** ** What a disk means *)

Definition disk_wf (d : disk) : Prop := ∀ b, sec_ok (sector d b).

Definition inode_at (d : disk) (i : Z) : inode_t :=
  inode_of_bytes (slice (Z.to_nat (64 * (i `mod` 8))) 64 (sector d (1 + i / 8))).

Definition inode_wf (n : inode_t) : Prop :=
  is_word (type n) ∧ is_word (size n) ∧ length (blocks n) = DIRECT ∧ Forall is_word (blocks n).

(** Bit [i] of the bitmap: data block [DATA_START + i] is in use. *)
Definition bit_of (bm : list Z) (i : Z) : bool := Z.testbit (byte_at bm (Z.to_nat (i / 8))) (i `mod` 8).
Definition bit (d : disk) (i : Z) : bool := bit_of (sector d BITMAP_BLOCK) i.

Definition inode_no (i : Z) : Prop := 0 ≤ i < MAX_INODES.
Definition data_blk (b : Z) : Prop := DATA_START ≤ b < DATA_START + MAX_DATA_BLOCKS.

(** ** Sectors *)

Lemma disk_wf_insert d b buf : disk_wf d → sec_ok buf → disk_wf (<[b := buf]> d).
Proof. intros Hd Hb b'. rewrite sector_insert. by case_decide. Qed.

Lemma zero_sec_ok : sec_ok (replicate BLOCK_SIZE 0).
Proof. split; [done|]. apply Forall_replicate. unfold is_byte. lia. Qed.

Lemma disk_wf_empty : disk_wf ∅.
Proof. intros b. apply zero_sec_ok. Qed.

Lemma run_read blk d : on_disk blk → run_disk (read_block blk) d = Some (sector d blk, d).
Proof. intros H. simpl. by rewrite decide_True. Qed.

Lemma run_write blk buf d : on_disk blk → sec_ok buf →
  run_disk (write_block blk buf) d = Some (tt, <[blk := buf]> d).
Proof. intros H Hl. simpl. by rewrite decide_True. Qed.

Lemma data_on_disk b : data_blk b → on_disk b.
Proof. unfold data_blk, on_disk, DATA_START, MAX_DATA_BLOCKS, DISK_BLOCKS. lia. Qed.

Lemma inserts_sec_ok o x b : sec_ok b → Forall is_byte x → sec_ok (list_inserts o x b).
Proof. intros [Hl Hb] Hx. split; [by rewrite length_inserts|by apply Forall_inserts]. Qed.

(** ** Inodes *)

Lemma inode_no_pos i : inode_no i →
  Z.quot i INODES_PER_BLOCK = i / 8 ∧ Z.rem i INODES_PER_BLOCK = i `mod` 8 ∧
  0 ≤ i / 8 < 8 ∧ 0 ≤ i `mod` 8 < 8.
Proof.
  unfold inode_no, MAX_INODES, INODES_PER_BLOCK. intros Hi.
  rewrite Z.quot_div_nonneg, Z.rem_mod_nonneg by lia.
  pose proof (Z.mod_pos_bound i 8 ltac:(lia)).
  pose proof (Z.div_lt_upper_bound i 8 8). pose proof (Z.div_pos i 8). lia.
Qed.

Lemma table_blk i : inode_no i →
  u32 (INODE_TABLE_START + Z.quot i INODES_PER_BLOCK) = 1 + i / 8 ∧ on_disk (1 + i / 8).
Proof.
  intros Hi. destruct (inode_no_pos i Hi) as (-> & _ & H & _). unfold INODE_TABLE_START.
  rewrite u32_small by lia. split; [done|]. unfold on_disk, DISK_BLOCKS. lia.
Qed.

Lemma table_off i : inode_no i →
  Z.rem i INODES_PER_BLOCK * 64 = 64 * (i `mod` 8) ∧ 0 ≤ 64 * (i `mod` 8) ∧ 64 * (i `mod` 8) + 64 ≤ 512.
Proof. intros Hi. destruct (inode_no_pos i Hi) as (_ & -> & _ & H). lia. Qed.

Lemma inode_of_bytes_wf b : Forall is_byte b → inode_wf (inode_of_bytes b).
Proof.
  intros Hb. unfold inode_of_bytes. pose proof (words_word 16 b Hb) as Hw.
  pose proof (length_words 16 b) as Hl. destruct (words 16 b) as [|t [|s bl]]; [done..|].
  apply Forall_cons in Hw as [Ht Hw]. apply Forall_cons in Hw as [Hs Hw].
  split; [done|]. split; [done|]. split; [|done]. simpl in *. unfold DIRECT. lia.
Qed.

Lemma inode_at_wf d i : disk_wf d → inode_wf (inode_at d i).
Proof. intros Hd. apply inode_of_bytes_wf, Forall_slice. apply Hd. Qed.

Lemma inode_round n : inode_wf n → inode_of_bytes (inode_bytes n) = n.
Proof.
  intros (Ht & Hs & Hl & Hb). unfold inode_of_bytes, inode_bytes.
  rewrite <-(app_nil_r (_ ≫= _)).
  assert (16%nat = length (type n :: size n :: blocks n)) as -> by (simpl; rewrite Hl; done).
  rewrite words_encode by (repeat constructor; done || apply Ht || apply Hs).
  by destruct n.
Qed.

Lemma length_inode_bytes n : length (blocks n) = DIRECT → length (inode_bytes n) = 64%nat.
Proof. intros Hl. unfold inode_bytes. rewrite length_encode. simpl. rewrite Hl. done. Qed.

Lemma read_inode_run d i : inode_no i → run_disk (read_inode i) d = Some (inode_at d i, d).
Proof.
  intros Hi. destruct (table_blk i Hi) as [Hb Hon]. destruct (table_off i Hi) as (Ho & Hpos & _).
  unfold read_inode. rewrite Hb, (run_bind_Some _ _ _ _ _ (run_read _ d Hon)), Ho.
  by rewrite decide_False by lia.
Qed.

(** Two inodes share a table block and an offset only if they are the same. *)
Lemma inode_slot_ne i j : inode_no i → inode_no j → i ≠ j → i / 8 = j / 8 → i `mod` 8 ≠ j `mod` 8.
Proof.
  intros _ _ Hne Hd Hm. apply Hne. rewrite (Z.div_mod i 8), (Z.div_mod j 8) by lia. congruence.
Qed.

Lemma write_inode_run d i n : disk_wf d → inode_no i → inode_wf n →
  ∃ d', run_disk (write_inode i n) d = Some (tt, d') ∧ disk_wf d' ∧
    (∀ j, inode_no j → inode_at d' j = if decide (j = i) then n else inode_at d j) ∧
    ∀ b, ¬ (1 ≤ b ≤ 8) → sector d' b = sector d b.
Proof.
  intros Hd Hi Hn. destruct (table_blk i Hi) as [Hb Hon]. destruct (table_off i Hi) as (Ho & Hpos & Hlt).
  destruct (inode_no_pos i Hi) as (_ & _ & Hdiv & _).
  pose proof (length_inode_bytes n ltac:(apply Hn)) as Hlen.
  unfold write_inode. rewrite Hb, (run_bind_Some _ _ _ _ _ (run_read _ d Hon)), Ho, decide_False by lia.
  pose proof (Hd (1 + i / 8)) as Hsec.
  rewrite run_write; [|done|by apply inserts_sec_ok; [|apply encode_bytes]].
  eexists. split; [done|]. split; [|split].
  - apply disk_wf_insert; [done|]. apply inserts_sec_ok; [done|]. apply encode_bytes.
  - intros j Hj. unfold inode_at. rewrite sector_insert. destruct (decide (j = i)) as [->|Hne].
    + rewrite decide_True by done. rewrite <-Hlen at 1. rewrite slice_inserts_same.
      * by apply inode_round.
      * rewrite Hlen, (proj1 Hsec). unfold BLOCK_SIZE. lia.
    + case_decide as Hsame; [|done]. f_equal. assert (j / 8 = i / 8) as Hd8 by lia. rewrite Hsame.
      pose proof (inode_slot_ne j i Hj Hi Hne Hd8). destruct (inode_no_pos j Hj) as (_ & _ & _ & Hjm).
      destruct (inode_no_pos i Hi) as (_ & _ & _ & Him).
      apply slice_inserts_other. rewrite Hlen. lia.
  - intros b Hnb. rewrite sector_insert, decide_False by lia. done.
Qed.

Lemma alloc_inode_run d :
  (∃ i, inode_no i ∧ type (inode_at d i) = SFS_FREE ∧
     (∀ j, 0 ≤ j < i → type (inode_at d j) ≠ SFS_FREE) ∧ run_disk alloc_inode d = Some (i, d)) ∨
  ((∀ i, inode_no i → type (inode_at d i) ≠ SFS_FREE) ∧ run_disk alloc_inode d = Some (-1, d)).
Proof.
  unfold alloc_inode.
  destruct (run_for_ret (λ j t, t = d ∧ ∀ k, 0 ≤ k < j → type (inode_at d k) ≠ SFS_FREE)
    (λ r t, t = d ∧ inode_no r ∧ type (inode_at d r) = SFS_FREE ∧
            ∀ j, 0 ≤ j < r → type (inode_at d j) ≠ SFS_FREE)
    (λ i, n ← read_inode i; mret (if type n =? SFS_FREE then Some i else None))
    (Z.to_nat MAX_INODES) 0 d) as (r & d' & Hrun & Hpost).
  - intros j t Hj [-> Hno]. assert (inode_no j) as Hij by (unfold inode_no, MAX_INODES in *; lia).
    rewrite (run_bind_Some _ _ _ _ _ (read_inode_run d j Hij)). eexists _, d. split; [done|].
    destruct (Z.eqb_spec (type (inode_at d j)) SFS_FREE) as [E|E].
    + done.
    + split; [done|]. intros k Hk. destruct (decide (k = j)) as [->|]; [done|apply Hno; lia].
  - split; [done|]. intros; lia.
  - rewrite (run_bind_Some _ _ _ _ _ Hrun). destruct r as [i|].
    + left. destruct Hpost as (-> & ? & ? & ?). by exists i.
    + right. destruct Hpost as [-> Hno]. split; [|done]. intros i Hi. apply Hno. exact Hi.
Qed.

(** ** The bitmap *)

Lemma bit_index i : 0 ≤ i < MAX_DATA_BLOCKS → 0 ≤ i `mod` 8 < 8 ∧ (Z.to_nat (i / 8) < BLOCK_SIZE)%nat.
Proof.
  unfold MAX_DATA_BLOCKS. intros Hi. split; [apply Z.mod_pos_bound; lia|].
  pose proof (Z.div_lt_upper_bound i 8 256). unfold BLOCK_SIZE. lia.
Qed.

Lemma bit_of_insert bm k i v : 0 ≤ i < MAX_DATA_BLOCKS → 0 ≤ k < MAX_DATA_BLOCKS → length bm = BLOCK_SIZE →
  bit_of (<[Z.to_nat (k / 8) := v]> bm) i =
  if decide (i / 8 = k / 8) then Z.testbit v (i `mod` 8) else bit_of bm i.
Proof.
  intros Hi Hk Hl. unfold bit_of, byte_at.
  destruct (bit_index k Hk) as [_ Hlt].
  pose proof (Z.div_pos i 8). pose proof (Z.div_pos k 8).
  case_decide as E.
  - rewrite E, list_lookup_insert_eq by (rewrite Hl; done). done.
  - rewrite list_lookup_insert_ne by lia. done.
Qed.

Lemma same_bit8 i k : i / 8 = k / 8 → (i `mod` 8 =? k `mod` 8) = bool_decide (i = k).
Proof.
  intros Hd. pose proof (Z.div_mod i 8 ltac:(lia)). pose proof (Z.div_mod k 8 ltac:(lia)).
  destruct (Z.eqb_spec (i `mod` 8) (k `mod` 8)).
  - rewrite bool_decide_eq_true_2; [done|congruence].
  - rewrite bool_decide_eq_false_2; [done|congruence].
Qed.

(** Setting and clearing one bit of a bitmap block. *)
Definition bm_set (bm : list Z) (i : Z) : list Z :=
  <[Z.to_nat (i / 8) := u8 (Z.lor (byte_at bm (Z.to_nat (i / 8))) (Z.shiftl 1 (i `mod` 8)))]> bm.
Definition bm_clear (bm : list Z) (i : Z) : list Z :=
  <[Z.to_nat (i / 8) := u8 (Z.land (byte_at bm (Z.to_nat (i / 8))) (Z.lnot (Z.shiftl 1 (i `mod` 8))))]> bm.

Lemma bm_set_spec bm i : sec_ok bm → 0 ≤ i < MAX_DATA_BLOCKS → sec_ok (bm_set bm i) ∧
  ∀ j, 0 ≤ j < MAX_DATA_BLOCKS → bit_of (bm_set bm i) j = bit_of bm j || bool_decide (j = i).
Proof.
  intros [Hl Hb] Hi. destruct (bit_index i Hi) as [Hm Hlt]. unfold bm_set.
  pose proof (byte_at_range bm (Z.to_nat (i / 8)) Hb) as Hby.
  pose proof (set_bit_range 8 _ (i `mod` 8) Hm Hby) as Hr.
  rewrite u8_small by done. split.
  - split; [by rewrite length_insert|]. by apply Forall_insert.
  - intros j Hj. rewrite bit_of_insert by done. destruct (bit_index j Hj) as [Hjm _]. case_decide as E.
    + rewrite set_bit_spec, same_bit8 by (done || lia). unfold bit_of. by rewrite E.
    + rewrite bool_decide_eq_false_2 by (by intros ->). by rewrite orb_false_r.
Qed.

Lemma bm_clear_spec bm i : sec_ok bm → 0 ≤ i < MAX_DATA_BLOCKS → sec_ok (bm_clear bm i) ∧
  ∀ j, 0 ≤ j < MAX_DATA_BLOCKS → bit_of (bm_clear bm i) j = bit_of bm j && negb (bool_decide (j = i)).
Proof.
  intros [Hl Hb] Hi. destruct (bit_index i Hi) as [Hm Hlt]. unfold bm_clear.
  pose proof (byte_at_range bm (Z.to_nat (i / 8)) Hb) as Hby.
  pose proof (clear_bit_range 8 _ (i `mod` 8) Hm Hby) as Hr.
  rewrite u8_small by done. split.
  - split; [by rewrite length_insert|]. by apply Forall_insert.
  - intros j Hj. rewrite bit_of_insert by done. destruct (bit_index j Hj) as [Hjm _]. case_decide as E.
    + rewrite clear_bit_spec, same_bit8 by (done || lia). unfold bit_of. by rewrite E.
    + rewrite bool_decide_eq_false_2 by (by intros ->). by rewrite andb_true_r.
Qed.

(** [alloc_block] takes the lowest free block and zeroes it. *)
Definition after_alloc (d : disk) (i : Z) : disk :=
  <[DATA_START + i := replicate BLOCK_SIZE 0]> (<[BITMAP_BLOCK := bm_set (sector d BITMAP_BLOCK) i]> d).

Lemma alloc_block_run d : disk_wf d →
  (∃ i, 0 ≤ i < MAX_DATA_BLOCKS ∧ bit d i = false ∧ (∀ j, 0 ≤ j < i → bit d j = true) ∧
     run_disk alloc_block d = Some (DATA_START + i, after_alloc d i)) ∨
  ((∀ i, 0 ≤ i < MAX_DATA_BLOCKS → bit d i = true) ∧ run_disk alloc_block d = Some (0, d)).
Proof.
  intros Hd. unfold alloc_block. rewrite (run_bind_Some _ _ _ _ _ (run_read BITMAP_BLOCK d ltac:(done))).
  set (bm := sector d BITMAP_BLOCK).
  edestruct (run_for_ret (λ j t, t = d ∧ ∀ k, 0 ≤ k < j → bit d k = true)
    (λ r t, ∃ i, 0 ≤ i < MAX_DATA_BLOCKS ∧ bit d i = false ∧ (∀ j, 0 ≤ j < i → bit d j = true) ∧
       r = DATA_START + i ∧ t = after_alloc d i)) as (r & d' & Hrun & Hpost);
    [| |rewrite (run_bind_Some _ _ _ _ _ Hrun); clear Hrun].
  - intros j t Hj [-> Hno].
    assert (0 ≤ j < MAX_DATA_BLOCKS) as Hj' by (unfold MAX_DATA_BLOCKS in *; lia).
    destruct (bit_index j Hj') as [Hm Hlt]. cbv zeta. rewrite test_bit_spec by lia.
    change (Z.testbit (byte_at bm (Z.to_nat (j / 8))) (j `mod` 8)) with (bit d j).
    destruct (bit d j) eqn:E.
    + eexists None, d. split; [done|]. split; [done|]. intros k Hk.
      destruct (decide (k = j)) as [->|]; [done|apply Hno; lia].
    + destruct (bm_set_spec bm j (Hd _) Hj') as [Hset _].
      rewrite (run_bind_Some _ _ _ _ _ (run_write BITMAP_BLOCK (bm_set bm j) d ltac:(done) Hset)).
      assert (on_disk (DATA_START + j)) as Hon.
      { apply data_on_disk. unfold data_blk. lia. }
      rewrite (run_bind_Some _ _ _ _ _ (run_write (DATA_START + j) (replicate BLOCK_SIZE 0) _ Hon zero_sec_ok)).
      eexists (Some _), _. split; [done|]. exists j. done.
  - split; [done|]. intros; lia.
  - destruct r as [v|].
    + left. destruct Hpost as (i & ? & ? & ? & -> & ->). by exists i.
    + right. destruct Hpost as [-> Hno]. split; [|done]. intros i Hi. by apply Hno.
Qed.

Lemma after_alloc_spec d i : disk_wf d → 0 ≤ i < MAX_DATA_BLOCKS →
  disk_wf (after_alloc d i) ∧
  (∀ j, 0 ≤ j < MAX_DATA_BLOCKS → bit (after_alloc d i) j = bit d j || bool_decide (j = i)) ∧
  (∀ j, inode_no j → inode_at (after_alloc d i) j = inode_at d j) ∧
  sector (after_alloc d i) (DATA_START + i) = zero_block ∧
  ∀ b, b ≠ BITMAP_BLOCK → b ≠ DATA_START + i → sector (after_alloc d i) b = sector d b.
Proof.
  intros Hd Hi. destruct (bm_set_spec (sector d BITMAP_BLOCK) i (Hd _) Hi) as [Hs Hb].
  assert (∀ b, b ≠ BITMAP_BLOCK → b ≠ DATA_START + i → sector (after_alloc d i) b = sector d b) as Hsame.
  { intros b H1 H2. unfold after_alloc. by rewrite !sector_insert, !decide_False by done. }
  split; [|split; [|split; [|split]]].
  - apply disk_wf_insert; [by apply disk_wf_insert|apply zero_sec_ok].
  - intros j Hj. unfold bit. rewrite <-Hb by done. unfold after_alloc.
    rewrite !sector_insert, decide_False, decide_True; [done|done|unfold BITMAP_BLOCK, DATA_START; lia].
  - intros j Hj. unfold inode_at. destruct (inode_no_pos j Hj) as (_ & _ & Hdiv & _).
    rewrite Hsame; [done|unfold BITMAP_BLOCK; lia|unfold DATA_START; lia].
  - unfold after_alloc. by rewrite sector_insert, decide_True.
  - exact Hsame.
Qed.

(** [free_block] clears one bit and nothing else. *)
Lemma free_block_run d b : disk_wf d → data_blk b →
  ∃ d', run_disk (free_block b) d = Some (tt, d') ∧ disk_wf d' ∧
    (∀ j, 0 ≤ j < MAX_DATA_BLOCKS → bit d' j = bit d j && negb (bool_decide (j = b - DATA_START))) ∧
    (∀ j, inode_no j → inode_at d' j = inode_at d j) ∧
    ∀ b', b' ≠ BITMAP_BLOCK → sector d' b' = sector d b'.
Proof.
  intros Hd Hb. unfold free_block, data_blk in *. destruct (Z.ltb_spec b DATA_START); [lia|].
  cbv zeta. assert (0 ≤ b - DATA_START < MAX_DATA_BLOCKS) as Hi by lia.
  destruct (bit_index _ Hi) as [Hm Hlt].
  rewrite (run_bind_Some _ _ _ _ _ (run_read BITMAP_BLOCK d ltac:(done))), decide_False by lia.
  destruct (bm_clear_spec (sector d BITMAP_BLOCK) (b - DATA_START) (Hd _) Hi) as [Hs Hbit].
  eexists. split; [by apply run_write|]. split; [by apply disk_wf_insert|].
  split; [|split].
  - intros j Hj. unfold bit at 1. rewrite sector_insert, decide_True by done. by apply Hbit.
  - intros j Hj. unfold inode_at. destruct (inode_no_pos j Hj) as (_ & _ & Hdiv & _).
    rewrite sector_insert, decide_False by (unfold BITMAP_BLOCK; lia). done.
  - intros b' Hne. by rewrite sector_insert, decide_False.
Qed.
