(* ===== verification/SfsInv.v ===== *)
(** * The filesystem invariant

    [fs_ok] says what a mounted disk always is: every inode is free, a file
    or a directory with a matching size, block lists are packed, no block
    belongs to two inodes or twice to one, the bitmap marks exactly the blocks
    that belong to an inode, and directory blocks hold terminated names and
    inode numbers in range. *)

From S2P Require Import Prelude CString Block Sfs SfsLayout.

Abbreviation owned n := (upto0 (blocks n)).

(** A directory slot: the inode number plus one (0 when free) and the name. *)
Definition slot_of (buf : list Z) (e : Z) : Z * list Z := (de_inum1 buf e, cstr (de_name buf e)).
Definition slots_of_block (buf : list Z) : list (Z * list Z) := slot_of buf <$> seqZ 0 16.

(** Names end within their 28 bytes; inode numbers are in range. *)
Definition dirblk_ok (buf : list Z) : Prop :=
  ∀ e, 0 ≤ e < 16 → 0 ∈ slice (Z.to_nat (32 * e + 4)) 28 buf ∧ de_inum1 buf e ≤ MAX_INODES.

Definition size_ok (n : inode_t) : Prop :=
  let len := Z.of_nat (length (owned n)) in
  (type n = SFS_FREE ∧ len = 0 ∧ size n = 0) ∨
  (type n = SFS_FILE ∧ size n ≤ 512 * len < size n + 512) ∨
  (type n = SFS_DIR ∧ size n = 512 * len).

Definition node_ok (n : inode_t) : Prop :=
  blocks n = owned n ++ replicate (DIRECT - length (owned n)) 0 ∧
  Forall data_blk (owned n) ∧ NoDup (owned n) ∧ size_ok n.

(** The bitmap marks exactly the blocks in [U]. *)
Definition bits_are (d : disk) (U : Z → Prop) : Prop :=
  ∀ b, data_blk b → bit d (b - DATA_START) = true ↔ U b.

Definition owned_by (d : disk) (i b : Z) : Prop := b ∈ owned (inode_at d i).

Record fs_ok (d : disk) : Prop := {
  ok_wf : disk_wf d;
  ok_magic : ld32 (sector d 0) 0 = SFS_MAGIC;
  ok_node : ∀ i, inode_no i → node_ok (inode_at d i);
  ok_excl : ∀ i j b, inode_no i → inode_no j → owned_by d i b → owned_by d j b → i = j;
  ok_bits : bits_are d (λ b, ∃ i, inode_no i ∧ owned_by d i b);
  ok_dirs : ∀ i b, inode_no i → type (inode_at d i) = SFS_DIR → owned_by d i b →
    dirblk_ok (sector d b);
  ok_root : type (inode_at d SFS_ROOT) = SFS_DIR;
}.

(** What a disk holds, as seen through the interface. *)
Definition file_bytes (d : disk) (i : Z) : list Z :=
  take (Z.to_nat (size (inode_at d i))) (owned (inode_at d i) ≫= sector d).
Definition dir_slots (d : disk) (i : Z) : list (Z * list Z) :=
  owned (inode_at d i) ≫= λ b, slots_of_block (sector d b).

(** The inode named [nm] in directory [i]. *)
Definition slot_named (nm : list Z) (x : Z * list Z) : Prop := x.1 ≠ 0 ∧ x.2 = nm.
#[global] Instance slot_named_dec nm x : Decision (slot_named nm x).
Proof. apply _. Defined.
Definition find_name (nm : list Z) (l : list (Z * list Z)) : option Z :=
  (λ p, p.2.1 - 1) <$> list_find (slot_named nm) l.

(** Inode [i] is the same, and so are the bytes of its blocks. *)
Definition same_object (d d' : disk) (i : Z) : Prop :=
  inode_at d' i = inode_at d i ∧ ∀ b, owned_by d i b → sector d' b = sector d b.

(** ** Consequences *)

Lemma data_blk_nonzero b : data_blk b → b ≠ 0.
Proof. unfold data_blk, DATA_START. lia. Qed.

Lemma owned_blk d i b : fs_ok d → inode_no i → owned_by d i b → data_blk b.
Proof.
  intros Hok Hi Hb. destruct (ok_node d Hok i Hi) as (_ & Hall & _).
  rewrite Forall_forall in Hall. by apply Hall.
Qed.

Lemma length_owned n : inode_wf n → (length (owned n) ≤ DIRECT)%nat.
Proof.
  intros (_ & _ & Hl & _). rewrite <-Hl. clear. induction (blocks n) as [|b l IH]; simpl; [lia|].
  case_match; simpl; lia.
Qed.

Lemma same_object_bytes d d' i : same_object d d' i → file_bytes d' i = file_bytes d i.
Proof. intros [Hn Hs]. unfold file_bytes. rewrite Hn. f_equal. by apply bind_ext_elem. Qed.

Lemma same_object_slots d d' i : same_object d d' i → dir_slots d' i = dir_slots d i.
Proof.
  intros [Hn Hs]. unfold dir_slots. rewrite Hn. apply bind_ext_elem. intros b Hb. by rewrite Hs.
Qed.

Lemma same_object_trans d1 d2 d3 i : same_object d1 d2 i → same_object d2 d3 i → same_object d1 d3 i.
Proof.
  unfold same_object, owned_by. intros [H1 S1] [H2 S2]. split; [congruence|].
  intros b Hb. rewrite S2; [by apply S1|by rewrite H1].
Qed.

(** Updating one inode re-establishes the invariant when the new block list
    takes only blocks nobody else has and the bitmap follows. *)
Lemma fs_ok_update d d' i n : fs_ok d → inode_no i → disk_wf d' →
  sector d' 0 = sector d 0 →
  (∀ j, inode_no j → inode_at d' j = if decide (j = i) then n else inode_at d j) →
  node_ok n → (∀ j b, inode_no j → j ≠ i → b ∈ owned n → ¬ owned_by d j b) →
  bits_are d' (λ b, b ∈ owned n ∨ ∃ j, inode_no j ∧ j ≠ i ∧ owned_by d j b) →
  (∀ j b, inode_no j → j ≠ i → owned_by d j b → sector d' b = sector d b) →
  (type n = SFS_DIR → ∀ b, b ∈ owned n → dirblk_ok (sector d' b)) →
  (i = SFS_ROOT → type n = SFS_DIR) →
  fs_ok d' ∧ ∀ j, inode_no j → j ≠ i → same_object d d' j.
Proof.
  intros Hok Hi Hwf Hs0 Hino Hn Hdis Hbits Hsec Hdir Hroot.
  assert (∀ j, inode_no j → j ≠ i → inode_at d' j = inode_at d j) as Hne
    by (intros j Hj Hji; by rewrite Hino, decide_False).
  assert (inode_at d' i = n) as Hself by (by rewrite Hino, decide_True).
  split; [|intros j Hj Hji; split; [by apply Hne|intros b; by apply Hsec]].
  split; [done| | | | | |].
  - by rewrite Hs0, (ok_magic d Hok).
  - intros j Hj. rewrite Hino by done. case_decide; [done|by apply (ok_node d Hok)].
  - intros j k b Hj Hk. unfold owned_by. rewrite !Hino by done.
    case_decide as E1; case_decide as E2; intros H1 H2; [congruence| | |by eapply (ok_excl d Hok)].
    + by destruct (Hdis k b Hk E2 H1).
    + by destruct (Hdis j b Hj E1 H2).
  - intros b Hb. rewrite (Hbits b Hb). split.
    + intros [H|(j & Hj & Hji & H)]; [exists i|exists j]; (split; [done|]); unfold owned_by.
      * by rewrite Hself.
      * by rewrite Hne.
    + intros (j & Hj & H). destruct (decide (j = i)) as [->|Hji].
      * left. unfold owned_by in H. by rewrite Hself in H.
      * right. exists j. unfold owned_by in *. by rewrite Hne in H.
  - intros j b Hj. unfold owned_by. rewrite Hino by done. case_decide as E; [auto|].
    intros Ht Hb. rewrite (Hsec j) by done. by apply (ok_dirs d Hok j).
  - destruct (decide (SFS_ROOT = i)) as [<-|Hr].
    + rewrite Hself. by apply Hroot.
    + rewrite Hne; [apply (ok_root d Hok)|done|done].
Qed.
