(* ===== verification/SfsFile.v ===== *)
(** * Files: [sfs_write] and [sfs_read] (fs/sfs.c)

    [sfs_write] replaces the contents of one file by the bytes it is given, up
    to the 7168 that 14 blocks hold, and [sfs_read] returns them; nothing else
    on the disk changes and the invariant of SfsInv is kept.  A block is always
    there to be had: the inodes cannot own them all ([never_full]). *)

From S2P Require Import Prelude CString Block Sfs SfsLayout SfsInv.

(** Largest file: [DIRECT * BLOCK_SIZE]. *)
Definition MAX_BYTES : Z := 7168.

Definition disk_full (d : disk) : Prop := ∀ i, 0 ≤ i < MAX_DATA_BLOCKS → bit d i = true.

(** ** Freeing a block list *)

Lemma data_blk_bit b : data_blk b → 0 ≤ b - DATA_START < MAX_DATA_BLOCKS.
Proof. unfold data_blk. lia. Qed.

Lemma bits_are_iff d U V : (∀ b, data_blk b → U b ↔ V b) → bits_are d U → bits_are d V.
Proof. intros H HU b Hb. rewrite (HU b Hb). by apply H. Qed.

Lemma free_blocks_run bl d U : disk_wf d → Forall (λ b, b = 0 ∨ data_blk b) bl → bits_are d U →
  ∃ d', run_disk (free_blocks bl) d = Some (tt, d') ∧ disk_wf d' ∧
    bits_are d' (λ b, U b ∧ b ∉ bl) ∧
    (∀ j, inode_no j → inode_at d' j = inode_at d j) ∧
    ∀ b, b ≠ BITMAP_BLOCK → sector d' b = sector d b.
Proof.
  intros Hwf Hbl. revert d U Hwf. induction Hbl as [|b bl Hb _ IH]; intros d U Hwf HU.
  - exists d. split; [done|]. split; [done|]. split; [|done].
    eapply bits_are_iff; [|exact HU]. set_solver.
  - cbn [free_blocks]. destruct Hb as [->|Hb].
    + destruct (IH d U Hwf HU) as (d' & Hrun & Hwf' & Hbits & Hrest). exists d'. split; [done|].
      split; [done|]. split; [|done]. eapply bits_are_iff; [|exact Hbits].
      intros b Hb. apply data_blk_nonzero in Hb. set_solver.
    + rewrite (proj2 (truth_true b)) by (by apply data_blk_nonzero).
      destruct (free_block_run d b Hwf Hb) as (d1 & Hrun1 & Hwf1 & Hbit1 & Hino1 & Hsec1).
      rewrite (run_bind_Some _ _ _ _ _ Hrun1).
      destruct (IH d1 (λ x, U x ∧ x ≠ b) Hwf1) as (d' & Hrun & Hwf' & Hbits & Hino & Hsec).
      { intros x Hx. rewrite Hbit1 by (by apply data_blk_bit). rewrite andb_true_iff, (HU x Hx).
        rewrite negb_true_iff, bool_decide_eq_false. split; intros [? Hne]; (split; [done|]); lia. }
      exists d'. split; [done|]. split; [done|]. split; [|split].
      * eapply bits_are_iff; [|exact Hbits]. set_solver.
      * intros j Hj. rewrite Hino by done. by apply Hino1.
      * intros x Hx. rewrite Hsec by done. by apply Hsec1.
Qed.

(** ** The disk never fills up

    64 inodes of at most 14 blocks own at most 896 of the 2048 data blocks. *)

Lemma length_bind_le {A B} (f : A → list B) (k : nat) l : (∀ x, x ∈ l → (length (f x) ≤ k)%nat) →
  (length (l ≫= f) ≤ k * length l)%nat.
Proof.
  induction l as [|x l IH]; intros Hf; [cbn; lia|]. rewrite bind_cons, length_app. cbn [length].
  assert (length (f x) ≤ k)%nat by (apply Hf; left).
  assert (length (l ≫= f) ≤ k * length l)%nat by (apply IH; intros; apply Hf; by right). lia.
Qed.

Lemma never_full d : fs_ok d → ¬ disk_full d.
Proof.
  intros Hok Hfull. set (all := seqZ 0 64 ≫= λ i, owned (inode_at d i)).
  assert (length all ≤ 14 * 64)%nat as Hlen.
  { apply (length_bind_le _ 14 (seqZ 0 64)). intros i _. apply (length_owned _ (inode_at_wf d i (ok_wf d Hok))). }
  assert (seqZ DATA_START MAX_DATA_BLOCKS ⊆+ all) as Hsub.
  { apply NoDup_submseteq; [apply NoDup_seqZ|]. intros b Hb. apply elem_of_seqZ in Hb.
    assert (data_blk b) as Hd by (unfold data_blk; lia).
    destruct (proj1 (ok_bits d Hok b Hd)) as (i & Hi & Ho); [by apply Hfull, data_blk_bit|].
    apply list_elem_of_bind. exists i. split; [done|]. apply elem_of_seqZ. unfold inode_no, MAX_INODES in Hi. lia. }
  apply submseteq_length in Hsub. rewrite length_seqZ in Hsub. unfold MAX_DATA_BLOCKS in Hsub. lia.
Qed.

(** ** The write loop *)

(** What holds after [w] bytes went into the blocks [bl], on a disk that was
    [d0] and whose blocks [U] were taken when the loop began. *)
Record writing (d0 : disk) (U : Z → Prop) (data : list Z) (len : Z)
    (d : disk) (w : Z) (bl : list Z) : Prop := {
  wr_wf : disk_wf d;
  wr_inodes : ∀ j, inode_no j → inode_at d j = inode_at d0 j;
  wr_same : ∀ b, b ≠ BITMAP_BLOCK → b ∉ bl → sector d b = sector d0 b;
  wr_bits : bits_are d (λ b, U b ∨ b ∈ bl);
  wr_fresh : ∀ b, b ∈ bl → data_blk b ∧ ¬ U b;
  wr_nodup : NoDup bl;
  wr_len : 0 ≤ w ≤ len;
  wr_size : w ≤ 512 * Z.of_nat (length bl) < w + 512;
  wr_bytes : take (Z.to_nat w) (bl ≫= sector d) = take (Z.to_nat w) data;
}.

Lemma length_sectors d bl : disk_wf d → length (bl ≫= sector d) = (512 * length bl)%nat.
Proof.
  intros Hd. induction bl as [|b bl IH]; [done|].
  rewrite bind_cons, length_app, IH, (proj1 (Hd b)). unfold BLOCK_SIZE. simpl. lia.
Qed.

(** The next chunk of the data. *)
Definition chunk_of (data : list Z) (w len : Z) : list Z :=
  slice (Z.to_nat w) (Z.to_nat (Z.min (len - w) 512)) data.

Lemma chunk_of_spec data w len : 0 ≤ w ≤ len → len ≤ Z.of_nat (length data) →
  length (chunk_of data w len) = Z.to_nat (Z.min (len - w) 512) ∧
  take (Z.to_nat w) data ++ chunk_of data w len = take (Z.to_nat (w + Z.min (len - w) 512)) data.
Proof.
  intros Hw Hlen. split; [apply length_slice; lia|].
  unfold chunk_of, slice. rewrite take_take_drop. f_equal. lia.
Qed.

Lemma writing_step d0 U data len d w bl i :
  writing d0 U data len d w bl → w < len → w = 512 * Z.of_nat (length bl) →
  len ≤ Z.of_nat (length data) → Forall is_byte data →
  0 ≤ i < MAX_DATA_BLOCKS → bit d i = false →
  writing d0 U data len
    (<[DATA_START + i := list_inserts 0 (chunk_of data w len) (replicate BLOCK_SIZE 0)]> (after_alloc d i))
    (w + Z.min (len - w) 512) (bl ++ [DATA_START + i]).
Proof.
  intros [Hwf Hino Hsame Hbits Hfresh Hnd Hw Hsz Hby] Hlt Hfull Hdl Hdata Hi Hbit.
  destruct (after_alloc_spec d i Hwf Hi) as (Hwf1 & Hbit1 & Hino1 & _ & Hsec1).
  set (nb := DATA_START + i) in *. assert (data_blk nb) as Hnb by (unfold data_blk, nb; lia).
  assert (¬ (U nb ∨ nb ∈ bl)) as Hnew.
  { rewrite <-(Hbits nb Hnb). replace (nb - DATA_START) with i by lia. by rewrite Hbit. }
  assert (nb ≠ BITMAP_BLOCK) as Hnb9 by (unfold nb, BITMAP_BLOCK, DATA_START in *; lia).
  assert (∀ b, b ∈ bl → b ≠ BITMAP_BLOCK ∧ b ≠ nb) as Hbl9.
  { intros b Hb. destruct (Hfresh b Hb) as [Hd _].
    unfold data_blk, BITMAP_BLOCK, DATA_START in *. split; [lia|]. intros ->. auto. }
  destruct (chunk_of_spec data w len Hw Hdl) as [Hcl Hct]. set (part := chunk_of data w len) in *.
  assert (sec_ok (list_inserts 0 part (replicate BLOCK_SIZE 0))) as Hsec.
  { apply inserts_sec_ok; [apply zero_sec_ok|]. by apply Forall_slice. }
  constructor.
  - by apply disk_wf_insert.
  - intros j Hj. rewrite <-Hino, <-Hino1 by done. unfold inode_at.
    destruct (inode_no_pos j Hj) as (_ & _ & Hdiv & _).
    rewrite sector_insert, decide_False; [done|]. unfold nb, DATA_START. lia.
  - intros b Hb9 Hb. rewrite sector_insert, decide_False by set_solver.
    rewrite Hsec1, Hsame; set_solver.
  - intros b Hb. unfold bit. rewrite sector_insert, decide_False by congruence.
    change (bit (after_alloc d i) (b - DATA_START) = true ↔ U b ∨ b ∈ bl ++ [nb]).
    rewrite Hbit1 by (by apply data_blk_bit). rewrite orb_true_iff, (Hbits b Hb), bool_decide_eq_true.
    assert (b - DATA_START = i ↔ b = nb) as -> by (unfold nb; lia). set_solver.
  - intros b. rewrite elem_of_app, list_elem_of_singleton. intros [Hb| ->]; [by apply Hfresh|]. tauto.
  - apply NoDup_app. split; [done|]. split; [set_solver|apply NoDup_singleton].
  - lia.
  - rewrite length_app. simpl. lia.
  - rewrite bind_app, bind_cons. cbn [mbind list_bind]. rewrite app_nil_r.
    rewrite sector_insert, decide_True by done.
    rewrite (bind_ext_elem _ (sector d)) by (intros b Hb; destruct (Hbl9 b Hb);
      rewrite sector_insert, decide_False by done; by apply Hsec1).
    rewrite <-Hct, <-Hby, (take_ge (bl ≫= sector d)) by (rewrite length_sectors by done; lia).
    rewrite list_inserts_split by (rewrite length_replicate, Hcl; unfold BLOCK_SIZE; lia).
    rewrite take_0, app_nil_l, app_assoc. apply take_app_length'.
    rewrite length_app, length_sectors, Hcl by done. lia.
Qed.

Lemma write_loop_run d0 U data len : len ≤ Z.of_nat (length data) → Forall is_byte data → ∀ n d w bl,
  writing d0 U data len d w bl → (w < len → w = 512 * Z.of_nat (length bl)) →
  len - w ≤ 512 * (Z.of_nat n - 1) → (0 < n)%nat →
  ∃ w' bl' d', run_disk (write_loop n data len w bl) d = Some ((w', bl'), d') ∧
    writing d0 U data len d' w' bl' ∧ (w' = len ∨ disk_full d').
Proof.
  intros Hdl Hdata. induction n as [|n IH]; intros d w bl Hwr Hfull Hfuel Hn; [lia|]. cbn [write_loop].
  destruct (Z.ltb_spec w len) as [Hlt|Hge].
  2:{ exists w, bl, d. split; [done|]. split; [done|]. left. destruct Hwr. lia. }
  specialize (Hfull Hlt). cbv zeta. change (Z.of_nat BLOCK_SIZE) with 512.
  destruct (alloc_block_run d (wr_wf _ _ _ _ _ _ _ Hwr)) as [(i & Hi & Hbit & _ & Hrun)|[Hbits Hrun]].
  2:{ rewrite (run_bind_Some _ _ _ _ _ Hrun). exists w, bl, d. split; [done|]. split; [done|]. by right. }
  rewrite (run_bind_Some _ _ _ _ _ Hrun).
  rewrite (proj2 (truth_true _)) by (unfold DATA_START; lia). cbn [negb].
  fold (chunk_of data w len).
  destruct (chunk_of_spec data w len (wr_len _ _ _ _ _ _ _ Hwr) Hdl) as [Hcl _].
  rewrite decide_False by lia.
  assert (on_disk (DATA_START + i)) as Hon by (apply data_on_disk; unfold data_blk; lia).
  rewrite (run_bind_Some _ _ _ _ _ (run_write _ (list_inserts 0 (chunk_of data w len) _) _ Hon
    ltac:(apply inserts_sec_ok; [apply zero_sec_ok|by apply Forall_slice]))).
  apply IH.
  - by apply writing_step.
  - rewrite length_app. simpl. lia.
  - lia.
  - lia.
Qed.

(** ** [sfs_write] *)

(** The inode [sfs_write] stores. *)
Definition written_inode (w : Z) (bl : list Z) : inode_t :=
  Inode SFS_FILE w (bl ++ replicate (DIRECT - length bl) 0).

Lemma owned_written w bl : Forall data_blk bl → owned (written_inode w bl) = bl.
Proof. intros Hb. apply upto0_pad. eapply Forall_impl; [exact Hb|]. apply data_blk_nonzero. Qed.

Lemma written_node_ok d0 U data len d w bl : writing d0 U data len d w bl → len ≤ MAX_BYTES →
  node_ok (written_inode w bl) ∧ inode_wf (written_inode w bl) ∧ owned (written_inode w bl) = bl.
Proof.
  intros Hw Hlen. assert (Forall data_blk bl) as Hb.
  { apply Forall_forall. intros b Hb. by apply (wr_fresh _ _ _ _ _ _ _ Hw). }
  pose proof (owned_written w bl Hb) as Ho. destruct (wr_size _ _ _ _ _ _ _ Hw) as [Hs1 Hs2].
  pose proof (wr_len _ _ _ _ _ _ _ Hw). unfold MAX_BYTES in *.
  assert (length bl ≤ DIRECT)%nat by (unfold DIRECT; lia).
  split; [split|split; [|done]].
  - by rewrite Ho.
  - rewrite Ho. split; [done|]. split; [apply Hw|]. unfold size_ok. rewrite Ho. right. left. done.
  - split; [done|]. split; [unfold is_word; simpl; lia|]. split.
    + simpl. rewrite length_app, length_replicate. lia.
    + apply Forall_app. split.
      * eapply Forall_impl; [exact Hb|]. unfold data_blk, is_word, DATA_START, MAX_DATA_BLOCKS. lia.
      * apply Forall_replicate. done.
Qed.

(** The blocks of an inode are data blocks; the rest of its list is 0. *)
Lemma node_blocks n : node_ok n → Forall (λ b, b = 0 ∨ data_blk b) (blocks n).
Proof.
  intros (Hbl & Hb & _). rewrite Hbl. apply Forall_app. split; [by eapply Forall_impl; [exact Hb|right]|].
  apply Forall_replicate. by left.
Qed.

Lemma node_blocks_in n b : node_ok n → data_blk b → b ∈ blocks n ↔ b ∈ owned n.
Proof.
  intros (Hbl & _) Hb. rewrite Hbl at 1. rewrite elem_of_app.
  split; [|by left]. intros [|Hz]; [done|]. apply elem_of_replicate in Hz as [-> _].
  by apply data_blk_nonzero in Hb.
Qed.

(** Once the blocks of inode [i] are freed, the bitmap marks the others'. *)
Lemma freed_bits d i : fs_ok d → inode_no i → ∀ d1,
  bits_are d1 (λ b, (∃ j, inode_no j ∧ owned_by d j b) ∧ b ∉ blocks (inode_at d i)) →
  bits_are d1 (λ b, ∃ j, inode_no j ∧ j ≠ i ∧ owned_by d j b).
Proof.
  intros Hok Hi d1. apply bits_are_iff. intros b Hb.
  rewrite (node_blocks_in _ b (ok_node d Hok i Hi) Hb). split.
  - intros [(j & Hj & Ho) Hni]. exists j. split; [done|]. split; [|done]. by intros ->.
  - intros (j & Hj & Hji & Ho). split; [by exists j|]. intros Hin. apply Hji.
    by eapply (ok_excl d Hok).
Qed.

Lemma sfs_write_run d i data len : fs_ok d → inode_no i → type (inode_at d i) = SFS_FILE →
  Forall is_byte data → 0 ≤ len ≤ Z.of_nat (length data) →
  ∃ w d', run_disk (sfs_write i data len) d = Some (w, d') ∧ fs_ok d' ∧
    type (inode_at d' i) = SFS_FILE ∧ size (inode_at d' i) = w ∧
    file_bytes d' i = take (Z.to_nat w) data ∧ w = Z.min len MAX_BYTES ∧
    ∀ j, inode_no j → j ≠ i → same_object d d' j.
Proof.
  intros Hok Hi Hty Hdata Hlen. unfold sfs_write.
  rewrite (run_bind_Some _ _ _ _ _ (read_inode_run d i Hi)), Hty. cbn [negb Z.eqb SFS_FILE Pos.eqb].
  destruct (free_blocks_run (blocks (inode_at d i)) d _ (ok_wf d Hok)
    (node_blocks _ (ok_node d Hok i Hi)) (ok_bits d Hok)) as (d1 & Hrun1 & Hwf1 & Hbits1 & Hino1 & Hsec1).
  rewrite (run_bind_Some _ _ _ _ _ Hrun1). clear Hrun1. apply (freed_bits d i Hok Hi) in Hbits1. cbv zeta.
  change (Z.of_nat (DIRECT * BLOCK_SIZE)) with MAX_BYTES.
  set (len' := if MAX_BYTES <? len then MAX_BYTES else len).
  assert (len' = Z.min len MAX_BYTES) as Hlen' by (unfold len'; destruct (Z.ltb_spec MAX_BYTES len); lia).
  rewrite Hlen'. clear len' Hlen'. set (U := λ b, ∃ j, inode_no j ∧ j ≠ i ∧ owned_by d j b) in *.
  destruct (write_loop_run d1 U data (Z.min len MAX_BYTES) ltac:(lia) Hdata (S DIRECT) d1 0 [])
    as (w & bl & d2 & Hrun2 & Hw & Hend).
  { constructor; [done|done|done| |set_solver|constructor|unfold MAX_BYTES; lia|simpl; lia|done].
    eapply bits_are_iff; [|exact Hbits1]. set_solver. }
  { simpl. lia. } { unfold MAX_BYTES, DIRECT. lia. } { lia. }
  rewrite (run_bind_Some _ _ _ _ _ Hrun2). clear Hrun2. cbn [fst snd].
  destruct (written_node_ok _ _ _ _ _ _ _ Hw ltac:(lia)) as (Hnode & Hnwf & Hown).
  fold (written_inode w bl).
  destruct (write_inode_run d2 i (written_inode w bl) (wr_wf _ _ _ _ _ _ _ Hw) Hi Hnwf)
    as (d3 & Hrun3 & Hwf3 & Hino3 & Hsec3).
  rewrite (run_bind_Some _ _ _ _ _ Hrun3). destruct (wr_len _ _ _ _ _ _ _ Hw) as [Hw0 HwM].
  assert (i32_of w = w) as -> by (unfold i32_of; unfold MAX_BYTES in *; rewrite Z.mod_small; lia).
  assert (∀ b, data_blk b → sector d3 b = sector d2 b) as Hdat
    by (intros b Hb; apply Hsec3; unfold data_blk, DATA_START in *; lia).
  assert (inode_at d3 i = written_inode w bl) as Hself by (by rewrite Hino3, decide_True).
  destruct (fs_ok_update d d3 i (written_inode w bl)) as [Hok3 Hothers]; try done.
  - rewrite Hsec3, (wr_same _ _ _ _ _ _ _ Hw), Hsec1; [done|done|done| |lia].
    intros H0. by destruct (wr_fresh _ _ _ _ _ _ _ Hw 0 H0) as [?%data_blk_nonzero _].
  - intros j Hj. rewrite Hino3 by done. case_decide; [done|].
    by rewrite (wr_inodes _ _ _ _ _ _ _ Hw), Hino1.
  - intros j b Hj Hji. rewrite Hown. intros Hb Ho.
    destruct (wr_fresh _ _ _ _ _ _ _ Hw b Hb) as [_ []]. by exists j.
  - rewrite Hown. intros b Hb. unfold bit. rewrite Hsec3 by (unfold BITMAP_BLOCK; lia).
    etransitivity; [exact (wr_bits _ _ _ _ _ _ _ Hw b Hb)|]. fold (U b). tauto.
  - intros j b Hj Hji Ho. pose proof (owned_blk d j b Hok Hj Ho) as Hb.
    assert (b ≠ BITMAP_BLOCK) by (unfold data_blk, DATA_START, BITMAP_BLOCK in *; lia).
    rewrite Hdat, (wr_same _ _ _ _ _ _ _ Hw), Hsec1; try done.
    intros Hin. destruct (wr_fresh _ _ _ _ _ _ _ Hw b Hin) as [_ []]. by exists j.
  - intros ->. by rewrite (ok_root d Hok) in Hty.
  - exists w, d3. split; [done|]. split; [done|]. rewrite Hself. split; [done|]. split; [done|].
    split; [|split; [|done]].
    + unfold file_bytes. rewrite Hself, Hown. cbn [size written_inode].
      rewrite (bind_ext_elem _ (sector d2)), (wr_bytes _ _ _ _ _ _ _ Hw); [done|].
      intros b Hb. apply Hdat. by apply (wr_fresh _ _ _ _ _ _ _ Hw).
    + destruct Hend as [->|Hfull]; [done|]. destruct (never_full d3 Hok3). intros k Hk. unfold bit.
      rewrite Hsec3 by (unfold BITMAP_BLOCK; lia). by apply Hfull.
Qed.

(** ** [sfs_read] *)

Lemma read_loop_run d bl len out : disk_wf d → Forall on_disk (upto0 bl) →
  run_disk (read_loop bl len out) d =
  Some (out ++ take (Z.to_nat len - length out) (upto0 bl ≫= sector d), d).
Proof.
  intros Hwf. revert out. induction bl as [|b bl IH]; intros out Hon.
  - cbn [read_loop]. case_match; cbn [upto0 mbind list_bind]; by rewrite take_nil, app_nil_r.
  - cbn [read_loop]. destruct (Z.ltb_spec (Z.of_nat (length out)) len) as [Hlt|Hge].
    2:{ replace (Z.to_nat len - length out)%nat with 0%nat by lia. by rewrite take_0, app_nil_r. }
    cbn [upto0] in *. destruct (truth b) eqn:Hb.
    2:{ cbn [mbind list_bind]. by rewrite take_nil, app_nil_r. }
    apply Forall_cons in Hon as [Hb1 Hon]. cbv zeta.
    rewrite (run_bind_Some _ _ _ _ _ (run_read b d Hb1)), (IH _ Hon), bind_cons.
    pose proof (proj1 (Hwf b)) as Hl. change (Z.of_nat BLOCK_SIZE) with 512.
    change BLOCK_SIZE with 512%nat in Hl. rewrite <-app_assoc. do 3 f_equal.
    rewrite length_app, length_take, Hl, take_app, Hl. f_equal; [|f_equal; lia].
    destruct (decide (len - Z.of_nat (length out) ≤ 512)); [f_equal; lia|].
    rewrite !take_ge by lia. done.
Qed.

Lemma sfs_read_run d i max : fs_ok d → inode_no i → 0 ≤ max →
  run_disk (sfs_read i max) d = Some (take (Z.to_nat max) (file_bytes d i), d).
Proof.
  intros Hok Hi Hm. unfold sfs_read. rewrite (run_bind_Some _ _ _ _ _ (read_inode_run d i Hi)). cbv zeta.
  rewrite read_loop_run; [|apply Hok|].
  - unfold file_bytes. rewrite take_take. cbn [length app]. do 3 f_equal.
    destruct (Z.ltb_spec max (size (inode_at d i))); lia.
  - apply Forall_forall. intros b Hb. by apply data_on_disk, (owned_blk d i).
Qed.

(** A file holds as many bytes as its size says. *)
Lemma length_file_bytes d i : fs_ok d → inode_no i →
  Z.of_nat (length (file_bytes d i)) = size (inode_at d i).
Proof.
  intros Hok Hi. unfold file_bytes. rewrite length_take, length_sectors by apply Hok.
  destruct (inode_at_wf d i (ok_wf d Hok)) as (_ & [Hs _] & _).
  destruct (ok_node d Hok i Hi) as (_ & _ & _ & [?|[?|?]]); lia.
Qed.

Lemma sfs_write_not_file d i data len : inode_no i → type (inode_at d i) ≠ SFS_FILE →
  run_disk (sfs_write i data len) d = Some (-1, d).
Proof.
  intros Hi Hty. unfold sfs_write. rewrite (run_bind_Some _ _ _ _ _ (read_inode_run d i Hi)).
  apply Z.eqb_neq in Hty. by rewrite Hty.
Qed.
