(* ===== verification/SfsDir.v ===== *)
(** * Directories: lookup, insertion, removal, enumeration (fs/sfs.c)

    A directory is the list of its slots ([dir_slots]).  The block-by-block
    searches of [dir_lookup], [dir_add], [dir_remove] and [sfs_readdir] are
    shown to be searches of that list, and the two updates to change one slot
    of it (or to append one block of slots). *)

From S2P Require Import Prelude CString Block Sfs SfsLayout SfsInv SfsFile.

Abbreviation slot := (Z * list Z)%type.
Abbreviation slots_at d b := (slots_of_block (sector d b)).

Definition slot_used (x : slot) : Prop := x.1 ≠ 0.
#[global] Instance slot_used_dec x : Decision (slot_used x).
Proof. apply _. Defined.

Lemma owned_mid d dir bl1 b bl2 : owned (inode_at d dir) = bl1 ++ b :: bl2 → owned_by d dir b.
Proof. unfold owned_by. intros ->. apply elem_of_app. right. left. Qed.

(** ** One slot of a block *)

Section slots.
Implicit Types buf : list Z.

Lemma dirblk_name buf e : dirblk_ok buf → 0 ≤ e < 16 → 0 ∈ de_name buf e.
Proof.
  intros H He. destruct (H e He) as [H0 _]. unfold de_name, slice in *.
  apply elem_of_take in H0 as (k & Hk & _). by eapply list_elem_of_lookup_2.
Qed.

Lemma cstr_take n l : 0 ∈ take n l → cstr (take n l) = cstr l.
Proof.
  revert n. induction l as [|c l IH]; intros [|n]; simpl; [done|done|set_solver|].
  intros H. destruct (truth c) eqn:E; [|done]. f_equal. apply IH.
  apply elem_of_cons in H as [<-|H]; [done|done].
Qed.

(** A slot is determined by its own 32 bytes. *)
Lemma slot_of_slice buf buf' e : 0 ≤ e < 16 → dirblk_ok buf →
  slice (Z.to_nat (32 * e)) 32 buf' = slice (Z.to_nat (32 * e)) 32 buf →
  slot_of buf' e = slot_of buf e ∧
  slice (Z.to_nat (32 * e + 4)) 28 buf' = slice (Z.to_nat (32 * e + 4)) 28 buf.
Proof.
  intros He Hok Hs.
  assert (∀ b : list Z, slice (Z.to_nat (32 * e + 4)) 28 b = drop 4 (slice (Z.to_nat (32 * e)) 32 b)) as Hn.
  { intros b. unfold slice. rewrite skipn_firstn_comm, drop_drop. do 2 f_equal; lia. }
  assert (slice (Z.to_nat (32 * e + 4)) 28 buf' = slice (Z.to_nat (32 * e + 4)) 28 buf) as Hname
    by (by rewrite !Hn, Hs).
  split; [|done]. unfold slot_of. f_equal.
  - unfold de_inum1. rewrite (ld32_drop buf'), (ld32_drop buf).
    rewrite <-(ld32_take (drop _ buf') 0 32), <-(ld32_take (drop _ buf) 0 32) by lia.
    unfold slice in Hs. by rewrite Hs.
  - destruct (Hok e He) as [H0 _]. unfold de_name, slice in *.
    rewrite <-(cstr_take 28 (drop _ buf')), <-(cstr_take 28 (drop _ buf)) by congruence. by rewrite Hname.
Qed.

(** Replacing one slot of a block. *)
Definition slot_put buf buf' (e : Z) (x : slot) : Prop :=
  sec_ok buf' ∧ dirblk_ok buf' ∧ slot_of buf' e = x ∧
  ∀ e', 0 ≤ e' < 16 → e' ≠ e → slot_of buf' e' = slot_of buf e'.

Lemma slot_put_intro buf o ws e x : sec_ok buf → dirblk_ok buf → 0 ≤ e < 16 → Forall is_byte ws →
  (Z.to_nat (32 * e) ≤ o)%nat → (o + length ws ≤ Z.to_nat (32 * e + 32))%nat →
  let buf' := list_inserts o ws buf in
  0 ∈ slice (Z.to_nat (32 * e + 4)) 28 buf' → x.1 ≤ MAX_INODES → slot_of buf' e = x →
  slot_put buf buf' e x.
Proof.
  intros Hs Hd He Hws Ho Hl buf' H0 Hx Hslot.
  assert (∀ e', 0 ≤ e' < 16 → e' ≠ e → slot_of buf' e' = slot_of buf e' ∧
    slice (Z.to_nat (32 * e' + 4)) 28 buf' = slice (Z.to_nat (32 * e' + 4)) 28 buf) as Hother.
  { intros e' He' Hne. apply slot_of_slice; [done|done|]. apply slice_inserts_other. lia. }
  split; [by apply inserts_sec_ok|]. split; [|split; [done|]].
  - intros e' He'. destruct (decide (e' = e)) as [->|Hne].
    + split; [done|]. by rewrite <-Hslot in Hx.
    + destruct (Hother e' He' Hne) as [Hsl ->]. unfold slot_of in Hsl. injection Hsl as -> _.
      by apply Hd.
  - intros e' He' Hne. by apply Hother.
Qed.

(** Clearing the inode number of a slot. *)
Lemma set_inum1_put buf e : sec_ok buf → dirblk_ok buf → 0 ≤ e < 16 →
  slot_put buf (set_inum1 buf e 0) e (0, (slot_of buf e).2).
Proof.
  intros Hs Hd He. pose proof (proj1 Hs) as Hlen. unfold BLOCK_SIZE in Hlen.
  assert (length (le32 0) = 4%nat) as H4 by done.
  apply slot_put_intro; try done.
  - apply le32_bytes.
  - rewrite H4. lia.
  - rewrite slice_inserts_other by (rewrite H4; lia). by apply Hd.
  - unfold slot_of, de_inum1, de_name. cbn [snd]. f_equal.
    + apply ld32_inserts_same; [done|lia].
    + f_equal. apply list_eq. intros k. rewrite !lookup_drop.
      rewrite list_lookup_inserts_ge; [done|rewrite H4; lia].
Qed.

(** The bytes [put_dirent] stores: the inode number and the name field. *)
Definition name_field (nm : list Z) : list Z := take 27 nm ++ replicate (27 - length nm) 0 ++ [0].

Lemma length_name_field nm : length (name_field nm) = 28%nat.
Proof. unfold name_field. rewrite !length_app, length_take, length_replicate. cbn [length]. lia. Qed.

Lemma cstr_name_field nm l : Forall (λ c, c ≠ 0) nm → cstr (name_field nm ++ l) = take 27 nm.
Proof.
  intros Hn. unfold name_field. rewrite <-!app_assoc.
  destruct (27 - length nm)%nat eqn:E; simpl; apply upto0_app_0; by apply Forall_take.
Qed.

Lemma inserts_adjacent {A} o (x y b : list A) : (o + length x + length y ≤ length b)%nat →
  list_inserts (o + length x) y (list_inserts o x b) = list_inserts o (x ++ y) b.
Proof.
  intros Hb. apply list_eq. intros k. destruct (decide (k < o + length x)%nat) as [H1|H1].
  - rewrite list_lookup_inserts_lt by lia. destruct (decide (k < o)%nat) as [H0|H0].
    + by rewrite !list_lookup_inserts_lt by lia.
    + rewrite !list_lookup_inserts by (rewrite ?length_app; lia). by rewrite lookup_app_l by lia.
  - destruct (decide (k < o + length x + length y)%nat).
    + rewrite !list_lookup_inserts by (rewrite ?length_inserts, ?length_app; lia).
      rewrite lookup_app_r by lia. f_equal. lia.
    + by rewrite !list_lookup_inserts_ge by (rewrite ?length_app; lia).
Qed.

Lemma put_dirent_run buf e name child : sec_ok buf → dirblk_ok buf → 0 ≤ e < 16 →
  0 ∈ name → Forall is_byte name → inode_no child →
  ∃ buf', (∀ d, run_disk (put_dirent buf e name child) d = Some (buf', d)) ∧
    slot_put buf buf' e (child + 1, take 27 (cstr name)).
Proof.
  intros Hs Hd He H0 Hb Hc. pose proof (proj1 Hs) as Hlen. unfold BLOCK_SIZE in Hlen.
  unfold put_dirent. rewrite (strncpy_spec name 27 H0). cbn [of_option from_option].
  eexists. split; [done|]. unfold set_name, set_inum1. rewrite <-app_assoc.
  fold (name_field (cstr name)). unfold inode_no, MAX_INODES in Hc. rewrite u32_small by lia.
  pose proof (length_name_field (cstr name)) as H28.
  assert (length (le32 (child + 1)) = 4%nat) as H4 by done.
  replace (Z.to_nat (32 * e + 4)) with (Z.to_nat (32 * e) + length (le32 (child + 1)))%nat by (rewrite H4; lia).
  rewrite inserts_adjacent by (rewrite H28, H4; lia).
  set (ws := le32 (child + 1) ++ name_field (cstr name)).
  assert (length ws = 32%nat) as Hws by (unfold ws; rewrite length_app, H4, H28; done).
  assert (drop (Z.to_nat (32 * e)) (list_inserts (Z.to_nat (32 * e)) ws buf) =
          le32 (child + 1) ++ name_field (cstr name) ++ drop (Z.to_nat (32 * e) + 32) buf) as Hdrop.
  { rewrite list_inserts_split by (rewrite Hws; lia). rewrite drop_app_length' by (rewrite length_take; lia).
    unfold ws at 1. by rewrite <-app_assoc, Hws. }
  assert (drop (Z.to_nat (32 * e + 4)) (list_inserts (Z.to_nat (32 * e)) ws buf) =
          name_field (cstr name) ++ drop (Z.to_nat (32 * e) + 32) buf) as Hdrop4.
  { replace (Z.to_nat (32 * e + 4)) with (Z.to_nat (32 * e) + 4)%nat by lia.
    by rewrite <-drop_drop, Hdrop. }
  assert (Forall is_byte ws) as Hwb.
  { apply Forall_app. split; [apply le32_bytes|]. unfold name_field. rewrite !Forall_app.
    destruct (cstr_spec name H0) as [l Hl]. rewrite Hl in Hb. apply Forall_app in Hb as [Hb _].
    split; [by apply Forall_take|]. split; [by apply Forall_replicate|by repeat constructor]. }
  apply slot_put_intro; try done.
  - rewrite Hws. lia.
  - unfold slice. rewrite Hdrop4, take_app_le by lia. rewrite take_ge by lia. unfold name_field. set_solver.
  - simpl. unfold MAX_INODES. lia.
  - unfold slot_of, de_inum1, de_name. rewrite Hdrop4, ld32_drop, Hdrop. f_equal.
    + apply ld32_app. unfold is_word. lia.
    + apply cstr_name_field. apply upto0_nonzero.
Qed.

End slots.

(** ** Searching a directory *)

Section search.
Context {R : Type} (P : slot → Prop) `{∀ x, Decision (P x)}.
Variable d : disk.

(** The first slot of a block that satisfies [P]. *)
Definition first_in (buf : list Z) (e : Z) : Prop :=
  0 ≤ e < 16 ∧ P (slot_of buf e) ∧ ∀ e', 0 ≤ e' < e → ¬ P (slot_of buf e').

Lemma scan_slots (buf : list Z) (body : Z → prog (option R)) :
  (∀ e, 0 ≤ e < 16 → ¬ P (slot_of buf e) → run_disk (body e) d = Some (None, d)) →
  (∀ e, 0 ≤ e < 16 → P (slot_of buf e) → ∃ v d', run_disk (body e) d = Some (Some v, d')) →
  (Forall (λ x, ¬ P x) (slots_of_block buf) ∧ run_disk (for_ret 16 0 body) d = Some (None, d)) ∨
  ∃ e, first_in buf e ∧ run_disk (for_ret 16 0 body) d = run_disk (body e) d.
Proof.
  intros Hno Hyes.
  assert (∀ n i, i = 16 - Z.of_nat n → 0 ≤ i → (∀ e', 0 ≤ e' < i → ¬ P (slot_of buf e')) →
    ((∀ e', 0 ≤ e' < 16 → ¬ P (slot_of buf e')) ∧ run_disk (for_ret n i body) d = Some (None, d)) ∨
    ∃ e, first_in buf e ∧ run_disk (for_ret n i body) d = run_disk (body e) d) as Hloop.
  { induction n as [|n IH]; intros i Hi Hpos Hlt; cbn [for_ret].
    - left. split; [|done]. intros e' He'. apply Hlt. lia.
    - assert (0 ≤ i < 16) as Hi16 by lia. destruct (decide (P (slot_of buf i))) as [HP|HP].
      + right. exists i. split; [done|]. destruct (Hyes i Hi16 HP) as (v & d' & Hrun).
        by rewrite (run_bind_Some _ _ _ _ _ Hrun), Hrun.
      + rewrite (run_bind_Some _ _ _ _ _ (Hno i Hi16 HP)). apply IH; [lia|lia|].
        intros e' He'. destruct (decide (e' = i)) as [->|]; [done|apply Hlt; lia]. }
  destruct (Hloop 16%nat 0 ltac:(lia) ltac:(lia) ltac:(lia)) as [[Hall Hrun]|He]; [left|by right].
  split; [|done]. apply Forall_fmap, Forall_forall. intros e He. apply Hall. apply elem_of_seqZ in He. lia.
Qed.

Lemma scan_blocks (bl : list Z) (body : Z → list Z → Z → prog (option R)) :
  Forall on_disk (upto0 bl) →
  (∀ b e, b ∈ upto0 bl → 0 ≤ e < 16 → ¬ P (slot_of (sector d b) e) →
     run_disk (body b (sector d b) e) d = Some (None, d)) →
  (∀ b e, b ∈ upto0 bl → 0 ≤ e < 16 → P (slot_of (sector d b) e) →
     ∃ v d', run_disk (body b (sector d b) e) d = Some (Some v, d')) →
  let p := for_blocks bl (λ b, buf ← read_block b; for_ret DIRENTS_PER_BLOCK 0 (body b buf)) in
  (Forall (λ x, ¬ P x) (upto0 bl ≫= λ b, slots_at d b) ∧ run_disk p d = Some (None, d)) ∨
  ∃ bl1 b bl2 e, upto0 bl = bl1 ++ b :: bl2 ∧ Forall (λ x, ¬ P x) (bl1 ≫= λ b, slots_at d b) ∧
    first_in (sector d b) e ∧ run_disk p d = run_disk (body b (sector d b) e) d.
Proof.
  induction bl as [|b bl IH]; intros Hon Hno Hyes; cbn [for_blocks upto0] in *; [by left|].
  destruct (truth b) eqn:Hb; [|by left]. apply Forall_cons in Hon as [Hb1 Hon]. cbv zeta.
  rewrite run_bind, (run_bind_Some _ _ _ _ _ (run_read b d Hb1)).
  destruct (scan_slots (sector d b) (body b (sector d b))) as [[Hall Hrun]|(e & He & Hrun)].
  { intros e He. apply Hno; [left|done]. } { intros e He. apply Hyes; [left|done]. }
  - unfold DIRENTS_PER_BLOCK. rewrite Hrun. destruct IH as [[HF Hr]|(bl1 & b1 & bl2 & e & -> & HF & He & Hr)].
    + done.
    + intros b' e Hb'. apply Hno. by right.
    + intros b' e Hb'. apply Hyes. by right.
    + left. split; [|done]. by rewrite bind_cons, Forall_app.
    + right. exists (b :: bl1), b1, bl2, e. split; [done|]. split; [|done]. by rewrite bind_cons, Forall_app.
  - right. exists [], b, (upto0 bl), e. split; [done|]. split; [constructor|]. split; [done|].
    unfold DIRENTS_PER_BLOCK. rewrite Hrun. destruct (Hyes b e) as (v & d' & Hr); [left|apply He..|].
    by rewrite Hr.
Qed.

(** The slots of a block around slot [e]. *)
Lemma slots_split (buf : list Z) e : 0 ≤ e < 16 →
  slots_of_block buf = (slot_of buf <$> seqZ 0 e) ++ slot_of buf e :: (slot_of buf <$> seqZ (e + 1) (15 - e)).
Proof.
  intros He. unfold slots_of_block. replace 16 with (e + (16 - e)) by lia.
  rewrite seqZ_app, fmap_app by lia. rewrite (seqZ_cons (0 + e)) by lia.
  rewrite fmap_cons. do 2 f_equal. do 2 f_equal; lia.
Qed.

Lemma first_in_before (buf : list Z) e : first_in buf e → Forall (λ x, ¬ P x) (slot_of buf <$> seqZ 0 e).
Proof.
  intros (He & _ & Hlt). apply Forall_fmap, Forall_forall. intros e' He'. apply Hlt.
  apply elem_of_seqZ in He'. lia.
Qed.
End search.

(** Changing slot [e] of one block changes one slot of the directory. *)
Lemma slots_put d d' b e x bl1 bl2 P : NoDup (bl1 ++ b :: bl2) →
  (∀ b', b' ∈ bl1 ++ b :: bl2 → b' ≠ b → sector d' b' = sector d b') →
  first_in P (sector d b) e → slot_put (sector d b) (sector d' b) e x →
  Forall (λ x, ¬ P x) (bl1 ≫= λ b, slots_at d b) →
  ∃ pre post, (bl1 ++ b :: bl2) ≫= (λ b, slots_at d b) = pre ++ slot_of (sector d b) e :: post ∧
    Forall (λ x, ¬ P x) pre ∧ (bl1 ++ b :: bl2) ≫= (λ b, slots_at d' b) = pre ++ x :: post.
Proof.
  intros Hnd Hsame He (_ & _ & Hx & Hrest) HF. pose proof (first_in_before _ _ _ He) as HF2.
  destruct He as (He & _). apply NoDup_app in Hnd as (_ & Hdis & Hnd2). apply NoDup_cons in Hnd2 as [Hb2 _].
  assert (∀ l, (∀ b', b' ∈ l → b' ∈ bl1 ++ b :: bl2 ∧ b' ≠ b) →
    l ≫= (λ b, slots_at d' b) = l ≫= (λ b, slots_at d b)) as Hext.
  { intros l Hl. apply bind_ext_elem. intros c Hc. destruct (Hl c Hc). by rewrite Hsame. }
  assert (∀ f t n, (∀ e', f ≤ e' < f + n → 0 ≤ e' < 16 ∧ e' ≠ e) → t = seqZ f n →
    slot_of (sector d' b) <$> t = slot_of (sector d b) <$> t) as Hmap.
  { intros f t n Hr ->. apply list_fmap_ext. intros k e' Hk. apply list_elem_of_lookup_2, elem_of_seqZ in Hk.
    apply Hrest; by apply Hr. }
  exists ((bl1 ≫= λ b, slots_at d b) ++ (slot_of (sector d b) <$> seqZ 0 e)),
         ((slot_of (sector d b) <$> seqZ (e + 1) (15 - e)) ++ (bl2 ≫= λ b, slots_at d b)).
  rewrite !bind_app, !bind_cons, !(slots_split _ e) by done.
  rewrite Hx, (Hmap 0 (seqZ 0 e) e), (Hmap (e + 1) (seqZ (e + 1) (15 - e)) (15 - e)) by (done || lia).
  rewrite (Hext bl1), (Hext bl2) by set_solver. rewrite Forall_app, <-!app_assoc. done.
Qed.

(** ** [dir_lookup] *)

Lemma find_name_none nm l : Forall (λ x, ¬ slot_named nm x) l → find_name nm l = None.
Proof.
  intros HF. unfold find_name. destruct (list_find _ l) as [[k x]|] eqn:E; [|done].
  apply list_find_Some in E as (Hk & HP & _). by eapply Forall_lookup_1 in HF.
Qed.

Lemma find_name_split nm pre x post : Forall (λ x, ¬ slot_named nm x) pre → slot_named nm x →
  find_name nm (pre ++ x :: post) = Some (x.1 - 1).
Proof.
  intros HF Hx. induction HF as [|y pre Hy _ IH].
  - unfold find_name. cbn [app list_find]. by rewrite decide_True.
  - revert IH. unfold find_name. cbn [app list_find]. rewrite (decide_False (P:=slot_named nm y)) by done.
    destruct (list_find _ _) as [[k z]|]; [|done]. done.
Qed.

Lemma find_name_inv nm l r : find_name nm l = Some r →
  ∃ pre x post, l = pre ++ x :: post ∧ Forall (λ x, ¬ slot_named nm x) pre ∧ slot_named nm x ∧ r = x.1 - 1.
Proof.
  unfold find_name. destruct (list_find _ l) as [[k x]|] eqn:E; [|done]. intros [= <-].
  apply list_find_Some in E as (Hk & HP & Hlt). exists (take k l), x, (drop (S k) l).
  split; [by rewrite take_drop_middle|]. split; [|done]. apply Forall_lookup. intros j y Hj.
  apply lookup_take_Some in Hj as [Hj Hjk]. by apply (Hlt j).
Qed.

Lemma find_name_cons nm x l :
  find_name nm (x :: l) = if decide (slot_named nm x) then Some (x.1 - 1) else find_name nm l.
Proof.
  unfold find_name. cbn [list_find]. case_decide; [done|]. by destruct (list_find _ l) as [[]|].
Qed.

Lemma find_name_app nm l1 l2 :
  find_name nm (l1 ++ l2) = match find_name nm l1 with Some r => Some r | None => find_name nm l2 end.
Proof.
  induction l1 as [|x l1 IH]; [done|]. cbn [app]. rewrite !find_name_cons. by case_decide.
Qed.

Lemma find_name_None nm l : find_name nm l = None → Forall (λ x, ¬ slot_named nm x) l.
Proof.
  induction l as [|x l IH]; [constructor|]. rewrite find_name_cons. case_decide; [done|].
  intros Hf. constructor; auto.
Qed.

(** Replacing a slot that does not bear the name by one that does not either. *)
Lemma find_name_other nm pre y z post : ¬ slot_named nm y → ¬ slot_named nm z →
  find_name nm (pre ++ y :: post) = find_name nm (pre ++ z :: post).
Proof. intros Hy Hz. rewrite !find_name_app, !find_name_cons, !decide_False by done. done. Qed.

Section dirs.
Variables (d : disk) (dir : Z).
Hypothesis Hok : fs_ok d.
Hypothesis Hno : inode_no dir.
Hypothesis Hty : type (inode_at d dir) = SFS_DIR.

Lemma dir_blk b : owned_by d dir b → dirblk_ok (sector d b) ∧ sec_ok (sector d b) ∧ data_blk b ∧ on_disk b.
Proof.
  intros Hb. split; [by apply (ok_dirs d Hok dir)|]. split; [apply Hok|].
  pose proof (owned_blk d dir b Hok Hno Hb). split; [done|]. by apply data_on_disk.
Qed.

Lemma dir_on_disk : Forall on_disk (owned (inode_at d dir)).
Proof. apply Forall_forall. intros b Hb. by apply dir_blk. Qed.

Lemma slot_small b e : owned_by d dir b → 0 ≤ e < 16 →
  i32_of (de_inum1 (sector d b) e) = de_inum1 (sector d b) e.
Proof.
  intros Hb He. destruct (dir_blk b Hb) as (Hd & [_ Hby] & _). destruct (Hd e He) as [_ Hle].
  pose proof (ld32_word (sector d b) (Z.to_nat (32 * e)) Hby) as Hw.
  unfold de_inum1, is_word, i32_of, MAX_INODES in *. rewrite Z.mod_small by lia. lia.
Qed.

(** The test of one slot against a name, in [dir_lookup] and [dir_remove]. *)
Lemma named_test {R} b e name (act : prog (option R)) : owned_by d dir b → 0 ≤ e < 16 → 0 ∈ name →
  run_disk (if truth (de_inum1 (sector d b) e) then
              c ← of_option (strcmp (de_name (sector d b) e) name);
              if c =? 0 then act else mret None
            else mret None) d =
  if decide (slot_named (cstr name) (slot_of (sector d b) e)) then run_disk act d else Some (None, d).
Proof.
  intros Hb He H0.
  destruct (strcmp_spec (de_name (sector d b) e) name) as (c & -> & Hc);
    [apply dirblk_name; [by apply dir_blk|done]|done|].
  cbn [of_option from_option]. destruct (truth (de_inum1 (sector d b) e)) eqn:E.
  - apply truth_true in E. rewrite run_bind. cbn [run_disk].
    destruct (Z.eqb_spec c 0) as [Ec|Ec].
    + rewrite decide_True; [done|]. split; [done|]. by apply Hc.
    + rewrite decide_False; [done|]. intros [_ Hn]. by apply Ec, Hc.
  - apply truth_false in E. rewrite decide_False; [done|]. by intros [Hn _].
Qed.

Lemma dir_lookup_run name : 0 ∈ name →
  run_disk (dir_lookup dir name) d = Some (default (-1) (find_name (cstr name) (dir_slots d dir)), d).
Proof.
  intros H0. unfold dir_lookup.
  rewrite (run_bind_Some _ _ _ _ _ (read_inode_run d dir Hno)), Hty. cbn [negb Z.eqb SFS_DIR Pos.eqb].
  rewrite run_bind. unfold dir_slots.
  edestruct (scan_blocks (R:=Z) (slot_named (cstr name)) d (blocks (inode_at d dir))
    (λ b buf e, if truth (de_inum1 buf e) then
        c ← of_option (strcmp (de_name buf e) name);
        if c =? 0 then mret (Some (i32_of (de_inum1 buf e) - 1)) else mret None
      else mret None)) as [[HF Hrun]|(bl1 & b & bl2 & e & Hbl & HF & He & Hrun)].
  - apply dir_on_disk.
  - intros b e Hb He HP. by rewrite named_test, decide_False.
  - intros b e Hb He HP. rewrite named_test, decide_True by done. by eexists _, _.
  - cbv zeta in Hrun. rewrite Hrun, find_name_none by done. done.
  - cbv zeta in Hrun. rewrite Hrun, Hbl, bind_app, bind_cons.
    assert (owned_by d dir b) as Hb by (by eapply owned_mid).
    pose proof (first_in_before _ _ _ He) as HF2. destruct He as (He & HP & _).
    rewrite (slots_split _ e He), <-app_assoc, app_assoc, <-app_comm_cons, find_name_split;
      [|by apply Forall_app|done].
    rewrite named_test, decide_True by done. cbn. by rewrite slot_small.
Qed.

(** ** Updating one block of a directory *)

Lemma dir_block_update b buf' : owned_by d dir b → sec_ok buf' → dirblk_ok buf' →
  fs_ok (<[b := buf']> d) ∧
  (∀ j, inode_no j → inode_at (<[b := buf']> d) j = inode_at d j) ∧
  ∀ j, inode_no j → j ≠ dir → same_object d (<[b := buf']> d) j.
Proof.
  intros Hb Hs Hdb. destruct (dir_blk b Hb) as (_ & _ & Hdat & _). unfold data_blk, DATA_START in Hdat.
  assert (∀ j, inode_no j → inode_at (<[b := buf']> d) j = inode_at d j) as Hino.
  { intros j Hj. unfold inode_at. destruct (inode_no_pos j Hj) as (_ & _ & Hdiv & _).
    rewrite sector_insert, decide_False by lia. done. }
  destruct (fs_ok_update d (<[b := buf']> d) dir (inode_at d dir)) as [Hok' Hsame]; try done.
  - by apply disk_wf_insert; [apply Hok|].
  - rewrite sector_insert, decide_False by lia. done.
  - intros j Hj. rewrite Hino by done. by case_decide as E; [rewrite E|].
  - by apply Hok.
  - intros j b' Hj Hji H1 H2. apply Hji. by eapply (ok_excl d Hok).
  - intros b' Hb'. unfold bit. rewrite sector_insert, decide_False by (unfold BITMAP_BLOCK; lia).
    etransitivity; [exact (ok_bits d Hok b' Hb')|]. split.
    + intros (j & Hj & Ho). destruct (decide (j = dir)) as [->|]; [by left|right; by exists j].
    + intros [Ho|(j & Hj & _ & Ho)]; by eexists.
  - intros j b' Hj Hji Ho. rewrite sector_insert, decide_False; [done|]. intros ->.
    apply Hji. by eapply (ok_excl d Hok).
  - intros _ b' Hb'. rewrite sector_insert. case_decide; [done|]. by apply (ok_dirs d Hok dir).
Qed.

(** Storing a block in which one slot was replaced. *)
Lemma dir_slot_update (P : slot → Prop) bl1 b bl2 e x buf' :
  owned (inode_at d dir) = bl1 ++ b :: bl2 → Forall (λ x, ¬ P x) (bl1 ≫= λ b, slots_at d b) →
  first_in P (sector d b) e → slot_put (sector d b) buf' e x →
  ∃ pre post, run_disk (write_block b buf') d = Some (tt, <[b := buf']> d) ∧
    fs_ok (<[b := buf']> d) ∧
    (∀ j, inode_no j → inode_at (<[b := buf']> d) j = inode_at d j) ∧
    (∀ j, inode_no j → j ≠ dir → same_object d (<[b := buf']> d) j) ∧
    dir_slots d dir = pre ++ slot_of (sector d b) e :: post ∧ Forall (λ x, ¬ P x) pre ∧
    dir_slots (<[b := buf']> d) dir = pre ++ x :: post.
Proof.
  intros Hbl HF He Hput. pose proof Hput as ([Hl Hby] & Hdb & _).
  assert (owned_by d dir b) as Hb by (by eapply owned_mid).
  destruct (dir_block_update b buf' Hb (conj Hl Hby) Hdb) as (Hok' & Hino & Hsame).
  assert (sector (<[b := buf']> d) b = buf') as Hsec by (by rewrite sector_insert, decide_True).
  destruct (slots_put d (<[b := buf']> d) b e x bl1 bl2 P) as (pre & post & H1 & H2 & H3).
  - rewrite <-Hbl. by apply (ok_node d Hok).
  - intros b' _ Hne. by rewrite sector_insert, decide_False.
  - done.
  - by rewrite Hsec.
  - done.
  - exists pre, post. unfold dir_slots. rewrite Hino, Hbl by done.
    split; [apply run_write; [by apply dir_blk|apply Hput]|done].
Qed.

(** ** [dir_remove] *)

Lemma dir_remove_run name : 0 ∈ name →
  (find_name (cstr name) (dir_slots d dir) = None ∧ run_disk (dir_remove dir name) d = Some (-1, d)) ∨
  ∃ pre x post d', dir_slots d dir = pre ++ x :: post ∧ Forall (λ x, ¬ slot_named (cstr name) x) pre ∧
    slot_named (cstr name) x ∧ run_disk (dir_remove dir name) d = Some (0, d') ∧ fs_ok d' ∧
    (∀ j, inode_no j → inode_at d' j = inode_at d j) ∧
    (∀ j, inode_no j → j ≠ dir → same_object d d' j) ∧
    dir_slots d' dir = pre ++ (0, x.2) :: post.
Proof.
  intros H0. unfold dir_remove. rewrite (run_bind_Some _ _ _ _ _ (read_inode_run d dir Hno)), run_bind.
  edestruct (scan_blocks (R:=Z) (slot_named (cstr name)) d (blocks (inode_at d dir))
    (λ b buf e, if truth (de_inum1 buf e) then
        c ← of_option (strcmp (de_name buf e) name);
        if c =? 0 then _ ← write_block b (set_inum1 buf e 0); mret (Some 0) else mret None
      else mret None)) as [[HF Hrun]|(bl1 & b & bl2 & e & Hbl & HF & He & Hrun)].
  - apply dir_on_disk.
  - intros b e Hb He HP. by rewrite named_test, decide_False.
  - intros b e Hb He HP. rewrite named_test, decide_True by done.
    destruct (dir_blk b Hb) as (Hdb & Hs & _ & Hon).
    destruct (set_inum1_put (sector d b) e Hs Hdb He) as (Hl & _). eexists _, _.
    by rewrite (run_bind_Some _ _ _ _ _ (run_write b _ d Hon Hl)).
  - left. cbv zeta in Hrun. rewrite Hrun. split; [by apply find_name_none|done].
  - right. cbv zeta in Hrun. rewrite Hrun.
    assert (owned_by d dir b) as Hb by (by eapply owned_mid).
    destruct (dir_blk b Hb) as (Hdb & Hs & _). pose proof He as (He16 & HP & _).
    destruct (dir_slot_update (slot_named (cstr name)) bl1 b bl2 e _ _ Hbl HF He (set_inum1_put _ e Hs Hdb He16))
      as (pre & post & Hw & Hok' & Hino & Hsame & Hsl & HFp & Hsl').
    eexists pre, _, post, _. split; [done|]. split; [done|]. split; [done|]. split; [|done].
    rewrite named_test, decide_True by done. by rewrite (run_bind_Some _ _ _ _ _ Hw).
Qed.
End dirs.

(** ** [dir_add] *)

(** The slots after an insertion: the first free one is taken, or a block of
    slots is appended. *)
Definition added (l : list slot) (x : slot) (l' : list slot) : Prop :=
  (∃ pre y post, l = pre ++ y :: post ∧ ¬ slot_used y ∧ Forall slot_used pre ∧ l' = pre ++ x :: post) ∨
  (Forall slot_used l ∧ l' = l ++ x :: replicate 15 (0, [])).

(** Looking a name up after an insertion. *)
Lemma added_find l x l' : added l x l' → slot_used x → find_name x.2 l = None → find_name x.2 l' = Some (x.1 - 1).
Proof.
  intros Hadd Hx Hf. apply find_name_None in Hf. destruct Hadd as [(pre & y & post & -> & _ & _ & ->)|[_ ->]].
  - apply Forall_app in Hf as [Hf _]. by apply find_name_split.
  - by apply find_name_split.
Qed.

Lemma added_find_other l x l' nm : added l x l' → nm ≠ x.2 → find_name nm l' = find_name nm l.
Proof.
  intros Hadd Hne. destruct Hadd as [(pre & y & post & -> & Hy & _ & ->)|[_ ->]].
  - apply find_name_other; intros [H1 H2]; [congruence|done].
  - rewrite find_name_app, find_name_cons, decide_False by (intros [_ E]; congruence).
    rewrite (find_name_none nm (replicate 15 _)); [by destruct (find_name nm l)|].
    apply Forall_replicate. by intros [].
Qed.

Lemma zero_slot e : 0 ≤ e < 16 → slot_of (replicate BLOCK_SIZE 0) e = (0, []).
Proof.
  intros He. unfold slot_of, de_inum1, de_name. rewrite drop_replicate. f_equal.
  - unfold ld32, byte_at. by rewrite !lookup_replicate_2 by (unfold BLOCK_SIZE; lia).
  - destruct (BLOCK_SIZE - Z.to_nat (32 * e + 4))%nat; done.
Qed.

Lemma zero_dirblk_ok : dirblk_ok (replicate BLOCK_SIZE 0).
Proof.
  intros e He. split.
  - unfold slice. rewrite drop_replicate, take_replicate. apply elem_of_replicate.
    split; [done|]. unfold BLOCK_SIZE. lia.
  - change (de_inum1 (replicate BLOCK_SIZE 0) e) with (slot_of (replicate BLOCK_SIZE 0) e).1.
    by rewrite zero_slot.
Qed.

(** The slots of a fresh block with its first slot filled. *)
Lemma fresh_slots buf x : slot_put (replicate BLOCK_SIZE 0) buf 0 x →
  slots_of_block buf = x :: replicate 15 (0, []).
Proof.
  intros (_ & _ & Hx & Hrest). rewrite (slots_split buf 0) by lia. change (seqZ 0 0) with (@nil Z).
  cbn [fmap list_fmap app]. rewrite Hx. f_equal.
  assert (∀ l, (∀ e, e ∈ l → 0 < e < 16) → slot_of buf <$> l = replicate (length l) (0, [])) as Hl.
  { induction l as [|e l IH]; intros Hl; [done|]. rewrite fmap_cons. cbn [length replicate].
    rewrite IH by (intros; apply Hl; by right). assert (0 < e < 16) by (apply Hl; left).
    rewrite Hrest by lia. rewrite zero_slot by lia. done. }
  rewrite Hl by (intros e He; apply elem_of_seqZ in He; lia). done.
Qed.

Section add.
Variables (d : disk) (dir : Z).
Hypothesis Hok : fs_ok d.
Hypothesis Hno : inode_no dir.
Hypothesis Hty : type (inode_at d dir) = SFS_DIR.

(** The directory with block [nb] appended. *)
Definition grown (n : inode_t) (nb : Z) : inode_t :=
  Inode (type n) (u32 (size n + Z.of_nat BLOCK_SIZE)) (<[length (owned n) := nb]> (blocks n)).

Lemma grown_spec n nb : node_ok n → inode_wf n → type n = SFS_DIR → (length (owned n) < DIRECT)%nat →
  data_blk nb → nb ∉ owned n →
  owned (grown n nb) = owned n ++ [nb] ∧ node_ok (grown n nb) ∧ inode_wf (grown n nb).
Proof.
  intros (Hbl & Hall & Hnd & Hsz) (Ht & Hs & Hl & Hw) Hd Hlt Hnb Hnew.
  assert (blocks (grown n nb) = (owned n ++ [nb]) ++ replicate (DIRECT - S (length (owned n))) 0) as Hgb.
  { unfold grown. cbn [blocks]. rewrite Hbl at 2. rewrite insert_app_r_alt by lia.
    replace (length (owned n) - length (owned n))%nat with 0%nat by lia.
    replace (DIRECT - length (owned n))%nat with (S (DIRECT - S (length (owned n)))) by lia.
    cbn [replicate]. cbn [insert list_insert]. by rewrite <-app_assoc. }
  assert (Forall data_blk (owned n ++ [nb])) as Hall' by (apply Forall_app_2; [done|by apply Forall_singleton]).
  assert (owned (grown n nb) = owned n ++ [nb]) as Ho.
  { rewrite Hgb. apply upto0_pad. eapply Forall_impl; [exact Hall'|]. apply data_blk_nonzero. }
  assert (size n = 512 * Z.of_nat (length (owned n))) as Hsize.
  { destruct Hsz as [[E _]|[[E _]|[_ E]]]; [by rewrite Hd in E..|done]. }
  assert (size (grown n nb) = 512 * Z.of_nat (length (owned n ++ [nb]))) as Hgs.
  { unfold grown. cbn [size]. rewrite length_app. cbn [length]. change (Z.of_nat BLOCK_SIZE) with 512.
    unfold DIRECT in Hlt. rewrite u32_small; lia. }
  split; [done|]. split.
  - split; [rewrite Ho, Hgb; do 2 f_equal; rewrite length_app; cbn [length]; lia|].
    rewrite Ho. split; [done|]. split.
    + apply NoDup_app. split; [done|]. split; [set_solver|apply NoDup_singleton].
    + right. right. rewrite Ho. done.
  - split; [done|]. split; [apply u32_range|]. split; [unfold grown; cbn [blocks]; by rewrite length_insert|].
    apply Forall_insert; [done|]. unfold data_blk, is_word, DATA_START, MAX_DATA_BLOCKS in *. lia.
Qed.

(** The block the directory grows into is nobody's. *)
Lemma fresh_nobody i j : 0 ≤ i < MAX_DATA_BLOCKS → bit d i = false → inode_no j → ¬ owned_by d j (DATA_START + i).
Proof.
  intros Hi Hb Hj Ho. assert (data_blk (DATA_START + i)) as Hd by (unfold data_blk; lia).
  pose proof (ok_bits d Hok _ Hd) as Hbits. replace (DATA_START + i - DATA_START) with i in Hbits by lia.
  rewrite Hb in Hbits. by assert (false = true) as [=] by (apply Hbits; by exists j).
Qed.

(** The first block number that is 0. *)
Lemma blocks_lookup n k : node_ok n → 0 ≤ k < 14 →
  truth (blk_at (blocks n) k) = bool_decide (k < Z.of_nat (length (owned n))).
Proof.
  intros (Hbl & Hall & _) Hk. unfold blk_at. rewrite Hbl at 1.
  destruct (decide (k < Z.of_nat (length (owned n)))) as [Hlt|Hge].
  - rewrite bool_decide_eq_true_2 by done. rewrite lookup_app_l by lia.
    destruct (lookup_lt_is_Some_2 (owned n) (Z.to_nat k)) as [b Hb]; [lia|]. rewrite Hb. cbn [default from_option id].
    apply truth_true. pose proof (Forall_lookup_1 _ _ _ _ Hall Hb). by apply data_blk_nonzero.
  - rewrite bool_decide_eq_false_2 by done. rewrite lookup_app_r by lia.
    destruct (replicate (DIRECT - length (owned n)) 0 !! (Z.to_nat k - length (owned n))%nat) eqn:E.
    + by apply lookup_replicate in E as [-> _].
    + done.
Qed.

(** Linking block [DATA_START + i] into the directory with contents [buf']. *)
Lemma dir_grow_run i buf' x : 0 ≤ i < MAX_DATA_BLOCKS → bit d i = false →
  (length (owned (inode_at d dir)) < DIRECT)%nat → slot_put (replicate BLOCK_SIZE 0) buf' 0 x →
  ∃ d2 d3, run_disk (write_inode dir (grown (inode_at d dir) (DATA_START + i))) (after_alloc d i) = Some (tt, d2) ∧
    run_disk (write_block (DATA_START + i) buf') d2 = Some (tt, d3) ∧ fs_ok d3 ∧
    type (inode_at d3 dir) = SFS_DIR ∧
    (∀ j, inode_no j → j ≠ dir → same_object d d3 j) ∧
    dir_slots d3 dir = dir_slots d dir ++ x :: replicate 15 (0, []).
Proof.
  intros Hi Hbit Hlen Hput. pose proof Hput as (Hs & Hdb & _).
  set (nb := DATA_START + i). set (n := inode_at d dir) in *.
  assert (data_blk nb) as Hnb by (unfold data_blk, nb; lia).
  assert (∀ j, inode_no j → ¬ owned_by d j nb) as Hnew by (intros; by apply fresh_nobody).
  destruct (grown_spec n nb) as (Hown & Hnode & Hnwf); [by apply Hok|apply inode_at_wf, Hok|done..|by apply Hnew|].
  destruct (after_alloc_spec d i (ok_wf d Hok) Hi) as (Hwf1 & Hbit1 & Hino1 & _ & Hsec1).
  destruct (write_inode_run (after_alloc d i) dir (grown n nb) Hwf1 Hno Hnwf) as (d2 & Hrun2 & Hwf2 & Hino2 & Hsec2).
  assert (∀ b, b ≠ BITMAP_BLOCK → b ≠ nb → ¬ (1 ≤ b ≤ 8) → sector (<[nb := buf']> d2) b = sector d b) as Hsec.
  { intros b H1 H2 H3. rewrite sector_insert, decide_False, Hsec2, Hsec1; done. }
  assert (16 ≤ nb) as H16 by (unfold data_blk, DATA_START in Hnb; lia).
  assert (∀ j, inode_no j → inode_at (<[nb := buf']> d2) j = inode_at d2 j) as Hino3.
  { intros j Hj. unfold inode_at. destruct (inode_no_pos j Hj) as (_ & _ & Hdiv & _).
    rewrite sector_insert, decide_False by lia. done. }
  assert (∀ j b, inode_no j → owned_by d j b → sector (<[nb := buf']> d2) b = sector d b) as Hold.
  { intros j b Hj Ho. pose proof (owned_blk d j b Hok Hj Ho) as Hb. unfold data_blk, DATA_START in Hb.
    apply Hsec; [unfold BITMAP_BLOCK; lia| |lia]. intros ->. by apply (Hnew j). }
  assert (∀ j, inode_no j → inode_at (<[nb := buf']> d2) j = if decide (j = dir) then grown n nb else inode_at d j) as Hino.
  { intros j Hj. rewrite Hino3, Hino2 by done. case_decide; [done|by apply Hino1]. }
  exists d2, (<[nb := buf']> d2). split; [done|].
  split; [by apply run_write; [apply data_on_disk|]|].
  destruct (fs_ok_update d (<[nb := buf']> d2) dir (grown n nb)) as [Hok3 Hothers]; try done.
  - by apply disk_wf_insert.
  - apply Hsec; unfold BITMAP_BLOCK; lia.
  - intros j b Hj Hji. rewrite Hown, elem_of_app, list_elem_of_singleton. intros [Hb| ->]; [|by apply Hnew].
    intros Ho. apply Hji. by eapply (ok_excl d Hok).
  - intros b Hb. unfold bit. rewrite sector_insert, decide_False, Hsec2 by (unfold BITMAP_BLOCK; lia).
    fold (bit (after_alloc d i) (b - DATA_START)). rewrite Hbit1 by (by apply data_blk_bit).
    rewrite orb_true_iff, (ok_bits d Hok b Hb), bool_decide_eq_true, Hown, elem_of_app, list_elem_of_singleton.
    assert (b - DATA_START = i ↔ b = nb) as -> by (unfold nb; lia). split.
    + intros [(j & Hj & Ho)|]; [|tauto]. destruct (decide (j = dir)) as [->|]; [tauto|right; by exists j].
    + intros [[Ho|]|(j & Hj & _ & Ho)]; [left; by exists dir|tauto|left; by exists j].
  - intros j b Hj _. by apply Hold.
  - intros _ b. rewrite Hown, elem_of_app, list_elem_of_singleton. intros [Hb| ->].
    + rewrite (Hold dir) by done. by apply (ok_dirs d Hok dir).
    + by rewrite sector_insert, decide_True.
  - split; [done|]. split; [by rewrite Hino, decide_True|]. split; [done|].
    unfold dir_slots. rewrite Hino, decide_True, Hown, bind_app by done. f_equal.
    + apply bind_ext_elem. intros b Hb. by rewrite (Hold dir).
    + rewrite bind_cons, sector_insert, decide_True by done. cbn [mbind list_bind]. rewrite app_nil_r.
      by apply fresh_slots.
Qed.

(** What [dir_add] may do to the disk. *)
Definition dir_added (x : slot) (d' : disk) : Prop :=
  fs_ok d' ∧ type (inode_at d' dir) = SFS_DIR ∧
  (∀ j, inode_no j → j ≠ dir → same_object d d' j) ∧
  added (dir_slots d dir) x (dir_slots d' dir).

Variables (name : list Z) (child : Z).
Hypothesis Hnul : 0 ∈ name.
Hypothesis Hbytes : Forall is_byte name.
Hypothesis Hchild : inode_no child.

(** Growing by one block, at the first unused block number. *)
Lemma dir_grow_ok : Forall slot_used (dir_slots d dir) → (length (owned (inode_at d dir)) < DIRECT)%nat →
  ∃ d', run_disk (dir_grow dir (inode_at d dir) (Z.of_nat (length (owned (inode_at d dir)))) name child) d
        = Some (0, d') ∧ dir_added (child + 1, take 27 (cstr name)) d'.
Proof.
  intros Hused Hlt. unfold dir_grow. rewrite Nat2Z.id.
  destruct (alloc_block_run d (ok_wf d Hok)) as [(i & Hi & Hbit & _ & Hrun)|[Hbits Hrun]];
    [|by destruct (never_full d Hok)].
  rewrite (run_bind_Some _ _ _ _ _ Hrun).
  rewrite (proj2 (truth_true (DATA_START + i))) by (unfold DATA_START; lia). cbn [negb].
  destruct (put_dirent_run (replicate BLOCK_SIZE 0) 0 name child zero_sec_ok zero_dirblk_ok
    ltac:(lia) Hnul Hbytes Hchild) as (buf' & Hput & Hslot).
  destruct (dir_grow_run i buf' _ Hi Hbit Hlt Hslot) as (d2 & d3 & Hw1 & Hw2 & Hok3 & Hty3 & Hsame3 & Hsl3).
  exists d3. split; [|split_and!; [done..|by right]].
  fold (grown (inode_at d dir) (DATA_START + i)). rewrite (run_bind_Some _ _ _ _ _ Hw1).
  by rewrite (run_bind_Some _ _ _ _ _ (Hput d2)), (run_bind_Some _ _ _ _ _ Hw2).
Qed.

(** The second loop of [dir_add]. *)
Lemma dir_add_grow : Forall slot_used (dir_slots d dir) →
  ∃ r d', run_disk (for_ret DIRECT 0 (λ b, if negb (truth (blk_at (blocks (inode_at d dir)) b))
      then rc ← dir_grow dir (inode_at d dir) b name child; mret (Some rc) else mret None)) d = Some (r, d') ∧
    ((default (-1) r = 0 ∧ dir_added (child + 1, take 27 (cstr name)) d') ∨
     (default (-1) r = -1 ∧ d' = d ∧ length (owned (inode_at d dir)) = DIRECT)).
Proof.
  intros Hused. pose proof (ok_node d Hok dir Hno) as Hnode.
  pose proof (length_owned _ (inode_at_wf d dir (ok_wf d Hok))) as Hle.
  assert (∀ j, 0 ≤ j < 14 → truth (blk_at (blocks (inode_at d dir)) j) =
    bool_decide (j < Z.of_nat (length (owned (inode_at d dir))))) as Hat by (intros; by apply blocks_lookup).
  destruct (decide (length (owned (inode_at d dir)) = DIRECT)) as [Hfull|Hnf].
  { exists None, d. split; [|right; split; [reflexivity|]; split; [reflexivity|]; exact Hfull].
    apply run_for_ret_none. intros j Hj. unfold DIRECT in *.
    rewrite Hat, bool_decide_eq_true_2 by lia. reflexivity. }
  destruct (dir_grow_ok Hused) as (d' & Hrun & Hpost); [unfold DIRECT in *; lia|].
  exists (Some 0), d'. split; [|by left].
  apply (run_for_ret_first _ _ _ (Z.of_nat (length (owned (inode_at d dir))))); unfold DIRECT in *; [lia| |].
  - intros j Hj. rewrite Hat, bool_decide_eq_true_2 by lia. reflexivity.
  - rewrite Hat, bool_decide_eq_false_2 by lia. cbn [negb]. by rewrite (run_bind_Some _ _ _ _ _ Hrun).
Qed.

Lemma dir_add_run :
  (∃ d', run_disk (dir_add dir name child) d = Some (0, d') ∧ dir_added (child + 1, take 27 (cstr name)) d') ∨
  (run_disk (dir_add dir name child) d = Some (-1, d) ∧ Forall slot_used (dir_slots d dir) ∧
   length (owned (inode_at d dir)) = DIRECT).
Proof.
  unfold dir_add. rewrite (run_bind_Some _ _ _ _ _ (read_inode_run d dir Hno)), run_bind.
  edestruct (scan_blocks (R:=Z) (λ x, ¬ slot_used x) d (blocks (inode_at d dir))
    (λ b buf e, if de_inum1 buf e =? 0 then
        buf' ← put_dirent buf e name child; _ ← write_block b buf'; mret (Some 0)
      else mret None)) as [[HF Hrun]|(bl1 & b & bl2 & e & Hbl & HF & He & Hrun)].
  - by apply dir_on_disk.
  - intros b e Hb He HP. destruct (Z.eqb_spec (de_inum1 (sector d b) e) 0) as [E|E]; [|done].
    destruct HP. intros Hu. by apply Hu.
  - intros b e Hb He HP. unfold slot_used in HP. cbn in HP. apply dec_stable in HP. rewrite HP, Z.eqb_refl.
    destruct (dir_blk d dir Hok Hno Hty b Hb) as (Hdb & Hs & _ & Hon).
    destruct (put_dirent_run (sector d b) e name child Hs Hdb He Hnul Hbytes Hchild) as (buf' & Hput & Hl & _).
    rewrite (run_bind_Some _ _ _ _ _ (Hput d)), (run_bind_Some _ _ _ _ _ (run_write b buf' d Hon Hl)). by eexists _, _.
  - cbv zeta in Hrun. rewrite Hrun.
    assert (Forall slot_used (dir_slots d dir)) as Hused
      by (eapply Forall_impl; [exact HF|]; intros x Hx; by apply dec_stable).
    destruct (dir_add_grow Hused) as (r & d' & Hr & [[Hd Hpost]|(Hd & -> & Hpost)]);
      rewrite (run_bind_Some _ _ _ _ _ Hr), Hd; [left; by exists d'|by right].
  - left. cbv zeta in Hrun. rewrite Hrun.
    assert (owned_by d dir b) as Hb by (by eapply owned_mid).
    destruct (dir_blk d dir Hok Hno Hty b Hb) as (Hdb & Hs & _). pose proof He as (He16 & HP & _).
    destruct (put_dirent_run (sector d b) e name child Hs Hdb He16 Hnul Hbytes Hchild) as (buf' & Hput & Hslot).
    destruct (dir_slot_update d dir Hok Hno Hty _ bl1 b bl2 e _ _ Hbl HF He Hslot)
      as (pre & post & Hw & Hok' & Hino & Hsame & Hsl & HFp & Hsl').
    eexists. unfold slot_used in HP. cbn in HP. apply dec_stable in HP. rewrite HP, Z.eqb_refl.
    rewrite (run_bind_Some _ _ _ _ _ (Hput d)), (run_bind_Some _ _ _ _ _ Hw). split; [done|].
    split; [done|]. split; [by rewrite Hino|]. split; [done|]. left.
    exists pre, (slot_of (sector d b) e), post. split; [done|]. split; [intros Hu; by apply Hu|].
    split; [|done]. eapply Forall_impl; [exact HFp|]. intros x Hx. by apply dec_stable.
Qed.
End add.
