(* ===== verification/SfsOps.v ===== *)
(** * Filesystem operations: enumerate, create, unlink, format (fs/sfs.c)

    The exported operations of sfs.c on a disk that satisfies the invariant:
    what they return, what they change and what they leave alone.  [fs_tree]
    adds to the invariant that names never dangle: every entry other than "."
    and ".." refers to an inode in use that no other such entry refers to. *)

From S2P Require Import Prelude CString Block Sfs SfsLayout SfsInv SfsFile SfsDir.

(** ** Enumeration *)

Definition entries (d : disk) (dir : Z) : list slot := filter slot_used (dir_slots d dir).

(** What [sfs_readdir] gives for an entry: inode number, stored string. *)
Definition entry_result (x : slot) : Z * list Z := (x.1 - 1, x.2 ++ [0]).

Lemma cstr_short n l : 0 ∈ take n l → (length (cstr l) < n)%nat.
Proof.
  revert n. induction l as [|c l IH]; intros [|n] H; cbn [take cstr length] in *; try set_solver.
  cbn [upto0]. destruct (truth c) eqn:E; cbn [length]; [|lia]. apply truth_true in E.
  apply elem_of_cons in H as [?|H]; [done|]. apply IH in H. lia.
Qed.

Section readdir.
Variables (d : disk) (dir : Z).
Hypothesis Hok : fs_ok d.
Hypothesis Hno : inode_no dir.
Hypothesis Hty : type (inode_at d dir) = SFS_DIR.

Lemma readdir_block_run b n e index seen cap t : owned_by d dir b → e + Z.of_nat n = 16 → 0 ≤ e →
  (28 ≤ cap)%nat → seen ≤ index →
  let es := filter slot_used (slot_of (sector d b) <$> seqZ e (Z.of_nat n)) in
  run_disk (readdir_block n e (sector d b) index seen cap) t =
  Some (match es !! Z.to_nat (index - seen) with
        | Some x => inr (entry_result x)
        | None => inl (seen + Z.of_nat (length es))
        end, t).
Proof.
  intros Hb. revert e seen. induction n as [|n IH]; intros e seen He Hpos Hcap Hseen; cbn [readdir_block]; cbv zeta.
  { rewrite Z.add_0_r. done. }
  destruct (dir_blk d dir Hok Hno Hty b Hb) as (Hdb & _). assert (0 ≤ e < 16) as He16 by lia.
  rewrite seqZ_cons by lia. rewrite fmap_cons.
  replace (Z.succ e) with (e + 1) by lia. replace (Z.pred (Z.of_nat (S n))) with (Z.of_nat n) by lia.
  destruct (truth (de_inum1 (sector d b) e)) eqn:Hu.
  - apply truth_true in Hu. rewrite filter_cons_True by exact Hu. destruct (Z.eqb_spec seen index) as [->|Hne].
    + replace (Z.to_nat (index - index)) with 0%nat by lia. cbn [lookup list_lookup].
      rewrite strcpy_spec by (by apply dirblk_name). cbn [of_option from_option]. rewrite run_bind. cbn [run_disk].
      destruct (Hdb e He16) as [H0 _]. unfold slice in H0. apply cstr_short in H0.
      unfold de_name in *. rewrite decide_False by (rewrite length_app; cbn [length]; lia).
      unfold mret, prog_ret. cbn [run_disk]. by rewrite (slot_small d dir).
    + rewrite (IH (e + 1) (seen + 1)) by lia.
      replace (Z.to_nat (index - seen)) with (S (Z.to_nat (index - (seen + 1)))) by lia.
      cbn [lookup list_lookup length]. set (es := filter slot_used _).
      destruct (es !! Z.to_nat (index - (seen + 1))); [done|]. do 3 f_equal. lia.
  - apply truth_false in Hu. rewrite filter_cons_False by (intros HP; by apply HP). by apply IH; lia.
Qed.

Lemma readdir_blocks_run bl index seen cap t : (∀ b, b ∈ upto0 bl → owned_by d dir b) → t = d →
  (28 ≤ cap)%nat → seen ≤ index →
  run_disk (readdir_blocks bl index seen cap) t =
  Some (from_option entry_result (-1, [])
          (filter slot_used (upto0 bl ≫= λ b, slots_at d b) !! Z.to_nat (index - seen)), t).
Proof.
  intros Hbl -> Hcap. revert seen. induction bl as [|b bl IH]; intros seen Hseen; cbn [readdir_blocks]; [done|].
  cbn [upto0] in *. destruct (truth b) eqn:Hb; [|done].
  assert (owned_by d dir b) as Ho by (apply Hbl; left).
  destruct (dir_blk d dir Hok Hno Hty b Ho) as (_ & _ & _ & Hon).
  rewrite (run_bind_Some _ _ _ _ _ (run_read b d Hon)).
  rewrite (run_bind_Some _ _ _ _ _ (readdir_block_run b 16 0 index seen cap d Ho ltac:(lia) ltac:(lia) Hcap Hseen)).
  rewrite bind_cons, filter_app. change (slot_of (sector d b) <$> seqZ 0 (Z.of_nat 16)) with (slots_at d b).
  destruct (filter slot_used (slots_at d b) !! Z.to_nat (index - seen)) as [x|] eqn:E.
  - by erewrite lookup_app_l_Some by exact E.
  - apply lookup_ge_None in E. rewrite IH.
    + rewrite lookup_app_r by lia. set (es := filter slot_used (slots_at d b)) in *.
      replace (Z.to_nat (index - (seen + Z.of_nat (length es))))
        with (Z.to_nat (index - seen) - length es)%nat by lia. done.
    + intros b' Hb'. apply Hbl. by right.
    + lia.
Qed.

Lemma sfs_readdir_run index cap : 0 ≤ index → (28 ≤ cap)%nat →
  run_disk (sfs_readdir dir index cap) d =
  Some (from_option entry_result (-1, []) (entries d dir !! Z.to_nat index), d).
Proof.
  intros Hi Hcap. unfold sfs_readdir.
  rewrite (run_bind_Some _ _ _ _ _ (read_inode_run d dir Hno)), Hty. cbn [negb Z.eqb SFS_DIR Pos.eqb].
  rewrite readdir_blocks_run by (done || lia). by rewrite Z.sub_0_r.
Qed.

(** An entry's inode number is not negative, so enumeration stops at the end. *)
Lemma entry_pos x : x ∈ entries d dir → 0 < x.1 ≤ MAX_INODES.
Proof.
  intros Hx. apply list_elem_of_filter in Hx as [Hu Hx]. unfold dir_slots in Hx.
  apply list_elem_of_bind in Hx as (b & Hx & Hb). apply list_elem_of_fmap in Hx as (e & -> & He).
  apply elem_of_seqZ in He. destruct (dir_blk d dir Hok Hno Hty b Hb) as (Hdb & [_ Hby] & _).
  destruct (Hdb e) as [_ Hle]; [lia|]. pose proof (ld32_word (sector d b) (Z.to_nat (32 * e)) Hby) as Hw.
  unfold slot_used, slot_of, de_inum1, is_word in *. cbn in *. lia.
Qed.

Lemma length_dir_slots : length (dir_slots d dir) = (16 * length (owned (inode_at d dir)))%nat.
Proof.
  unfold dir_slots. induction (owned (inode_at d dir)) as [|b l IH]; [done|].
  rewrite bind_cons, length_app, IH. cbn [length].
  change (length (slots_at d b)) with 16%nat. lia.
Qed.

Lemma count_entries_run n i : 0 ≤ i → (length (entries d dir) < Z.to_nat i + n)%nat →
  (Z.to_nat i ≤ length (entries d dir))%nat →
  ∀ c, run_disk (count_entries n dir i c) d = Some (c + Z.of_nat (length (entries d dir)) - i, d).
Proof.
  revert i. induction n as [|n IH]; intros i Hi Hn Hle c; [lia|]. cbn [count_entries].
  rewrite (run_bind_Some _ _ _ _ _ (sfs_readdir_run i 28 Hi ltac:(lia))).
  destruct (entries d dir !! Z.to_nat i) as [x|] eqn:E; cbn [from_option entry_result fst].
  - pose proof (entry_pos x ltac:(by eapply list_elem_of_lookup_2)) as Hx.
    apply lookup_lt_Some in E. destruct (Z.leb_spec 0 (x.1 - 1)); [|lia].
    rewrite IH by lia. do 2 f_equal. lia.
  - apply lookup_ge_None in E. change (0 <=? -1) with false. unfold mret, prog_ret. cbn [run_disk]. do 2 f_equal. lia.
Qed.

Lemma count_all : run_disk (count_entries COUNT_FUEL dir 0 0) d = Some (Z.of_nat (length (entries d dir)), d).
Proof.
  rewrite count_entries_run; [do 2 f_equal; lia|lia| |lia].
  pose proof (length_filter slot_used (dir_slots d dir)) as Hf. rewrite length_dir_slots in Hf.
  pose proof (length_owned _ (inode_at_wf d dir (ok_wf d Hok))).
  unfold entries, COUNT_FUEL, DIRECT in *. lia.
Qed.
End readdir.

(** ** Storing an inode without blocks *)

Lemma empty_inode_run d d1 i n : fs_ok d → inode_no i → disk_wf d1 →
  (∀ j, inode_no j → inode_at d1 j = inode_at d j) →
  (∀ b, b ≠ BITMAP_BLOCK → sector d1 b = sector d b) →
  bits_are d1 (λ b, ∃ j, inode_no j ∧ j ≠ i ∧ owned_by d j b) →
  inode_wf n → node_ok n → owned n = [] → (i = SFS_ROOT → type n = SFS_DIR) →
  ∃ d2, run_disk (write_inode i n) d1 = Some (tt, d2) ∧ fs_ok d2 ∧ inode_at d2 i = n ∧
    (∀ j, inode_no j → j ≠ i → same_object d d2 j) ∧
    ∀ b, ¬ (1 ≤ b ≤ 8) → sector d2 b = sector d1 b.
Proof.
  intros Hok Hi Hwf Hino Hsec Hbits Hnwf Hn Ho Hroot.
  destruct (write_inode_run d1 i n Hwf Hi Hnwf) as (d2 & Hrun & Hwf2 & Hino2 & Hsec2).
  exists d2. split; [done|]. destruct (fs_ok_update d d2 i n) as [Hok2 Hsame]; try done.
  - rewrite Hsec2, Hsec; [done|done|lia].
  - intros j Hj. rewrite Hino2 by done. case_decide; [done|by apply Hino].
  - intros j b _ _. rewrite Ho. set_solver.
  - rewrite Ho. intros b Hb. unfold bit. rewrite Hsec2 by (unfold BITMAP_BLOCK; lia).
    etransitivity; [exact (Hbits b Hb)|]. set_solver.
  - intros j b Hj _ Hb. pose proof (owned_blk d j b Hok Hj Hb) as Hd.
    unfold data_blk, DATA_START in Hd. rewrite Hsec2, Hsec; [done|unfold BITMAP_BLOCK; lia|lia].
  - rewrite Ho. set_solver.
  - split; [done|]. split; [by rewrite Hino2, decide_True|]. done.
Qed.

Lemma upto0_zeros n : upto0 (replicate n 0) = [].
Proof. by destruct n. Qed.

(** A new inode of type [ty], and the free inode. *)
Lemma empty_node_ok ty : ty = SFS_FREE ∨ ty = SFS_FILE ∨ ty = SFS_DIR →
  node_ok (Inode ty 0 (replicate DIRECT 0)) ∧ inode_wf (Inode ty 0 (replicate DIRECT 0)).
Proof.
  intros Hty. split.
  - split; [done|]. split; [constructor|]. split; [constructor|]. unfold size_ok. cbn [type size].
    change (length (owned (Inode ty 0 (replicate DIRECT 0)))) with 0%nat.
    destruct Hty as [->|[->| ->]]; [left|right; left|right; right]; (split; [done|lia]).
  - split; [|split; [done|split; [done|by apply Forall_replicate]]].
    destruct Hty as [->|[->| ->]]; done.
Qed.

(** A free inode owns no block. *)
Lemma free_owns_nothing d i b : fs_ok d → inode_no i → type (inode_at d i) = SFS_FREE → ¬ owned_by d i b.
Proof.
  intros Hok Hi Ht Hb. unfold owned_by in Hb.
  destruct (ok_node d Hok i Hi) as (_ & _ & _ & [(_ & H0 & _)|[[E _]|[E _]]]); [|by rewrite Ht in E..].
  destruct (owned (inode_at d i)); [set_solver|done].
Qed.

Lemma new_inode_run d i ty : fs_ok d → inode_no i → type (inode_at d i) = SFS_FREE →
  ty = SFS_FILE ∨ ty = SFS_DIR →
  ∃ d2, run_disk (write_inode i (Inode (u32 ty) 0 (replicate DIRECT 0))) d = Some (tt, d2) ∧ fs_ok d2 ∧
    inode_at d2 i = Inode ty 0 (replicate DIRECT 0) ∧
    (∀ j, inode_no j → j ≠ i → same_object d d2 j).
Proof.
  intros Hok Hi Ht Hty. assert (u32 ty = ty) as -> by (by destruct Hty as [->| ->]).
  destruct (empty_node_ok ty ltac:(tauto)) as [Hn Hnwf].
  destruct (empty_inode_run d d i (Inode ty 0 (replicate DIRECT 0)) Hok Hi (ok_wf d Hok)) as (d2 & Hrun & Hok2 & Hself & Hsame & Hsec);
    try done.
  - eapply bits_are_iff; [|exact (ok_bits d Hok)]. intros b Hb. cbv beta. split.
    + intros (j & Hj & Ho). exists j. split; [done|]. split; [|done]. intros ->.
      by apply (free_owns_nothing d i b).
    + intros (j & Hj & _ & Ho). by exists j.
  - intros ->. by rewrite (ok_root d Hok) in Ht.
  - exists d2. done.
Qed.

(** ** [sfs_create] *)

Definition dot : list Z := [46].
Definition dotdot : list Z := [46; 46].

Lemma lit_bytes_dot : Forall is_byte (lit ".") ∧ Forall is_byte (lit "..").
Proof. split; cbn; repeat constructor; unfold is_byte; lia. Qed.

(** The slots of a new directory. *)
Definition dot_slots (ino dir : Z) : list slot :=
  (ino + 1, dot) :: (dir + 1, dotdot) :: replicate 14 (0, []).

Lemma added_second x y l : slot_used x → added (x :: replicate 15 (0, [])) y l → l = x :: y :: replicate 14 (0, []).
Proof.
  intros Hx [(pre & z & post & Hl & Hz & Hpre & ->)|[HF _]].
  - destruct pre as [|p pre]; injection Hl as -> Hl; [done|]. destruct pre as [|q pre].
    + injection Hl as <- <-. done.
    + injection Hl as <- _. apply Forall_cons in Hpre as [_ Hpre]. by apply Forall_cons in Hpre as [Hq _].
  - apply Forall_cons in HF as [_ HF]. by apply Forall_cons in HF as [Hq _].
Qed.

Lemma added_nil x l : added [] x l → l = x :: replicate 15 (0, []).
Proof. intros [(pre & z & post & Hl & _)|[_ ->]]; [by destruct pre|done]. Qed.

Lemma make_dots_run d ino dir : fs_ok d → inode_no ino → inode_no dir → type (inode_at d ino) = SFS_DIR →
  owned (inode_at d ino) = [] →
  ∃ rc d', run_disk (_ ← dir_add ino (lit ".") ino; dir_add ino (lit "..") dir) d = Some (rc, d') ∧ fs_ok d' ∧
    type (inode_at d' ino) = SFS_DIR ∧ (∀ j, inode_no j → j ≠ ino → same_object d d' j) ∧
    dir_slots d' ino = dot_slots ino dir.
Proof.
  intros Hok Hi Hdir Hty Ho. destruct lit_bytes_dot as [Hb1 Hb2].
  assert (dir_slots d ino = []) as Hs by (unfold dir_slots; by rewrite Ho).
  destruct (dir_add_run d ino Hok Hi Hty (lit ".") ino (lit_nul _) Hb1 Hi)
    as [(d1 & Hrun1 & Hok1 & Hty1 & Hsame1 & Hadd1)|(_ & _ & Hlen)]; [|by rewrite Ho in Hlen].
  rewrite (run_bind_Some _ _ _ _ _ Hrun1). rewrite Hs in Hadd1. apply added_nil in Hadd1.
  destruct (dir_add_run d1 ino Hok1 Hi Hty1 (lit "..") dir (lit_nul _) Hb2 Hdir)
    as [(d2 & Hrun2 & Hok2 & Hty2 & Hsame2 & Hadd2)|(_ & Hall & _)].
  - exists 0, d2. rewrite Hadd1 in Hadd2. apply added_second in Hadd2; [|unfold slot_used, inode_no in *; cbn; lia].
    split; [done|]. split; [done|]. split; [done|]. split; [|done].
    intros j Hj Hne. eapply same_object_trans; [by apply Hsame1|by apply Hsame2].
  - rewrite Hadd1 in Hall. apply Forall_cons in Hall as [_ Hall]. by apply Forall_cons in Hall as [Hq _].
Qed.

(** What a creation that got an inode does. *)
Record created (d : disk) (dir ty ino : Z) (d' : disk) : Prop := {
  cr_ok : fs_ok d';
  cr_no : inode_no ino;
  cr_free : type (inode_at d ino) = SFS_FREE;
  cr_type : type (inode_at d' ino) = ty;
  cr_dir : type (inode_at d' dir) = SFS_DIR;
  cr_file : ty = SFS_FILE → file_bytes d' ino = [];
  cr_dots : ty = SFS_DIR → dir_slots d' ino = dot_slots ino dir;
  cr_frame : ∀ j, inode_no j → j ≠ ino → j ≠ dir → same_object d d' j;
}.

Section create.
Variables (d : disk) (dir : Z) (name : list Z).
Hypothesis Hok : fs_ok d.
Hypothesis Hno : inode_no dir.
Hypothesis Hty : type (inode_at d dir) = SFS_DIR.

Lemma find_name_no r : find_name (cstr name) (dir_slots d dir) = Some r → inode_no r.
Proof.
  intros (pre & x & post & Hl & _ & [Hu _] & ->)%find_name_inv.
  assert (x ∈ entries d dir) as Hx by (apply list_elem_of_filter; rewrite Hl; set_solver).
  apply (entry_pos d dir Hok Hno Hty) in Hx. unfold inode_no, MAX_INODES in *. lia.
Qed.

Hypothesis Hnul : 0 ∈ name.

(** The new inode, with its dot entries when it is a directory. *)
Lemma new_object_run ty : ty = SFS_FILE ∨ ty = SFS_DIR → ∀ ino, inode_no ino → type (inode_at d ino) = SFS_FREE →
  ∃ rc d2, run_disk (_ ← write_inode ino (Inode (u32 ty) 0 (replicate DIRECT 0));
      (if ty =? SFS_DIR then _ ← dir_add ino (lit ".") ino; dir_add ino (lit "..") dir else mret 0)) d = Some (rc, d2) ∧
    fs_ok d2 ∧ type (inode_at d2 ino) = ty ∧ (∀ j, inode_no j → j ≠ ino → same_object d d2 j) ∧
    (ty = SFS_FILE → file_bytes d2 ino = []) ∧
    (ty = SFS_DIR → dir_slots d2 ino = dot_slots ino dir).
Proof.
  intros Hkind ino Hi Hfree.
  destruct (new_inode_run d ino ty Hok Hi Hfree Hkind) as (d1 & Hrun1 & Hok1 & Hself & Hsame1).
  rewrite (run_bind_Some _ _ _ _ _ Hrun1). assert (owned (inode_at d1 ino) = []) as Ho by (by rewrite Hself).
  destruct Hkind as [->| ->].
  - exists 0, d1. split; [done|]. split; [done|]. split; [by rewrite Hself|]. split; [done|].
    split; [|done]. intros _. unfold file_bytes. by rewrite Ho, Hself.
  - destruct (make_dots_run d1 ino dir Hok1 Hi Hno ltac:(by rewrite Hself) Ho)
      as (rc & d2 & Hrun2 & Hok2 & Hty2 & Hsame2 & Hdots).
    exists rc, d2. split; [done|]. split; [done|]. split; [done|]. split; [|split; [done|]].
    + intros j Hj Hne. eapply same_object_trans; [by apply Hsame1|by apply Hsame2].
    + done.
Qed.

Lemma sfs_create_run ty : Forall is_byte name → ty = SFS_FILE ∨ ty = SFS_DIR →
  (run_disk (sfs_create dir name ty) d = Some (-1, d) ∧
     (is_Some (find_name (cstr name) (dir_slots d dir)) ∨ ∀ i, inode_no i → type (inode_at d i) ≠ SFS_FREE)) ∨
  ∃ ino d', find_name (cstr name) (dir_slots d dir) = None ∧ created d dir ty ino d' ∧
    ((run_disk (sfs_create dir name ty) d = Some (ino, d') ∧
        added (dir_slots d dir) (ino + 1, take 27 (cstr name)) (dir_slots d' dir)) ∨
     (Forall slot_used (dir_slots d dir) ∧ length (owned (inode_at d dir)) = DIRECT)).
Proof.
  intros Hb Hkind. unfold sfs_create.
  rewrite (run_bind_Some _ _ _ _ _ (dir_lookup_run d dir Hok Hno Hty name Hnul)).
  destruct (find_name (cstr name) (dir_slots d dir)) as [r|] eqn:Hf; cbn [default from_option id].
  { left. pose proof (find_name_no r Hf) as [Hr _]. destruct (Z.leb_spec 0 r); [|lia]. by split; [|left]. }
  change (0 <=? -1) with false. cbv iota.
  destruct (alloc_inode_run d) as [(ino & Hi & Hfree & _ & Hrun)|[Hnone Hrun]];
    rewrite (run_bind_Some _ _ _ _ _ Hrun); [|left; by split; [|right]].
  destruct (Z.ltb_spec ino 0); [destruct Hi; lia|]. right.
  assert (ino ≠ dir) as Hne by (intros ->; by rewrite Hty in Hfree).
  destruct (new_object_run ty Hkind ino Hi Hfree) as (rc & d2 & Hrun2 & Hok2 & Hty2 & Hsame2 & Hfile & Hdots).
  rewrite run_bind in Hrun2.
  destruct (run_disk (write_inode _ _) d) as [[u d1]|] eqn:Hw; [|done]. rewrite (run_bind_Some _ _ _ _ _ Hw).
  rewrite (run_bind_Some _ _ _ _ _ Hrun2). clear Hw Hrun2 u d1.
  pose proof (Hsame2 dir Hno ltac:(done)) as Hdir2.
  destruct (dir_add_run d2 dir Hok2 Hno ltac:(by rewrite (proj1 Hdir2)) name ino Hnul Hb Hi)
    as [(d3 & Hrun3 & Hok3 & Hty3 & Hsame3 & Hadd)|(Hrun3 & Hused & Hlen)];
    rewrite (run_bind_Some _ _ _ _ _ Hrun3); rewrite (same_object_slots _ _ _ Hdir2) in *.
  - exists ino, d3. split; [done|]. pose proof (Hsame3 ino Hi Hne) as Hino3. split; [|by left].
    constructor; try done.
    + by rewrite (proj1 Hino3).
    + intros Hk. rewrite (same_object_bytes _ _ _ Hino3). by apply Hfile.
    + intros Hk. rewrite (same_object_slots _ _ _ Hino3). by apply Hdots.
    + intros j Hj H1 H2. eapply same_object_trans; [by apply Hsame2|by apply Hsame3].
  - exists ino, d2. split; [done|]. split; [|right; by rewrite <-(proj1 Hdir2)]. constructor; try done.
    + by rewrite (proj1 Hdir2).
    + intros j Hj H1 _. by apply Hsame2.
Qed.
End create.

(** ** [sfs_unlink] *)

Lemma sfs_unlink_dots d dir name : 0 ∈ name → cstr name = dot ∨ cstr name = dotdot →
  run_disk (sfs_unlink dir name) d = Some (-1, d).
Proof.
  intros H0 Hn. unfold sfs_unlink.
  destruct (strcmp_spec name (lit ".") H0 (lit_nul _)) as (c1 & -> & Hc1).
  destruct (strcmp_spec name (lit "..") H0 (lit_nul _)) as (c2 & -> & Hc2).
  change (cstr (lit ".")) with dot in Hc1. change (cstr (lit "..")) with dotdot in Hc2.
  rewrite run_bind. cbn [of_option from_option run_disk].
  destruct (Z.eqb_spec c1 0) as [E1|E1]; rewrite run_bind; cbn [of_option from_option run_disk]; [done|].
  destruct (Z.eqb_spec c2 0) as [E2|E2]; [done|]. tauto.
Qed.

(** What is left to do once the name is known to be no dot name. *)
Definition unlink_rest (dir : Z) (name : list Z) : prog Z :=
  ino ← dir_lookup dir name;
  if ino <? 0 then mret (-1)
  else
    n ← read_inode ino;
    full ← ((if type n =? SFS_DIR then
               count ← count_entries COUNT_FUEL ino 0 0; mret (2 <? count)
             else mret false) : prog bool);
    if (full : bool) then mret (-1)
    else
      _ ← free_blocks (blocks n);
      _ ← write_inode ino zero_inode;
      dir_remove dir name.

Lemma unlink_not_dots d dir name : 0 ∈ name → cstr name ≠ dot → cstr name ≠ dotdot →
  run_disk (sfs_unlink dir name) d = run_disk (unlink_rest dir name) d.
Proof.
  intros H0 Hn1 Hn2. unfold sfs_unlink.
  destruct (strcmp_spec name (lit ".") H0 (lit_nul _)) as (c1 & -> & Hc1).
  destruct (strcmp_spec name (lit "..") H0 (lit_nul _)) as (c2 & -> & Hc2).
  change (cstr (lit ".")) with dot in Hc1. change (cstr (lit "..")) with dotdot in Hc2.
  rewrite run_bind. cbn [of_option from_option run_disk].
  destruct (Z.eqb_spec c1 0) as [E1|E1]; [tauto|]. rewrite run_bind. cbn [of_option from_option run_disk].
  destruct (Z.eqb_spec c2 0) as [E2|E2]; [tauto|]. done.
Qed.

Section unlink.
Variables (d : disk) (dir : Z) (name : list Z).
Hypothesis Hok : fs_ok d.
Hypothesis Hno : inode_no dir.
Hypothesis Hty : type (inode_at d dir) = SFS_DIR.
Hypothesis Hnul : 0 ∈ name.

Lemma unlink_missing : find_name (cstr name) (dir_slots d dir) = None →
  run_disk (unlink_rest dir name) d = Some (-1, d).
Proof.
  intros Hf. unfold unlink_rest.
  by rewrite (run_bind_Some _ _ _ _ _ (dir_lookup_run d dir Hok Hno Hty name Hnul)), Hf.
Qed.

(** The test for a directory that is not empty. *)
Definition not_empty (ino : Z) : bool :=
  (type (inode_at d ino) =? SFS_DIR) && (2 <? Z.of_nat (length (entries d ino))).

Lemma full_test_run ino : inode_no ino →
  run_disk ((if type (inode_at d ino) =? SFS_DIR then
      count ← count_entries COUNT_FUEL ino 0 0; mret (2 <? count) else mret false) : prog bool) d
  = Some (not_empty ino, d).
Proof.
  intros Hi. unfold not_empty. destruct (Z.eqb_spec (type (inode_at d ino)) SFS_DIR) as [E|E]; [|done].
  by rewrite (run_bind_Some _ _ _ _ _ (count_all d ino Hok Hi E)).
Qed.

Lemma unlink_not_empty ino : find_name (cstr name) (dir_slots d dir) = Some ino → not_empty ino = true →
  run_disk (unlink_rest dir name) d = Some (-1, d).
Proof.
  intros Hf He. pose proof (find_name_no d dir name Hok Hno Hty ino Hf) as Hi. unfold unlink_rest.
  rewrite (run_bind_Some _ _ _ _ _ (dir_lookup_run d dir Hok Hno Hty name Hnul)), Hf. cbn [default from_option id].
  destruct (Z.ltb_spec ino 0); [destruct Hi; lia|].
  rewrite (run_bind_Some _ _ _ _ _ (read_inode_run d ino Hi)).
  by rewrite (run_bind_Some _ _ _ _ _ (full_test_run ino Hi)), He.
Qed.

Lemma unlink_removes ino : find_name (cstr name) (dir_slots d dir) = Some ino → not_empty ino = false →
  ino ≠ dir → ino ≠ SFS_ROOT →
  ∃ pre x post d', dir_slots d dir = pre ++ x :: post ∧ Forall (λ x, ¬ slot_named (cstr name) x) pre ∧
    slot_named (cstr name) x ∧ x.1 = ino + 1 ∧
    run_disk (unlink_rest dir name) d = Some (0, d') ∧ fs_ok d' ∧ inode_at d' ino = zero_inode ∧
    inode_at d' dir = inode_at d dir ∧ dir_slots d' dir = pre ++ (0, x.2) :: post ∧
    ∀ j, inode_no j → j ≠ ino → j ≠ dir → same_object d d' j.
Proof.
  intros Hf He Hne Hroot. pose proof (find_name_no d dir name Hok Hno Hty ino Hf) as Hi. unfold unlink_rest.
  rewrite (run_bind_Some _ _ _ _ _ (dir_lookup_run d dir Hok Hno Hty name Hnul)), Hf. cbn [default from_option id].
  destruct (Z.ltb_spec ino 0); [destruct Hi; lia|].
  rewrite (run_bind_Some _ _ _ _ _ (read_inode_run d ino Hi)).
  rewrite (run_bind_Some _ _ _ _ _ (full_test_run ino Hi)), He.
  destruct (free_blocks_run (blocks (inode_at d ino)) d _ (ok_wf d Hok)
    (node_blocks _ (ok_node d Hok ino Hi)) (ok_bits d Hok)) as (d1 & Hrun1 & Hwf1 & Hbits1 & Hino1 & Hsec1).
  rewrite (run_bind_Some _ _ _ _ _ Hrun1). apply (freed_bits d ino Hok Hi) in Hbits1.
  destruct (empty_node_ok SFS_FREE ltac:(tauto)) as [Hn Hnwf].
  destruct (empty_inode_run d d1 ino zero_inode Hok Hi Hwf1 Hino1 Hsec1 Hbits1 Hnwf Hn eq_refl ltac:(done))
    as (d2 & Hrun2 & Hok2 & Hself & Hsame2 & _).
  rewrite (run_bind_Some _ _ _ _ _ Hrun2). pose proof (Hsame2 dir Hno ltac:(done)) as Hdir2.
  destruct (dir_remove_run d2 dir Hok2 Hno ltac:(by rewrite (proj1 Hdir2)) name Hnul)
    as [[Hnone _]|(pre & x & post & d3 & Hsl & HF & Hx & Hrun3 & Hok3 & Hino3 & Hsame3 & Hsl3)];
    rewrite (same_object_slots _ _ _ Hdir2) in *; [by rewrite Hf in Hnone|].
  exists pre, x, post, d3. rewrite Hsl in Hf. rewrite (find_name_split _ _ _ _ HF Hx) in Hf. injection Hf as Hf.
  split_and!; try done.
  - lia.
  - by rewrite Hino3.
  - by rewrite Hino3, (proj1 Hdir2).
  - intros j Hj H1 H2. eapply same_object_trans; [by apply Hsame2|by apply Hsame3].
Qed.
End unlink.
