(* ===== verification/SfsTree.v ===== *)
(** * The name space: names never dangle (fs/sfs.c)

    [format] makes a disk that satisfies the invariant; from there every
    operation of the interface keeps it, and keeps the name space a forest:
    an entry refers to an inode in use, and no two entries to the same. *)

From S2P Require Import Prelude CString Block Sfs SfsLayout SfsInv SfsFile SfsDir SfsOps.

(** ** [format] and [sfs_init] *)

Lemma blank_fs_ok d : disk_wf d → ld32 (sector d 0) 0 = SFS_MAGIC →
  (∀ i, inode_no i → inode_at d i = if decide (i = SFS_ROOT) then Inode SFS_DIR 0 (replicate DIRECT 0) else zero_inode) →
  (∀ k, 0 ≤ k < MAX_DATA_BLOCKS → bit d k = false) → fs_ok d.
Proof.
  intros Hwf Hm Hino Hbit.
  assert (∀ i b, inode_no i → ¬ owned_by d i b) as Hno.
  { intros i b Hi. unfold owned_by. rewrite Hino by done. case_decide; set_solver. }
  constructor; try done.
  - intros i Hi. rewrite Hino by done. case_decide; (apply empty_node_ok; tauto).
  - intros i j b Hi _ Ho. by apply Hno in Ho.
  - intros b Hb. rewrite Hbit by (by apply data_blk_bit). split; [done|]. intros (i & Hi & Ho). by apply Hno in Ho.
  - intros i b Hi _ Ho. by apply Hno in Ho.
  - rewrite Hino by done. done.
Qed.

Lemma zero_inode_bytes k : inode_of_bytes (slice k 64 (replicate BLOCK_SIZE 0)) = zero_inode ∨ (BLOCK_SIZE < k + 64)%nat.
Proof.
  destruct (decide (BLOCK_SIZE < k + 64)%nat); [by right|left]. unfold slice.
  rewrite drop_replicate, take_replicate.
  replace (64 `min` (BLOCK_SIZE - k))%nat with 64%nat by lia. reflexivity.
Qed.

Lemma zero_bit k : bit_of (replicate BLOCK_SIZE 0) k = false.
Proof.
  unfold bit_of, byte_at. destruct (replicate BLOCK_SIZE 0 !! Z.to_nat (k / 8)) eqn:E.
  - apply lookup_replicate in E as [-> _]. apply Z.bits_0.
  - apply Z.bits_0.
Qed.

(** The disk [format] has written when it comes to the root directory. *)
Lemma format_blank d : disk_wf d →
  ∃ d1, run_disk (
      _ ← write_block 0 (list_inserts 0 superblock_bytes (replicate BLOCK_SIZE 0));
      _ ← for_ret (R:=unit) (Z.to_nat INODE_TABLE_BLOCKS) 0 (λ b,
            _ ← write_block (INODE_TABLE_START + b) (replicate BLOCK_SIZE 0); mret None);
      _ ← write_block BITMAP_BLOCK (replicate BLOCK_SIZE 0);
      write_inode SFS_ROOT (Inode SFS_DIR 0 (replicate DIRECT 0))) d = Some (tt, d1) ∧
    fs_ok d1 ∧ ∀ i, inode_no i → inode_at d1 i =
      if decide (i = SFS_ROOT) then Inode SFS_DIR 0 (replicate DIRECT 0) else zero_inode.
Proof.
  intros Hwf. set (sb := list_inserts 0 superblock_bytes (replicate BLOCK_SIZE 0)).
  assert (sec_ok sb) as Hsb by (apply inserts_sec_ok; [apply zero_sec_ok|apply encode_bytes]).
  rewrite (run_bind_Some _ _ _ _ _ (run_write 0 sb d ltac:(done) Hsb)).
  edestruct (run_for_ret (R:=unit) (λ j t, disk_wf t ∧ sector t 0 = sb ∧
      ∀ b, 1 ≤ b < 1 + j → sector t b = replicate BLOCK_SIZE 0) (λ _ _, False)) as (r & t & Hrun & Hpost);
    [| |rewrite (run_bind_Some _ _ _ _ _ Hrun); clear Hrun].
  { intros j t Hj (Ht & H0 & Hb). change (Z.of_nat (Z.to_nat INODE_TABLE_BLOCKS)) with 8 in Hj.
    assert (on_disk (INODE_TABLE_START + j)) as Hon by (unfold on_disk, INODE_TABLE_START, DISK_BLOCKS; lia).
    rewrite (run_bind_Some _ _ _ _ _ (run_write _ (replicate BLOCK_SIZE 0) t Hon zero_sec_ok)).
    eexists None, _. split; [done|]. split; [apply disk_wf_insert; [done|apply zero_sec_ok]|].
    split; [rewrite sector_insert, decide_False by (unfold INODE_TABLE_START; lia); done|].
    intros b Hb'. rewrite sector_insert. case_decide; [done|]. apply Hb. unfold INODE_TABLE_START in *. lia. }
  { split; [by apply disk_wf_insert|]. split; [by rewrite sector_insert, decide_True|]. intros; lia. }
  destruct r as [[]|]; [done|]. destruct Hpost as (Ht & H0 & Hb).
  change (0 + Z.of_nat (Z.to_nat INODE_TABLE_BLOCKS)) with 8 in Hb.
  rewrite (run_bind_Some _ _ _ _ _ (run_write BITMAP_BLOCK (replicate BLOCK_SIZE 0) t ltac:(done) zero_sec_ok)).
  set (t2 := <[BITMAP_BLOCK := replicate BLOCK_SIZE 0]> t).
  assert (disk_wf t2) as Ht2 by (apply disk_wf_insert; [done|apply zero_sec_ok]).
  assert (∀ i, inode_no i → inode_at t2 i = zero_inode) as Hz.
  { intros i Hi. destruct (inode_no_pos i Hi) as (_ & _ & Hdiv & Hmod). unfold inode_at, t2.
    rewrite sector_insert, decide_False, Hb by (unfold BITMAP_BLOCK; lia).
    destruct (zero_inode_bytes (Z.to_nat (64 * (i `mod` 8)))) as [?|?]; [done|unfold BLOCK_SIZE in *; lia]. }
  destruct (empty_node_ok SFS_DIR ltac:(tauto)) as [_ Hnwf].
  destruct (write_inode_run t2 SFS_ROOT _ Ht2 ltac:(done) Hnwf) as (d1 & Hrun1 & Hwf1 & Hino1 & Hsec1).
  assert (∀ k, bit d1 k = false) as Hbit1.
  { intros k. unfold bit. rewrite Hsec1 by (unfold BITMAP_BLOCK; lia). unfold t2.
    rewrite sector_insert, decide_True by done. apply zero_bit. }
  assert (∀ i, inode_no i → inode_at d1 i =
      if decide (i = SFS_ROOT) then Inode SFS_DIR 0 (replicate DIRECT 0) else zero_inode) as Hall
    by (intros i Hi; rewrite Hino1, Hz by done; done).
  exists d1. split; [done|]. split; [|done]. apply blank_fs_ok; try done.
  rewrite Hsec1 by lia. unfold t2. rewrite sector_insert, decide_False by done. by rewrite H0.
Qed.

Lemma format_run d : disk_wf d →
  ∃ d', run_disk format d = Some (tt, d') ∧ fs_ok d' ∧ dir_slots d' SFS_ROOT = dot_slots SFS_ROOT SFS_ROOT ∧
    ∀ i, inode_no i → i ≠ SFS_ROOT → type (inode_at d' i) = SFS_FREE.
Proof.
  intros Hwf. destruct (format_blank d Hwf) as (d1 & Hrun1 & Hok1 & Hino1).
  assert (inode_at d1 SFS_ROOT = Inode SFS_DIR 0 (replicate DIRECT 0)) as Hroot by (by rewrite Hino1).
  destruct (make_dots_run d1 SFS_ROOT SFS_ROOT Hok1 ltac:(done) ltac:(done) ltac:(by rewrite Hroot) ltac:(by rewrite Hroot))
    as (rc & d2 & Hrun2 & Hok2 & _ & Hsame2 & Hdots).
  exists d2. split; [|split; [done|split; [done|]]].
  - unfold format. repeat rewrite run_bind in Hrun1. rewrite run_bind in Hrun2. rewrite run_bind.
    destruct (run_disk (write_block 0 _) d) as [[? da]|]; [|done]. rewrite run_bind in Hrun1 |- *.
    destruct (run_disk (for_ret _ _ _) da) as [[? db]|]; [|done]. rewrite run_bind in Hrun1 |- *.
    destruct (run_disk (write_block BITMAP_BLOCK _) db) as [[? dc]|]; [|done].
    rewrite (run_bind_Some _ _ _ _ _ Hrun1), run_bind.
    destruct (run_disk (dir_add SFS_ROOT (lit ".") SFS_ROOT) d1) as [[? dd]|]; [|done].
    by rewrite (run_bind_Some _ _ _ _ _ Hrun2).
  - intros i Hi Hne. rewrite (proj1 (Hsame2 i Hi Hne)), Hino1, decide_False by done. done.
Qed.

(** ** The name space *)

(** An entry that names something: used, and not one of the dot names. *)
Definition live (x : slot) : Prop := slot_used x ∧ x.2 ≠ dot ∧ x.2 ≠ dotdot.
#[global] Instance live_dec x : Decision (live x).
Proof. apply _. Defined.

(** The inodes (plus one) that directory [i] names. *)
Definition live_targets (l : list slot) : list Z := fst <$> filter live l.
Definition targets (d : disk) (i : Z) : list Z :=
  if type (inode_at d i) =? SFS_DIR then live_targets (dir_slots d i) else [].

Record fs_tree (d : disk) : Prop := {
  tr_target : ∀ i t, inode_no i → t ∈ targets d i →
    inode_no (t - 1) ∧ t - 1 ≠ SFS_ROOT ∧ t - 1 ≠ i ∧ type (inode_at d (t - 1)) ≠ SFS_FREE;
  tr_nodup : ∀ i, inode_no i → NoDup (targets d i);
  tr_excl : ∀ i j t, inode_no i → inode_no j → t ∈ targets d i → t ∈ targets d j → i = j;
  tr_named : ∀ j, inode_no j → j ≠ SFS_ROOT → type (inode_at d j) ≠ SFS_FREE → ∃ i, inode_no i ∧ j + 1 ∈ targets d i;
  tr_rank : ∃ rank : Z → nat, ∀ i t, inode_no i → t ∈ targets d i → (rank i < rank (t - 1)%Z)%nat;
}.

Lemma live_targets_app l1 l2 : live_targets (l1 ++ l2) = live_targets l1 ++ live_targets l2.
Proof. unfold live_targets. by rewrite filter_app, fmap_app. Qed.

Lemma live_targets_cons x l : live_targets (x :: l) = (if decide (live x) then [x.1] else []) ++ live_targets l.
Proof. unfold live_targets. rewrite filter_cons. by case_decide. Qed.

Lemma live_targets_dots ino dir : live_targets (dot_slots ino dir) = [].
Proof.
  unfold dot_slots. rewrite !live_targets_cons, !decide_False; [done| |]; unfold live; cbn; tauto.
Qed.

Lemma same_object_targets d d' i : same_object d d' i → targets d' i = targets d i.
Proof. intros H. unfold targets. by rewrite (same_object_slots _ _ _ H), (proj1 H). Qed.

Lemma targets_dir d i : type (inode_at d i) = SFS_DIR → targets d i = live_targets (dir_slots d i).
Proof. intros H. unfold targets. by rewrite H. Qed.

Lemma targets_other d i : type (inode_at d i) ≠ SFS_DIR → targets d i = [].
Proof. intros H. unfold targets. apply Z.eqb_neq in H. by rewrite H. Qed.

Lemma added_targets l x l' : added l x l' →
  live_targets l' ≡ₚ (if decide (live x) then [x.1] else []) ++ live_targets l.
Proof.
  intros [(pre & y & post & -> & Hy & _ & ->)|[_ ->]].
  - rewrite !live_targets_app, !live_targets_cons, (decide_False (P:=live y)) by (intros [? _]; done).
    case_decide; cbn [app]; [|done]. by rewrite Permutation_middle.
  - rewrite live_targets_app, live_targets_cons.
    change (live_targets (replicate 15 (0, []))) with (@nil Z). rewrite app_nil_r. apply Permutation_app_comm.
Qed.

(** A new object [ino], named in directory [dir]. *)
Lemma tree_grow d d' dir ino : fs_tree d → inode_no dir → inode_no ino →
  type (inode_at d ino) = SFS_FREE → type (inode_at d dir) ≠ SFS_FREE → ino ≠ SFS_ROOT →
  (∀ j, inode_no j → j ≠ ino → type (inode_at d' j) = type (inode_at d j)) →
  type (inode_at d' ino) ≠ SFS_FREE → targets d' ino = [] →
  (∀ j, inode_no j → j ≠ ino → j ≠ dir → targets d' j = targets d j) →
  targets d' dir ≡ₚ (ino + 1) :: targets d dir → fs_tree d'.
Proof.
  intros [Ht Hn He Hname [rank Hrank]] Hdir Hi Hfree Hdirt Hroot Htypes Hnewt Hino Hoth Hperm.
  assert (ino ≠ dir) as Hne by (intros ->; done).
  assert (∀ j t, inode_no j → t ∈ targets d j → t ≠ ino + 1) as Hfresh.
  { intros j t Hj Hin ->. destruct (Ht j _ Hj Hin) as (_ & _ & _ & Hx).
    by replace (ino + 1 - 1) with ino in Hx by lia. }
  assert (∀ j t, inode_no j → t ∈ targets d' j → (j = dir ∧ t = ino + 1) ∨ t ∈ targets d j) as Hin.
  { intros j t Hj Hx. destruct (decide (j = ino)) as [->|Hji]; [rewrite Hino in Hx; set_solver|].
    destruct (decide (j = dir)) as [->|Hjd]; [|right; by rewrite <-Hoth].
    rewrite Hperm in Hx. apply elem_of_cons in Hx as [->|Hx]; tauto. }
  assert (∀ j t, inode_no j → t ∈ targets d j → t ∈ targets d' j) as Hkeep.
  { intros j t Hj Hx. assert (j ≠ ino) as Hji.
    { intros ->. rewrite targets_other in Hx by (by rewrite Hfree). by apply not_elem_of_nil in Hx. }
    destruct (decide (j = dir)) as [->|Hjd]; [rewrite Hperm; by right|by rewrite Hoth]. }
  constructor.
  - intros j t Hj Hx. destruct (Hin j t Hj Hx) as [[-> ->]|Hold].
    + replace (ino + 1 - 1) with ino by lia. done.
    + destruct (Ht j t Hj Hold) as (? & ? & ? & ?). pose proof (Hfresh j t Hj Hold). split_and!; auto. rewrite Htypes; [done..|lia].
  - intros j Hj. destruct (decide (j = ino)) as [->|Hji]; [rewrite Hino; constructor|].
    destruct (decide (j = dir)) as [->|Hjd]; [|rewrite Hoth by done; by apply Hn].
    rewrite Hperm. apply NoDup_cons. split; [|by apply Hn]. intros Hy. by apply (Hfresh dir _ Hdir Hy).
  - intros j k t Hj Hk Hx Hy. apply Hin in Hx; [|done]. apply Hin in Hy; [|done].
    destruct Hx as [[-> E1]|Hx], Hy as [[-> E2]|Hy].
    + done.
    + by destruct (Hfresh k t Hk Hy).
    + by destruct (Hfresh j t Hj Hx).
    + by eapply He.
  - intros j Hj Hjr Hjt. destruct (decide (j = ino)) as [->|Hji].
    + exists dir. split; [done|]. rewrite Hperm. left.
    + rewrite Htypes in Hjt by done. destruct (Hname j Hj Hjr Hjt) as (i & Hi' & Hin'). eauto.
  - exists (λ j, if decide (j = ino) then S (rank dir) else rank j). intros j t Hj Hx. destruct (Hin j t Hj Hx) as [[-> ->]|Hold].
    + rewrite decide_False by done. rewrite decide_True by lia. lia.
    + pose proof (Hfresh j t Hj Hold). rewrite (decide_False (P := t - 1 = ino)) by lia. rewrite decide_False; [by apply Hrank|].
      intros ->. rewrite Hino in Hx. by apply not_elem_of_nil in Hx.
Qed.

(** Object [ino] and the entry that names it are gone. *)
Lemma tree_shrink d d' dir ino : fs_tree d → inode_no dir → inode_no ino →
  (∀ j, inode_no j → j ≠ ino → type (inode_at d' j) = type (inode_at d j)) →
  targets d' ino = [] → (∀ j, inode_no j → j ≠ ino → j ≠ dir → targets d' j = targets d j) →
  dir ≠ ino → targets d ino = [] → type (inode_at d' ino) = SFS_FREE →
  targets d dir ≡ₚ (ino + 1) :: targets d' dir → fs_tree d'.
Proof.
  intros [Ht Hn He Hname [rank Hrank]] Hdir Hi Htypes Hino Hoth Hne Hnone Hfreed Hperm.
  assert (ino + 1 ∈ targets d dir) as Hdirin by (rewrite Hperm; left).
  assert (∀ j t, inode_no j → t ∈ targets d' j → t ∈ targets d j ∧ t ≠ ino + 1) as Hin.
  { intros j t Hj Hx. destruct (decide (j = ino)) as [->|Hji]; [rewrite Hino in Hx; set_solver|].
    destruct (decide (j = dir)) as [->|Hjd].
    - split; [rewrite Hperm; by right|]. intros ->. pose proof (Hn dir Hdir) as Hnd.
      rewrite Hperm in Hnd. by apply NoDup_cons in Hnd as [? _].
    - rewrite Hoth in Hx by done. split; [done|]. intros ->. apply Hjd. by eapply He. }
  constructor.
  - intros j t Hj Hx. destruct (Hin j t Hj Hx) as [Hold Hnt]. destruct (Ht j t Hj Hold) as (H1 & H2 & H3 & H4).
    split_and!; [done..|]. rewrite Htypes; [done|done|lia].
  - intros j Hj. destruct (decide (j = ino)) as [->|Hji]; [rewrite Hino; constructor|].
    destruct (decide (j = dir)) as [->|Hjd]; [|rewrite Hoth by done; by apply Hn].
    pose proof (Hn dir Hdir) as Hnd. rewrite Hperm in Hnd. by apply NoDup_cons in Hnd as [_ ?].
  - intros j k t Hj Hk Hx Hy. apply Hin in Hx as [Hx _]; [|done]. apply Hin in Hy as [Hy _]; [|done]. by eapply He.
  - intros j Hj Hjr Hjt. assert (j ≠ ino) as Hji by congruence. rewrite Htypes in Hjt by done.
    destruct (Hname j Hj Hjr Hjt) as (i & Hi' & Hx). exists i. split; [done|].
    assert (i ≠ ino) as Hii by (intros ->; rewrite Hnone in Hx; by apply not_elem_of_nil in Hx).
    destruct (decide (i = dir)) as [->|Hid]; [|by rewrite Hoth].
    rewrite Hperm in Hx. apply elem_of_cons in Hx as [?|?]; [lia|done].
  - exists rank. intros j t Hj Hx. apply Hrank; [done|by apply Hin].
Qed.

(** The dot entries of a directory: one "." for itself and one ".." for the
    directory that names it. *)
Definition isdot (x : slot) : Prop := slot_used x ∧ (x.2 = dot ∨ x.2 = dotdot).
#[global] Instance isdot_dec x : Decision (isdot x).
Proof. apply _. Defined.

Definition fs_dots (d : disk) : Prop := ∀ i, inode_no i → type (inode_at d i) = SFS_DIR →
  ∃ p, filter isdot (dir_slots d i) = [(i + 1, dot); (p + 1, dotdot)] ∧ inode_no p ∧ type (inode_at d p) = SFS_DIR ∧
    if decide (i = SFS_ROOT) then p = SFS_ROOT else i + 1 ∈ targets d p.

Definition fs_inv (d : disk) : Prop := fs_ok d ∧ fs_tree d ∧ fs_dots d.

Lemma filter_dot_slots ino dir : inode_no ino → inode_no dir →
  filter isdot (dot_slots ino dir) = [(ino + 1, dot); (dir + 1, dotdot)].
Proof.
  intros [Hi _] [Hd _]. unfold dot_slots.
  rewrite !filter_cons_True by (unfold isdot, slot_used; cbn; (split; [lia|tauto])). done.
Qed.

Lemma added_filter_dots l x l' : added l x l' → ¬ isdot x → filter isdot l' = filter isdot l.
Proof.
  intros [(pre & y & post & -> & Hy & _ & ->)|[_ ->]] Hx.
  - rewrite !filter_app, !filter_cons_False; [done|by intros []|done].
  - rewrite filter_app, filter_cons_False by done. apply app_nil_r.
Qed.

(** The dot names are always found, so they cannot be created again. *)
Lemma dots_found d dir : fs_dots d → inode_no dir → type (inode_at d dir) = SFS_DIR →
  is_Some (find_name dot (dir_slots d dir)) ∧ is_Some (find_name dotdot (dir_slots d dir)).
Proof.
  intros Hd Hno Hty. destruct (Hd dir Hno Hty) as (p & Hp & _).
  assert (∀ x, x ∈ [(dir + 1, dot); (p + 1, dotdot)] → is_Some (find_name x.2 (dir_slots d dir))) as Hx.
  { intros x Hx. rewrite <-Hp in Hx. apply list_elem_of_filter in Hx as [[Hu _] Hx].
    destruct (find_name x.2 (dir_slots d dir)) eqn:E; [done|]. apply find_name_None in E.
    rewrite Forall_forall in E. by destruct (E x Hx). }
  split; [apply (Hx (dir + 1, dot)); left|apply (Hx (p + 1, dotdot)); right; left].
Qed.

Lemma new_name_live d dir nm ino : fs_dots d → inode_no dir → type (inode_at d dir) = SFS_DIR → inode_no ino →
  find_name nm (dir_slots d dir) = None → live (ino + 1, take 27 nm) ∧ ¬ isdot (ino + 1, take 27 nm).
Proof.
  intros Hd Hno Hty [Hi _] Hf. destruct (dots_found d dir Hd Hno Hty) as [[? H1] [? H2]].
  assert (∀ l : list Z, (length l < 27)%nat → take 27 nm = l → nm = l) as Htake.
  { intros l Hl Ht. assert (length nm ≤ 27)%nat by (apply (f_equal length) in Ht; rewrite length_take in Ht; lia).
    by rewrite take_ge in Ht. }
  assert (take 27 nm ≠ dot ∧ take 27 nm ≠ dotdot) as [Hn1 Hn2].
  { split; intros Ht; apply Htake in Ht; try (cbn; lia); congruence. }
  split; [split; [unfold slot_used; cbn; lia|done]|]. intros [_ [?|?]]; done.
Qed.

(** A directory always has room: it names at most 64 inodes and has two dot
    entries, and 14 blocks hold 224 slots. *)
Lemma dir_has_room d dir : fs_inv d → inode_no dir → type (inode_at d dir) = SFS_DIR →
  Forall slot_used (dir_slots d dir) → length (owned (inode_at d dir)) ≠ DIRECT.
Proof.
  intros (Hok & Htree & Hdots) Hno Hty Hused Hlen.
  pose proof (length_dir_slots d dir) as Hl. rewrite Hlen in Hl.
  destruct (Hdots dir Hno Hty) as (p & Hp & _).
  assert (length (dir_slots d dir) ≤ length (filter isdot (dir_slots d dir)) + length (filter live (dir_slots d dir)))%nat as Hsum.
  { clear -Hused. induction Hused as [|x l Hx _ IH]; [done|]. rewrite !filter_cons. cbn [length].
    destruct (decide (isdot x)); destruct (decide (live x)); cbn [length]; try lia.
    unfold isdot, live in *. destruct (decide (x.2 = dot)), (decide (x.2 = dotdot)); tauto. }
  assert (length (filter live (dir_slots d dir)) ≤ 64)%nat as Hlive.
  { pose proof (tr_nodup d Htree dir Hno) as Hnd. rewrite targets_dir in Hnd by done.
    assert (live_targets (dir_slots d dir) ⊆+ seqZ 1 64) as Hsub.
    { apply NoDup_submseteq; [done|]. intros t Ht. rewrite <-targets_dir in Ht by done.
      destruct (tr_target d Htree dir t Hno Ht) as [Hi _]. apply elem_of_seqZ. unfold inode_no, MAX_INODES in Hi. lia. }
    apply submseteq_length in Hsub. unfold live_targets in Hsub. rewrite length_fmap, length_seqZ in Hsub. lia. }
  rewrite Hp in Hsum. cbn [length] in Hsum. unfold DIRECT in Hl. lia.
Qed.

(** ** Every operation keeps the invariants *)

Lemma format_tree d : fs_ok d → dir_slots d SFS_ROOT = dot_slots SFS_ROOT SFS_ROOT →
  (∀ i, inode_no i → i ≠ SFS_ROOT → type (inode_at d i) = SFS_FREE) → fs_tree d.
Proof.
  intros Hok Hdots Hfree.
  assert (∀ i, inode_no i → targets d i = []) as Hnone.
  { intros i Hi. destruct (decide (i = SFS_ROOT)) as [->|Hne].
    - rewrite targets_dir, Hdots by apply Hok. apply live_targets_dots.
    - apply targets_other. by rewrite Hfree. }
  constructor.
  - intros i t Hi. rewrite Hnone by done. set_solver.
  - intros i Hi. rewrite Hnone by done. constructor.
  - intros i j t Hi _. rewrite (Hnone i) by done. set_solver.
  - intros j Hj Hjr []. by apply Hfree.
  - exists (λ _, 0%nat). intros i t Hi. rewrite Hnone by done. set_solver.
Qed.

Lemma sfs_create_tree d dir ty ino d' : fs_ok d → fs_tree d → inode_no dir → type (inode_at d dir) = SFS_DIR →
  ty = SFS_FILE ∨ ty = SFS_DIR → created d dir ty ino d' →
  live_targets (dir_slots d' dir) ≡ₚ (ino + 1) :: live_targets (dir_slots d dir) → fs_tree d'.
Proof.
  intros Hok Htree Hno Hty Hkind Hcr Hperm. pose proof Hcr as [Hok' Hi Hfree Hity Hdty _ Hdots Hframe].
  assert (ino ≠ SFS_ROOT) as Hroot by (intros ->; by rewrite (ok_root d Hok) in Hfree).
  assert (ty ≠ SFS_FREE) as Hnf by (by destruct Hkind as [->| ->]).
  eapply (tree_grow d d' dir ino); try done.
  - by rewrite Hty.
  - intros j Hj Hji. destruct (decide (j = dir)) as [->|Hjd]; [by rewrite Hdty|]. by rewrite (proj1 (Hframe j Hj Hji Hjd)).
  - by rewrite Hity.
  - destruct Hkind as [->| ->]; [apply targets_other; by rewrite Hity|].
    rewrite targets_dir by done. rewrite Hdots by done. apply live_targets_dots.
  - intros j Hj Hji Hjd. by apply same_object_targets, Hframe.
  - by rewrite !targets_dir.
Qed.

Lemma sfs_write_tree d i d' : fs_tree d → inode_no i → type (inode_at d i) = SFS_FILE →
  type (inode_at d' i) = SFS_FILE → (∀ j, inode_no j → j ≠ i → same_object d d' j) → fs_tree d'.
Proof.
  intros [Ht Hn He Hname [rank Hrank]] Hi Hty Hty' Hsame.
  assert (∀ j, inode_no j → targets d' j = targets d j) as Heq.
  { intros j Hj. destruct (decide (j = i)) as [->|Hne]; [|by apply same_object_targets, Hsame].
    by rewrite !targets_other by (by rewrite ?Hty, ?Hty'). }
  constructor.
  - intros j t Hj. rewrite Heq by done. intros Hx. destruct (Ht j t Hj Hx) as (H1 & H2 & H3 & H4).
    split_and!; [done..|]. destruct (decide (t - 1 = i)) as [->|Hne]; [by rewrite Hty'|].
    by rewrite (proj1 (Hsame _ H1 Hne)).
  - intros j Hj. rewrite Heq by done. by apply Hn.
  - intros j k t Hj Hk. rewrite !Heq by done. by apply He.
  - intros j Hj Hjr Hjt. assert (type (inode_at d j) ≠ SFS_FREE) as Hj'.
    { destruct (decide (j = i)) as [->|Hne]; [by rewrite Hty|]. by rewrite <-(proj1 (Hsame j Hj Hne)). }
    destruct (Hname j Hj Hjr Hj') as (k & Hk & Hx). exists k. by rewrite Heq.
  - exists rank. intros j t Hj. rewrite Heq by done. by apply Hrank.
Qed.

(** A name that is looked up and is no dot name has a target of the tree. *)
Lemma find_target d dir nm ino : type (inode_at d dir) = SFS_DIR → nm ≠ dot → nm ≠ dotdot →
  find_name nm (dir_slots d dir) = Some ino → ino + 1 ∈ targets d dir.
Proof.
  intros Hty H1 H2 (pre & x & post & Hl & _ & [Hu <-] & ->)%find_name_inv. rewrite targets_dir, Hl by done.
  rewrite live_targets_app, live_targets_cons, decide_True by done.
  replace (x.1 - 1 + 1) with x.1 by lia. set_solver.
Qed.

(** The dot entries survive a removal under another name. *)
Lemma unlink_dots d d' dir ino nm pre x post : fs_dots d → inode_at d' dir = inode_at d dir →
  inode_at d' ino = zero_inode → dir_slots d dir = pre ++ x :: post → dir_slots d' dir = pre ++ (0, x.2) :: post →
  slot_named nm x → nm ≠ dot → nm ≠ dotdot →
  targets d ino = [] → ino ≠ SFS_ROOT → targets d dir ≡ₚ (ino + 1) :: targets d' dir →
  (∀ j, inode_no j → j ≠ ino → j ≠ dir → same_object d d' j) → fs_dots d'.
Proof.
  intros Hd Hdir Hz Hsl Hsl' [Hu Hn] H1 H2 Hnone Hroot Hperm Hframe i Hi Hty.
  destruct (decide (i = ino)) as [->|Hne]; [by rewrite Hz in Hty|].
  assert (type (inode_at d i) = SFS_DIR ∧ filter isdot (dir_slots d' i) = filter isdot (dir_slots d i)) as [Hty0 ->].
  { destruct (decide (i = dir)) as [->|Hnd].
    - rewrite Hdir in Hty. split; [done|]. rewrite Hsl, Hsl'.
      rewrite !filter_app, !filter_cons_False; [done|intros [_ [E|E]]; congruence|intros [E _]; by apply E].
    - pose proof (Hframe i Hi Hne Hnd) as Hs. rewrite (proj1 Hs) in Hty. by rewrite (same_object_slots _ _ _ Hs). }
  destruct (Hd i Hi Hty0) as (p & Hp & Hpn & Hpt & Hpar). exists p. split; [done|]. split; [done|].
  assert (p ≠ ino) as Hpi.
  { intros ->. case_decide; [by subst|]. rewrite Hnone in Hpar. by apply not_elem_of_nil in Hpar. }
  split. { destruct (decide (p = dir)) as [->|Hpd]; [by rewrite Hdir|]. by rewrite (proj1 (Hframe p Hpn Hpi Hpd)). }
  case_decide; [done|]. destruct (decide (p = dir)) as [->|Hpd]; [|by rewrite (same_object_targets _ _ _ (Hframe p Hpn Hpi Hpd))].
  rewrite Hperm in Hpar. apply elem_of_cons in Hpar as [?|?]; [lia|done].
Qed.

(** A directory counts as not empty exactly when it names something. *)
Lemma not_empty_targets d i : fs_dots d → inode_no i → not_empty d i = bool_decide (targets d i ≠ []).
Proof.
  intros Hdots Hi. unfold not_empty. destruct (decide (type (inode_at d i) = SFS_DIR)) as [Hty|Hty].
  2: { rewrite targets_other by done. by rewrite (proj2 (Z.eqb_neq _ _) Hty). }
  destruct (Hdots i Hi Hty) as (p & Hp & _).
  assert (length (entries d i) = length (filter isdot (dir_slots d i)) + length (targets d i))%nat as Hlen.
  { rewrite targets_dir by done. unfold entries, live_targets. rewrite length_fmap. clear.
    induction (dir_slots d i) as [|x l IH]; [done|]. rewrite !filter_cons.
    destruct (decide (slot_used x)), (decide (isdot x)), (decide (live x)); cbn [length]; try lia;
      unfold isdot, live in *; destruct (decide (x.2 = dot)), (decide (x.2 = dotdot)); tauto. }
  rewrite Hty, Hlen, Hp. cbn [length Z.eqb SFS_DIR Pos.eqb andb].
  destruct (targets d i) as [|t l]; cbn [length].
  - by rewrite bool_decide_eq_false_2 by (intros H; by apply H).
  - rewrite bool_decide_eq_true_2 by done. apply Z.ltb_lt. lia.
Qed.

(** [sfs_unlink] in full. *)
Lemma sfs_unlink_run d dir name : fs_inv d → inode_no dir → type (inode_at d dir) = SFS_DIR → 0 ∈ name →
  (run_disk (sfs_unlink dir name) d = Some (-1, d) ∧
    (cstr name = dot ∨ cstr name = dotdot ∨ find_name (cstr name) (dir_slots d dir) = None ∨
     ∃ ino, find_name (cstr name) (dir_slots d dir) = Some ino ∧ not_empty d ino = true)) ∨
  ∃ ino pre x post d', run_disk (sfs_unlink dir name) d = Some (0, d') ∧
    find_name (cstr name) (dir_slots d dir) = Some ino ∧ not_empty d ino = false ∧ inode_no ino ∧ ino ≠ dir ∧
    dir_slots d dir = pre ++ x :: post ∧ Forall (λ x, ¬ slot_named (cstr name) x) pre ∧
    slot_named (cstr name) x ∧ dir_slots d' dir = pre ++ (0, x.2) :: post ∧
    fs_inv d' ∧ inode_at d' ino = zero_inode ∧ inode_at d' dir = inode_at d dir ∧
    ∀ j, inode_no j → j ≠ ino → j ≠ dir → same_object d d' j.
Proof.
  intros (Hok & Htree & Hdots) Hno Hty H0.
  destruct (decide (cstr name = dot ∨ cstr name = dotdot)) as [Hd|Hd].
  { left. rewrite sfs_unlink_dots by done. tauto. }
  rewrite unlink_not_dots by tauto. destruct (find_name (cstr name) (dir_slots d dir)) as [ino|] eqn:Hf.
  2:{ left. rewrite unlink_missing by done. tauto. }
  destruct (not_empty d ino) eqn:He.
  { left. rewrite (unlink_not_empty d dir name Hok Hno Hty H0 ino Hf He). split; [done|]. do 3 right. by exists ino. }
  right. pose proof (find_target d dir (cstr name) ino Hty ltac:(tauto) ltac:(tauto) Hf) as Hin.
  destruct (tr_target d Htree dir _ Hno Hin) as (Hi & Hr & Hne & _).
  replace (ino + 1 - 1) with ino in * by lia.
  destruct (unlink_removes d dir name Hok Hno Hty H0 ino Hf He Hne Hr)
    as (pre & x & post & d' & Hsl & HF & Hx & Hx1 & Hrun & Hok' & Hz & Hty' & Hsl' & Hframe).
  exists ino, pre, x, post, d'. split_and!; try done.
  assert (targets d ino = []) as Hnone.
  { rewrite not_empty_targets in He by done. apply bool_decide_eq_false in He. by apply dec_stable. }
  assert (targets d dir ≡ₚ (ino + 1) :: targets d' dir) as Hperm.
  { rewrite !targets_dir, Hsl, Hsl' by (by rewrite ?Hty'). rewrite !live_targets_app, !live_targets_cons.
    rewrite (decide_True (P:=live x)) by (destruct Hx as [? E]; unfold live; rewrite E; tauto).
    rewrite decide_False by (intros [Hu _]; by apply Hu). rewrite Hx1. cbn [app]. symmetry. apply Permutation_middle. }
  split; [done|]. split; [|eapply (unlink_dots d d' dir ino); eauto; tauto].
  eapply (tree_shrink d d' dir ino); try done.
  - intros j Hj Hji. destruct (decide (j = dir)) as [->|Hjd]; [by rewrite Hty'|]. by rewrite (proj1 (Hframe j Hj Hji Hjd)).
  - apply targets_other. by rewrite Hz.
  - intros j Hj Hji Hjd. by apply same_object_targets, Hframe.
  - by rewrite Hz.
Qed.

Lemma format_inv d : fs_ok d → dir_slots d SFS_ROOT = dot_slots SFS_ROOT SFS_ROOT →
  (∀ i, inode_no i → i ≠ SFS_ROOT → type (inode_at d i) = SFS_FREE) → fs_inv d.
Proof.
  intros Hok Hdots Hfree. split; [done|]. split; [by apply format_tree|]. intros i Hi Hty.
  destruct (decide (i = SFS_ROOT)) as [->|Hne]; [|by rewrite Hfree in Hty].
  exists SFS_ROOT. rewrite Hdots. split; [by apply filter_dot_slots|]. split; [done|]. split; [done|]. done.
Qed.

Lemma write_inv d i d' : fs_inv d → fs_ok d' → inode_no i → type (inode_at d i) = SFS_FILE →
  type (inode_at d' i) = SFS_FILE → (∀ j, inode_no j → j ≠ i → same_object d d' j) → fs_inv d'.
Proof.
  intros (Hok & Htree & Hdots) Hok' Hi Hty Hty' Hsame. split; [done|]. split; [by eapply sfs_write_tree|].
  intros j Hj Hjt. assert (j ≠ i) as Hji by (intros ->; by rewrite Hty' in Hjt).
  pose proof (Hsame j Hj Hji) as Hs. rewrite (proj1 Hs) in Hjt. rewrite (same_object_slots _ _ _ Hs).
  destruct (Hdots j Hj Hjt) as (p & Hp & Hpn & Hpt & Hpar). exists p. split; [done|]. split; [done|].
  assert (p ≠ i) as Hpi by (intros ->; by rewrite Hty in Hpt). pose proof (Hsame p Hpn Hpi) as Hsp.
  split; [by rewrite (proj1 Hsp)|]. by rewrite (same_object_targets _ _ _ Hsp).
Qed.

Lemma create_inv d dir nm ty ino d' : fs_inv d → inode_no dir → type (inode_at d dir) = SFS_DIR →
  ty = SFS_FILE ∨ ty = SFS_DIR → find_name nm (dir_slots d dir) = None → created d dir ty ino d' →
  added (dir_slots d dir) (ino + 1, take 27 nm) (dir_slots d' dir) → fs_inv d'.
Proof.
  intros (Hok & Htree & Hdots) Hno Hty Hkind Hf Hcr Hadd.
  destruct (new_name_live d dir nm ino Hdots Hno Hty (cr_no _ _ _ _ _ Hcr) Hf) as [Hlive Hnd].
  pose proof (added_targets _ _ _ Hadd) as Hp. rewrite decide_True in Hp by done.
  split; [apply Hcr|]. split; [by eapply (sfs_create_tree d dir ty ino d')|].
  rewrite <-!targets_dir in Hp by (done || apply Hcr). destruct Hcr as [_ Hin Hfree Hity Hdty _ Hnew Hframe].
  assert (ino ≠ dir) as Hid by (intros ->; by rewrite Hty in Hfree).
  intros j Hj Hjt. destruct (decide (j = ino)) as [->|Hji].
  - exists dir. rewrite decide_False by (intros ->; by rewrite (ok_root d Hok) in Hfree).
    split; [rewrite Hnew; [by apply filter_dot_slots|congruence]|]. split; [done|]. split; [done|]. rewrite Hp. left.
  - assert (type (inode_at d j) = SFS_DIR ∧ filter isdot (dir_slots d' j) = filter isdot (dir_slots d j)) as [Hj0 ->].
    { destruct (decide (j = dir)) as [->|Hjd]; [by rewrite (added_filter_dots _ _ _ Hadd Hnd)|].
      pose proof (Hframe j Hj Hji Hjd) as Hs. rewrite (proj1 Hs) in Hjt. by rewrite (same_object_slots _ _ _ Hs). }
    destruct (Hdots j Hj Hj0) as (p & Hpf & Hpn & Hpt & Hpar). exists p. split; [done|]. split; [done|].
    assert (p ≠ ino) as Hpi by (intros ->; by rewrite Hfree in Hpt). destruct (decide (p = dir)) as [->|Hpd].
    + split; [done|]. case_decide; [done|]. rewrite Hp. by right.
    + pose proof (Hframe p Hpn Hpi Hpd) as Hs. by rewrite (proj1 Hs), (same_object_targets _ _ _ Hs).
Qed.

(** [sfs_create] in full: it fails only for a name that exists or for want of
    an inode, and then does nothing. *)
Lemma sfs_create_full d dir name ty : fs_inv d → inode_no dir → type (inode_at d dir) = SFS_DIR → 0 ∈ name →
  Forall is_byte name → ty = SFS_FILE ∨ ty = SFS_DIR →
  (run_disk (sfs_create dir name ty) d = Some (-1, d) ∧
     (is_Some (find_name (cstr name) (dir_slots d dir)) ∨ ∀ i, inode_no i → type (inode_at d i) ≠ SFS_FREE)) ∨
  ∃ ino d', run_disk (sfs_create dir name ty) d = Some (ino, d') ∧ fs_inv d' ∧
    find_name (cstr name) (dir_slots d dir) = None ∧ created d dir ty ino d' ∧
    added (dir_slots d dir) (ino + 1, take 27 (cstr name)) (dir_slots d' dir).
Proof.
  intros Hinv Hno Hty H0 Hb Hkind. pose proof Hinv as (Hok & _).
  destruct (sfs_create_run d dir name Hok Hno Hty H0 ty Hb Hkind)
    as [?|(ino & d' & Hf & Hcr & [[Hrun Hadd]|[Hused Hlen]])]; [by left| |by destruct (dir_has_room d dir)].
  right. exists ino, d'. split_and!; [done| |done..]. by eapply create_inv.
Qed.
