(* ===== verification/SfsSpec.v ===== *)
(** * What the filesystem promises (fs/sfs.c over fs/bcache.c)

    The properties of the exported operations of sfs.h, on the plain disk and
    through the block cache, with concrete disks at which they apply. *)

From S2P Require Import Prelude CString Block Bcache Sfs SfsLayout SfsInv SfsFile SfsDir SfsOps SfsTree.

(** ** Reachable disks *)

(** One call that changes the disk, as a caller makes it: the inode numbers
    are in range, a directory argument is a directory, names end in 0. *)
Inductive fs_step : disk → disk → Prop :=
| step_init d d' : run_disk sfs_init d = Some (tt, d') → fs_step d d'
| step_create d d' dir name ty r :
    inode_no dir → type (inode_at d dir) = SFS_DIR → 0 ∈ name → Forall is_byte name →
    ty = SFS_FILE ∨ ty = SFS_DIR →
    run_disk (sfs_create dir name ty) d = Some (r, d') → fs_step d d'
| step_write d d' i data len r :
    inode_no i → Forall is_byte data → 0 ≤ len ≤ Z.of_nat (length data) →
    run_disk (sfs_write i data len) d = Some (r, d') → fs_step d d'
| step_unlink d d' dir name r :
    inode_no dir → type (inode_at d dir) = SFS_DIR → 0 ∈ name →
    run_disk (sfs_unlink dir name) d = Some (r, d') → fs_step d d'.

Lemma sfs_init_run d : disk_wf d →
  run_disk sfs_init d = if decide (ld32 (sector d 0) 0 = SFS_MAGIC) then Some (tt, d) else run_disk format d.
Proof.
  intros Hwf. unfold sfs_init. rewrite (run_bind_Some _ _ _ _ _ (run_read 0 d ltac:(done))).
  destruct (Z.eqb_spec (ld32 (sector d 0) 0) SFS_MAGIC) as [E|E]; cbn [negb].
  - by rewrite decide_True.
  - by rewrite decide_False.
Qed.

Lemma fs_step_inv d d' : fs_inv d → fs_step d d' → fs_inv d'.
Proof.
  intros Hinv Hstep. destruct Hstep as [d d' Hrun|d d' dir name ty r Hno Hty H0 Hb Hk Hrun
    |d d' i data len r Hi Hb Hlen Hrun|d d' dir name r Hno Hty H0 Hrun]; pose proof Hinv as (Hok & _).
  - rewrite sfs_init_run, decide_True in Hrun by apply Hok. by injection Hrun as <-.
  - destruct (sfs_create_full d dir name ty Hinv Hno Hty H0 Hb Hk) as [[E _]|(ino & d2 & E & Hinv2 & _)];
      rewrite E in Hrun; by injection Hrun as <- <-.
  - destruct (decide (type (inode_at d i) = SFS_FILE)) as [Hty|Hty].
    + destruct (sfs_write_run d i data len Hok Hi Hty Hb Hlen) as (w & d2 & E & Hok2 & Hty2 & _ & _ & _ & Hsame).
      rewrite E in Hrun. injection Hrun as <- <-. by eapply write_inv.
    + rewrite sfs_write_not_file in Hrun by done. by injection Hrun as <- <-.
  - destruct (sfs_unlink_run d dir name Hinv Hno Hty H0) as [[E _]|(ino & pre & x & post & d2 & E & H)];
      rewrite E in Hrun; injection Hrun as <- <-; tauto.
Qed.

(** ** Concrete disks *)

Definition after {A} (p : prog A) (d : disk) : disk := default ∅ (snd <$> run_disk p d).

Definition boot_disk : disk := after format ∅.
Definition file_disk : disk := after (sfs_create SFS_ROOT (lit "log") SFS_FILE) boot_disk.

Lemma boot_disk_spec : run_disk format ∅ = Some (tt, boot_disk) ∧ fs_inv boot_disk.
Proof.
  destruct (format_run ∅ disk_wf_empty) as (d & Hrun & Hok & Hdots & Hfree).
  unfold boot_disk, after. rewrite Hrun. cbn. split; [done|]. by apply format_inv.
Qed.

Lemma boot_root : type (inode_at boot_disk SFS_ROOT) = SFS_DIR.
Proof. apply (ok_root _ (proj1 (proj2 boot_disk_spec))). Qed.

Lemma log_bytes : Forall is_byte (lit "log").
Proof. cbn. repeat constructor; unfold is_byte; lia. Qed.

Lemma file_disk_run : run_disk (sfs_create SFS_ROOT (lit "log") SFS_FILE) boot_disk = Some (1, file_disk).
Proof. vm_compute. reflexivity. Qed.

Lemma file_disk_step : fs_step boot_disk file_disk.
Proof.
  eapply step_create; [|exact boot_root|exact (lit_nul "log")|exact log_bytes|by left|exact file_disk_run].
  unfold inode_no, SFS_ROOT, MAX_INODES. lia.
Qed.

Lemma file_disk_inv : fs_inv file_disk.
Proof. exact (fs_step_inv _ _ (proj2 boot_disk_spec) file_disk_step). Qed.

Lemma file_disk_ok : fs_ok file_disk.
Proof. apply file_disk_inv. Qed.

Lemma file_disk_type : type (inode_at file_disk 1) = SFS_FILE.
Proof. vm_compute. reflexivity. Qed.

(** ** Properties *)

(** C2. Whatever sequence of mounts, creations, writes and removals a formatted
    disk goes through, the on-disk invariant holds afterwards: no block is
    shared or lost and the bitmap marks exactly the blocks in use, sizes and
    directory blocks are well formed, every name refers to an inode in use that
    no other name refers to, and every directory has its "." and "..". *)
Theorem sfs_invariant (d0 d d' : disk) (Hwf : disk_wf d0)
    (Hformat : run_disk format d0 = Some (tt, d)) (Hsteps : rtc fs_step d d') :
  fs_ok d' ∧ fs_tree d' ∧ fs_dots d'.
Proof.
  destruct (format_run d0 Hwf) as (d1 & Hrun & Hok & Hdots & Hfree). rewrite Hrun in Hformat.
  injection Hformat as ->. pose proof (format_inv d Hok Hdots Hfree) as Hinv. clear -Hinv Hsteps.
  induction Hsteps as [|x y z Hxy _ IH]; [done|]. apply IH. by apply (fs_step_inv x).
Qed.

Lemma sfs_invariant_witness : fs_ok file_disk ∧ fs_tree file_disk ∧ fs_dots file_disk.
Proof.
  apply (sfs_invariant ∅ boot_disk file_disk).
  - exact disk_wf_empty.
  - exact (proj1 boot_disk_spec).
  - apply rtc_once. exact file_disk_step.
Defined.

(** C3. Through the block cache, a write to a file followed by a read returns the
    bytes written: the write stores and reports all of the data up to 7168
    bytes (there is always a block to be had) and the read returns as much of
    it as its buffer holds. *)
Theorem sfs_write_read {D} `{AtaDisk D, !AtaDiskSpec D} (s : bcache D) (d : disk) i data len max
    (Hs : shows s d) (Hok : fs_ok d) (Hi : inode_no i) (Hty : type (inode_at d i) = SFS_FILE)
    (Hdata : Forall is_byte data) (Hlen : 0 ≤ len ≤ Z.of_nat (length data)) (Hmax : 0 ≤ max) :
  let w := Z.min len MAX_BYTES in
  ∃ s' d', run_layer (w ← sfs_write i data len; out ← sfs_read i max; mret (w, out)) s
             = Some ((w, take (Z.to_nat max) (take (Z.to_nat w) data)), s') ∧
    shows s' d' ∧ fs_ok d'.
Proof.
  destruct (sfs_write_run d i data len Hok Hi Hty Hdata Hlen) as (w & d' & Hrun & Hok' & _ & _ & Hby & <- & _).
  destruct (run_refines (w ← sfs_write i data len; out ← sfs_read i max; mret (w, out)) s d
    (w, take (Z.to_nat max) (take (Z.to_nat w) data)) d' Hs) as (s' & Hl & Hs').
  - rewrite (run_bind_Some _ _ _ _ _ Hrun), (run_bind_Some _ _ _ _ _ (sfs_read_run d' i max Hok' Hi Hmax)).
    by rewrite Hby.
  - by exists s', d'.
Qed.

Lemma sfs_write_read_witness :
  ∃ s' d', @run_layer _ (@bcache_layer _ plain_ata) _
      (w ← sfs_write 1 [72; 105] 2; out ← sfs_read 1 100; mret (w, out)) (fresh_cache file_disk)
      = Some ((2, [72; 105]), s') ∧
    @shows _ _ (@bcache_layer_spec _ plain_ata plain_ata_spec) s' d' ∧ fs_ok d'.
Proof.
  apply (@sfs_write_read disk plain_ata plain_ata_spec (fresh_cache file_disk) file_disk 1 [72; 105] 2 100).
  - apply fresh_shows. intros b. apply (ok_wf _ file_disk_ok).
  - exact file_disk_ok.
  - split; reflexivity || discriminate.
  - exact file_disk_type.
  - repeat constructor; discriminate.
  - split; discriminate.
  - discriminate.
Defined.

(** A write touches one file only: every other file keeps its bytes and every
    directory its entries, and the disk stays well formed. *)
Theorem sfs_write_isolated d i data len (Hok : fs_ok d) (Hi : inode_no i)
    (Hty : type (inode_at d i) = SFS_FILE)
    (Hdata : Forall is_byte data) (Hlen : 0 ≤ len ≤ Z.of_nat (length data)) :
  ∃ w d', run_disk (sfs_write i data len) d = Some (w, d') ∧ fs_ok d' ∧
    file_bytes d' i = take (Z.to_nat w) data ∧ size (inode_at d' i) = w ∧
    ∀ j, inode_no j → j ≠ i → inode_at d' j = inode_at d j ∧ file_bytes d' j = file_bytes d j ∧
      dir_slots d' j = dir_slots d j.
Proof.
  destruct (sfs_write_run d i data len Hok Hi Hty Hdata Hlen) as (w & d' & Hrun & Hok' & _ & Hsz & Hby & _ & Hsame).
  exists w, d'. split_and!; [done..|]. intros j Hj Hji. pose proof (Hsame j Hj Hji) as Hs.
  split; [apply Hs|]. split; [by apply same_object_bytes|by apply same_object_slots].
Qed.

Lemma sfs_write_isolated_witness :
  ∃ w d', run_disk (sfs_write 1 [1; 2; 3] 3) file_disk = Some (w, d') ∧ fs_ok d' ∧
    file_bytes d' 1 = take (Z.to_nat w) [1; 2; 3] ∧ size (inode_at d' 1) = w ∧
    ∀ j, inode_no j → j ≠ 1 → inode_at d' j = inode_at file_disk j ∧
      file_bytes d' j = file_bytes file_disk j ∧ dir_slots d' j = dir_slots file_disk j.
Proof.
  apply (sfs_write_isolated file_disk 1 [1; 2; 3] 3).
  - exact file_disk_ok.
  - split; reflexivity || discriminate.
  - exact file_disk_type.
  - repeat constructor; discriminate.
  - split; discriminate.
Defined.

(** C11. A successful creation under a name of at most 27 characters can be looked
    up: [sfs_lookup] finds the new inode under that name, an inode that was
    free before and now has the type asked for; a file is empty, a directory
    holds exactly "." and "..", looking up any other name in the parent gives
    what it gave before, and all other objects are as they were. *)
Theorem sfs_create_lookup d dir name ty r d' (Hinv : fs_inv d) (Hno : inode_no dir)
    (Hty : type (inode_at d dir) = SFS_DIR) (Hnul : 0 ∈ name) (Hbytes : Forall is_byte name)
    (Hkind : ty = SFS_FILE ∨ ty = SFS_DIR) (Hshort : (length (cstr name) ≤ 27)%nat)
    (Hrun : run_disk (sfs_create dir name ty) d = Some (r, d')) (Hr : 0 ≤ r) :
  run_disk (sfs_lookup dir name) d' = Some (r, d') ∧
  type (inode_at d r) = SFS_FREE ∧ run_disk (sfs_type r) d' = Some (ty, d') ∧
  (ty = SFS_FILE → file_bytes d' r = []) ∧ (ty = SFS_DIR → dir_slots d' r = dot_slots r dir) ∧
  (∀ other x, 0 ∈ other → cstr other ≠ cstr name → run_disk (sfs_lookup dir other) d = Some (x, d) →
     run_disk (sfs_lookup dir other) d' = Some (x, d')) ∧
  ∀ j, inode_no j → j ≠ r → j ≠ dir → same_object d d' j.
Proof.
  destruct (sfs_create_full d dir name ty Hinv Hno Hty Hnul Hbytes Hkind)
    as [[E _]|(ino & d2 & E & _ & Hf & Hcr & Hadd)]; rewrite E in Hrun; injection Hrun as <- <-; [lia|].
  pose proof Hinv as [Hok _].
  destruct Hcr as [Hok2 Hi Hfree Hity Hdty Hfile Hdots Hframe]. rewrite take_ge in Hadd by done.
  split; [|split_and!].
  - unfold sfs_lookup. rewrite (dir_lookup_run d2 dir Hok2 Hno Hdty name Hnul).
    pose proof (added_find _ _ _ Hadd ltac:(unfold slot_used; cbn; lia) Hf) as E2. cbn [fst snd] in E2.
    rewrite E2. cbn. do 2 f_equal. lia.
  - done.
  - unfold sfs_type. rewrite (run_bind_Some _ _ _ _ _ (read_inode_run d2 ino Hi)), Hity.
    by destruct Hkind as [->| ->].
  - done.
  - done.
  - intros other x H0 Hne. unfold sfs_lookup. rewrite (dir_lookup_run d dir Hok Hno Hty other H0).
    rewrite (dir_lookup_run d2 dir Hok2 Hno Hdty other H0). intros [= <-].
    by rewrite (added_find_other _ _ _ (cstr other) Hadd).
  - done.
Qed.

Lemma sfs_create_lookup_witness :
  run_disk (sfs_lookup SFS_ROOT (lit "log")) file_disk = Some (1, file_disk) ∧
  type (inode_at boot_disk 1) = SFS_FREE ∧ run_disk (sfs_type 1) file_disk = Some (SFS_FILE, file_disk) ∧
  (SFS_FILE = SFS_FILE → file_bytes file_disk 1 = []) ∧
  (SFS_FILE = SFS_DIR → dir_slots file_disk 1 = dot_slots 1 SFS_ROOT) ∧
  (∀ other x, 0 ∈ other → cstr other ≠ cstr (lit "log") →
     run_disk (sfs_lookup SFS_ROOT other) boot_disk = Some (x, boot_disk) →
     run_disk (sfs_lookup SFS_ROOT other) file_disk = Some (x, file_disk)) ∧
  ∀ j, inode_no j → j ≠ 1 → j ≠ SFS_ROOT → same_object boot_disk file_disk j.
Proof.
  apply (sfs_create_lookup boot_disk SFS_ROOT (lit "log") SFS_FILE 1 file_disk).
  - exact (proj2 boot_disk_spec).
  - split; reflexivity || discriminate.
  - exact boot_root.
  - exact (lit_nul "log").
  - exact log_bytes.
  - left. reflexivity.
  - vm_compute. lia.
  - exact file_disk_run.
  - discriminate.
Defined.

(** Creation fails for two reasons only, and then leaves the disk as it was:
    the name exists, or all 64 inodes are in use.  Otherwise it succeeds:
    neither the disk nor a directory ever runs out of room. *)
Theorem sfs_create_fails d dir name ty (Hinv : fs_inv d) (Hno : inode_no dir)
    (Hty : type (inode_at d dir) = SFS_DIR) (Hnul : 0 ∈ name) (Hbytes : Forall is_byte name)
    (Hkind : ty = SFS_FILE ∨ ty = SFS_DIR) :
  ∃ r d', run_disk (sfs_create dir name ty) d = Some (r, d') ∧
    if decide (is_Some (find_name (cstr name) (dir_slots d dir))) then r = -1 ∧ d' = d
    else (r = -1 ∧ d' = d ∧ ∀ i, inode_no i → type (inode_at d i) ≠ SFS_FREE) ∨
         (inode_no r ∧ type (inode_at d r) = SFS_FREE).
Proof.
  destruct (sfs_create_full d dir name ty Hinv Hno Hty Hnul Hbytes Hkind)
    as [[E Hwhy]|(ino & d2 & E & _ & Hf & Hcr & Hadd)].
  - exists (-1), d. split; [done|]. case_decide; [done|]. left. tauto.
  - exists ino, d2. split; [done|]. rewrite Hf, decide_False by (by intros []). right. split; apply Hcr.
Qed.

Lemma sfs_create_fails_witness :
  ∃ r d', run_disk (sfs_create SFS_ROOT (lit "log") SFS_DIR) file_disk = Some (r, d') ∧ r = -1 ∧ d' = file_disk.
Proof.
  destruct (sfs_create_fails file_disk SFS_ROOT (lit "log") SFS_DIR) as (r & d' & H1 & H2).
  - exact file_disk_inv.
  - split; reflexivity || discriminate.
  - apply (ok_root _ file_disk_ok).
  - exact (lit_nul "log").
  - exact log_bytes.
  - right. reflexivity.
  - exists r, d'. split; [exact H1|]. rewrite decide_True in H2; [exact H2|]. exists 1. vm_compute. reflexivity.
Defined.

(** Where the names of a directory are distinct, none is left after its slot
    is cleared. *)
Lemma unique_gone nm pre x post : Forall (λ y, ¬ slot_named nm y) pre → slot_named nm x →
  NoDup (snd <$> filter slot_used (pre ++ x :: post)) → find_name nm (pre ++ (0, x.2) :: post) = None.
Proof.
  intros Hpre Hx Hnd. apply find_name_none, Forall_app. split; [done|]. apply Forall_cons.
  split; [intros [Hu _]; by apply Hu|]. destruct Hx as [Hu Hn].
  rewrite filter_app, fmap_app, filter_cons_True, fmap_cons in Hnd by done.
  apply NoDup_app in Hnd as (_ & _ & Hnd). apply NoDup_cons in Hnd as [Hnin _].
  apply Forall_forall. intros y Hy [Hyu Hyn]. apply Hnin. rewrite Hn, <-Hyn.
  apply list_elem_of_fmap. exists y. split; [done|]. by apply list_elem_of_filter.
Qed.

(** C12. [sfs_unlink] always returns and keeps the invariants.  It refuses "." and
    "..", a name that is not there and a directory that still names something,
    leaving the disk untouched; otherwise the inode the name stood for is
    freed with all its blocks, the name is gone (if names were distinct),
    other names and all other objects stay. *)
Theorem sfs_unlink_effect d dir name (Hinv : fs_inv d) (Hno : inode_no dir)
    (Hty : type (inode_at d dir) = SFS_DIR) (Hnul : 0 ∈ name) :
  ∃ r d', run_disk (sfs_unlink dir name) d = Some (r, d') ∧ fs_inv d' ∧
  ((r = -1 ∧ d' = d ∧ (cstr name = dot ∨ cstr name = dotdot ∨
      find_name (cstr name) (dir_slots d dir) = None ∨
      ∃ ino, find_name (cstr name) (dir_slots d dir) = Some ino ∧ targets d ino ≠ [])) ∨
   (r = 0 ∧ ∃ ino, run_disk (sfs_lookup dir name) d = Some (ino, d) ∧ inode_no ino ∧
      targets d ino = [] ∧ type (inode_at d' ino) = SFS_FREE ∧ (∀ b, owned_by d ino b → bit d' (b - DATA_START) = false) ∧
      (NoDup (snd <$> entries d dir) → run_disk (sfs_lookup dir name) d' = Some (-1, d')) ∧
      (∀ other x, 0 ∈ other → cstr other ≠ cstr name → run_disk (sfs_lookup dir other) d = Some (x, d) →
         run_disk (sfs_lookup dir other) d' = Some (x, d')) ∧
      ∀ j, inode_no j → j ≠ ino → j ≠ dir → same_object d d' j)).
Proof.
  pose proof Hinv as [Hok _].
  assert (∀ i, inode_no i → not_empty d i = bool_decide (targets d i ≠ [])) as Hfull.
  { intros i Hi. by apply not_empty_targets; [apply Hinv|]. }
  destruct (sfs_unlink_run d dir name Hinv Hno Hty Hnul) as [[E Hwhy]|(ino & pre & x & post & d' & E & Hf & Hemp
    & Hi & Hne & Hsl & Hpre & Hx & Hsl' & Hinv' & Hz & Hty' & Hframe)].
  { exists (-1), d. split_and!; [done..|]. left. split_and!; [done..|].
    destruct Hwhy as [?|[?|[?|(ino & Hf & He)]]]; [tauto..|]. do 3 right. exists ino. split; [done|].
    rewrite Hfull in He by (by apply (find_name_no d dir name)). by apply bool_decide_eq_true in He. }
  pose proof Hinv' as [Hok' _]. rewrite Hfull in Hemp by done. apply bool_decide_eq_false in Hemp.
  assert (type (inode_at d' dir) = SFS_DIR) as Hdty by (by rewrite Hty').
  exists 0, d'. split_and!; [done..|]. right. split; [done|]. exists ino. split_and!.
  - unfold sfs_lookup. by rewrite (dir_lookup_run d dir Hok Hno Hty name Hnul), Hf.
  - done.
  - by apply dec_stable.
  - by rewrite Hz.
  - intros b Hb. apply not_true_is_false. rewrite (ok_bits d' Hok' b (owned_blk d ino b Hok Hi Hb)).
    intros (j & Hj & Ho). unfold owned_by in *. destruct (decide (j = ino)) as [->|Hji].
    + rewrite Hz in Ho. cbn in Ho. set_solver.
    + apply Hji. eapply (ok_excl d Hok j ino b Hj Hi); [|done]. unfold owned_by.
      destruct (decide (j = dir)) as [->|Hjd]; [by rewrite <-Hty'|]. by rewrite <-(proj1 (Hframe j Hj Hji Hjd)).
  - unfold entries. rewrite Hsl. intros Hnd. unfold sfs_lookup.
    rewrite (dir_lookup_run d' dir Hok' Hno Hdty name Hnul), Hsl'. by rewrite (unique_gone (cstr name)).
  - intros other y H0 Hno'. unfold sfs_lookup. rewrite (dir_lookup_run d dir Hok Hno Hty other H0).
    rewrite (dir_lookup_run d' dir Hok' Hno Hdty other H0), Hsl, Hsl'. intros [= <-]. do 3 f_equal.
    apply find_name_other; intros [H1 H2]; [done|]. destruct Hx as [_ Hx]. congruence.
  - done.
Qed.

Lemma sfs_unlink_effect_witness :
  ∃ r d', run_disk (sfs_unlink SFS_ROOT (lit "log")) file_disk = Some (r, d') ∧ fs_inv d'.
Proof.
  destruct (sfs_unlink_effect file_disk SFS_ROOT (lit "log")) as (r & d' & Hrun & Hok & _).
  - exact file_disk_inv.
  - split; reflexivity || discriminate.
  - apply (ok_root _ file_disk_ok).
  - exact (lit_nul "log").
  - exists r, d'. split; [exact Hrun|exact Hok].
Defined.

(** [sfs_readdir] enumerates: index [k] gives the inode number and the name of
    the [k]-th used entry, in slot order, and an index past the last entry
    gives -1; the disk is not changed. *)
Theorem sfs_readdir_enumerates d dir index (Hok : fs_ok d) (Hno : inode_no dir)
    (Hty : type (inode_at d dir) = SFS_DIR) (Hindex : 0 ≤ index) :
  run_disk (sfs_readdir dir index 28) d =
    Some (match entries d dir !! Z.to_nat index with
          | Some x => (x.1 - 1, x.2 ++ [0])
          | None => (-1, [])
          end, d).
Proof.
  rewrite (sfs_readdir_run d dir Hok Hno Hty index 28 Hindex ltac:(lia)).
  by destruct (entries d dir !! Z.to_nat index).
Qed.

Lemma sfs_readdir_enumerates_witness :
  run_disk (sfs_readdir SFS_ROOT 2 28) file_disk =
    Some (match entries file_disk SFS_ROOT !! Z.to_nat 2 with
          | Some x => (x.1 - 1, x.2 ++ [0])
          | None => (-1, [])
          end, file_disk).
Proof.
  apply (sfs_readdir_enumerates file_disk SFS_ROOT 2).
  - exact file_disk_ok.
  - split; reflexivity || discriminate.
  - apply (ok_root _ file_disk_ok).
  - discriminate.
Defined.

(** Mounting: [sfs_init] formats a disk without the magic number, after which
    the root directory holds exactly "." and ".." and every other inode is
    free, and leaves a disk with the magic number as it is; mounting again
    changes nothing. *)
Theorem sfs_mount d (Hwf : disk_wf d) :
  ∃ d', run_disk sfs_init d = Some (tt, d') ∧ run_disk sfs_init d' = Some (tt, d') ∧
    (ld32 (sector d 0) 0 = SFS_MAGIC → d' = d) ∧
    (ld32 (sector d 0) 0 ≠ SFS_MAGIC → fs_inv d' ∧
       dir_slots d' SFS_ROOT = dot_slots SFS_ROOT SFS_ROOT ∧
       ∀ i, inode_no i → i ≠ SFS_ROOT → type (inode_at d' i) = SFS_FREE).
Proof.
  rewrite sfs_init_run by done. case_decide as E.
  - exists d. split_and!; [done| |done|done]. by rewrite sfs_init_run, decide_True.
  - destruct (format_run d Hwf) as (d' & Hrun & Hok & Hdots & Hfree).
    exists d'. split_and!; [done| |done|].
    + rewrite sfs_init_run, decide_True by apply Hok. done.
    + intros _. split_and!; [by apply format_inv|done|done].
Qed.

Lemma sfs_mount_witness : ∃ d', run_disk sfs_init ∅ = Some (tt, d') ∧ run_disk sfs_init d' = Some (tt, d').
Proof.
  destruct (sfs_mount ∅) as (d' & H1 & H2 & _).
  - exact disk_wf_empty.
  - exists d'. split; [exact H1|exact H2].
Defined.

(** Names in a directory have at most 27 characters. *)
Lemma slot_name_short d dir x : fs_ok d → inode_no dir → type (inode_at d dir) = SFS_DIR →
  x ∈ dir_slots d dir → (length x.2 ≤ 27)%nat.
Proof.
  intros Hok Hno Hty Hx. unfold dir_slots in Hx. apply list_elem_of_bind in Hx as (b & Hx & Hb).
  apply list_elem_of_fmap in Hx as (e & -> & He). apply elem_of_seqZ in He.
  destruct (dir_blk d dir Hok Hno Hty b Hb) as (Hdb & _). destruct (Hdb e) as [H0 _]; [lia|].
  unfold slice in H0. apply cstr_short in H0. cbn. unfold de_name. lia.
Qed.

(** C39. A name longer than 27 characters is stored cut off, so it is never found
    again: right after a creation that succeeded under such a name, a lookup of
    the same name fails, and a second creation does not see that the name was
    taken. *)
Theorem sfs_long_name_lost d dir name ty r d' (Hinv : fs_inv d) (Hno : inode_no dir)
    (Hty : type (inode_at d dir) = SFS_DIR) (Hnul : 0 ∈ name) (Hbytes : Forall is_byte name)
    (Hkind : ty = SFS_FILE ∨ ty = SFS_DIR) (Hlong : (27 < length (cstr name))%nat)
    (Hrun : run_disk (sfs_create dir name ty) d = Some (r, d')) :
  run_disk (sfs_lookup dir name) d' = Some (-1, d') ∧
  ∀ i, inode_no i → type (inode_at d' i) = SFS_FREE →
    ∃ r2 d2, run_disk (sfs_create dir name ty) d' = Some (r2, d2) ∧ 0 ≤ r2.
Proof.
  assert (fs_inv d' ∧ type (inode_at d' dir) = SFS_DIR) as [Hinv' Hty'].
  { destruct (sfs_create_full d dir name ty Hinv Hno Hty Hnul Hbytes Hkind)
      as [[E _]|(ino & d2 & E & Hinv2 & _ & Hcr & _)]; rewrite E in Hrun; injection Hrun as <- <-; [done|].
    split; [done|apply Hcr]. }
  pose proof Hinv' as [Hok' _].
  assert (find_name (cstr name) (dir_slots d' dir) = None) as Hf.
  { apply find_name_none, Forall_forall. intros x Hx [_ E].
    pose proof (slot_name_short d' dir x Hok' Hno Hty' Hx). rewrite E in *. lia. }
  split; [unfold sfs_lookup; by rewrite (dir_lookup_run d' dir Hok' Hno Hty' name Hnul), Hf|].
  intros i Hi Hfree. destruct (sfs_create_full d' dir name ty Hinv' Hno Hty' Hnul Hbytes Hkind)
    as [[_ [[? E]|Hall]]|(ino & d2 & E & _ & _ & Hcr & _)].
  - by rewrite Hf in E.
  - by destruct (Hall i Hi).
  - exists ino, d2. split; [done|]. apply Hcr.
Qed.

Definition long_name : list Z := replicate 30 120 ++ [0].
Definition long_disk : disk := after (sfs_create SFS_ROOT long_name SFS_FILE) boot_disk.

Lemma long_disk_run : run_disk (sfs_create SFS_ROOT long_name SFS_FILE) boot_disk = Some (1, long_disk).
Proof. vm_compute. reflexivity. Qed.

Lemma sfs_long_name_lost_witness :
  run_disk (sfs_lookup SFS_ROOT long_name) long_disk = Some (-1, long_disk) ∧
  ∀ i, inode_no i → type (inode_at long_disk i) = SFS_FREE →
    ∃ r2 d2, run_disk (sfs_create SFS_ROOT long_name SFS_FILE) long_disk = Some (r2, d2) ∧ 0 ≤ r2.
Proof.
  apply (sfs_long_name_lost boot_disk SFS_ROOT long_name SFS_FILE 1 long_disk).
  - exact (proj2 boot_disk_spec).
  - split; reflexivity || discriminate.
  - exact boot_root.
  - unfold long_name. set_solver.
  - unfold long_name, is_byte. repeat constructor; lia.
  - left. reflexivity.
  - vm_compute. lia.
  - exact long_disk_run.
Defined.
