(* ===== verification/Devices.v ===== *)
(** * The devices behind the ports, as their documentation describes them

    The serial port (16550), the cursor registers of the display controller,
    the two interrupt controllers (8259) and the interval timer (8253).  This
    is not code of the repository: [pc_outb] is what the drivers rely on, and
    [PcPorts] is the interface of a machine whose ports behave that way.  What
    a device answers on input is left open except where a driver needs more.
    The disk has its own interface, [AtaDevice]. *)

From S2P Require Import Prelude Ports.

(** The serial line: the divisor latch bit and the bytes sent so far. *)
Record uart := Uart { dlab : bool; sent : list Z }.

(** Display controller: the selected register and the 16-bit cursor. *)
Record crtc := Crtc { crtc_index : Z; crtc_cursor : Z }.

(** An interrupt controller: the next initialisation word it expects (0 when
    it is in operation), the vector of its first line, its cascade and mode
    words, its mask, and how many end-of-interrupt commands it has seen. *)
Record pic := Pic { icw : Z; vbase : Z; cascade : Z; mode : Z; mask : Z; eois : Z }.

(** Channel 0 of the timer: its mode, the low byte already received, and the
    reload value. *)
Record pit := Pit { pit_mode : Z; pit_low : option Z; reload : Z }.

Record pc := Pc { com1 : uart; vga_ctl : crtc; pic1 : pic; pic2 : pic; timer0 : pit }.

Definition uart_out (u : uart) (reg v : Z) : uart :=
  if reg =? 3 then Uart (Z.testbit v 7) (sent u)
  else if (reg =? 0) && negb (dlab u) then Uart (dlab u) (sent u ++ [v])
  else u.

Definition crtc_data (k : crtc) (v : Z) : crtc :=
  if crtc_index k =? 14 then Crtc (crtc_index k) (v * 256 + crtc_cursor k `mod` 256)
  else if crtc_index k =? 15 then Crtc (crtc_index k) (crtc_cursor k / 256 * 256 + v)
  else k.

(** The command port: bit 4 starts the initialisation sequence; 0x20 ends the
    interrupt in service. *)
Definition pic_command (p : pic) (v : Z) : pic :=
  if Z.testbit v 4 then Pic 2 (vbase p) (cascade p) (mode p) 0 (eois p)
  else if v =? 32 then Pic (icw p) (vbase p) (cascade p) (mode p) (mask p) (eois p + 1)
  else p.

(** The data port: the initialisation words in order, then the mask. *)
Definition pic_data (p : pic) (v : Z) : pic :=
  if icw p =? 2 then Pic 3 (Z.land v 248) (cascade p) (mode p) (mask p) (eois p)
  else if icw p =? 3 then Pic 4 (vbase p) v (mode p) (mask p) (eois p)
  else if icw p =? 4 then Pic 0 (vbase p) (cascade p) v (mask p) (eois p)
  else Pic 0 (vbase p) (cascade p) (mode p) v (eois p).

Definition pit_command (t : pit) (v : Z) : pit :=
  if Z.shiftr v 6 =? 0 then Pit (Z.land (Z.shiftr v 1) 7) None (reload t) else t.
Definition pit_data (t : pit) (v : Z) : pit :=
  match pit_low t with
  | None => Pit (pit_mode t) (Some v) (reload t)
  | Some lo => Pit (pit_mode t) None (lo + 256 * v)
  end.

Definition pc_outb (d : pc) (port v : Z) : pc :=
  let '(Pc u k p1 p2 t) := d in
  if (1016 <=? port) && (port <? 1024) then Pc (uart_out u (port - 1016) v) k p1 p2 t
  else if port =? 980 then Pc u (Crtc v (crtc_cursor k)) p1 p2 t
  else if port =? 981 then Pc u (crtc_data k v) p1 p2 t
  else if port =? 32 then Pc u k (pic_command p1 v) p2 t
  else if port =? 33 then Pc u k (pic_data p1 v) p2 t
  else if port =? 160 then Pc u k p1 (pic_command p2 v) t
  else if port =? 161 then Pc u k p1 (pic_data p2 v) t
  else if port =? 67 then Pc u k p1 p2 (pit_command t v)
  else if port =? 64 then Pc u k p1 p2 (pit_data t v)
  else d.

(** Port instructions never fail; output acts on the devices as above, input
    yields some byte and leaves the output side of the devices as it is. *)
Class PcPorts (H : Type) `{Ports H} := {
  pc_of : H → pc;
  pc_outb_spec : ∀ h p v, ∃ h', outb p v h = Some (tt, h') ∧ pc_of h' = pc_outb (pc_of h) p v;
  pc_inb_spec : ∀ h p, ∃ b h', inb p h = Some (b, h') ∧ is_byte b ∧ pc_of h' = pc_of h;
}.

(** A sequence of outputs. *)
Lemma outbs_run {H} `{PcPorts H} l h :
  ∃ h', outbs l h = Some (tt, h') ∧ pc_of h' = foldl (λ d pv, pc_outb d pv.1 pv.2) (pc_of h) l.
Proof.
  revert h. induction l as [|[p v] l IH]; intros h; [by exists h|].
  cbn [outbs]. destruct (pc_outb_spec h p v) as (h1 & E1 & D1). mrun.
  destruct (IH h1) as (h2 & E2 & D2). exists h2. split; [done|]. by rewrite D2, D1.
Qed.

(** ** A concrete machine

    The devices, and the scan codes waiting at port 0x60; every other port
    reads 0, so the serial transmitter never reports empty. *)

Record sim_pc := SimPc { sim_dev : pc; script : list Z }.

Definition sim_inb (p : Z) : M sim_pc Z := λ h,
  if p =? 96 then
    match script h with
    | [] => Some (0, h)
    | b :: l => Some (u8 b, SimPc (sim_dev h) l)
    end
  else Some (0, h).

#[export] Instance sim_pc_ports : Ports sim_pc := {|
  inb := sim_inb;
  outb := λ p v h, Some (tt, SimPc (pc_outb (sim_dev h) p v) (script h));
  inw := sim_inb;
  outw := λ p v h, Some (tt, h);
|}.

#[export] Instance sim_pc_spec : PcPorts sim_pc.
Proof.
  refine {| pc_of := sim_dev |}.
  - intros [d s] p v. eexists. split; reflexivity.
  - intros [d l] p. simpl. unfold sim_inb. simpl. destruct (p =? 96); [destruct l as [|b l]|];
      do 2 eexists; (split; [reflexivity|]); simpl; split; try done; apply u8_byte.
Defined.

(** The machine as the firmware leaves it, as far as it matters. *)
Definition pc_reset : pc :=
  Pc (Uart false []) (Crtc 0 0) (Pic 0 8 0 0 255 0) (Pic 0 112 0 0 255 0) (Pit 3 None 0).
