(* ===== verification/Serial.v ===== *)
(** * The serial port (drivers/serial.c, drivers/serial.h)

    The driver over the interface [Ports], and what it sends on the line. *)

From S2P Require Import Prelude Ports Devices CString.

Definition COM1 : Z := 1016.
Definition TX_SPIN : nat := Z.to_nat 100000.

Section driver.
Context {HW : Type} {PW : Ports HW}.
#[local] Opaque TX_SPIN.

Definition serial_init : M HW unit :=
  outbs [(COM1 + 1, 0); (COM1 + 3, 128); (COM1 + 0, 3); (COM1 + 1, 0);
         (COM1 + 3, 3); (COM1 + 2, 199); (COM1 + 4, 11)].

Definition tx_empty : M HW Z := b ← inb (COM1 + 5); mret (Z.land b 32).

(** [while (!tx_empty() && spin-- > 0) ;] *)
Fixpoint tx_wait (spin : nat) : M HW unit :=
  e ← tx_empty;
  if truth e then mret tt
  else match spin with O => mret tt | S spin' => tx_wait spin' end.

Definition serial_putc (c : Z) : M HW unit := _ ← tx_wait TX_SPIN; outb COM1 (u8 c).

(** The loop over the characters up to the terminator; reading past the end of [s] faults. *)
Fixpoint serial_print (s : list Z) : M HW unit :=
  match s with
  | [] => fault
  | c :: s' => if truth c then _ ← serial_putc c; serial_print s' else mret tt
  end.

(** ** What reaches the line *)

Context {PC : PcPorts HW}.

(** The line is set up for data: the divisor latch is closed. *)
Definition serial_ready (h : HW) : Prop := dlab (com1 (pc_of h)) = false.

Definition send (d : pc) (bs : list Z) : pc :=
  Pc (Uart (dlab (com1 d)) (sent (com1 d) ++ bs)) (vga_ctl d) (pic1 d) (pic2 d) (timer0 d).

Lemma send_app d xs ys : send (send d xs) ys = send d (xs ++ ys).
Proof. unfold send. simpl. by rewrite app_assoc. Qed.
Lemma send_nil d : send d [] = d.
Proof. destruct d as [[] ? ? ? ?]. unfold send. simpl. by rewrite app_nil_r. Qed.

Lemma tx_wait_run n h : ∃ h', tx_wait n h = Some (tt, h') ∧ pc_of h' = pc_of h.
Proof.
  revert h. induction n as [|n IH]; intros h; cbn [tx_wait];
    destruct (pc_inb_spec h (COM1 + 5)) as (b & h1 & E & _ & D);
    unfold tx_empty; mrun; rewrite <-D; case_match; eauto.
Qed.

Lemma serial_putc_run h c : is_byte c → serial_ready h →
  ∃ h', serial_putc c h = Some (tt, h') ∧ pc_of h' = send (pc_of h) [c].
Proof.
  intros Hc Hr. unfold serial_putc, serial_ready in *.
  destruct (tx_wait_run TX_SPIN h) as (h1 & E1 & D1). rewrite (M_bind_run _ _ _ _ _ E1).
  destruct (pc_outb_spec h1 COM1 (u8 c)) as (h2 & E2 & D2). exists h2. split; [done|].
  rewrite D2, D1. destruct (pc_of h) as [[dl st] k p1 p2 t]. simpl in *. subst.
  unfold send. simpl. by rewrite u8_small.
Qed.

Lemma serial_init_run h : ∃ h', serial_init h = Some (tt, h') ∧ serial_ready h' ∧
  pc_of h' = Pc (Uart false (sent (com1 (pc_of h)))) (vga_ctl (pc_of h)) (pic1 (pc_of h)) (pic2 (pc_of h)) (timer0 (pc_of h)).
Proof.
  destruct (outbs_run [(COM1 + 1, 0); (COM1 + 3, 128); (COM1 + 0, 3); (COM1 + 1, 0);
         (COM1 + 3, 3); (COM1 + 2, 199); (COM1 + 4, 11)] h) as (h' & E & D).
  exists h'. split; [done|]. unfold serial_ready. rewrite D.
  by destruct (pc_of h) as [[dl st] k p1 p2 t].
Qed.
End driver.

(** ** Properties *)

(** Whatever the status register answers, even if the transmitter never
    reports empty, printing a string after [serial_init] ends, and exactly
    its bytes, in order, are written to the line. *)
Theorem serial_print_sends {HW} {PW : Ports HW} {PC : PcPorts HW} (h : HW) s rest
    (Hs : Forall (λ c, 0 < c < 256) s) :
  ∃ h', (_ ← serial_init; serial_print (s ++ 0 :: rest)) h = Some (tt, h') ∧
        sent (com1 (pc_of h')) = sent (com1 (pc_of h)) ++ s.
Proof.
  destruct (serial_init_run h) as (h0 & E0 & R0 & D0). mrun.
  replace (sent (com1 (pc_of h))) with (sent (com1 (pc_of h0))) by (by rewrite D0).
  clear E0 D0. revert h0 R0. induction Hs as [|c s Hc Hs IH]; intros h0 R0; simpl.
  - exists h0. by rewrite app_nil_r.
  - destruct (serial_putc_run h0 c) as (h1 & E1 & D1); [split; lia|done|].
    assert (truth c = true) as -> by (apply truth_true; lia). mrun.
    destruct (IH h1) as (h2 & E2 & D2); [unfold serial_ready in *; by rewrite D1|].
    exists h2. split; [done|]. rewrite D2, D1. simpl. by rewrite <-app_assoc.
Qed.

(** With a transmitter that is never empty. *)
Lemma serial_print_sends_witness :
  ∃ h', (_ ← serial_init; serial_print ([104; 105] ++ 0 :: [])) (SimPc pc_reset []) = Some (tt, h') ∧
        sent (com1 (sim_dev h')) = [104; 105].
Proof.
  apply (@serial_print_sends _ sim_pc_ports sim_pc_spec (SimPc pc_reset []) [104; 105] []). repeat constructor.
Defined.
