(* ===== verification/Screen.v ===== *)
(** * The text console (drivers/screen.c, drivers/screen.h)

    State: the video memory as its 2000 cells, the current colour and the
    cursor, beside the state of the machine behind the ports.  A store outside
    the 80 x 25 page faults.  [tty] is the specification: a terminal with one
    linear position, whose text moves up a line when the position runs off the
    end; the driver refines it, and mirrors what it prints to the serial line
    and its cursor to the display controller. *)

From S2P Require Import Prelude Ports Devices CString Serial.

Definition VGA_COLS : Z := 80.
Definition VGA_ROWS : Z := 25.
Definition CRTC_INDEX : Z := 980.
Definition CRTC_DATA : Z := 981.

Definition VGA_BLACK : Z := 0.
Definition VGA_RED : Z := 4.
Definition VGA_LIGHT_GREY : Z := 7.
Definition VGA_LIGHT_BLUE : Z := 9.
Definition VGA_LIGHT_GREEN : Z := 10.
Definition VGA_LIGHT_CYAN : Z := 11.
Definition VGA_WHITE : Z := 15.
Definition VGA_COLOR (fg bg : Z) : Z := u8 (Z.lor (Z.shiftl bg 4) fg).

Record screen := Screen { vga : list Z; cur_color : Z; cursor_row : Z; cursor_col : Z }.

(** A character is the byte that holds it; [(u16)c] of a signed [char]
    extends its sign. *)
Definition cell (color c : Z) : Z := u16 (Z.lor (u16 (i8_of c)) (Z.shiftl color 8)).

Section driver.
Context {HW : Type} {PW : Ports HW}.
Abbreviation console := (HW * screen)%type.

Definition hw {A} (c : M HW A) : M console A := zoom fst_lens c.
Definition get_scr {A} (f : screen → A) : M console A := gets (λ s, f s.2).
Definition set_scr (f : screen → screen) : M console unit := modify (λ s, (s.1, f s.2)).

(** [vga[i] = v] *)
Definition vga_store (i v : Z) : M console unit := λ s,
  if (0 <=? i) && (i <? Z.of_nat (length (vga s.2)))
  then Some (tt, (s.1, Screen (<[Z.to_nat i := v]> (vga s.2)) (cur_color s.2) (cursor_row s.2) (cursor_col s.2)))
  else None.
Definition vga_load (i : Z) : M console Z := λ s,
  if 0 <=? i then (λ v, (v, s)) <$> (vga s.2 !! Z.to_nat i) else None.
Definition set_row (r : Z) : M console unit :=
  set_scr (λ s, Screen (vga s) (cur_color s) r (cursor_col s)).
Definition set_col (c : Z) : M console unit :=
  set_scr (λ s, Screen (vga s) (cur_color s) (cursor_row s) c).

(** [vga[i] = cell(c)] *)
Definition put_cell (i c : Z) : M console unit :=
  color ← get_scr cur_color; vga_store i (cell color c).

Definition move_cursor : M console unit :=
  row ← get_scr cursor_row;
  col ← get_scr cursor_col;
  let pos := u16 (row * VGA_COLS + col) in
  hw (outbs [(CRTC_INDEX, 14); (CRTC_DATA, u8 (Z.shiftr pos 8));
             (CRTC_INDEX, 15); (CRTC_DATA, u8 (Z.land pos 255))]).

(** [for (i = 0; i < n; i++) body(i)] *)
Fixpoint for_up (n : nat) (i : Z) (body : Z → M console unit) : M console unit :=
  match n with O => mret tt | S n' => _ ← body i; for_up n' (i + 1) body end.

Definition scroll_if_needed : M console unit :=
  row ← get_scr cursor_row;
  if row <? VGA_ROWS then mret tt
  else
    _ ← for_up (Z.to_nat (VGA_ROWS - 1)) 1 (λ r,
          for_up (Z.to_nat VGA_COLS) 0 (λ c,
            v ← vga_load (r * VGA_COLS + c); vga_store ((r - 1) * VGA_COLS + c) v));
    _ ← for_up (Z.to_nat VGA_COLS) 0 (λ c, put_cell ((VGA_ROWS - 1) * VGA_COLS + c) 32);
    set_row (VGA_ROWS - 1).

Definition set_color (color : Z) : M console unit :=
  set_scr (λ s, Screen (vga s) color (cursor_row s) (cursor_col s)).

Definition clear_screen : M console unit :=
  _ ← for_up (Z.to_nat (VGA_COLS * VGA_ROWS)) 0 (λ i, put_cell i 32);
  _ ← set_row 0;
  _ ← set_col 0;
  move_cursor.

Definition screen_init : M console unit := _ ← hw serial_init; clear_screen.

(** The part of [kputc] that depends on the character. *)
Definition put_char (c : Z) : M console unit :=
  row ← get_scr cursor_row;
  col ← get_scr cursor_col;
  if c =? 10 then _ ← set_col 0; set_row (row + 1)
  else if c =? 13 then set_col 0
  else if c =? 9 then set_col (Z.land (col + 4) (Z.lnot 3))
  else if c =? 8 then
    if 0 <? col then _ ← set_col (col - 1); put_cell (row * VGA_COLS + (col - 1)) 32
    else mret tt
  else _ ← put_cell (row * VGA_COLS + col) c; set_col (col + 1).

Definition kputc (c : Z) : M console unit :=
  _ ← hw (serial_putc c);
  _ ← put_char c;
  col ← get_scr cursor_col;
  row ← get_scr cursor_row;
  _ ← (if VGA_COLS <=? col then _ ← set_col 0; set_row (row + 1) else mret tt);
  _ ← scroll_if_needed;
  move_cursor.

(** The loop over the characters up to the terminator. *)
Fixpoint kprint (s : list Z) : M console unit :=
  match s with
  | [] => fault
  | c :: s' => if truth c then _ ← kputc c; kprint s' else mret tt
  end.

Definition kprint_color (s : list Z) (color : Z) : M console unit :=
  saved ← get_scr cur_color;
  _ ← set_color color;
  _ ← kprint s;
  set_color saved.

Definition kprint_dec (value : Z) : M console unit := s ← lift (itoa value); kprint s.

Definition kprint_hex (value : Z) : M console unit :=
  _ ← kprint (lit "0x"); s ← lift (utoa value 16); kprint s.
End driver.

Abbreviation console HW := (HW * screen)%type.

(** ** The specification: a terminal with a linear position *)

Definition CELLS : Z := 2000.
Record tty := Tty { cells : list Z; pos : Z }.

(** One character, in colour [color]: where it writes and where it goes on. *)
Definition tty_write (color c : Z) (t : tty) : tty :=
  if c =? 10 then Tty (cells t) ((pos t / 80 + 1) * 80)
  else if c =? 13 then Tty (cells t) (pos t / 80 * 80)
  else if c =? 9 then Tty (cells t) ((pos t / 4 + 1) * 4)
  else if c =? 8 then
    if 0 <? pos t `mod` 80 then Tty (<[Z.to_nat (pos t - 1) := cell color 32]> (cells t)) (pos t - 1) else t
  else Tty (<[Z.to_nat (pos t) := cell color c]> (cells t)) (pos t + 1).

(** Off the end, the text moves up one line. *)
Definition tty_scroll (color : Z) (t : tty) : tty :=
  if pos t <? CELLS then t
  else Tty (drop 80 (cells t) ++ replicate 80 (cell color 32)) (pos t - 80).

Definition tty_putc (color : Z) (t : tty) (c : Z) : tty := tty_scroll color (tty_write color c t).

Definition tty_of (s : screen) : tty := Tty (vga s) (cursor_row s * 80 + cursor_col s).

Definition screen_ok (s : screen) : Prop :=
  length (vga s) = Z.to_nat CELLS ∧ 0 ≤ cursor_row s < 25 ∧ 0 ≤ cursor_col s < 80.

(** ** Block moves in the video memory *)

(** The first [k] cells have been replaced by those a line further on. *)
Definition shifted (v : list Z) (k : Z) : list Z := take (Z.to_nat k) (drop 80 v) ++ drop (Z.to_nat k) v.
(** The [k] cells from [a] have been overwritten with [x]. *)
Definition filled (v : list Z) (x a k : Z) : list Z :=
  take (Z.to_nat a) v ++ replicate (Z.to_nat k) x ++ drop (Z.to_nat (a + k)) v.

Lemma insert_mid {A} (l1 l2 : list A) x y n : n = length l1 → <[n := x]> (l1 ++ y :: l2) = (l1 ++ [x]) ++ l2.
Proof. intros ->. rewrite insert_app_r_alt, Nat.sub_diag by lia. by rewrite <-app_assoc. Qed.

Lemma shifted_step v k x : 0 ≤ k → k + 80 < Z.of_nat (length v) → v !! Z.to_nat (k + 80) = Some x →
  shifted v k !! Z.to_nat (k + 80) = Some x ∧ <[Z.to_nat k := x]> (shifted v k) = shifted v (k + 1).
Proof.
  intros Hk Hlen Hx. unfold shifted.
  assert (length (take (Z.to_nat k) (drop 80 v)) = Z.to_nat k) as Hl.
  { rewrite length_take, length_drop. lia. }
  split.
  - rewrite lookup_app_r, Hl, lookup_drop by lia. rewrite <-Hx. f_equal. lia.
  - destruct (lookup_lt_is_Some_2 v (Z.to_nat k)) as [y Hy]; [lia|].
    rewrite (drop_S _ _ _ Hy), (insert_mid _ _ _ _ _ (eq_sym Hl)).
    replace (Z.to_nat (k + 1)) with (S (Z.to_nat k)) by lia. f_equal.
    symmetry. apply take_S_r. rewrite lookup_drop, <-Hx. f_equal. lia.
Qed.

Lemma filled_step v x a k : 0 ≤ a → 0 ≤ k → a + k < Z.of_nat (length v) →
  <[Z.to_nat (a + k) := x]> (filled v x a k) = filled v x a (k + 1).
Proof.
  intros Ha Hk Hlen. unfold filled.
  destruct (lookup_lt_is_Some_2 v (Z.to_nat (a + k))) as [y Hy]; [lia|].
  rewrite (drop_S _ _ _ Hy), app_assoc, insert_mid.
  - replace (Z.to_nat (k + 1)) with (Z.to_nat k + 1)%nat by lia.
    replace (Z.to_nat (a + (k + 1))) with (S (Z.to_nat (a + k))) by lia.
    by rewrite replicate_add, <-!app_assoc.
  - rewrite length_app, length_take, length_replicate. lia.
Qed.

Lemma length_shifted v k : 0 ≤ k → k + 80 ≤ Z.of_nat (length v) → length (shifted v k) = length v.
Proof. intros. unfold shifted. rewrite length_app, length_take, !length_drop. lia. Qed.
Lemma length_filled v x a k : 0 ≤ a → 0 ≤ k → a + k ≤ Z.of_nat (length v) → length (filled v x a k) = length v.
Proof. intros. unfold filled. rewrite !length_app, length_take, length_replicate, length_drop. lia. Qed.
Lemma filled_0 v x a : filled v x a 0 = v.
Proof. unfold filled. rewrite Z.add_0_r. apply take_drop. Qed.
Lemma shifted_0 v : shifted v 0 = v.
Proof. unfold shifted. simpl. by rewrite drop_0. Qed.

(** Moving a full page up and blanking its last line. *)
Lemma scrolled v x : length v = Z.to_nat CELLS →
  filled (shifted v 1920) x 1920 80 = drop 80 v ++ replicate 80 x.
Proof.
  intros Hv. unfold filled, shifted.
  assert (length (drop 80 v) = Z.to_nat 1920) as Hl by (rewrite length_drop, Hv; reflexivity).
  rewrite (take_ge (drop 80 v)) by lia. rewrite take_app_length' by done.
  rewrite (drop_ge (_ ++ _)); [by rewrite app_nil_r|].
  rewrite length_app, Hl, length_drop, Hv. unfold CELLS. lia.
Qed.

Section refinement.
Context {HW : Type} {PW : Ports HW} {PC : PcPorts HW}.
Implicit Types (h : HW) (s : screen) (t : console HW).

Lemma for_up_run (f : Z → console HW) body n i :
  (∀ j, i ≤ j < i + Z.of_nat n → body j (f j) = Some (tt, f (j + 1))) →
  for_up n i body (f i) = Some (tt, f (i + Z.of_nat n)).
Proof.
  revert i. induction n as [|n IH]; intros i Hb; cbn [for_up]; [by rewrite Z.add_0_r|].
  rewrite (M_bind_run _ _ _ _ _ (Hb i ltac:(lia))), IH by (intros; apply Hb; lia).
  do 3 f_equal. lia.
Qed.

Lemma vga_store_run h v col r c i x : 0 ≤ i < Z.of_nat (length v) →
  vga_store i x (h, Screen v col r c) = Some (tt, (h, Screen (<[Z.to_nat i := x]> v) col r c)).
Proof.
  intros Hi. unfold vga_store. cbn [vga snd].
  destruct (Z.leb_spec 0 i), (Z.ltb_spec i (Z.of_nat (length v))); try lia. done.
Qed.

Lemma fill_run h v col r c a n : 0 ≤ a → a + Z.of_nat n ≤ Z.of_nat (length v) →
  for_up n 0 (λ k, put_cell (a + k) 32) (h, Screen v col r c)
  = Some (tt, (h, Screen (filled v (cell col 32) a (Z.of_nat n)) col r c)).
Proof.
  intros Ha Hn.
  rewrite <-(filled_0 v (cell col 32) a) at 1.
  rewrite (for_up_run (λ k, (h, Screen (filled v (cell col 32) a k) col r c))); [done|].
  intros k Hk. unfold put_cell, get_scr. rewrite bind_gets. cbn [snd cur_color].
  rewrite vga_store_run, filled_step by (rewrite ?length_filled; lia). done.
Qed.

Lemma shift_run h v col r0 c0 : length v = Z.to_nat CELLS →
  for_up (Z.to_nat (VGA_ROWS - 1)) 1 (λ r,
    for_up (Z.to_nat VGA_COLS) 0 (λ c,
      v ← vga_load (r * VGA_COLS + c); vga_store ((r - 1) * VGA_COLS + c) v)) (h, Screen v col r0 c0)
  = Some (tt, (h, Screen (shifted v 1920) col r0 c0)).
Proof.
  intros Hv. assert (Z.of_nat (length v) = 2000) as HL by (rewrite Hv; reflexivity).
  rewrite <-(shifted_0 v) at 1.
  rewrite (for_up_run (λ r, (h, Screen (shifted v ((r - 1) * 80)) col r0 c0))); [reflexivity|].
  intros r Hr. change (Z.of_nat (Z.to_nat (VGA_ROWS - 1))) with 24 in Hr.
  rewrite <-(Z.add_0_r ((r - 1) * 80)) at 1.
  rewrite (for_up_run (λ c, (h, Screen (shifted v ((r - 1) * 80 + c)) col r0 c0))).
  { change (Z.of_nat (Z.to_nat VGA_COLS)) with 80. do 5 f_equal. lia. }
  intros c Hc. change (Z.of_nat (Z.to_nat VGA_COLS)) with 80 in Hc.
  destruct (lookup_lt_is_Some_2 v (Z.to_nat ((r - 1) * 80 + c + 80))) as [x Hx]; [lia|].
  destruct (shifted_step v ((r - 1) * 80 + c) x) as [Hld Hst]; [lia..|done|].
  assert (vga_load (r * VGA_COLS + c) (h, Screen (shifted v ((r - 1) * 80 + c)) col r0 c0)
          = Some (x, (h, Screen (shifted v ((r - 1) * 80 + c)) col r0 c0))) as E.
  { unfold vga_load, VGA_COLS. destruct (Z.leb_spec 0 (r * 80 + c)); [|lia]. cbn [vga snd].
    replace (r * 80 + c) with ((r - 1) * 80 + c + 80) by lia. by rewrite Hld. }
  rewrite (M_bind_run _ _ _ _ _ E). unfold VGA_COLS.
  rewrite vga_store_run by (rewrite length_shifted; lia). rewrite Hst. do 5 f_equal. lia.
Qed.

Definition with_cursor (d : pc) (p : Z) : pc :=
  Pc (com1 d) (Crtc 15 p) (pic1 d) (pic2 d) (timer0 d).

Lemma hw_run {A} (c : M HW A) h s a h' : c h = Some (a, h') → hw c (h, s) = Some (a, (h', s)).
Proof. intros E. unfold hw. by rewrite (zoom_run _ _ _ a h'). Qed.

Lemma move_cursor_run h s : 0 ≤ pos (tty_of s) < 65536 →
  ∃ h', move_cursor (h, s) = Some (tt, (h', s)) ∧ pc_of h' = with_cursor (pc_of h) (pos (tty_of s)).
Proof.
  intros Hp. unfold move_cursor, get_scr. rewrite !bind_gets. cbn [snd].
  change (cursor_row s * VGA_COLS + cursor_col s) with (pos (tty_of s)).
  generalize dependent (pos (tty_of s)). intros p Hp.
  unfold u16. rewrite Z.mod_small by lia.
  destruct (outbs_run [(CRTC_INDEX, 14); (CRTC_DATA, u8 (Z.shiftr p 8));
             (CRTC_INDEX, 15); (CRTC_DATA, u8 (Z.land p 255))] h) as (h' & E & D).
  exists h'. split; [by apply hw_run|]. rewrite D.
  destruct (pc_of h) as [u [ix cu] p1 p2 t]. unfold with_cursor. simpl. do 2 f_equal. unfold u8.
  rewrite Z.shiftr_div_pow2 by lia. change (Z.land p 255) with (Z.land p (Z.ones 8)).
  rewrite Z.land_ones by lia. change (2 ^ 8) with 256.
  assert (0 ≤ p / 256 < 256) as Hq by (Z.div_mod_to_equations; lia).
  rewrite (Z.mod_small (p / 256)), Z.mod_mod by lia.
  unfold crtc_data. cbn [crtc_index crtc_cursor Z.eqb Pos.eqb]. f_equal.
  rewrite Z.div_add_l, (Z.div_small (cu `mod` 256)) by (try apply Z.mod_pos_bound; lia).
  rewrite Z.add_0_r. pose proof (Z.div_mod p 256). lia.
Qed.

(** The end of [kputc]: wrap at the right margin, then scroll. *)
Definition wrap_scroll : M (console HW) unit :=
  col ← get_scr cursor_col;
  row ← get_scr cursor_row;
  _ ← (if VGA_COLS <=? col then _ ← set_col 0; set_row (row + 1) else mret tt);
  scroll_if_needed.

Lemma scroll_run h v col r c : length v = Z.to_nat CELLS → 0 ≤ r ≤ 25 → 0 ≤ c < 80 → (r = 25 → c = 0) →
  ∃ s', scroll_if_needed (h, Screen v col r c) = Some (tt, (h, s')) ∧ screen_ok s' ∧ cur_color s' = col ∧
        tty_of s' = tty_scroll col (Tty v (r * 80 + c)).
Proof.
  intros Hv Hr Hc Hrc. unfold scroll_if_needed, get_scr, tty_scroll, CELLS. rewrite bind_gets. cbn [snd cursor_row pos cells].
  destruct (Z.ltb_spec r VGA_ROWS) as [Hlt|Hge]; unfold VGA_ROWS in *.
  - exists (Screen v col r c). destruct (Z.ltb_spec (r * 80 + c) 2000); [|lia].
    split; [done|]. split; [|done]. split; [done|]. cbn. lia.
  - assert (r = 25) as -> by lia. rewrite Hrc by done.
    rewrite (M_bind_run _ _ _ _ _ (shift_run h v col 25 0 Hv)).
    assert (1920 + Z.of_nat (Z.to_nat VGA_COLS) ≤ Z.of_nat (length (shifted v 1920))) as Hn.
    { unfold CELLS in Hv. rewrite length_shifted; unfold VGA_COLS; lia. }
    pose proof (fill_run h (shifted v 1920) col 25 0 1920 _ ltac:(lia) Hn) as E.
    change ((25 - 1) * VGA_COLS) with 1920. rewrite (M_bind_run _ _ _ _ _ E).
    change (Z.of_nat (Z.to_nat VGA_COLS)) with 80. rewrite (scrolled v _ Hv).
    eexists. split; [reflexivity|]. cbn [snd vga cur_color cursor_row cursor_col tty_of].
    split; [|done]. split; [|cbn; lia]. cbn [vga]. rewrite length_app, length_drop, Hv. reflexivity.
Qed.

Lemma wrap_scroll_run h v col r c : length v = Z.to_nat CELLS → 0 ≤ r ≤ 25 → 0 ≤ c ≤ 80 → (r = 25 → c = 0) →
  ∃ s', wrap_scroll (h, Screen v col r c) = Some (tt, (h, s')) ∧ screen_ok s' ∧ cur_color s' = col ∧
        tty_of s' = tty_scroll col (Tty v (r * 80 + c)).
Proof.
  intros Hv Hr Hc Hrc. unfold wrap_scroll, get_scr. rewrite !bind_gets. cbn [snd cursor_col cursor_row].
  unfold VGA_COLS. destruct (Z.leb_spec 80 c) as [Hge|Hlt].
  - assert (c = 80) as -> by lia. replace (r * 80 + 80) with ((r + 1) * 80 + 0) by lia.
    destruct (scroll_run h v col (r + 1) 0) as (s' & E & H); [done|lia..|].
    exists s'. split; [|done]. exact E.
  - destruct (scroll_run h v col r c) as (s' & E & H); [done|lia..|]. exists s'. split; [|done]. exact E.
Qed.

(** The character itself. *)
Lemma put_char_run h s c : screen_ok s →
  ∃ v r k, put_char c (h, s) = Some (tt, (h, Screen v (cur_color s) r k)) ∧
    length v = Z.to_nat CELLS ∧ 0 ≤ r ≤ 25 ∧ 0 ≤ k ≤ 80 ∧ (r = 25 → k = 0) ∧
    Tty v (r * 80 + k) = tty_write (cur_color s) c (tty_of s).
Proof.
  destruct s as [v col r k]. intros (Hv & Hr & Hk). cbn [vga cursor_row cursor_col] in *.
  assert (Z.of_nat (length v) = 2000) as HL by (rewrite Hv; reflexivity).
  unfold put_char, get_scr, tty_write. rewrite !bind_gets. cbn [snd vga cursor_row cursor_col cur_color tty_of pos cells].
  assert ((r * 80 + k) / 80 = r) as Hdiv by (Z.div_mod_to_equations; lia).
  assert ((r * 80 + k) `mod` 80 = k) as Hmod by (Z.div_mod_to_equations; lia).
  rewrite Hdiv, Hmod. unfold put_cell, get_scr, VGA_COLS.
  assert (∀ v' r' k' w p, length v' = Z.to_nat CELLS → 0 ≤ r' ≤ 25 → 0 ≤ k' ≤ 80 → (r' = 25 → k' = 0) →
    w (h, Screen v col r k) = Some (tt, (h, Screen v' col r' k')) → p = r' * 80 + k' →
    ∃ v1 r1 k1, w (h, Screen v col r k) = Some (tt, (h, Screen v1 col r1 k1)) ∧
      length v1 = Z.to_nat CELLS ∧ 0 ≤ r1 ≤ 25 ∧ 0 ≤ k1 ≤ 80 ∧ (r1 = 25 → k1 = 0) ∧
      Tty v1 (r1 * 80 + k1) = Tty v' p) as Hfin.
  { intros v' r' k' w p ? ? ? ? ? ->. by exists v', r', k'. }
  destruct (c =? 10); [by apply (Hfin v (r + 1) 0); try lia|].
  destruct (c =? 13); [by apply (Hfin v r 0); try lia|].
  destruct (c =? 9).
  { change 3 with (Z.ones 2). rewrite land_lnot_ones by lia. change (2 ^ 2) with 4.
    apply (Hfin v r ((k + 4) / 4 * 4)); try done; Z.div_mod_to_equations; lia. }
  destruct (c =? 8).
  { destruct (Z.ltb_spec 0 k); [|by exists v, r, k; repeat (split; [done || lia|])].
    replace (r * 80 + (k - 1)) with (r * 80 + k - 1) by lia.
    apply (Hfin _ r (k - 1)); try lia; [by rewrite length_insert|].
    unfold set_col, set_scr. rewrite bind_modify, bind_gets. cbn [fst snd vga cur_color cursor_row].
    by rewrite vga_store_run by lia. }
  apply (Hfin _ r (k + 1)); try lia; [by rewrite length_insert|].
  rewrite bind_assoc, bind_gets. cbn [cur_color snd].
  by rewrite (M_bind_run _ _ _ _ _ (vga_store_run h v col r k (r * 80 + k) (cell col c) ltac:(lia))).
Qed.

Lemma kputc_unfold c h s : kputc c (h, s) =
  (_ ← hw (serial_putc c); _ ← put_char c; _ ← wrap_scroll; move_cursor) (h, s).
Proof.
  unfold kputc, wrap_scroll. unfold mbind, M_bind. destruct (hw (serial_putc c) (h, s)) as [[[] t]|]; [|done].
  destruct (put_char c t) as [[[] t']|]; [|done]. unfold get_scr, gets.
  set (w := if _ : bool then _ else _). by destruct (w t') as [[[] ?]|].
Qed.

(** One character: the driver does what the terminal does. *)
Lemma kputc_run h s c : screen_ok s → is_byte c → serial_ready h →
  ∃ h' s', kputc c (h, s) = Some (tt, (h', s')) ∧ screen_ok s' ∧ cur_color s' = cur_color s ∧
    tty_of s' = tty_putc (cur_color s) (tty_of s) c ∧
    pc_of h' = with_cursor (send (pc_of h) [c]) (pos (tty_of s')).
Proof.
  intros Hok Hc Hr. rewrite kputc_unfold.
  destruct (serial_putc_run h c Hc Hr) as (h1 & E1 & D1).
  rewrite (M_bind_run _ _ _ _ _ (hw_run _ _ s _ _ E1)).
  destruct (put_char_run h1 s c Hok) as (v & r & k & E2 & Hv & Hr' & Hk & Hrk & Ht).
  rewrite (M_bind_run _ _ _ _ _ E2).
  destruct (wrap_scroll_run h1 v (cur_color s) r k Hv Hr' Hk Hrk) as (s' & E3 & Hok' & Hcol & Hs').
  rewrite (M_bind_run _ _ _ _ _ E3).
  destruct (move_cursor_run h1 s') as (h2 & E4 & D4).
  { destruct Hok' as (_ & ? & ?). cbn [pos tty_of]. lia. }
  exists h2, s'. split; [done|]. split; [done|]. split; [done|].
  split; [by rewrite Hs', Ht|]. by rewrite D4, D1.
Qed.

(** The console at rest: the page is whole, the cursor on it, the serial line
    open, and the hardware cursor where the driver believes it to be. *)
Definition console_inv (t : console HW) : Prop :=
  screen_ok t.2 ∧ serial_ready t.1 ∧ crtc_cursor (vga_ctl (pc_of t.1)) = pos (tty_of t.2).

(** What printing [s] means: the terminal has taken [s], the serial line has
    carried it, the rest of the machine is as before. *)
Definition printed (s : list Z) (t t' : console HW) : Prop :=
  console_inv t' ∧ cur_color t'.2 = cur_color t.2 ∧
  tty_of t'.2 = foldl (tty_putc (cur_color t.2)) (tty_of t.2) s ∧
  sent (com1 (pc_of t'.1)) = sent (com1 (pc_of t.1)) ++ s ∧
  pic1 (pc_of t'.1) = pic1 (pc_of t.1) ∧ pic2 (pc_of t'.1) = pic2 (pc_of t.1) ∧
  timer0 (pc_of t'.1) = timer0 (pc_of t.1).

Lemma printed_nil t : console_inv t → printed [] t t.
Proof. intros Ht. unfold printed. by rewrite app_nil_r. Qed.
Lemma printed_app (l1 l2 : list Z) t1 t2 t3 : printed l1 t1 t2 → printed l2 t2 t3 → printed (l1 ++ l2) t1 t3.
Proof.
  intros (_ & C1 & T1 & S1 & A1 & B1 & D1) (I2 & C2 & T2 & S2 & A2 & B2 & D2).
  split; [done|]. rewrite foldl_app, <-T1, <-C1, app_assoc, <-S1. repeat split; congruence.
Qed.

Lemma kputc_printed t c : console_inv t → is_byte c →
  ∃ t', kputc c t = Some (tt, t') ∧ printed [c] t t'.
Proof.
  destruct t as [h s]. intros (Hok & Hr & Hcur) Hc.
  destruct (kputc_run h s c Hok Hc Hr) as (h' & s' & E & Hok' & Hcol & Ht & D).
  exists (h', s'). split; [done|]. unfold printed, console_inv, serial_ready in *. simpl. by rewrite D.
Qed.

Lemma kprint_printed (s rest : list Z) t : Forall (λ c, 0 < c < 256) s → console_inv t →
  ∃ t', kprint (s ++ 0 :: rest) t = Some (tt, t') ∧ printed s t t'.
Proof.
  intros Hs. revert t. induction Hs as [|c s Hc Hs IH]; intros t Ht; cbn [kprint app].
  - exists t. split; [done|]. by apply printed_nil.
  - destruct (kputc_printed t c Ht) as (t1 & E1 & P1); [split; lia|].
    assert (truth c = true) as -> by (apply truth_true; lia). rewrite (M_bind_run _ _ _ _ _ E1).
    destruct (IH t1) as (t2 & E2 & P2); [apply P1|]. exists t2. split; [done|].
    by apply (printed_app [c] s t t1 t2).
Qed.

Lemma kprint_text_printed (l : list Z) t : Forall (λ c, 0 < c < 128) l → console_inv t →
  ∃ t', kprint (l ++ [0]) t = Some (tt, t') ∧ printed l t t'.
Proof. intros Hl. apply kprint_printed. eapply Forall_impl; [done|]. simpl. lia. Qed.

Lemma kprint_hex_printed v t : 0 ≤ v < 4294967296 → console_inv t →
  ∃ (s : list Z) t', utoa v 16 = Some (s ++ [0]) ∧ kprint_hex v t = Some (tt, t') ∧ printed ([48; 120] ++ s) t t'.
Proof.
  intros Hv Ht. unfold kprint_hex. destruct (utoa_text v 16 Hv) as (s & E & Hs); [lia|].
  destruct (kprint_text_printed [48; 120] t) as (t1 & E1 & P1); [by repeat constructor|done|].
  change (lit "0x") with ([48; 120] ++ [0]). rewrite (M_bind_run _ _ _ _ _ E1), E, (M_bind_run _ _ _ _ _ (lift_run _ _)).
  destruct (kprint_text_printed s t1 Hs) as (t2 & E2 & P2); [apply P1|].
  exists s, t2. split; [done|]. split; [done|]. by eapply printed_app.
Qed.

Lemma kprint_dec_printed v t : -2147483648 ≤ v < 2147483648 → console_inv t →
  ∃ (s : list Z) t', itoa v = Some (s ++ [0]) ∧ kprint_dec v t = Some (tt, t') ∧ printed s t t'.
Proof.
  intros Hv Ht. unfold kprint_dec. destruct (itoa_text v Hv) as (s & E & Hs). rewrite E, (M_bind_run _ _ _ _ _ (lift_run _ _)).
  destruct (kprint_text_printed s t Hs Ht) as (t' & E' & P). by exists s, t'.
Qed.

Lemma clear_screen_run h s : screen_ok s ∨ length (vga s) = Z.to_nat CELLS → serial_ready h →
  ∃ t', clear_screen (h, s) = Some (tt, t') ∧ console_inv t' ∧
    t'.2 = Screen (replicate (Z.to_nat CELLS) (cell (cur_color s) 32)) (cur_color s) 0 0 ∧
    pc_of t'.1 = with_cursor (pc_of h) 0.
Proof.
  intros Hs Hr. assert (length (vga s) = Z.to_nat CELLS) as Hv by (destruct Hs as [[]|]; done). clear Hs.
  destruct s as [v col r c]. cbn [vga cur_color] in *. unfold clear_screen.
  change (Z.to_nat (VGA_COLS * VGA_ROWS)) with (Z.to_nat CELLS).
  pose proof (fill_run h v col r c 0 (Z.to_nat CELLS) ltac:(lia)) as E. rewrite Hv in E. specialize (E ltac:(lia)).
  assert (filled v (cell col 32) 0 (Z.of_nat (Z.to_nat CELLS)) = replicate (Z.to_nat CELLS) (cell col 32)) as HF.
  { unfold filled. rewrite Z.add_0_l, Nat2Z.id, drop_ge by lia. by rewrite app_nil_r. }
  rewrite HF in E. cbn [Z.add] in E. rewrite (M_bind_run _ _ _ _ _ E).
  unfold set_row, set_col, set_scr. rewrite !bind_modify. cbn [fst snd vga cur_color cursor_row cursor_col].
  set (s' := Screen _ col 0 0). assert (pos (tty_of s') = 0) as Hp by reflexivity.
  destruct (move_cursor_run h s') as (h' & E' & D); [rewrite Hp; lia|].
  exists (h', s'). split; [done|]. rewrite Hp in D. split; [|done].
  split; [|split].
  - split; [apply length_replicate|cbn; lia].
  - unfold serial_ready in *. cbn [fst]. by rewrite D.
  - cbn [fst snd]. by rewrite D, Hp.
Qed.

(** ** What a sequence of prints says

    [says c l]: from a console at rest, [c] returns, leaves it at rest, and has
    put exactly [l] on the serial line (and, one character after the other, on
    the screen). *)
Definition says {A} (c : M (console HW) A) (l : list Z) : Prop := ∀ t, console_inv t →
  ∃ a t', c t = Some (a, t') ∧ console_inv t' ∧ sent (com1 (pc_of t'.1)) = sent (com1 (pc_of t.1)) ++ l.

Lemma says_printed (c : M (console HW) unit) l : (∀ t, console_inv t → ∃ t', c t = Some (tt, t') ∧ printed l t t') → says c l.
Proof. intros Hc t Ht. destruct (Hc t Ht) as (t' & E & P). exists tt, t'. split; [done|]. split; apply P. Qed.
Lemma says_ret {A} (a : A) : says (mret a) [].
Proof. intros t Ht. exists a, t. by rewrite app_nil_r. Qed.
Lemma says_bind {A B} (c : M (console HW) A) (k : A → M (console HW) B) l l' :
  says c l → (∀ a, says (k a) l') → says (c ≫= k) (l ++ l').
Proof.
  intros Hc Hk t Ht. destruct (Hc t Ht) as (a & t1 & E1 & I1 & S1). destruct (Hk a t1 I1) as (b & t2 & E2 & I2 & S2).
  exists b, t2. rewrite (M_bind_run _ _ _ _ _ E1). split; [done|]. split; [done|]. by rewrite S2, S1, app_assoc.
Qed.
Lemma says_lift {A B} (a : A) (k : A → M (console HW) B) l : says (k a) l → says (lift (Some a) ≫= k) l.
Proof. intros Hk t Ht. rewrite (M_bind_run _ _ _ _ _ (lift_run a t)). by apply Hk. Qed.
Lemma says_set_color col : says (set_color col) [].
Proof.
  intros [h s] Ht. eexists tt, _. split; [reflexivity|]. rewrite app_nil_r. split; [|done].
  exact Ht.
Qed.
Lemma says_kprint (l rest : list Z) : Forall (λ c, 0 < c < 256) l → says (kprint (l ++ 0 :: rest)) l.
Proof. intros Hl. apply says_printed. intros t. by apply kprint_printed. Qed.
Lemma says_cstr (s : list Z) : 0 ∈ s → Forall is_byte s → says (kprint s) (cstr s).
Proof.
  intros H0 Hb. destruct (cstr_spec s H0) as [rest E]. rewrite E at 1. apply says_kprint. rewrite E in Hb.
  apply Forall_app in Hb as [Hb _]. pose proof (upto0_nonzero s) as Hn. rewrite Forall_forall in Hb, Hn |- *.
  intros c Hc. specialize (Hb c Hc). specialize (Hn c Hc). unfold is_byte in Hb. simpl in Hn. lia.
Qed.
(** A literal of the source, also with a newline in front of it. *)
Lemma says_lit (s : string) : says (kprint (lit s)) (cstr (lit s)).
Proof. apply says_cstr; [apply lit_nul|apply lit_bytes]. Qed.
Lemma says_nl_lit (s : string) : says (kprint (10 :: lit s)) (cstr (10 :: lit s)).
Proof. apply says_cstr; [right; apply lit_nul|by constructor; [|apply lit_bytes]]. Qed.
Lemma says_hex v d : 0 ≤ v < 4294967296 → utoa v 16 = Some (d ++ [0]) → says (kprint_hex v) ([48; 120] ++ d).
Proof.
  intros Hv Hd. apply says_printed. intros t Ht. destruct (kprint_hex_printed v t Hv Ht) as (d' & t' & E & Hrun & P).
  rewrite Hd in E. injection E as E. apply app_inj_2 in E as [-> _]; [|done]. by exists t'.
Qed.
Lemma says_dec v d : -2147483648 ≤ v < 2147483648 → itoa v = Some (d ++ [0]) → says (kprint_dec v) d.
Proof.
  intros Hv Hd. apply says_printed. intros t Ht. destruct (kprint_dec_printed v t Hv Ht) as (d' & t' & E & Hrun & P).
  rewrite Hd in E. injection E as E. apply app_inj_2 in E as [-> _]; [|done]. by exists t'.
Qed.
End refinement.

(** ** Properties *)

(** C29. Printing is what the terminal does: for every string, from a console at
    rest, [kprint] ends, never stores outside the page, and leaves the screen
    as the linear terminal would (wrapping, tabs, erasing and scrolling
    included), with the hardware cursor at the terminal's position, the
    colour unchanged and the same bytes, in order, on the serial line. *)
Theorem kprint_refines_tty {HW} {PW : Ports HW} {PC : PcPorts HW} (t : console HW) s rest
    (Hinv : console_inv t) (Hs : Forall (λ c, 0 < c < 256) s) :
  ∃ t', kprint (s ++ 0 :: rest) t = Some (tt, t') ∧ console_inv t' ∧
    tty_of t'.2 = foldl (tty_putc (cur_color t.2)) (tty_of t.2) s ∧
    crtc_cursor (vga_ctl (pc_of t'.1)) = pos (tty_of t'.2) ∧
    sent (com1 (pc_of t'.1)) = sent (com1 (pc_of t.1)) ++ s ∧ cur_color t'.2 = cur_color t.2.
Proof.
  destruct (kprint_printed s rest t Hs Hinv) as (t' & E & Hi & Hc & Ht & Hs' & _).
  exists t'. split; [done|]. split; [done|]. split; [done|]. split; [apply Hi|]. done.
Qed.

(** Two cells before the end of the page. *)
Definition low_console : console sim_pc :=
  (SimPc (with_cursor pc_reset 1998) [], Screen (replicate (Z.to_nat CELLS) 0) 7 24 78).

Lemma low_console_inv : console_inv low_console.
Proof. split; [|done]. split; [apply length_replicate|]. cbn. lia. Qed.

Lemma kprint_refines_tty_witness :
  ∃ t' : console sim_pc, kprint ([104; 105; 10; 33] ++ 0 :: []) low_console = Some (tt, t') ∧ console_inv t' ∧
    tty_of t'.2 = foldl (tty_putc 7) (tty_of low_console.2) [104; 105; 10; 33] ∧
    crtc_cursor (vga_ctl (pc_of t'.1)) = pos (tty_of t'.2) ∧
    sent (com1 (pc_of t'.1)) = [104; 105; 10; 33] ∧ cur_color t'.2 = 7.
Proof.
  apply (@kprint_refines_tty _ sim_pc_ports sim_pc_spec low_console [104; 105; 10; 33] []).
  - exact low_console_inv.
  - repeat constructor.
Defined.

(** Characters the console shows as they are. *)
Definition printable (c : Z) : Prop := 0 < c < 256 ∧ c ≠ 8 ∧ c ≠ 9 ∧ c ≠ 10 ∧ c ≠ 13.

Lemma tty_text color t s : Forall printable s → 0 ≤ pos t → pos t + Z.of_nat (length s) < CELLS →
  length (cells t) = Z.to_nat CELLS →
  foldl (tty_putc color) t s
  = Tty (list_inserts (Z.to_nat (pos t)) (cell color <$> s) (cells t)) (pos t + Z.of_nat (length s)).
Proof.
  intros Hs. revert t. induction Hs as [|c s Hc Hs IH]; intros t Hp Hlen Hcells; cbn [foldl list_inserts fmap list_fmap length].
  { destruct t. simpl. f_equal. lia. }
  cbn [length] in Hlen. destruct Hc as (_ & H8 & H9 & H10 & H13).
  unfold tty_putc at 2, tty_write.
  rewrite (proj2 (Z.eqb_neq c 10)), (proj2 (Z.eqb_neq c 13)), (proj2 (Z.eqb_neq c 9)), (proj2 (Z.eqb_neq c 8)) by done.
  unfold tty_scroll. cbn [pos]. destruct (Z.ltb_spec (pos t + 1) CELLS) as [_|?]; [|lia].
  rewrite IH; cbn [pos cells]; [|lia..|by rewrite length_insert].
  f_equal; [|lia]. replace (Z.to_nat (pos t + 1)) with (S (Z.to_nat (pos t))) by lia.
  apply list_eq. intros i. destruct (decide (i = Z.to_nat (pos t))) as [->|].
  - rewrite list_lookup_inserts_lt, !list_lookup_insert_eq; [done|..]; rewrite ?length_inserts; lia.
  - rewrite list_lookup_insert_ne by done. destruct (decide (i < S (Z.to_nat (pos t)))%nat).
    + rewrite !list_lookup_inserts_lt, list_lookup_insert_ne by lia. done.
    + destruct (decide (i < S (Z.to_nat (pos t)) + length (cell color <$> s))%nat) as [Hi|Hi].
      * rewrite !list_lookup_inserts; rewrite ?length_insert; try lia; try done.
        all: rewrite length_fmap in *; lia.
      * rewrite !list_lookup_inserts_ge, list_lookup_insert_ne by lia. done.
Qed.

(** Text without control characters that fits on the page: its cells, in
    the current colour, replace those from the cursor on, nothing else on the
    page changes, and the cursor stands behind the text. *)
Theorem kprint_text {HW} {PW : Ports HW} {PC : PcPorts HW} (t : console HW) s
    (Hinv : console_inv t) (Hs : Forall printable s)
    (Hfits : pos (tty_of t.2) + Z.of_nat (length s) < CELLS) :
  ∃ t', kprint (s ++ [0]) t = Some (tt, t') ∧
    vga t'.2 = list_inserts (Z.to_nat (pos (tty_of t.2))) (cell (cur_color t.2) <$> s) (vga t.2) ∧
    pos (tty_of t'.2) = pos (tty_of t.2) + Z.of_nat (length s).
Proof.
  destruct (kprint_printed s [] t) as (t' & E & Hi & Hc & Ht & _); [|done|].
  { eapply Forall_impl; [exact Hs|]. unfold printable. intros. lia. }
  exists t'. split; [done|]. destruct Hinv as ((Hv & Hr & Hk) & _).
  rewrite tty_text in Ht; [|done|cbn [pos tty_of]; lia|done|done].
  assert (∀ a b, a = b → cells a = cells b ∧ pos a = pos b) as Hf by (by intros ? ? ->).
  apply Hf in Ht. done.
Qed.

Lemma kprint_text_witness :
  ∃ t' : console sim_pc, kprint ([33] ++ [0]) low_console = Some (tt, t') ∧
    vga t'.2 = list_inserts (Z.to_nat 1998) (cell 7 <$> [33]) (replicate (Z.to_nat CELLS) 0) ∧
    pos (tty_of t'.2) = 1999.
Proof.
  apply (@kprint_text _ sim_pc_ports sim_pc_spec low_console [33]).
  - exact low_console_inv.
  - repeat constructor; discriminate.
  - reflexivity.
Defined.

(** All cells of all byte-sized colours and characters, by evaluation. *)
Lemma cell_table : forallb (λ color, forallb (λ c,
    (cell color c `mod` 256 =? c) && (cell color c / 256 =? if c <? 128 then color else 255))
  (seqZ 0 256)) (seqZ 0 256) = true.
Proof. vm_compute. reflexivity. Qed.

(** A cell holds its character in the low byte and its colour in the high
    byte, but only for characters below 128: a larger one is sign-extended,
    and its cell has all colour bits set whatever the current colour. *)
Theorem cell_layout color c (Hcolor : is_byte color) (Hc : is_byte c) :
  cell color c `mod` 256 = c ∧
  cell color c / 256 = if c <? 128 then color else 255.
Proof.
  pose proof cell_table as HT. rewrite forallb_forall in HT.
  assert (∀ z, is_byte z → In z (seqZ 0 256)) as Hin.
  { intros z Hz. apply list_elem_of_In, elem_of_seqZ. unfold is_byte in Hz. lia. }
  specialize (HT color (Hin _ Hcolor)). rewrite forallb_forall in HT.
  specialize (HT c (Hin _ Hc)). apply andb_true_iff in HT as [H1 H2].
  by apply Z.eqb_eq in H1, H2.
Qed.

Lemma cell_layout_witness :
  cell 4 200 `mod` 256 = 200 ∧ cell 4 200 / 256 = if 200 <? 128 then 4 else 255.
Proof. apply (cell_layout 4 200); split; reflexivity || discriminate. Defined.

(** [screen_init] brings the console up from any state of the devices and
    any contents of the video memory: the line is open, every cell is blank
    in the current colour, the cursor is home, and the console is at rest. *)
Theorem screen_init_ready {HW} {PW : Ports HW} {PC : PcPorts HW} (h : HW) s
    (Hpage : length (vga s) = Z.to_nat CELLS) :
  ∃ t', screen_init (h, s) = Some (tt, t') ∧ console_inv t' ∧
    t'.2 = Screen (replicate (Z.to_nat CELLS) (cell (cur_color s) 32)) (cur_color s) 0 0 ∧
    crtc_cursor (vga_ctl (pc_of t'.1)) = 0 ∧ sent (com1 (pc_of t'.1)) = sent (com1 (pc_of h)).
Proof.
  unfold screen_init. destruct (serial_init_run h) as (h1 & E1 & R1 & D1).
  rewrite (M_bind_run _ _ _ _ _ (hw_run _ _ s _ _ E1)).
  destruct (clear_screen_run h1 s) as (t' & E & Hi & Ht & D); [by right|done|].
  exists t'. split; [done|]. split; [done|]. split; [done|]. rewrite D, D1. done.
Qed.

Lemma screen_init_ready_witness :
  ∃ t' : console sim_pc, screen_init low_console = Some (tt, t') ∧ console_inv t' ∧
    t'.2 = Screen (replicate (Z.to_nat CELLS) (cell 7 32)) 7 0 0 ∧
    crtc_cursor (vga_ctl (pc_of t'.1)) = 0 ∧ sent (com1 (pc_of t'.1)) = [].
Proof.
  apply (@screen_init_ready _ sim_pc_ports sim_pc_spec low_console.1 low_console.2).
  apply length_replicate.
Defined.
