(* ===== verification/Keyboard.v ===== *)
(** * The keyboard (drivers/keyboard.c, drivers/keyboard.h)

    The interrupt handler and its line buffer, beside a world that contains
    the console and whatever the line handler works on.  The handler is called
    with a pointer to the buffer: it gets the bytes and may change them.  The
    specification is a line editor on lists of characters. *)

From S2P Require Import Prelude Ports Devices CString Serial Screen.

Definition KBD_DATA_PORT : Z := 96.
Definition SC_LSHIFT : Z := 42.
Definition SC_RSHIFT : Z := 54.
Definition SC_CAPS : Z := 58.
Definition RELEASE : Z := 128.
Definition LINE_MAX : Z := 128.

Definition map_lower : list Z :=
  [0; 27; 49; 50; 51; 52; 53; 54; 55; 56; 57; 48; 45; 61; 8;
   9; 113; 119; 101; 114; 116; 121; 117; 105; 111; 112; 91; 93; 10;
   0; 97; 115; 100; 102; 103; 104; 106; 107; 108; 59; 39; 96;
   0; 92; 122; 120; 99; 118; 98; 110; 109; 44; 46; 47; 0;
   42; 0; 32] ++ replicate 70 0.

Definition map_upper : list Z :=
  [0; 27; 33; 64; 35; 36; 37; 94; 38; 42; 40; 41; 95; 43; 8;
   9; 81; 87; 69; 82; 84; 89; 85; 73; 79; 80; 123; 125; 10;
   0; 65; 83; 68; 70; 71; 72; 74; 75; 76; 58; 34; 126;
   0; 124; 90; 88; 67; 86; 66; 78; 77; 60; 62; 63; 0;
   42; 0; 32] ++ replicate 70 0.

Record kbd := Kbd { line_buf : list Z; line_len : Z; shift : Z; caps : Z; line_handler : Z }.

Definition is_letter (c : Z) : bool :=
  ((97 <=? c) && (c <=? 122)) || ((65 <=? c) && (c <=? 90)).

Section driver.
Context {HW : Type} {PW : Ports HW} {W : Type} (con : lens W (console HW)).
(** A call through the pointer [h] to the registered handler. *)
Variable call_line : Z → list Z → M W (list Z).

Definition world {A} (c : M W A) : M (W * kbd) A := zoom fst_lens c.
Definition echo (c : Z) : M (W * kbd) unit := world (zoom con (kputc c)).
Definition get_kbd {A} (f : kbd → A) : M (W * kbd) A := gets (λ s, f s.2).
Definition set_kbd (f : kbd → kbd) : M (W * kbd) unit := modify (λ s, (s.1, f s.2)).
Definition set_len (n : Z) : M (W * kbd) unit :=
  set_kbd (λ k, Kbd (line_buf k) n (shift k) (caps k) (line_handler k)).
Definition set_shift (b : Z) : M (W * kbd) unit :=
  set_kbd (λ k, Kbd (line_buf k) (line_len k) b (caps k) (line_handler k)).
Definition set_caps (b : Z) : M (W * kbd) unit :=
  set_kbd (λ k, Kbd (line_buf k) (line_len k) (shift k) b (line_handler k)).

(** [line_buf[i] = c] *)
Definition buf_store (i c : Z) : M (W * kbd) unit :=
  n ← get_kbd (λ k, Z.of_nat (length (line_buf k)));
  if (0 <=? i) && (i <? n)
  then set_kbd (λ k, Kbd (<[Z.to_nat i := c]> (line_buf k)) (line_len k) (shift k) (caps k) (line_handler k))
  else fault.

Definition submit_line : M (W * kbd) unit :=
  n ← get_kbd line_len;
  _ ← buf_store n 0;
  h ← get_kbd line_handler;
  _ ← (if truth h then
         buf ← get_kbd line_buf;
         buf' ← world (call_line h buf);
         set_kbd (λ k, Kbd buf' (line_len k) (shift k) (caps k) (line_handler k))
       else mret tt);
  set_len 0.

(** The character of a key, with the modifiers applied. *)
Definition key_char (sh cp sc : Z) : option Z :=
  c ← (if truth sh then map_upper else map_lower) !! Z.to_nat sc;
  Some (if truth cp && is_letter c then
          if (97 <=? c) && (c <=? 122) then c - 32
          else if (65 <=? c) && (c <=? 90) then c + 32 else c
        else c).

(** The end of [keyboard_callback]: what a character does to the line. *)
Definition put_key (c : Z) : M (W * kbd) unit :=
  n ← get_kbd line_len;
  if c =? 10 then _ ← echo 10; submit_line
  else if c =? 8 then
    if 0 <? n then _ ← set_len (n - 1); echo 8 else mret tt
  else if n <? LINE_MAX - 1 then
    _ ← buf_store n c; _ ← set_len (n + 1); echo c
  else mret tt.

Definition handle_scancode (sc : Z) : M (W * kbd) unit :=
  if truth (Z.land sc RELEASE) then
    let code := u8 (Z.land sc (Z.lnot RELEASE)) in
    if (code =? SC_LSHIFT) || (code =? SC_RSHIFT) then set_shift 0 else mret tt
  else if (sc =? SC_LSHIFT) || (sc =? SC_RSHIFT) then set_shift 1
  else if sc =? SC_CAPS then
    cp ← get_kbd caps; set_caps (Z.b2z (negb (truth cp)))
  else if 128 <=? sc then mret tt
  else
    sh ← get_kbd shift;
    cp ← get_kbd caps;
    c ← lift (key_char sh cp sc);
    if negb (truth c) then mret tt else put_key c.

Definition keyboard_callback : M (W * kbd) unit :=
  sc ← world (zoom con (hw (inb KBD_DATA_PORT)));
  handle_scancode sc.

Definition keyboard_set_line_handler (h : Z) : M (W * kbd) unit :=
  set_kbd (λ k, Kbd (line_buf k) (line_len k) (shift k) (caps k) h).
End driver.

(** ** The specification: a line editor *)

(** A key press or release, as the user means it. *)
Inductive key := KShift (down : bool) | KCaps | KEnter | KBack | KChar (c : Z) | KNone.

(** Letters come out capital when exactly one of shift and caps lock is on;
    the other keys follow shift alone. *)
Definition meaning (sh cp : bool) (sc : Z) : key :=
  if 128 <=? sc then
    if (sc - 128 =? SC_LSHIFT) || (sc - 128 =? SC_RSHIFT) then KShift false else KNone
  else if (sc =? SC_LSHIFT) || (sc =? SC_RSHIFT) then KShift true
  else if sc =? SC_CAPS then KCaps
  else
    let lo := byte_at map_lower (Z.to_nat sc) in
    let c := if (97 <=? lo) && (lo <=? 122) then (if xorb sh cp then lo - 32 else lo)
             else if sh then byte_at map_upper (Z.to_nat sc) else lo in
    if c =? 0 then KNone else if c =? 10 then KEnter else if c =? 8 then KBack else KChar c.

Record editor := Editor { line : list Z; sh_on : bool; caps_on : bool }.

(** One key: the new editor, what is echoed, and the line that is submitted. *)
Definition edit (e : editor) (k : key) : editor * list Z * option (list Z) :=
  match k with
  | KShift d => (Editor (line e) d (caps_on e), [], None)
  | KCaps => (Editor (line e) (sh_on e) (negb (caps_on e)), [], None)
  | KEnter => (Editor [] (sh_on e) (caps_on e), [10], Some (line e))
  | KBack => if decide (line e = []) then (e, [], None)
             else (Editor (removelast (line e)) (sh_on e) (caps_on e), [8], None)
  | KChar c => if decide (length (line e) < 127)%nat
               then (Editor (line e ++ [c]) (sh_on e) (caps_on e), [c], None) else (e, [], None)
  | KNone => (e, [], None)
  end.

Definition editor_of (k : kbd) : editor :=
  Editor (take (Z.to_nat (line_len k)) (line_buf k)) (truth (shift k)) (truth (caps k)).

Definition kbd_ok (k : kbd) : Prop :=
  length (line_buf k) = Z.to_nat LINE_MAX ∧ Forall is_byte (line_buf k) ∧ 0 ≤ line_len k < LINE_MAX ∧
  Forall (λ c, 0 < c < 128) (take (Z.to_nat (line_len k)) (line_buf k)).

(** The tables, by evaluation: a key's character is what the key means. *)
Definition key_of (c : Z) : key :=
  if c =? 0 then KNone else if c =? 10 then KEnter else if c =? 8 then KBack else KChar c.

#[export] Instance key_eq_dec : EqDecision key.
Proof. solve_decision. Defined.

Lemma key_table : forallb (λ sc, forallb (λ sh, forallb (λ cp,
    match key_char (Z.b2z sh) (Z.b2z cp) sc with
    | Some c => (0 <=? c) && (c <? 128) &&
        (bool_decide (meaning sh cp sc = key_of c) || bool_decide (sc ∈ [SC_LSHIFT; SC_RSHIFT; SC_CAPS]))
    | None => false
    end) [true; false]) [true; false]) (seqZ 0 128) = true.
Proof. vm_compute. reflexivity. Qed.

Lemma key_char_meaning sh cp sc : 0 ≤ sc < 128 → sc ∉ [SC_LSHIFT; SC_RSHIFT; SC_CAPS] →
  ∃ c, key_char sh cp sc = Some c ∧ 0 ≤ c < 128 ∧ meaning (truth sh) (truth cp) sc = key_of c.
Proof.
  intros Hsc Hmod. pose proof key_table as HT. rewrite forallb_forall in HT.
  specialize (HT sc). rewrite forallb_forall in HT.
  specialize (HT ltac:(apply list_elem_of_In, elem_of_seqZ; lia) (truth sh)). rewrite forallb_forall in HT.
  specialize (HT ltac:(destruct (truth sh); simpl; tauto) (truth cp) ltac:(destruct (truth cp); simpl; tauto)).
  assert (key_char (Z.b2z (truth sh)) (Z.b2z (truth cp)) sc = key_char sh cp sc) as E.
  { unfold key_char. by rewrite !truth_b2z. }
  rewrite E in HT. destruct (key_char sh cp sc) as [c|]; [|done]. exists c. split; [done|].
  rewrite !andb_true_iff, Z.leb_le, Z.ltb_lt, orb_true_iff, !bool_decide_eq_true in HT.
  destruct HT as [? [?|?]]; done.
Qed.

Section refinement.
Context {HW : Type} {PW : Ports HW} {PC : PcPorts HW} {W : Type}.
Context (con : lens W (console HW)) {CL : LensLaws con}.
Variable call_line : Z → list Z → M W (list Z).

(** A call of the handler returns, and leaves the console at rest and the
    buffer its size. *)
Definition call_ok (h : Z) (buf : list Z) (w : W) : Prop := ∃ buf' w', call_line h buf w = Some (buf', w') ∧
  length buf' = Z.to_nat LINE_MAX ∧ Forall is_byte buf' ∧ console_inv (view con w').
(** Every call does. *)
Definition handler_ok : Prop := ∀ h buf w, console_inv (view con w) →
  length buf = Z.to_nat LINE_MAX → Forall is_byte buf → 0 ∈ buf → call_ok h buf w.
(** The call that submits the line of [b] does. *)
Definition handles (w : W) (b : kbd) : Prop := ∀ c1 rest, printed [10] (view con w) c1 → truth (line_handler b) = true →
  let buf := line (editor_of b) ++ 0 :: rest in length buf = Z.to_nat LINE_MAX → Forall is_byte buf →
  call_ok (line_handler b) buf (update con c1 w).

Lemma handler_handles w b : handler_ok → handles w b.
Proof.
  intros Hh c1 rest P _ buf Hl Hb. apply Hh; [|done..|].
  - rewrite view_update. apply P.
  - apply elem_of_app. right. left.
Qed.

(** A state between two interrupts. *)
Definition kbd_inv (s : W * kbd) : Prop := kbd_ok s.2 ∧ console_inv (view con s.1).

(** [s'] is [s] after the editor has taken key [k]: what the editor echoes is
    printed and the rest of the world is untouched, then a submitted line
    goes to the handler as a terminated string. *)
Definition edited (k : key) (s s' : W * kbd) : Prop :=
  let '(e', out, sub) := edit (editor_of s.2) k in
  kbd_inv s' ∧ editor_of s'.2 = e' ∧ line_handler s'.2 = line_handler s.2 ∧
  ∃ c1, printed out (view con s.1) c1 ∧
    match sub with
    | None => s'.1 = update con c1 s.1
    | Some l =>
        if truth (line_handler s.2)
        then ∃ rest buf', Forall is_byte rest ∧ call_line (line_handler s.2) (l ++ 0 :: rest) (update con c1 s.1) = Some (buf', s'.1)
        else s'.1 = update con c1 s.1
    end.

Lemma echo_run w k c : console_inv (view con w) → is_byte c →
  ∃ c1, echo con c (w, k) = Some (tt, (update con c1 w, k)) ∧ printed [c] (view con w) c1.
Proof.
  intros Hi Hc. destruct (kputc_printed (view con w) c Hi Hc) as (c1 & E & P).
  exists c1. split; [|done]. unfold echo, world. apply (zoom_run fst_lens). cbn [view fst fst_lens].
  by apply zoom_run.
Qed.

Lemma buf_store_run (w : W) k i c : 0 ≤ i < Z.of_nat (length (line_buf k)) →
  buf_store i c (w, k) = Some (tt, (w, Kbd (<[Z.to_nat i := c]> (line_buf k)) (line_len k) (shift k) (caps k) (line_handler k))).
Proof.
  intros Hi. unfold buf_store, get_kbd. rewrite bind_gets. cbn [snd].
  destruct (Z.leb_spec 0 i), (Z.ltb_spec i (Z.of_nat (length (line_buf k)))); try lia. done.
Qed.

Lemma put_enter w k : handles w k → kbd_inv (w, k) →
  ∃ s', put_key con call_line 10 (w, k) = Some (tt, s') ∧ edited KEnter (w, k) s'.
Proof.
  intros Hh [(Hlen & Hby & Hn & Hch) Hi]. cbn [fst snd] in *. unfold put_key, get_kbd. rewrite bind_gets.
  change (10 =? 10) with true. cbn iota.
  destruct (echo_run w k 10 Hi) as (c1 & E & P); [done|]. rewrite (M_bind_run _ _ _ _ _ E).
  unfold submit_line, get_kbd. rewrite bind_gets. cbn [snd]. unfold LINE_MAX in *.
  rewrite (M_bind_run _ _ _ _ _ (buf_store_run _ k (line_len k) 0 ltac:(lia))), bind_gets.
  cbn [snd line_handler]. set (buf := <[Z.to_nat (line_len k):=0]> (line_buf k)).
  assert (buf = take (Z.to_nat (line_len k)) (line_buf k) ++ 0 :: drop (S (Z.to_nat (line_len k))) (line_buf k)) as Hbuf.
  { subst buf. apply insert_take_drop. lia. }
  assert (length buf = Z.to_nat LINE_MAX) as Hbl by (subst buf; by rewrite length_insert).
  assert (Forall is_byte buf) as Hbb by (subst buf; by apply Forall_insert).
  destruct (truth (line_handler k)) eqn:Ht; unfold edited, edit, kbd_inv, kbd_ok; cbn [fst snd]; rewrite ?Ht; unfold editor_of; cbn [fst snd].
  - rewrite bind_assoc, bind_gets. cbn [snd line_buf].
    destruct (Hh c1 (drop (S (Z.to_nat (line_len k))) (line_buf k)) P Ht) as (buf' & w' & Ec & Hl' & Hb' & Hi').
    { cbn [line editor_of]. by rewrite <-Hbuf. }
    { cbn [line editor_of]. by rewrite <-Hbuf. }
    cbn [line editor_of] in Ec. rewrite <-Hbuf in Ec.
    rewrite bind_assoc. unfold world, zoom at 1. unfold mbind at 1, M_bind at 1. cbn [view fst fst_lens].
    rewrite Ec. eexists. split; [reflexivity|]. cbn. split; [|split; [done|split; [done|]]].
    { split; [|exact Hi']. do 2 (split; [done|]). split; [unfold LINE_MAX; lia|constructor]. }
    exists c1. split; [done|]. eexists _, buf'. rewrite Hbuf in Ec. split; [|exact Ec]. by apply Forall_drop.
  - rewrite bind_ret. eexists. split; [reflexivity|]. cbn. split; [|split; [done|split; [done|]]].
    { split; [|rewrite view_update; apply P]. do 2 (split; [done|]). split; [unfold LINE_MAX; lia|constructor]. }
    by exists c1.
Qed.

Lemma removelast_take {A} (l : list A) n : (0 < n ≤ length l)%nat → removelast (take n l) = take (n - 1) l.
Proof. intros Hn. rewrite removelast_firstn_len, take_take, length_take. f_equal. lia. Qed.

Lemma put_back w k : kbd_inv (w, k) →
  ∃ s', put_key con call_line 8 (w, k) = Some (tt, s') ∧ edited KBack (w, k) s'.
Proof.
  intros [(Hlen & Hby & Hn & Hch) Hi]. cbn [fst snd] in *. unfold put_key, get_kbd. rewrite bind_gets. cbn [snd].
  change (8 =? 10) with false. change (8 =? 8) with true. cbn iota. unfold LINE_MAX in *.
  unfold edited, edit, kbd_inv, kbd_ok, editor_of. cbn [fst snd line].
  destruct (Z.ltb_spec 0 (line_len k)) as [Hp|Hz]; case_decide as Hd.
  - apply (f_equal length) in Hd. rewrite length_take in Hd. simpl in Hd. lia.
  - unfold set_len, set_kbd. rewrite bind_modify. cbn [fst snd].
    destruct (echo_run w (Kbd (line_buf k) (line_len k - 1) (shift k) (caps k) (line_handler k)) 8 Hi)
      as (c1 & E & P); [done|]. rewrite E. eexists. split; [reflexivity|]. cbn.
    rewrite removelast_take by lia.
    replace (Z.to_nat (line_len k) - 1)%nat with (Z.to_nat (line_len k - 1)) by lia.
    split; [|split; [done|split; [done|by exists c1]]].
    split; [|rewrite view_update; apply P]. do 2 (split; [done|]). split; [unfold LINE_MAX; lia|].
    replace (Z.to_nat (line_len k - 1)) with (Nat.min (Z.to_nat (line_len k - 1)) (Z.to_nat (line_len k))) by lia.
    rewrite <-take_take. by apply Forall_take.
  - eexists. split; [reflexivity|]. cbn. split; [done|]. split; [done|]. split; [done|].
    exists (view con w). split; [by apply printed_nil|]. by rewrite update_view.
  - destruct Hd. by replace (line_len k) with 0 by lia.
Qed.

Lemma put_plain w k c : kbd_inv (w, k) → 0 < c < 128 → c ≠ 10 → c ≠ 8 →
  ∃ s', put_key con call_line c (w, k) = Some (tt, s') ∧ edited (KChar c) (w, k) s'.
Proof.
  intros [(Hlen & Hby & Hn & Hch) Hi] Hc H10 H8. cbn [fst snd] in *. unfold put_key, get_kbd. rewrite bind_gets. cbn [snd].
  rewrite (proj2 (Z.eqb_neq c 10)), (proj2 (Z.eqb_neq c 8)) by done. unfold LINE_MAX in *.
  unfold edited, edit, kbd_inv, kbd_ok, editor_of. cbn [fst snd line].
  rewrite length_take, Nat.min_l by lia.
  destruct (Z.ltb_spec (line_len k) (128 - 1)) as [Hp|Hz]; case_decide; try lia.
  - rewrite (M_bind_run _ _ _ _ _ (buf_store_run _ k (line_len k) c ltac:(lia))).
    unfold set_len, set_kbd. rewrite bind_modify. cbn [fst snd line_buf shift caps line_handler].
    set (k' := Kbd _ _ _ _ _). destruct (echo_run w k' c Hi) as (c1 & E & P); [split; lia|].
    rewrite E. eexists. split; [reflexivity|]. cbn [fst snd].
    assert (take (Z.to_nat (line_len k')) (line_buf k') = take (Z.to_nat (line_len k)) (line_buf k) ++ [c]) as Ht.
    { subst k'. cbn [line_len line_buf]. replace (Z.to_nat (line_len k + 1)) with (S (Z.to_nat (line_len k))) by lia.
      rewrite (take_S_r _ _ c) by (apply list_lookup_insert_eq; lia). by rewrite take_insert_ge. }
    rewrite Ht. split; [|split; [done|split; [done|by exists c1]]].
    split; [|rewrite view_update; apply P]. split; [subst k'; cbn [line_buf]; by rewrite length_insert|].
    split; [subst k'; cbn [line_buf]; apply Forall_insert; [done|split; lia]|].
    split; [subst k'; cbn; unfold LINE_MAX; lia|]. apply Forall_app. split; [done|]. by constructor.
  - eexists. split; [reflexivity|]. cbn. split; [done|]. split; [done|]. split; [done|].
    exists (view con w). split; [by apply printed_nil|]. by rewrite update_view.
Qed.

Lemma put_key_run w k c : (key_of c = KEnter → handles w k) → kbd_inv (w, k) → 0 < c < 128 →
  ∃ s', put_key con call_line c (w, k) = Some (tt, s') ∧ edited (key_of c) (w, k) s'.
Proof.
  intros Hh Hk Hc. unfold key_of in Hh |- *. rewrite (proj2 (Z.eqb_neq c 0)) in Hh |- * by lia.
  destruct (c =? 10) eqn:E; [apply Z.eqb_eq in E as ->; apply put_enter; [by apply Hh|done]|]. apply Z.eqb_neq in E.
  destruct (Z.eqb_spec c 8) as [->|]; [by apply put_back|by apply put_plain].
Qed.

(** A key that only changes a modifier, or nothing. *)
Lemma edited_quiet k w b sh cp : kbd_inv (w, b) →
  edit (editor_of b) k = (Editor (line (editor_of b)) (truth sh) (truth cp), [], None) →
  edited k (w, b) (w, Kbd (line_buf b) (line_len b) sh cp (line_handler b)).
Proof.
  intros Hk He. unfold edited. cbn [snd]. rewrite He. split; [done|]. split; [done|]. split; [done|].
  exists (view con w). split; [apply printed_nil, Hk|]. by rewrite update_view.
Qed.

Lemma scancode_bits sc : is_byte sc →
  truth (Z.land sc RELEASE) = (128 <=? sc) ∧
  (128 ≤ sc → u8 (Z.land sc (Z.lnot RELEASE)) = sc - 128).
Proof.
  intros Hsc. assert (forallb (λ sc, Bool.eqb (truth (Z.land sc RELEASE)) (128 <=? sc) &&
    (negb (128 <=? sc) || (u8 (Z.land sc (Z.lnot RELEASE)) =? sc - 128))) (seqZ 0 256) = true) as HT
    by (vm_compute; reflexivity).
  rewrite forallb_forall in HT. specialize (HT sc). unfold is_byte in Hsc.
  specialize (HT ltac:(apply list_elem_of_In, elem_of_seqZ; lia)).
  rewrite andb_true_iff, orb_true_iff, eqb_true_iff, negb_true_iff, Z.leb_gt, Z.eqb_eq in HT. split; [apply HT|lia].
Qed.

Lemma handle_scancode_run w b sc : (meaning (truth (shift b)) (truth (caps b)) sc = KEnter → handles w b) → kbd_inv (w, b) → is_byte sc →
  ∃ s', handle_scancode con call_line sc (w, b) = Some (tt, s') ∧
        edited (meaning (truth (shift b)) (truth (caps b)) sc) (w, b) s'.
Proof.
  intros Hh Hk Hsc. destruct (scancode_bits sc Hsc) as [H7 Hcode]. unfold is_byte in Hsc.
  assert (edited KNone (w, b) (w, b)) as Hnone.
  { destruct b as [bf n sh cp hd]. by apply (edited_quiet KNone w (Kbd bf n sh cp hd) sh cp). }
  unfold handle_scancode. rewrite H7. unfold meaning at 1 in Hh. unfold meaning at 1. destruct (Z.leb_spec 128 sc) as [Hrel|Hpress].
  { rewrite Hcode by done. destruct ((sc - 128 =? SC_LSHIFT) || _); [|by exists (w, b)].
    eexists. split; [reflexivity|]. by apply edited_quiet. }
  destruct ((sc =? SC_LSHIFT) || (sc =? SC_RSHIFT)) eqn:Hsh.
  { eexists. split; [reflexivity|]. by apply edited_quiet. }
  destruct (sc =? SC_CAPS) eqn:Hcaps.
  { unfold get_kbd. rewrite bind_gets. eexists. split; [reflexivity|]. apply edited_quiet; [done|].
    cbn [snd]. by rewrite truth_b2z. }
  apply orb_false_iff in Hsh as [Hl Hr]. apply Z.eqb_neq in Hl, Hr, Hcaps.
  unfold get_kbd. rewrite !bind_gets. cbn [snd].
  destruct (key_char_meaning (shift b) (caps b) sc) as (c & Ec & Hc & Hm); [lia|set_solver|].
  unfold meaning in Hm. rewrite (proj2 (Z.leb_gt 128 sc)), (proj2 (Z.eqb_neq sc SC_LSHIFT)),
    (proj2 (Z.eqb_neq sc SC_RSHIFT)), (proj2 (Z.eqb_neq sc SC_CAPS)) in Hm by done. cbn iota zeta in Hm.
  cbn [orb] in Hm, Hh. cbn zeta in Hh |- *. rewrite Hm in Hh |- *. rewrite Ec. unfold lift. unfold mbind at 1, M_bind at 1. cbn [fmap option_fmap option_map].
  destruct (truth c) eqn:Et; cbn [negb].
  - apply truth_true in Et. apply put_key_run; [done..|lia].
  - apply truth_false in Et as ->. by exists (w, b).
Qed.

Lemma keyboard_callback_run s : kbd_inv s → ∃ sc h', inb KBD_DATA_PORT (view con s.1).1 = Some (sc, h') ∧ pc_of h' = pc_of (view con s.1).1 ∧
  let k := meaning (truth (shift s.2)) (truth (caps s.2)) sc in let w := update con (h', (view con s.1).2) s.1 in
  (k = KEnter → handles w s.2) → ∃ s', keyboard_callback con call_line s = Some (tt, s') ∧ edited k (w, s.2) s'.
Proof.
  intros Hk. destruct s as [w b]. cbn [fst snd].
  destruct (view con w) as [h scr] eqn:Ev. cbn [fst snd].
  destruct (pc_inb_spec h KBD_DATA_PORT) as (sc & h' & E & Hb & D).
  assert (kbd_inv (update con (h', scr) w, b)) as Hk'.
  { destruct Hk as [Ho Hi]. split; [done|]. cbn [fst] in *. rewrite view_update. rewrite Ev in Hi.
    unfold console_inv, serial_ready in *. cbn [fst snd] in *. by rewrite D. }
  exists sc, h'. do 2 (split; [done|]). intros Hh.
  destruct (handle_scancode_run _ b sc Hh Hk' Hb) as (s' & E' & He).
  exists s'. split; [|done].
  unfold keyboard_callback. rewrite (M_bind_run _ _ _ sc (update con (h', scr) w, b)); [done|].
  unfold world. apply (zoom_run fst_lens). cbn [view fst fst_lens].
  apply (zoom_run con). rewrite Ev. by apply hw_run.
Qed.
End refinement.

Fixpoint interrupts {HW} {PW : Ports HW} {W} (con : lens W (console HW)) (call : Z → list Z → M W (list Z))
    (n : nat) : M (W * kbd) unit :=
  match n with O => mret tt | S n' => _ ← keyboard_callback con call; interrupts con call n' end.

(** A world that is just the console, and a handler that ignores its line. *)
Definition con_only : lens (console sim_pc) (console sim_pc) := Lens id (λ c _, c).
#[export] Instance con_only_laws : LensLaws con_only.
Proof. by split. Qed.
Definition ignore_line (h : Z) (buf : list Z) : M (console sim_pc) (list Z) := mret buf.

Lemma ignore_line_ok : handler_ok con_only ignore_line.
Proof. intros h buf w Hi Hl Hb _. by exists buf, w. Qed.

(** Shift, [a], release, [b], Enter are about to arrive. *)
Definition typing : console sim_pc * kbd :=
  ((SimPc (with_cursor pc_reset 0) [42; 30; 170; 48; 28], Screen (replicate (Z.to_nat CELLS) 0) 7 0 0),
   Kbd (replicate (Z.to_nat LINE_MAX) 0) 0 0 0 1).

Lemma typing_inv : kbd_inv con_only typing.
Proof.
  split; [split; [apply length_replicate|]; split; [by apply Forall_replicate|]; split; [cbn; unfold LINE_MAX; lia|constructor]|].
  split; [|done]. split; [apply length_replicate|cbn; lia].
Qed.

(** ** Properties *)

(** C28. One keyboard interrupt is one step of the line editor: with the byte
    the port delivers, the key it means under the current modifiers (letters
    are capital when exactly one of shift and caps lock is on), the handler
    returns, the buffer, shift and caps lock are those of the editor, exactly
    the editor's echo is printed, and a completed line is handed to the
    registered handler as a terminated string, after which the line is empty. *)
Theorem keyboard_refines_editor {HW} {PW : Ports HW} {PC : PcPorts HW} {W} (con : lens W (console HW))
    {CL : LensLaws con} call (s : W * kbd) (Hcall : handler_ok con call) (Hinv : kbd_inv con s) :
  ∃ sc h' s', inb KBD_DATA_PORT (view con s.1).1 = Some (sc, h') ∧
    keyboard_callback con call s = Some (tt, s') ∧
    edited con call (meaning (truth (shift s.2)) (truth (caps s.2)) sc)
      (update con (h', (view con s.1).2) s.1, s.2) s'.
Proof.
  destruct (keyboard_callback_run con call s Hinv) as (sc & h' & E & _ & Hrun).
  destruct (Hrun (λ _, handler_handles con call _ _ Hcall)) as (s' & E' & He). by exists sc, h', s'.
Qed.

Lemma keyboard_refines_editor_witness :
  ∃ sc h' s', inb KBD_DATA_PORT typing.1.1 = Some (sc, h') ∧
    keyboard_callback con_only ignore_line typing = Some (tt, s') ∧
    edited con_only ignore_line (meaning false false sc) ((h', typing.1.2), typing.2) s'.
Proof.
  apply (@keyboard_refines_editor _ sim_pc_ports sim_pc_spec _ con_only con_only_laws ignore_line typing).
  - exact ignore_line_ok.
  - exact typing_inv.
Defined.

(** No sequence of scan codes, however long, overruns the line buffer: every
    interrupt returns, and at most 127 characters and a terminator are ever
    held. *)
Theorem keyboard_never_overruns {HW} {PW : Ports HW} {PC : PcPorts HW} {W} (con : lens W (console HW))
    {CL : LensLaws con} call n (s : W * kbd) (Hcall : handler_ok con call) (Hinv : kbd_inv con s) :
  ∃ s', interrupts con call n s = Some (tt, s') ∧ kbd_inv con s' ∧
        0 ≤ line_len s'.2 ≤ 127 ∧ length (line_buf s'.2) = 128%nat.
Proof.
  revert s Hinv. induction n as [|n IH]; intros s Hinv; cbn [interrupts].
  - exists s. split; [done|]. split; [done|]. destruct Hinv as [(Hl & _ & Hn & _) _].
    unfold LINE_MAX in *. split; [lia|]. by rewrite Hl.
  - destruct (keyboard_callback_run con call s Hinv) as (sc & h' & _ & _ & Hrun).
    destruct (Hrun (λ _, handler_handles con call _ _ Hcall)) as (s1 & E & He).
    rewrite (M_bind_run _ _ _ _ _ E). apply IH. unfold edited in He.
    destruct (edit _ _) as [[e o] sub]. apply He.
Qed.

Lemma keyboard_never_overruns_witness :
  ∃ s', interrupts con_only ignore_line 300 typing = Some (tt, s') ∧ kbd_inv con_only s' ∧
        0 ≤ line_len s'.2 ≤ 127 ∧ length (line_buf s'.2) = 128%nat.
Proof.
  apply (@keyboard_never_overruns _ sim_pc_ports sim_pc_spec _ con_only con_only_laws ignore_line 300 typing).
  - exact ignore_line_ok.
  - exact typing_inv.
Defined.

(** The five keys type [Ab] and submit it. *)
Example typing_Ab :
  (λ r, (line_len r.2.2, take 3 (line_buf r.2.2), sent (com1 (sim_dev r.2.1.1))))
    <$> interrupts con_only ignore_line 5 typing = Some (0, [65; 98; 0], [65; 98; 10]).
Proof. vm_compute. reflexivity. Qed.
