(* ===== verification/Alloc.v ===== *)
(** * The interface of the kernel heap

    What the scheduler, the fibers, the program loader and the shell rely on:
    [kmalloc] and [kfree] as operations on some heap state, and the promise
    that the blocks a client holds are its own.  The heap of mem/kheap.c is an
    instance. *)

From S2P Require Import Prelude Kheap.

Class Allocator (H : Type) := {
  a_malloc : Z → M H Z;
  a_free : Z → M H unit;
}.

(** [apart live p n]: the [n] bytes at [p] overlap no block of [live]. *)
Definition apart (live : gmap Z Z) (p n : Z) : Prop :=
  ∀ q m, live !! q = Some m → p + n ≤ q ∨ q + m ≤ p.

Class AllocatorSpec (H : Type) `{Allocator H} := {
  (** the heap, with the sizes of the blocks in use by address *)
  a_inv : H → gmap Z Z → Prop;
  a_malloc_spec h live n : a_inv h live → 0 < n ≤ 4294967288 →
    ∃ r h', a_malloc n h = Some (r, h') ∧
      ((r = 0 ∧ h' = h) ∨
       (HEAP_START < r ∧ r + n ≤ HEAP_END ∧ live !! r = None ∧ apart live r n ∧ a_inv h' (<[r := n]> live)));
  a_free_spec h live p n : a_inv h live → live !! p = Some n →
    ∃ h', a_free p h = Some (tt, h') ∧ a_inv h' (delete p live);
  a_held h live p n : a_inv h live → live !! p = Some n → HEAP_START < p ∧ p + n ≤ HEAP_END;
  a_apart h live p n q m : a_inv h live → live !! p = Some n → live !! q = Some m → p ≠ q →
    p + n ≤ q ∨ q + m ≤ p;
}.

(** ** The kernel heap *)

#[export] Instance kheap_allocator : Allocator kheap := {| a_malloc := kmalloc; a_free := kfree |}.

Lemma heap_inv_range s live p n : heap_inv (s, live) → live !! p = Some n →
  HEAP_START < p ∧ p + n ≤ HEAP_END.
Proof.
  intros (segs & Hok & _ & Hlive) Hp. destruct (Hlive _ _ Hp) as (sz & ? & Hin).
  pose proof (allocs_range _ _ _ _ _ (proj1 (proj2 (proj2 Hok))) Hin). unfold HDR in *. lia.
Qed.

Lemma heap_inv_apart s live p n q m : heap_inv (s, live) → live !! p = Some n → live !! q = Some m → p ≠ q →
  p + n ≤ q ∨ q + m ≤ p.
Proof.
  intros (segs & Hok & _ & Hlive) Hp Hq Hne.
  destruct (Hlive _ _ Hp) as (sz & ? & Hin), (Hlive _ _ Hq) as (tz & ? & Hin').
  destruct (allocs_disjoint _ _ _ _ _ _ _ (proj1 (proj2 (proj2 Hok))) Hin Hin') as [[= -> ->]|?]; [done|].
  unfold HDR in *. lia.
Qed.

Lemma small_u32 n : 0 < n ≤ 4294967288 → is_u32 n.
Proof. unfold is_u32. lia. Qed.
Lemma small_usable n : 0 < n ≤ 4294967288 → usable n = n.
Proof. intros Hn. unfold usable. by rewrite (proj2 (Z.leb_le _ _)) by lia. Qed.

Lemma kmalloc_fresh s live n r s' : heap_inv (s, live) → 0 < n ≤ 4294967288 →
  kmalloc n s = Some (r, s') → r ≠ 0 → live !! r = None.
Proof.
  intros (segs & Hok & Hsub & Hlive) Hn Hrun Hr. simpl in *.
  pose proof (kmalloc_run s segs n Hok (proj1 Hn) (small_u32 n Hn)) as Hk.
  destruct (first_fit _ _ _) as [[r0 segs']|] eqn:E; [|congruence].
  destruct Hk as (s0 & Hrun' & Hok'). rewrite Hrun in Hrun'. injection Hrun' as <- <-.
  destruct (first_fit_allocs _ _ _ _ _ E) as (bsz & _ & Hperm).
  pose proof (allocs_NoDup _ _ _ (proj1 (proj2 (proj2 Hok')))) as Hnd.
  rewrite Hperm in Hnd. apply NoDup_cons in Hnd as [Hfresh _].
  destruct (live !! r) as [m|] eqn:Em; [|done]. destruct (Hlive _ _ Em) as (sz & _ & Hin).
  destruct Hfresh. apply list_elem_of_fmap. by exists (r, sz).
Qed.

#[export] Instance kheap_allocator_spec : AllocatorSpec kheap.
Proof.
  refine {| a_inv s live := heap_inv (s, live) |}.
  - intros s live n Hinv Hn. cbn [a_malloc kheap_allocator].
    assert (∃ r s', kmalloc n s = Some (r, s') ∧ (r = 0 → s' = s)) as (r & s' & Hrun & Hz).
    { destruct Hinv as (segs & Hok & _). pose proof (kmalloc_run s segs n Hok (proj1 Hn) (small_u32 n Hn)) as Hk.
      destruct (first_fit _ _ _) as [[r0 segs']|] eqn:E; [|by eauto].
      destruct Hk as (s' & Hrun & Hok'). exists r0, s'. split; [done|]. intros ->.
      destruct (first_fit_allocs _ _ _ _ _ E) as (bsz & _ & Hperm).
      assert ((0, bsz) ∈ allocs HEAP_START segs') as Hin by (rewrite Hperm; left).
      pose proof (allocs_range _ _ _ _ _ (proj1 (proj2 (proj2 Hok'))) Hin). unfold HEAP_START, HDR in *. lia. }
    exists r, s'. split; [done|]. destruct (decide (r = 0)) as [->|Hr]; [left; auto|right].
    pose proof (heap_inv_malloc s live n r s' Hinv (small_u32 n Hn) Hrun) as Hinv'. rewrite (small_usable n Hn) in Hinv'.
    rewrite (proj2 (Z.eqb_neq r 0)) in Hinv' by done.
    pose proof (kmalloc_fresh s live n r s' Hinv Hn Hrun Hr) as Hfresh.
    destruct (heap_inv_range s' _ r n Hinv') as [? ?]; [apply lookup_insert_eq|].
    repeat split; try done. intros q m Hq. assert (r ≠ q) by congruence.
    apply (heap_inv_apart s' (<[r := n]> live)); [done|apply lookup_insert_eq|by rewrite lookup_insert_ne|done].
  - intros s live p n Hinv Hp. by apply (heap_inv_free s live p n).
  - intros s live p n. apply heap_inv_range.
  - intros s live p n q m. apply heap_inv_apart.
Defined.
