(* ===== verification/Cpu.v ===== *)
(** * The processor and the context switch (kernel/switch.asm)

    The registers a C function has to preserve, the stack pointer, the program
    counter and the interrupt flag, and the words of memory that stacks are
    made of.  [context_switch] is the assembly routine with the call that
    leads into it, instruction by instruction; it runs inside a larger state
    (a lens), where the word it saves the stack pointer to is a field of a
    structure or a variable.  Tasks and fibers use the same routine. *)

From S2P Require Import Prelude.

Record cpu := Cpu { r_ebx : Z; r_esi : Z; r_edi : Z; r_ebp : Z; r_esp : Z; r_eip : Z; r_if : bool }.

(** Stack words by address, and the registers. *)
Abbreviation machine := (gmap Z Z * cpu)%type.

(** [sp R v]: the registers with the stack pointer moved. *)
Definition sp (R : cpu) (v : Z) : cpu := Cpu (r_ebx R) (r_esi R) (r_edi R) (r_ebp R) v (r_eip R) (r_if R).

(** Stack instructions. *)
Definition set_sp (v : Z) : M machine unit := modify (λ m, (m.1, sp m.2 v)).
Definition get_sp : M machine Z := gets (λ m, r_esp m.2).
Definition ld_word (p : Z) : M machine Z := λ m, (λ v, (v, m)) <$> (m.1 !! p).
Definition st_word (p v : Z) : M machine unit := modify (λ m, (<[p := v]> m.1, m.2)).
Definition push (v : Z) : M machine unit :=
  p ← get_sp;
  _ ← set_sp (u32 (p - 4));
  st_word (u32 (p - 4)) v.
Definition pop : M machine Z :=
  p ← get_sp;
  v ← ld_word p;
  _ ← set_sp (u32 (p + 4));
  mret v.

(** The call and the first half of the routine, up to the store through
    [save_old_esp]: the address it goes to. *)
Definition save_context (a_resume save_old_esp new_esp : Z) : M machine Z :=
  _ ← push new_esp;
  _ ← push save_old_esp;
  _ ← push a_resume;
  r ← gets snd;
  _ ← push (r_ebx r);
  _ ← push (r_esi r);
  _ ← push (r_edi r);
  _ ← push (r_ebp r);
  p ← get_sp;
  ld_word (u32 (p + 20)).

(** Registers popped off a stack, and the return that follows. *)
Definition pop_context : M machine unit :=
  bp ← pop;
  di ← pop;
  si ← pop;
  bx ← pop;
  ip ← pop;
  modify (λ m, (m.1, Cpu bx si di bp (r_esp m.2) ip (r_if m.2))).

(** The rest. *)
Definition load_context : M machine unit :=
  p ← get_sp;
  sp ← ld_word (u32 (p + 24));
  _ ← set_sp sp;
  pop_context.

(** [l] finds the machine in the state, [store] writes the word at an address;
    [a_resume] is the instruction after the call. *)
Definition context_switch {S} (l : lens S machine) (store : Z → Z → M S unit) (a_resume save_old_esp new_esp : Z) : M S unit :=
  eax ← zoom l (save_context a_resume save_old_esp new_esp);
  p ← zoom l get_sp;
  _ ← store eax p;
  zoom l load_context.

(** ** Running the routine *)

(** The words pushed on the way out, lowest address first. *)
Definition frame (R : cpu) (a_resume prev nesp : Z) : list Z :=
  [r_ebp R; r_edi R; r_esi R; r_ebx R; a_resume; prev; nesp].

(** Store consecutive words from address [a] up. *)
Fixpoint poke (a : Z) (l : list Z) (W : gmap Z Z) : gmap Z Z :=
  match l with [] => W | v :: l' => <[a := v]> (poke (a + 4) l' W) end.

Lemma poke_lookup_other a l W p : p < a ∨ a + 4 * Z.of_nat (length l) ≤ p → poke a l W !! p = W !! p.
Proof.
  revert a. induction l as [|v l IH]; intros a Hp; [done|]. cbn [poke length] in *.
  rewrite lookup_insert_ne by lia. apply IH. lia.
Qed.

Lemma poke_lookup a l W i v : l !! i = Some v → poke a l W !! (a + 4 * Z.of_nat i) = Some v.
Proof.
  revert a i. induction l as [|x l IH]; intros a [|i] Hi; [done..| |]; cbn [poke].
  - injection Hi as ->. rewrite Z.mul_0_r, Z.add_0_r. apply lookup_insert_eq.
  - rewrite lookup_insert_ne by lia. rewrite <-(IH (a + 4) i Hi). f_equal. lia.
Qed.

(** The five words a switch pops. *)
Definition resumes (W : gmap Z Z) (e : Z) (bp di si bx ip : Z) : Prop :=
  ∀ i v, [bp; di; si; bx; ip] !! i = Some v → W !! (e + 4 * Z.of_nat i) = Some v.

Lemma push_run W R v e e' : e' = e - 4 → 4 ≤ e < 4294967296 →
  push v (W, sp R e) = Some (tt, (<[e' := v]> W, sp R e')).
Proof. intros -> Hr. unfold push, get_sp. rewrite bind_gets. cbn. by rewrite (u32_small (e - 4)) by lia. Qed.

Lemma ld_word_run W R p v : W !! p = Some v → ld_word p (W, R) = Some (v, (W, R)).
Proof. intros Hv. unfold ld_word. cbn [fst]. by rewrite Hv. Qed.

Lemma pop_run W R v e e' : e' = e + 4 → 0 ≤ e < 4294967292 → W !! e = Some v →
  pop (W, sp R e) = Some (v, (W, sp R e')).
Proof.
  intros -> Hr Hv. unfold pop, get_sp. rewrite bind_gets. cbn [snd r_esp sp].
  rewrite (M_bind_run _ _ _ _ _ (ld_word_run W _ e v Hv)). by rewrite (u32_small (e + 4)) by lia.
Qed.

(** The registers and the way back lie below the stack pointer. *)
Lemma save_context_run W R a_resume save nesp : let E := r_esp R in 28 ≤ E < 4294967296 →
  save_context a_resume save nesp (W, R) = Some (save, (poke (E - 28) (frame R a_resume save nesp) W, sp R (E - 28))).
Proof.
  intros E HE. pose proof (poke_lookup (E - 28) (frame R a_resume save nesp) W 5 save eq_refl) as Hf.
  assert (R = sp R E) as HR by (by destruct R). rewrite HR at 1. clearbody E.
  assert (poke (E - 28) (frame R a_resume save nesp) W =
    <[E - 28 := r_ebp R]> (<[E - 24 := r_edi R]> (<[E - 20 := r_esi R]> (<[E - 16 := r_ebx R]>
    (<[E - 12 := a_resume]> (<[E - 8 := save]> (<[E - 4 := nesp]> W))))))) as HP.
  { unfold frame. cbn [poke].
    replace (E - 28 + 4) with (E - 24) by lia. replace (E - 24 + 4) with (E - 20) by lia.
    replace (E - 20 + 4) with (E - 16) by lia. replace (E - 16 + 4) with (E - 12) by lia.
    replace (E - 12 + 4) with (E - 8) by lia. replace (E - 8 + 4) with (E - 4) by lia. done. }
  unfold save_context.
  rewrite (M_bind_run _ _ _ _ _ (push_run _ R _ E (E - 4) ltac:(lia) ltac:(lia))).
  rewrite (M_bind_run _ _ _ _ _ (push_run _ R _ (E - 4) (E - 8) ltac:(lia) ltac:(lia))).
  rewrite (M_bind_run _ _ _ _ _ (push_run _ R _ (E - 8) (E - 12) ltac:(lia) ltac:(lia))).
  rewrite bind_gets. cbn [snd r_ebx r_esi r_edi r_ebp sp].
  rewrite (M_bind_run _ _ _ _ _ (push_run _ R _ (E - 12) (E - 16) ltac:(lia) ltac:(lia))).
  rewrite (M_bind_run _ _ _ _ _ (push_run _ R _ (E - 16) (E - 20) ltac:(lia) ltac:(lia))).
  rewrite (M_bind_run _ _ _ _ _ (push_run _ R _ (E - 20) (E - 24) ltac:(lia) ltac:(lia))).
  rewrite (M_bind_run _ _ _ _ _ (push_run _ R _ (E - 24) (E - 28) ltac:(lia) ltac:(lia))).
  rewrite <-HP. unfold get_sp. rewrite bind_gets. cbn [snd r_esp sp]. rewrite (u32_small (E - 28 + 20)) by lia.
  by rewrite (ld_word_run _ _ _ _ Hf).
Qed.

Lemma pop_context_run W R nesp bp di si bx ip : 0 ≤ nesp < 4294967276 → resumes W nesp bp di si bx ip →
  pop_context (W, sp R nesp) = Some (tt, (W, Cpu bx si di bp (nesp + 20) ip (r_if R))).
Proof.
  intros Hn Hw. unfold pop_context.
  pose proof (Hw 0%nat bp eq_refl) as Hw0. rewrite Z.mul_0_r, Z.add_0_r in Hw0.
  rewrite (M_bind_run _ _ _ _ _ (pop_run W R bp nesp (nesp + 4) ltac:(lia) ltac:(lia) Hw0)).
  rewrite (M_bind_run _ _ _ _ _ (pop_run W R di (nesp + 4) (nesp + 8) ltac:(lia) ltac:(lia) (Hw 1%nat di eq_refl))).
  rewrite (M_bind_run _ _ _ _ _ (pop_run W R si (nesp + 8) (nesp + 12) ltac:(lia) ltac:(lia) (Hw 2%nat si eq_refl))).
  rewrite (M_bind_run _ _ _ _ _ (pop_run W R bx (nesp + 12) (nesp + 16) ltac:(lia) ltac:(lia) (Hw 3%nat bx eq_refl))).
  rewrite (M_bind_run _ _ _ _ _ (pop_run W R ip (nesp + 16) (nesp + 20) ltac:(lia) ltac:(lia) (Hw 4%nat ip eq_refl))).
  reflexivity.
Qed.

(** Control continues from the five words at [nesp]. *)
Lemma load_context_run W R E nesp bp di si bx ip : 0 ≤ E < 4294967272 → 0 ≤ nesp < 4294967276 →
  W !! (E + 24) = Some nesp → resumes W nesp bp di si bx ip →
  load_context (W, sp R E) = Some (tt, (W, Cpu bx si di bp (nesp + 20) ip (r_if R))).
Proof.
  intros HE Hn He Hw. unfold load_context, get_sp. rewrite bind_gets. cbn [snd r_esp sp]. rewrite (u32_small (E + 24)) by lia.
  rewrite (M_bind_run _ _ _ _ _ (ld_word_run W _ _ _ He)). unfold set_sp at 1. rewrite bind_modify. cbn [fst snd].
  by apply (pop_context_run W R).
Qed.

Lemma resumes_poke W a l e bp di si bx ip : resumes W e bp di si bx ip →
  e + 20 ≤ a ∨ a + 4 * Z.of_nat (length l) ≤ e → resumes (poke a l W) e bp di si bx ip.
Proof.
  intros Hw Hd i v Hi. pose proof (lookup_lt_Some _ _ _ Hi) as Hlt. cbn in Hlt. rewrite poke_lookup_other by lia. by apply Hw.
Qed.

(** The whole switch: the registers and the way back are stored below the stack
    pointer, the stack pointer goes to [save], and control continues from the
    five words at [nesp]. *)
Section switch.
Context {S : Type} (l : lens S machine) {LL : LensLaws l} (store : Z → Z → M S unit).
(** Storing the stack pointer does not disturb stacks and registers. *)
Variable stored : Z → Z → S → S.
Hypothesis stored_view : ∀ a v s, view l (stored a v s) = view l s.

Lemma context_switch_run a_resume s save nesp bp di si bx ip :
  let R := (view l s).2 in let E := r_esp R in
  let W' := poke (E - 28) (frame R a_resume save nesp) (view l s).1 in
  28 ≤ E < 4294967296 → 0 ≤ nesp < 4294967276 → nesp + 20 ≤ E - 28 ∨ E ≤ nesp →
  resumes (view l s).1 nesp bp di si bx ip →
  (let s1 := update l (W', sp R (E - 28)) s in store save (E - 28) s1 = Some (tt, stored save (E - 28) s1)) →
  context_switch l store a_resume save nesp s =
    Some (tt, update l (W', Cpu bx si di bp (nesp + 20) ip (r_if R)) (stored save (E - 28) (update l (W', sp R (E - 28)) s))).
Proof.
  intros R E W' HE Hn Hdis Hw Hst. unfold context_switch.
  assert (save_context a_resume save nesp (view l s) = Some (save, (W', sp R (E - 28)))) as E1.
  { rewrite (surjective_pairing (view l s)). by apply save_context_run. }
  rewrite (M_bind_run _ _ _ _ _ (zoom_run l _ _ _ _ E1)). set (s1 := update l _ s) in *.
  assert (view l s1 = (W', sp R (E - 28))) as V1 by apply view_update.
  assert (get_sp (view l s1) = Some (E - 28, view l s1)) as E2 by (by rewrite V1).
  rewrite (M_bind_run _ _ _ _ _ (zoom_run l _ _ _ _ E2)), update_view.
  rewrite (M_bind_run _ _ _ _ _ Hst). apply zoom_run. rewrite stored_view, V1.
  apply load_context_run; [lia|done| |apply resumes_poke; [done|cbn [length frame]; lia]].
  pose proof (poke_lookup (E - 28) (frame R a_resume save nesp) (view l s).1 6 nesp eq_refl) as Hf.
  subst W'. rewrite <-Hf. f_equal; lia.
Qed.
End switch.
