(* ===== verification/Task.v ===== *)
(** * Tasks and the scheduler (kernel/task.c, kernel/task.h)

    State: the heap (behind the interface [Allocator]), the task structures by
    address, the words of the stacks by address and the registers (file Cpu),
    the ring-0 stack pointer of the TSS, and the scheduler's variables.  A
    switch ends with the program counter at wherever the other task goes on. *)

From S2P Require Import Prelude Kheap CString Alloc Cpu.

Definition STACK_SIZE : Z := 16384.
Definition KSTACK_SIZE : Z := 8192.
Definition TASK_NAME_MAX : nat := 32.
Definition SIZEOF_TASK : Z := 64.

Definition TASK_RUNNING : Z := 0.
Definition TASK_READY : Z := 1.
Definition TASK_DEAD : Z := 2.

(** [task_t]; [esp] is its first field, so the address of the structure is
    also the address of [esp]. *)
Record task_t := Task {
  esp : Z; stack_base : Z; kstack_base : Z; kstack_top : Z; id : Z; name : list Z;
  state : Z; entry : Z; next : Z }.

Record sched (H : Type) := Sched {
  heap : H; tasks : gmap Z task_t; words : gmap Z Z; regs : cpu; tss_esp0 : Z;
  current : Z; head : Z; next_id : Z; scheduling_on : Z }.
Arguments Sched {H}. Arguments heap {H}. Arguments tasks {H}. Arguments words {H}. Arguments regs {H}.
Arguments tss_esp0 {H}. Arguments current {H}. Arguments head {H}. Arguments next_id {H}. Arguments scheduling_on {H}.

Definition set_esp (t : task_t) v := Task v (stack_base t) (kstack_base t) (kstack_top t) (id t) (name t) (state t) (entry t) (next t).
Definition set_state (t : task_t) v := Task (esp t) (stack_base t) (kstack_base t) (kstack_top t) (id t) (name t) v (entry t) (next t).
Definition set_next (t : task_t) v := Task (esp t) (stack_base t) (kstack_base t) (kstack_top t) (id t) (name t) (state t) (entry t) v.

Definition kstack_top_of (base : Z) : Z :=
  if truth base then Z.land (u32 (base + KSTACK_SIZE)) (u32 (Z.lnot 15)) else 0.

Section sched.
Context {H : Type} {AH : Allocator H}.
Abbreviation S := (sched H).

(** Code addresses: [task_exit], [task_bootstrap], and the instruction after
    the call of [context_switch]; and what fresh memory holds. *)
Variables a_task_exit a_task_bootstrap a_resume : Z.
Variable raw : task_t.

Definition on_heap {A} (c : M H A) : M S A := λ s,
  match c (heap s) with
  | Some (a, h) => Some (a, Sched h (tasks s) (words s) (regs s) (tss_esp0 s) (current s) (head s) (next_id s) (scheduling_on s))
  | None => None
  end.
Definition ld_task (p : Z) : M S task_t := λ s, (λ t, (t, s)) <$> (tasks s !! p).
Definition set_tasks (f : gmap Z task_t → gmap Z task_t) : M S unit := modify (λ s,
  Sched (heap s) (f (tasks s)) (words s) (regs s) (tss_esp0 s) (current s) (head s) (next_id s) (scheduling_on s)).
Definition upd_task (p : Z) (f : task_t → task_t) : M S unit := t ← ld_task p; set_tasks <[p := f t]>.
Definition set_words (f : gmap Z Z → gmap Z Z) : M S unit := modify (λ s,
  Sched (heap s) (tasks s) (f (words s)) (regs s) (tss_esp0 s) (current s) (head s) (next_id s) (scheduling_on s)).
Definition set_regs (f : cpu → cpu) : M S unit := modify (λ s,
  Sched (heap s) (tasks s) (words s) (f (regs s)) (tss_esp0 s) (current s) (head s) (next_id s) (scheduling_on s)).
Definition tss_set_kernel_stack (v : Z) : M S unit := modify (λ s,
  Sched (heap s) (tasks s) (words s) (regs s) v (current s) (head s) (next_id s) (scheduling_on s)).
Definition set_current (p : Z) : M S unit := modify (λ s,
  Sched (heap s) (tasks s) (words s) (regs s) (tss_esp0 s) p (head s) (next_id s) (scheduling_on s)).
Definition set_head (p : Z) : M S unit := modify (λ s,
  Sched (heap s) (tasks s) (words s) (regs s) (tss_esp0 s) (current s) p (next_id s) (scheduling_on s)).
Definition set_next_id (v : Z) : M S unit := modify (λ s,
  Sched (heap s) (tasks s) (words s) (regs s) (tss_esp0 s) (current s) (head s) v (scheduling_on s)).
Definition set_scheduling (v : Z) : M S unit := modify (λ s,
  Sched (heap s) (tasks s) (words s) (regs s) (tss_esp0 s) (current s) (head s) (next_id s) v).

(** [cli] and [sti] *)
Definition set_if (b : bool) : M S unit :=
  set_regs (λ r, Cpu (r_ebx r) (r_esi r) (r_edi r) (r_ebp r) (r_esp r) (r_eip r) b).

(** Where the stacks and the registers are. *)
Definition cpu_lens : lens S machine := Lens (λ s, (words s, regs s)) (λ m s,
  Sched (heap s) (tasks s) m.1 m.2 (tss_esp0 s) (current s) (head s) (next_id s) (scheduling_on s)).

(** [context_switch(&t->esp, new_esp)] for a task [t]. *)
Definition switch_task : Z → Z → M S unit :=
  context_switch cpu_lens (λ p v, upd_task p (λ t, set_esp t v)) a_resume.

Definition new_id : M S Z :=
  n ← gets next_id; _ ← set_next_id (u32 (n + 1)); mret n.

Definition copy_name (nm : list Z) : M S (list Z) :=
  bs ← lift (strncpy nm (TASK_NAME_MAX - 1)); mret (bs ++ [0]).

Definition tasking_init : M S unit :=
  c ← on_heap (a_malloc SIZEOF_TASK);
  if negb (truth c) then fault
  else
    _ ← set_current c;
    i ← new_id;
    nm ← copy_name (lit "kernel");
    k ← on_heap (a_malloc KSTACK_SIZE);
    _ ← set_tasks <[c := Task (esp raw) 0 k (kstack_top_of k) i nm TASK_RUNNING 0 c]>;
    _ ← set_head c;
    _ ← set_scheduling 1;
    tss_set_kernel_stack (kstack_top_of k).

Definition task_create (nm : list Z) (fn : Z) : M S Z :=
  t ← on_heap (a_malloc SIZEOF_TASK);
  if negb (truth t) then mret 0
  else
    sb ← on_heap (a_malloc STACK_SIZE);
    if negb (truth sb) then _ ← on_heap (a_free t); mret 0
    else
      kb ← on_heap (a_malloc KSTACK_SIZE);
      if negb (truth kb) then _ ← on_heap (a_free sb); _ ← on_heap (a_free t); mret 0
      else
        i ← new_id;
        cname ← copy_name nm;
        let sp := u32 (sb + STACK_SIZE) in
        _ ← set_words <[u32 (sp - 4) := a_task_exit]>;
        _ ← set_words <[u32 (sp - 8) := a_task_bootstrap]>;
        _ ← set_words <[u32 (sp - 12) := 0]>;
        _ ← set_words <[u32 (sp - 16) := 0]>;
        _ ← set_words <[u32 (sp - 20) := 0]>;
        _ ← set_words <[u32 (sp - 24) := 0]>;
        h ← gets head;
        th ← ld_task h;
        _ ← set_tasks <[t := Task (u32 (sp - 24)) sb kb (kstack_top_of kb) i cname TASK_READY fn (next th)]>;
        _ ← upd_task h (λ th, set_next th t);
        mret t.

(** [while (next->state == TASK_DEAD && next != current) next = next->next;] *)
Fixpoint skip_dead (n : nat) (nx : Z) : M S Z :=
  match n with
  | O => fault
  | Datatypes.S n' =>
      t ← ld_task nx;
      c ← gets current;
      if (state t =? TASK_DEAD) && negb (nx =? c) then skip_dead n' (next t) else mret nx
  end.

(** Whether control went to another task. *)
Definition schedule : M S bool :=
  on ← gets scheduling_on;
  if negb (truth on) then mret false
  else
    prev ← gets current;
    tp ← ld_task prev;
    n ← gets (λ s, Datatypes.S (base.size (tasks s)));
    nx ← skip_dead n (next tp);
    if nx =? prev then mret false
    else
      tp ← ld_task prev;
      _ ← (if state tp =? TASK_RUNNING then upd_task prev (λ t, set_state t TASK_READY) else mret tt);
      _ ← upd_task nx (λ t, set_state t TASK_RUNNING);
      _ ← set_current nx;
      t ← ld_task nx;
      _ ← tss_set_kernel_stack (kstack_top t);
      _ ← switch_task prev (esp t);
      mret true.

(** When control went elsewhere, [sti] is executed on the way back. *)
Definition yield : M S bool :=
  _ ← set_if false;
  b ← schedule;
  _ ← (if b : bool then mret tt else set_if true);
  mret b.

(** [false]: nothing else can run, the processor halts for good. *)
Definition task_exit : M S bool :=
  _ ← set_if false;
  c ← gets current;
  _ ← upd_task c (λ t, set_state t TASK_DEAD);
  _ ← set_scheduling 1;
  schedule.

(** A new task starts here: [sti], then its entry function. *)
Definition task_bootstrap : M S Z :=
  _ ← set_if true; c ← gets current; t ← ld_task c; mret (entry t).

(** [do { body(t); t = t->next; } while (t != head)]; the callback works on a
    larger state. *)
Fixpoint ring_loop {T} (l : lens T S) (n : nat) (t : Z) (cb : Z → M T unit) : M T unit :=
  match n with
  | O => fault
  | Datatypes.S n' =>
      _ ← cb t;
      tk ← zoom l (ld_task t);
      h ← zoom l (gets head);
      if next tk =? h then mret tt else ring_loop l n' (next tk) cb
  end.
Definition task_foreach {T} (l : lens T S) (cb : Z → M T unit) : M T unit :=
  n ← zoom l (gets (λ s, base.size (tasks s))); h ← zoom l (gets head); ring_loop l n h cb.

Fixpoint count_loop (n : nat) (t acc : Z) : M S Z :=
  match n with
  | O => fault
  | Datatypes.S n' =>
      tk ← ld_task t;
      let acc := if negb (state tk =? TASK_DEAD) then acc + 1 else acc in
      h ← gets head;
      if next tk =? h then mret acc else count_loop n' (next tk) acc
  end.
Definition task_count : M S Z :=
  n ← gets (λ s, base.size (tasks s)); h ← gets head; count_loop n h 0.

Definition task_current : M S Z := gets current.
End sched.
