(* ===== verification/TaskSwitch.v ===== *)
(** * The context switch and the ring of tasks

    A switch between two tasks ([switch_task_run]), the circular list of tasks seen as a list that starts at the current task
    ([ring_at]), and what the search of [schedule] finds on it. *)

From S2P Require Import Prelude Kheap CString Alloc Cpu Task.

(** ** The switch *)

(** The state with other tasks, stack words and registers. *)
Definition with_cpu {H} (s : sched H) (T : gmap Z task_t) (W : gmap Z Z) (R : cpu) : sched H :=
  Sched (heap s) T W R (tss_esp0 s) (current s) (head s) (next_id s) (scheduling_on s).

Section switch.
Context {H : Type} {AH : Allocator H}.
Implicit Types (s : sched H) (T : gmap Z task_t) (W : gmap Z Z) (R : cpu).

Lemma with_cpu_id s : with_cpu s (tasks s) (words s) (regs s) = s.
Proof. by destruct s. Qed.

Lemma upd_task_run s T W R p t f : T !! p = Some t →
  upd_task p f (with_cpu s T W R) = Some (tt, with_cpu s (<[p := f t]> T) W R).
Proof.
  intros Ht. unfold upd_task. assert (ld_task p (with_cpu s T W R) = Some (t, with_cpu s T W R)) as E.
  { unfold ld_task. cbn [tasks with_cpu]. by rewrite Ht. }
  by rewrite (M_bind_run _ _ _ _ _ E).
Qed.

Lemma upd_task_at s p t f : tasks s !! p = Some t →
  upd_task p f s = Some (tt, with_cpu s (<[p := f t]> (tasks s)) (words s) (regs s)).
Proof. intros Ht. rewrite <-(with_cpu_id s) at 1. by rewrite (upd_task_run _ _ _ _ p t). Qed.

#[export] Instance cpu_lens_laws : LensLaws (cpu_lens (H := H)).
Proof. split; [by intros [] []|by intros [] [] []|by intros []]. Qed.

(** Control leaves task [prev], whose registers and way back are stored below
    its stack pointer, and continues from the five words at [nesp]. *)
Lemma switch_task_run a_resume s T W R prev nesp t bp di si bx ip :
  let E := r_esp R in
  28 ≤ E < 4294967296 → 0 ≤ nesp < 4294967276 → T !! prev = Some t →
  nesp + 20 ≤ E - 28 ∨ E ≤ nesp → resumes W nesp bp di si bx ip →
  switch_task a_resume prev nesp (with_cpu s T W R)
  = Some (tt, with_cpu s (<[prev := set_esp t (E - 28)]> T) (poke (E - 28) (frame R a_resume prev nesp) W)
                (Cpu bx si di bp (nesp + 20) ip (r_if R))).
Proof.
  intros E HE Hn Ht Hdis Hw.
  set (stored := λ (p v : Z) (s : sched H), with_cpu s (<[p := set_esp t v]> (tasks s)) (words s) (regs s)).
  apply (context_switch_run cpu_lens (λ p v, upd_task p (λ t, set_esp t v)) stored (λ _ _ _, eq_refl) a_resume
    (with_cpu s T W R) prev nesp bp di si bx ip HE Hn Hdis Hw).
  exact (upd_task_at (with_cpu s T (poke (E - 28) (frame R a_resume prev nesp) W) (sp R (E - 28))) prev t (λ t, set_esp t (E - 28)) Ht).
Qed.
End switch.

(** ** The ring *)

(** The tasks of [l] are linked in order, the last one to [z]. *)
Fixpoint chain (m : gmap Z task_t) (l : list Z) (z : Z) : Prop :=
  match l with
  | [] => True
  | a :: l' => (∃ t, m !! a = Some t ∧ next t = hd z l') ∧ chain m l' z
  end.

(** All tasks, from [c] on in ring order. *)
Definition ring_at (m : gmap Z task_t) (c : Z) (r : list Z) : Prop :=
  NoDup (c :: r) ∧ chain m (c :: r) c ∧ (∀ a, is_Some (m !! a) ↔ a ∈ c :: r).

Definition alive (m : gmap Z task_t) (a : Z) : bool :=
  match m !! a with Some t => negb (state t =? TASK_DEAD) | None => false end.

(** The first task of [l] that is not dead. *)
Fixpoint first_alive (m : gmap Z task_t) (l : list Z) : option Z :=
  match l with [] => None | a :: l' => if alive m a then Some a else first_alive m l' end.

Lemma first_alive_Some m l a : first_alive m l = Some a →
  ∃ d r, l = d ++ a :: r ∧ alive m a = true ∧ Forall (λ b, alive m b = false) d.
Proof.
  induction l as [|b l IH]; simpl; [done|]. destruct (alive m b) eqn:E.
  - intros [= <-]. exists [], l. repeat split; [done|constructor].
  - intros (d & r & -> & Ha & Hd)%IH. exists (b :: d), r. repeat split; [done|]. by constructor.
Qed.

Lemma first_alive_None m l : first_alive m l = None → Forall (λ b, alive m b = false) l.
Proof. induction l as [|b l IH]; simpl; [constructor|]. destruct (alive m b) eqn:E; [done|]. constructor; auto. Qed.

Lemma first_alive_app m d a r : alive m a = true → Forall (λ b, alive m b = false) d →
  first_alive m (d ++ a :: r) = Some a.
Proof. intros Ha. induction 1 as [|b d Hb _ IH]; simpl; [by rewrite Ha|by rewrite Hb]. Qed.

Lemma chain_app m l1 l2 z : chain m (l1 ++ l2) z ↔ chain m l1 (hd z l2) ∧ chain m l2 z.
Proof.
  induction l1 as [|a l1 IH]; [simpl; tauto|]. cbn [app chain]. rewrite IH.
  destruct l1; simpl; tauto.
Qed.

(** Changes that leave the links alone. *)
Definition same_links (m m' : gmap Z task_t) : Prop := ∀ a, next <$> m !! a = next <$> m' !! a.

Lemma chain_links m m' l z : same_links m m' → chain m l z → chain m' l z.
Proof.
  intros Hs. induction l as [|a l IH]; [done|]. intros [(t & Ht & Hn) Hc]. split; [|auto].
  specialize (Hs a). rewrite Ht in Hs. destruct (m' !! a) as [t'|]; [|done].
  exists t'. split; [done|]. simpl in Hs. congruence.
Qed.

Lemma ring_links m m' c r : same_links m m' → ring_at m c r → ring_at m' c r.
Proof.
  intros Hs (Hnd & Hc & Hdom). split; [done|]. split; [by eapply chain_links|].
  intros a. rewrite <-Hdom. specialize (Hs a). destruct (m !! a), (m' !! a); simpl in *; naive_solver.
Qed.

Lemma same_links_insert m a t t' : m !! a = Some t → next t' = next t → same_links m (<[a := t']> m).
Proof.
  intros Ht Hn b. destruct (decide (a = b)) as [<-|].
  - rewrite lookup_insert_eq, Ht. simpl. congruence.
  - by rewrite lookup_insert_ne.
Qed.

Lemma same_links_trans m1 m2 m3 : same_links m1 m2 → same_links m2 m3 → same_links m1 m3.
Proof. intros A B a. by rewrite A. Qed.

(** The ring read from another of its tasks. *)
Lemma ring_rotate m c d a r : ring_at m c (d ++ a :: r) → ring_at m a (r ++ c :: d).
Proof.
  intros (Hnd & Hc & Hdom). assert (c :: d ++ a :: r = (c :: d) ++ a :: r) as E by done.
  rewrite E in Hnd, Hc. assert (a :: r ++ c :: d ≡ₚ (c :: d) ++ a :: r) as HP.
  { rewrite (Permutation_app_comm (c :: d)). done. }
  split; [by rewrite HP|]. split.
  - apply chain_app in Hc as [H1 H2]. change (a :: r ++ c :: d) with ((a :: r) ++ c :: d).
    apply chain_app. done.
  - intros b. rewrite HP. apply Hdom.
Qed.

(** A new task [t] after [h]. *)
Lemma chain_insert m l1 h l2 z t th tn : NoDup (l1 ++ h :: l2) → t ∉ l1 ++ h :: l2 →
  m !! h = Some th → next tn = next th → chain m (l1 ++ h :: l2) z →
  chain (<[h := set_next th t]> (<[t := tn]> m)) (l1 ++ h :: t :: l2) z.
Proof.
  intros Hnd Hf Hh Hn Hc. apply chain_app in Hc as [H1 [(th' & Hth & Hnx) H2]].
  assert (∀ l z, h ∉ l → t ∉ l → chain m l z → chain (<[h := set_next th t]> (<[t := tn]> m)) l z) as Hfr.
  { clear. intros l z. induction l as [|a l IH]; [done|]. intros Hh Ht [(ta & Ha & Hna) Hc].
    split; [|apply IH; set_solver]. exists ta. rewrite !lookup_insert_ne by set_solver. done. }
  apply NoDup_app in Hnd as (_ & Hd & Hnd). apply NoDup_cons in Hnd as [Hh2 _].
  apply chain_app. split; [|split; [|split]].
  - simpl. apply Hfr; [|set_solver|done]. intros Hin. apply (Hd h Hin). left.
  - exists (set_next th t). by rewrite lookup_insert_eq.
  - exists tn. rewrite lookup_insert_ne by set_solver. rewrite lookup_insert_eq. split; [done|]. congruence.
  - apply Hfr; [done|set_solver|done].
Qed.

Section search.
Context {H : Type} {AH : Allocator H}.
Implicit Types s : sched H.

Lemma ld_task_run s p t : tasks s !! p = Some t → ld_task p s = Some (t, s).
Proof. intros Ht. unfold ld_task. by rewrite Ht. Qed.

(** The search ends at the first task that can run, or back at the current one. *)
Lemma skip_dead_run n r s : chain (tasks s) r (current s) → is_Some (tasks s !! current s) →
  current s ∉ r → (length r < n)%nat →
  skip_dead n (hd (current s) r) s = Some (default (current s) (first_alive (tasks s) r), s).
Proof.
  intros Hc [tc Htc]. revert n Hc. induction r as [|a r IH]; intros [|n] Hc Hnin Hlen; simpl in Hlen; try lia;
    cbn [hd skip_dead first_alive].
  - rewrite (M_bind_run _ _ _ _ _ (ld_task_run s _ tc Htc)), bind_gets, Z.eqb_refl, andb_false_r. done.
  - destruct Hc as [(t & Ht & Hn) Hc].
    rewrite (M_bind_run _ _ _ _ _ (ld_task_run s _ t Ht)), bind_gets. unfold alive. rewrite Ht.
    destruct (Z.eqb_spec a (current s)) as [->|]; [set_solver|]. rewrite andb_true_r.
    destruct (state t =? TASK_DEAD); simpl; [|done]. rewrite Hn. apply IH; [done|set_solver|lia].
Qed.

Lemma ring_size m c r : ring_at m c r → base.size m = Datatypes.S (length r).
Proof.
  intros (Hnd & _ & Hdom).
  assert (dom m = list_to_set (C := gset Z) (c :: r)) as E.
  { apply set_eq. intros a. by rewrite elem_of_dom, elem_of_list_to_set, Hdom. }
  by rewrite <-(size_dom (D := gset Z)), E, size_list_to_set.
Qed.
End search.
