(* ===== verification/TaskInv.v ===== *)
(** * The invariant of the scheduler

    [sched_ok]: the tasks form one ring through the current task; their
    structures and stacks are separate blocks of the heap; every task that
    waits has, on its own stack, the frame a switch will restore; the TSS
    names the trap stack of the current task.  Switching, creating and ending
    tasks keep it. *)

From S2P Require Import Prelude Kheap CString Alloc Cpu Task TaskSwitch.

Section inv.
Context {H : Type} {AH : Allocator H} {AS : AllocatorSpec H}.
Variables a_task_exit a_task_bootstrap a_resume : Z.
(** The stack the kernel was started on. *)
Variables boot_lo boot_hi : Z.
Implicit Types (s : sched H) (t : task_t) (a : Z) (live : gmap Z Z).

(** Where the stack of a task lies: the initial task runs on the boot stack. *)
Definition stack_lo (h a : Z) (t : task_t) : Z := if decide (a = h) then boot_lo else stack_base t.
Definition stack_hi (h a : Z) (t : task_t) : Z := if decide (a = h) then boot_hi else stack_base t + STACK_SIZE.

(** Blocks of the heap that belong to a task. *)
Definition owns (live : gmap Z Z) (h a : Z) (t : task_t) : Prop :=
  live !! a = Some SIZEOF_TASK ∧ kstack_top t = kstack_top_of (kstack_base t) ∧
  (a = h → kstack_base t = 0 ∨ live !! kstack_base t = Some KSTACK_SIZE) ∧
  (a ≠ h → live !! stack_base t = Some STACK_SIZE ∧ live !! kstack_base t = Some KSTACK_SIZE).

Definition separate (h a b : Z) (ta tb : task_t) : Prop :=
  (a ≠ h → b ≠ h → stack_base ta ≠ stack_base tb) ∧
  (kstack_base ta = kstack_base tb → kstack_base ta = 0).

(** The five words a switch pops lie on the task's own stack. *)
Definition waiting (W : gmap Z Z) (h a : Z) (t : task_t) : Prop :=
  stack_lo h a t ≤ esp t ∧ esp t + 20 ≤ stack_hi h a t ∧
  ∀ i, (i < 5)%nat → is_Some (W !! (esp t + 4 * Z.of_nat i)).

(** [st] is the state of the current task. *)
Record sched_ok (st : Z) (s : sched H) (live : gmap Z Z) : Prop := {
  so_ring : ∃ r, ring_at (tasks s) (current s) r ∧ head s ∈ current s :: r;
  so_state : ∃ t, tasks s !! current s = Some t ∧ state t = st ∧ tss_esp0 s = kstack_top t ∧
    stack_lo (head s) (current s) t ≤ r_esp (regs s) ≤ stack_hi (head s) (current s) t;
  so_others : ∀ a t, tasks s !! a = Some t → a ≠ current s →
    state t = TASK_DEAD ∨ state t = TASK_READY ∧ waiting (words s) (head s) a t;
  so_on : truth (scheduling_on s) = true;
  so_heap : a_inv (heap s) live;
  so_owns : ∀ a t, tasks s !! a = Some t → owns live (head s) a t;
  so_separate : ∀ a b ta tb, tasks s !! a = Some ta → tasks s !! b = Some tb → a ≠ b →
    separate (head s) a b ta tb;
}.

(** There is room on the stack for the switch. *)
Definition has_room (s : sched H) : Prop := ∃ t, tasks s !! current s = Some t ∧
  stack_lo (head s) (current s) t + 28 ≤ r_esp (regs s).

(** What the initial task's stack has to be. *)
Definition boot_ok : Prop := 0 ≤ boot_lo ∧ boot_lo ≤ boot_hi ∧ boot_hi ≤ HEAP_START.
Hypothesis Hboot : boot_ok.

Lemma stack_bounds st s live a t : sched_ok st s live → tasks s !! a = Some t →
  0 ≤ stack_lo (head s) a t ∧ stack_hi (head s) a t ≤ HEAP_END.
Proof.
  intros Hok Ht. destruct (so_owns _ _ _ Hok a t Ht) as (_ & _ & _ & Ho). unfold stack_lo, stack_hi.
  destruct Hboot as (? & ? & ?). unfold HEAP_END, HEAP_SIZE, HEAP_START in *. case_decide; [lia|].
  destruct Ho as [Ho _]; [done|]. pose proof (a_held _ _ _ _ (so_heap _ _ _ Hok) Ho). unfold HEAP_END, HEAP_SIZE, HEAP_START in *. lia.
Qed.

Lemma stacks_apart st s live a b ta tb : sched_ok st s live → tasks s !! a = Some ta → tasks s !! b = Some tb →
  a ≠ b → stack_hi (head s) a ta ≤ stack_lo (head s) b tb ∨ stack_hi (head s) b tb ≤ stack_lo (head s) a ta.
Proof.
  intros Hok Ha Hb Hne. pose proof (so_heap _ _ _ Hok) as Hh.
  destruct (so_owns _ _ _ Hok a ta Ha) as (_ & _ & _ & Oa), (so_owns _ _ _ Hok b tb Hb) as (_ & _ & _ & Ob).
  destruct (so_separate _ _ _ Hok a b ta tb Ha Hb Hne) as [Hsep _]. destruct Hboot as (? & ? & ?).
  unfold stack_lo, stack_hi. repeat case_decide; subst; try done.
  - destruct Ob as [Ob _]; [done|]. pose proof (a_held _ _ _ _ Hh Ob). left. lia.
  - destruct Oa as [Oa _]; [done|]. pose proof (a_held _ _ _ _ Hh Oa). right. lia.
  - destruct Oa as [Oa _], Ob as [Ob _]; [done..|]. exact (a_apart _ _ _ _ _ _ Hh Oa Ob (Hsep ltac:(done) ltac:(done))).
Qed.

(** ** Switching *)

Definition demote (t : task_t) : task_t := if state t =? TASK_RUNNING then set_state t TASK_READY else t.

(** [s] after control has gone from the current task to [a]: the five words
    that waited for it are its registers. *)
Definition switched (s : sched H) (a : Z) (tp ta : task_t) (R : cpu) : sched H :=
  Sched (heap s)
    (<[current s := set_esp (demote tp) (r_esp (regs s) - 28)]> (<[a := set_state ta TASK_RUNNING]> (tasks s)))
    (poke (r_esp (regs s) - 28) (frame (regs s) a_resume (current s) (esp ta)) (words s))
    R (kstack_top ta) a (head s) (next_id s) (scheduling_on s).

Definition restored (s : sched H) (ta : task_t) : cpu :=
  let w i := default 0 (words s !! (esp ta + 4 * i)) in
  Cpu (w 3) (w 2) (w 1) (w 0) (esp ta + 20) (w 4) (r_if (regs s)).

Lemma schedule_run st s live r : sched_ok st s live → has_room s → ring_at (tasks s) (current s) r →
  match first_alive (tasks s) r with
  | None => schedule a_resume s = Some (false, s)
  | Some a => ∃ tp ta, tasks s !! current s = Some tp ∧ tasks s !! a = Some ta ∧ a ≠ current s ∧
      waiting (words s) (head s) a ta ∧
      schedule a_resume s = Some (true, switched s a tp ta (restored s ta))
  end.
Proof.
  intros Hok (tp & Htp & Hroom) Hring. pose proof Hring as (Hnd & [(tp' & Htp' & Hnx) Hch] & Hdom).
  rewrite Htp in Htp'. injection Htp' as <-.
  assert (length r < Datatypes.S (base.size (tasks s)))%nat as Hlen by (rewrite (ring_size _ _ _ Hring); lia).
  assert (current s ∉ r) as Hnin by (by apply NoDup_cons in Hnd as [? _]).
  unfold schedule. rewrite bind_gets, (so_on _ _ _ Hok). cbn [negb].
  rewrite bind_gets, (M_bind_run _ _ _ _ _ (ld_task_run s _ tp Htp)), bind_gets, Hnx.
  rewrite (M_bind_run _ _ _ _ _ (skip_dead_run _ r s Hch (mk_is_Some _ _ Htp) Hnin Hlen)).
  destruct (first_alive (tasks s) r) as [a|] eqn:Ea; cbn [from_option]; [|by rewrite Z.eqb_refl].
  apply first_alive_Some in Ea as (d & r' & -> & Hal & _).
  assert (a ≠ current s) as Hne by set_solver.
  change (Datatypes.id a) with a. rewrite (proj2 (Z.eqb_neq _ _) Hne). unfold alive in Hal. destruct (tasks s !! a) as [ta|] eqn:Hta; [|done].
  destruct (so_others _ _ _ Hok a ta Hta Hne) as [Hd|[_ Hw]]; [by rewrite Hd in Hal|].
  exists tp, ta. do 4 (split; [done|]).
  rewrite (M_bind_run _ _ _ _ _ (ld_task_run s _ tp Htp)).
  assert ((if state tp =? TASK_RUNNING then upd_task (current s) (λ t, set_state t TASK_READY) else mret tt) s
    = Some (tt, with_cpu s (<[current s := demote tp]> (tasks s)) (words s) (regs s))) as E1.
  { unfold demote. destruct (state tp =? TASK_RUNNING).
    - rewrite <-(with_cpu_id s) at 2. by rewrite (upd_task_run _ _ _ _ _ tp).
    - rewrite (insert_id (tasks s)) by done. by rewrite with_cpu_id. }
  rewrite (M_bind_run _ _ _ _ _ E1).
  assert (<[current s := demote tp]> (tasks s) !! a = Some ta) as Hta1 by (by rewrite lookup_insert_ne).
  rewrite (M_bind_run _ _ _ _ _ (upd_task_run _ _ _ _ a ta _ Hta1)).
  set (T2 := <[a := _]> _).
  set (s3 := Sched (heap s) T2 (words s) (regs s) (kstack_top ta) a (head s) (next_id s) (scheduling_on s)).
  unfold set_current at 1. rewrite bind_modify.
  rewrite (M_bind_run _ _ _ _ _ (ld_task_run _ a (set_state ta TASK_RUNNING) (lookup_insert_eq _ _ _))).
  unfold tss_set_kernel_stack at 1. rewrite bind_modify.
  cbn [heap tasks words regs tss_esp0 current head next_id scheduling_on with_cpu kstack_top esp set_state]. fold s3.
  assert (T2 !! current s = Some (demote tp)) as Hprev.
  { subst T2. rewrite lookup_insert_ne by done. apply lookup_insert_eq. }
  destruct (so_state _ _ _ Hok) as (tp' & Htp' & _ & _ & Hsp). rewrite Htp in Htp'. injection Htp' as <-.
  destruct (stack_bounds _ _ _ _ _ Hok Htp) as [Hlo Hhi], (stack_bounds _ _ _ _ _ Hok Hta) as [Hlo' Hhi'].
  pose proof (stacks_apart _ _ _ _ _ _ _ Hok Htp Hta ltac:(done)) as Hap.
  destruct Hw as (Hwlo & Hwhi & Hwd). unfold HEAP_END, HEAP_START, HEAP_SIZE in *.
  pose proof (switch_task_run a_resume s3 T2 (words s) (regs s) (current s) (esp ta) (demote tp)
    (default 0 (words s !! (esp ta + 4 * 0))) (default 0 (words s !! (esp ta + 4 * 1)))
    (default 0 (words s !! (esp ta + 4 * 2))) (default 0 (words s !! (esp ta + 4 * 3)))
    (default 0 (words s !! (esp ta + 4 * 4))) ltac:(lia) ltac:(lia) Hprev ltac:(lia)) as E.
  change (with_cpu s3 T2 (words s) (regs s)) with s3 in E. lapply E; [clear E; intros E|].
  - rewrite (M_bind_run _ _ _ _ _ E). unfold mret, M_ret, switched, restored, with_cpu. do 3 f_equal. subst T2.
    rewrite (insert_insert_ne _ a) by done. by rewrite insert_insert_eq.
  - intros i v Hi. destruct (Hwd i) as [x Hx]; [by apply lookup_lt_Some in Hi|].
    assert (v = default 0 (words s !! (esp ta + 4 * Z.of_nat i))) as ->.
    { do 5 (destruct i as [|i]; [by injection Hi as <-|]). done. }
    by rewrite Hx.
Qed.

(** What never changes in a task once it is created, the links apart. *)
Definition same_static (t t' : task_t) : Prop :=
  stack_base t' = stack_base t ∧ kstack_base t' = kstack_base t ∧ kstack_top t' = kstack_top t.

Lemma owns_static live h a t t' : same_static t t' → owns live h a t → owns live h a t'.
Proof. intros (E1 & E2 & E3). unfold owns. by rewrite E1, E2, E3. Qed.
Lemma separate_static h a b ta tb ta' tb' : same_static ta ta' → same_static tb tb' →
  separate h a b ta tb → separate h a b ta' tb'.
Proof. intros (E1 & E2 & _) (F1 & F2 & _). unfold separate. by rewrite E1, E2, F1, F2. Qed.
Lemma stack_lo_static h a t t' : same_static t t' → stack_lo h a t' = stack_lo h a t.
Proof. intros (E & _). unfold stack_lo. by rewrite E. Qed.
Lemma stack_hi_static h a t t' : same_static t t' → stack_hi h a t' = stack_hi h a t.
Proof. intros (E & _). unfold stack_hi. by rewrite E. Qed.

(** Parts of the invariant that survive when only dynamic fields change. *)
Lemma owned_static s s' live : sched_ok TASK_RUNNING s live ∨ sched_ok TASK_DEAD s live → head s' = head s →
  (∀ b t', tasks s' !! b = Some t' → ∃ t, tasks s !! b = Some t ∧ same_static t t') →
  (∀ b t', tasks s' !! b = Some t' → owns live (head s') b t') ∧
  (∀ b c tb tc, tasks s' !! b = Some tb → tasks s' !! c = Some tc → b ≠ c → separate (head s') b c tb tc).
Proof.
  intros Hok Hh Hst.
  assert (∃ st, sched_ok st s live) as [st Hok'] by (destruct Hok; eauto). rewrite Hh. split.
  - intros b t' (t & Ht & Hs)%Hst. by eapply owns_static, (so_owns _ _ _ Hok').
  - intros b c tb tc (tb' & Hb & Hsb)%Hst (tc' & Hc & Hsc)%Hst Hne.
    by eapply separate_static, (so_separate _ _ _ Hok').
Qed.

Lemma demote_static t v : same_static t (set_esp (demote t) v).
Proof. unfold demote. by destruct (state t =? TASK_RUNNING). Qed.

Lemma switched_tasks s a tp ta R b : a ≠ current s →
  tasks (switched s a tp ta R) !! b =
    if decide (b = current s) then Some (set_esp (demote tp) (r_esp (regs s) - 28))
    else if decide (b = a) then Some (set_state ta TASK_RUNNING) else tasks s !! b.
Proof.
  intros Hne. cbn [tasks switched]. repeat case_decide; subst.
  - apply lookup_insert_eq.
  - rewrite lookup_insert_ne by done. apply lookup_insert_eq.
  - by rewrite !lookup_insert_ne by done.
Qed.

Lemma switched_links s a tp ta R : a ≠ current s → tasks s !! current s = Some tp → tasks s !! a = Some ta →
  same_links (tasks s) (tasks (switched s a tp ta R)).
Proof.
  intros Hne Htp Hta b. rewrite switched_tasks by done. repeat case_decide; subst; rewrite ?Htp, ?Hta; try done.
  simpl. unfold demote. by destruct (state tp =? TASK_RUNNING).
Qed.

Lemma waiting_poke W a l h b t : waiting W h b t →
  stack_hi h b t ≤ a ∨ a + 4 * Z.of_nat (length l) ≤ stack_lo h b t → waiting (poke a l W) h b t.
Proof.
  intros (Hlo & Hhi & Hw) Hd. split; [done|]. split; [done|]. intros i Hi.
  rewrite poke_lookup_other by lia. by apply Hw.
Qed.

Lemma switched_ok st s live r a tp ta : sched_ok st s live → (st = TASK_RUNNING ∨ st = TASK_DEAD) →
  has_room s → ring_at (tasks s) (current s) r → first_alive (tasks s) r = Some a →
  tasks s !! current s = Some tp → tasks s !! a = Some ta → a ≠ current s →
  waiting (words s) (head s) a ta →
  sched_ok TASK_RUNNING (switched s a tp ta (restored s ta)) live.
Proof.
  intros Hok Hst (tp' & Htp' & Hroom) Hring Hfa Htp Hta Hne Hw. rewrite Htp in Htp'. injection Htp' as <-.
  set (s' := switched s a tp ta (restored s ta)).
  pose proof (switched_tasks s a tp ta (restored s ta)) as Hlk.
  assert (∀ b t', tasks s' !! b = Some t' → ∃ t, tasks s !! b = Some t ∧ same_static t t') as Hstat.
  { intros b t'. unfold s'. rewrite Hlk by done. repeat case_decide; intros Hb; simplify_eq; eauto using demote_static.
    - by exists ta.
    - by exists t'. }
  destruct (owned_static s s' live) as [Hown Hsep]; [destruct Hst as [-> | ->]; auto|done|done|].
  destruct (so_state _ _ _ Hok) as (tp' & Htp' & Hstate & _ & Hsp). rewrite Htp in Htp'. injection Htp' as <-.
  split; try done.
  - apply first_alive_Some in Hfa as (d & r' & -> & _ & _).
    exists (r' ++ current s :: d). split.
    + eapply ring_links; [by apply switched_links|]. by apply ring_rotate.
    + destruct (so_ring _ _ _ Hok) as (r0 & (_ & _ & Hd0) & Hin). apply Hd0 in Hin.
      destruct Hring as (_ & _ & Hd1). apply Hd1 in Hin. cbn [head current switched s']. set_solver.
  - exists (set_state ta TASK_RUNNING). unfold s'. rewrite Hlk by done. cbn [current switched head tss_esp0 regs restored r_esp].
    rewrite decide_False, decide_True by done. destruct Hw as (Hlo & Hhi & _).
    change (stack_lo (head s) a (set_state ta TASK_RUNNING)) with (stack_lo (head s) a ta).
    change (stack_hi (head s) a (set_state ta TASK_RUNNING)) with (stack_hi (head s) a ta).
    repeat split; lia.
  - intros b t'. unfold s'. rewrite Hlk by done. cbn [current switched head words]. intros Hb Hba.
    destruct (decide (b = current s)) as [->|Hbc].
    + injection Hb as <-. destruct Hst as [-> | ->]; unfold demote; rewrite Hstate; cbn [Z.eqb TASK_RUNNING TASK_DEAD];
        [right; split; [done|]|by left].
      split; [unfold stack_lo, stack_hi in *; cbn in *; lia|]. split; [unfold stack_lo, stack_hi in *; cbn in *; lia|].
      intros i Hi. cbn [esp set_esp]. destruct (lookup_lt_is_Some_2 (frame (regs s) a_resume (current s) (esp ta)) i) as [v Hv];
        [cbn; lia|]. rewrite (poke_lookup _ _ _ _ _ Hv). eauto.
    + rewrite decide_False in Hb by done. destruct (so_others _ _ _ Hok b t' Hb Hbc) as [?|[? Hwb]]; [by left|right].
      split; [done|]. apply waiting_poke; [done|]. cbn [length frame].
      pose proof (stacks_apart _ _ _ _ _ _ _ Hok Htp Hb ltac:(done)). lia.
  - exact (so_on _ _ _ Hok).
  - exact (so_heap _ _ _ Hok).
Qed.

(** ** Creating a task *)

Definition with_heap (s : sched H) (h : H) : sched H :=
  Sched h (tasks s) (words s) (regs s) (tss_esp0 s) (current s) (head s) (next_id s) (scheduling_on s).

Lemma on_heap_run {A} (c : M H A) s (x : A) h : c (heap s) = Some (x, h) → on_heap c s = Some (x, with_heap s h).
Proof. intros E. unfold on_heap. by rewrite E. Qed.

(** The stack of a new task: a switch to it goes to [task_bootstrap], with
    [task_exit] as the return address. *)
Definition first_frame : list Z := [0; 0; 0; 0; a_task_bootstrap; a_task_exit].

Definition new_task (sb kb i : Z) (nm : list Z) (fn nx : Z) : task_t :=
  Task (sb + STACK_SIZE - 24) sb kb (kstack_top_of kb) i nm TASK_READY fn nx.

Definition created (s : sched H) (h : H) (t sb kb : Z) (nm : list Z) (fn : Z) (th : task_t) : sched H :=
  Sched h (<[head s := set_next th t]> (<[t := new_task sb kb (next_id s) nm fn (next th)]> (tasks s)))
    (poke (sb + STACK_SIZE - 24) first_frame (words s))
    (regs s) (tss_esp0 s) (current s) (head s) (u32 (next_id s + 1)) (scheduling_on s).

(** The three blocks of a new task, beside those in use. *)
Definition fresh_blocks (live : gmap Z Z) (t sb kb : Z) : Prop :=
  HEAP_START < sb ∧ sb + STACK_SIZE ≤ HEAP_END ∧ 
  live !! t = None ∧ live !! sb = None ∧ live !! kb = None ∧ t ≠ sb ∧ t ≠ kb ∧ sb ≠ kb ∧ t ≠ 0 ∧ kb ≠ 0 ∧
  apart live sb STACK_SIZE.
Definition with_blocks (live : gmap Z Z) (t sb kb : Z) : gmap Z Z :=
  <[kb := KSTACK_SIZE]> (<[sb := STACK_SIZE]> (<[t := SIZEOF_TASK]> live)).

Lemma malloc_run s live n : a_inv (heap s) live → 0 < n ≤ 4294967288 →
  ∃ r h, on_heap (a_malloc n) s = Some (r, with_heap s h) ∧
    ((r = 0 ∧ with_heap s h = s) ∨
     (HEAP_START < r ∧ r + n ≤ HEAP_END ∧ live !! r = None ∧ apart live r n ∧ a_inv h (<[r := n]> live))).
Proof.
  intros Hinv Hn. destruct (a_malloc_spec (heap s) live n Hinv Hn) as (r & h & E & Hr).
  exists r, h. split; [by apply on_heap_run|]. destruct Hr as [[-> ->]|Hr]; [left|by right].
  split; [done|]. by destruct s.
Qed.

Lemma free_run s live p n : a_inv (heap s) live → live !! p = Some n →
  ∃ h, on_heap (a_free p) s = Some (tt, with_heap s h) ∧ a_inv h (delete p live).
Proof. intros Hinv Hp. destruct (a_free_spec _ _ _ _ Hinv Hp) as (h & E & ?). exists h. split; [by apply on_heap_run|done]. Qed.

Lemma bind_set_words {B} f (k : unit → M (sched H) B) s : (set_words f ≫= k) s = k tt
  (Sched (heap s) (tasks s) (f (words s)) (regs s) (tss_esp0 s) (current s) (head s) (next_id s) (scheduling_on s)).
Proof. reflexivity. Qed.

(** With its three blocks at hand, [task_create] makes the task. *)
Lemma task_create_fits s nm bs fn (th : task_t) (t sb kb : Z) h1 h2 h3 :
  on_heap (a_malloc SIZEOF_TASK) s = Some (t, with_heap s h1) →
  on_heap (a_malloc STACK_SIZE) (with_heap s h1) = Some (sb, with_heap s h2) →
  on_heap (a_malloc KSTACK_SIZE) (with_heap s h2) = Some (kb, with_heap s h3) →
  t ≠ 0 → kb ≠ 0 → HEAP_START < sb → sb + STACK_SIZE ≤ HEAP_END → head s ≠ t →
  strncpy nm (TASK_NAME_MAX - 1) = Some bs → tasks s !! head s = Some th →
  task_create a_task_exit a_task_bootstrap nm fn s = Some (t, created s h3 t sb kb (bs ++ [0]) fn th).
Proof.
  intros E1 E2 E3 Ht0 Hk0 Hs1 Hs2 Hht Hbs Hth. unfold task_create.
  assert (sb ≠ 0) as Hsb0 by (unfold HEAP_START in *; lia).
  rewrite (M_bind_run _ _ _ _ _ E1), (proj2 (truth_true t) Ht0). cbn [negb].
  rewrite (M_bind_run _ _ _ _ _ E2), (proj2 (truth_true sb) Hsb0). cbn [negb].
  rewrite (M_bind_run _ _ _ _ _ E3), (proj2 (truth_true kb) Hk0). cbn [negb].
  unfold new_id, copy_name, set_next_id. rewrite bind_assoc, bind_gets, bind_assoc, bind_modify, bind_ret, bind_assoc, Hbs. unfold lift. cbn [fmap option_fmap option_map].
  unfold mbind at 1, M_bind at 1. rewrite bind_ret. unfold HEAP_END, HEAP_SIZE, HEAP_START, STACK_SIZE in *.
  rewrite (u32_small (sb + 16384)) by lia. rewrite !(u32_small (sb + 16384 - _)) by lia.
  do 6 (rewrite bind_set_words; cbn [head with_heap heap tasks words regs tss_esp0 current next_id scheduling_on]).
  rewrite bind_gets. cbn [head].
  match goal with |- (ld_task _ ≫= _) ?st = _ => rewrite (M_bind_run _ _ _ _ _ (ld_task_run st _ th Hth)) end.
  unfold set_tasks at 1. rewrite bind_modify. cbn [tasks heap words regs tss_esp0 current head next_id scheduling_on].
  match goal with |- (upd_task _ ?f ≫= _) ?st = _ =>
    rewrite (M_bind_run _ _ _ _ _ (upd_task_at st (head s) th f ltac:(cbn [tasks]; by rewrite lookup_insert_ne))) end.
  unfold mret, M_ret, created, with_cpu, first_frame, STACK_SIZE. cbn [tasks heap words regs tss_esp0 current head next_id scheduling_on poke].
  replace (sb + 16384 - 24 + 4) with (sb + 16384 - 20) by lia. replace (sb + 16384 - 20 + 4) with (sb + 16384 - 16) by lia.
  replace (sb + 16384 - 16 + 4) with (sb + 16384 - 12) by lia. replace (sb + 16384 - 12 + 4) with (sb + 16384 - 8) by lia.
  replace (sb + 16384 - 8 + 4) with (sb + 16384 - 4) by lia. done.
Qed.

(** On failure everything that was allocated on the way is released. *)
Lemma task_create_run st s live nm bs fn (th : task_t) : sched_ok st s live →
  strncpy nm (TASK_NAME_MAX - 1) = Some bs → tasks s !! head s = Some th →
  (∃ h, task_create a_task_exit a_task_bootstrap nm fn s = Some (0, with_heap s h) ∧ a_inv h live) ∨
  (∃ (t sb kb : Z) h, task_create a_task_exit a_task_bootstrap nm fn s = Some (t, created s h t sb kb (bs ++ [0]) fn th) ∧
     fresh_blocks live t sb kb ∧ a_inv h (with_blocks live t sb kb)).
Proof.
  intros Hok Hbs Hth. unfold task_create.
  assert (∀ r, HEAP_START < r → truth r = true) as Htruth by (intros; apply truth_true; unfold HEAP_START in *; lia).
  destruct (malloc_run s live SIZEOF_TASK (so_heap _ _ _ Hok) ltac:(done)) as (t & h1 & E1 & Ht).
  rewrite (M_bind_run _ _ _ _ _ E1). destruct Ht as [[-> Hs]|(Ht1 & Ht2 & Ht3 & _ & Hi1)].
  { left. exists h1. split; [done|]. apply (f_equal heap) in Hs. cbn [heap with_heap] in Hs. rewrite Hs. apply (so_heap _ _ _ Hok). }
  rewrite (Htruth t Ht1). cbn [negb].
  destruct (malloc_run (with_heap s h1) _ STACK_SIZE Hi1 ltac:(done)) as (sb & h2 & E2 & Hsb).
  rewrite (M_bind_run _ _ _ _ _ E2). destruct Hsb as [[-> Hs]|(Hs1 & Hs2 & Hs3 & Hs4 & Hi2)].
  { left. rewrite Hs. cbn [truth Z.eqb negb].
    destruct (free_run (with_heap s h1) _ t SIZEOF_TASK Hi1 (lookup_insert_eq _ _ _)) as (h3 & E3 & Hi3).
    rewrite (M_bind_run _ _ _ _ _ E3). exists h3. split; [done|]. by rewrite delete_insert_id in Hi3. }
  rewrite (Htruth sb Hs1). cbn [negb]. change (with_heap (with_heap s h1) h2) with (with_heap s h2).
  destruct (malloc_run (with_heap s h2) _ KSTACK_SIZE Hi2 ltac:(done)) as (kb & h3 & E3 & Hkb).
  rewrite (M_bind_run _ _ _ _ _ E3). destruct Hkb as [[-> Hs]|(Hk1 & Hk2 & Hk3 & Hk4 & Hi3)].
  { left. rewrite Hs. cbn [truth Z.eqb negb].
    destruct (free_run (with_heap s h2) _ sb STACK_SIZE Hi2 (lookup_insert_eq _ _ _)) as (h4 & E4 & Hi4).
    rewrite delete_insert_id in Hi4 by done. rewrite (M_bind_run _ _ _ _ _ E4).
    destruct (free_run (with_heap s h4) _ t SIZEOF_TASK Hi4 (lookup_insert_eq _ _ _)) as (h5 & E5 & Hi5).
    rewrite delete_insert_id in Hi5 by done. rewrite (M_bind_run _ _ _ _ _ E5). by exists h5. }
  right. exists t, sb, kb, h3. split; [|split; [|done]].
  - rewrite <-(task_create_fits s nm bs fn th t sb kb h1 h2 h3 E1 E2 E3); unfold HEAP_START in *; try done; try lia.
    + unfold task_create. rewrite (M_bind_run _ _ _ _ _ E1), (Htruth t Ht1). cbn [negb].
      rewrite (M_bind_run _ _ _ _ _ E2), (Htruth sb Hs1). cbn [negb]. by rewrite (M_bind_run _ _ _ _ _ E3), (Htruth kb Hk1).
    + intros Heq. rewrite Heq in Hth. destruct (so_owns _ _ _ Hok _ _ Hth) as [Ho _]. congruence.
  - rewrite lookup_insert_None in Hs3. rewrite !lookup_insert_None in Hk3.
    destruct Hs3, Hk3 as [[? ?] ?]. unfold fresh_blocks, HEAP_START in *. repeat split; try done; try lia.
    intros q m Hq. apply Hs4. rewrite lookup_insert_ne; [done|]. congruence.
Qed.

Lemma ring_insert m c r h (t : Z) th tn : ring_at m c r → h ∈ c :: r → m !! h = Some th → m !! t = None →
  next tn = next th → ∃ r', ring_at (<[h := set_next th t]> (<[t := tn]> m)) c r' ∧ h ∈ c :: r'.
Proof.
  intros (Hnd & Hch & Hdom) Hin Hh Ht Hn. apply list_elem_of_split in Hin as (l1 & l2 & E).
  assert (∃ r', c :: r' = l1 ++ h :: t :: l2) as [r' E'].
  { destruct l1; simpl in *; injection E as <- ->; eauto. }
  assert (t ∉ c :: r) as Hf by (rewrite <-Hdom, Ht; apply is_Some_None).
  exists r'. rewrite E'. split; [|set_solver]. unfold ring_at. rewrite E'. rewrite E in Hnd, Hch, Hf, Hdom.
  assert (l1 ++ h :: t :: l2 ≡ₚ t :: l1 ++ h :: l2) as HP.
  { rewrite (perm_swap t h l2). by rewrite <-Permutation_middle. }
  split; [rewrite HP; by constructor|]. split; [by apply chain_insert|].
  intros b. rewrite HP, elem_of_cons, <-Hdom. destruct (decide (b = h)) as [->|]; [rewrite lookup_insert_eq, Hh; naive_solver|].
  rewrite lookup_insert_ne by done. destruct (decide (b = t)) as [->|]; [rewrite lookup_insert_eq; naive_solver|].
  rewrite lookup_insert_ne by done. naive_solver.
Qed.

Lemma owns_mono live live' h a t : (∀ p n, live !! p = Some n → live' !! p = Some n) → owns live h a t → owns live' h a t.
Proof. intros Hsub (H1 & H2 & H3 & H4). split; [auto|]. split; [done|]. split; intros Ha; [destruct (H3 Ha)|destruct (H4 Ha)]; auto. Qed.

Lemma with_blocks_mono live (t sb kb : Z) : fresh_blocks live t sb kb →
  ∀ p n, live !! p = Some n → with_blocks live t sb kb !! p = Some n.
Proof.
  intros (_ & _ & H1 & H2 & H3 & _) p n Hp. unfold with_blocks.
  rewrite !lookup_insert_ne by congruence. done.
Qed.

Lemma created_tasks s h (t sb kb : Z) nm fn th b : t ≠ head s →
  tasks (created s h t sb kb nm fn th) !! b =
    if decide (b = head s) then Some (set_next th t)
    else if decide (b = t) then Some (new_task sb kb (next_id s) nm fn (next th)) else tasks s !! b.
Proof.
  intros Hne. cbn [tasks created]. repeat case_decide; subst.
  - apply lookup_insert_eq.
  - rewrite lookup_insert_ne by done. apply lookup_insert_eq.
  - by rewrite !lookup_insert_ne by done.
Qed.

(** The tasks that were there before. *)
Lemma created_old s h (t sb kb : Z) nm fn th b t' : t ≠ head s → tasks s !! head s = Some th → b ≠ t →
  tasks (created s h t sb kb nm fn th) !! b = Some t' →
  ∃ t0, tasks s !! b = Some t0 ∧ same_static t0 t' ∧ esp t' = esp t0 ∧ state t' = state t0.
Proof.
  intros Hne Hth Hb. rewrite created_tasks by done.
  repeat case_decide; intros Hbt; simplify_eq; [by exists th|by exists t'].
Qed.

(** Fresh blocks are nobody's stack. *)
Lemma new_stack_apart st s live (t sb kb : Z) b tb : sched_ok st s live → fresh_blocks live t sb kb →
  tasks s !! b = Some tb → stack_hi (head s) b tb ≤ sb ∨ sb + STACK_SIZE ≤ stack_lo (head s) b tb.
Proof.
  intros Hok (Hs1 & _ & _ & _ & _ & _ & _ & _ & _ & _ & Hap) Hb.
  destruct (so_owns _ _ _ Hok b tb Hb) as (_ & _ & _ & Ho). destruct Hboot as (? & ? & ?).
  unfold stack_lo, stack_hi. case_decide; [left; lia|]. destruct Ho as [Ho _]; [done|]. apply Hap in Ho. lia.
Qed.

Lemma fresh_not_task st s live (t sb kb : Z) th : sched_ok st s live → tasks s !! head s = Some th →
  fresh_blocks live t sb kb → tasks s !! t = None ∧ t ≠ head s.
Proof.
  intros Hok Hth (_ & _ & Hft & _).
  assert (tasks s !! t = None) as Hnew; [|split; congruence].
  destruct (tasks s !! t) as [x|] eqn:E; [|done]. destruct (so_owns _ _ _ Hok _ _ E) as [Ho _]. congruence.
Qed.

(** The new task shares no block with an older one. *)
Lemma created_separate st s live h (t sb kb : Z) nm fn th b tb tn : sched_ok st s live →
  tasks s !! head s = Some th → fresh_blocks live t sb kb → b ≠ t →
  tasks (created s h t sb kb nm fn th) !! b = Some tb → tasks (created s h t sb kb nm fn th) !! t = Some tn →
  (b ≠ head s → stack_base tb ≠ stack_base tn) ∧ kstack_base tb ≠ kstack_base tn.
Proof.
  intros Hok Hth Hfr Hbt Hb Hn. destruct (fresh_not_task _ _ _ _ _ _ _ Hok Hth Hfr) as [_ Hne].
  rewrite created_tasks, decide_False, decide_True in Hn by done. injection Hn as <-.
  destruct (created_old _ _ _ _ _ _ _ _ _ _ Hne Hth Hbt Hb) as (t0 & Ht0 & (E1 & E2 & _) & _).
  destruct Hfr as (_ & _ & _ & Hfs & Hfk & _ & _ & _ & _ & Hk0 & _). cbn [stack_base kstack_base new_task]. rewrite E1, E2.
  destruct (so_owns _ _ _ Hok b t0 Ht0) as (_ & _ & Oh & On). split.
  - intros Hbh Heq. destruct (On Hbh) as [Ho _]. congruence.
  - intros Heq. destruct (decide (b = head s)) as [e|ne]; [destruct (Oh e) as [|Ho]|destruct (On ne) as [_ Ho]]; congruence.
Qed.

Lemma created_ok st s live h (t sb kb : Z) nm fn th : sched_ok st s live → tasks s !! head s = Some th →
  fresh_blocks live t sb kb → a_inv h (with_blocks live t sb kb) →
  sched_ok st (created s h t sb kb nm fn th) (with_blocks live t sb kb).
Proof.
  intros Hok Hth Hfr Hinv. destruct (fresh_not_task _ _ _ _ _ _ _ Hok Hth Hfr) as [Hnew Hne].
  pose proof Hfr as (Hs1 & Hs2 & Hft & Hfs & Hfk & Hts & Htk & Hsk & Ht0 & Hk0 & Hap).
  set (s' := created s h t sb kb nm fn th).
  pose proof (λ b t', created_old s h t sb kb nm fn th b t' Hne Hth) as Hold.
  pose proof (λ b, created_tasks s h t sb kb nm fn th b Hne) as Hlk. fold s' in Hold, Hlk.
  assert (∀ p n, live !! p = Some n → with_blocks live t sb kb !! p = Some n) as Hmono by (by apply with_blocks_mono).
  split.
  - destruct (so_ring _ _ _ Hok) as (r & Hr & Hin). by apply (ring_insert _ _ r).
  - destruct (so_state _ _ _ Hok) as (tc & Htc & Hst & Htss & Hsp).
    destruct (tasks s' !! current s) as [tc'|] eqn:E; [|rewrite Hlk in E; repeat case_decide; congruence].
    destruct (Hold (current s) tc' ltac:(congruence) E) as (t0 & Ht0' & Hss & _ & Hst').
    rewrite Htc in Ht0'. injection Ht0' as <-. exists tc'. cbn [current created s' head tss_esp0 regs].
    rewrite (stack_lo_static _ _ _ _ Hss), (stack_hi_static _ _ _ _ Hss). destruct Hss as (_ & _ & Hk).
    repeat split; [done|congruence|congruence|lia|lia].
  - intros b t' Hb Hbc. cbn [words created s' head]. destruct (decide (b = t)) as [->|Hbt].
    + rewrite Hlk, decide_False, decide_True in Hb by done. injection Hb as <-. right. split; [done|].
      unfold waiting, stack_lo, stack_hi, new_task. cbn [stack_base esp]. rewrite !decide_False by done.
      unfold STACK_SIZE. split; [lia|]. split; [lia|]. intros i Hi.
      destruct (lookup_lt_is_Some_2 first_frame i) as [v Hv]; [cbn; lia|]. rewrite (poke_lookup _ _ _ _ _ Hv). eauto.
    + destruct (Hold b t' Hbt Hb) as (t0 & Hb0 & Hss & He & Hst).
      destruct (so_others _ _ _ Hok b t0 Hb0 Hbc) as [?|[Hr Hw]]; [left; congruence|right]. split; [congruence|].
      destruct (new_stack_apart _ _ _ _ _ _ _ _ Hok Hfr Hb0) as [Hd|Hd]; unfold waiting; rewrite He, (stack_lo_static _ _ _ _ Hss), (stack_hi_static _ _ _ _ Hss);
        apply (waiting_poke (words s) _ first_frame (head s) b t0 Hw); cbn [length first_frame]; unfold STACK_SIZE in *; lia.
  - exact (so_on _ _ _ Hok).
  - exact Hinv.
  - intros b t' Hb. cbn [head created s']. destruct (decide (b = t)) as [->|Hbt].
    + rewrite Hlk, decide_False, decide_True in Hb by done. injection Hb as <-. unfold owns, with_blocks.
      cbn [stack_base kstack_base kstack_top new_task]. split; [by rewrite !lookup_insert_ne, lookup_insert_eq by done|].
      split; [done|]. split; [done|]. intros _. rewrite lookup_insert_eq, lookup_insert_ne, lookup_insert_eq by done. done.
    + destruct (Hold b t' Hbt Hb) as (t0 & Hb0 & Hss & _). eapply owns_static, owns_mono, (so_owns _ _ _ Hok); eauto.
  - intros b c tb tc Hb Hc Hbc. cbn [head created s'].
    pose proof (λ b tb tn, created_separate st s live h t sb kb nm fn th b tb tn) as Hvs. fold s' in Hvs.
    destruct (decide (b = t)) as [->|Hbt], (decide (c = t)) as [->|Hct]; [done| | |].
    + destruct (Hvs c tc tb Hok Hth Hfr Hct Hc Hb). split; [intros _ ? ?; naive_solver|naive_solver].
    + destruct (Hvs b tb tc Hok Hth Hfr Hbt Hb Hc). split; naive_solver.
    + destruct (Hold b tb Hbt Hb) as (b0 & ? & ? & _), (Hold c tc Hct Hc) as (c0 & ? & ? & _).
      by eapply separate_static, (so_separate _ _ _ Hok).
Qed.
End inv.
