(* ===== verification/TaskSpec.v ===== *)
(** * The scheduler at work

    [os_step]: what can happen between two instants: the current task computes
    on its own stack, the scheduler is entered (by [yield] or by the timer),
    a task is created, the current task ends, or other parts of the kernel use
    the heap.  The theorems: the invariant of every reachable state, what
    [schedule] chooses and that every live task gets its turn, that a task
    finds its registers when it is resumed, that a dead task never runs again. *)

From S2P Require Import Prelude Kheap CString Alloc Cpu Task TaskSwitch TaskInv.

(** The number of turns until [t] runs, when the tasks follow in order [l]. *)
Fixpoint rank (m : gmap Z task_t) (l : list Z) (t : Z) : nat :=
  match l with
  | [] => 0
  | a :: l' => if decide (a = t) then 1 else (if alive m a then 1 else 0) + rank m l' t
  end.

Lemma rank_le m l t : (rank m l t ≤ length l)%nat.
Proof. induction l as [|a l IH]; simpl; [lia|]. case_decide; [lia|]. destruct (alive m a); lia. Qed.
Lemma rank_pos m l t : t ∈ l → alive m t = true → (1 ≤ rank m l t)%nat.
Proof.
  intros Hin Ht. induction l as [|a l IH]; [set_solver|]. simpl. case_decide; [lia|].
  assert (1 ≤ rank m l t)%nat by (apply IH; set_solver). lia.
Qed.
Lemma rank_dead m d l t : Forall (λ b, alive m b = false) d → t ∉ d → rank m (d ++ l) t = rank m l t.
Proof.
  induction 1 as [|b d Hb Hd IH]; intros Ht; [done|]. cbn [app rank]. rewrite decide_False by set_solver.
  rewrite Hb. apply IH. set_solver.
Qed.
Lemma rank_app m l l' t : t ∈ l → rank m (l ++ l') t = rank m l t.
Proof.
  induction l as [|a l IH]; intros Ht; [set_solver|]. cbn [app rank]. case_decide; [done|]. rewrite IH by set_solver. done.
Qed.
Lemma rank_ext m m' l t : (∀ a, alive m a = alive m' a) → rank m l t = rank m' l t.
Proof. intros E. induction l as [|a l IH]; simpl; [done|]. by rewrite IH, E. Qed.

(** The registers a frame restores. *)
Lemma restored_frame {H} {AH : Allocator H} (s : sched H) t bp di si bx ip :
  (∀ i v, [bp; di; si; bx; ip] !! i = Some v → words s !! (esp t + 4 * Z.of_nat i) = Some v) →
  restored s t = Cpu bx si di bp (esp t + 20) ip (r_if (regs s)).
Proof.
  intros HF. unfold restored.
  change (4 * 0) with (4 * Z.of_nat 0). change (4 * 1) with (4 * Z.of_nat 1). change (4 * 2) with (4 * Z.of_nat 2).
  change (4 * 3) with (4 * Z.of_nat 3). change (4 * 4) with (4 * Z.of_nat 4).
  by rewrite (HF 0%nat bp eq_refl), (HF 1%nat di eq_refl), (HF 2%nat si eq_refl), (HF 3%nat bx eq_refl), (HF 4%nat ip eq_refl).
Qed.

Section os.
Context {H : Type} {AH : Allocator H} {AS : AllocatorSpec H}.
Variables a_task_exit a_task_bootstrap a_resume boot_lo boot_hi : Z.
Variable raw : task_t.
Hypothesis Hboot : boot_ok boot_lo boot_hi.

Abbreviation ok := (sched_ok boot_lo boot_hi).
Abbreviation room := (has_room boot_lo).
Abbreviation lo s c t := (stack_lo boot_lo (head s) c t).
Abbreviation hi s c t := (stack_hi boot_hi (head s) c t).

Inductive os_step : sched H * gmap Z Z → sched H * gmap Z Z → Prop :=
| step_run s live t W R :
    tasks s !! current s = Some t →
    (∀ p, p < lo s (current s) t ∨ hi s (current s) t ≤ p → W !! p = words s !! p) →
    lo s (current s) t ≤ r_esp R ≤ hi s (current s) t →
    os_step (s, live) (with_cpu s (tasks s) W R, live)
| step_schedule s live b s' :
    room s → schedule a_resume s = Some (b, s') → os_step (s, live) (s', live)
| step_create s live nm fn t s' sb kb :
    is_Some (strncpy nm (TASK_NAME_MAX - 1)) →
    task_create a_task_exit a_task_bootstrap nm fn s = Some (t, s') →
    (t ≠ 0 → stack_base <$> tasks s' !! t = Some sb ∧ kstack_base <$> tasks s' !! t = Some kb) →
    os_step (s, live) (s', if t =? 0 then live else with_blocks live t sb kb)
| step_exit s live s' :
    room s → task_exit a_resume s = Some (true, s') → os_step (s, live) (s', live)
| step_heap s live h live' :
    a_inv h live' → (∀ a t, tasks s !! a = Some t → owns live (head s) a t → owns live' (head s) a t) →
    os_step (s, live) (with_heap s h, live').

(** ** The end of a task *)

(** [s] at the point where [task_exit] calls [schedule]. *)
Definition ended (s : sched H) (tc : task_t) : sched H :=
  Sched (heap s) (<[current s := set_state tc TASK_DEAD]> (tasks s)) (words s)
    (Cpu (r_ebx (regs s)) (r_esi (regs s)) (r_edi (regs s)) (r_ebp (regs s)) (r_esp (regs s)) (r_eip (regs s)) false)
    (tss_esp0 s) (current s) (head s) (next_id s) 1.

Lemma task_exit_unfold s tc : tasks s !! current s = Some tc →
  task_exit a_resume s = schedule a_resume (ended s tc).
Proof.
  intros Htc. unfold task_exit, set_if, set_regs. rewrite bind_modify, bind_gets.
  set (s1 := Sched _ _ _ _ _ _ _ _ _).
  by rewrite (M_bind_run _ _ _ _ _ (upd_task_at s1 (current s1) tc _ Htc)).
Qed.

Lemma ended_ok st s live tc : ok st s live → tasks s !! current s = Some tc → ok TASK_DEAD (ended s tc) live.
Proof.
  intros Hok Htc. destruct (so_state _ _ _ _ _ Hok) as (tc' & Htc' & _ & Htss & Hsp).
  rewrite Htc in Htc'. injection Htc' as <-.
  assert (∀ b t', tasks (ended s tc) !! b = Some t' → ∃ t, tasks s !! b = Some t ∧ same_static t t' ∧
            (b ≠ current s → t' = t)) as Hold.
  { intros b t'. cbn [tasks ended]. destruct (decide (b = current s)) as [->|].
    - rewrite lookup_insert_eq. intros [= <-]. by exists tc.
    - rewrite lookup_insert_ne by done. intros Hb. by exists t'. }
  split.
  - destruct (so_ring _ _ _ _ _ Hok) as (r & Hr & Hin). exists r. split; [|done].
    eapply ring_links; [|exact Hr]. by apply (same_links_insert _ _ tc).
  - exists (set_state tc TASK_DEAD). cbn [tasks ended current head regs r_esp tss_esp0].
    rewrite lookup_insert_eq. repeat split; [done|apply Hsp..].
  - intros b t' Hb Hbc. destruct (Hold b t' Hb) as (t & Ht & _ & He). rewrite (He Hbc) in *.
    by apply (so_others _ _ _ _ _ Hok).
  - done.
  - exact (so_heap _ _ _ _ _ Hok).
  - intros b t' (t & Ht & Hs & _)%Hold. by eapply owns_static, (so_owns _ _ _ _ _ Hok).
  - intros b c tb tc0 (tb' & Hb & Hsb & _)%Hold (tc' & Hc & Hsc & _)%Hold Hne.
    by eapply separate_static, (so_separate _ _ _ _ _ Hok).
Qed.

(** ** The invariant *)

Lemma schedule_ok st s live b s' : ok st s live → (st = TASK_RUNNING ∨ st = TASK_DEAD) → room s →
  schedule a_resume s = Some (b, s') → if b then ok TASK_RUNNING s' live else s' = s.
Proof.
  intros Hok Hst Hroom Hrun. destruct (so_ring _ _ _ _ _ Hok) as (r & Hr & _).
  pose proof (schedule_run a_resume boot_lo boot_hi Hboot st s live r Hok Hroom Hr) as Hs.
  destruct (first_alive (tasks s) r) as [a|] eqn:Ea.
  2: { rewrite Hrun in Hs. by injection Hs as -> ->. }
  destruct Hs as (tp & ta & Htp & Hta & Hne & Hw & Hs). rewrite Hrun in Hs. injection Hs as -> ->.
  by apply (switched_ok a_resume boot_lo boot_hi Hboot st s live r).
Qed.

Lemma step_ok c c' : os_step c c' → ok TASK_RUNNING c.1 c.2 → ok TASK_RUNNING c'.1 c'.2.
Proof.
  destruct 1 as [s live t W R Ht HW HR|s live b s' Hroom Hrun|s live nm fn t s' sb kb [bs Hnm] Hrun Hbl
    |s live s' Hroom Hrun|s live h live' Hh Hown]; intros Hok; cbn [fst snd] in *.
  - destruct Hok as [Hr Hst Hoth Hon Hheap Hown Hsep]. split; try done.
    + destruct Hst as (t' & Ht' & ? & ? & ?). rewrite Ht in Ht'. injection Ht' as <-. by exists t.
    + intros a ta Ha Hac. cbn [words with_cpu]. destruct (Hoth a ta Ha Hac) as [?|[? (Hlo & Hhi & Hw)]]; [by left|right].
      split; [done|]. split; [done|]. split; [done|]. intros i Hi. rewrite HW; [by apply Hw|].
      assert (ok TASK_RUNNING s live) as Hok by (by split).
      pose proof (stacks_apart boot_lo boot_hi Hboot _ _ _ _ _ _ _ Hok Ht Ha ltac:(done)) as Hap.
      cbn [head with_cpu] in *. lia.
  - pose proof (schedule_ok _ _ _ _ _ Hok (or_introl eq_refl) Hroom Hrun) as Hs. destruct b; [done|by subst].
  - destruct (so_ring _ _ _ _ _ Hok) as (r & (_ & _ & Hdom) & Hin). apply Hdom in Hin as [th Hth].
    destruct (task_create_run a_task_exit a_task_bootstrap boot_lo boot_hi _ s live nm bs fn th Hok Hnm Hth)
      as [(h & E & Hh)|(t0 & sb0 & kb0 & h & E & Hfr & Hh)]; rewrite Hrun in E; injection E as -> ->.
    + simpl. destruct Hok. by split.
    + pose proof Hfr as (_ & _ & Hft & _ & _ & _ & _ & _ & Ht0 & _).
      assert (t0 ≠ head s) as Hne.
      { intros ->. destruct (so_owns _ _ _ _ _ Hok _ _ Hth) as [Ho _]. congruence. }
      destruct (Hbl Ht0) as [Hsb Hkb]. cbn [tasks created] in Hsb, Hkb.
      rewrite lookup_insert_ne, lookup_insert_eq in Hsb, Hkb by done. injection Hsb as <-. injection Hkb as <-.
      rewrite (proj2 (Z.eqb_neq _ _) Ht0). by apply created_ok.
  - destruct (so_state _ _ _ _ _ Hok) as (tc & Htc & _). rewrite (task_exit_unfold s tc Htc) in Hrun.
    eapply (schedule_ok TASK_DEAD (ended s tc) live true); [by eapply ended_ok|by right| |done].
    destruct Hroom as (tc' & Htc' & Hr). rewrite Htc in Htc'. injection Htc' as <-.
    exists (set_state tc TASK_DEAD). cbn [tasks ended current]. by rewrite lookup_insert_eq.
  - destruct Hok as [Hr Hst Hoth Hon Hheap Hown' Hsep]. split; try done.
    intros a t Ht. apply Hown; [done|]. by apply Hown'.
Qed.

Lemma steps_ok c c' : rtc os_step c c' → ok TASK_RUNNING c.1 c.2 → ok TASK_RUNNING c'.1 c'.2.
Proof. induction 1; eauto using step_ok. Qed.

(** ** Starting up *)

Lemma tasking_init_ok s0 live0 s1 : tasks s0 = ∅ → a_inv (heap s0) live0 →
  boot_lo ≤ r_esp (regs s0) ≤ boot_hi → tasking_init raw s0 = Some (tt, s1) →
  ∃ live1, ok TASK_RUNNING s1 live1.
Proof.
  intros Hnone Hinv Hsp. unfold tasking_init.
  destruct (malloc_run s0 live0 SIZEOF_TASK Hinv ltac:(done)) as (c & h1 & E1 & Hc).
  rewrite (M_bind_run _ _ _ _ _ E1). destruct Hc as [[-> _]|(Hc1 & _ & _ & _ & Hi1)]; [done|].
  assert (truth c = true) as -> by (apply truth_true; unfold HEAP_START in *; lia). cbn [negb].
  unfold set_current, new_id, set_next_id, copy_name. rewrite bind_modify. cbn [next_id heap with_heap tasks words regs tss_esp0 current head scheduling_on].
  rewrite bind_assoc, bind_gets, bind_assoc, bind_modify, bind_ret, bind_assoc.
  cbn [next_id heap with_heap tasks words regs tss_esp0 current head scheduling_on].
  destruct (strncpy (lit "kernel") (TASK_NAME_MAX - 1)) as [bs|] eqn:Hbs; [|by vm_compute in Hbs].
  change (lift (Some bs)) with (mret (M := M (sched H)) bs). rewrite !bind_ret.
  set (s2 := Sched _ _ _ _ _ _ _ _ _).
  destruct (malloc_run s2 _ KSTACK_SIZE Hi1 ltac:(done)) as (k & h2 & E2 & Hk).
  rewrite (M_bind_run _ _ _ _ _ E2). intros [= <-]. cbn [tasks heap words regs tss_esp0 current head next_id scheduling_on with_heap s2].
  rewrite Hnone. set (live1 := if k =? 0 then <[c := SIZEOF_TASK]> live0 else <[k := KSTACK_SIZE]> (<[c := SIZEOF_TASK]> live0)).
  assert (a_inv h2 live1 ∧ live1 !! c = Some SIZEOF_TASK ∧ (k = 0 ∨ live1 !! k = Some KSTACK_SIZE)) as (Hl1 & Hl2 & Hl3).
  { unfold live1. destruct Hk as [[-> Hs]|(Hk1 & _ & Hk3 & _ & Hi2)].
    - apply (f_equal heap) in Hs. cbn [heap with_heap s2] in Hs. rewrite Hs.
      change (0 =? 0) with true. cbn iota. split; [done|]. rewrite lookup_insert_eq. auto.
    - rewrite (proj2 (Z.eqb_neq k 0)) by (unfold HEAP_START in *; lia). split; [done|].
      rewrite lookup_insert_ne by (intros ->; by rewrite lookup_insert_eq in Hk3).
      rewrite !lookup_insert_eq. auto. }
  exists live1. clearbody live1.
  assert (∀ a t, (<[c := Task (esp raw) 0 k (kstack_top_of k) (next_id s0) (bs ++ [0]) TASK_RUNNING 0 c]> ∅ : gmap Z task_t) !! a = Some t →
    a = c ∧ t = Task (esp raw) 0 k (kstack_top_of k) (next_id s0) (bs ++ [0]) TASK_RUNNING 0 c) as Hone.
  { intros a t. rewrite insert_empty. intros [<- <-]%lookup_singleton_Some. done. }
  split; cbn [tasks heap words regs tss_esp0 current head next_id scheduling_on].
  - exists []. split; [|left]. split; [repeat constructor; set_solver|]. split.
    + split; [|done]. eexists. by rewrite lookup_insert_eq.
    + intros a. rewrite insert_empty, lookup_singleton_is_Some. set_solver.
  - eexists. rewrite lookup_insert_eq. split; [done|]. split; [done|]. split; [done|].
    unfold stack_lo, stack_hi. by rewrite !decide_True.
  - intros a t [-> _]%Hone. done.
  - done.
  - done.
  - intros a t [-> ->]%Hone. split; [done|]. split; [done|]. split; [done|]. done.
  - intros a b ta tb [-> _]%Hone [-> _]%Hone. done.
Qed.

(** ** A task that waits keeps its frame *)

Definition saved (c E : Z) (F : list Z) (s : sched H) : Prop :=
  ∃ t, tasks s !! c = Some t ∧ esp t = E ∧ lo s c t ≤ E ∧ E + 4 * Z.of_nat (length F) ≤ hi s c t ∧
    ∀ i v, F !! i = Some v → words s !! (E + 4 * Z.of_nat i) = Some v.

(** From [s] to [s'] the task [c] keeps its structure, its saved stack pointer
    and every word of its stack. *)
Definition kept (c : Z) (s s' : sched H) : Prop :=
  ∃ t t', tasks s !! c = Some t ∧ tasks s' !! c = Some t' ∧ same_static t t' ∧ esp t' = esp t ∧ head s' = head s ∧
    ∀ p, lo s c t ≤ p < hi s c t → words s' !! p = words s !! p.

Lemma kept_saved c E F s s' : kept c s s' → saved c E F s → saved c E F s'.
Proof.
  intros (t & t' & Ht & Ht' & Hss & He & Hh & HW) (t0 & Ht0 & HE & Hlo & Hhi & Hw). rewrite Ht in Ht0. injection Ht0 as <-.
  exists t'. rewrite Hh, (stack_lo_static _ _ _ _ _ Hss), (stack_hi_static _ _ _ _ _ Hss).
  split; [done|]. split; [congruence|]. split; [done|]. split; [done|].
  intros i v Hi. pose proof (lookup_lt_Some _ _ _ Hi). rewrite HW by lia. by apply Hw.
Qed.
Lemma kept_refl c s t : tasks s !! c = Some t → kept c s s.
Proof. intros Ht. by exists t, t. Qed.
Lemma kept_trans c s1 s2 s3 : kept c s1 s2 → kept c s2 s3 → kept c s1 s3.
Proof.
  intros (t1 & t2 & H1 & H2 & Hs & He & Hh & HW) (t2' & t3 & H2' & H3 & Hs' & He' & Hh' & HW'). rewrite H2 in H2'. injection H2' as <-.
  exists t1, t3. split; [done|]. split; [done|]. split; [destruct Hs as (? & ? & ?), Hs' as (? & ? & ?); repeat split; congruence|].
  split; [congruence|]. split; [congruence|]. intros p Hp. rewrite HW', HW; [done..|].
  by rewrite Hh, (stack_lo_static _ _ _ _ _ Hs), (stack_hi_static _ _ _ _ _ Hs).
Qed.

Lemma schedule_kept st s live b s' c t : ok st s live → (st = TASK_RUNNING ∨ st = TASK_DEAD) → room s →
  schedule a_resume s = Some (b, s') → current s ≠ c → current s' ≠ c → tasks s !! c = Some t → kept c s s'.
Proof.
  intros Hok Hst Hroom Hrun Hc Hc' Ht. destruct (so_ring _ _ _ _ _ Hok) as (r & Hr & _).
  pose proof (schedule_run a_resume boot_lo boot_hi Hboot st s live r Hok Hroom Hr) as Hs.
  destruct (first_alive (tasks s) r) as [a|]; [|rewrite Hrun in Hs; injection Hs as -> ->; by eapply kept_refl].
  destruct Hs as (tp & ta & Htp & Hta & Hne & Hw & Hs). rewrite Hrun in Hs. injection Hs as -> ->.
  cbn [current switched] in Hc'. exists t, t. split; [done|].
  split; [by rewrite switched_tasks, !decide_False|]. do 3 (split; [done|]).
  intros p Hp. cbn [words switched]. apply poke_lookup_other. cbn [length frame].
  pose proof (stacks_apart boot_lo boot_hi Hboot _ _ _ _ _ _ _ Hok Htp Ht ltac:(done)) as Hap.
  destruct (so_state _ _ _ _ _ Hok) as (tp' & Htp' & _ & _ & Hsp), Hroom as (tp'' & Htp'' & Hrm).
  rewrite Htp in Htp', Htp''. simplify_eq. lia.
Qed.

Lemma ended_room s tc : tasks s !! current s = Some tc → room s → room (ended s tc).
Proof.
  intros Htc (tc' & Htc' & Hr). rewrite Htc in Htc'. injection Htc' as <-.
  exists (set_state tc TASK_DEAD). cbn [tasks ended current]. by rewrite lookup_insert_eq.
Qed.

(** What [task_create] makes of a state, for the arguments below. *)
Lemma create_cases st s live nm bs fn t s' : ok st s live → strncpy nm (TASK_NAME_MAX - 1) = Some bs →
  task_create a_task_exit a_task_bootstrap nm fn s = Some (t, s') →
  (t = 0 ∧ ∃ h, s' = with_heap s h ∧ a_inv h live) ∨
  (t ≠ 0 ∧ ∃ th sb kb h, tasks s !! head s = Some th ∧ s' = created a_task_exit a_task_bootstrap s h t sb kb (bs ++ [0]) fn th ∧
     fresh_blocks live t sb kb ∧ a_inv h (with_blocks live t sb kb)).
Proof.
  intros Hok Hnm Hrun. destruct (so_ring _ _ _ _ _ Hok) as (r & (_ & _ & Hdom) & Hin). apply Hdom in Hin as [th Hth].
  destruct (task_create_run a_task_exit a_task_bootstrap boot_lo boot_hi _ s live nm bs fn th Hok Hnm Hth)
    as [(h & E & Hh)|(t0 & sb & kb & h & E & Hfr & Hh)]; rewrite Hrun in E; injection E as -> ->.
  - left. split; [done|]. by exists h.
  - right. split; [apply Hfr|]. by exists th, sb, kb, h.
Qed.

Lemma step_kept x y c tc : os_step x y → ok TASK_RUNNING x.1 x.2 → current x.1 ≠ c → current y.1 ≠ c →
  tasks x.1 !! c = Some tc → kept c x.1 y.1.
Proof.
  destruct 1 as [s live t W R Ht HW HR|s live b s' Hroom Hrun|s live nm fn t s' sb kb [bs Hnm] Hrun Hbl
    |s live s' Hroom Hrun|s live h live' Hh Hown]; intros Hok Hc Hc' Htc; cbn [fst snd] in *.
  - exists tc, tc. do 5 (split; [done|]). intros p Hp. apply HW.
    pose proof (stacks_apart boot_lo boot_hi Hboot _ _ _ _ _ _ _ Hok Ht Htc ltac:(done)). lia.
  - by eapply (schedule_kept TASK_RUNNING); [|left|..].
  - destruct (create_cases _ _ _ _ _ _ _ _ Hok Hnm Hrun) as [[_ (h & -> & _)]|(_ & th & sb0 & kb0 & h & Hth & -> & Hfr & _)].
    + by exists tc, tc.
    + destruct (fresh_not_task boot_lo boot_hi _ _ _ _ _ _ _ Hok Hth Hfr) as [Hnew Hne].
      assert (c ≠ t) as Hct by congruence.
      destruct (tasks (created a_task_exit a_task_bootstrap s h t sb0 kb0 (bs ++ [0]) fn th) !! c) as [tc'|] eqn:Htc'.
      2: { rewrite created_tasks in Htc' by done. repeat case_decide; congruence. }
      destruct (created_old _ _ _ _ _ _ _ _ _ _ _ _ Hne Hth Hct Htc') as (t0 & Ht0 & Hss & He & _).
      rewrite Htc in Ht0. injection Ht0 as <-. exists tc, tc'. do 5 (split; [done|]).
      intros p Hp. cbn [words created]. apply poke_lookup_other. cbn [length first_frame].
      pose proof (new_stack_apart boot_lo boot_hi Hboot _ _ _ _ _ _ _ _ Hok Hfr Htc). unfold STACK_SIZE in *. lia.
  - destruct (so_state _ _ _ _ _ Hok) as (t & Ht & _). rewrite (task_exit_unfold s t Ht) in Hrun.
    apply (kept_trans c s (ended s t)).
    + exists tc, tc. split; [done|]. split; [cbn [tasks ended]; by rewrite lookup_insert_ne|done].
    + eapply (schedule_kept TASK_DEAD (ended s t) live true); [by eapply ended_ok|by right|by apply ended_room|done|done|done|].
      cbn [tasks ended]. by rewrite lookup_insert_ne.
  - by exists tc, tc.
Qed.

(** Steps during which [c] is not the current task. *)
Definition away (c : Z) (x y : sched H * gmap Z Z) : Prop := os_step x y ∧ current x.1 ≠ c ∧ current y.1 ≠ c.

Lemma steps_kept c x y tc : rtc (away c) x y → ok TASK_RUNNING x.1 x.2 → tasks x.1 !! c = Some tc →
  ok TASK_RUNNING y.1 y.2 ∧ kept c x.1 y.1.
Proof.
  intros Hr. revert tc. induction Hr as [x|x y z (Hs & Hx & Hy) _ IH]; intros tc Hok Htc; [split; [done|by eapply kept_refl]|].
  pose proof (step_kept x y c tc Hs Hok Hx Hy Htc) as Hk. pose proof Hk as (_ & t' & _ & Ht' & _).
  destruct (IH t') as [Hok' Hk']; [by eapply step_ok|done|]. split; [done|by eapply kept_trans].
Qed.
Lemma steps_saved c E F x y : rtc (away c) x y → ok TASK_RUNNING x.1 x.2 → saved c E F x.1 →
  ok TASK_RUNNING y.1 y.2 ∧ saved c E F y.1.
Proof.
  intros Hr Hok Hsv. pose proof Hsv as (tc & Htc & _). destruct (steps_kept c x y tc Hr Hok Htc) as [Hok' Hk].
  split; [done|by eapply kept_saved].
Qed.

(** Switched out and in again: the registers come back, and so does the stack
    from the stack pointer up. *)
Lemma resume_run (s s1 s2 s3 : sched H) live live2 tp : ok TASK_RUNNING s live → room s → schedule a_resume s = Some (true, s1) →
  rtc (away (current s)) (s1, live) (s2, live2) → room s2 → schedule a_resume s2 = Some (true, s3) → current s3 = current s →
  tasks s !! current s = Some tp →
  regs s3 = Cpu (r_ebx (regs s)) (r_esi (regs s)) (r_edi (regs s)) (r_ebp (regs s)) (r_esp (regs s) - 8) a_resume (r_if (regs s2)) ∧
  ok TASK_RUNNING s3 live2 ∧
  ∀ p, r_esp (regs s) ≤ p < hi s (current s) tp → words s3 !! p = words s !! p.
Proof.
  intros Hok Hroom Hout Haway Hroom2 Hin Hback Htp. destruct (so_ring _ _ _ _ _ Hok) as (r & Hr & _).
  pose proof (schedule_ok TASK_RUNNING s live true s1 Hok (or_introl eq_refl) Hroom Hout) as Hok1.
  pose proof (schedule_run a_resume boot_lo boot_hi Hboot _ s live r Hok Hroom Hr) as Hs.
  destruct (first_alive (tasks s) r) as [a|] eqn:Ea; [|congruence].
  destruct Hs as (tp' & ta & Htp' & Hta & Hne & Hw & Hs). rewrite Htp in Htp'. injection Htp' as <-. rewrite Hout in Hs. injection Hs as Hs1.
  destruct (so_state _ _ _ _ _ Hok) as (tp' & Htp' & _ & _ & Hsp), Hroom as (tp'' & Htp'' & Hrm).
  rewrite Htp in Htp', Htp''. injection Htp' as <-. injection Htp'' as <-.
  set (tq := set_esp (demote tp) (r_esp (regs s) - 28)).
  assert (tasks s1 !! current s = Some tq) as Htq by (subst s1; by rewrite switched_tasks, decide_True).
  assert (head s1 = head s) as Hh1 by (by subst s1).
  assert (∀ p, words s1 !! p = poke (r_esp (regs s) - 28) (frame (regs s) a_resume (current s) (esp ta)) (words s) !! p) as Hw1 by (by subst s1).
  destruct (steps_kept (current s) _ _ tq Haway Hok1 Htq) as [Hok2 (tq' & tc & Hq & Htc & Hss & He & Hh2 & HW)]. cbn [fst snd] in *.
  rewrite Htq in Hq. injection Hq as <-. pose proof (demote_static tp (r_esp (regs s) - 28)) as Hsq. fold tq in Hsq.
  rewrite Hh1, (stack_lo_static _ _ _ _ _ Hsq), (stack_hi_static _ _ _ _ _ Hsq) in HW.
  destruct (so_ring _ _ _ _ _ Hok2) as (r2 & Hr2 & _).
  pose proof (schedule_run a_resume boot_lo boot_hi Hboot _ s2 live2 r2 Hok2 Hroom2 Hr2) as Hs2.
  destruct (first_alive (tasks s2) r2) as [a2|] eqn:Ea2; [|congruence].
  destruct Hs2 as (tp2 & ta2 & Htp2 & Hta2 & Hne2 & _ & Hs2). rewrite Hin in Hs2. injection Hs2 as ->.
  cbn [current switched] in Hback. subst a2. rewrite Htc in Hta2. injection Hta2 as <-. split; [|split].
  - cbn [regs switched]. rewrite (restored_frame s2 tc (r_ebp (regs s)) (r_edi (regs s)) (r_esi (regs s)) (r_ebx (regs s)) a_resume).
    + rewrite He. cbn [esp tq set_esp]. f_equal. lia.
    + intros i v Hi. pose proof (lookup_lt_Some _ _ _ Hi) as Hlt. cbn in Hlt. rewrite He. cbn [esp tq set_esp]. rewrite HW, Hw1 by lia.
      apply poke_lookup. exact (lookup_app_l_Some _ [current s; esp ta] _ _ Hi).
  - exact (schedule_ok TASK_RUNNING s2 live2 true _ Hok2 (or_introl eq_refl) Hroom2 Hin).
  - intros p Hp. cbn [words switched]. rewrite poke_lookup_other.
    + rewrite HW, Hw1 by lia. apply poke_lookup_other. cbn [length frame]. lia.
    + cbn [length frame]. pose proof (stacks_apart boot_lo boot_hi Hboot _ _ _ _ _ _ _ Hok2 Htp2 Htc ltac:(done)) as Hap.
      destruct (so_state _ _ _ _ _ Hok2) as (tp3 & Htp3 & _ & _ & Hsp2), Hroom2 as (tp4 & Htp4 & Hrm2).
      rewrite Htp2 in Htp3, Htp4. injection Htp3 as <-. injection Htp4 as <-.
      rewrite Hh2, Hh1, (stack_lo_static _ _ _ _ _ Hss), (stack_hi_static _ _ _ _ _ Hss) in Hap.
      rewrite (stack_lo_static _ _ _ _ _ Hsq), (stack_hi_static _ _ _ _ _ Hsq) in Hap. rewrite Hh2, Hh1 in Hsp2, Hrm2. lia.
Qed.

(** ** The dead stay dead *)

Definition dead (c : Z) (s : sched H) : Prop := ∃ t, tasks s !! c = Some t ∧ state t = TASK_DEAD ∧ current s ≠ c.

Lemma schedule_dead st s live b s' c : ok st s live → room s → schedule a_resume s = Some (b, s') →
  (∃ t, tasks s !! c = Some t ∧ state t = TASK_DEAD) → b = true ∨ current s ≠ c → dead c s'.
Proof.
  intros Hok Hroom Hrun (t & Ht & Hd) Hb. destruct (so_ring _ _ _ _ _ Hok) as (r & Hr & _).
  pose proof (schedule_run a_resume boot_lo boot_hi Hboot st s live r Hok Hroom Hr) as Hs.
  destruct (first_alive (tasks s) r) as [a|] eqn:Ea.
  2: { rewrite Hrun in Hs. injection Hs as -> ->. destruct Hb; [done|]. by exists t. }
  destruct Hs as (tp & ta & Htp & Hta & Hne & _ & Hs). rewrite Hrun in Hs. injection Hs as -> ->.
  apply first_alive_Some in Ea as (d & r' & _ & Hal & _). unfold alive in Hal. rewrite Hta in Hal.
  assert (a ≠ c) as Hac. { intros ->. rewrite Ht in Hta. injection Hta as <-. by rewrite Hd in Hal. }
  unfold dead. rewrite switched_tasks by done. cbn [current switched]. case_decide as Hc.
  - subst c. rewrite Htp in Ht. injection Ht as <-. eexists. split; [done|]. split; [|done].
    cbn [state set_esp]. unfold demote. by rewrite Hd.
  - rewrite decide_False by done. by exists t.
Qed.

Lemma step_dead x y c : os_step x y → ok TASK_RUNNING x.1 x.2 → dead c x.1 → dead c y.1.
Proof.
  destruct 1 as [s live t W R Ht HW HR|s live b s' Hroom Hrun|s live nm fn t s' sb kb [bs Hnm] Hrun Hbl
    |s live s' Hroom Hrun|s live h live' Hh Hown]; intros Hok (td & Htd & Hd & Hc); cbn [fst snd] in *.
  - by exists td.
  - eapply schedule_dead; eauto.
  - destruct (create_cases _ _ _ _ _ _ _ _ Hok Hnm Hrun) as [[_ (h & -> & _)]|(_ & th & sb0 & kb0 & h & Hth & -> & Hfr & _)];
      [by exists td|].
    destruct (fresh_not_task boot_lo boot_hi _ _ _ _ _ _ _ Hok Hth Hfr) as [Hnew Hne].
    assert (c ≠ t) as Hct by congruence. unfold dead. rewrite created_tasks by done. cbn [current created].
    case_decide; [subst; rewrite Hth in Htd; injection Htd as <-|rewrite decide_False by done]; eauto.
  - destruct (so_state _ _ _ _ _ Hok) as (tc & Htc & _). rewrite (task_exit_unfold s tc Htc) in Hrun.
    eapply (schedule_dead TASK_DEAD (ended s tc) live true); [by eapply ended_ok|by apply ended_room|done| |by left].
    exists td. cbn [tasks ended]. by rewrite lookup_insert_ne.
  - by exists td.
Qed.

(** ** Turns *)

(** The current task computes on its own stack. *)
Definition computes (s s0 : sched H) : Prop :=
  ∃ t W R, tasks s !! current s = Some t ∧
    (∀ p, p < lo s (current s) t ∨ hi s (current s) t ≤ p → W !! p = words s !! p) ∧
    lo s (current s) t ≤ r_esp R ≤ hi s (current s) t ∧ s0 = with_cpu s (tasks s) W R.

(** Whatever the tasks compute, the scheduler returns each time it is entered with
    room on the stack, and after [n] entries [t] is the current task. *)
Fixpoint turn_comes (t : Z) (n : nat) (s : sched H) : Prop :=
  match n with
  | O => current s = t
  | Datatypes.S n' => ∀ s0, computes s s0 → room s0 → ∃ b s1, schedule a_resume s0 = Some (b, s1) ∧ turn_comes t n' s1
  end.

(** Computation, then an entry of the scheduler. *)
Definition sched_entry (s s1 : sched H) : Prop := ∃ s0 b, computes s s0 ∧ room s0 ∧ schedule a_resume s0 = Some (b, s1).

Lemma computes_ok s s0 live : computes s s0 → ok TASK_RUNNING s live → ok TASK_RUNNING s0 live.
Proof.
  intros (t & W & R & Ht & HW & HR & ->) Hok.
  apply (step_ok (s, live) (with_cpu s (tasks s) W R, live)); [by eapply step_run|done].
Qed.

(** There is always a computation that leaves room. *)
Lemma computes_room s live : boot_lo + 28 ≤ boot_hi → ok TASK_RUNNING s live → ∃ s0, computes s s0 ∧ room s0.
Proof.
  intros Hb Hok. destruct (so_state _ _ _ _ _ Hok) as (t & Ht & _).
  assert (lo s (current s) t + 28 ≤ hi s (current s) t) as Hsz.
  { unfold stack_lo, stack_hi, STACK_SIZE. case_decide; lia. }
  set (R := Cpu (r_ebx (regs s)) (r_esi (regs s)) (r_edi (regs s)) (r_ebp (regs s)) (hi s (current s) t) (r_eip (regs s)) (r_if (regs s))).
  exists (with_cpu s (tasks s) (words s) R). split; [exists t, (words s), R; split; [done|]; split; [done|]; split; [cbn; lia|done]|].
  exists t. split; [done|]. exact Hsz.
Qed.

Lemma turns_run t n : ∀ s live, boot_lo + 28 ≤ boot_hi → ok TASK_RUNNING s live → turn_comes t n s →
  ∃ s', nsteps sched_entry n s s' ∧ current s' = t.
Proof.
  induction n as [|n IH]; intros s live Hb Hok Ht; [exists s; split; [constructor|done]|].
  destruct (computes_room s live Hb Hok) as (s0 & Hc & Hr). destruct (Ht s0 Hc Hr) as (b & s1 & E & Ht1).
  pose proof (computes_ok s s0 live Hc Hok) as Hok0.
  destruct (IH s1 live Hb) as (s' & Hn & Hs'); [|done|].
  { apply (step_ok (s0, live) (s1, live)); [by eapply step_schedule|done]. }
  exists s'. split; [|done]. econstructor; [|exact Hn]. by exists s0, b.
Qed.

(** One entry of the scheduler, on the ring. *)
Lemma schedule_turn s live b s1 r : ok TASK_RUNNING s live → room s → schedule a_resume s = Some (b, s1) →
  ring_at (tasks s) (current s) r →
  match first_alive (tasks s) r with
  | None => s1 = s
  | Some a => current s1 = a ∧ (∀ x, alive (tasks s1) x = alive (tasks s) x) ∧
      ∀ d r', r = d ++ a :: r' → ring_at (tasks s1) a (r' ++ current s :: d)
  end.
Proof.
  intros Hok Hroom Hrun Hr. pose proof (schedule_run a_resume boot_lo boot_hi Hboot _ s live r Hok Hroom Hr) as Hs.
  destruct (first_alive (tasks s) r) as [a|] eqn:Ea; [|rewrite Hrun in Hs; by injection Hs as _ ->].
  destruct Hs as (tp & ta & Htp & Hta & Hne & _ & Hs). rewrite Hrun in Hs. injection Hs as _ ->.
  apply first_alive_Some in Ea as (_ & _ & _ & Hal & _). split; [done|]. split.
  - intros x. unfold alive in *. rewrite Hta in Hal. rewrite switched_tasks by done. repeat case_decide; subst; [|by rewrite Hta|done].
    rewrite Htp. destruct (so_state _ _ _ _ _ Hok) as (tp' & Htp' & Hst & _). rewrite Htp in Htp'. injection Htp' as <-.
    unfold demote. by rewrite Hst.
  - intros d r' ->. eapply ring_links; [by apply switched_links|]. by apply ring_rotate.
Qed.

Lemma schedule_returns s live : ok TASK_RUNNING s live → room s → ∃ b s1, schedule a_resume s = Some (b, s1).
Proof.
  intros Hok Hroom. destruct (so_ring _ _ _ _ _ Hok) as (r & Hr & _).
  pose proof (schedule_run a_resume boot_lo boot_hi Hboot _ s live r Hok Hroom Hr) as Hs.
  destruct (first_alive (tasks s) r); [|eauto]. destruct Hs as (? & ? & _ & _ & _ & _ & Hs). eauto.
Qed.

Lemma turn_reach k : ∀ s live r t, ok TASK_RUNNING s live → ring_at (tasks s) (current s) r →
  t ∈ r ++ [current s] → alive (tasks s) t = true → rank (tasks s) (r ++ [current s]) t = k → turn_comes t k s.
Proof.
  induction k as [|k IH]; intros s live r t Hok Hr Hin Hal Hk.
  { pose proof (rank_pos _ _ _ Hin Hal). lia. }
  intros s0 Hcomp Hroom. pose proof (computes_ok s s0 live Hcomp Hok) as Hok0.
  destruct (schedule_returns s0 live Hok0 Hroom) as (b & s1 & Hrun). exists b, s1. split; [exact Hrun|].
  assert (tasks s0 = tasks s ∧ current s0 = current s) as [Et Ec] by (destruct Hcomp as (? & ? & ? & _ & _ & _ & ->); done).
  rewrite <-Et, <-Ec in *. clear Et Ec s Hok Hcomp. rename s0 into s.
  assert (ok TASK_RUNNING s1 live) as Hok1.
  { apply (step_ok (s, live) (s1, live)); [by eapply step_schedule|done]. }
  pose proof (schedule_turn s live b s1 r Hok0 Hroom Hrun Hr) as Hturn.
  destruct (first_alive (tasks s) r) as [a|] eqn:Ea.
  - destruct Hturn as (Hc1 & Hal1 & Hr1). pose proof Ea as (d & r' & -> & Ha & Hd)%first_alive_Some.
    specialize (Hr1 d r' eq_refl). rewrite <-app_assoc in Hk, Hin.
    assert (t ∉ d) as Htd. { intros Htd. rewrite Forall_forall in Hd. apply Hd in Htd. congruence. }
    rewrite rank_dead in Hk by done. cbn [app rank] in Hk. rewrite Ha in Hk. case_decide as Hat.
    + injection Hk as <-. cbn. congruence.
    + injection Hk as Hk. assert (t ∈ r' ++ [current s]) as Hin' by set_solver.
      rewrite <-Hc1 in Hr1. apply (IH s1 live (r' ++ current s :: d) t); [done|done| |by rewrite Hal1|].
      * set_solver.
      * rewrite (rank_ext _ (tasks s)) by done. rewrite <-app_assoc. cbn [app].
        rewrite (cons_middle (current s)), app_assoc, rank_app by done. done.
  - subst s1. apply first_alive_None in Ea.
    assert (t = current s) as ->.
    { apply elem_of_app in Hin as [Hin|Hin]; [|set_solver]. rewrite Forall_forall in Ea. apply Ea in Hin. congruence. }
    rewrite rank_dead in Hk; [|done|].
    2: { destruct Hr as (Hnd & _). by apply NoDup_cons in Hnd as [? _]. }
    cbn [rank] in Hk. rewrite decide_True in Hk by done. injection Hk as <-. done.
Qed.
End os.

(** ** Counting *)

Definition alive_in (m : gmap Z task_t) (l : list Z) : Z := Z.of_nat (length (List.filter (alive m) l)).

Lemma ring_from m c r h : ring_at m c r → h ∈ c :: r → ∃ r', ring_at m h r' ∧ h :: r' ≡ₚ c :: r.
Proof.
  intros Hr Hin. apply elem_of_cons in Hin as [->|Hin]; [by exists r|].
  apply list_elem_of_split in Hin as (d & r' & ->). exists (r' ++ c :: d). split; [by apply ring_rotate|].
  rewrite <-Permutation_middle, <-(Permutation_middle d). rewrite (Permutation_app_comm r' d). apply perm_swap.
Qed.

Lemma count_loop_run {H} {AH : Allocator H} (s : sched H) n a r acc :
  chain (tasks s) (a :: r) (head s) → head s ∉ r → (length r < n)%nat →
  count_loop n a acc s = Some (acc + alive_in (tasks s) (a :: r), s).
Proof.
  revert a r acc. induction n as [|n IH]; intros a r acc [(t & Ht & Hn) Hc] Hh Hlen; [lia|].
  cbn [count_loop]. rewrite (M_bind_run _ _ _ _ _ (ld_task_run s a t Ht)), bind_gets. cbn zeta.
  assert (alive_in (tasks s) (a :: r) = (if negb (state t =? TASK_DEAD) then 1 else 0) + alive_in (tasks s) r) as ->.
  { unfold alive_in. cbn [List.filter]. unfold alive at 1. rewrite Ht. destruct (negb _); cbn [length]; lia. }
  destruct r as [|b r]; cbn [hd] in Hn; rewrite Hn.
  - rewrite Z.eqb_refl. change (alive_in (tasks s) []) with 0. unfold mret, M_ret. do 2 f_equal. destruct (negb _); lia.
  - destruct (Z.eqb_spec b (head s)) as [->|]; [set_solver|]. cbn [length] in Hlen.
    rewrite (IH b r); [|done|set_solver|lia]. do 2 f_equal. destruct (negb _); lia.
Qed.

(** ** A running system *)

Definition sim_raw : task_t := Task 0 0 0 0 0 [] 0 0 0.
Definition sim0 : sched kheap := Sched heap_booted ∅ ∅ (Cpu 1 2 3 4 585728 100 true) 0 0 0 0 0.
Definition run_of {A} (o : option (A * sched kheap)) : sched kheap := match o with Some (_, s) => s | None => sim0 end.
Definition val_of (o : option (Z * sched kheap)) : Z := match o with Some (v, _) => v | None => 0 end.
(** After [tasking_init], and with one worker. *)
Definition sim1 : sched kheap := run_of (tasking_init sim_raw sim0).
Definition worker : Z := val_of (task_create 11 12 (lit "worker") 77 sim1).
Definition sim2 : sched kheap := run_of (task_create 11 12 (lit "worker") 77 sim1).
Definition sim3 : sched kheap := run_of (schedule 13 sim2).
Definition sim4 : sched kheap := run_of (schedule 13 sim3).
Definition sim5 : sched kheap := run_of (task_exit 13 sim4).

Example sim_facts :
  tasking_init sim_raw sim0 = Some (tt, sim1) ∧
  task_create 11 12 (lit "worker") 77 sim1 = Some (worker, sim2) ∧
  schedule 13 sim2 = Some (true, sim3) ∧ schedule 13 sim3 = Some (true, sim4) ∧
  current sim3 = worker ∧ r_eip (regs sim3) = 12 ∧ regs sim4 = Cpu 1 2 3 4 (585728 - 8) 13 true ∧
  task_exit 13 sim4 = Some (true, sim5).
Proof. vm_compute. repeat split. Qed.

Lemma sim_boot_ok : boot_ok 520192 589824.
Proof. unfold boot_ok, HEAP_START. lia. Qed.

Lemma sim0_heap : a_inv (heap sim0) ∅.
Proof.
  exists [(HEAP_SIZE - HDR, true)]. split; [exact heap_booted_ok|]. split; [set_solver|]. done.
Qed.

Lemma sim1_ok : ∃ live, sched_ok 520192 589824 TASK_RUNNING sim1 live.
Proof.
  apply (tasking_init_ok 520192 589824 sim_raw sim_boot_ok sim0 ∅); [done|exact sim0_heap|cbn; lia|]. apply sim_facts.
Qed.

Lemma sim_room : has_room 520192 sim1 ∧ has_room 520192 sim2 ∧ has_room 520192 sim3 ∧ has_room 520192 sim4.
Proof. repeat split; eexists; (split; [vm_compute; reflexivity|]); vm_compute; discriminate. Qed.

(** The history of the example, as steps. *)
Lemma sim_steps live : sched_ok 520192 589824 TASK_RUNNING sim1 live →
  ∃ live', os_step 11 12 13 520192 589824 (sim1, live) (sim2, live') ∧
    os_step 11 12 13 520192 589824 (sim2, live') (sim3, live') ∧
    os_step 11 12 13 520192 589824 (sim3, live') (sim4, live').
Proof.
  intros Hok. destruct sim_facts as (_ & Hc & H2 & H3 & _). destruct sim_room as (_ & R2 & R3 & _).
  eexists. split; [|split].
  - eapply (step_create _ _ _ _ _ sim1 live (lit "worker") 77 worker sim2); [by vm_compute; eexists|done|].
    intros _. split; vm_compute; reflexivity.
  - by eapply step_schedule.
  - by eapply step_schedule.
Qed.

Lemma sim2_ring : ring_at (tasks sim2) (current sim2) [worker].
Proof.
  split; [apply (bool_decide_unpack _); vm_compute; exact I|]. split.
  - cbn [chain hd]. repeat split; eexists; (split; [vm_compute; reflexivity|vm_compute; reflexivity]).
  - intros a. assert (dom (tasks sim2) = {[current sim2; worker]}) as E by (vm_compute; reflexivity).
    rewrite <-elem_of_dom, E, elem_of_union, !elem_of_singleton, !elem_of_cons, elem_of_nil. tauto.
Qed.

(** ** Properties *)

(** C4. In every state the system can reach from [tasking_init], through any
    interleaving of computation, scheduling, task creation and exit and other
    use of the heap, the tasks form one ring, exactly the current task is
    marked running, every other task is dead or has, on its own stack, the
    frame from which it will be resumed, no two tasks share a structure or a
    stack, and the TSS names the trap stack of the current task. *)
Theorem sched_invariant {H} {AH : Allocator H} {AS : AllocatorSpec H} ax ab ar blo bhi raw
    (s0 : sched H) live0 s1 (Hboot : boot_ok blo bhi) (Hnone : tasks s0 = ∅) (Hheap : a_inv (heap s0) live0)
    (Hsp : blo ≤ r_esp (regs s0) ≤ bhi) (Hinit : tasking_init raw s0 = Some (tt, s1)) :
  ∃ live1, sched_ok blo bhi TASK_RUNNING s1 live1 ∧
    ∀ c, rtc (os_step ax ab ar blo bhi) (s1, live1) c → sched_ok blo bhi TASK_RUNNING c.1 c.2.
Proof.
  destruct (tasking_init_ok blo bhi raw Hboot s0 live0 s1 Hnone Hheap Hsp Hinit) as [live1 Hok].
  exists live1. split; [done|]. intros c Hreach. exact (steps_ok ax ab ar blo bhi Hboot _ _ Hreach Hok).
Qed.

Lemma sched_invariant_witness :
  ∃ live1, sched_ok 520192 589824 TASK_RUNNING sim1 live1 ∧
    ∀ c, rtc (os_step 11 12 13 520192 589824) (sim1, live1) c → sched_ok 520192 589824 TASK_RUNNING c.1 c.2.
Proof.
  apply (sched_invariant 11 12 13 520192 589824 sim_raw sim0 ∅ sim1).
  - exact sim_boot_ok.
  - reflexivity.
  - exact sim0_heap.
  - cbn. lia.
  - apply sim_facts.
Defined.

(** C13. [schedule] always returns, and gives the processor to the first task
    after the current one in ring order that is not dead, with its own trap
    stack in the TSS, as the only running task; when there is no such task it
    changes nothing. *)
Theorem schedule_picks {H} {AH : Allocator H} {AS : AllocatorSpec H} ar blo bhi (s : sched H) live r
    (Hboot : boot_ok blo bhi) (Hok : sched_ok blo bhi TASK_RUNNING s live) (Hroom : has_room blo s)
    (Hring : ring_at (tasks s) (current s) r) :
  match first_alive (tasks s) r with
  | None => schedule ar s = Some (false, s)
  | Some a => ∃ ta s', tasks s !! a = Some ta ∧ schedule ar s = Some (true, s') ∧
      current s' = a ∧ tss_esp0 s' = kstack_top ta ∧
      ∀ b tb, tasks s' !! b = Some tb → state tb = TASK_RUNNING ↔ b = a
  end.
Proof.
  pose proof (schedule_run ar blo bhi Hboot _ s live r Hok Hroom Hring) as Hs.
  destruct (first_alive (tasks s) r) as [a|] eqn:Ea; [|done].
  destruct Hs as (tp & ta & Htp & Hta & Hne & Hw & Hs). exists ta, (switched ar s a tp ta (restored s ta)).
  split; [done|]. split; [done|]. split; [done|]. split; [done|]. intros b tb Hb.
  assert (sched_ok blo bhi TASK_RUNNING (switched ar s a tp ta (restored s ta)) live) as Hok'.
  { apply (switched_ok ar blo bhi Hboot TASK_RUNNING s live r); auto. }
  split.
  - intros Hst. destruct (decide (b = a)) as [|Hba]; [done|].
    destruct (so_others _ _ _ _ _ Hok' b tb Hb Hba) as [?|[? _]]; unfold TASK_RUNNING, TASK_READY, TASK_DEAD in *; congruence.
  - intros ->. destruct (so_state _ _ _ _ _ Hok') as (t & Ht & Hst & _). cbn [current switched] in Ht. congruence.
Qed.

Lemma schedule_picks_witness :
  match first_alive (tasks sim2) [worker] with
  | None => schedule 13 sim2 = Some (false, sim2)
  | Some a => ∃ ta s', tasks sim2 !! a = Some ta ∧ schedule 13 sim2 = Some (true, s') ∧
      current s' = a ∧ tss_esp0 s' = kstack_top ta ∧
      ∀ b tb, tasks s' !! b = Some tb → state tb = TASK_RUNNING ↔ b = a
  end.
Proof.
  destruct sim1_ok as [live1 Hok1]. destruct (sim_steps live1 Hok1) as (live & S12 & _).
  apply (schedule_picks 13 520192 589824 sim2 live [worker]).
  - exact sim_boot_ok.
  - exact (step_ok _ _ _ _ _ sim_boot_ok _ _ S12 Hok1).
  - apply sim_room.
  - exact sim2_ring.
Defined.

(** C5. Every live task gets its turn: there is a number of entries of the
    scheduler, at least one and at most the number of tasks, such that whatever
    the tasks compute on their stacks in between, every one of these entries that
    finds room on the stack returns, and after the last the task is the current
    one; and such runs exist. *)
Theorem sched_fair {H} {AH : Allocator H} {AS : AllocatorSpec H} ar blo bhi (s : sched H) live r t
    (Hboot : boot_ok blo bhi) (Hstack : blo + 28 ≤ bhi) (Hok : sched_ok blo bhi TASK_RUNNING s live)
    (Hring : ring_at (tasks s) (current s) r) (Ht : t ∈ current s :: r) (Halive : alive (tasks s) t = true) :
  ∃ k, (1 ≤ k ≤ base.size (tasks s))%nat ∧ turn_comes ar blo bhi t k s ∧
    ∃ s', nsteps (sched_entry ar blo bhi) k s s' ∧ current s' = t.
Proof.
  assert (t ∈ r ++ [current s]) as Hin by set_solver. set (k := rank (tasks s) (r ++ [current s]) t).
  assert (turn_comes ar blo bhi t k s) as Hturn by (by apply (turn_reach 0 0 ar blo bhi Hboot k s live r)).
  exists k. split; [|split; [exact Hturn|by apply (turns_run 0 0 ar blo bhi Hboot t k s live)]].
  split; [by apply rank_pos|]. rewrite (ring_size _ _ _ Hring). etrans; [apply rank_le|]. rewrite length_app. cbn. lia.
Qed.

Lemma sched_fair_witness :
  ∃ k s', (1 ≤ k ≤ base.size (tasks sim2))%nat ∧ turn_comes 13 520192 589824 worker k sim2 ∧
    nsteps (sched_entry 13 520192 589824) k sim2 s' ∧ current s' = worker.
Proof.
  destruct sim1_ok as [live1 Hok1]. destruct (sim_steps live1 Hok1) as (live & S12 & _).
  destruct (sched_fair 13 520192 589824 sim2 live [worker] worker) as (k & Hk & Hturn & s' & Hrun & Hs').
  - exact sim_boot_ok.
  - lia.
  - exact (step_ok _ _ _ _ _ sim_boot_ok _ _ S12 Hok1).
  - exact sim2_ring.
  - apply elem_of_cons. right. apply elem_of_cons. left. reflexivity.
  - vm_compute. reflexivity.
  - exists k, s'. split; [exact Hk|]. split; [exact Hturn|]. split; [exact Hrun|exact Hs'].
Defined.

(** C6. A task that was switched out is resumed where it left off: however long
    other tasks run, compute, are created and end in the meantime, when the
    scheduler comes back to it, it continues after its call of
    [context_switch] with the callee-saved registers and the stack pointer it
    had there. *)
Theorem resume_registers {H} {AH : Allocator H} {AS : AllocatorSpec H} ax ab ar blo bhi
    (s s1 s2 s3 : sched H) live live2 (Hboot : boot_ok blo bhi) (Hok : sched_ok blo bhi TASK_RUNNING s live)
    (Hroom : has_room blo s) (Hout : schedule ar s = Some (true, s1))
    (Haway : rtc (away ax ab ar blo bhi (current s)) (s1, live) (s2, live2))
    (Hroom2 : has_room blo s2) (Hin : schedule ar s2 = Some (true, s3)) (Hback : current s3 = current s) :
  regs s3 = Cpu (r_ebx (regs s)) (r_esi (regs s)) (r_edi (regs s)) (r_ebp (regs s)) (r_esp (regs s) - 8) ar
              (r_if (regs s2)).
Proof.
  destruct (so_state _ _ _ _ _ Hok) as (tp & Htp & _).
  apply (resume_run ax ab ar blo bhi Hboot s s1 s2 s3 live live2 tp Hok Hroom Hout Haway Hroom2 Hin Hback Htp).
Qed.

Lemma resume_registers_witness :
  regs sim4 = Cpu (r_ebx (regs sim2)) (r_esi (regs sim2)) (r_edi (regs sim2)) (r_ebp (regs sim2))
    (r_esp (regs sim2) - 8) 13 (r_if (regs sim3)).
Proof.
  destruct sim1_ok as [live1 Hok1]. destruct (sim_steps live1 Hok1) as (live & S12 & _).
  apply (resume_registers 11 12 13 520192 589824 sim2 sim3 sim3 sim4 live live).
  - exact sim_boot_ok.
  - exact (step_ok _ _ _ _ _ sim_boot_ok _ _ S12 Hok1).
  - apply sim_room.
  - apply sim_facts.
  - apply rtc_refl.
  - apply sim_room.
  - apply sim_facts.
  - vm_compute. reflexivity.
Defined.

(** A task that has ended is never the current task again, whatever happens
    afterwards. *)
Theorem exited_never_runs {H} {AH : Allocator H} {AS : AllocatorSpec H} ax ab ar blo bhi
    (s s1 : sched H) live c (Hboot : boot_ok blo bhi) (Hok : sched_ok blo bhi TASK_RUNNING s live)
    (Hroom : has_room blo s) (Hexit : task_exit ar s = Some (true, s1))
    (Hlater : rtc (os_step ax ab ar blo bhi) (s1, live) c) : current c.1 ≠ current s.
Proof.
  assert (os_step ax ab ar blo bhi (s, live) (s1, live)) as Hstep by (by apply step_exit).
  pose proof (step_ok _ _ _ _ _ Hboot _ _ Hstep Hok) as Hok1. cbn [fst snd] in Hok1.
  assert (dead (current s) s1) as Hd.
  { destruct (so_state _ _ _ _ _ Hok) as (tc & Htc & _). rewrite (task_exit_unfold ar s tc Htc) in Hexit.
    eapply (schedule_dead ar blo bhi Hboot TASK_DEAD (ended s tc) live true);
      [by eapply ended_ok|by apply ended_room|done| |by left].
    exists (set_state tc TASK_DEAD). cbn [tasks ended]. by rewrite lookup_insert_eq. }
  assert (∀ x y, rtc (os_step ax ab ar blo bhi) x y → sched_ok blo bhi TASK_RUNNING x.1 x.2 →
    dead (current s) x.1 → dead (current s) y.1) as Hall.
  { induction 1 as [|x y z Hxy _ IH]; [done|]. intros Hx Hdx. apply IH; [by eapply step_ok|by eapply step_dead]. }
  destruct (Hall _ _ Hlater Hok1 Hd) as (t & _ & _ & Hc). done.
Qed.

Lemma exited_never_runs_witness : current sim5 ≠ current sim4.
Proof.
  destruct sim1_ok as [live1 Hok1]. destruct (sim_steps live1 Hok1) as (live & S12 & S23 & S34).
  apply (exited_never_runs 11 12 13 520192 589824 sim4 sim5 live (sim5, live)).
  - exact sim_boot_ok.
  - exact (step_ok _ _ _ _ _ sim_boot_ok _ _ S34 (step_ok _ _ _ _ _ sim_boot_ok _ _ S23
      (step_ok _ _ _ _ _ sim_boot_ok _ _ S12 Hok1))).
  - apply sim_room.
  - apply sim_facts.
  - apply rtc_refl.
Defined.

(** [task_create] either fails and leaves the tasks as they are and the heap
    with exactly the blocks it had, or adds one task, marked ready, directly
    after the initial one, with three blocks of its own, such that the first
    switch to it enters [task_bootstrap] with cleared registers and
    [task_exit] as the return address; the invariant holds either way. *)
Theorem task_create_effect {H} {AH : Allocator H} {AS : AllocatorSpec H} ax ab blo bhi
    (s : sched H) live nm bs fn (Hboot : boot_ok blo bhi) (Hok : sched_ok blo bhi TASK_RUNNING s live)
    (Hname : strncpy nm (TASK_NAME_MAX - 1) = Some bs) :
  ∃ t s', task_create ax ab nm fn s = Some (t, s') ∧
    if t =? 0 then tasks s' = tasks s ∧ words s' = words s ∧ sched_ok blo bhi TASK_RUNNING s' live
    else ∃ th tn sb kb, tasks s !! head s = Some th ∧ tasks s !! t = None ∧
      tasks s' = <[head s := set_next th t]> (<[t := tn]> (tasks s)) ∧ next tn = next th ∧
      state tn = TASK_READY ∧ entry tn = fn ∧ name tn = bs ++ [0] ∧
      restored s' tn = Cpu 0 0 0 0 (stack_base tn + STACK_SIZE - 4) ab (r_if (regs s)) ∧
      words s' !! (stack_base tn + STACK_SIZE - 4) = Some ax ∧
      sched_ok blo bhi TASK_RUNNING s' (with_blocks live t sb kb).
Proof.
  destruct (so_ring _ _ _ _ _ Hok) as (r & (_ & _ & Hdom) & Hin). apply Hdom in Hin as [th Hth].
  destruct (task_create_run ax ab blo bhi _ s live nm bs fn th Hok Hname Hth)
    as [(h & E & Hh)|(t & sb & kb & h & E & Hfr & Hh)].
  - exists 0, (with_heap s h). split; [done|]. split; [done|]. split; [done|]. destruct Hok. by split.
  - exists t, (created ax ab s h t sb kb (bs ++ [0]) fn th). split; [done|].
    destruct (fresh_not_task blo bhi _ _ _ _ _ _ _ Hok Hth Hfr) as [Hnew _].
    pose proof Hfr as (_ & _ & _ & _ & _ & _ & _ & _ & Ht0 & _). rewrite (proj2 (Z.eqb_neq _ _) Ht0).
    exists th, (new_task sb kb (next_id s) (bs ++ [0]) fn (next th)), sb, kb.
    do 7 (split; [done|]).
    pose proof (λ i v, poke_lookup (sb + STACK_SIZE - 24) (first_frame ax ab) (words s) i v) as HF.
    split; [|split; [|by apply created_ok]].
    + rewrite (restored_frame _ _ 0 0 0 0 ab); [cbn; f_equal; lia|].
      intros i v Hi. apply HF. exact (lookup_app_l_Some _ [ax] _ _ Hi).
    + cbn [stack_base new_task words created]. rewrite <-(HF 5%nat ax eq_refl). f_equal. lia.
Qed.

Lemma task_create_effect_witness :
  ∃ t s', task_create 11 12 (lit "worker") 77 sim1 = Some (t, s') ∧
    if t =? 0 then tasks s' = tasks sim1 ∧ words s' = words sim1 ∧ ∃ live, sched_ok 520192 589824 TASK_RUNNING s' live
    else ∃ th tn, tasks sim1 !! head sim1 = Some th ∧ tasks s' = <[head sim1 := set_next th t]> (<[t := tn]> (tasks sim1)) ∧
      restored s' tn = Cpu 0 0 0 0 (stack_base tn + STACK_SIZE - 4) 12 (r_if (regs sim1)).
Proof.
  destruct sim1_ok as [live Hok].
  destruct (task_create_effect 11 12 520192 589824 sim1 live (lit "worker") (lit "worker" ++ replicate 24 0) 77)
    as (t & s' & E & Hcase); [exact sim_boot_ok|exact Hok|vm_compute; reflexivity|].
  exists t, s'. split; [exact E|]. destruct (t =? 0).
  - destruct Hcase as (A & B & C). eauto.
  - destruct Hcase as (th & tn & sb & kb & A & _ & B & _ & _ & _ & _ & C & _). eauto.
Defined.

(** [task_count] ends and is the number of tasks that are not dead. *)
Theorem task_count_alive {H} {AH : Allocator H} {AS : AllocatorSpec H} blo bhi st (s : sched H) live r
    (Hok : sched_ok blo bhi st s live) (Hring : ring_at (tasks s) (current s) r) :
  task_count s = Some (alive_in (tasks s) (current s :: r), s).
Proof.
  destruct (so_ring _ _ _ _ _ Hok) as (r0 & (_ & _ & Hd0) & Hin).
  assert (head s ∈ current s :: r) as Hin' by (destruct Hring as (_ & _ & Hd); by apply Hd, Hd0).
  destruct (ring_from _ _ _ _ Hring Hin') as (l & Hl & HP).
  unfold task_count. rewrite !bind_gets, (ring_size _ _ _ Hl).
  assert (alive_in (tasks s) (current s :: r) = alive_in (tasks s) (head s :: l)) as ->.
  { unfold alive_in. f_equal. apply Permutation_length. clear -HP.
    induction HP as [|x l1 l2 _ IH|x y l0|l1 l2 l3 _ IH1 _ IH2]; cbn [List.filter]; [done| | |by etrans].
    - destruct (alive _ x); [by constructor|done].
    - destruct (alive _ x), (alive _ y); try done. constructor. }
  destruct Hl as (Hnd & Hc & _). apply NoDup_cons in Hnd as [Hh _].
  rewrite (count_loop_run s _ (head s) l); [done|done|done|lia].
Qed.

Lemma task_count_alive_witness : task_count sim2 = Some (alive_in (tasks sim2) [current sim2; worker], sim2).
Proof.
  destruct sim1_ok as [live1 Hok1]. destruct (sim_steps live1 Hok1) as (live & S12 & _).
  apply (task_count_alive 520192 589824 TASK_RUNNING sim2 live [worker]).
  - exact (step_ok _ _ _ _ _ sim_boot_ok _ _ S12 Hok1).
  - exact sim2_ring.
Defined.
