(* ===== verification/Preempt.v ===== *)
(** * Preemption (cpu/interrupt.asm, the path of a hardware interrupt)

    A task computes until the timer interrupts it.  The processor and the stub
    push its whole state on its own stack and call the C handler, which ends in
    [schedule]; when the task is current again, the handler returns to the stub,
    which pops the state.  The compiled code of the handler is not known here:
    it is a step that works below the stack pointer it was called with, and an
    epilogue that returns to the stub when it finds its own frame as it left
    it. *)

From S2P Require Import Prelude Kheap Alloc Cpu Task TaskSwitch TaskInv TaskSpec.

(** The registers that [cpu] leaves out; [x_ds] is the selector that all four
    data segments hold. *)
Record others := Others { x_eax : Z; x_ecx : Z; x_edx : Z; x_ds : Z; x_cs : Z; x_eflags : Z }.

(** [mov ax, ds]: the lower half of [eax] is replaced. *)
Definition mov_ax (eax ds : Z) : Z := Z.lor (Z.land eax 4294901760) ds.

Definition set_flag_if (b : bool) : M machine unit := modify (λ m,
  (m.1, Cpu (r_ebx m.2) (r_esi m.2) (r_edi m.2) (r_ebp m.2) (r_esp m.2) (r_eip m.2) b)).

(** The interrupt in ring 0, the stub of line [n - 32] and [irq_common_stub] up
    to the call of the handler; [a_back] is the instruction after the call.  The
    result is what the handler starts with: cs from the gate, the interrupt flag
    cleared, 0x10 in ax and in the data segments. *)
Definition irq_in (a_back n : Z) (x : others) : M machine others :=
  r ← gets snd;
  _ ← push (x_eflags x);
  _ ← push (x_cs x);
  _ ← push (r_eip r);
  _ ← set_flag_if false;
  _ ← push 0;
  _ ← push n;
  e ← get_sp;
  _ ← push (x_eax x);
  _ ← push (x_ecx x);
  _ ← push (x_edx x);
  _ ← push (r_ebx r);
  _ ← push e;
  _ ← push (r_ebp r);
  _ ← push (r_esi r);
  _ ← push (r_edi r);
  _ ← push (mov_ax (x_eax x) (x_ds x));
  p ← get_sp;
  _ ← push p;
  _ ← push a_back;
  mret (Others (mov_ax (mov_ax (x_eax x) (x_ds x)) 16) (x_ecx x) (x_edx x) 16 8 (Z.clearbit (x_eflags x) 9)).

(** What every handler of a hardware interrupt can rely on. *)
Definition in_handler (x : others) : Prop := x_ds x = 16 ∧ x_cs x = 8 ∧ Z.testbit (x_eflags x) 9 = false.
Lemma clear_if fl : Z.testbit (Z.clearbit fl 9) 9 = false.
Proof. by rewrite Z.clearbit_eq. Qed.

(** The return of the handler and the rest of the stub, up to [iret]. *)
Definition irq_out (a_back : Z) : M machine others :=
  ip ← pop;
  if negb (ip =? a_back) then fault
  else
    p ← get_sp;
    _ ← set_sp (u32 (p + 4));
    eax ← pop;
    di ← pop;
    si ← pop;
    bp ← pop;
    _ ← pop;
    bx ← pop;
    dx ← pop;
    cx ← pop;
    ax ← pop;
    p ← get_sp;
    _ ← set_sp (u32 (p + 8));
    ip ← pop;
    cs ← pop;
    fl ← pop;
    _ ← modify (λ m, (m.1, Cpu bx si di bp (r_esp m.2) ip (Z.testbit fl 9)));
    mret (Others ax cx dx (Z.land eax 65535) cs fl).

(** The words the stub leaves on the stack, lowest address first, for a task
    whose stack pointer was [e]. *)
Definition stub_frame (a_back n : Z) (x : others) (R : cpu) (e : Z) : list Z :=
  [a_back; e - 56; mov_ax (x_eax x) (x_ds x); r_edi R; r_esi R; r_ebp R; e - 20; r_ebx R; x_edx x; x_ecx x; x_eax x; n; 0; r_eip R; x_cs x; x_eflags x].

(** A push on top of words that have been pushed. *)
Lemma push_poke W R v l e e' : e' = e - 4 → 4 ≤ e < 4294967296 →
  push v (poke e l W, sp R e) = Some (tt, (poke e' (v :: l) W, sp R e')).
Proof. intros -> He. rewrite (push_run _ R v e (e - 4)) by lia. cbn [poke]. by replace (e - 4 + 4) with e by lia. Qed.

(** The next push or pop, at a known distance [k] from [E]. *)
Ltac next_push E k :=
  let k' := eval compute in (k + 4) in
  rewrite (M_bind_run _ _ _ _ _ (push_poke _ _ _ _ (E - k) (E - k') ltac:(lia) ltac:(lia))).
Ltac next_pop E k HW i :=
  let k' := eval compute in (k + 4) in
  rewrite (M_bind_run _ _ _ _ _ (pop_run _ _ _ (E + k) (E + k') ltac:(lia) ltac:(lia) (HW i _ eq_refl))).

Lemma irq_in_at a_back n x W R E : 64 ≤ E < 4294967296 →
  irq_in a_back n x (W, sp R E) = Some (Others (mov_ax (mov_ax (x_eax x) (x_ds x)) 16) (x_ecx x) (x_edx x) 16 8 (Z.clearbit (x_eflags x) 9), (poke (E - 64) (stub_frame a_back n x R E) W,
    Cpu (r_ebx R) (r_esi R) (r_edi R) (r_ebp R) (E - 64) (r_eip R) false)).
Proof.
  intros HE. unfold irq_in. rewrite bind_gets. cbn [snd r_ebx r_esi r_edi r_ebp r_eip sp]. change (W, ?r) with (poke E [] W, r).
  rewrite (M_bind_run _ _ _ _ _ (push_poke _ _ _ _ E (E - 4) ltac:(lia) ltac:(lia))). next_push E 4. next_push E 8.
  unfold set_flag_if. rewrite bind_modify. cbn [fst snd r_ebx r_esi r_edi r_ebp r_esp r_eip sp].
  set (R0 := Cpu (r_ebx R) (r_esi R) (r_edi R) (r_ebp R) 0 (r_eip R) false).
  change (Cpu (r_ebx R) (r_esi R) (r_edi R) (r_ebp R) (E - 12) (r_eip R) false) with (sp R0 (E - 12)).
  next_push E 12. next_push E 16. unfold get_sp. rewrite bind_gets. change (r_esp (_, sp R0 (E - 20)).2) with (E - 20).
  next_push E 20. next_push E 24. next_push E 28. next_push E 32. next_push E 36. next_push E 40. next_push E 44. next_push E 48. next_push E 52.
  rewrite bind_gets. change (r_esp (_, sp R0 (E - 56)).2) with (E - 56).
  next_push E 56. by next_push E 60.
Qed.

Lemma irq_in_run a_back n x W R : let E := r_esp R in 64 ≤ E < 4294967296 →
  ∃ y, irq_in a_back n x (W, R) = Some (y, (poke (E - 64) (stub_frame a_back n x R E) W,
    Cpu (r_ebx R) (r_esi R) (r_edi R) (r_ebp R) (E - 64) (r_eip R) false)) ∧ in_handler y.
Proof.
  intros E HE. pose proof (irq_in_at a_back n x W R E HE) as Hr. destruct R as [? ? ? ? sp0 ? ?]. eexists. split; [exact Hr|].
  split; [done|]. split; [done|]. apply clear_if.
Qed.

Lemma mov_ax_ds eax ds : 0 ≤ ds < 65536 → Z.land (mov_ax eax ds) 65535 = ds.
Proof.
  intros Hds. unfold mov_ax. rewrite Z.land_lor_distr_l, <- Z.land_assoc. change (Z.land 4294901760 65535) with 0.
  rewrite Z.land_0_r, Z.lor_0_l. change 65535 with (Z.ones 16). rewrite Z.land_ones by lia. by apply Z.mod_small.
Qed.

Lemma irq_out_run a_back n x W R R0 e E : 0 ≤ x_ds x < 65536 → e = E + 64 → 0 ≤ E < 4294967232 →
  (∀ i v, stub_frame a_back n x R e !! i = Some v → W !! (E + 4 * Z.of_nat i) = Some v) →
  irq_out a_back (W, sp R0 E) =
    Some (x, (W, Cpu (r_ebx R) (r_esi R) (r_edi R) (r_ebp R) e (r_eip R) (Z.testbit (x_eflags x) 9))).
Proof.
  intros Hds -> HE HW. unfold irq_out.
  unfold stub_frame in HW. pose proof (HW 0%nat a_back eq_refl) as H0. rewrite Z.mul_0_r, Z.add_0_r in H0.
  rewrite (M_bind_run _ _ _ _ _ (pop_run W R0 a_back E (E + 4) ltac:(lia) ltac:(lia) H0)), Z.eqb_refl. cbn [negb].
  unfold get_sp, set_sp. rewrite bind_gets, bind_modify. cbn [fst snd r_esp sp]. rewrite (u32_small (E + 4 + 4)) by lia.
  replace (E + 4 + 4) with (E + 8) by lia.
  change (sp (Cpu (r_ebx R0) (r_esi R0) (r_edi R0) (r_ebp R0) ?f (r_eip R0) (r_if R0)) ?g) with (sp R0 g).
  change (Cpu (r_ebx R0) (r_esi R0) (r_edi R0) (r_ebp R0) ?g (r_eip R0) (r_if R0)) with (sp R0 g).
  next_pop E 8 HW 2%nat. next_pop E 12 HW 3%nat. next_pop E 16 HW 4%nat. next_pop E 20 HW 5%nat. next_pop E 24 HW 6%nat.
  next_pop E 28 HW 7%nat. next_pop E 32 HW 8%nat. next_pop E 36 HW 9%nat. next_pop E 40 HW 10%nat.
  rewrite bind_gets, bind_modify. cbn [fst snd r_esp sp]. rewrite (u32_small (E + 44 + 8)) by lia.
  replace (E + 44 + 8) with (E + 52) by lia.
  change (Cpu (r_ebx R0) (r_esi R0) (r_edi R0) (r_ebp R0) ?g (r_eip R0) (r_if R0)) with (sp R0 g).
  next_pop E 52 HW 13%nat. next_pop E 56 HW 14%nat. next_pop E 60 HW 15%nat. rewrite bind_modify, mov_ax_ds by done. by destruct x.
Qed.

(** The compiled handler, called with the machine [m1] and at its call of
    [context_switch] with [m2]: it has worked below its frame, on the stack of
    the task. *)
Definition works_below (lo : Z) (m1 m2 : machine) : Prop :=
  (∀ p, p < lo ∨ r_esp m1.2 ≤ p → m2.1 !! p = m1.1 !! p) ∧ lo + 28 ≤ r_esp m2.2 ≤ r_esp m1.2.

(** Its epilogue: continued after the call, with the registers a function
    preserves and its frame as they were at the call, it returns to the stub
    and leaves what is above alone. *)
Definition returns (ep : M machine unit) (m1 m2 : machine) : Prop :=
  ∀ m, r_ebx m.2 = r_ebx m2.2 → r_esi m.2 = r_esi m2.2 → r_edi m.2 = r_edi m2.2 → r_ebp m.2 = r_ebp m2.2 → r_esp m.2 = r_esp m2.2 - 8 →
    (∀ p, r_esp m2.2 ≤ p < r_esp m1.2 → m.1 !! p = m2.1 !! p) →
    ∃ m', ep m = Some (tt, m') ∧ r_esp m'.2 = r_esp m1.2 ∧ ∀ p, r_esp m1.2 ≤ p → m'.1 !! p = m.1 !! p.

(** C7. Preemption is invisible: an interrupt in the middle of a task saves its
    whole state and enters the handler with interrupts off and the kernel's
    segments loaded; if the handler gives the processor away and, however much later
    and whatever the other tasks did, the scheduler comes back to the task, then
    the handler returns through the stub and the task goes on at the same
    instruction with every register, the flags and its stack as they were. *)
Theorem preemption_invisible {H} {AH : Allocator H} {AS : AllocatorSpec H} ax ab ar blo bhi a_back n x (s : sched H) live t
    (Hboot : boot_ok blo bhi) (Hok : sched_ok blo bhi TASK_RUNNING s live) (Hcur : tasks s !! current s = Some t)
    (Hroom : stack_lo blo (head s) (current s) t + 92 ≤ r_esp (regs s))
    (Hds : 0 ≤ x_ds x < 65536) (Hflag : Z.testbit (x_eflags x) 9 = r_if (regs s)) :
  ∃ y m1, irq_in a_back n x (words s, regs s) = Some (y, m1) ∧ in_handler y ∧
    ∀ m2 ep s1 s2 s3 live2, works_below (stack_lo blo (head s) (current s) t) m1 m2 → returns ep m1 m2 →
      schedule ar (with_cpu s (tasks s) m2.1 m2.2) = Some (true, s1) →
      rtc (away ax ab ar blo bhi (current s)) (s1, live) (s2, live2) → has_room blo s2 →
      schedule ar s2 = Some (true, s3) → current s3 = current s →
      ∃ W, (_ ← ep; irq_out a_back) (words s3, regs s3) = Some (x, (W, regs s)) ∧
        ∀ p, r_esp (regs s) ≤ p < stack_hi bhi (head s) (current s) t → W !! p = words s !! p.
Proof.
  destruct (so_state _ _ _ _ _ Hok) as (t' & Ht' & _ & _ & Hsp). rewrite Hcur in Ht'. injection Ht' as <-.
  pose proof (stack_bounds blo bhi Hboot _ _ _ _ _ Hok Hcur) as [Hlo Hhi]. unfold HEAP_END, HEAP_START, HEAP_SIZE in Hhi.
  set (lo := stack_lo blo (head s) (current s) t) in *. set (hi := stack_hi bhi (head s) (current s) t) in *. set (e := r_esp (regs s)) in *.
  destruct (irq_in_run a_back n x (words s) (regs s) ltac:(fold e; lia)) as (y & E1 & Hy). fold e in E1.
  eexists y, _. split; [exact E1|]. split; [exact Hy|]. intros [W2 R2] ep s1 s2 s3 live2 [Hbelow Hesp] Hret Hout Haway Hroom2 Hin Hback. cbn [fst snd r_esp] in *.
  set (sa := with_cpu s (tasks s) W2 R2) in *.
  assert (sched_ok blo bhi TASK_RUNNING sa live) as Hoka.
  { eapply (step_ok ax ab ar blo bhi Hboot (s, live) (sa, live)); [|done]. eapply step_run; [done| |].
    - fold lo hi. intros p Hp. rewrite Hbelow by lia. apply poke_lookup_other. cbn [length stub_frame]. lia.
    - fold lo hi. lia. }
  destruct (resume_run ax ab ar blo bhi Hboot sa s1 s2 s3 live live2 t Hoka) as (Hregs & _ & HW);
    [|exact Hout|exact Haway|exact Hroom2|exact Hin|exact Hback|exact Hcur|].
  { exists t. split; [exact Hcur|]. change (lo + 28 ≤ r_esp R2). lia. }
  change (∀ p, r_esp R2 ≤ p < hi → words s3 !! p = W2 !! p) in HW. change (regs sa) with R2 in Hregs.
  destruct (Hret (words s3, regs s3)) as ([W' R'] & Eep & Hsp' & Habove); cbn [fst snd]; [rewrite Hregs; reflexivity..| |].
  { intros p Hp. cbn [snd r_esp] in Hp. apply HW. lia. }
  assert (∀ p, e - 64 ≤ p < hi → W' !! p = poke (e - 64) (stub_frame a_back n x (regs s) e) (words s) !! p) as HW'.
  { intros p Hp. cbn [snd r_esp fst] in Habove, Hsp'. rewrite Habove, HW, Hbelow by lia. done. }
  assert (R' = sp R' (e - 64)) as HR' by (destruct R'; cbn in Hsp'; by subst).
  exists W'. rewrite (M_bind_run _ _ _ _ _ Eep), HR', (irq_out_run a_back n x W' (regs s) R' e (e - 64) Hds); [|lia|lia|].
  - rewrite Hflag. split; [subst e; by destruct (regs s)|]. intros p Hp. rewrite HW' by lia. apply poke_lookup_other. cbn [length stub_frame]. lia.
  - intros i v Hi. pose proof (lookup_lt_Some _ _ _ Hi) as Hlt. cbn [length stub_frame] in Hlt. rewrite HW' by lia. by apply poke_lookup.
Qed.

(** ** A tick between two tasks *)

Definition tick_regs : others := Others 21 22 23 16 8 514.
Definition tick_in : machine := match irq_in 77 32 tick_regs (words sim2, regs sim2) with Some (_, m) => m | None => (∅, regs sim2) end.
(** A handler without a frame of its own, and its end. *)
Definition tick_out : M machine unit := e ← get_sp; set_sp (u32 (e + 8)).
Definition tick1 : sched kheap := run_of (schedule 13 (with_cpu sim2 (tasks sim2) tick_in.1 tick_in.2)).
Definition tick2 : sched kheap := run_of (schedule 13 tick1).

Lemma tick_returns : returns tick_out tick_in tick_in.
Proof.
  intros [W R] _ _ _ _ He _. cbn [fst snd] in *. eexists. split; [reflexivity|]. cbn [fst snd r_esp sp]. rewrite He. split; [vm_compute; reflexivity|done].
Qed.

Lemma preemption_invisible_witness :
  ∃ W, (_ ← tick_out; irq_out 77) (words tick2, regs tick2) = Some (tick_regs, (W, regs sim2)).
Proof.
  destruct sim1_ok as [live1 Hok1]. destruct (sim_steps live1 Hok1) as (live & S12 & _).
  destruct (preemption_invisible 11 12 13 520192 589824 77 32 tick_regs sim2 live (default sim_raw (tasks sim2 !! current sim2))) as (y & m1 & E & _ & Hm).
  - exact sim_boot_ok.
  - exact (step_ok _ _ _ _ _ sim_boot_ok _ _ S12 Hok1).
  - vm_compute. reflexivity.
  - vm_compute. discriminate.
  - vm_compute. split; [discriminate|reflexivity].
  - vm_compute. reflexivity.
  - assert (m1 = tick_in) as -> by (unfold tick_in; rewrite E; reflexivity).
    destruct (Hm tick_in tick_out tick1 tick1 tick2 live) as (W & Hrun & _).
    + split; [reflexivity|]. vm_compute. split; discriminate.
    + exact tick_returns.
    + vm_compute. reflexivity.
    + apply rtc_refl.
    + eexists. split; [vm_compute; reflexivity|]. vm_compute. discriminate.
    + vm_compute. reflexivity.
    + vm_compute. reflexivity.
    + exists W. exact Hrun.
Defined.
