(* ===== verification/Elf.v ===== *)
(** * The ELF loader (kernel/elf.c, kernel/elf.h)

    [elf_load] on the flat memory of the machine: the image is the [size]
    bytes at [img], its headers are read where they lie, and the segments are
    copied to their link addresses with [memcpy] and [memset].  Addresses and
    sizes are 32-bit and wrap as in the source. *)

From S2P Require Import Prelude CString.

Definition USER_BASE : Z := 8388608.
Definition USER_TOP : Z := 12582912.
Definition ET_EXEC : Z := 2.
Definition EM_386 : Z := 3.
Definition PT_LOAD : Z := 1.
Definition SIZEOF_EHDR : Z := 52.
Definition SIZEOF_PHDR : Z := 32.

(** Memory accesses. *)
Definition rd8 (a : Z) : M mem Z := λ m, (λ b, (b, m)) <$> mload (u32 a) m.
Definition rd16 (a : Z) : M mem Z := b0 ← rd8 a; b1 ← rd8 (a + 1); mret (b0 + 256 * b1).
Definition rd32 (a : Z) : M mem Z := w0 ← rd16 a; w1 ← rd16 (a + 2); mret (w0 + 65536 * w1).
Definition on_mem (f : mem → option mem) : M mem unit := λ m, (λ m', (tt, m')) <$> f m.

(** Fields of [Elf32_Ehdr] at [eh] and of [Elf32_Phdr] at [ph]. *)
Definition e_type (eh : Z) : M mem Z := rd16 (eh + 16).
Definition e_machine (eh : Z) : M mem Z := rd16 (eh + 18).
Definition e_entry (eh : Z) : M mem Z := rd32 (eh + 24).
Definition e_phoff (eh : Z) : M mem Z := rd32 (eh + 28).
Definition e_phentsize (eh : Z) : M mem Z := rd16 (eh + 42).
Definition e_phnum (eh : Z) : M mem Z := rd16 (eh + 44).
Definition p_type (ph : Z) : M mem Z := rd32 ph.
Definition p_offset (ph : Z) : M mem Z := rd32 (ph + 4).
Definition p_vaddr (ph : Z) : M mem Z := rd32 (ph + 8).
Definition p_filesz (ph : Z) : M mem Z := rd32 (ph + 16).
Definition p_memsz (ph : Z) : M mem Z := rd32 (ph + 20).

Section loader.
(** The routine called as [memset]. *)
Variable fill : Z → Z → Z → mem → option mem.

(** One program header: [Some] when the loader gives up. *)
Definition load_segment_with (img size ph : Z) : M mem (option Z) :=
  ty ← p_type ph;
  if negb (ty =? PT_LOAD) then mret None
  else
    va ← p_vaddr ph;
    if va <? USER_BASE then mret (Some (-1))
    else
      ms ← p_memsz ph;
      if USER_TOP <? u32 (va + ms) then mret (Some (-1))
      else if u32 (va + ms) <? va then mret (Some (-1))
      else
        off ← p_offset ph;
        fs ← p_filesz ph;
        if size <? u32 (off + fs) then mret (Some (-1))
        else
          _ ← on_mem (memcpy va (u32 (img + off)) fs);
          va ← p_vaddr ph;
          fs ← p_filesz ph;
          ms ← p_memsz ph;
          _ ← on_mem (fill (u32 (va + fs)) 0 (u32 (ms - fs)));
          mret None.

(** [for (u16 i = ...; i < eh->e_phnum; i++)]; a [u16] counts to 65535 at most. *)
Fixpoint phdr_loop_with (n : nat) (img size i : Z) : M mem (option Z) :=
  match n with
  | O => fault
  | S n' =>
      num ← e_phnum img;
      if negb (i <? num) then mret None
      else
        off ← e_phoff img;
        ent ← e_phentsize img;
        r ← load_segment_with img size (u32 (img + off + i * ent));
        match r with
        | Some rc => mret (Some rc)
        | None => phdr_loop_with n' img size (u16 (i + 1))
        end
  end.
Definition PHDR_FUEL : nat := Z.to_nat 65536.

(** The return code, and what is stored in [entry_out]. *)
Definition elf_load_with (img size : Z) : M mem (Z * option Z) :=
  if size <? SIZEOF_EHDR then mret (-1, None)
  else
    i0 ← rd8 img; i1 ← rd8 (img + 1); i2 ← rd8 (img + 2); i3 ← rd8 (img + 3);
    if negb (i0 =? 127) || negb (i1 =? 69) || negb (i2 =? 76) || negb (i3 =? 70) then mret (-1, None)
    else
      cls ← rd8 (img + 4);
      if negb (cls =? 1) then mret (-1, None)
      else
        mach ← e_machine img;
        if negb (mach =? EM_386) then mret (-1, None)
        else
          ty ← e_type img;
          if negb (ty =? ET_EXEC) then mret (-1, None)
          else
            off ← e_phoff img;
            num ← e_phnum img;
            if size <? u32 (off + num * SIZEOF_PHDR) then mret (-1, None)
            else
              r ← phdr_loop_with PHDR_FUEL img size 0;
              match r with
              | Some rc => mret (rc, None)
              | None =>
                  entry ← e_entry img;
                  if (entry <? USER_BASE) || (USER_TOP <=? entry) then mret (-1, None)
                  else mret (0, Some entry)
              end.

End loader.
Definition elf_load (img size : Z) : M mem (Z * option Z) := elf_load_with memset img size.
Abbreviation load_segment := (load_segment_with memset).
Abbreviation phdr_loop := (phdr_loop_with memset).

(** ** What an image says *)

Definition by8 (m : mem) (a : Z) : Z := default 0 (mload a m).
Definition w16 (m : mem) (a : Z) : Z := by8 m a + 256 * by8 m (a + 1).
Definition w32 (m : mem) (a : Z) : Z := w16 m a + 65536 * w16 m (a + 2).

Record segment := Seg { s_va : Z; s_ms : Z; s_off : Z; s_fs : Z }.

(** The segment a program header describes, if it is to be loaded. *)
Definition seg_at (m : mem) (ph : Z) : option segment :=
  if w32 m ph =? PT_LOAD
  then Some (Seg (w32 m (ph + 8)) (w32 m (ph + 20)) (w32 m (ph + 4)) (w32 m (ph + 16))) else None.

(** The segments of headers [i] .. [num - 1], in order. *)
Definition segments (m : mem) (img i : Z) : list segment :=
  omap (λ j, seg_at m (img + w32 m (img + 28) + j * 32)) (seqZ i (w16 m (img + 44) - i)).

(** Inside the user window, and inside the file. *)
Definition fits (size : Z) (sg : segment) : bool :=
  (USER_BASE <=? s_va sg) && (s_va sg + s_ms sg <=? USER_TOP) && (s_off sg + s_fs sg <=? size).

(** The header's own checks; the size of the header table is a 32-bit sum. *)
Definition header_ok (m : mem) (img size : Z) : bool :=
  (SIZEOF_EHDR <=? size) &&
  (by8 m img =? 127) && (by8 m (img + 1) =? 69) && (by8 m (img + 2) =? 76) && (by8 m (img + 3) =? 70) &&
  (by8 m (img + 4) =? 1) && (w16 m (img + 18) =? EM_386) && (w16 m (img + 16) =? ET_EXEC) &&
  (u32 (w32 m (img + 28) + w16 m (img + 44) * 32) <=? size).

Definition entry_ok (m : mem) (img : Z) : bool :=
  (USER_BASE <=? w32 m (img + 24)) && (w32 m (img + 24) <? USER_TOP).

(** The byte a segment puts at [x]: from the file, or zero behind it. *)
Definition seg_byte (m : mem) (img : Z) (sg : segment) (x : Z) : option (option Z) :=
  if decide (s_va sg ≤ x < s_va sg + s_fs sg) then Some (mload (img + s_off sg + (x - s_va sg)) m)
  else if decide (s_va sg + s_fs sg ≤ x < s_va sg + s_ms sg) then Some (Some 0)
  else None.

(** Memory once the segments [l] are in place: later ones win. *)
Definition loaded (m : mem) (img : Z) (l : list segment) (x : Z) : option Z :=
  foldl (λ acc sg, default acc (seg_byte m img sg x)) (mload x m) l.

Fixpoint fitting (size : Z) (l : list segment) : list segment :=
  match l with [] => [] | sg :: l' => if fits size sg then sg :: fitting size l' else [] end.

(** The image lies in memory, below the user window. *)
Record image_ok (m : mem) (img size : Z) : Prop := {
  es_mem : 0 ≤ img ∧ 0 ≤ size ∧ img + size ≤ USER_BASE;
  es_bytes : ∀ x, img ≤ x < img + size → is_byte (by8 m x);
}.

(** What the loader takes for granted: header entries are 32 bytes apart, sizes
    do not wrap, and no segment has more bytes in the file than in memory. *)
Definition elf_sane (m : mem) (img : Z) : Prop :=
  w16 m (img + 42) = 32 ∧ w32 m (img + 28) + w16 m (img + 44) * 32 < 4294967296 ∧
  ∀ sg, sg ∈ segments m img 0 → s_fs sg ≤ s_ms sg ∧ s_off sg + s_fs sg < 4294967296.

(** ** Reading the headers *)

Lemma bind_eq {S A B} (c c' : M S A) (k : A → M S B) s s' : c s = c' s' → (c ≫= k) s = (c' ≫= k) s'.
Proof. unfold mbind, M_bind. by intros ->. Qed.

Section reads.
Implicit Types (m : mem) (a : Z).

Lemma rd8_run m a : 0 ≤ a < RAM_TOP → rd8 a m = Some (by8 m a, m).
Proof.
  intros Ha. unfold rd8, by8. unfold RAM_TOP in Ha. rewrite u32_small by lia.
  destruct (mload_mapped a m) as [v ->]; [unfold mapped, RAM_TOP; lia|done].
Qed.
Lemma rd16_run m a : 0 ≤ a → a + 2 ≤ RAM_TOP → rd16 a m = Some (w16 m a, m).
Proof. intros. unfold rd16. by rewrite (M_bind_run _ _ _ _ _ (rd8_run m a ltac:(lia))), (M_bind_run _ _ _ _ _ (rd8_run m (a + 1) ltac:(lia))). Qed.
Lemma rd32_run m a : 0 ≤ a → a + 4 ≤ RAM_TOP → rd32 a m = Some (w32 m a, m).
Proof.
  intros. unfold rd32. by rewrite (M_bind_run _ _ _ _ _ (rd16_run m a ltac:(lia) ltac:(lia))),
    (M_bind_run _ _ _ _ _ (rd16_run m (a + 2) ltac:(lia) ltac:(lia))).
Qed.

Lemma on_mem_run f m m' : f m = Some m' → on_mem f m = Some (tt, m').
Proof. unfold on_mem. by intros ->. Qed.

Lemma w16_range m a : is_byte (by8 m a) → is_byte (by8 m (a + 1)) → 0 ≤ w16 m a < 65536.
Proof. unfold is_byte, w16. lia. Qed.
Lemma w32_range m a : (∀ x, a ≤ x < a + 4 → is_byte (by8 m x)) → 0 ≤ w32 m a < 4294967296.
Proof.
  intros Hb. unfold w32. pose proof (w16_range m a (Hb a ltac:(lia)) (Hb (a + 1) ltac:(lia))).
  pose proof (w16_range m (a + 2) (Hb (a + 2) ltac:(lia)) (Hb (a + 2 + 1) ltac:(lia))). lia.
Qed.

(** Memories that agree on the image. *)
Definition same_image (img size : Z) (m m' : mem) : Prop := ∀ x, img ≤ x < img + size → mload x m' = mload x m.

Lemma same_w16 img size m m' a : same_image img size m m' → img ≤ a → a + 2 ≤ img + size → w16 m' a = w16 m a.
Proof. intros Hs H1 H2. unfold w16, by8. by rewrite !Hs by lia. Qed.
Lemma same_w32 img size m m' a : same_image img size m m' → img ≤ a → a + 4 ≤ img + size → w32 m' a = w32 m a.
Proof. intros Hs H1 H2. unfold w32. by rewrite !(same_w16 img size m m') by (done || lia). Qed.
End reads.

(** A fill that runs past the end of memory. *)
Lemma memset_too_far n d c m : 0 ≤ d ≤ RAM_TOP → RAM_TOP < d + Z.of_nat n → memset_loop n d c m = None.
Proof.
  revert d m. induction n as [|n IH]; intros d m Hd Hn; [lia|]. cbn [memset_loop]. unfold mstore.
  destruct (Z.leb_spec 0 d), (Z.ltb_spec d RAM_TOP); cbn [andb mbind option_bind]; try done. apply IH; lia.
Qed.

Section loading.
Variables (m0 : mem) (img size : Z).
Hypothesis Hsane : image_ok m0 img size.

Lemma image_w32 m a : same_image img size m0 m → img ≤ a → a + 4 ≤ img + size →
  rd32 a m = Some (w32 m0 a, m) ∧ 0 ≤ w32 m0 a < 4294967296.
Proof using Hsane.
  intros Hs H1 H2. destruct (es_mem _ _ _ Hsane) as (? & ? & ?).
  rewrite <-(same_w32 img size m0 m) by done. unfold USER_BASE in *. split; [apply rd32_run; unfold RAM_TOP; lia|].
  rewrite (same_w32 img size m0 m) by done. apply w32_range. intros x Hx. apply (es_bytes _ _ _ Hsane). lia.
Qed.

Lemma image_w16 m a : same_image img size m0 m → img ≤ a → a + 2 ≤ img + size →
  rd16 a m = Some (w16 m0 a, m) ∧ 0 ≤ w16 m0 a < 65536.
Proof using Hsane.
  intros Hs H1 H2. destruct (es_mem _ _ _ Hsane) as (? & ? & ?).
  rewrite <-(same_w16 img size m0 m) by done. unfold USER_BASE in *. split; [apply rd16_run; unfold RAM_TOP; lia|].
  rewrite (same_w16 img size m0 m) by done. apply w16_range; apply (es_bytes _ _ _ Hsane); lia.
Qed.

(** Copying one segment into place. *)
Lemma place_segment m sg : same_image img size m0 m → fits size sg = true → 
  0 ≤ s_off sg → 0 ≤ s_fs sg ≤ s_ms sg →
  ∃ m1 m', memcpy (s_va sg) (u32 (img + s_off sg)) (s_fs sg) m = Some m1 ∧ same_image img size m0 m1 ∧
    memset (u32 (s_va sg + s_fs sg)) 0 (u32 (s_ms sg - s_fs sg)) m1 = Some m' ∧
    ∀ x, mload x m' = default (mload x m) (seg_byte m0 img sg x).
Proof using Hsane.
  intros Hs Hfit Hoff Hfs. destruct (es_mem _ _ _ Hsane) as (? & ? & ?). unfold fits in Hfit.
  rewrite !andb_true_iff, !Z.leb_le in Hfit. unfold USER_BASE, USER_TOP in *.
  rewrite !u32_small by lia.
  destruct (memcpy_spec (s_va sg) (img + s_off sg) (s_fs sg) m) as (m1 & E1 & L1); [lia|unfold mapped, RAM_TOP; lia..|lia|].
  destruct (memset_spec (s_va sg + s_fs sg) 0 (s_ms sg - s_fs sg) m1) as (m' & E2 & L2); [lia|unfold mapped, RAM_TOP; lia|].
  exists m1, m'. split; [done|]. split; [|split; [done|]].
  - intros x Hx. rewrite L1, decide_False by lia. by apply Hs.
  - intros x. rewrite L2. unfold seg_byte. destruct (decide (s_va sg ≤ x < s_va sg + s_fs sg)) as [Hin|Hin].
    + rewrite decide_False, L1, decide_True by lia. cbn [from_option]. by rewrite Hs by lia.
    + destruct (decide (s_va sg + s_fs sg ≤ x < s_va sg + s_fs sg + (s_ms sg - s_fs sg))) as [Hz|Hz].
      * by rewrite decide_True by lia.
      * by rewrite decide_False, L1, decide_False by lia.
Qed.

Lemma load_segment_run m ph : same_image img size m0 m → img ≤ ph → ph + 32 ≤ img + size →
  match seg_at m0 ph with
  | None => load_segment img size ph m = Some (None, m)
  | Some sg => s_fs sg ≤ s_ms sg → s_off sg + s_fs sg < 4294967296 →
      if fits size sg
      then ∃ m', load_segment img size ph m = Some (None, m') ∧ same_image img size m0 m' ∧
             ∀ x, mload x m' = default (mload x m) (seg_byte m0 img sg x)
      else load_segment img size ph m = Some (Some (-1), m)
  end.
Proof using Hsane.
  intros Hs H1 H2. unfold load_segment_with, seg_at, p_type, p_vaddr, p_memsz, p_offset, p_filesz.
  destruct (image_w32 m ph Hs ltac:(lia) ltac:(lia)) as [E0 _].
  pose proof (λ m Hs, proj1 (image_w32 m (ph + 8) Hs ltac:(lia) ltac:(lia))) as E1.
  pose proof (proj2 (image_w32 m (ph + 8) Hs ltac:(lia) ltac:(lia))) as R1.
  pose proof (λ m Hs, proj1 (image_w32 m (ph + 20) Hs ltac:(lia) ltac:(lia))) as E2.
  pose proof (proj2 (image_w32 m (ph + 20) Hs ltac:(lia) ltac:(lia))) as R2.
  pose proof (λ m Hs, proj1 (image_w32 m (ph + 4) Hs ltac:(lia) ltac:(lia))) as E3.
  pose proof (proj2 (image_w32 m (ph + 4) Hs ltac:(lia) ltac:(lia))) as R3.
  pose proof (λ m Hs, proj1 (image_w32 m (ph + 16) Hs ltac:(lia) ltac:(lia))) as E4.
  pose proof (proj2 (image_w32 m (ph + 16) Hs ltac:(lia) ltac:(lia))) as R4.
  rewrite (M_bind_run _ _ _ _ _ E0). destruct (w32 m0 ph =? PT_LOAD); cbn [negb]; [|done].
  cbn [s_fs s_ms s_off]. intros Hfs Hof.
  generalize dependent (w32 m0 (ph + 8)). intros va E1 R1. generalize dependent (w32 m0 (ph + 20)). intros ms E2 R2 Hfs.
  generalize dependent (w32 m0 (ph + 4)). intros off E3 R3 Hof. generalize dependent (w32 m0 (ph + 16)). intros fs E4 R4 Hfs Hof.
  rewrite (M_bind_run _ _ _ _ _ (E1 m Hs)). unfold fits. cbn [s_va s_ms s_off s_fs].
  destruct (Z.ltb_spec (va) USER_BASE) as [Hb|Hb].
  { by rewrite (proj2 (Z.leb_gt _ _) Hb). }
  rewrite (M_bind_run _ _ _ _ _ (E2 m Hs)), (proj2 (Z.leb_le _ _) Hb). cbn [andb].
  assert ((USER_TOP <? u32 (va + ms)) || (u32 (va + ms) <? va) = negb (va + ms <=? USER_TOP)) as Hw.
  { unfold USER_TOP, USER_BASE in *. destruct (Z.leb_spec (va + ms) 12582912); cbn [negb].
    - rewrite u32_small by lia. apply orb_false_iff. rewrite !Z.ltb_ge. lia.
    - apply orb_true_iff. rewrite !Z.ltb_lt. unfold u32. Z.div_mod_to_equations. lia. }
  destruct (USER_TOP <? _); cbn [orb] in Hw; [by destruct (_ <=? USER_TOP)|].
  rewrite Hw. destruct (va + ms <=? USER_TOP) eqn:Ht; cbn [negb andb]; [|done].
  rewrite (M_bind_run _ _ _ _ _ (E3 m Hs)), (M_bind_run _ _ _ _ _ (E4 m Hs)), (u32_small (off + fs)) by lia.
  destruct (Z.ltb_spec size (off + fs)) as [Hz|Hz].
  { by rewrite (proj2 (Z.leb_gt _ _) Hz). }
  rewrite (proj2 (Z.leb_le _ _) Hz).
  destruct (place_segment m (Seg va ms off fs) Hs) as (m1 & m' & Ec & Hs1 & Es & Hl); [|cbn; lia..|].
  { unfold fits. cbn [s_va s_ms s_off s_fs]. rewrite Ht, (proj2 (Z.leb_le _ _) Hb), (proj2 (Z.leb_le _ _) Hz). done. }
  rewrite (M_bind_run _ _ _ _ _ (on_mem_run _ _ _ Ec)), (M_bind_run _ _ _ _ _ (E1 m1 Hs1)), (M_bind_run _ _ _ _ _ (E4 m1 Hs1)),
    (M_bind_run _ _ _ _ _ (E2 m1 Hs1)), (M_bind_run _ _ _ _ _ (on_mem_run _ _ _ Es)).
  exists m'. split; [done|]. split; [|done]. intros x Hx. rewrite Hl. unfold seg_byte. cbn [s_va s_ms s_fs s_off].
  destruct (es_mem _ _ _ Hsane) as (_ & _ & ?). rewrite !decide_False by lia. by apply Hs.
Qed.

Lemma segments_step i : 0 ≤ i < w16 m0 (img + 44) →
  segments m0 img i = match seg_at m0 (img + w32 m0 (img + 28) + i * 32) with
                      | Some sg => sg :: segments m0 img (i + 1) | None => segments m0 img (i + 1) end.
Proof.
  intros Hi. unfold segments. rewrite (seqZ_cons i) by lia. cbn [omap list_omap].
  replace (Z.succ i) with (i + 1) by lia. replace (Z.pred (w16 m0 (img + 44) - i)) with (w16 m0 (img + 44) - (i + 1)) by lia.
  done.
Qed.

Lemma phdr_loop_run n i m : same_image img size m0 m → SIZEOF_EHDR ≤ size → w16 m0 (img + 42) = 32 →
  w32 m0 (img + 28) + w16 m0 (img + 44) * 32 ≤ size → 0 ≤ i ≤ w16 m0 (img + 44) →
  (Z.to_nat (w16 m0 (img + 44) - i) < n)%nat →
  (∀ sg, sg ∈ segments m0 img i → s_fs sg ≤ s_ms sg ∧ s_off sg + s_fs sg < 4294967296) →
  ∃ m', phdr_loop n img size i m
        = Some (if forallb (fits size) (segments m0 img i) then None else Some (-1), m') ∧
    same_image img size m0 m' ∧
    ∀ x, mload x m' = foldl (λ acc sg, default acc (seg_byte m0 img sg x)) (mload x m) (fitting size (segments m0 img i)).
Proof using Hsane.
  revert i m. induction n as [|n IH]; intros i m Hs Hsz Hent Htab Hi Hn Hsegs; [lia|].
  unfold SIZEOF_EHDR in Hsz. cbn [phdr_loop_with]. unfold e_phnum, e_phoff, e_phentsize.
  destruct (image_w16 m (img + 44) Hs ltac:(lia) ltac:(lia)) as [En Rn]. rewrite (M_bind_run _ _ _ _ _ En).
  destruct (Z.ltb_spec i (w16 m0 (img + 44))) as [Hlt|Hge]; cbn [negb].
  2: { exists m. assert (segments m0 img i = []) as ->; [|done].
       unfold segments. replace (w16 m0 (img + 44) - i) with 0 by lia. done. }
  destruct (image_w32 m (img + 28) Hs ltac:(lia) ltac:(lia)) as [Eo Ro]. rewrite (M_bind_run _ _ _ _ _ Eo).
  destruct (image_w16 m (img + 42) Hs ltac:(lia) ltac:(lia)) as [Ee Re]. rewrite (M_bind_run _ _ _ _ _ Ee).
  rewrite Hent. destruct (es_mem _ _ _ Hsane) as (? & ? & ?). unfold USER_BASE in *.
  rewrite u32_small by lia. unfold u16. rewrite (Z.mod_small (i + 1)) by lia.
  rewrite segments_step in Hsegs |- * by lia.
  pose proof (load_segment_run m (img + w32 m0 (img + 28) + i * 32) Hs ltac:(lia) ltac:(lia)) as Hl.
  destruct (seg_at m0 (img + w32 m0 (img + 28) + i * 32)) as [sg|].
  - destruct (Hsegs sg) as [Hfs Hof]; [left|]. specialize (Hl Hfs Hof). cbn [forallb fitting].
    destruct (fits size sg).
    + destruct Hl as (m1 & E1 & Hs1 & L1). rewrite (M_bind_run _ _ _ _ _ E1).
      destruct (IH (i + 1) m1 Hs1) as (m' & E & Hs' & L); [done|done|done|lia|lia|intros; apply Hsegs; by right|].
      exists m'. split; [done|]. split; [done|]. intros x. rewrite L, L1. done.
    + rewrite (M_bind_run _ _ _ _ _ Hl). by exists m.
  - rewrite (M_bind_run _ _ _ _ _ Hl). apply IH; (done || lia).
Qed.

Lemma segments_nonneg sg : SIZEOF_EHDR ≤ size → w32 m0 (img + 28) + w16 m0 (img + 44) * 32 ≤ size →
  sg ∈ segments m0 img 0 → 0 ≤ s_fs sg.
Proof using Hsane.
  unfold SIZEOF_EHDR. intros Hsz Htab (j & Hj & Hat)%list_elem_of_omap. apply elem_of_seqZ in Hj.
  pose proof (proj2 (image_w32 m0 (img + 28) ltac:(done) ltac:(lia) ltac:(lia))).
  unfold seg_at in Hat. destruct (_ =? PT_LOAD); [|done]. injection Hat as <-. cbn [s_fs].
  apply (image_w32 m0 _ ltac:(done)); lia.
Qed.

(** The header table, when its size does not wrap. *)
Lemma header_table : header_ok m0 img size = true → w32 m0 (img + 28) + w16 m0 (img + 44) * 32 < 4294967296 →
  SIZEOF_EHDR ≤ size ∧ w32 m0 (img + 28) + w16 m0 (img + 44) * 32 ≤ size.
Proof using Hsane.
  intros Hh Htab. unfold header_ok in Hh. rewrite !andb_true_iff, !Z.leb_le in Hh. destruct Hh as [Hh Ht].
  assert (SIZEOF_EHDR ≤ size) as Hsz by tauto. split; [done|]. unfold SIZEOF_EHDR in Hsz. assert (same_image img size m0 m0) as Hs by done.
  pose proof (proj2 (image_w32 m0 (img + 28) Hs ltac:(lia) ltac:(lia))).
  pose proof (proj2 (image_w16 m0 (img + 44) Hs ltac:(lia) ltac:(lia))). by rewrite u32_small in Ht by lia.
Qed.

(** A segment with more bytes in the file than in memory. *)
Lemma load_segment_overrun m sg ph : same_image img size m0 m → seg_at m0 ph = Some sg → 
  img ≤ ph → ph + 32 ≤ img + size → fits size sg = true → s_ms sg < s_fs sg →
  ∃ m1, memcpy (s_va sg) (img + s_off sg) (s_fs sg) m = Some m1 ∧ s_va sg + s_fs sg ≤ RAM_TOP ∧ 0 ≤ s_ms sg ∧
    ∀ fill, load_segment_with fill img size ph m =
      (_ ← on_mem (fill (s_va sg + s_fs sg) 0 (4294967296 - (s_fs sg - s_ms sg))); mret None) m1.
Proof using Hsane.
  intros Hs Hsg H1 H2 Hfit Hov. unfold seg_at in Hsg. destruct (w32 m0 ph =? PT_LOAD) eqn:Ety; [|done]. injection Hsg as <-.
  unfold fits in Hfit. cbn [s_va s_ms s_off s_fs] in *. rewrite !andb_true_iff, !Z.leb_le in Hfit.
  unfold load_segment_with, p_type, p_vaddr, p_memsz, p_offset, p_filesz.
  assert (∀ k m, same_image img size m0 m → 0 ≤ k ≤ 28 → rd32 (ph + k) m = Some (w32 m0 (ph + k), m) ∧ 0 ≤ w32 m0 (ph + k) < 4294967296) as E.
  { intros k m' Hs' Hk. apply image_w32; [done|lia..]. }
  destruct (E 8 m Hs ltac:(lia)) as [E1 R1], (E 20 m Hs ltac:(lia)) as [E2 R2], (E 4 m Hs ltac:(lia)) as [E3 R3],
    (E 16 m Hs ltac:(lia)) as [E4 R4], (image_w32 m ph Hs ltac:(lia) ltac:(lia)) as [E0 _].
  destruct (es_mem _ _ _ Hsane) as (? & ? & ?). unfold USER_BASE, USER_TOP in *.
  destruct (memcpy_spec (w32 m0 (ph + 8)) (img + w32 m0 (ph + 4)) (w32 m0 (ph + 16)) m) as (m1 & Ec & L1);
    [lia|unfold mapped, RAM_TOP; lia..|lia|].
  exists m1. split; [exact Ec|]. split; [unfold RAM_TOP; lia|]. split; [lia|]. intros fill.
  rewrite (M_bind_run _ _ _ _ _ E0), Ety. cbn [negb]. rewrite (M_bind_run _ _ _ _ _ E1), (proj2 (Z.ltb_ge _ _)) by lia.
  rewrite (M_bind_run _ _ _ _ _ E2), (u32_small (w32 m0 (ph + 8) + w32 m0 (ph + 20))), !(proj2 (Z.ltb_ge _ _)) by lia.
  rewrite (M_bind_run _ _ _ _ _ E3), (M_bind_run _ _ _ _ _ E4), u32_small, (proj2 (Z.ltb_ge _ _)) by lia.
  rewrite (u32_small (img + w32 m0 (ph + 4))) by lia.
  assert (same_image img size m0 m1) as Hs1. { intros x Hx. rewrite L1, decide_False by lia. by apply Hs. }
  rewrite (M_bind_run _ _ _ _ _ (on_mem_run _ _ _ Ec)).
  rewrite (M_bind_run _ _ _ _ _ (proj1 (E 8 m1 Hs1 ltac:(lia)))), (M_bind_run _ _ _ _ _ (proj1 (E 16 m1 Hs1 ltac:(lia)))),
    (M_bind_run _ _ _ _ _ (proj1 (E 20 m1 Hs1 ltac:(lia)))).
  rewrite (u32_small (w32 m0 (ph + 8) + w32 m0 (ph + 16))) by lia.
  assert (u32 (w32 m0 (ph + 20) - w32 m0 (ph + 16)) = w32 m0 (ph + 20) - w32 m0 (ph + 16) + 4294967296) as ->.
  { unfold u32. symmetry. apply (Z.mod_unique _ _ (-1)); lia. }
  by replace (4294967296 - (w32 m0 (ph + 16) - w32 m0 (ph + 20))) with (w32 m0 (ph + 20) - w32 m0 (ph + 16) + 4294967296) by lia.
Qed.

(** The checks before the loop. *)
Lemma elf_load_header fill :
  elf_load_with fill img size m0 =
    if header_ok m0 img size then
      (r ← phdr_loop_with fill PHDR_FUEL img size 0;
       match r with
       | Some rc => mret (rc, None)
       | None => entry ← e_entry img;
                 if (entry <? USER_BASE) || (USER_TOP <=? entry) then mret (-1, None) else mret (0, Some entry)
       end) m0
    else Some ((-1, None), m0).
Proof using Hsane.
  unfold elf_load_with, header_ok, SIZEOF_EHDR.
  destruct (Z.ltb_spec size 52) as [Hlt|Hge]; [by rewrite (proj2 (Z.leb_gt _ _) Hlt)|].
  rewrite (proj2 (Z.leb_le _ _) Hge). cbn [andb]. destruct (es_mem _ _ _ Hsane) as (H0 & H1 & H2). unfold USER_BASE in H2.
  assert (∀ k, 0 ≤ k < 52 → rd8 (img + k) m0 = Some (by8 m0 (img + k), m0)) as E8.
  { intros k Hk. apply rd8_run. unfold RAM_TOP. lia. }
  pose proof (E8 0 ltac:(lia)) as E0. rewrite Z.add_0_r in E0.
  rewrite (M_bind_run _ _ _ _ _ E0), (M_bind_run _ _ _ _ _ (E8 1 ltac:(lia))), (M_bind_run _ _ _ _ _ (E8 2 ltac:(lia))),
    (M_bind_run _ _ _ _ _ (E8 3 ltac:(lia))).
  destruct (by8 m0 img =? 127), (by8 m0 (img + 1) =? 69), (by8 m0 (img + 2) =? 76), (by8 m0 (img + 3) =? 70); cbn [negb orb andb]; try done.
  rewrite (M_bind_run _ _ _ _ _ (E8 4 ltac:(lia))). destruct (by8 m0 (img + 4) =? 1); cbn [negb andb]; [|done].
  assert (same_image img size m0 m0) as Hs by done. unfold e_machine, e_type, e_phoff, e_phnum.
  rewrite (M_bind_run _ _ _ _ _ (proj1 (image_w16 m0 (img + 18) Hs ltac:(lia) ltac:(lia)))).
  destruct (w16 m0 (img + 18) =? EM_386); cbn [negb andb]; [|done].
  rewrite (M_bind_run _ _ _ _ _ (proj1 (image_w16 m0 (img + 16) Hs ltac:(lia) ltac:(lia)))).
  destruct (w16 m0 (img + 16) =? ET_EXEC); cbn [negb andb]; [|done].
  destruct (image_w32 m0 (img + 28) Hs ltac:(lia) ltac:(lia)) as [Eo Ro], (image_w16 m0 (img + 44) Hs ltac:(lia) ltac:(lia)) as [En Rn].
  rewrite (M_bind_run _ _ _ _ _ Eo), (M_bind_run _ _ _ _ _ En). unfold SIZEOF_PHDR.
  destruct (Z.ltb_spec size (u32 (w32 m0 (img + 28) + w16 m0 (img + 44) * 32))) as [Hz|Hz].
  - by rewrite (proj2 (Z.leb_gt _ _) Hz).
  - by rewrite (proj2 (Z.leb_le _ _) Hz).
Qed.
End loading.

Lemma fitting_fits size l sg : sg ∈ fitting size l → fits size sg = true ∧ sg ∈ l.
Proof.
  induction l as [|sg' l IH]; cbn [fitting]; [by intros ?%not_elem_of_nil|].
  destruct (fits size sg') eqn:Ef; [|by intros ?%not_elem_of_nil].
  intros [->|Hin]%elem_of_cons; [split; [done|left]|]. destruct (IH Hin). split; [done|by right].
Qed.

Lemma elf_load_run m img size (Himg : image_ok m img size) (Hsane : header_ok m img size = true → elf_sane m img) :
  ∃ m', elf_load img size m
        = Some (if header_ok m img size && forallb (fits size) (segments m img 0) && entry_ok m img
                then (0, Some (w32 m (img + 24))) else (-1, None), m') ∧
    (∀ x, mload x m' = if header_ok m img size then loaded m img (fitting size (segments m img 0)) x else mload x m) ∧
    (∀ x, x < USER_BASE ∨ USER_TOP ≤ x → mload x m' = mload x m).
Proof.
  unfold elf_load. rewrite (elf_load_header m img size Himg).
  destruct (header_ok m img size) eqn:Hh; cbn [andb]; [|by exists m].
  destruct (Hsane eq_refl) as (Hent & Htab & Hsegs). destruct (header_table m img size Himg Hh Htab) as [Hsz Htab'].
  unfold SIZEOF_EHDR in *. assert (same_image img size m m) as Hs by done.
  pose proof (proj2 (image_w16 m img size Himg m (img + 44) Hs ltac:(lia) ltac:(lia))) as Rn.
  destruct (phdr_loop_run m img size Himg PHDR_FUEL 0 m) as (m' & E & Hs' & L);
    [done|done|done|done|lia|unfold PHDR_FUEL; lia|done|].
  exists m'. split; [|split].
  - rewrite (M_bind_run _ _ _ _ _ E). destruct (forallb _ _); cbn [andb]; [|done]. unfold e_entry.
    rewrite (M_bind_run _ _ _ _ _ (proj1 (image_w32 m img size Himg m' (img + 24) Hs' ltac:(lia) ltac:(lia)))).
    unfold entry_ok. set (e := w32 m (img + 24)).
    destruct (Z.ltb_spec e USER_BASE), (Z.leb_spec USER_TOP e), (Z.leb_spec USER_BASE e), (Z.ltb_spec e USER_TOP); done || lia.
  - intros x. rewrite L. done.
  - intros x Hx. rewrite L. generalize (mload x m). intros v.
    pose proof (λ sg, fitting_fits size (segments m img 0) sg) as Hfit.
    assert (∀ sg, sg ∈ fitting size (segments m img 0) → fits size sg = true ∧ 0 ≤ s_fs sg ≤ s_ms sg) as Hfit'.
    { intros sg [Hf Hin]%Hfit. split; [done|]. split; [by apply (segments_nonneg m img size Himg)|by apply Hsegs]. }
    clear Hfit Hsegs L Hs'. rename Hfit' into Hfit.
    revert v Hfit. induction (fitting size (segments m img 0)) as [|sg l IH]; intros v Hfit; [done|].
    cbn [foldl]. destruct (Hfit sg) as [Hf Hle]; [left|].
    assert (seg_byte m img sg x = None) as ->; [|apply IH; intros; apply Hfit; by right].
    unfold fits in Hf. rewrite !andb_true_iff, !Z.leb_le in Hf. unfold seg_byte. rewrite decide_False by lia. by rewrite decide_False by lia.
Qed.

(** ** Properties *)

(** C30. Loading an image that lies below the user window.  The result is 0 and the
    entry point exactly when the header is that of a 32-bit x86 executable whose
    header table lies in the file, every loadable segment lies in the file and in
    the user window, and the entry point lies in the window; otherwise it is -1.
    The memory is as before except that the segments up to the first that does
    not fit are in place, file contents followed by zeros; in particular nothing
    outside the user window has changed.  An image whose header passes the checks
    must satisfy what the loader takes for granted and does not check
    ([elf_sane]): header entries are 32 bytes apart, the end of the header table
    and the end of each segment in the file do not wrap around, and no segment
    has more bytes in the file than in memory. *)
Theorem elf_load_effect m img size (Himg : image_ok m img size) (Hsane : header_ok m img size = true → elf_sane m img) :
  ∃ m', elf_load img size m
        = Some (if header_ok m img size && forallb (fits size) (segments m img 0) && entry_ok m img
                then (0, Some (w32 m (img + 24))) else (-1, None), m') ∧
    (∀ x, mload x m' = if header_ok m img size then loaded m img (fitting size (segments m img 0)) x else mload x m) ∧
    (∀ x, x < USER_BASE ∨ USER_TOP ≤ x → mload x m' = mload x m).
Proof. by apply elf_load_run. Qed.


(** A program of one segment: four bytes of code, eight in memory. *)
Definition tiny_elf (filesz : Z) : list Z :=
  [127; 69; 76; 70; 1; 1; 1; 0; 0; 0; 0; 0; 0; 0; 0; 0] ++ [2; 0; 3; 0] ++ le32 1 ++ le32 8388608 ++ le32 52 ++
  le32 0 ++ le32 0 ++ [52; 0; 32; 0; 1; 0; 0; 0; 0; 0; 0; 0] ++
  le32 1 ++ le32 84 ++ le32 8388608 ++ le32 8388608 ++ le32 filesz ++ le32 8 ++ le32 5 ++ le32 4096 ++
  [144; 144; 235; 254] ++ replicate 12 7.
Definition at_heap : Z := 4194316.
Definition tiny_mem (filesz : Z) : mem := list_to_map (zip (seqZ at_heap 100) (tiny_elf filesz)).

Lemma tiny_image_ok filesz : filesz = 4 ∨ filesz = 12 → image_ok (tiny_mem filesz) at_heap 100.
Proof.
  intros Hf. split; [unfold at_heap, USER_BASE; lia|]. intros x Hx.
  assert (Forall (λ x, is_byte (by8 (tiny_mem filesz) x)) (seqZ at_heap 100)) as HF.
  { destruct Hf as [-> | ->]; apply (bool_decide_unpack _); vm_compute; exact I. }
  rewrite Forall_forall in HF. apply HF, elem_of_seqZ. lia.
Qed.

Lemma elf_load_effect_witness :
  ∃ m', elf_load at_heap 100 (tiny_mem 4) = Some ((0, Some 8388608), m') ∧
    mload 8388608 m' = Some 144 ∧ mload 8388615 m' = Some 0 ∧
    (∀ x, x < USER_BASE ∨ USER_TOP ≤ x → mload x m' = mload x (tiny_mem 4)).
Proof.
  destruct (elf_load_effect (tiny_mem 4) at_heap 100) as (m' & E & L & O).
  - apply tiny_image_ok. left. reflexivity.
  - intros _. split; [vm_compute; reflexivity|]. split; [vm_compute; reflexivity|].
    assert (segments (tiny_mem 4) at_heap 0 = [Seg 8388608 8 84 4]) as -> by (vm_compute; reflexivity).
    intros sg ->%list_elem_of_singleton. vm_compute. split; [discriminate|reflexivity].
  - exists m'. split; [rewrite E; vm_compute; reflexivity|]. rewrite !L. split; [vm_compute; reflexivity|].
    split; [vm_compute; reflexivity|exact O].
Defined.

(** C35. The loader does not compare the size of a segment in the file with its
    size in memory.  An image whose first header is a loadable segment that
    passes every check but has more bytes in the file than in memory is not
    rejected: its bytes are copied, and the fill routine is called for the bytes
    behind them with a length that has wrapped around (a routine that fails on
    this call makes the loader fail).  [memset] fills upwards: it has zeroed
    everything from there to the end of the machine's memory, far above the user
    window, before it is done, and faults. *)
Theorem elf_filesz_overrun m img size sg (Himg : image_ok m img size)
    (Hhdr : header_ok m img size = true) (Htab : w32 m (img + 28) + w16 m (img + 44) * 32 < 4294967296)
    (Hnum : 0 < w16 m (img + 44)) (Hseg : seg_at m (img + w32 m (img + 28)) = Some sg)
    (Hfits : fits size sg = true) (Hover : s_ms sg < s_fs sg) :
  let p := s_va sg + s_fs sg in let n := 4294967296 - (s_fs sg - s_ms sg) in
  ∃ m1 m2, memcpy (s_va sg) (img + s_off sg) (s_fs sg) m = Some m1 ∧
    (∀ fill, fill p 0 n m1 = None → elf_load_with fill img size m = None) ∧
    RAM_TOP - p < n ∧ memset p 0 (RAM_TOP - p) m1 = Some m2 ∧
    (∀ x, mload x m2 = if decide (p ≤ x < RAM_TOP) then Some 0 else mload x m1) ∧
    elf_load img size m = None.
Proof.
  intros p n. destruct (header_table m img size Himg Hhdr Htab) as [Hsz Htab'].
  unfold SIZEOF_EHDR in Hsz. assert (same_image img size m m) as Hs by done.
  destruct (image_w32 m img size Himg m (img + 28) Hs ltac:(lia) ltac:(lia)) as [Eo Ro].
  destruct (image_w16 m img size Himg m (img + 44) Hs ltac:(lia) ltac:(lia)) as [En Rn].
  destruct (image_w16 m img size Himg m (img + 42) Hs ltac:(lia) ltac:(lia)) as [Ee Re].
  destruct (load_segment_overrun m img size Himg m sg (img + w32 m (img + 28)) Hs Hseg ltac:(lia) ltac:(lia) Hfits Hover) as (m1 & Ec & Htop & Hms & El).
  assert (0 ≤ s_va sg) as Hlow.
  { unfold fits in Hfits. rewrite !andb_true_iff, !Z.leb_le in Hfits. unfold USER_BASE in Hfits. lia. }
  fold p in Htop. destruct (memset_spec p 0 (RAM_TOP - p) m1) as (m2 & Em & L); [lia|unfold mapped, p; lia|].
  assert (∀ fill, fill p 0 n m1 = None → elf_load_with fill img size m = None) as Hfill.
  { intros fill Hf. rewrite (elf_load_header m img size Himg), Hhdr.
    enough (phdr_loop_with fill PHDR_FUEL img size 0 m = None) as Hloop by (unfold mbind, M_bind; by rewrite Hloop).
    assert (∃ k, PHDR_FUEL = S k) as [k ->] by (exists (Z.to_nat 65535); unfold PHDR_FUEL; lia).
    cbn [phdr_loop_with]. unfold e_phnum, e_phoff, e_phentsize. rewrite (M_bind_run _ _ _ _ _ En).
    destruct (Z.ltb_spec 0 (w16 m (img + 44))); [|lia]. cbn [negb].
    rewrite (M_bind_run _ _ _ _ _ Eo), (M_bind_run _ _ _ _ _ Ee), Z.mul_0_l, Z.add_0_r.
    destruct (es_mem _ _ _ Himg) as (? & ? & ?). unfold USER_BASE in *. rewrite u32_small by lia.
    rewrite (bind_eq _ _ _ _ _ (El fill)). unfold mbind, M_bind, on_mem. fold p n. by rewrite Hf. }
  assert (RAM_TOP - p < n) as Hlen by (unfold n, p, RAM_TOP in *; lia).
  exists m1, m2. split; [exact Ec|]. split; [exact Hfill|]. split; [exact Hlen|]. split; [exact Em|].
  split; [intros x; rewrite L; by replace (p + (RAM_TOP - p)) with RAM_TOP by lia|].
  apply Hfill, memset_too_far; unfold p in *; lia.
Qed.

Lemma elf_filesz_overrun_witness :
  ∃ m1 m2, memset 8388620 0 25165812 m1 = Some m2 ∧ mload 16777216 m2 = Some 0 ∧
    elf_load_with (λ a c n m', if (a =? 8388620) && (n =? 4294967292) then None else Some m') at_heap 100 (tiny_mem 12) = None ∧
    elf_load at_heap 100 (tiny_mem 12) = None.
Proof.
  destruct (elf_filesz_overrun (tiny_mem 12) at_heap 100 (Seg 8388608 8 84 12)) as (m1 & m2 & _ & F & _ & E & L & N).
  - apply tiny_image_ok. right. reflexivity.
  - vm_compute. reflexivity.
  - vm_compute. reflexivity.
  - vm_compute. reflexivity.
  - vm_compute. reflexivity.
  - vm_compute. reflexivity.
  - vm_compute. reflexivity.
  - exists m1, m2. split; [exact E|]. split; [rewrite L; reflexivity|]. split; [apply F; reflexivity|exact N].
Defined.
