(* ===== verification/Paging.v ===== *)
(** * Paging (mem/paging.c, mem/paging.h)

    State: the page directory, the control registers and the entries the
    processor has cached.  [translate] is the processor's documented translation
    of a linear address with 4 MB pages, for a read or a write, from the cached
    entries; the theorems say what memory the kernel and a user program can
    reach. *)

From S2P Require Import Prelude Pmm.

Definition PDE_PRESENT : Z := 1.
Definition PDE_RW : Z := 2.
Definition PDE_USER : Z := 4.
Definition PDE_4MB : Z := 128.

(** [tlb] holds the entries as they were when cr3 was last loaded: a store to the
    directory does not reach the processor before the next load. *)
Record mmu := Mmu { page_directory : list Z; cr0 : Z; cr3 : Z; cr4 : Z; tlb : list Z }.

Section paging.
(** The address of [page_directory]. *)
Variable a_page_directory : Z.

(** [page_directory[i] = v] *)
Definition pde_store (i v : Z) : M mmu unit := λ s,
  if (0 <=? i) && (i <? Z.of_nat (length (page_directory s)))
  then Some (tt, Mmu (<[Z.to_nat i := v]> (page_directory s)) (cr0 s) (cr3 s) (cr4 s) (tlb s)) else None.
Definition pde_load (i : Z) : M mmu Z := λ s,
  if 0 <=? i then (λ v, (v, s)) <$> (page_directory s !! Z.to_nat i) else None.
Definition set_cr0 (v : Z) : M mmu unit := modify (λ s, Mmu (page_directory s) v (cr3 s) (cr4 s) (tlb s)).
Definition set_cr3 (v : Z) : M mmu unit := modify (λ s, Mmu (page_directory s) (cr0 s) v (cr4 s) (page_directory s)).
Definition set_cr4 (v : Z) : M mmu unit := modify (λ s, Mmu (page_directory s) (cr0 s) (cr3 s) v (tlb s)).

(** The entry [paging_init] stores at index [i]. *)
Definition init_pde (mapped i : Z) : Z :=
  if i <? mapped then Z.lor (Z.lor (Z.lor (u32 (Z.shiftl i 22)) PDE_PRESENT) PDE_RW) PDE_4MB else PDE_RW.

Fixpoint init_loop (n : nat) (i mapped : Z) : M mmu unit :=
  match n with
  | O => mret tt
  | S n' => _ ← pde_store i (init_pde mapped i); init_loop n' (i + 1) mapped
  end.

Definition paging_init : M mmu unit :=
  _ ← init_loop 1024 0 (Z.shiftr PHYS_MEM_SIZE 22);
  _ ← set_cr3 a_page_directory;
  c4 ← gets cr4;
  _ ← set_cr4 (Z.lor c4 16);
  c0 ← gets cr0;
  set_cr0 (Z.lor c0 2147483648).

Definition paging_set_user (vaddr : Z) : M mmu unit :=
  v ← pde_load (Z.shiftr vaddr 22);
  _ ← pde_store (Z.shiftr vaddr 22) (Z.lor v PDE_USER);
  c3 ← gets cr3;
  set_cr3 c3.

(** ** The processor's view *)

(** Translation is on, with 4 MB pages, through our directory. *)
Definition paging_on (s : mmu) : bool :=
  Z.testbit (cr0 s) 31 && Z.testbit (cr4 s) 4 && (cr3 s =? a_page_directory).

(** A write needs the writable bit, except for supervisor code while CR0.WP is
    clear. *)
Definition may_write (user : bool) (s : mmu) (pde : Z) : bool :=
  Z.testbit pde 1 || negb user && negb (Z.testbit (cr0 s) 16).

(** The physical address of a linear one, for supervisor or user code; [None]
    is a page fault (or a directory that is not ours). *)
Definition translate (user write : bool) (s : mmu) (va : Z) : option Z :=
  if negb (Z.testbit (cr0 s) 31) then Some va
  else if negb (paging_on s) then None
  else
    pde ← tlb s !! Z.to_nat (Z.shiftr va 22);
    if Z.testbit pde 0 && Z.testbit pde 7 && (negb user || Z.testbit pde 2) && (negb write || may_write user s pde)
    then Some (Z.lor (Z.land pde 4290772992) (Z.land va 4194303)) else None.

(** The directory [paging_init] builds, with the pages of [us] open to users. *)
Definition directory (us : list Z) : list Z :=
  (λ i, if decide (i ∈ us) then Z.lor (init_pde 8 i) PDE_USER else init_pde 8 i) <$> seqZ 0 1024.

(** Translation through that directory, with nothing stale in the processor. *)
Definition paged (us : list Z) (s : mmu) : Prop :=
  paging_on s = true ∧ page_directory s = directory us ∧ tlb s = directory us.

(** The entries, by their index. *)
Lemma directory_pde us i : 0 ≤ i < 1024 →
  directory us !! Z.to_nat i = Some (if decide (i ∈ us) then Z.lor (init_pde 8 i) PDE_USER else init_pde 8 i).
Proof.
  intros Hi. unfold directory. rewrite list_lookup_fmap, lookup_seqZ_lt by lia. simpl.
  replace (0 + Z.of_nat (Z.to_nat i)) with i by lia. done.
Qed.

(** The entries, by evaluation. *)
Lemma pde_table : forallb (λ i,
    let p := init_pde 8 i in let q := Z.lor p PDE_USER in
    Bool.eqb (Z.testbit p 0) (i <? 8) && Bool.eqb (Z.testbit p 7) (i <? 8) && Z.testbit p 1 && Z.testbit q 1 && negb (Z.testbit p 2) &&
    Bool.eqb (Z.testbit q 0) (i <? 8) && Bool.eqb (Z.testbit q 7) (i <? 8) && Z.testbit q 2 &&
    (negb (i <? 8) || (Z.land p 4290772992 =? i * 4194304) && (Z.land q 4290772992 =? i * 4194304)))
  (seqZ 0 1024) = true.
Proof. vm_compute. reflexivity. Qed.

Lemma pde_facts i : 0 ≤ i < 1024 → ∀ u : bool,
  let p := if u then Z.lor (init_pde 8 i) PDE_USER else init_pde 8 i in
  Z.testbit p 0 = (i <? 8) ∧ Z.testbit p 7 = (i <? 8) ∧ Z.testbit p 2 = u ∧ Z.testbit p 1 = true ∧
  (i < 8 → Z.land p 4290772992 = i * 4194304).
Proof.
  intros Hi u p. pose proof pde_table as HT. rewrite forallb_forall in HT.
  specialize (HT i ltac:(apply list_elem_of_In, elem_of_seqZ; lia)). cbn zeta in HT.
  rewrite !andb_true_iff, orb_true_iff, andb_true_iff, !eqb_true_iff, !negb_true_iff, Z.ltb_ge, !Z.eqb_eq in HT.
  destruct HT as ((((((((A & B) & H) & I) & C) & D) & E) & F) & G). subst p. destruct u; repeat split; try done; lia.
Qed.

(** A page number and an offset make up the address. *)
Lemma page_split va : 0 ≤ va → Z.lor (Z.shiftr va 22 * 4194304) (Z.land va 4194303) = va.
Proof.
  intros Hva. change 4194304 with (2 ^ 22). rewrite <-Z.shiftl_mul_pow2 by lia. change 4194303 with (Z.ones 22).
  apply Z.bits_inj_iff'. intros j Hj. rewrite Z.lor_spec, Z.land_spec, Z.shiftl_spec by lia.
  destruct (decide (j < 22)).
  - rewrite Z.ones_spec_low, Z.testbit_neg_r by lia. by rewrite andb_true_r.
  - rewrite Z.ones_spec_high, Z.shiftr_spec by lia. rewrite andb_false_r, orb_false_r. f_equal. lia.
Qed.

Lemma page_number va : 0 ≤ va < 4294967296 → 0 ≤ Z.shiftr va 22 < 1024 ∧ (Z.shiftr va 22 < 8 ↔ va < PHYS_MEM_SIZE).
Proof.
  intros Hva. rewrite Z.shiftr_div_pow2 by lia. change (2 ^ 22) with 4194304. unfold PHYS_MEM_SIZE.
  split; [split; [apply Z.div_pos; lia|apply Z.div_lt_upper_bound; lia]|].
  split; intros H; Z.div_mod_to_equations; lia.
Qed.

(** What a directory of identity pages maps. *)
Lemma translate_directory user write s us va : paged us s → 0 ≤ va < 4294967296 →
  translate user write s va =
    if (va <? PHYS_MEM_SIZE) && (negb user || bool_decide (Z.shiftr va 22 ∈ us)) then Some va else None.
Proof.
  intros (Hon & _ & Hdir) Hva. destruct (page_number va Hva) as [Hi H8]. unfold translate, may_write.
  assert (Z.testbit (cr0 s) 31 = true) as Hpg by (unfold paging_on in Hon; by destruct (Z.testbit (cr0 s) 31)).
  rewrite Hpg, Hon, Hdir. cbn [negb]. rewrite directory_pde by done. cbn [mbind option_bind].
  pose proof (pde_facts _ Hi (bool_decide (Z.shiftr va 22 ∈ us))) as (A & B & C & W & D). rewrite bool_decide_decide in *.
  destruct (decide (Z.shiftr va 22 ∈ us)); cbn iota in *; rewrite A, B, C, W, ?orb_true_l, ?orb_true_r, ?andb_true_r;
    destruct (Z.ltb_spec (Z.shiftr va 22) 8), (Z.ltb_spec va PHYS_MEM_SIZE); try lia; cbn [andb]; try done;
    rewrite D by lia; rewrite page_split by lia; by destruct user, write.
Qed.

Lemma init_loop_run n i mp s : 0 ≤ i → i + Z.of_nat n ≤ Z.of_nat (length (page_directory s)) →
  ∃ d, init_loop n i mp s = Some (tt, Mmu d (cr0 s) (cr3 s) (cr4 s) (tlb s)) ∧ length d = length (page_directory s) ∧
    ∀ k, d !! k = if decide (i ≤ Z.of_nat k < i + Z.of_nat n) then Some (init_pde mp (Z.of_nat k)) else page_directory s !! k.
Proof.
  revert i s. induction n as [|n IH]; intros i s Hi Hn; cbn [init_loop].
  { exists (page_directory s). split; [by destruct s|]. split; [done|]. intros k. by rewrite decide_False by lia. }
  assert (pde_store i (init_pde mp i) s =
    Some (tt, Mmu (<[Z.to_nat i := init_pde mp i]> (page_directory s)) (cr0 s) (cr3 s) (cr4 s) (tlb s))) as E.
  { unfold pde_store. destruct (Z.leb_spec 0 i), (Z.ltb_spec i (Z.of_nat (length (page_directory s)))); try lia. done. }
  rewrite (M_bind_run _ _ _ _ _ E). set (s1 := Mmu _ _ _ _ _).
  destruct (IH (i + 1) s1) as (d & Ed & Hl & Hk); [lia|subst s1; cbn [page_directory]; rewrite length_insert; lia|].
  subst s1.
  exists d. split; [exact Ed|]. cbn [page_directory] in *. rewrite length_insert in Hl. split; [done|].
  intros k. rewrite Hk. destruct (decide (Z.of_nat k = i)) as [<-|].
  - rewrite decide_False, decide_True by lia. rewrite Nat2Z.id, list_lookup_insert_eq by lia. done.
  - rewrite list_lookup_insert_ne by lia. destruct (decide (i + 1 ≤ Z.of_nat k < i + 1 + Z.of_nat n)); [by rewrite decide_True by lia|by rewrite decide_False by lia].
Qed.

Lemma lor_bit w k : 0 ≤ k → Z.testbit (Z.lor w (Z.shiftl 1 k)) k = true.
Proof. intros Hk. rewrite set_bit_spec, Z.eqb_refl by lia. apply orb_true_r. Qed.

Lemma paging_init_run s : length (page_directory s) = 1024%nat →
  ∃ s', paging_init s = Some (tt, s') ∧ paged [] s'.
Proof.
  intros Hl. unfold paging_init. destruct (init_loop_run 1024 0 (Z.shiftr PHYS_MEM_SIZE 22) s) as (d & E & Hd & Hk); [lia|lia|].
  rewrite (M_bind_run _ _ _ _ _ E).
  assert (d = directory []) as ->.
  { apply list_eq. intros k. rewrite Hk. destruct (decide (0 ≤ Z.of_nat k < 0 + Z.of_nat 1024)).
    - rewrite <-(Nat2Z.id k) at 2. rewrite directory_pde, decide_False by (try apply not_elem_of_nil; lia). done.
    - rewrite !lookup_ge_None_2; [done| |lia]. unfold directory. rewrite length_fmap, length_seqZ. lia. }
  eexists. split; [reflexivity|]. unfold paged, paging_on. cbn [page_directory tlb cr0 cr3 cr4]. split; [|split; reflexivity].
  change 16 with (Z.shiftl 1 4). change 2147483648 with (Z.shiftl 1 31). by rewrite !lor_bit, Z.eqb_refl by lia.
Qed.

Lemma paging_set_user_run s us va : paged us s → 0 ≤ va < 4294967296 →
  ∃ s', paging_set_user va s = Some (tt, s') ∧ paged (Z.shiftr va 22 :: us) s'.
Proof.
  intros (Hon & Hdir & _) Hva. destruct (page_number va Hva) as [Hi _]. set (i := Z.shiftr va 22) in *.
  unfold paging_set_user. fold i.
  set (p := if decide (i ∈ us) then Z.lor (init_pde 8 i) PDE_USER else init_pde 8 i).
  assert (pde_load i s = Some (p, s)) as E1.
  { unfold pde_load. destruct (Z.leb_spec 0 i); [|lia]. by rewrite Hdir, directory_pde by lia. }
  assert (length (page_directory s) = 1024%nat) as Hlen by (rewrite Hdir; unfold directory; by rewrite length_fmap, length_seqZ).
  rewrite (M_bind_run _ _ _ _ _ E1).
  assert (pde_store i (Z.lor p PDE_USER) s =
    Some (tt, Mmu (<[Z.to_nat i := Z.lor p PDE_USER]> (page_directory s)) (cr0 s) (cr3 s) (cr4 s) (tlb s))) as E2.
  { unfold pde_store. destruct (Z.leb_spec 0 i), (Z.ltb_spec i (Z.of_nat (length (page_directory s)))); try lia. done. }
  rewrite (M_bind_run _ _ _ _ _ E2).
  enough (<[Z.to_nat i := Z.lor p PDE_USER]> (page_directory s) = directory (i :: us)) as ->
    by (eexists; split; [reflexivity|]; split; [exact Hon|split; reflexivity]).
  rewrite Hdir. apply list_eq. intros k. destruct (decide (k < 1024)%nat) as [Hk|Hk].
  - rewrite <-(Nat2Z.id k) at 2. rewrite directory_pde by lia. destruct (decide (Z.of_nat k = i)) as [E|Hne].
    + rewrite E. rewrite decide_True by left. replace k with (Z.to_nat i) by lia. rewrite list_lookup_insert_eq by (rewrite <-Hdir; lia).
      subst p. destruct (decide (i ∈ us)); [|done]. by rewrite <-Z.lor_assoc, Z.lor_diag.
    + rewrite list_lookup_insert_ne by lia. rewrite <-(Nat2Z.id k) at 1. rewrite directory_pde by lia. f_equal.
      destruct (decide (Z.of_nat k ∈ us)); [rewrite decide_True by (by right); done|].
      rewrite decide_False; [done|]. intros [?|?]%elem_of_cons; done.
  - rewrite !lookup_ge_None_2; [done| |rewrite length_insert, <-Hdir; lia].
    unfold directory. rewrite length_fmap, length_seqZ. lia.
Qed.

(** The windows a kernel opens, one after the other. *)
Fixpoint open_windows (vs : list Z) : M mmu unit :=
  match vs with
  | [] => mret tt
  | v :: vs' => _ ← paging_set_user v; open_windows vs'
  end.

Lemma open_windows_run vs s us : paged us s → Forall (λ v, 0 ≤ v < 4294967296) vs →
  ∃ s', open_windows vs s = Some (tt, s') ∧ paged (rev ((λ v, Z.shiftr v 22) <$> vs) ++ us) s'.
Proof.
  intros Hp Hvs. revert us s Hp. induction Hvs as [|v vs Hv _ IH]; intros us s Hp; cbn [open_windows]; [by exists s|].
  destruct (paging_set_user_run s us v Hp Hv) as (s1 & E & Hp1). rewrite (M_bind_run _ _ _ _ _ E).
  destruct (IH _ _ Hp1) as (s' & E' & Hp'). exists s'. split; [exact E'|]. cbn [fmap list_fmap rev]. by rewrite <-app_assoc.
Qed.

(** The pages of the windows. *)
Lemma window_pages va vs :
  bool_decide (Z.shiftr va 22 ∈ rev ((λ v, Z.shiftr v 22) <$> vs) ++ []) = existsb (λ v, v / 4194304 =? va / 4194304) vs.
Proof.
  rewrite app_nil_r. apply eq_bool_prop_intro. rewrite bool_decide_spec, !Is_true_true, existsb_exists.
  rewrite list_elem_of_In, <-in_rev, <-list_elem_of_In, list_elem_of_fmap. rewrite Z.shiftr_div_pow2 by lia. change (2 ^ 22) with 4194304.
  setoid_rewrite Z.eqb_eq. setoid_rewrite <-list_elem_of_In.
  split; intros (v & A & B); exists v; rewrite Z.shiftr_div_pow2 in * by lia; change (2 ^ 22) with 4194304 in *; split; congruence || done.
Qed.
End paging.

(** ** Properties *)

(** C31. After [paging_init] and any number of [paging_set_user] calls, with no
    stale entry left in the processor: supervisor code reads and writes every
    address of the 32 MB of memory at itself and faults above, while user code
    reads and writes exactly the addresses of that memory in the 4 MB pages of
    the addresses passed to [paging_set_user] and faults everywhere else. *)
Theorem user_isolation a_pd (s : mmu) vs (Hdir : length (page_directory s) = 1024%nat)
    (Hvs : Forall (λ v, 0 ≤ v < 4294967296) vs) :
  ∃ s', (_ ← paging_init a_pd; open_windows vs) s = Some (tt, s') ∧ tlb s' = page_directory s' ∧
    ∀ user write va, 0 ≤ va < 4294967296 →
      translate a_pd user write s' va =
        if (va <? PHYS_MEM_SIZE) && (negb user || existsb (λ v, v / 4194304 =? va / 4194304) vs) then Some va else None.
Proof.
  destruct (paging_init_run a_pd s Hdir) as (s1 & E1 & P1). rewrite (M_bind_run _ _ _ _ _ E1).
  destruct (open_windows_run a_pd vs s1 [] P1 Hvs) as (s2 & E2 & P2). exists s2. split; [exact E2|].
  split; [destruct P2 as (_ & -> & ->); reflexivity|].
  intros user write va Hva. by rewrite (translate_directory a_pd user write s2 _ va P2 Hva), window_pages.
Qed.

Lemma user_isolation_witness :
  ∃ s', (_ ← paging_init 36864; open_windows [8388608; 20971524]) (Mmu (replicate 1024 0) 17 0 0 []) = Some (tt, s') ∧
    translate 36864 true true s' 4194316 = None ∧ translate 36864 true true s' 8388612 = Some 8388612 ∧
    translate 36864 true false s' 25165820 = Some 25165820.
Proof.
  destruct (user_isolation 36864 (Mmu (replicate 1024 0) 17 0 0 []) [8388608; 20971524]) as (s' & E & _ & T).
  - reflexivity.
  - apply Forall_cons_2; [lia|]. apply Forall_cons_2; [lia|]. apply Forall_nil_2.
  - exists s'. split; [exact E|]. split; [|split]; rewrite T by lia; reflexivity.
Defined.
