(* ===== verification/Segments.v ===== *)
(** * Segments and the task state segment (cpu/gdt.c, cpu/gdt.h)

    State: the descriptor table, its pointer, the TSS as its 26 words, and what
    the processor has loaded: the table and task registers and the selectors in
    the segment registers.  The theorems decode the table the way the
    processor does. *)

From S2P Require Import Prelude.

Definition GDT_ENTRIES : nat := 6.
Definition GDT_KERNEL_CODE : Z := 8.
Definition GDT_KERNEL_DATA : Z := 16.
Definition GDT_USER_CODE : Z := 24.
Definition GDT_USER_DATA : Z := 32.
Definition GDT_TSS : Z := 40.

Record gdt_entry_t := Gdt {
  limit_low : Z; base_low : Z; base_mid : Z; access : Z; gran : Z; base_high : Z }.
Record gdt_ptr_t := GdtPtr { ptr_limit : Z; ptr_base : Z }.

(** [tss_t]: 26 words; [esp0] is word 1, [ss0] word 2, and word 25 holds
    [trap] and, in its upper half, [iomap_base]. *)
Definition SIZEOF_TSS : Z := 104.

(** The selectors in the segment registers. *)
Record selectors := Sel { sel_cs : Z; sel_ds : Z; sel_es : Z; sel_fs : Z; sel_gs : Z; sel_ss : Z }.
Definition kernel_sel : selectors :=
  Sel GDT_KERNEL_CODE GDT_KERNEL_DATA GDT_KERNEL_DATA GDT_KERNEL_DATA GDT_KERNEL_DATA GDT_KERNEL_DATA.

Record segs := Segs {
  gdt : list gdt_entry_t; gdt_ptr : gdt_ptr_t; tss : list Z;
  gdtr : gdt_ptr_t; task_reg : Z; sel : selectors }.

Definition with_sel (x : selectors) (s : segs) : segs := Segs (gdt s) (gdt_ptr s) (tss s) (gdtr s) (task_reg s) x.
(** [mov ds, ax; mov es, ax; mov fs, ax; mov gs, ax] *)
Definition load_data (v : Z) : M segs unit :=
  modify (λ s, with_sel (Sel (sel_cs (sel s)) v v v v (sel_ss (sel s))) s).
Definition load_ss (v : Z) : M segs unit :=
  modify (λ s, with_sel (let x := sel s in Sel (sel_cs x) (sel_ds x) (sel_es x) (sel_fs x) (sel_gs x) v) s).
Definition load_cs (v : Z) : M segs unit :=
  modify (λ s, with_sel (let x := sel s in Sel v (sel_ds x) (sel_es x) (sel_fs x) (sel_gs x) (sel_ss x)) s).

(** The descriptor [set_gate] stores. *)
Definition gate (base limit acc flags : Z) : gdt_entry_t :=
  Gdt (u16 (Z.land limit 65535)) (u16 (Z.land base 65535)) (u8 (Z.land (Z.shiftr base 16) 255)) acc
      (u8 (Z.lor (Z.land (Z.shiftr limit 16) 15) (Z.shiftl flags 4))) (u8 (Z.land (Z.shiftr base 24) 255)).

Definition set_gate (i : nat) (base limit acc flags : Z) : M segs unit := λ s,
  if (i <? length (gdt s))%nat
  then Some (tt, Segs (<[i := gate base limit acc flags]> (gdt s)) (gdt_ptr s) (tss s) (gdtr s) (task_reg s) (sel s))
  else None.

Definition set_tss (f : list Z → list Z) : M segs unit :=
  modify (λ s, Segs (gdt s) (gdt_ptr s) (f (tss s)) (gdtr s) (task_reg s) (sel s)).
Definition set_esp0 (v : Z) : M segs unit := set_tss <[1%nat := v]>.

(** gdt_flush.asm *)
Definition gdt_flush (p : gdt_ptr_t) : M segs unit :=
  _ ← modify (λ s, Segs (gdt s) (gdt_ptr s) (tss s) p (task_reg s) (sel s));
  _ ← load_data 16;
  _ ← load_ss 16;
  load_cs 8.
Definition tss_flush : M segs unit := modify (λ s, Segs (gdt s) (gdt_ptr s) (tss s) (gdtr s) 40 (sel s)).

Section install.
(** The addresses of [tss] and [gdt]. *)
Variables a_tss a_gdt : Z.

Definition gdt_install : M segs unit :=
  _ ← set_gate 0 0 0 0 0;
  _ ← set_gate 1 0 1048575 154 12;
  _ ← set_gate 2 0 1048575 146 12;
  _ ← set_gate 3 0 1048575 250 12;
  _ ← set_gate 4 0 1048575 242 12;
  _ ← set_tss (λ _, replicate 26 0);
  _ ← set_tss <[2%nat := GDT_KERNEL_DATA]>;
  _ ← set_tss (alter (λ w, w `mod` 65536 + 65536 * SIZEOF_TSS) 25%nat);
  _ ← set_gate 5 a_tss (u32 (SIZEOF_TSS - 1)) 137 0;
  _ ← modify (λ s, Segs (gdt s) (GdtPtr (u16 (8 * Z.of_nat GDT_ENTRIES - 1)) a_gdt) (tss s) (gdtr s) (task_reg s) (sel s));
  p ← gets gdt_ptr;
  _ ← gdt_flush p;
  tss_flush.
End install.

(** ** The processor's reading of a descriptor *)

Record descriptor := Desc { d_base : Z; d_limit : Z; d_access : Z; d_flags : Z }.
Definition decode (e : gdt_entry_t) : descriptor :=
  Desc (base_low e + 65536 * base_mid e + 16777216 * base_high e)
       (limit_low e + 65536 * (gran e `mod` 16)) (access e) (gran e / 16).
Definition d_dpl (d : descriptor) : Z := Z.land (Z.shiftr (d_access d) 5) 3.
Definition d_present (d : descriptor) : bool := Z.testbit (d_access d) 7.
(** The type: a code segment may be readable and conforming, a data segment
    writable and expand-down; type 9 is an available 32-bit TSS. *)
Inductive seg_kind := SegCode (readable conforming : bool) | SegData (writable expand_down : bool) | SegTss32 | SegOther.
Definition d_kind (d : descriptor) : seg_kind :=
  let a := d_access d in
  if Z.testbit a 4 then (if Z.testbit a 3 then SegCode else SegData) (Z.testbit a 1) (Z.testbit a 2)
  else if Z.land a 31 =? 9 then SegTss32 else SegOther.
(** 32-bit code, or a stack and limit of 32 bits. *)
Definition d_big (d : descriptor) : bool := Z.testbit (d_flags d) 2.
(** The last byte of the segment. *)
Definition d_top (d : descriptor) : Z :=
  d_base d + (if Z.testbit (d_flags d) 3 then d_limit d * 4096 + 4095 else d_limit d).

(** A descriptor as the processor reads it. *)
Record seg_view := Segment {
  sg_kind : seg_kind; sg_base : Z; sg_top : Z; sg_dpl : Z; sg_present : bool; sg_32bit : bool }.
Definition reading (e : gdt_entry_t) : seg_view :=
  let d := decode e in Segment (d_kind d) (d_base d) (d_top d) (d_dpl d) (d_present d) (d_big d).

Lemma land_mod w n : 0 ≤ n → Z.land w (Z.ones n) = w `mod` 2 ^ n.
Proof. apply Z.land_ones. Qed.

Lemma nibbles q f : 0 ≤ q < 16 → 0 ≤ f < 16 → Z.lor q (Z.shiftl f 4) = f * 16 + q.
Proof.
  intros Hq Hf. assert (forallb (λ q, forallb (λ f, Z.lor q (Z.shiftl f 4) =? f * 16 + q) (seqZ 0 16)) (seqZ 0 16) = true) as HT
    by (vm_compute; reflexivity).
  rewrite forallb_forall in HT. specialize (HT q ltac:(apply list_elem_of_In, elem_of_seqZ; lia)).
  rewrite forallb_forall in HT. apply Z.eqb_eq, HT, list_elem_of_In, elem_of_seqZ. lia.
Qed.

(** Encoding loses nothing. *)
Lemma decode_gate base limit acc flags : 0 ≤ base < 4294967296 → 0 ≤ limit < 1048576 → 0 ≤ flags < 16 →
  decode (gate base limit acc flags) = Desc base limit acc flags.
Proof.
  intros Hb Hl Hf. unfold decode, gate. cbn [base_low base_mid base_high limit_low gran access].
  change 65535 with (Z.ones 16). change 255 with (Z.ones 8). change 15 with (Z.ones 4).
  rewrite !land_mod, !Z.shiftr_div_pow2 by lia. unfold u8, u16.
  change (2 ^ 16) with 65536. change (2 ^ 4) with 16.
  assert (0 ≤ limit / 65536 < 16) as Hq by (Z.div_mod_to_equations; lia).
  rewrite (Z.mod_small (limit / 65536)), nibbles by lia.
  change (2 ^ 8) with 256. change (2 ^ 24) with 16777216.
  f_equal; Z.div_mod_to_equations; lia.
Qed.

(** What the processor reads after [gdt_install]. *)
Definition segments_ready (a_tss a_gdt : Z) (s : segs) : Prop :=
  (reading <$> gdt s)
  = [Segment SegOther 0 0 0 false false;
     Segment (SegCode true false) 0 4294967295 0 true true; Segment (SegData true false) 0 4294967295 0 true true;
     Segment (SegCode true false) 0 4294967295 3 true true; Segment (SegData true false) 0 4294967295 3 true true;
     Segment SegTss32 a_tss (a_tss + 103) 0 true false] ∧
  gdtr s = GdtPtr 47 a_gdt ∧ task_reg s = GDT_TSS ∧ sel s = kernel_sel ∧
  tss s !! 1%nat = Some 0 ∧ tss s !! 2%nat = Some GDT_KERNEL_DATA ∧ tss s !! 25%nat = Some (65536 * SIZEOF_TSS).

Lemma gdt_install_run a_tss a_gdt (s : segs) : length (gdt s) = GDT_ENTRIES → 0 ≤ a_tss < 4294967296 →
  ∃ s', gdt_install a_tss a_gdt s = Some (tt, s') ∧ segments_ready a_tss a_gdt s'.
Proof.
  intros Hlen Htss. destruct s as [g p t gr tr se]. cbn [gdt] in Hlen. unfold GDT_ENTRIES in Hlen.
  do 6 (destruct g as [|? g]; [done|]). destruct g; [|done].
  eexists. split; [cbv -[gate]; reflexivity|]. unfold segments_ready. cbn [gdt gdtr task_reg tss sel]. split; [|done].
  cbn [fmap list_fmap]. unfold reading. rewrite !decode_gate by lia. reflexivity.
Qed.

(** ** Properties *)

(** C32. The table [gdt_install] loads, read as the processor reads it: a null
    descriptor; for ring 0 and for ring 3, at the selectors the kernel uses, flat
    4 GB segments, 32-bit readable code that is not conforming and 32-bit
    writable data that does not expand down; and an available 32-bit TSS that
    covers exactly [tss].  The TSS names the kernel data segment for ring 0 and
    has no I/O bitmap; the table and task registers are loaded, cs holds the
    kernel code selector and ds, es, fs, gs and ss the kernel data selector. *)
Theorem gdt_install_table a_tss a_gdt (s : segs) (Hlen : length (gdt s) = GDT_ENTRIES) (Htss : 0 ≤ a_tss < 4294967296) :
  ∃ s', gdt_install a_tss a_gdt s = Some (tt, s') ∧
    (reading <$> gdt s')
    = [Segment SegOther 0 0 0 false false;
       Segment (SegCode true false) 0 4294967295 0 true true; Segment (SegData true false) 0 4294967295 0 true true;
       Segment (SegCode true false) 0 4294967295 3 true true; Segment (SegData true false) 0 4294967295 3 true true;
       Segment SegTss32 a_tss (a_tss + 103) 0 true false] ∧
    gdtr s' = GdtPtr 47 a_gdt ∧ task_reg s' = GDT_TSS ∧ sel s' = Sel 8 16 16 16 16 16 ∧
    tss s' !! 1%nat = Some 0 ∧ tss s' !! 2%nat = Some GDT_KERNEL_DATA ∧ tss s' !! 25%nat = Some (65536 * SIZEOF_TSS).
Proof. destruct (gdt_install_run a_tss a_gdt s Hlen Htss) as (s' & E & Hs). by exists s'. Qed.

Lemma gdt_install_table_witness :
  ∃ s', gdt_install 50000 60000 (Segs (replicate 6 (Gdt 0 0 0 0 0 0)) (GdtPtr 0 0) [] (GdtPtr 0 0) 0 (Sel 8 16 16 16 16 16)) = Some (tt, s') ∧
    (sg_base <$> (reading <$> gdt s')) = [0; 0; 0; 0; 0; 50000] ∧ gdtr s' = GdtPtr 47 60000.
Proof.
  destruct (gdt_install_table 50000 60000 (Segs (replicate 6 (Gdt 0 0 0 0 0 0)) (GdtPtr 0 0) [] (GdtPtr 0 0) 0 (Sel 8 16 16 16 16 16))) as (s' & E & T & G & _).
  - reflexivity.
  - split; reflexivity || discriminate.
  - exists s'. split; [exact E|]. split; [|exact G]. rewrite T. reflexivity.
Defined.
