(* ===== verification/Interrupts.v ===== *)
(** * Interrupts (cpu/idt.c, cpu/idt.h, cpu/isr.c, cpu/isr.h), the timer
      (drivers/timer.c, drivers/timer.h) and the keyboard's registration

    State: the interrupt descriptor table, the register loaded from it and the
    table of handlers, beside the machine behind the ports.  A handler is the
    address of a function; the stubs of interrupt.asm are known by their
    addresses.  The theorems join the descriptor table, as the processor reads
    it, with the interrupt controllers, as they are programmed. *)

From S2P Require Import Prelude Ports Devices CString Serial Screen.

Definition IDT_ENTRIES : nat := 256.
Definition KERNEL_CS : Z := 8.
Definition IRQ0 : Z := 32.
Definition IRQ1 : Z := 33.

Record idt_gate_t := IdtGate { low_offset : Z; selector : Z; always0 : Z; flags : Z; high_offset : Z }.
Record idt_register_t := IdtReg { idt_limit : Z; idt_base : Z }.

Record intr := Intr {
  idt : list idt_gate_t; idt_reg : idt_register_t; idtr : idt_register_t;
  interrupt_handlers : list Z }.

(** [registers_t], in the order the stubs push it. *)
Record registers_t := Registers {
  f_ds : Z;
  f_edi : Z; f_esi : Z; f_ebp : Z; f_esp : Z; f_ebx : Z; f_edx : Z; f_ecx : Z; f_eax : Z;
  f_int_no : Z; f_err_code : Z;
  f_eip : Z; f_cs : Z; f_eflags : Z; f_useresp : Z; f_ss : Z }.

Definition set_idt_gate (n : nat) (handler : Z) : M intr unit := λ s,
  if (n <? length (idt s))%nat then
    Some (tt, Intr (<[n := IdtGate (u16 (Z.land handler 65535)) KERNEL_CS 0 142 (u16 (Z.land (Z.shiftr handler 16) 65535))]> (idt s))
                (idt_reg s) (idtr s) (interrupt_handlers s))
  else None.

Definition set_idt_gate_dpl (n : nat) (handler dpl : Z) : M intr unit := λ s,
  if (n <? length (idt s))%nat then
    Some (tt, Intr (<[n := IdtGate (u16 (Z.land handler 65535)) KERNEL_CS 0 (u8 (Z.lor 142 (Z.shiftl dpl 5)))
                             (u16 (Z.land (Z.shiftr handler 16) 65535))]> (idt s))
                (idt_reg s) (idtr s) (interrupt_handlers s))
  else None.

Definition register_interrupt_handler (n : nat) (handler : Z) : M intr unit := λ s,
  if (n <? length (interrupt_handlers s))%nat
  then Some (tt, Intr (idt s) (idt_reg s) (idtr s) (<[n := handler]> (interrupt_handlers s)))
  else None.

Section install.
Context {HW : Type} {PW : Ports HW}.
(** The addresses of [idt] and of the stubs. *)
Variables (a_idt : Z) (isr irq : Z → Z) (isr128 : Z).

Definition load_idt : M intr unit :=
  _ ← modify (λ s, Intr (idt s) (IdtReg (u16 (8 * Z.of_nat IDT_ENTRIES - 1)) a_idt) (idtr s) (interrupt_handlers s));
  r ← gets idt_reg;
  modify (λ s, Intr (idt s) (idt_reg s) r (interrupt_handlers s)).

(** Each write but the last two is followed by a delay. *)
Definition pic_remap : M HW unit :=
  _ ← outb 32 17; _ ← io_wait;
  _ ← outb 160 17; _ ← io_wait;
  _ ← outb 33 32; _ ← io_wait;
  _ ← outb 161 40; _ ← io_wait;
  _ ← outb 33 4; _ ← io_wait;
  _ ← outb 161 2; _ ← io_wait;
  _ ← outb 33 1; _ ← io_wait;
  _ ← outb 161 1; _ ← io_wait;
  _ ← outb 33 0;
  outb 161 0.

(** [set_idt_gate(v, f(v - base))] for [n] vectors from [v] on. *)
Fixpoint set_gates (n v : nat) (base : Z) (f : Z → Z) : M intr unit :=
  match n with
  | O => mret tt
  | S n' => _ ← set_idt_gate v (f (Z.of_nat v - base)); set_gates n' (S v) base f
  end.

Definition isr_install : M (HW * intr) unit :=
  _ ← zoom snd_lens (set_gates 32 0 0 isr);
  _ ← zoom fst_lens pic_remap;
  _ ← zoom snd_lens (set_gates 16 32 32 irq);
  _ ← zoom snd_lens (set_idt_gate_dpl 128 isr128 3);
  zoom snd_lens load_idt.

Definition handler_of (n : Z) : M intr Z := λ s, (λ h, (h, s)) <$> (interrupt_handlers s !! Z.to_nat n).

(** The handler that is called in the end, if any. *)
Definition irq_handler (r : registers_t) : M (HW * intr) (option Z) :=
  _ ← (if 40 <=? f_int_no r then zoom fst_lens (outb 160 32) else mret tt);
  _ ← zoom fst_lens (outb 32 32);
  h ← zoom snd_lens (handler_of (f_int_no r));
  mret (if truth h then Some h else None).

(** ** CPU exceptions *)

Definition exception_messages : list string :=
  ["Division By Zero"; "Debug"; "Non Maskable Interrupt"; "Breakpoint";
   "Into Detected Overflow"; "Out of Bounds"; "Invalid Opcode";
   "No Coprocessor"; "Double Fault"; "Coprocessor Segment Overrun";
   "Bad TSS"; "Segment Not Present"; "Stack Fault"; "General Protection Fault";
   "Page Fault"; "Unknown Interrupt"; "Coprocessor Fault"; "Alignment Check";
   "Machine Check"; "Reserved"; "Reserved"; "Reserved"; "Reserved"; "Reserved";
   "Reserved"; "Reserved"; "Reserved"; "Reserved"; "Reserved"; "Reserved";
   "Reserved"; "Reserved"].

(** A newline in front of a literal. *)
Definition nl_lit (s : string) : list Z := 10 :: lit s.

(** Reports the exception; afterwards the processor halts for good. *)
Definition isr_handler (r : registers_t) (cr2 : Z) : M (console HW) unit :=
  _ ← set_color (VGA_COLOR VGA_WHITE VGA_RED);
  _ ← kprint (nl_lit "[EXCEPTION] ");
  msg ← lift (exception_messages !! Z.to_nat (f_int_no r));
  _ ← kprint (lit msg);
  _ ← kprint (lit " (err=");
  _ ← kprint_hex (f_err_code r);
  _ ← kprint (lit " eip=");
  _ ← kprint_hex (f_eip r);
  _ ← (if f_int_no r =? 14 then _ ← kprint (lit " cr2="); kprint_hex cr2 else mret tt);
  _ ← kprint [41; 10; 0];
  set_color (VGA_COLOR VGA_LIGHT_GREY VGA_BLACK).

(** ** The timer *)

Definition PIT_FREQ : Z := 1193182.
Definition PIT_CMD : Z := 67.
Definition PIT_CH0 : Z := 64.

Variables (a_timer_callback a_keyboard_callback : Z).

(** Dividing by zero traps. *)
Definition init_timer (freq_hz : Z) : M (HW * intr) unit :=
  if freq_hz =? 0 then fault
  else
    let divisor := PIT_FREQ / freq_hz in
    _ ← zoom fst_lens (outb PIT_CMD 54);
    _ ← zoom fst_lens (outb PIT_CH0 (u8 (Z.land divisor 255)));
    _ ← zoom fst_lens (outb PIT_CH0 (u8 (Z.land (Z.shiftr divisor 8) 255)));
    zoom snd_lens (register_interrupt_handler (Z.to_nat IRQ0) a_timer_callback).

Definition init_keyboard : M (HW * intr) unit :=
  zoom snd_lens (register_interrupt_handler (Z.to_nat IRQ1) a_keyboard_callback).

(** The tick counter, beside a world in which [sched] enters the scheduler. *)
Definition timer_callback {W A} (sched : M W A) : M (W * Z) A :=
  _ ← modify (λ s, (s.1, u32 (s.2 + 1)));
  zoom fst_lens sched.
Definition timer_ticks {W} : M (W * Z) Z := gets snd.
End install.

(** ** The processor's reading of a gate *)

Definition g_offset (g : idt_gate_t) : Z := low_offset g + 65536 * high_offset g.
Definition g_dpl (g : idt_gate_t) : Z := Z.land (Z.shiftr (flags g) 5) 3.
(** Present, a 32-bit interrupt gate, through the kernel's code segment. *)
Definition g_live (g : idt_gate_t) : bool :=
  Z.testbit (flags g) 7 && (Z.land (flags g) 31 =? 14) && (selector g =? KERNEL_CS).

(** [leads_to s v a dpl]: vector [v] enters the code at [a] and can be raised
    by software down to ring [dpl]. *)
Definition leads_to (s : intr) (v a dpl : Z) : Prop :=
  ∃ g, idt s !! Z.to_nat v = Some g ∧ g_live g = true ∧ g_offset g = a ∧ g_dpl g = dpl.

Lemma offset_split a x y z : 0 ≤ a < 4294967296 →
  g_offset (IdtGate (u16 (Z.land a 65535)) x y z (u16 (Z.land (Z.shiftr a 16) 65535))) = a.
Proof.
  intros Ha. unfold g_offset, u16. cbn [low_offset high_offset]. change 65535 with (Z.ones 16).
  rewrite !Z.land_ones, Z.shiftr_div_pow2 by lia. change (2 ^ 16) with 65536. Z.div_mod_to_equations. lia.
Qed.

Definition isr_gate (a : Z) : idt_gate_t :=
  IdtGate (u16 (Z.land a 65535)) KERNEL_CS 0 142 (u16 (Z.land (Z.shiftr a 16) 65535)).

Lemma set_gates_run n v base f s : (v + n ≤ length (idt s))%nat →
  ∃ s', set_gates n v base f s = Some (tt, s') ∧ length (idt s') = length (idt s) ∧
    interrupt_handlers s' = interrupt_handlers s ∧
    ∀ k, idt s' !! k = if decide (v ≤ k < v + n)%nat then Some (isr_gate (f (Z.of_nat k - base))) else idt s !! k.
Proof.
  revert v s. induction n as [|n IH]; intros v s Hn; cbn [set_gates].
  { exists s. do 3 (split; [done|]). intros k. by rewrite decide_False by lia. }
  set (s1 := Intr (<[v := isr_gate (f (Z.of_nat v - base))]> (idt s)) (idt_reg s) (idtr s) (interrupt_handlers s)).
  assert (set_idt_gate v (f (Z.of_nat v - base)) s = Some (tt, s1)) as E.
  { unfold set_idt_gate. by rewrite (proj2 (Nat.ltb_lt v (length (idt s)))) by lia. }
  rewrite (M_bind_run _ _ _ _ _ E). destruct (IH (S v) s1) as (s' & E' & Hl & Hh & Hk).
  { subst s1. cbn [idt]. rewrite length_insert. lia. }
  exists s'. split; [done|]. subst s1. cbn [idt interrupt_handlers] in *. rewrite length_insert in Hl. do 2 (split; [done|]).
  intros k. rewrite Hk. destruct (decide (k = v)) as [->|].
  - rewrite decide_False, decide_True, list_lookup_insert_eq by lia. done.
  - rewrite list_lookup_insert_ne by done. destruct (decide (S v ≤ k < S v + n)%nat); [by rewrite decide_True by lia|by rewrite decide_False by lia].
Qed.

(** Run a sequence of port writes. *)
Ltac run_outb := repeat match goal with
  | |- context [(outb ?p ?v ≫= _) ?h] =>
      let h' := fresh "h" in let E := fresh "E" in let D := fresh "D" in
      destruct (pc_outb_spec h p v) as (h' & E & D); rewrite (M_bind_run _ _ _ _ _ E); clear E
  end.

Section theorems.
Context {HW : Type} {PW : Ports HW} {PC : PcPorts HW}.

(** Both controllers in operation, with their vectors out of the way of the
    exceptions, cascaded through line 2, with nothing masked. *)
Definition remapped (d : pc) : pc :=
  Pc (com1 d) (vga_ctl d) (Pic 0 32 4 1 0 (eois (pic1 d))) (Pic 0 40 2 1 0 (eois (pic2 d))) (timer0 d).

Lemma pic_remap_run (h : HW) : ∃ h', pic_remap h = Some (tt, h') ∧ pc_of h' = remapped (pc_of h).
Proof.
  unfold pic_remap, io_wait. run_outb.
  match goal with |- ∃ h', outb ?p ?v ?h = _ ∧ _ => destruct (pc_outb_spec h p v) as (h' & E & D') end.
  exists h'. split; [done|]. repeat match goal with D : pc_of _ = _ |- _ => rewrite D; clear D end.
  by destruct (pc_of h) as [u k [] [] t].
Qed.

Lemma isr_install_run a_idt isr irq isr128 (h : HW) s : length (idt s) = IDT_ENTRIES →
  ∃ h' s', isr_install a_idt isr irq isr128 (h, s) = Some (tt, (h', s')) ∧ pc_of h' = remapped (pc_of h) ∧
    interrupt_handlers s' = interrupt_handlers s ∧ idtr s' = IdtReg 2047 a_idt ∧
    ∀ k, idt s' !! k = if decide (k < 32)%nat then Some (isr_gate (isr (Z.of_nat k)))
                       else if decide (k < 48)%nat then Some (isr_gate (irq (Z.of_nat k - 32)))
                       else if decide (k = 128)%nat
                       then Some (IdtGate (u16 (Z.land isr128 65535)) KERNEL_CS 0 238 (u16 (Z.land (Z.shiftr isr128 16) 65535)))
                       else idt s !! k.
Proof.
  intros Hl. unfold IDT_ENTRIES in Hl. unfold isr_install.
  destruct (set_gates_run 32 0 0 isr s ltac:(lia)) as (s1 & E1 & L1 & I1 & K1).
  rewrite (M_bind_run _ _ _ _ _ (zoom_run snd_lens _ (h, s) _ _ E1)). cbn [update snd_lens fst].
  destruct (pic_remap_run h) as (h1 & E2 & D2).
  rewrite (M_bind_run _ _ _ _ _ (zoom_run fst_lens _ (h, s1) _ _ E2)). cbn [update fst_lens snd].
  destruct (set_gates_run 16 32 32 irq s1 ltac:(lia)) as (s2 & E3 & L3 & I3 & K3).
  rewrite (M_bind_run _ _ _ _ _ (zoom_run snd_lens _ (h1, s1) _ _ E3)). cbn [update snd_lens fst].
  set (g := IdtGate _ KERNEL_CS 0 238 _).
  assert (set_idt_gate_dpl 128 isr128 3 s2 = Some (tt, Intr (<[128%nat := g]> (idt s2)) (idt_reg s2) (idtr s2) (interrupt_handlers s2))) as E4.
  { unfold set_idt_gate_dpl. by rewrite (proj2 (Nat.ltb_lt 128 (length (idt s2)))) by lia. }
  rewrite (M_bind_run _ _ _ _ _ (zoom_run snd_lens _ (h1, s2) _ _ E4)).
  eexists h1, _. split; [reflexivity|]. split; [done|]. cbn [interrupt_handlers idtr idt_reg idt update snd_lens snd view].
  split; [congruence|]. split; [done|]. intros k.
  destruct (decide (k = 128%nat)) as [->|Hk].
  { by rewrite list_lookup_insert_eq by lia. }
  rewrite list_lookup_insert_ne, K3, K1, Z.sub_0_r by done.
  destruct (decide (k < 32)%nat); [by rewrite decide_False, decide_True by lia|].
  destruct (decide (k < 48)%nat); [by rewrite decide_True by lia|].
  by rewrite decide_False, decide_False by lia.
Qed.

Lemma irq_handler_run (h : HW) s r hd : interrupt_handlers s !! Z.to_nat (f_int_no r) = Some hd →
  ∃ h', irq_handler r (h, s) = Some (if truth hd then Some hd else None, (h', s)) ∧
    pc_of h' = Pc (com1 (pc_of h)) (vga_ctl (pc_of h)) (pic_command (pic1 (pc_of h)) 32)
                 (if 40 <=? f_int_no r then pic_command (pic2 (pc_of h)) 32 else pic2 (pc_of h)) (timer0 (pc_of h)).
Proof.
  intros Hh. unfold irq_handler.
  assert (∃ h1, (if 40 <=? f_int_no r then zoom fst_lens (outb 160 32) else mret tt) (h, s) = Some (tt, (h1, s)) ∧
    pc_of h1 = Pc (com1 (pc_of h)) (vga_ctl (pc_of h)) (pic1 (pc_of h))
                 (if 40 <=? f_int_no r then pic_command (pic2 (pc_of h)) 32 else pic2 (pc_of h)) (timer0 (pc_of h))) as (h1 & E1 & D1).
  { destruct (40 <=? f_int_no r).
    - destruct (pc_outb_spec h 160 32) as (h1 & E & D). exists h1. split; [by rewrite (zoom_run fst_lens _ (h, s) _ _ E)|].
      rewrite D. by destruct (pc_of h).
    - exists h. split; [done|]. by destruct (pc_of h). }
  rewrite (M_bind_run _ _ _ _ _ E1). destruct (pc_outb_spec h1 32 32) as (h2 & E2 & D2).
  rewrite (M_bind_run _ _ _ _ _ (zoom_run fst_lens _ (h1, s) _ _ E2)). cbn [update fst_lens snd].
  assert (handler_of (f_int_no r) s = Some (hd, s)) as E3 by (unfold handler_of; by rewrite Hh).
  rewrite (M_bind_run _ _ _ _ _ (zoom_run snd_lens _ (h2, s) _ _ E3)).
  exists h2. split; [done|]. rewrite D2, D1. done.
Qed.
End theorems.

(** ** Properties *)

(** What the processor finds in the table after [isr_install]. *)
Definition vectors_ready (a_idt : Z) (isr irq : Z → Z) (isr128 : Z) (s : intr) : Prop :=
  idtr s = IdtReg 2047 a_idt ∧ (∀ k, 0 ≤ k < 32 → leads_to s k (isr k) 0) ∧
  (∀ k, 0 ≤ k < 16 → leads_to s (32 + k) (irq k) 0) ∧ leads_to s 128 isr128 3.

Lemma isr_install_ready {HW} {PW : Ports HW} {PC : PcPorts HW} a_idt isr irq isr128 (h : HW) s : length (idt s) = IDT_ENTRIES →
  (∀ k, 0 ≤ isr k < 4294967296) → (∀ k, 0 ≤ irq k < 4294967296) → 0 ≤ isr128 < 4294967296 →
  ∃ h' s', isr_install a_idt isr irq isr128 (h, s) = Some (tt, (h', s')) ∧ pc_of h' = remapped (pc_of h) ∧
    interrupt_handlers s' = interrupt_handlers s ∧ vectors_ready a_idt isr irq isr128 s'.
Proof.
  intros Hlen Hisr Hirq Hsys. destruct (isr_install_run a_idt isr irq isr128 h s Hlen) as (h' & s' & E & D & Hh & HR & K).
  exists h', s'. split; [done|]. split; [done|]. split; [done|]. split; [done|]. unfold leads_to. split; [|split].
  - intros k Hk. rewrite K, decide_True by lia. eexists. split; [done|]. rewrite Z2Nat.id by lia. split; [done|]. split; [|done]. apply offset_split, Hisr.
  - intros k Hk. rewrite K, decide_False, decide_True by lia. eexists. split; [done|]. rewrite Z2Nat.id by lia.
    replace (32 + k - 32) with k by lia. split; [done|]. split; [|done]. apply offset_split, Hirq.
  - rewrite K, decide_False, decide_False, decide_True by lia. eexists. split; [done|]. split; [done|]. split; [|done]. by apply offset_split.
Qed.

Definition trap (n err eip : Z) : registers_t := Registers 16 0 0 0 0 0 0 0 0 n err eip 8 514 0 0.
Definition sim_intr : intr :=
  Intr (replicate 256 (IdtGate 0 0 0 0 0)) (IdtReg 0 0) (IdtReg 0 0) (replicate 256 0).

(** After [isr_install] every exception vector leads to its stub, every line
    of the two interrupt controllers raises a vector, as they are programmed,
    that leads to the stub of that line and is none of the exception vectors,
    and vector 0x80 alone is open to ring 3; the processor has the table. *)
Theorem isr_install_vectors {HW} {PW : Ports HW} {PC : PcPorts HW} a_idt isr irq isr128 (h : HW) s
    (Hlen : length (idt s) = IDT_ENTRIES) (Hisr : ∀ k, 0 ≤ isr k < 4294967296)
    (Hirq : ∀ k, 0 ≤ irq k < 4294967296) (Hsys : 0 ≤ isr128 < 4294967296) :
  ∃ h' s', isr_install a_idt isr irq isr128 (h, s) = Some (tt, (h', s')) ∧ idtr s' = IdtReg 2047 a_idt ∧
    (∀ k, 0 ≤ k < 32 → leads_to s' k (isr k) 0) ∧
    (∀ k, 0 ≤ k < 8 → leads_to s' (vbase (pic1 (pc_of h')) + k) (irq k) 0 ∧ 32 ≤ vbase (pic1 (pc_of h')) + k) ∧
    (∀ k, 0 ≤ k < 8 → leads_to s' (vbase (pic2 (pc_of h')) + k) (irq (8 + k)) 0 ∧ 32 ≤ vbase (pic2 (pc_of h')) + k) ∧
    leads_to s' 128 isr128 3 ∧
    icw (pic1 (pc_of h')) = 0 ∧ icw (pic2 (pc_of h')) = 0 ∧ mask (pic1 (pc_of h')) = 0 ∧ mask (pic2 (pc_of h')) = 0.
Proof.
  destruct (isr_install_ready a_idt isr irq isr128 h s Hlen Hisr Hirq Hsys) as (h' & s' & E & D & _ & HR & K & Kirq & K128).
  exists h', s'. split; [done|]. split; [done|]. rewrite D. cbn [vbase pic1 pic2 remapped icw mask].
  split; [done|]. split; [|split; [|by split_and!]]; intros k Hk.
  - split; [apply Kirq|]; lia.
  - split; [|lia]. replace (40 + k) with (32 + (8 + k)) by lia. apply Kirq. lia.
Qed.

Lemma isr_install_vectors_witness :
  ∃ h' s', isr_install 1000 (λ k, 5000 + 10 * (k `mod` 256)) (λ k, 9000 + 10 * (k `mod` 16)) 12000 (SimPc pc_reset [], sim_intr) = Some (tt, (h', s')) ∧
    idtr s' = IdtReg 2047 1000 ∧ leads_to s' 14 5140 0 ∧ leads_to s' (vbase (pic2 (pc_of h')) + 6) 9140 0 ∧ leads_to s' 128 12000 3.
Proof.
  destruct (isr_install_vectors (PC := sim_pc_spec) 1000 (λ k, 5000 + 10 * (k `mod` 256)) (λ k, 9000 + 10 * (k `mod` 16)) 12000 (SimPc pc_reset []) sim_intr)
    as (h' & s' & E & R & A & _ & B & C & _).
  - reflexivity.
  - intros k. pose proof (Z.mod_pos_bound k 256). lia.
  - intros k. pose proof (Z.mod_pos_bound k 16). lia.
  - lia.
  - exists h', s'. split; [exact E|]. split; [exact R|]. split; [apply (A 14); lia|]. split; [apply (B 6); lia|exact C].
Defined.

(** A hardware interrupt is acknowledged at the controllers it came through,
    once each (the second one only for lines 8 to 15), before the handler that
    was registered for it, and no other, is called. *)
Theorem irq_acknowledged {HW} {PW : Ports HW} {PC : PcPorts HW} (h : HW) s r hd
    (Hline : 32 ≤ f_int_no r < 48) (Hlen : length (interrupt_handlers s) = 256%nat) (Hhd : hd ≠ 0) :
  ∃ s1 h', register_interrupt_handler (Z.to_nat (f_int_no r)) hd s = Some (tt, s1) ∧
    irq_handler r (h, s1) = Some (Some hd, (h', s1)) ∧
    eois (pic1 (pc_of h')) = eois (pic1 (pc_of h)) + 1 ∧
    eois (pic2 (pc_of h')) = eois (pic2 (pc_of h)) + (if 40 <=? f_int_no r then 1 else 0).
Proof.
  set (s1 := Intr (idt s) (idt_reg s) (idtr s) (<[Z.to_nat (f_int_no r) := hd]> (interrupt_handlers s))).
  destruct (irq_handler_run h s1 r hd) as (h' & E & D).
  { subst s1. cbn [interrupt_handlers]. apply list_lookup_insert_eq. lia. }
  exists s1, h'. split; [|split; [|rewrite D; cbn [pic1 pic2]; split]].
  - unfold register_interrupt_handler. by rewrite (proj2 (Nat.ltb_lt (Z.to_nat (f_int_no r)) _)) by lia.
  - by rewrite (proj2 (truth_true hd) Hhd) in E.
  - done.
  - destruct (40 <=? f_int_no r); cbn; lia.
Qed.

Lemma irq_acknowledged_witness :
  ∃ s1 h', register_interrupt_handler 33 77 sim_intr = Some (tt, s1) ∧
    irq_handler (trap 33 0 0) (SimPc pc_reset [], s1) = Some (Some 77, (h', s1)) ∧
    eois (pic1 (pc_of h')) = 1 ∧ eois (pic2 (pc_of h')) = 0.
Proof.
  apply (irq_acknowledged (PC := sim_pc_spec) (SimPc pc_reset []) sim_intr (trap 33 0 0) 77).
  - cbn. lia.
  - reflexivity.
  - discriminate.
Defined.

Lemma register_run n cb (i : intr) : (n < 256)%nat → length (interrupt_handlers i) = 256%nat →
  register_interrupt_handler n cb i = Some (tt, Intr (idt i) (idt_reg i) (idtr i) (<[n := cb]> (interrupt_handlers i))).
Proof. intros Hn Hl. unfold register_interrupt_handler. by rewrite (proj2 (Nat.ltb_lt n _)) by lia. Qed.

Lemma init_timer_run {HW} {PW : Ports HW} {PC : PcPorts HW} a_cb (h : HW) s freq : 0 < freq → length (interrupt_handlers s) = 256%nat →
  ∃ h' t, init_timer a_cb freq (h, s) = Some (tt, (h', Intr (idt s) (idt_reg s) (idtr s) (<[32%nat := a_cb]> (interrupt_handlers s)))) ∧
    pc_of h' = Pc (com1 (pc_of h)) (vga_ctl (pc_of h)) (pic1 (pc_of h)) (pic2 (pc_of h)) t ∧
    pit_mode t = 3 ∧ reload t = (PIT_FREQ / freq) `mod` 65536.
Proof.
  intros Hfreq Hlen. unfold init_timer. destruct (Z.eqb_spec freq 0); [lia|]. cbn zeta. set (d := PIT_FREQ / freq).
  destruct (pc_outb_spec h PIT_CMD 54) as (h1 & E1 & D1).
  rewrite (M_bind_run _ _ _ _ _ (zoom_run fst_lens _ (h, s) _ _ E1)). cbn [update fst_lens snd].
  destruct (pc_outb_spec h1 PIT_CH0 (u8 (Z.land d 255))) as (h2 & E2 & D2).
  rewrite (M_bind_run _ _ _ _ _ (zoom_run fst_lens _ (h1, s) _ _ E2)). cbn [update fst_lens snd].
  destruct (pc_outb_spec h2 PIT_CH0 (u8 (Z.land (Z.shiftr d 8) 255))) as (h3 & E3 & D3).
  rewrite (M_bind_run _ _ _ _ _ (zoom_run fst_lens _ (h2, s) _ _ E3)). cbn [update fst_lens snd].
  exists h3, (pit_data (pit_data (pit_command (timer0 (pc_of h)) 54) (u8 (Z.land d 255))) (u8 (Z.land (Z.shiftr d 8) 255))).
  split; [apply (zoom_run snd_lens _ (h3, s)); apply register_run; [by apply Nat.ltb_lt|done]|].
  rewrite D3, D2, D1. destruct (pc_of h) as [u k p1 p2 t]. split; [reflexivity|]. split; [done|]. unfold u8.
  change 255 with (Z.ones 8). rewrite !Z.land_ones, Z.shiftr_div_pow2 by lia. change (2 ^ 8) with 256.
  unfold pit_command, pit_data. cbn [pit_low reload]. change (Z.shiftr 54 6 =? 0) with true. cbn iota. cbn [pit_low reload].
  clearbody d. Z.div_mod_to_equations. lia.
Qed.

(** [init_timer] programs the rate it is asked for: channel 0 in mode 3 with
    the divisor of the clock, cut to the 16 bits the counter has, and the
    timer handler is registered for line 0. *)
Theorem init_timer_rate {HW} {PW : Ports HW} {PC : PcPorts HW} a_cb (h : HW) s freq
    (Hfreq : 0 < freq) (Hlen : length (interrupt_handlers s) = 256%nat) :
  ∃ h' s', init_timer a_cb freq (h, s) = Some (tt, (h', s')) ∧
    pit_mode (timer0 (pc_of h')) = 3 ∧ reload (timer0 (pc_of h')) = (PIT_FREQ / freq) `mod` 65536 ∧
    interrupt_handlers s' = <[32%nat := a_cb]> (interrupt_handlers s).
Proof.
  destruct (init_timer_run a_cb h s freq Hfreq Hlen) as (h' & t & E & D & Hm & Hr). eexists h', _. split; [exact E|]. by rewrite D.
Qed.

(** The rate the kernel asks for. *)
Lemma init_timer_rate_witness :
  ∃ h' s', init_timer 55 100 (SimPc pc_reset [], sim_intr) = Some (tt, (h', s')) ∧
    pit_mode (timer0 (pc_of h')) = 3 ∧ reload (timer0 (pc_of h')) = 11931 ∧
    interrupt_handlers s' = <[32%nat := 55]> (interrupt_handlers sim_intr).
Proof.
  apply (init_timer_rate (PC := sim_pc_spec) 55 (SimPc pc_reset []) sim_intr 100).
  - lia.
  - reflexivity.
Defined.

(** An exception is reported in full before the processor halts: its name,
    the error code and the instruction pointer in hexadecimal, for a page
    fault the faulting address too, on the screen and on the serial line. *)
Theorem exception_report {HW} {PW : Ports HW} {PC : PcPorts HW} (t : console HW) r cr2
    (Hinv : console_inv t) (Hno : 0 ≤ f_int_no r < 32) (Herr : 0 ≤ f_err_code r < 4294967296)
    (Heip : 0 ≤ f_eip r < 4294967296) (Hcr2 : 0 ≤ cr2 < 4294967296) :
  ∃ t' msg e i c, isr_handler r cr2 t = Some (tt, t') ∧ console_inv t' ∧
    exception_messages !! Z.to_nat (f_int_no r) = Some msg ∧
    utoa (f_err_code r) 16 = Some (e ++ [0]) ∧ utoa (f_eip r) 16 = Some (i ++ [0]) ∧ utoa cr2 16 = Some (c ++ [0]) ∧
    sent (com1 (pc_of t'.1)) = sent (com1 (pc_of t.1)) ++
      cstr (nl_lit "[EXCEPTION] ") ++ cstr (lit msg) ++ cstr (lit " (err=0x") ++ e ++ cstr (lit " eip=0x") ++ i ++
      (if f_int_no r =? 14 then cstr (lit " cr2=0x") ++ c else []) ++ [41; 10].
Proof.
  destruct (lookup_lt_is_Some_2 exception_messages (Z.to_nat (f_int_no r))) as [msg Emsg]; [cbn; lia|].
  destruct (utoa_text _ 16 Herr) as (e & Ee & _); [lia|]. destruct (utoa_text _ 16 Heip) as (i & Ei & _); [lia|].
  destruct (utoa_text _ 16 Hcr2) as (c & Ec & _); [lia|].
  assert (says (isr_handler (HW := HW) r cr2) (cstr (nl_lit "[EXCEPTION] ") ++ cstr (lit msg) ++ cstr (lit " (err=0x") ++ e ++
    cstr (lit " eip=0x") ++ i ++ (if f_int_no r =? 14 then cstr (lit " cr2=0x") ++ c else []) ++ [41; 10])) as Hsays.
  { unfold isr_handler. rewrite <-(app_nil_l (_ ++ _)). apply says_bind; [apply says_set_color|intros _].
    apply says_bind; [apply says_nl_lit|intros _]. rewrite Emsg. apply says_lift.
    apply says_bind; [apply says_lit|intros _].
    change (cstr (lit " (err=0x")) with (cstr (lit " (err=") ++ [48; 120]). rewrite <-app_assoc.
    apply says_bind; [apply says_lit|intros _]. rewrite app_assoc.
    apply says_bind; [by apply says_hex|intros _].
    change (cstr (lit " eip=0x")) with (cstr (lit " eip=") ++ [48; 120]). rewrite <-app_assoc.
    apply says_bind; [apply says_lit|intros _]. rewrite app_assoc.
    apply says_bind; [by apply says_hex|intros _]. apply says_bind; [|intros _].
    - destruct (f_int_no r =? 14); [|apply says_ret].
      change (cstr (lit " cr2=0x")) with (cstr (lit " cr2=") ++ [48; 120]). rewrite <-app_assoc.
      apply says_bind; [apply says_lit|intros _]. by apply says_hex.
    - rewrite <-(app_nil_r [41; 10]). apply says_bind; [apply (says_kprint [41; 10] []); by repeat constructor|intros _].
      apply says_set_color. }
  destruct (Hsays t Hinv) as ([] & t' & E & I & S). exists t', msg, e, i, c. split; [done|]. split; [done|]. do 4 (split; [done|]).
  done.
Qed.

Lemma exception_report_witness :
  ∃ t' msg e i c, isr_handler (trap 14 2 1048576) 57005 low_console = Some (tt, t') ∧ console_inv t' ∧
    exception_messages !! 14%nat = Some msg ∧
    utoa 2 16 = Some (e ++ [0]) ∧ utoa 1048576 16 = Some (i ++ [0]) ∧ utoa 57005 16 = Some (c ++ [0]) ∧
    sent (com1 (pc_of t'.1)) = [] ++
      cstr (nl_lit "[EXCEPTION] ") ++ cstr (lit msg) ++ cstr (lit " (err=0x") ++ e ++ cstr (lit " eip=0x") ++ i ++
      (cstr (lit " cr2=0x") ++ c) ++ [41; 10].
Proof.
  apply (exception_report (PC := sim_pc_spec) low_console (trap 14 2 1048576) 57005).
  - exact low_console_inv.
  - cbn. lia.
  - cbn. lia.
  - cbn. lia.
  - lia.
Defined.
