(* ===== verification/Green.v ===== *)
(** * Green threads (kernel/green.c, kernel/green.h)

    State: the heap (interface [Allocator]), the fiber structures by address,
    stacks and registers (file Cpu), the variables of green.c, and the state
    [W] the fibers work on.  Switching is the assembly routine of file Cpu, on
    the stacks [gt_spawn] prepares.

    The code of a fiber is a [fiber]: what it does up to its next [gt_yield],
    how it leaves registers and stack there, and how it goes on.  Which code
    runs after a switch is decided by the program counter the switch popped:
    the trampoline, or the instruction after the call in [gt_yield]. *)

From S2P Require Import Prelude Kheap Alloc Cpu.

Definition GT_STACK_SIZE : Z := 4096.
Definition SIZEOF_GTHREAD : Z := 20.

Definition GT_READY : Z := 0.
Definition GT_RUNNING : Z := 1.
Definition GT_DEAD : Z := 2.

(** [gthread_t]; [esp] is its first field. *)
Record gthread_t := Gthread { gt_esp : Z; gt_stack : Z; gt_state : Z; gt_entry : Z; gt_next : Z }.
Definition set_gt_esp (t : gthread_t) v := Gthread v (gt_stack t) (gt_state t) (gt_entry t) (gt_next t).
Definition set_gt_state (t : gthread_t) v := Gthread (gt_esp t) (gt_stack t) v (gt_entry t) (gt_next t).
Definition set_gt_next (t : gthread_t) v := Gthread (gt_esp t) (gt_stack t) (gt_state t) (gt_entry t) v.

(** The callee-saved registers, and the words on the fiber's stack, lowest
    address first, when it calls [gt_yield]. *)
Record use := Use { u_ebx : Z; u_esi : Z; u_edi : Z; u_ebp : Z; u_stack : list Z }.

#[warnings="-automation"]
Inductive fiber (W : Type) : Type :=
| Exit
| Slice (run : M W (use * fiber W)).
Arguments Exit {W}. Arguments Slice {W}.

Record green (H W : Type) := Green {
  g_heap : H; threads : gmap Z gthread_t; g_mach : machine;
  g_ring : Z; g_current : Z; g_sched_esp : Z;
  g_conts : gmap Z (fiber W); g_world : W }.
Arguments Green {H W}. Arguments g_heap {H W}. Arguments threads {H W}. Arguments g_mach {H W}.
Arguments g_ring {H W}. Arguments g_current {H W}. Arguments g_sched_esp {H W}. Arguments g_conts {H W}. Arguments g_world {H W}.

Section green.
Context {H W : Type} {AH : Allocator H}.
Abbreviation S := (green H W).

(** Code addresses: [gt_trampoline], and the instructions after the calls of
    [context_switch] in [gt_yield] and in [gt_run]; the address of
    [g_sched_esp]; and the functions fibers are started with. *)
Variables a_trampoline a_yielded a_back a_sched_esp : Z.
Variable text : Z → option (fiber W).

Definition heap_lens : lens S H := Lens g_heap (λ h s,
  Green h (threads s) (g_mach s) (g_ring s) (g_current s) (g_sched_esp s) (g_conts s) (g_world s)).
Definition mach_lens : lens S machine := Lens g_mach (λ m s,
  Green (g_heap s) (threads s) m (g_ring s) (g_current s) (g_sched_esp s) (g_conts s) (g_world s)).
Definition world_lens : lens S W := Lens g_world (λ w s,
  Green (g_heap s) (threads s) (g_mach s) (g_ring s) (g_current s) (g_sched_esp s) (g_conts s) w).

Definition set_threads (f : gmap Z gthread_t → gmap Z gthread_t) : M S unit := modify (λ s,
  Green (g_heap s) (f (threads s)) (g_mach s) (g_ring s) (g_current s) (g_sched_esp s) (g_conts s) (g_world s)).
Definition set_ring (v : Z) : M S unit := modify (λ s,
  Green (g_heap s) (threads s) (g_mach s) v (g_current s) (g_sched_esp s) (g_conts s) (g_world s)).
Definition set_gcurrent (v : Z) : M S unit := modify (λ s,
  Green (g_heap s) (threads s) (g_mach s) (g_ring s) v (g_sched_esp s) (g_conts s) (g_world s)).
Definition set_sched_esp (v : Z) : M S unit := modify (λ s,
  Green (g_heap s) (threads s) (g_mach s) (g_ring s) (g_current s) v (g_conts s) (g_world s)).
Definition set_cont (p : Z) (k : fiber W) : M S unit := modify (λ s,
  Green (g_heap s) (threads s) (g_mach s) (g_ring s) (g_current s) (g_sched_esp s) (<[p := k]> (g_conts s)) (g_world s)).
Definition ld_thread (p : Z) : M S gthread_t := λ s, (λ t, (t, s)) <$> (threads s !! p).
Definition upd_thread (p : Z) (f : gthread_t → gthread_t) : M S unit := t ← ld_thread p; set_threads <[p := f t]>.

(** The word [context_switch] stores to: [g_sched_esp] or the first field of a
    fiber. *)
Definition store_esp (p v : Z) : M S unit :=
  if p =? a_sched_esp then set_sched_esp v else upd_thread p (λ t, set_gt_esp t v).

Definition gt_init : M S unit := _ ← set_ring 0; set_gcurrent 0.

Definition gt_spawn (fn : Z) : M S Z :=
  t ← zoom heap_lens (a_malloc SIZEOF_GTHREAD);
  if negb (truth t) then mret (-1)
  else
    sb ← zoom heap_lens (a_malloc GT_STACK_SIZE);
    if negb (truth sb) then _ ← zoom heap_lens (a_free t); mret (-1)
    else
      let sp := u32 (sb + GT_STACK_SIZE) in
      _ ← zoom mach_lens (st_word (u32 (sp - 4)) a_trampoline);
      _ ← zoom mach_lens (st_word (u32 (sp - 8)) 0);
      _ ← zoom mach_lens (st_word (u32 (sp - 12)) 0);
      _ ← zoom mach_lens (st_word (u32 (sp - 16)) 0);
      _ ← zoom mach_lens (st_word (u32 (sp - 20)) 0);
      ring ← gets g_ring;
      if negb (truth ring) then
        _ ← set_threads <[t := Gthread (u32 (sp - 20)) sb GT_READY fn t]>;
        _ ← set_ring t;
        mret 0
      else
        r ← ld_thread ring;
        _ ← set_threads <[t := Gthread (u32 (sp - 20)) sb GT_READY fn (gt_next r)]>;
        _ ← upd_thread ring (λ r, set_gt_next r t);
        mret 0.

Definition gt_yield : M S unit :=
  c ← gets g_current;
  e ← gets g_sched_esp;
  context_switch mach_lens store_esp a_yielded c e.

(** [do { ... } while (t != start)] *)
Fixpoint pick_loop (n : nat) (start t : Z) : M S Z :=
  match n with
  | O => fault
  | Datatypes.S n' =>
      th ← ld_thread t;
      if gt_state th =? GT_READY then _ ← set_ring (gt_next th); mret t
      else if gt_next th =? start then mret 0 else pick_loop n' start (gt_next th)
  end.
Definition pick_next : M S Z :=
  start ← gets g_ring;
  if negb (truth start) then mret 0
  else n ← gets (λ s, base.size (threads s)); pick_loop n start start.

(** A freed structure is not there any more. *)
Fixpoint free_loop (n : nat) (t : Z) : M S unit :=
  match n with
  | O => fault
  | Datatypes.S n' =>
      th ← ld_thread t;
      _ ← zoom heap_lens (a_free (gt_stack th));
      _ ← zoom heap_lens (a_free t);
      _ ← set_threads (delete t);
      r ← gets g_ring;
      if gt_next th =? r then mret tt else free_loop n' (gt_next th)
  end.
Definition free_all : M S unit :=
  r ← gets g_ring;
  if negb (truth r) then mret tt
  else
    n ← gets (λ s, base.size (threads s));
    _ ← free_loop n r;
    _ ← set_ring 0;
    set_gcurrent 0.

(** ** What runs between two switches *)

(** The fiber has used its stack and its registers. *)
Definition leave (top : Z) (u : use) : M machine unit := modify (λ m,
  let e := top - 4 * Z.of_nat (length (u_stack u)) in
  (poke e (u_stack u) m.1, Cpu (u_ebx u) (u_esi u) (u_edi u) (u_ebp u) e (r_eip m.2) (r_if m.2))).

(** Where the program counter leads: [gt_trampoline] calls the function of the
    fiber, [gt_yield] returns to its caller. *)
Definition code_at (ip c : Z) : M S (fiber W) :=
  if ip =? a_trampoline then t ← ld_thread c; lift (text (gt_entry t))
  else if ip =? a_yielded then ks ← gets g_conts; lift (ks !! c)
  else fault.

(** The end of [gt_trampoline]. *)
Definition gt_finish : M S unit :=
  c ← gets g_current;
  _ ← upd_thread c (λ t, set_gt_state t GT_DEAD);
  gt_yield.

(** The current fiber, until it gives up the processor. *)
Definition fiber_turn : M S unit :=
  m ← gets g_mach;
  c ← gets g_current;
  f ← code_at (r_eip m.2) c;
  match f with
  | Exit => gt_finish
  | Slice run =>
      r ← zoom world_lens run;
      t ← ld_thread c;
      _ ← zoom mach_lens (leave (gt_stack t + GT_STACK_SIZE) r.1);
      match r.2 with
      | Exit => gt_finish
      | k => _ ← set_cont c k; gt_yield
      end
  end.

(** The caller removes the arguments of the call. *)
Definition drop_args : M machine unit := e ← get_sp; set_sp (u32 (e + 8)).

Fixpoint run_loop (n : nat) : M S unit :=
  match n with
  | O => fault
  | Datatypes.S n' =>
      next ← pick_next;
      if negb (truth next) then mret tt
      else
        _ ← set_gcurrent next;
        _ ← upd_thread next (λ t, set_gt_state t GT_RUNNING);
        t ← ld_thread next;
        _ ← context_switch mach_lens store_esp a_back a_sched_esp (gt_esp t);
        _ ← fiber_turn;
        m ← gets g_mach;
        if negb (r_eip m.2 =? a_back) then fault
        else
          _ ← zoom mach_lens drop_args;
          c ← gets g_current;
          t ← ld_thread c;
          _ ← (if gt_state t =? GT_RUNNING then upd_thread c (λ t, set_gt_state t GT_READY) else mret tt);
          run_loop n'
  end.

Definition gt_run (n : nat) : M S unit := _ ← run_loop n; free_all.
End green.
