(* ===== verification/GreenSpec.v ===== *)
(** * What the green threads promise

    [round_robin] is the specification: a queue of fibers, the first one runs
    up to its next yield and goes to the end of the queue, or leaves it when
    it returns.  The theorems: [gt_run] does just that on the machine, always
    ends when every fiber does, gives every block back to the heap and comes
    back with its caller's registers; [gt_spawn] adds one fiber or fails
    without a trace. *)

From S2P Require Import Prelude Kheap Alloc Cpu Green.

(** A fiber leaves some room on its stack. *)
Definition fits (u : use) : Prop := (length (u_stack u) ≤ 1000)%nat.
#[export] Instance fits_dec u : Decision (fits u).
Proof. unfold fits. apply _. Defined.

Fixpoint round_robin {W} (n : nat) (q : list (fiber W)) : M W unit :=
  match q, n with
  | [], _ => mret tt
  | _, O => fault
  | Exit :: q, S n' => round_robin n' q
  | Slice run :: q, S n' =>
      r ← run;
      if decide (fits r.1) then round_robin n' (match r.2 with Exit => q | k => q ++ [k] end) else fault
  end.

(** ** The ring *)

(** The addresses of [l] are linked in order, the last one to [z]. *)
Fixpoint linked (nx : Z → option Z) (l : list Z) (z : Z) : Prop :=
  match l with [] => True | a :: l' => nx a = Some (hd z l') ∧ linked nx l' z end.

Lemma linked_ext nx nx' l z : (∀ a, a ∈ l → nx a = nx' a) → linked nx l z → linked nx' l z.
Proof.
  induction l as [|a l IH]; intros Hx; [done|]. intros [Ha Hl]. split; [rewrite <-Hx by set_solver; done|].
  apply IH; [set_solver|done].
Qed.
Lemma linked_app nx l1 l2 z : linked nx (l1 ++ l2) z ↔ linked nx l1 (hd z l2) ∧ linked nx l2 z.
Proof.
  induction l1 as [|a l1 IH]; cbn [app linked]; [naive_solver|]. rewrite IH.
  destruct l1; naive_solver.
Qed.
(** A ring can be read from any of its members on. *)
Lemma linked_rotate nx a l1 l2 : linked nx (l1 ++ a :: l2) (hd a l1) → linked nx (l2 ++ l1 ++ [a]) (hd a (l2 ++ l1)).
Proof.
  rewrite !linked_app. intros [H1 [H2 H3]]. destruct l1 as [|b l1]; cbn [app hd] in *.
  - rewrite app_nil_r. split; [done|]. split; [done|]. by split.
  - split; [|split].
    + destruct l2; done.
    + exact H1.
    + cbn. split; [|done]. rewrite H2. destruct l2; done.
Qed.

(** The first element an [omap] keeps. *)
Lemma omap_split {A B} (f : A → option B) l b q : omap f l = b :: q →
  ∃ d a l2, l = d ++ a :: l2 ∧ (∀ x, x ∈ d → f x = None) ∧ f a = Some b ∧ omap f l2 = q.
Proof.
  induction l as [|x l IH]; [done|]. cbn. destruct (f x) as [y|] eqn:E.
  - intros [= <- <-]. exists [], x, l. split; [done|]. split; [set_solver|done].
  - intros Ho. destruct (IH Ho) as (d & a & l2 & -> & Hd & Ha & Hq). exists (x :: d), a, l2.
    split; [done|]. split; [|done]. intros y. rewrite elem_of_cons. intros [->|?]; auto.
Qed.
Lemma omap_nil {A B} (f : A → option B) l : omap f l = [] → ∀ x, x ∈ l → f x = None.
Proof.
  induction l as [|x l IH]; [set_solver|]. cbn. destruct (f x) as [y|] eqn:E; [done|].
  intros Ho y. rewrite elem_of_cons. intros [->|?]; auto.
Qed.

Lemma omap_ext_in {A B} (f g : A → option B) (l : list A) : (∀ x, x ∈ l → f x = g x) → omap f l = omap g l.
Proof.
  induction l as [|x l IH]; intros Hx; [done|]. cbn. rewrite IH, (Hx x) by set_solver. done.
Qed.

Lemma foldr_delete_comm {A} a l (m : gmap Z A) : foldr delete (delete a m) l = delete a (foldr delete m l).
Proof. induction l as [|b l IH]; cbn [foldr]; [done|]. by rewrite IH, delete_delete. Qed.

Section spec.
Context {H W : Type} {AH : Allocator H} {AS : AllocatorSpec H}.
Variables a_trampoline a_yielded a_back a_sched_esp : Z.
Variable text : Z → option (fiber W).
Abbreviation S := (green H W).
Implicit Types (s : S) (l : list Z) (t : gthread_t) (live : gmap Z Z).

Definition next_of s (a : Z) : option Z := gt_next <$> threads s !! a.

(** The code a waiting fiber goes on with. *)
Definition prog_of s (a : Z) : option (fiber W) :=
  t ← threads s !! a;
  if gt_state t =? GT_READY then
    ip ← (g_mach s).1 !! (gt_esp t + 16);
    if ip =? a_trampoline then text (gt_entry t) else if ip =? a_yielded then g_conts s !! a else None
  else None.

(** Its five words lie on its own stack, with some room below. *)
Definition gwaiting s (t : gthread_t) : Prop :=
  gt_stack t + 8 ≤ gt_esp t ∧ gt_esp t + 20 ≤ gt_stack t + GT_STACK_SIZE ∧
  ∃ bp di si bx ip, resumes (g_mach s).1 (gt_esp t) bp di si bx ip.

Definition gowns live (a : Z) (t : gthread_t) : Prop :=
  live !! a = Some SIZEOF_GTHREAD ∧ live !! gt_stack t = Some GT_STACK_SIZE ∧ a ≠ gt_stack t.

(** Between two turns; [l] is the ring from [g_ring] on. *)
Record green_ok s l live : Prop := {
  go_nodup : NoDup l;
  go_ring : g_ring s = hd 0 l;
  go_links : linked (next_of s) l (hd 0 l);
  go_dom : ∀ a, is_Some (threads s !! a) ↔ a ∈ l;
  go_heap : a_inv (g_heap s) live;
  go_owns : ∀ a t, threads s !! a = Some t → gowns live a t;
  go_apart : ∀ a b ta tb, threads s !! a = Some ta → threads s !! b = Some tb → a ≠ b →
    gt_stack ta ≠ gt_stack tb ∧ a ≠ gt_stack tb;
  go_state : ∀ a t, threads s !! a = Some t →
    gt_state t = GT_DEAD ∨ gt_state t = GT_READY ∧ gwaiting s t ∧ is_Some (prog_of s a);
}.

(** The queue the ring stands for. *)
Definition queue s l : list (fiber W) := omap (prog_of s) l.

(** The stack of the caller of [gt_run] lies below the heap. *)
Definition carrier_ok s : Prop := 28 ≤ r_esp (g_mach s).2 ≤ HEAP_START.

#[local] Instance mach_lens_laws : LensLaws (mach_lens (H := H) (W := W)).
Proof. split; [by intros [] []|by intros [] [] []|by intros []]. Qed.

Lemma ld_thread_run s a t : threads s !! a = Some t → ld_thread a s = Some (t, s).
Proof. intros Ht. unfold ld_thread. by rewrite Ht. Qed.

(** [s] with the structure at [a] replaced. *)
Definition with_thread s (a : Z) (t : gthread_t) : S :=
  Green (g_heap s) (<[a := t]> (threads s)) (g_mach s) (g_ring s) (g_current s) (g_sched_esp s) (g_conts s) (g_world s).
Lemma upd_thread_run s a t f : threads s !! a = Some t → upd_thread a f s = Some (tt, with_thread s a (f t)).
Proof. intros Ht. unfold upd_thread. by rewrite (M_bind_run _ _ _ _ _ (ld_thread_run s a t Ht)). Qed.

(** ** Picking *)

Lemma prog_of_dead s a t : threads s !! a = Some t → gt_state t = GT_DEAD → prog_of s a = None.
Proof. intros Ht Hd. unfold prog_of. rewrite Ht. cbn. by rewrite Hd. Qed.

Lemma pick_loop_run s live d a l2 t z n : green_ok s (g_ring s :: z) live → 
  (∀ b, b ∈ d → prog_of s b = None ∧ b ∈ g_ring s :: z) → threads s !! a = Some t → is_Some (prog_of s a) →
  linked (next_of s) (d ++ [a]) (hd (g_ring s) l2) → a ∉ d → (∀ b, b ∈ tail (d ++ [a]) → b ≠ g_ring s) → (length d < n)%nat →
  pick_loop n (g_ring s) (hd a d) s =
    Some (a, Green (g_heap s) (threads s) (g_mach s) (gt_next t) (g_current s) (g_sched_esp s) (g_conts s) (g_world s)).
Proof.
  intros Hok Hd Ht Hp. revert d Hd. induction n as [|n IH]; intros d Hd Hl Ha Hne Hn; [lia|].
  destruct d as [|b d]; cbn [pick_loop hd].
  - rewrite (M_bind_run _ _ _ _ _ (ld_thread_run s a t Ht)).
    destruct (go_state _ _ _ Hok a t Ht) as [Hs|[Hs _]].
    { rewrite (prog_of_dead s a t Ht Hs) in Hp. by destruct Hp. }
    rewrite Hs. done.
  - destruct (Hd b) as [Hb Hbin]; [left|]. apply (go_dom _ _ _ Hok) in Hbin as [tb Htb].
    rewrite (M_bind_run _ _ _ _ _ (ld_thread_run s b tb Htb)).
    destruct (go_state _ _ _ Hok b tb Htb) as [Hs|(_ & _ & Hs)]; [|rewrite Hb in Hs; by destruct Hs].
    rewrite Hs. cbn [Z.eqb GT_DEAD GT_READY]. cbn [app linked] in Hl. destruct Hl as [Hb' Hl].
    unfold next_of in Hb'. rewrite Htb in Hb'. injection Hb' as Hb'. rewrite Hb'.
    assert (hd (hd (g_ring s) l2) (d ++ [a]) = hd a d) as -> by (by destruct d).
    destruct (Z.eqb_spec (hd a d) (g_ring s)) as [E|_].
    { destruct (Hne (hd a d)); [|done]. cbn [app tail]. destruct d; set_solver. }
    apply IH; [set_solver|done|set_solver| |simpl in Hn; lia].
    intros c Hc. apply Hne. cbn [app tail]. destruct d; set_solver.
Qed.

Lemma pick_loop_none s live l z n : green_ok s (g_ring s :: z) live →
  (∀ b, b ∈ l → prog_of s b = None ∧ b ∈ g_ring s :: z) → l ≠ [] → linked (next_of s) l (g_ring s) →
  (∀ b, b ∈ tail l → b ≠ g_ring s) → (length l ≤ n)%nat → pick_loop n (g_ring s) (hd 0 l) s = Some (0, s).
Proof.
  intros Hok Hd. revert n. induction l as [|b l IH]; intros n Hnil Hl Hne Hn; [done|].
  destruct n as [|n]; [simpl in Hn; lia|]. cbn [pick_loop hd].
  destruct (Hd b) as [Hb Hbin]; [left|]. apply (go_dom _ _ _ Hok) in Hbin as [tb Htb].
  rewrite (M_bind_run _ _ _ _ _ (ld_thread_run s b tb Htb)).
  destruct (go_state _ _ _ Hok b tb Htb) as [Hs|(_ & _ & Hs)]; [|rewrite Hb in Hs; by destruct Hs].
  rewrite Hs. cbn [Z.eqb GT_DEAD GT_READY]. destruct Hl as [Hb' Hl].
  unfold next_of in Hb'. rewrite Htb in Hb'. injection Hb' as Hb'. rewrite Hb'.
  destruct l as [|c l]; cbn [hd]; [by rewrite Z.eqb_refl|].
  rewrite (proj2 (Z.eqb_neq c (g_ring s))) by (apply Hne; left).
  apply IH; [set_solver|done|done| |simpl in *; lia]. intros x Hx. apply Hne. by right.
Qed.

Lemma threads_size s l live : green_ok s l live → base.size (threads s) = length l.
Proof.
  intros Hok. rewrite <-size_dom. rewrite <-(size_list_to_set l (C := gset Z)) by apply (go_nodup _ _ _ Hok).
  f_equal. apply set_eq. intros a. rewrite elem_of_dom, elem_of_list_to_set. apply (go_dom _ _ _ Hok).
Qed.

Lemma ring_pos s l live a : green_ok s l live → a ∈ l → HEAP_START < a.
Proof.
  intros Hok [t Ht]%(go_dom _ _ _ Hok). destruct (go_owns _ _ _ Hok a t Ht) as [Ho _].
  by destruct (a_held _ _ _ _ (go_heap _ _ _ Hok) Ho).
Qed.

Definition with_ring s (r : Z) : S :=
  Green (g_heap s) (threads s) (g_mach s) r (g_current s) (g_sched_esp s) (g_conts s) (g_world s).

Lemma pick_next_none s l live : green_ok s l live → queue s l = [] → pick_next s = Some (0, s).
Proof.
  intros Hok Hq. unfold pick_next. rewrite bind_gets, (go_ring _ _ _ Hok). destruct l as [|r l]; [done|]. cbn [hd].
  assert (truth r = true) as ->.
  { apply truth_true. pose proof (ring_pos _ _ _ r Hok ltac:(left)). unfold HEAP_START in *. lia. }
  cbn [negb]. rewrite bind_gets, (threads_size _ _ _ Hok). pose proof (go_ring _ _ _ Hok) as Hr. cbn [hd] in Hr.
  pose proof (pick_loop_none s live (r :: l) l (length (r :: l))) as Hp. rewrite Hr in Hp. cbn [hd] in Hp.
  apply Hp; try done.
  - intros b Hb. split; [by apply (omap_nil _ _ Hq)|done].
  - apply (go_links _ _ _ Hok).
  - intros b Hb ->. pose proof (go_nodup _ _ _ Hok) as Hn. by apply NoDup_cons in Hn as [? _].
Qed.

Lemma pick_next_first s l live f q : green_ok s l live → queue s l = f :: q →
  ∃ d a l2 t, l = d ++ a :: l2 ∧ (∀ x, x ∈ d → prog_of s x = None) ∧ prog_of s a = Some f ∧ queue s l2 = q ∧
    threads s !! a = Some t ∧ gt_next t = hd a (l2 ++ d) ∧ pick_next s = Some (a, with_ring s (gt_next t)).
Proof.
  intros Hok (d & a & l2 & -> & Hd & Ha & Hq)%omap_split.
  assert (a ∈ d ++ a :: l2) as Hin by set_solver. apply (go_dom _ _ _ Hok) in Hin as [t Ht].
  exists d, a, l2, t. do 5 (split; [done|]).
  pose proof (go_links _ _ _ Hok) as Hl. rewrite linked_app in Hl. destruct Hl as [Hl1 [Hl2 _]].
  assert (gt_next t = hd a (l2 ++ d)) as Hnx.
  { unfold next_of in Hl2. rewrite Ht in Hl2. injection Hl2 as ->. by destruct l2, d. }
  split; [done|]. unfold pick_next. rewrite bind_gets.
  pose proof (go_ring _ _ _ Hok) as Hr. pose proof (go_nodup _ _ _ Hok) as Hnd.
  assert (hd 0 (d ++ a :: l2) = hd a d) as Eh by (by destruct d). rewrite Eh in Hr.
  assert (∃ z, d ++ a :: l2 = g_ring s :: z) as [z Ez].
  { rewrite Hr. destruct d; simpl; eauto. }
  assert (truth (g_ring s) = true) as ->.
  { apply truth_true. pose proof (ring_pos _ _ _ (g_ring s) Hok ltac:(rewrite Ez; left)). unfold HEAP_START in *. lia. }
  cbn [negb]. rewrite bind_gets, (threads_size _ _ _ Hok). rewrite Hr at 2.
  rewrite (pick_loop_run s live d a l2 t z); [done| | |done|by eauto| | | |].
  - rewrite <-Ez. done.
  - intros b Hb. rewrite <-Ez. split; [by apply Hd|set_solver].
  - rewrite linked_app. cbn [linked hd]. split; [done|]. split; [|done]. rewrite Hl2. f_equal.
    rewrite Hr. destruct l2; [by destruct d|done].
  - apply NoDup_app in Hnd as (_ & Hx & _). intros Hb. apply (Hx a Hb). left.
  - intros b Hb ->. rewrite Hr in Hb. destruct d as [|b d]; cbn [app tail hd] in Hb; [set_solver|].
    cbn [app] in Hnd. apply NoDup_cons in Hnd as [Hn _]. set_solver.
  - rewrite length_app. simpl. lia.
Qed.

(** ** Switching *)

Section runs.
(** The variable of the scheduler lies outside the heap, and the places where a
    fiber can start are two. *)
Hypothesis Hvar : a_sched_esp ≤ HEAP_START.
Hypothesis Hcode : a_trampoline ≠ a_yielded.

(** Into the fiber [t]. *)
Lemma switch_in_run s t bp di si bx ip : let m := g_mach s in let E := r_esp m.2 in
  28 ≤ E < 4294967296 → 0 ≤ gt_esp t < 4294967276 → gt_esp t + 20 ≤ E - 28 ∨ E ≤ gt_esp t →
  resumes m.1 (gt_esp t) bp di si bx ip →
  context_switch mach_lens (store_esp a_sched_esp) a_back a_sched_esp (gt_esp t) s =
    Some (tt, Green (g_heap s) (threads s)
      (poke (E - 28) (frame m.2 a_back a_sched_esp (gt_esp t)) m.1, Cpu bx si di bp (gt_esp t + 20) ip (r_if m.2))
      (g_ring s) (g_current s) (E - 28) (g_conts s) (g_world s)).
Proof.
  intros m E HE Hn Hdis Hw.
  set (stored := λ (_ v : Z) s, Green (g_heap s) (threads s) (g_mach s) (g_ring s) (g_current s) v (g_conts s) (g_world s)).
  rewrite (context_switch_run mach_lens (store_esp a_sched_esp) stored (λ _ _ _, eq_refl) a_back s a_sched_esp (gt_esp t) bp di si bx ip HE Hn Hdis Hw).
  - reflexivity.
  - cbv zeta. unfold store_esp. by rewrite Z.eqb_refl.
Qed.

(** Out of the fiber [c], back to the scheduler. *)
Lemma gt_yield_run s t bp di si bx ip : let c := g_current s in let m := g_mach s in let e := r_esp m.2 in let E := g_sched_esp s in
  threads s !! c = Some t → c ≠ a_sched_esp →
  28 ≤ e < 4294967296 → 0 ≤ E < 4294967276 → E + 20 ≤ e - 28 ∨ e ≤ E → resumes m.1 E bp di si bx ip →
  gt_yield a_yielded a_sched_esp s =
    Some (tt, Green (g_heap s) (<[c := set_gt_esp t (e - 28)]> (threads s))
      (poke (e - 28) (frame m.2 a_yielded c E) m.1, Cpu bx si di bp (E + 20) ip (r_if m.2))
      (g_ring s) c E (g_conts s) (g_world s)).
Proof.
  intros c m e E Ht Hc He HE Hdis Hw. unfold gt_yield. rewrite !bind_gets.
  set (stored := λ (p v : Z) s, with_thread s p (set_gt_esp t v)).
  refine (eq_trans (context_switch_run mach_lens (store_esp a_sched_esp) stored (λ _ _ _, eq_refl) a_yielded s c E bp di si bx ip He HE Hdis Hw _) _);
    [|reflexivity].
  - cbv zeta. unfold store_esp. rewrite (proj2 (Z.eqb_neq c a_sched_esp)) by done.
    exact (upd_thread_run (update mach_lens (poke (e - 28) (frame m.2 a_yielded c E) m.1, sp m.2 (e - 28)) s) c t _ Ht).
Qed.

(** The fiber at [a] has had its turn: [st] is its state, [Wf] the stack words,
    [K] the continuations and [w] the world it left. *)
Definition turned s (a : Z) (t : gthread_t) (e st : Z) (Wf : gmap Z Z) (K : gmap Z (fiber W)) (w : W) : S :=
  let R := (g_mach s).2 in
  Green (g_heap s) (<[a := Gthread e (gt_stack t) st (gt_entry t) (gt_next t)]> (threads s))
    (Wf, Cpu (r_ebx R) (r_esi R) (r_edi R) (r_ebp R) (r_esp R) a_back (r_if R))
    (gt_next t) a (r_esp R - 28) K w.

(** Stores went only to the stack of [t] and below the heap. *)
Definition kept (W0 Wf : gmap Z Z) (t : gthread_t) : Prop :=
  ∀ p, HEAP_START < p → p < gt_stack t ∨ gt_stack t + GT_STACK_SIZE ≤ p → Wf !! p = W0 !! p.

Lemma prog_of_turned s l live a b t e st Wf K w : green_ok s l live → threads s !! a = Some t → a ≠ b →
  kept (g_mach s).1 Wf t → (∀ c, c ≠ a → K !! c = g_conts s !! c) →
  prog_of (turned s a t e st Wf K w) b = prog_of s b.
Proof.
  intros Hok Ht Hne Hk HK. unfold prog_of. cbn [threads turned g_mach g_conts fst]. rewrite lookup_insert_ne by done.
  destruct (threads s !! b) as [tb|] eqn:Hb; [|done]. cbn [mbind option_bind]. 
  destruct (go_state _ _ _ Hok b tb Hb) as [->|(Hs & (Hlo & Hhi & _) & _)]; [done|]. rewrite Hs. cbn [Z.eqb GT_READY].
  rewrite HK by done. destruct (go_owns _ _ _ Hok b tb Hb) as (_ & Ob & _), (go_owns _ _ _ Hok a t Ht) as (_ & Oa & _).
  pose proof (a_held _ _ _ _ (go_heap _ _ _ Hok) Ob) as [? _].
  destruct (go_apart _ _ _ Hok a b t tb Ht Hb Hne) as [Hst _].
  pose proof (a_apart _ _ _ _ _ _ (go_heap _ _ _ Hok) Oa Ob Hst).
  by rewrite Hk by lia.
Qed.

Lemma turned_ok s d a l2 live t e st Wf K w : green_ok s (d ++ a :: l2) live → threads s !! a = Some t →
  gt_next t = hd a (l2 ++ d) → kept (g_mach s).1 Wf t → (∀ c, c ≠ a → K !! c = g_conts s !! c) →
  (let s' := turned s a t e st Wf K w in st = GT_DEAD ∨
     st = GT_READY ∧ gwaiting s' (Gthread e (gt_stack t) st (gt_entry t) (gt_next t)) ∧ is_Some (prog_of s' a)) →
  green_ok (turned s a t e st Wf K w) (l2 ++ d ++ [a]) live.
Proof.
  intros Hok Ht Hnx Hk HK Hst. set (s' := turned s a t e st Wf K w) in *.
  assert (l2 ++ d ++ [a] ≡ₚ d ++ a :: l2) as HP.
  { rewrite (Permutation_app_comm d [a]), Permutation_app_comm. cbn [app]. rewrite Permutation_app_comm. by rewrite <-Permutation_middle, Permutation_app_comm. }
  assert (∀ b, next_of s' b = next_of s b) as Hno.
  { intros b. unfold next_of. cbn [threads turned s']. destruct (decide (a = b)) as [<-|]; [|by rewrite lookup_insert_ne].
    by rewrite lookup_insert_eq, Ht. }
  assert (∀ b tb', threads s' !! b = Some tb' → ∃ tb, threads s !! b = Some tb ∧ gt_stack tb' = gt_stack tb ∧ (b ≠ a → tb' = tb)) as Hold.
  { intros b tb'. cbn [threads turned s']. destruct (decide (a = b)) as [<-|].
    - rewrite lookup_insert_eq. intros [= <-]. by exists t.
    - rewrite lookup_insert_ne by done. intros Hb. by exists tb'. }
  split.
  - rewrite HP. apply (go_nodup _ _ _ Hok).
  - cbn [g_ring turned s']. rewrite Hnx. by destruct l2, d.
  - apply (linked_ext (next_of s)); [done|].
    replace (hd 0 (l2 ++ d ++ [a])) with (hd a (l2 ++ d)) by (by destruct l2, d).
    apply linked_rotate. replace (hd a d) with (hd 0 (d ++ a :: l2)) by (by destruct d). apply (go_links _ _ _ Hok).
  - intros b. rewrite HP, <-(go_dom _ _ _ Hok). cbn [threads turned s']. destruct (decide (a = b)) as [<-|].
    + rewrite lookup_insert_eq, Ht. split; eauto.
    + by rewrite lookup_insert_ne.
  - exact (go_heap _ _ _ Hok).
  - intros b tb' (tb & Hb & Es & _)%Hold. unfold gowns. rewrite Es. by apply (go_owns _ _ _ Hok).
  - intros b c tb' tc' (tb & Hb & Es & _)%Hold (tc & Hc & Es' & _)%Hold. rewrite Es, Es'. by apply (go_apart _ _ _ Hok).
  - intros b tb' Hb. destruct (decide (b = a)) as [->|Hne].
    + cbn [threads turned s'] in Hb. rewrite lookup_insert_eq in Hb. injection Hb as <-. exact Hst.
    + destruct (Hold b tb' Hb) as (tb & Hb0 & _ & E). rewrite (E Hne) in *.
      destruct (go_state _ _ _ Hok b tb Hb0) as [?|(Hs & (Hlo & Hhi & bp & di & si & bx & ip & Hw) & Hp)]; [by left|right].
      split; [done|]. unfold s'. rewrite (prog_of_turned s _ live) by done. split; [|done].
      split; [done|]. split; [done|]. exists bp, di, si, bx, ip. cbn [g_mach turned fst].
      destruct (go_owns _ _ _ Hok b tb Hb0) as (_ & Ob & _), (go_owns _ _ _ Hok a t Ht) as (_ & Oa & _).
      pose proof (a_held _ _ _ _ (go_heap _ _ _ Hok) Ob) as [? _].
      destruct (go_apart _ _ _ Hok b a tb t Hb0 Ht Hne) as [Hstk _].
      pose proof (a_apart _ _ _ _ _ _ (go_heap _ _ _ Hok) Ob Oa Hstk).
      intros i v Hi. pose proof (lookup_lt_Some _ _ _ Hi) as Hlt. cbn in Hlt. rewrite Hk by lia. by apply Hw.
Qed.

(** ** A turn *)

(** The state in which the fiber at [a] gets control, and [s] when it has given
    it back with stack pointer [e], state [st0], words [Wf]. *)
Definition entered s (a : Z) (t : gthread_t) (W1 : gmap Z Z) (R1 : cpu) : S :=
  Green (g_heap s) (<[a := set_gt_state t GT_RUNNING]> (threads s)) (W1, R1) (gt_next t) a (r_esp (g_mach s).2 - 28) (g_conts s) (g_world s).
Definition returned s (a : Z) (t : gthread_t) (e st0 : Z) (Wf : gmap Z Z) (K : gmap Z (fiber W)) (w : W) : S :=
  let R := (g_mach s).2 in
  Green (g_heap s) (<[a := Gthread e (gt_stack t) st0 (gt_entry t) (gt_next t)]> (threads s))
    (Wf, Cpu (r_ebx R) (r_esi R) (r_edi R) (r_ebp R) (r_esp R - 8) a_back (r_if R))
    (gt_next t) a (r_esp R - 28) K w.

(** The scheduler's frame is where it was saved. *)
Definition carried s (Wf : gmap Z Z) : Prop := let R := (g_mach s).2 in
  resumes Wf (r_esp R - 28) (r_ebp R) (r_edi R) (r_esi R) (r_ebx R) a_back.

(** The fiber calls [gt_yield] with [m] as its machine. *)
Lemma give_back s a t (st : Z) m K w : carrier_ok s → HEAP_START < a → HEAP_START < gt_stack t →
  gt_stack t + GT_STACK_SIZE ≤ HEAP_END →
  gt_stack t + 28 ≤ r_esp m.2 ≤ gt_stack t + GT_STACK_SIZE → r_if m.2 = r_if (g_mach s).2 → carried s m.1 →
  gt_yield a_yielded a_sched_esp
    (Green (g_heap s) (<[a := set_gt_state t st]> (threads s)) m (gt_next t) a (r_esp (g_mach s).2 - 28) K w) =
  Some (tt, returned s a t (r_esp m.2 - 28) st (poke (r_esp m.2 - 28) (frame m.2 a_yielded a (r_esp (g_mach s).2 - 28)) m.1) K w).
Proof.
  intros HE Ha Hs Hs' He Hif Hc. red in HE. unfold HEAP_END, HEAP_START, HEAP_SIZE, GT_STACK_SIZE in *.
  rewrite (gt_yield_run _ (set_gt_state t st) (r_ebp (g_mach s).2) (r_edi (g_mach s).2) (r_esi (g_mach s).2) (r_ebx (g_mach s).2) a_back);
    cbn [g_heap threads g_mach g_ring g_current g_sched_esp g_conts g_world fst snd]; [|by rewrite lookup_insert_eq|lia..|exact Hc].
  rewrite insert_insert_eq. unfold returned. rewrite Hif. replace (r_esp (g_mach s).2 - 28 + 20) with (r_esp (g_mach s).2 - 8) by lia. done.
Qed.

(** The rest of the scheduler's loop body. *)
Lemma back_in_loop s a t e st0 Wf K w n : carrier_ok s →
  (m ← gets g_mach;
   if negb (r_eip m.2 =? a_back) then fault
   else
     _ ← zoom mach_lens drop_args;
     c ← gets g_current;
     t ← ld_thread c;
     _ ← (if gt_state t =? GT_RUNNING then upd_thread c (λ t, set_gt_state t GT_READY) else mret tt);
     run_loop a_trampoline a_yielded a_back a_sched_esp text n) (returned s a t e st0 Wf K w) =
  run_loop a_trampoline a_yielded a_back a_sched_esp text n
    (turned s a t e (if st0 =? GT_RUNNING then GT_READY else st0) Wf K w).
Proof.
  intros HE. red in HE. unfold HEAP_START in *. rewrite bind_gets. cbn [g_mach returned snd r_eip]. rewrite Z.eqb_refl. cbn [negb].
  set (s4 := turned s a t e st0 Wf K w).
  assert (zoom mach_lens drop_args (returned s a t e st0 Wf K w) = Some (tt, s4)) as E1.
  { unfold zoom, drop_args, get_sp. cbn [view mach_lens g_mach returned]. rewrite bind_gets. cbn [snd r_esp].
    rewrite (u32_small (r_esp (g_mach s).2 - 8 + 8)) by lia. unfold set_sp, modify, sp. cbn [fst snd update mach_lens].
    unfold s4, turned. by replace (r_esp (g_mach s).2 - 8 + 8) with (r_esp (g_mach s).2) by lia. }
  rewrite (M_bind_run _ _ _ _ _ E1), bind_gets. cbn [g_current turned s4].
  assert (threads s4 !! a = Some (Gthread e (gt_stack t) st0 (gt_entry t) (gt_next t))) as Ht by apply lookup_insert_eq.
  rewrite (M_bind_run _ _ _ _ _ (ld_thread_run s4 a _ Ht)). cbn [gt_state].
  destruct (st0 =? GT_RUNNING); [|by rewrite bind_ret].
  rewrite (M_bind_run _ _ _ _ _ (upd_thread_run s4 a _ _ Ht)). f_equal. unfold with_thread, s4, turned. cbn.
  by rewrite insert_insert_eq.
Qed.

(** How [f] fares on its turn: it goes on as [k] ([Exit]: it has ended) and
    leaves [w']. *)
Definition goes (f : fiber W) (w : W) (k : fiber W) (w' : W) : Prop :=
  match f with
  | Exit => k = Exit ∧ w' = w
  | Slice run => ∃ u, run w = Some ((u, k), w') ∧ fits u
  end.

Definition outcome s (a : Z) (t : gthread_t) (k : fiber W) (e st0 : Z) (Wf : gmap Z Z) (K : gmap Z (fiber W)) : Prop :=
  match k with
  | Exit => st0 = GT_DEAD ∧ K = g_conts s
  | _ => st0 = GT_RUNNING ∧ K = <[a := k]> (g_conts s) ∧ gt_stack t + 8 ≤ e ∧ e + 20 ≤ gt_stack t + GT_STACK_SIZE ∧
         ∃ bp di si bx, resumes Wf e bp di si bx a_yielded
  end.

Lemma kept_poke W0 W1 t e l : kept W0 W1 t → gt_stack t ≤ e → e + 4 * Z.of_nat (length l) ≤ gt_stack t + GT_STACK_SIZE →
  kept W0 (poke e l W1) t.
Proof. intros Hk Hlo Hhi p Hp Ho. rewrite poke_lookup_other by lia. by apply Hk. Qed.

Lemma carried_poke s W1 e l : carrier_ok s → carried s W1 → HEAP_START < e → carried s (poke e l W1).
Proof. intros HE Hc He. red in HE. apply resumes_poke; [done|]. lia. Qed.

(** The end of a turn, from a machine [m] on the fiber's own stack. *)
Lemma turn_ends s a t W1 m (k : fiber W) w' : carrier_ok s → HEAP_START < a → HEAP_START < gt_stack t →
  gt_stack t + GT_STACK_SIZE ≤ HEAP_END →
  gt_stack t + 28 ≤ r_esp m.2 ≤ gt_stack t + GT_STACK_SIZE → (k ≠ Exit → gt_stack t + 36 ≤ r_esp m.2) → r_if m.2 = r_if (g_mach s).2 → carried s m.1 → kept W1 m.1 t →
  ∃ e st0 Wf K, (match k with Exit => gt_finish a_yielded a_sched_esp | Slice run => _ ← set_cont a (Slice run); gt_yield a_yielded a_sched_esp end)
      (Green (g_heap s) (<[a := set_gt_state t GT_RUNNING]> (threads s)) m (gt_next t) a (r_esp (g_mach s).2 - 28) (g_conts s) w')
    = Some (tt, returned s a t e st0 Wf K w') ∧ kept W1 Wf t ∧ outcome s a t k e st0 Wf K.
Proof.
  intros Hc Ha Hs Hs' He Hroom Hif Hcar Hk. set (F := frame m.2 a_yielded a (r_esp (g_mach s).2 - 28)).
  assert (kept W1 (poke (r_esp m.2 - 28) F m.1) t) as Hk'.
  { apply kept_poke; [done|lia|]. cbn [length frame F]. lia. }
  destruct k as [|run].
  - exists (r_esp m.2 - 28), GT_DEAD, (poke (r_esp m.2 - 28) F m.1), (g_conts s). split; [|done].
    unfold gt_finish. rewrite bind_gets. cbn [g_current].
    rewrite (M_bind_run _ _ _ _ _ (upd_thread_run _ a (set_gt_state t GT_RUNNING) _ (lookup_insert_eq _ _ _))).
    unfold with_thread. cbn [g_heap threads g_mach g_ring g_current g_sched_esp g_conts g_world]. rewrite insert_insert_eq.
    apply (give_back s a t GT_DEAD m); done || lia.
  - exists (r_esp m.2 - 28), GT_RUNNING, (poke (r_esp m.2 - 28) F m.1), (<[a := Slice run]> (g_conts s)).
    split; [|split; [done|]].
    + unfold set_cont. rewrite bind_modify. cbn [g_heap threads g_mach g_ring g_current g_sched_esp g_conts g_world].
      apply (give_back s a t GT_RUNNING m); done || lia.
    + split; [done|]. split; [done|]. split; [specialize (Hroom ltac:(done)); lia|]. split; [lia|].
      exists (r_ebp m.2), (r_edi m.2), (r_esi m.2), (r_ebx m.2). intros i v Hi. apply poke_lookup.
      unfold F, frame. change ([?a; ?b; ?c; ?d; ?e; ?f; ?g]) with ([a; b; c; d; e] ++ [f; g]). by apply lookup_app_l_Some.
Qed.

Lemma fiber_turn_run s a t W1 R1 f k w' : carrier_ok s → HEAP_START < a → HEAP_START < gt_stack t →
  gt_stack t + GT_STACK_SIZE ≤ HEAP_END → gt_stack t + 28 ≤ r_esp R1 ≤ gt_stack t + GT_STACK_SIZE →
  r_if R1 = r_if (g_mach s).2 → carried s W1 →
  code_at a_trampoline a_yielded text (r_eip R1) a (entered s a t W1 R1) = Some (f, entered s a t W1 R1) →
  goes f (g_world s) k w' →
  ∃ e st0 Wf K, fiber_turn a_trampoline a_yielded a_sched_esp text (entered s a t W1 R1) = Some (tt, returned s a t e st0 Wf K w') ∧
    kept W1 Wf t ∧ outcome s a t k e st0 Wf K.
Proof.
  intros Hc Ha Hs Hs' He Hif Hcar Hf Hgo. unfold fiber_turn. rewrite !bind_gets. cbn [g_mach entered snd g_current].
  rewrite (M_bind_run _ _ _ _ _ Hf). destruct f as [|run].
  - destruct Hgo as [-> ->]. by apply (turn_ends s a t W1 (W1, R1) Exit).
  - destruct Hgo as (u & Hrun & Hfit).
    rewrite (M_bind_run _ _ _ _ _ (zoom_run world_lens run (entered s a t W1 R1) _ _ Hrun)).
    set (s2 := update world_lens w' (entered s a t W1 R1)).
    assert (threads s2 !! a = Some (set_gt_state t GT_RUNNING)) as Ht2 by apply lookup_insert_eq.
    rewrite (M_bind_run _ _ _ _ _ (ld_thread_run s2 a _ Ht2)). cbn [gt_stack set_gt_state fst snd].
    set (e := gt_stack t + GT_STACK_SIZE - 4 * Z.of_nat (length (u_stack u))).
    set (m := (poke e (u_stack u) W1, Cpu (u_ebx u) (u_esi u) (u_edi u) (u_ebp u) e (r_eip R1) (r_if R1))).
    assert (leave (gt_stack t + GT_STACK_SIZE) u (view mach_lens s2) = Some (tt, m)) as E2 by done.
    rewrite (M_bind_run _ _ _ _ _ (zoom_run mach_lens _ s2 _ _ E2)). unfold fits, GT_STACK_SIZE in *.
    apply (turn_ends s a t W1 m k w'); try done; cbn [fst snd r_esp m]; unfold e, GT_STACK_SIZE; try lia.
    + apply carried_poke; [done|done|lia].
    + apply kept_poke; [by intros p _ _|unfold GT_STACK_SIZE; lia..].
Qed.

(** What a turn leaves alone: the caller's registers and who owns which stack. *)
Definition same_carrier s s' : Prop :=
  let R := (g_mach s).2 in let R' := (g_mach s').2 in
  r_ebx R' = r_ebx R ∧ r_esi R' = r_esi R ∧ r_edi R' = r_edi R ∧ r_ebp R' = r_ebp R ∧ r_esp R' = r_esp R ∧ r_if R' = r_if R.
Definition same_stacks s s' : Prop := ∀ a, gt_stack <$> threads s' !! a = gt_stack <$> threads s !! a.

Lemma entered_code s a t W1 R1 f bp di si bx : threads s !! a = Some t → gt_state t = GT_READY →
  resumes (g_mach s).1 (gt_esp t) bp di si bx (r_eip R1) → prog_of s a = Some f →
  code_at a_trampoline a_yielded text (r_eip R1) a (entered s a t W1 R1) = Some (f, entered s a t W1 R1).
Proof.
  intros Ht Hst Hw. unfold prog_of, code_at. rewrite Ht. cbn [mbind option_bind]. rewrite Hst. cbn [Z.eqb GT_READY].
  pose proof (Hw 4%nat _ eq_refl) as Hip. change (4 * Z.of_nat 4) with 16 in Hip. rewrite Hip. cbn [mbind option_bind].
  destruct (r_eip R1 =? a_trampoline).
  - intros Hx. rewrite (M_bind_run _ _ _ _ _ (ld_thread_run (entered s a t W1 R1) a _ (lookup_insert_eq _ _ _))).
    unfold lift. cbn [gt_entry set_gt_state]. by rewrite Hx.
  - destruct (r_eip R1 =? a_yielded); [|done]. intros Hx. rewrite bind_gets. unfold lift. cbn [g_conts entered]. by rewrite Hx.
Qed.

Lemma outcome_prog s a t k e st0 Wf K w' : outcome s a t k e st0 Wf K →
  prog_of (turned s a t e (if st0 =? GT_RUNNING then GT_READY else st0) Wf K w') a = match k with Exit => None | Slice _ => Some k end.
Proof.
  intros Hout. unfold prog_of. cbn [threads turned]. rewrite lookup_insert_eq. cbn [mbind option_bind gt_state gt_esp]. destruct k as [|run].
  - destruct Hout as (-> & _). done.
  - destruct Hout as (-> & -> & _ & _ & bp & di & si & bx & Hw). change (GT_RUNNING =? GT_RUNNING) with true. cbn iota.
    change (GT_READY =? GT_READY) with true. cbn iota.
    pose proof (Hw 4%nat a_yielded eq_refl) as Hip. change (4 * Z.of_nat 4) with 16 in Hip. cbn [g_mach turned fst]. rewrite Hip.
    cbn [mbind option_bind]. rewrite (proj2 (Z.eqb_neq a_yielded a_trampoline)) by done. rewrite Z.eqb_refl. apply lookup_insert_eq.
Qed.

(** The fiber that had its turn goes to the end of the queue. *)
Lemma turned_queue s d a l2 live t e st Wf K w : green_ok s (d ++ a :: l2) live → threads s !! a = Some t →
  (∀ x, x ∈ d → prog_of s x = None) → kept (g_mach s).1 Wf t → (∀ c, c ≠ a → K !! c = g_conts s !! c) →
  let s' := turned s a t e st Wf K w in
  queue s' (l2 ++ d ++ [a]) = queue s l2 ++ match prog_of s' a with Some f => [f] | None => [] end.
Proof.
  intros Hok Ht Hd Hk HK s'. unfold queue. rewrite !omap_app.
  pose proof (go_nodup _ _ _ Hok) as Hnd. apply NoDup_app in Hnd as (Hnd & Hdis & [Hal _]%NoDup_cons).
  assert (∀ l, a ∉ l → omap (prog_of s') l = omap (prog_of s) l) as Hext.
  { intros l0 Hl0. apply omap_ext_in. intros b Hb. unfold s'. rewrite (prog_of_turned s _ live a b) by (done || set_solver). done. }
  assert (a ∉ d) as Had. { intros Hx. apply (Hdis a Hx). left. }
  rewrite !Hext by done.
  assert (omap (prog_of s) d = []) as ->.
  { clear -Hd. induction d as [|b d IH]; [done|]. cbn. rewrite Hd by left. apply IH. set_solver. }
  reflexivity.
Qed.

Lemma turn_run s l live f q k w' n : green_ok s l live → carrier_ok s → queue s l = f :: q → goes f (g_world s) k w' →
  ∃ s' l', run_loop a_trampoline a_yielded a_back a_sched_esp text (Datatypes.S n) s =
             run_loop a_trampoline a_yielded a_back a_sched_esp text n s' ∧
    green_ok s' l' live ∧ queue s' l' = q ++ (match k with Exit => [] | Slice _ => [k] end) ∧ g_world s' = w' ∧
    same_carrier s s' ∧ same_stacks s s' ∧ l' ≡ₚ l.
Proof.
  intros Hok Hcar Hq Hgo.
  destruct (pick_next_first s l live f q Hok Hq) as (d & a & l2 & t & -> & Hd & Hpa & Hq2 & Ht & Hnx & Hpick).
  assert (a ∈ d ++ a :: l2) as Hain by set_solver. pose proof (ring_pos _ _ _ a Hok Hain) as Ha.
  destruct (go_owns _ _ _ Hok a t Ht) as (_ & Oa & _). destruct (a_held _ _ _ _ (go_heap _ _ _ Hok) Oa) as [Hs Hs'].
  destruct (go_state _ _ _ Hok a t Ht) as [Hst|(Hst & (Hlo & Hhi & bp & di & si & bx & ip & Hw) & _)].
  { rewrite (prog_of_dead s a t Ht Hst) in Hpa. done. }
  cbn [run_loop]. rewrite (M_bind_run _ _ _ _ _ Hpick).
  assert (truth a = true) as -> by (apply truth_true; unfold HEAP_START in *; lia). cbn [negb].
  unfold set_gcurrent at 1. rewrite bind_modify. cbn [g_heap threads g_mach g_ring g_current g_sched_esp g_conts g_world with_ring].
  set (s1 := Green _ _ _ _ _ _ _ _).
  rewrite (M_bind_run _ _ _ _ _ (upd_thread_run s1 a t _ Ht)). unfold with_thread. cbn [g_heap threads g_mach g_ring g_current g_sched_esp g_conts g_world s1].
  set (s2 := Green _ _ _ _ _ _ _ _).
  assert (threads s2 !! a = Some (set_gt_state t GT_RUNNING)) as Ht2 by apply lookup_insert_eq.
  rewrite (M_bind_run _ _ _ _ _ (ld_thread_run s2 a _ Ht2)).
  pose proof Hcar as HE. red in HE. set (E := r_esp (g_mach s).2) in *. unfold HEAP_END, HEAP_SIZE, GT_STACK_SIZE in *.
  set (R1 := Cpu bx si di bp (gt_esp t + 20) ip (r_if (g_mach s).2)).
  set (W1 := poke (E - 28) (frame (g_mach s).2 a_back a_sched_esp (gt_esp t)) (g_mach s).1).
  assert (context_switch mach_lens (store_esp a_sched_esp) a_back a_sched_esp (gt_esp (set_gt_state t GT_RUNNING)) s2 =
    Some (tt, entered s a t W1 R1)) as E3.
  { rewrite (switch_in_run s2 (set_gt_state t GT_RUNNING) bp di si bx ip); cbn [g_mach s2 gt_esp set_gt_state]; fold E; unfold HEAP_START in *; [done|lia|lia|lia|done]. }
  rewrite (M_bind_run _ _ _ _ _ E3).
  assert (carried s W1) as Hc1.
  { intros i v Hi. apply poke_lookup. unfold frame. change ([?a; ?b; ?c; ?d; ?e; ?f; ?g]) with ([a; b; c; d; e] ++ [f; g]). by apply lookup_app_l_Some. }
  assert (kept (g_mach s).1 W1 t) as Hk1 by (intros p Hp _; apply poke_lookup_other; cbn [length frame]; lia).
  assert (code_at a_trampoline a_yielded text (r_eip R1) a (entered s a t W1 R1) = Some (f, entered s a t W1 R1)) as Hf.
  { by apply (entered_code s a t W1 R1 f bp di si bx). }
  destruct (fiber_turn_run s a t W1 R1 f k w' Hcar Ha Hs ltac:(done) ltac:(cbn [r_esp R1]; unfold GT_STACK_SIZE; lia) eq_refl Hc1 Hf Hgo)
    as (e & st0 & Wf & K & Erun & Hk2 & Hout).
  rewrite (M_bind_run _ _ _ _ _ Erun), (back_in_loop s a t e st0 Wf K w' n Hcar).
  set (st := if st0 =? GT_RUNNING then GT_READY else st0).
  assert (kept (g_mach s).1 Wf t) as Hk.
  { intros p Hp Ho. rewrite Hk2 by done. by apply Hk1. }
  assert (∀ c, c ≠ a → K !! c = g_conts s !! c) as HK.
  { intros c Hca. destruct k; [by destruct Hout as (_ & ->)|]. destruct Hout as (_ & -> & _). by rewrite lookup_insert_ne. }
  set (s' := turned s a t e st Wf K w').
  pose proof (outcome_prog s a t k e st0 Wf K w' Hout) as Hpa'. fold st s' in Hpa'.
  exists s', (l2 ++ d ++ [a]). split; [done|]. split; [|split; [|split; [done|split; [done|split]]]].
  - apply turned_ok; try done. destruct k as [|run]; [left; by destruct Hout as (-> & _)|right].
    destruct Hout as (-> & -> & Hlo' & Hhi' & bp' & di' & si' & bx' & Hw'). split; [done|]. split; [|fold s'; rewrite Hpa'; eauto].
    split; [done|]. split; [done|]. by exists bp', di', si', bx', a_yielded.
  - rewrite <-Hq2. unfold s'. rewrite (turned_queue s d a l2 live t) by done. fold s'. rewrite Hpa'. by destruct k.
  - intros b. cbn [threads turned s']. destruct (decide (a = b)) as [<-|]; [by rewrite lookup_insert_eq, Ht|by rewrite lookup_insert_ne].
  - rewrite (Permutation_app_comm d [a]), Permutation_app_comm. cbn [app]. rewrite (Permutation_app_comm d l2).
    rewrite (Permutation_middle l2 d a). rewrite Permutation_app_comm. cbn [app]. by rewrite Permutation_middle.
Qed.

Lemma same_carrier_trans s1 s2 s3 : same_carrier s1 s2 → same_carrier s2 s3 → same_carrier s1 s3.
Proof. unfold same_carrier. intuition congruence. Qed.
Lemma carrier_same s s' : same_carrier s s' → carrier_ok s → carrier_ok s'.
Proof. intros (_ & _ & _ & _ & E & _). unfold carrier_ok. by rewrite E. Qed.

(** The loop of [gt_run] is [round_robin]. *)
Lemma run_loop_run n s l live w' : green_ok s l live → carrier_ok s →
  round_robin n (queue s l) (g_world s) = Some (tt, w') →
  ∃ s' l', run_loop a_trampoline a_yielded a_back a_sched_esp text (Datatypes.S n) s = Some (tt, s') ∧
    green_ok s' l' live ∧ g_world s' = w' ∧ same_carrier s s' ∧ same_stacks s s' ∧ l' ≡ₚ l.
Proof.
  revert s l. induction n as [|n IH]; intros s l Hok Hcar Hrr.
  all: destruct (queue s l) as [|f q] eqn:Hq.
  1, 3: injection Hrr as <-; exists s, l; cbn [run_loop]; rewrite (M_bind_run _ _ _ _ _ (pick_next_none s l live Hok Hq)); split_and!; done.
  { by destruct f. }
  assert (∃ k w1, goes f (g_world s) k w1 ∧ round_robin n (q ++ match k with Exit => [] | Slice _ => [k] end) w1 = Some (tt, w')) as (k & w1 & Hgo & Hrr').
  { cbn [round_robin] in Hrr. destruct f as [|run].
    - exists Exit, (g_world s). by rewrite app_nil_r.
    - apply M_bind_Some in Hrr as ([u k] & w1 & Hrun & Hrr). cbn [fst snd] in Hrr. case_decide; [|done].
      exists k, w1. split; [by exists u|]. destruct k; [by rewrite app_nil_r|done]. }
  destruct (turn_run s l live f q k w1 (Datatypes.S n) Hok Hcar Hq Hgo) as (s1 & l1 & E1 & Hok1 & Hq1 & Hw1 & Hc1 & Hs1 & Hl1).
  rewrite <-Hq1, <-Hw1 in Hrr'. destruct (IH s1 l1 Hok1 (carrier_same _ _ Hc1 Hcar) Hrr') as (s2 & l2 & E2 & Hok2 & Hw2 & Hc2 & Hs2 & Hl2).
  exists s2, l2. rewrite E1. split; [done|]. split; [done|]. split; [done|]. split; [by eapply same_carrier_trans|].
  split; [|by rewrite Hl2]. intros b. by rewrite Hs2.
Qed.

(** ** Freeing *)

Definition stacks s l : list Z := omap (λ a, gt_stack <$> threads s !! a) l.
(** The heap blocks without those of the fibers of [l]. *)
Definition released s l live : gmap Z Z := filter (λ x : Z * Z, (x.1 ∉ l) ∧ (x.1 ∉ stacks s l)) live.

Lemma free_loop_run l s live n : NoDup l → l ≠ [] → linked (next_of s) l (g_ring s) →
  (∀ b, b ∈ tail l → b ≠ g_ring s) → a_inv (g_heap s) live →
  (∀ a, a ∈ l → ∃ t, threads s !! a = Some t ∧ gowns live a t) →
  (∀ a b ta tb, a ∈ l → b ∈ l → threads s !! a = Some ta → threads s !! b = Some tb → a ≠ b → gt_stack ta ≠ gt_stack tb ∧ a ≠ gt_stack tb) →
  (length l ≤ n)%nat →
  ∃ h, free_loop n (hd 0 l) s = Some (tt, Green h (foldr delete (threads s) l) (g_mach s) (g_ring s) (g_current s) (g_sched_esp s) (g_conts s) (g_world s)) ∧
    a_inv h (released s l live).
Proof.
  revert s live n. induction l as [|a l IH]; intros s live n Hnd Hne Hl Hr Hinv Hown Hsep Hn; [done|].
  destruct n as [|n]; [simpl in Hn; lia|]. apply NoDup_cons in Hnd as [Hal Hnd]. destruct Hl as [Hnx Hl].
  destruct (Hown a) as (t & Ht & Ha & Hs & Has); [left|]. cbn [free_loop hd].
  rewrite (M_bind_run _ _ _ _ _ (ld_thread_run s a t Ht)).
  destruct (a_free_spec _ _ _ _ Hinv Hs) as (h1 & E1 & Hi1).
  rewrite (M_bind_run _ _ _ _ _ (zoom_run heap_lens _ s _ _ E1)).
  destruct (a_free_spec h1 _ a SIZEOF_GTHREAD Hi1) as (h2 & E2 & Hi2); [by rewrite lookup_delete_ne|].
  rewrite (M_bind_run _ _ _ _ _ (zoom_run heap_lens _ (update heap_lens h1 s) _ _ E2)).
  unfold set_threads at 1. rewrite bind_modify, bind_gets. cbn [g_heap threads g_mach g_ring g_current g_sched_esp g_conts g_world update heap_lens].
  set (s1 := Green _ _ _ _ _ _ _ _). unfold next_of in Hnx. rewrite Ht in Hnx. injection Hnx as ->.
  assert (stacks s (a :: l) = gt_stack t :: stacks s l) as Est by (unfold stacks; cbn; by rewrite Ht).
  assert (∀ b, b ≠ a → threads s1 !! b = threads s !! b) as Hb1 by (intros b Hb; cbn [threads s1]; by rewrite lookup_delete_ne).
  assert (stacks s1 l = stacks s l) as Est1.
  { apply omap_ext_in. intros b Hb. rewrite Hb1; [done|]. by intros ->. }
  destruct l as [|b l].
  { cbn [hd]. rewrite Z.eqb_refl. exists h2. split; [done|].
    replace (released s [a] live) with (delete a (delete (gt_stack t) live)); [done|].
    apply map_eq. intros p. apply option_eq. intros v. unfold released. rewrite map_lookup_filter_Some, !lookup_delete_Some, Est. cbn. set_solver. }
  cbn [hd]. rewrite (proj2 (Z.eqb_neq b (g_ring s))) by (apply Hr; left).
  destruct (IH s1 (delete a (delete (gt_stack t) live)) n) as (h3 & E3 & Hi3); [done|done| | |done| | |simpl in *; lia|].
  - eapply linked_ext; [|exact Hl]. intros c Hc. unfold next_of. rewrite Hb1; [done|]. intros ->. done.
  - intros c Hc. apply Hr. by right.
  - intros c Hc. assert (c ≠ a) as Hca by (intros ->; done). destruct (Hown c) as (tc & Htc & Hc1 & Hc2 & Hc3); [by right|].
    exists tc. rewrite Hb1 by done. split; [done|].
    destruct (Hsep c a tc t) as [Hx Hy]; [by right|left|done..|]. destruct (Hsep a c t tc) as [_ Hz]; [left|by right|done..|].
    split; [by rewrite !lookup_delete_ne|]. split; [by rewrite !lookup_delete_ne|done].
  - intros c d tc td Hc Hd. assert (c ≠ a) by (intros ->; done). assert (d ≠ a) by (intros ->; done).
    rewrite !Hb1 by done. apply Hsep; by right.
  - exists h3. split.
    + cbn [hd] in E3. rewrite E3. do 3 f_equal. cbn [threads s1].
      exact (foldr_delete_comm a (b :: l) (threads s)).
    + replace (released s (a :: b :: l) live) with (released s1 (b :: l) (delete a (delete (gt_stack t) live))); [done|].
      apply map_eq. intros p. apply option_eq. intros v. unfold released. rewrite !map_lookup_filter_Some, !lookup_delete_Some, Est, Est1. cbn. set_solver.
Qed.

Lemma elem_of_stacks s l p : p ∈ stacks s l ↔ ∃ a, a ∈ l ∧ gt_stack <$> threads s !! a = Some p.
Proof. unfold stacks. rewrite list_elem_of_omap. naive_solver. Qed.

Lemma released_same s s' l l' live : l' ≡ₚ l → same_stacks s s' → released s' l' live = released s l live.
Proof.
  intros Hl Hs. assert (∀ x, x ∈ l' ↔ x ∈ l) as Hin by (intros x; by rewrite Hl).
  apply map_eq. intros p. apply option_eq. intros v. unfold released. rewrite !map_lookup_filter_Some. cbn [fst].
  rewrite Hin. assert (p ∈ stacks s' l' ↔ p ∈ stacks s l) as ->; [|done].
  rewrite !elem_of_stacks. split; intros (a & Ha & E); exists a; [rewrite <-Hin, <-Hs|rewrite Hin, Hs]; done.
Qed.

Lemma free_all_run s l live : green_ok s l live →
  ∃ s', free_all s = Some (tt, s') ∧ threads s' = ∅ ∧ g_ring s' = 0 ∧ g_world s' = g_world s ∧ g_mach s' = g_mach s ∧
    a_inv (g_heap s') (released s l live).
Proof.
  intros Hok. unfold free_all. rewrite bind_gets. pose proof (go_ring _ _ _ Hok) as Hr. rewrite Hr.
  assert (∀ a, threads s !! a = None ↔ a ∉ l) as Hd.
  { intros a. rewrite <-(go_dom _ _ _ Hok). apply eq_None_not_Some. }
  destruct l as [|r l]; cbn [hd] in *.
  - exists s. split; [done|]. split; [|split; [done|split; [done|split; [done|]]]].
    + apply map_empty. intros a. apply Hd, not_elem_of_nil.
    + replace (released s [] live) with live; [apply (go_heap _ _ _ Hok)|]. symmetry. apply map_filter_id.
      intros p v _. cbn. split; apply not_elem_of_nil.
  - pose proof (ring_pos _ _ _ r Hok ltac:(left)) as Hp.
    assert (truth r = true) as -> by (apply truth_true; unfold HEAP_START in *; lia). cbn [negb].
    rewrite bind_gets, (threads_size _ _ _ Hok). pose proof (go_nodup _ _ _ Hok) as Hnd.
    destruct (free_loop_run (r :: l) s live (length (r :: l))) as (h & E & Hi).
    + done.
    + done.
    + rewrite Hr. apply (go_links _ _ _ Hok).
    + rewrite Hr. intros b Hb ->. by apply NoDup_cons in Hnd as [? _].
    + apply (go_heap _ _ _ Hok).
    + intros a [t Ht]%(go_dom _ _ _ Hok). exists t. split; [done|]. by apply (go_owns _ _ _ Hok).
    + intros a b ta tb _ _. apply (go_apart _ _ _ Hok).
    + done.
    + cbn [hd] in E. rewrite (M_bind_run _ _ _ _ _ E). eexists. split; [reflexivity|]. cbn [threads g_ring g_world g_mach g_heap].
      split; [|done]. apply map_empty. intros a. clear E Hi.
      destruct (decide (a ∈ r :: l)) as [Hin|Hnin].
      * generalize (threads s). clear -Hin. induction (r :: l) as [|b l' IH]; intros m; [by apply not_elem_of_nil in Hin|]. cbn [foldr].
        destruct (decide (a = b)) as [->|]; [apply lookup_delete_eq|]. rewrite lookup_delete_ne by done. apply IH. set_solver.
      * apply Hd in Hnin. revert Hnin. generalize (threads s). clear. induction (r :: l) as [|b l' IH]; intros m Hm; [done|]. cbn [foldr].
        apply lookup_delete_None. right. by apply IH.
Qed.

Lemma gt_run_run n s l live w' : green_ok s l live → carrier_ok s →
  round_robin n (queue s l) (g_world s) = Some (tt, w') →
  ∃ s', gt_run a_trampoline a_yielded a_back a_sched_esp text (Datatypes.S n) s = Some (tt, s') ∧
    g_world s' = w' ∧ same_carrier s s' ∧ threads s' = ∅ ∧ g_ring s' = 0 ∧ a_inv (g_heap s') (released s l live).
Proof.
  intros Hok Hcar Hrr. destruct (run_loop_run n s l live w' Hok Hcar Hrr) as (s1 & l1 & E1 & Hok1 & Hw1 & Hc1 & Hs1 & Hl1).
  destruct (free_all_run s1 l1 live Hok1) as (s2 & E2 & Ht2 & Hr2 & Hw2 & Hm2 & Hi2).
  exists s2. unfold gt_run. rewrite (M_bind_run _ _ _ _ _ E1). rewrite (released_same s s1 l l1 live Hl1 Hs1) in Hi2.
  unfold same_carrier in *. rewrite Hm2, Hw2. split_and!; try done; apply Hc1.
Qed.

End runs.

(** ** Spawning *)

Definition with_gheap s (h : H) : S :=
  Green h (threads s) (g_mach s) (g_ring s) (g_current s) (g_sched_esp s) (g_conts s) (g_world s).

(** The stack of a new fiber: a switch to it goes to the trampoline. *)
Definition gframe : list Z := [0; 0; 0; 0; a_trampoline].

Definition spawned s (h : H) (t sb fn : Z) : S :=
  let th nx := Gthread (sb + GT_STACK_SIZE - 20) sb GT_READY fn nx in
  let W' := poke (sb + GT_STACK_SIZE - 20) gframe (g_mach s).1 in
  match threads s !! g_ring s with
  | Some r => Green h (<[g_ring s := set_gt_next r t]> (<[t := th (gt_next r)]> (threads s))) (W', (g_mach s).2)
                (g_ring s) (g_current s) (g_sched_esp s) (g_conts s) (g_world s)
  | None => Green h (<[t := th t]> (threads s)) (W', (g_mach s).2) t (g_current s) (g_sched_esp s) (g_conts s) (g_world s)
  end.

Lemma gmalloc_run s live n : a_inv (g_heap s) live → 0 < n ≤ 4294967288 →
  ∃ r h, zoom heap_lens (a_malloc n) s = Some (r, with_gheap s h) ∧
    ((r = 0 ∧ a_inv h live) ∨
     (HEAP_START < r ∧ r + n ≤ HEAP_END ∧ live !! r = None ∧ apart live r n ∧ a_inv h (<[r := n]> live))).
Proof.
  intros Hinv Hn. destruct (a_malloc_spec (g_heap s) live n Hinv Hn) as (r & h & E & Hr).
  exists r, h. split; [by apply (zoom_run heap_lens)|]. destruct Hr as [[-> ->]|Hr]; [by left|by right].
Qed.

(** What [gt_spawn] got from the heap. *)
Definition fresh_fiber live (t sb : Z) : Prop :=
  HEAP_START < t ∧ HEAP_START < sb ∧ sb + GT_STACK_SIZE ≤ HEAP_END ∧
  live !! t = None ∧ live !! sb = None ∧ t ≠ sb ∧ apart live sb GT_STACK_SIZE.
Definition with_fiber live (t sb : Z) : gmap Z Z := <[sb := GT_STACK_SIZE]> (<[t := SIZEOF_GTHREAD]> live).

Lemma gt_spawn_run s l live fn : green_ok s l live →
  ∃ r s', gt_spawn a_trampoline fn s = Some (r, s') ∧
    ((r = -1 ∧ ∃ h, s' = with_gheap s h ∧ a_inv h live) ∨
     (r = 0 ∧ ∃ (t sb : Z) h, s' = spawned s h t sb fn ∧ fresh_fiber live t sb ∧ a_inv h (with_fiber live t sb))).
Proof.
  intros Hok. unfold gt_spawn.
  assert (∀ r, HEAP_START < r → truth r = true) as Htruth by (intros; apply truth_true; unfold HEAP_START in *; lia).
  destruct (gmalloc_run s live SIZEOF_GTHREAD (go_heap _ _ _ Hok) ltac:(done)) as (t & h1 & E1 & Ht).
  rewrite (M_bind_run _ _ _ _ _ E1). destruct Ht as [[-> Hi]|(Ht1 & Ht2 & Ht3 & Ht4 & Hi1)].
  { exists (-1), (with_gheap s h1). split; [done|]. left. eauto. }
  rewrite (Htruth t Ht1). cbn [negb].
  destruct (gmalloc_run (with_gheap s h1) _ GT_STACK_SIZE Hi1 ltac:(done)) as (sb & h2 & E2 & Hsb).
  rewrite (M_bind_run _ _ _ _ _ E2). destruct Hsb as [[-> Hi]|(Hs1 & Hs2 & Hs3 & Hs4 & Hi2)].
  { cbn [truth Z.eqb negb]. destruct (a_free_spec h2 _ t SIZEOF_GTHREAD Hi (lookup_insert_eq _ _ _)) as (h3 & E3 & Hi3).
    rewrite delete_insert_id in Hi3 by done.
    rewrite (M_bind_run _ _ _ _ _ (zoom_run heap_lens _ (with_gheap (with_gheap s h1) h2) _ _ E3)).
    exists (-1), (with_gheap s h3). split; [done|]. left. eauto. }
  rewrite (Htruth sb Hs1). cbn [negb]. unfold HEAP_END, HEAP_START, HEAP_SIZE, GT_STACK_SIZE in *.
  rewrite (u32_small (sb + 4096)) by lia. rewrite !(u32_small (sb + 4096 - _)) by lia. cbv zeta.
  exists 0, (spawned s h2 t sb fn). split.
  - assert (∀ {B} (k : unit → M S B) s p v, (zoom mach_lens (st_word p v) ≫= k) s = k tt
      (Green (g_heap s) (threads s) (<[p := v]> (g_mach s).1, (g_mach s).2) (g_ring s) (g_current s) (g_sched_esp s) (g_conts s) (g_world s))) as Hst by done.
    do 5 (rewrite Hst; cbn [g_heap threads g_mach g_ring g_current g_sched_esp g_conts g_world with_gheap fst snd]).
    rewrite bind_gets. cbn [g_ring].
    unfold spawned, gframe, GT_STACK_SIZE. cbn [poke].
    replace (sb + 4096 - 20 + 4) with (sb + 4096 - 16) by lia. replace (sb + 4096 - 16 + 4) with (sb + 4096 - 12) by lia.
    replace (sb + 4096 - 12 + 4) with (sb + 4096 - 8) by lia. replace (sb + 4096 - 8 + 4) with (sb + 4096 - 4) by lia.
    pose proof (go_ring _ _ _ Hok) as Hr. destruct l as [|r0 l]; cbn [hd] in Hr; rewrite Hr.
    + assert (threads s !! 0 = None) as ->; [|done]. apply eq_None_not_Some. rewrite (go_dom _ _ _ Hok). apply not_elem_of_nil.
    + pose proof (ring_pos _ _ _ r0 Hok ltac:(left)) as Hp. rewrite Htruth by done. cbn [negb].
      assert (is_Some (threads s !! r0)) as [r Er] by (apply (go_dom _ _ _ Hok); left). rewrite Er.
      match goal with |- (ld_thread _ ≫= _) ?st = _ => rewrite (M_bind_run _ _ _ _ _ (ld_thread_run st r0 r Er)) end.
      unfold set_threads at 1. rewrite bind_modify. cbn [g_heap threads g_mach g_ring g_current g_sched_esp g_conts g_world].
      assert (t ≠ r0) as Hne. { intros ->. destruct (go_owns _ _ _ Hok _ _ Er) as [Ho _]. congruence. }
      match goal with |- (upd_thread _ ?f ≫= _) ?st = _ => rewrite (M_bind_run _ _ _ _ _ (upd_thread_run st r0 r f ltac:(cbn [threads]; by rewrite lookup_insert_ne))) end.
      done.
  - right. split; [done|]. exists t, sb, h2. rewrite lookup_insert_None in Hs3. destruct Hs3 as [Hs3 Hts].
    split; [done|]. split; [|done]. unfold fresh_fiber. split_and!; try done. intros q m Hq. apply Hs4. rewrite lookup_insert_ne; [done|]. congruence.
Qed.

(** The ring afterwards: the new fiber comes second. *)
Definition second (t : Z) l : list Z := take 1 l ++ t :: drop 1 l.
Definition new_fiber (t sb fn : Z) l : gthread_t :=
  Gthread (sb + GT_STACK_SIZE - 20) sb GT_READY fn (hd t (drop 1 l ++ take 1 l)).

Lemma fresh_not_fiber s l live (t sb : Z) : green_ok s l live → fresh_fiber live t sb → t ∉ l.
Proof.
  intros Hok (_ & _ & _ & Hlt & _) [x Hx]%(go_dom _ _ _ Hok). destruct (go_owns _ _ _ Hok _ _ Hx) as [Ho _]. congruence.
Qed.

Lemma second_perm (t : Z) l : second t l ≡ₚ t :: l.
Proof. unfold second. rewrite <-Permutation_middle. by rewrite take_drop. Qed.

Lemma spawned_threads s l live h (t sb : Z) fn : green_ok s l live → fresh_fiber live t sb →
  let s' := spawned s h t sb fn in
  threads s' !! t = Some (new_fiber t sb fn l) ∧ g_ring s' = hd 0 (second t l) ∧
  ∀ b, b ≠ t → threads s' !! b = if decide (b = g_ring s) then (λ r, set_gt_next r t) <$> threads s !! b else threads s !! b.
Proof.
  intros Hok Hfr s'. pose proof (fresh_not_fiber _ _ _ _ _ Hok Hfr) as Htl.
  pose proof (go_ring _ _ _ Hok) as Hr. unfold s', spawned. destruct l as [|r0 l]; cbn [hd] in Hr.
  - assert (threads s !! g_ring s = None) as E.
    { apply eq_None_not_Some. rewrite (go_dom _ _ _ Hok). apply not_elem_of_nil. }
    rewrite E. cbn [threads g_ring]. rewrite lookup_insert_eq. split_and!; try done.
    intros b Hb. rewrite lookup_insert_ne by done. case_decide as Eb; [by rewrite Eb, E|done].
  - assert (is_Some (threads s !! r0)) as [r Er] by (apply (go_dom _ _ _ Hok); left). rewrite Hr, Er.
    cbn [threads g_ring]. assert (r0 ≠ t) as Hr0 by set_solver. split_and!; try done.
    + rewrite lookup_insert_ne, lookup_insert_eq by done. unfold new_fiber. do 2 f_equal.
      destruct (go_links _ _ _ Hok) as [Hl _]. unfold next_of in Hl. rewrite Er in Hl. injection Hl as ->. cbn. rewrite drop_0. by destruct l.
    + intros b Hb. case_decide as Eb; [subst b; by rewrite lookup_insert_eq, Er|by rewrite !lookup_insert_ne].
Qed.

Lemma spawned_rest s h (t sb : Z) fn : let s' := spawned s h t sb fn in
  g_heap s' = h ∧ g_conts s' = g_conts s ∧ g_world s' = g_world s ∧ (g_mach s').2 = (g_mach s).2 ∧
  (g_mach s').1 = poke (sb + GT_STACK_SIZE - 20) gframe (g_mach s).1.
Proof. unfold spawned. by destruct (threads s !! g_ring s). Qed.

(** The fibers that were there before. *)
Lemma spawned_old s l live h (t sb : Z) fn b tb' : green_ok s l live → fresh_fiber live t sb → b ≠ t →
  threads (spawned s h t sb fn) !! b = Some tb' →
  ∃ tb, threads s !! b = Some tb ∧ gt_stack tb' = gt_stack tb ∧ gt_state tb' = gt_state tb ∧ gt_esp tb' = gt_esp tb ∧ gt_entry tb' = gt_entry tb.
Proof.
  intros Hok Hfr Hb. destruct (spawned_threads s l live h t sb fn Hok Hfr) as (_ & _ & Hoth).
  rewrite Hoth by done. case_decide; [|intros E; by exists tb'].
  destruct (threads s !! b) as [tb|]; [|done]. intros [= <-]. by exists tb.
Qed.

Lemma fresh_far s l live (t sb : Z) b tb : green_ok s l live → fresh_fiber live t sb → threads s !! b = Some tb →
  gt_stack tb + GT_STACK_SIZE ≤ sb ∨ sb + GT_STACK_SIZE ≤ gt_stack tb.
Proof.
  intros Hok (_ & _ & _ & _ & _ & _ & Hap) Hb. destruct (go_owns _ _ _ Hok b tb Hb) as (_ & Ob & _). specialize (Hap _ _ Ob). lia.
Qed.

Lemma spawned_prog s l live h (t sb : Z) fn b : green_ok s l live → fresh_fiber live t sb → b ≠ t →
  prog_of (spawned s h t sb fn) b = prog_of s b.
Proof.
  intros Hok Hfr Hb. destruct (spawned_threads s l live h t sb fn Hok Hfr) as (_ & _ & Hoth).
  destruct (spawned_rest s h t sb fn) as (_ & Hco & _ & _ & Hwo). unfold prog_of. rewrite Hoth, Hwo, Hco by done.
  destruct (threads s !! b) as [tb|] eqn:E; [|by case_decide].
  assert (gt_state tb = GT_READY → poke (sb + GT_STACK_SIZE - 20) gframe (g_mach s).1 !! (gt_esp tb + 16) = (g_mach s).1 !! (gt_esp tb + 16)) as Hw.
  { intros Hr. apply poke_lookup_other. cbn [length gframe]. pose proof (fresh_far _ _ _ _ _ _ _ Hok Hfr E).
    destruct (go_state _ _ _ Hok b tb E) as [Hd|(_ & (Hlo & Hhi & _) & _)]; [by rewrite Hr in Hd|]. unfold GT_STACK_SIZE in *. lia. }
  case_decide; cbn [fmap option_fmap option_map mbind option_bind set_gt_next gt_state gt_esp gt_entry];
    destruct (Z.eqb_spec (gt_state tb) GT_READY); try done; by rewrite Hw.
Qed.

Lemma spawned_new_prog s l live h (t sb : Z) fn : green_ok s l live → fresh_fiber live t sb →
  prog_of (spawned s h t sb fn) t = text fn ∧ gwaiting (spawned s h t sb fn) (new_fiber t sb fn l).
Proof.
  intros Hok Hfr. destruct (spawned_threads s l live h t sb fn Hok Hfr) as (Hth & _).
  destruct (spawned_rest s h t sb fn) as (_ & _ & _ & _ & Hwo). unfold prog_of, gwaiting. rewrite Hth, Hwo.
  cbn [mbind option_bind gt_state new_fiber gt_esp gt_stack]. change (GT_READY =? GT_READY) with true. cbn iota. split.
  - pose proof (poke_lookup (sb + GT_STACK_SIZE - 20) gframe (g_mach s).1 4 a_trampoline eq_refl) as Hp. change (4 * Z.of_nat 4) with 16 in Hp.
    rewrite Hp. cbn [mbind option_bind]. by rewrite Z.eqb_refl.
  - unfold GT_STACK_SIZE. split; [lia|]. split; [lia|]. exists 0, 0, 0, 0, a_trampoline. intros i v Hi. by apply poke_lookup.
Qed.

Lemma spawned_links s l live h (t sb : Z) fn : green_ok s l live → fresh_fiber live t sb →
  linked (next_of (spawned s h t sb fn)) (second t l) (hd 0 (second t l)).
Proof.
  intros Hok Hfr. destruct (spawned_threads s l live h t sb fn Hok Hfr) as (Hth & _ & Hoth).
  pose proof (fresh_not_fiber _ _ _ _ _ Hok Hfr) as Htl. pose proof (go_links _ _ _ Hok) as Hl. destruct l as [|r0 l].
  - cbn. split; [|done]. unfold next_of. by rewrite Hth.
  - pose proof (go_ring _ _ _ Hok) as Hr. cbn [hd] in Hr. destruct Hl as [Hl0 Hl].
    unfold second. cbn [take drop]. rewrite take_0, drop_0. cbn [app linked hd]. split; [|split].
    + unfold next_of in *. rewrite Hoth, decide_True by set_solver. cbn [hd] in Hl0. by destruct (threads s !! r0).
    + unfold next_of. rewrite Hth. cbn. f_equal. rewrite drop_0. by destruct l.
    + eapply linked_ext; [|exact Hl]. intros b Hb. unfold next_of. pose proof (go_nodup _ _ _ Hok) as [Hn _]%NoDup_cons.
      rewrite Hoth by set_solver. rewrite decide_False; [done|]. congruence.
Qed.

(** A spawned fiber comes second in the queue. *)
Lemma spawned_ok s l live h (t sb : Z) fn f : green_ok s l live → text fn = Some f → fresh_fiber live t sb →
  a_inv h (with_fiber live t sb) → green_ok (spawned s h t sb fn) (second t l) (with_fiber live t sb).
Proof.
  intros Hok Hf Hfr Hinv. destruct (spawned_threads s l live h t sb fn Hok Hfr) as (Hth & Hri & Hoth).
  destruct (spawned_rest s h t sb fn) as (Hhe & _ & _ & _ & Hwo).
  pose proof (λ b tb', spawned_old s l live h t sb fn b tb' Hok Hfr) as Hold.
  pose proof Hfr as (Ht & Hs & Hs' & Hlt & Hls & Hts & Hap).
  split.
  - rewrite second_perm. apply NoDup_cons. split; [by eapply fresh_not_fiber|]. apply (go_nodup _ _ _ Hok).
  - done.
  - by eapply spawned_links.
  - intros b. rewrite second_perm, elem_of_cons, <-(go_dom _ _ _ Hok). destruct (decide (b = t)) as [->|Hb]; [rewrite Hth; naive_solver|].
    rewrite Hoth by done. case_decide; [rewrite fmap_is_Some|]; naive_solver.
  - by rewrite Hhe.
  - intros b tb' Hb. unfold gowns, with_fiber. destruct (decide (b = t)) as [->|Hbt].
    + rewrite Hth in Hb. injection Hb as <-. cbn [gt_stack new_fiber]. rewrite lookup_insert_eq, lookup_insert_ne, lookup_insert_eq by done. done.
    + destruct (Hold b tb' Hbt Hb) as (tb & Hb0 & Es & _). destruct (go_owns _ _ _ Hok b tb Hb0) as (O1 & O2 & O3).
      rewrite Es, !lookup_insert_ne by congruence. done.
  - intros b c tb' tc' Hb Hc Hbc. destruct (decide (b = t)) as [->|Hbt], (decide (c = t)) as [->|Hct]; [done| | |].
    + rewrite Hth in Hb. injection Hb as <-. destruct (Hold c tc' Hct Hc) as (tc & Hc0 & Es & _). rewrite Es.
      destruct (go_owns _ _ _ Hok c tc Hc0) as (_ & O2 & _). cbn [gt_stack new_fiber]. split; congruence.
    + rewrite Hth in Hc. injection Hc as <-. destruct (Hold b tb' Hbt Hb) as (tb & Hb0 & Es & _). rewrite Es.
      destruct (go_owns _ _ _ Hok b tb Hb0) as (O1 & O2 & _). cbn [gt_stack new_fiber]. split; congruence.
    + destruct (Hold b tb' Hbt Hb) as (tb & Hb0 & Es & _), (Hold c tc' Hct Hc) as (tc & Hc0 & Es' & _). rewrite Es, Es'.
      exact (go_apart _ _ _ Hok b c tb tc Hb0 Hc0 Hbc).
  - intros b tb' Hb. destruct (decide (b = t)) as [->|Hbt].
    + rewrite Hth in Hb. injection Hb as <-. right. destruct (spawned_new_prog s l live h t sb fn Hok Hfr) as [-> Hw].
      split; [done|]. split; [done|eauto].
    + destruct (Hold b tb' Hbt Hb) as (tb & Hb0 & Es & Et & Ee & _). rewrite (spawned_prog s l live), Et by done. unfold gwaiting. rewrite Es, Ee.
      destruct (go_state _ _ _ Hok b tb Hb0) as [?|(Hst & (Hlo & Hhi & bp & di & si & bx & ip & Hw) & Hp)]; [by left|right].
      split_and!; try done. exists bp, di, si, bx, ip. rewrite Hwo. apply resumes_poke; [done|]. cbn [length gframe].
      pose proof (fresh_far _ _ _ _ _ _ _ Hok Hfr Hb0). unfold GT_STACK_SIZE in *. lia.
Qed.

Lemma spawned_queue s l live h (t sb : Z) fn f : green_ok s l live → text fn = Some f → fresh_fiber live t sb →
  queue (spawned s h t sb fn) (second t l) = queue s (take 1 l) ++ f :: queue s (drop 1 l).
Proof.
  intros Hok Hf Hfr. pose proof (fresh_not_fiber _ _ _ _ _ Hok Hfr) as Htl. rewrite <-(take_drop 1 l) in Htl at 1.
  unfold queue, second. rewrite omap_app. cbn. rewrite (proj1 (spawned_new_prog s l live h t sb fn Hok Hfr)), Hf.
  f_equal; [|f_equal]; apply omap_ext_in; intros b Hb; apply (spawned_prog s l live); (done || set_solver).
Qed.

(** Everything a batch of fibers took from the heap is given back. *)
Lemma spawned_released s l live h (t sb : Z) fn : green_ok s l live → fresh_fiber live t sb →
  released (spawned s h t sb fn) (second t l) (with_fiber live t sb) = released s l live.
Proof.
  intros Hok Hfr. destruct (spawned_threads s l live h t sb fn Hok Hfr) as (Hth & _ & Hoth).
  pose proof Hfr as (_ & _ & _ & Hlt & Hls & Hts & _).
  assert (∀ x, x ∈ second t l ↔ x = t ∨ x ∈ l) as Hin by (intros x; by rewrite second_perm, elem_of_cons).
  assert (∀ p, p ∈ stacks (spawned s h t sb fn) (second t l) ↔ p = sb ∨ p ∈ stacks s l) as Hst.
  { intros p. rewrite !elem_of_stacks. split.
    - intros (a & [->|Ha]%Hin & E); [rewrite Hth in E; injection E as <-; by left|right]. exists a. split; [done|].
      rewrite Hoth in E by (intros ->; by eapply fresh_not_fiber). case_decide; [|done]. by destruct (threads s !! a).
    - intros [->|(a & Ha & E)]; [exists t; rewrite Hin, Hth; auto|]. exists a. rewrite Hin. split; [auto|].
      rewrite Hoth by (intros ->; by eapply fresh_not_fiber). case_decide; [|done]. by destruct (threads s !! a). }
  apply map_eq. intros p. apply option_eq. intros v. unfold released, with_fiber. rewrite !map_lookup_filter_Some. cbn [fst].
  rewrite Hin, Hst. destruct (decide (p = sb)) as [->|]; [naive_solver congruence|].
  destruct (decide (p = t)) as [->|]; [naive_solver congruence|]. rewrite !lookup_insert_ne by done. naive_solver.
Qed.
End spec.

(** ** Termination *)

(** From a state with [I], [f] ends within [n] turns, keeps [I] and its stack
    within bounds. *)
Fixpoint safe {W} (I : W → Prop) (n : nat) (f : fiber W) : Prop :=
  match n, f with
  | O, _ => False
  | S _, Exit => True
  | S n', Slice run => ∀ w, I w → ∃ u k w', run w = Some ((u, k), w') ∧ I w' ∧ fits u ∧ (k = Exit ∨ safe I n' k)
  end.

Lemma round_robin_ends {W} (I : W → Prop) N ns q w : Forall2 (safe I) ns q → (sum_list ns ≤ N)%nat → I w →
  ∃ w', round_robin N q w = Some (tt, w') ∧ I w'.
Proof.
  revert ns q w. induction N as [|N IH]; intros ns q w Hq HN Hw; destruct Hq as [|n f ns q Hf Hq]; try by exists w.
  - destruct n; [done|]. simpl in HN. lia.
  - destruct n as [|n]; [done|]. simpl in HN. cbn [round_robin]. destruct f as [|run].
    + apply (IH ns); [done|lia|done].
    + destruct (Hf w Hw) as (u & k & w1 & Hrun & Hw1 & Hfit & Hk). rewrite (M_bind_run _ _ _ _ _ Hrun). cbn [fst snd].
      rewrite decide_True by done. destruct k as [|run']; [apply (IH ns); [done|lia|done]|].
      destruct Hk as [?|Hk]; [done|]. apply (IH (ns ++ [n])); [apply Forall2_app; [done|by constructor]| |done].
      assert (∀ l, sum_list (l ++ [n]) = sum_list l + n)%nat as ->; [|lia]. induction l; simpl; lia.
Qed.

(** ** Properties *)

(** C21. [gt_run] is a round-robin scheduler that always ends: when every fiber
    ends within its bound, the call returns after that many turns, the fibers
    have worked on the shared state exactly as the queue prescribes, every
    block they had is back in the heap, and the caller finds its registers and
    its stack pointer as they were. *)
Theorem gt_run_completes {H W} {AH : Allocator H} {AS : AllocatorSpec H} a_trampoline a_yielded a_back a_sched_esp text
    (s : green H W) l live (I : W → Prop) ns
    (Hvar : a_sched_esp ≤ HEAP_START) (Hcode : a_trampoline ≠ a_yielded)
    (Hok : green_ok a_trampoline a_yielded text s l live) (Hstack : carrier_ok s)
    (Hsafe : Forall2 (safe I) ns (queue a_trampoline a_yielded text s l)) (Hworld : I (g_world s)) :
  ∃ s', gt_run a_trampoline a_yielded a_back a_sched_esp text (S (sum_list ns)) s = Some (tt, s') ∧
    round_robin (sum_list ns) (queue a_trampoline a_yielded text s l) (g_world s) = Some (tt, g_world s') ∧ I (g_world s') ∧
    same_carrier s s' ∧ threads s' = ∅ ∧ g_ring s' = 0 ∧ a_inv (g_heap s') (released s l live).
Proof.
  destruct (round_robin_ends I (sum_list ns) ns _ _ Hsafe (le_n _) Hworld) as (w' & Hrr & Hw').
  destruct (gt_run_run a_trampoline a_yielded a_back a_sched_esp text Hvar Hcode _ s l live w' Hok Hstack Hrr)
    as (s' & E & <- & Hc & Ht & Hr & Hi).
  exists s'. do 3 (split; [done|]). split; [exact Hc|done].
Qed.

(** [gt_spawn] returns -1 and leaves the heap blocks in use as they were, or
    returns 0 and adds one fiber that starts with the given function, second
    in the queue, without disturbing the others; when the batch has run, its
    two blocks are given back too. *)
Theorem gt_spawn_effect {H W} {AH : Allocator H} {AS : AllocatorSpec H} a_trampoline a_yielded text
    (s : green H W) l live fn f
    (Hok : green_ok a_trampoline a_yielded text s l live) (Hfn : text fn = Some f) :
  ∃ r s', gt_spawn a_trampoline fn s = Some (r, s') ∧ g_world s' = g_world s ∧ (g_mach s').2 = (g_mach s).2 ∧
    ((r = -1 ∧ threads s' = threads s ∧ a_inv (g_heap s') live) ∨
     (r = 0 ∧ ∃ l' live', green_ok a_trampoline a_yielded text s' l' live' ∧
        queue a_trampoline a_yielded text s' l' =
          queue a_trampoline a_yielded text s (take 1 l) ++ f :: queue a_trampoline a_yielded text s (drop 1 l) ∧
        released s' l' live' = released s l live)).
Proof.
  destruct (gt_spawn_run a_trampoline a_yielded text s l live fn Hok) as (r & s' & E & Hr).
  exists r, s'. split; [done|]. destruct Hr as [(-> & h & -> & Hi)|(-> & t & sb & h & -> & Hfr & Hi)].
  - split; [done|]. split; [done|]. left. done.
  - destruct (spawned_rest a_trampoline s h t sb fn) as (_ & _ & Hw & Hm & _). split; [done|]. split; [done|]. right.
    split; [done|]. exists (second t l), (with_fiber live t sb).
    split; [exact (spawned_ok _ _ _ s l live h t sb fn f Hok Hfn Hfr Hi)|].
    split; [exact (spawned_queue _ _ _ s l live h t sb fn f Hok Hfn Hfr)|exact (spawned_released _ _ _ s l live h t sb fn Hok Hfr)].
Qed.

(** ** Example: two fibers that count and print *)

(** The world: a counter and the letters printed so far. *)
Definition letter (c : Z) : M (Z * list Z) unit := modify (λ w, (w.1 + 1, w.2 ++ [c])).
Definition spare : use := Use 9 8 7 6 [5; 4; 3].
Fixpoint talk (n : nat) (c : Z) : fiber (Z * list Z) :=
  match n with
  | O => Slice (mret (spare, Exit))
  | S n' => Slice (_ ← letter c; mret (spare, talk n' c))
  end.
Lemma talk_safe n c : safe (λ _, True) (S n) (talk n c).
Proof.
  assert (fits spare) as Hf by (unfold fits; cbn; lia).
  induction n as [|n IH]; intros [w o] _; eexists _, _, _; (split; [reflexivity|]); split; [done| |done|]; split; auto.
Qed.
Definition sim_text (fn : Z) : option (fiber (Z * list Z)) :=
  if fn =? 70 then Some (talk 2 97) else if fn =? 71 then Some (talk 1 98) else None.
Definition quiet : green kheap (Z * list Z) := Green heap_booted ∅ (∅, Cpu 1 2 3 4 585728 99 false) 0 0 0 ∅ (0, []).
Definition gstate_of {A} (o : option (A * green kheap (Z * list Z))) : green kheap (Z * list Z) :=
  match o with Some (_, s) => s | None => quiet end.
Definition pair_of_fibers : green kheap (Z * list Z) :=
  gstate_of ((_ ← gt_spawn 60 70; gt_spawn 60 71) quiet).

Lemma quiet_ok : green_ok 60 61 sim_text quiet [] ∅.
Proof.
  split; cbn [quiet threads g_ring g_heap hd linked]; try done.
  - constructor.
  - intros a. rewrite lookup_empty. split; [by intros [? ?]|]. by intros ?%not_elem_of_nil.
  - exists [(HEAP_SIZE - HDR, true)]. split; [exact heap_booted_ok|]. split; [set_solver|]. done.
Qed.

Lemma gt_spawn_effect_witness :
  ∃ r s', gt_spawn 60 70 quiet = Some (r, s') ∧ g_world s' = (0, []) ∧ (g_mach s').2 = Cpu 1 2 3 4 585728 99 false ∧
    ((r = -1 ∧ threads s' = ∅ ∧ a_inv (g_heap s') ∅) ∨
     (r = 0 ∧ ∃ l' live', green_ok 60 61 sim_text s' l' live' ∧ queue 60 61 sim_text s' l' = [] ++ talk 2 97 :: [] ∧
        released s' l' live' = released quiet [] ∅)).
Proof. apply (gt_spawn_effect 60 61 sim_text quiet [] ∅ 70 (talk 2 97)); [exact quiet_ok|reflexivity]. Defined.

Lemma pair_ok : ∃ l live, green_ok 60 61 sim_text pair_of_fibers l live ∧
  queue 60 61 sim_text pair_of_fibers l = [talk 2 97; talk 1 98] ∧ released pair_of_fibers l live = ∅.
Proof.
  destruct (gt_spawn_run 60 61 sim_text quiet [] ∅ 70 quiet_ok) as (r1 & s1 & E1 & H1).
  assert (gt_spawn 60 70 quiet = Some (0, gstate_of (gt_spawn 60 70 quiet))) as F1 by (vm_compute; reflexivity).
  rewrite E1 in F1. injection F1 as ->. destruct H1 as [(? & _)|(_ & t1 & b1 & h1 & -> & Hfr1 & Hi1)]; [lia|].
  pose proof (spawned_ok 60 61 sim_text quiet [] ∅ h1 t1 b1 70 (talk 2 97) quiet_ok eq_refl Hfr1 Hi1) as Hok1.
  pose proof (spawned_queue 60 61 sim_text quiet [] ∅ h1 t1 b1 70 (talk 2 97) quiet_ok eq_refl Hfr1) as Hq1.
  pose proof (spawned_released 60 61 sim_text quiet [] ∅ h1 t1 b1 70 quiet_ok Hfr1) as Hl1.
  set (s1 := spawned 60 quiet h1 t1 b1 70) in *. set (l1 := second t1 []) in *.
  destruct (gt_spawn_run 60 61 sim_text s1 l1 _ 71 Hok1) as (r2 & s2 & E2 & H2).
  assert (gt_spawn 60 71 (gstate_of (gt_spawn 60 70 quiet)) = Some (0, pair_of_fibers)) as F2 by (vm_compute; reflexivity).
  revert F2. generalize pair_of_fibers. intros p F2.
  rewrite E1 in F2. cbn [gstate_of] in F2. rewrite E2 in F2. injection F2 as -> <-. destruct H2 as [(? & _)|(_ & t2 & b2 & h2 & -> & Hfr2 & Hi2)]; [lia|].
  exists (second t2 l1), (with_fiber (with_fiber ∅ t1 b1) t2 b2).
  split; [by apply (spawned_ok 60 61 sim_text s1 l1 _ h2 t2 b2 71 (talk 1 98))|]. split.
  - rewrite (spawned_queue 60 61 sim_text s1 l1 _ h2 t2 b2 71 (talk 1 98) Hok1 eq_refl Hfr2).
    change (take 1 l1) with l1. rewrite Hq1. reflexivity.
  - rewrite (spawned_released 60 61 sim_text s1 l1 _ h2 t2 b2 71 Hok1 Hfr2), Hl1. reflexivity.
Qed.

Lemma gt_run_completes_witness :
  ∃ s' : green kheap (Z * list Z), gt_run 60 61 62 50 sim_text 6 pair_of_fibers = Some (tt, s') ∧
    g_world s' = (3, [97; 98; 97]) ∧ threads s' = ∅ ∧ a_inv (g_heap s') ∅.
Proof.
  destruct pair_ok as (l & live & Hok & Hq & Hr).
  destruct (gt_run_completes 60 61 62 50 sim_text pair_of_fibers l live (λ _, True) [3; 2]%nat) as (s' & E & Hrr & _ & _ & Ht & _ & Hi).
  - unfold HEAP_START. lia.
  - discriminate.
  - exact Hok.
  - vm_compute. split; discriminate.
  - rewrite Hq. repeat constructor; [apply (talk_safe 2)|apply (talk_safe 1)].
  - exact I.
  - rewrite Hr in Hi. rewrite Hq in Hrr. change (S (sum_list [3; 2]%nat)) with 6%nat in E.
    exists s'. split; [exact E|]. split; [|split; [exact Ht|exact Hi]].
    change (g_world pair_of_fibers) with (0, @nil Z) in Hrr. vm_compute in Hrr. injection Hrr as Hrr. symmetry. exact Hrr.
Defined.
