(* ===== verification/Shell.v ===== *)
(** * The shell: paths, words and file commands (kernel/shell.c, kernel/shell.h)

    State: the console, the block layer with the filesystem, the heap and the
    current directory.  A string argument is the bytes from its pointer on, a
    null pointer is [None]; a local array is the list of the bytes stored in
    it.  Memory from [kmalloc] is allocated and freed on the heap; its contents
    are a list as well.  [sfs_*] calls are block programs run on the layer. *)

From S2P Require Import Prelude Ports Devices CString Serial Screen Block Kheap Alloc Sfs.

Record shell (HW L H : Type) := Shell { con : console HW; fs : L; sheap : H; cwd : Z }.
Arguments Shell {HW L H}. Arguments con {HW L H}. Arguments fs {HW L H}. Arguments sheap {HW L H}. Arguments cwd {HW L H}.

(** ** Words of a line *)

(** Turn spaces into terminators, from [p] on. *)
Fixpoint skip_spaces (n : nat) (line : list Z) (p : nat) : option (list Z * nat) :=
  match n with
  | O => None
  | S n' => c ← line !! p; if c =? 32 then skip_spaces n' (<[p := 0]> line) (S p) else Some (line, p)
  end.
(** The end of the word at [p]. *)
Fixpoint skip_word (n : nat) (line : list Z) (p : nat) : option nat :=
  match n with
  | O => None
  | S n' => c ← line !! p; if truth c && negb (c =? 32) then skip_word n' line (S p) else Some p
  end.
Fixpoint tokenize_loop (n : nat) (line : list Z) (p : nat) (argv : list nat) (max : nat) : option (list nat * list Z) :=
  match n with
  | O => None
  | S n' =>
      c ← line !! p;
      if truth c && (length argv <? max)%nat then
        '(line, p) ← skip_spaces (S (length line)) line p;
        c ← line !! p;
        if negb (truth c) then Some (argv, line)
        else
          p' ← skip_word (S (length line)) line p;
          tokenize_loop n' line p' (argv ++ [p]) max
      else Some (argv, line)
  end.
(** The offsets of the words and the line afterwards. *)
Definition tokenize (line : list Z) (max : nat) : option (list nat * list Z) :=
  tokenize_loop (S (length line)) line 0 [] max.

(** [strcmp(s, "w") == 0] *)
Definition is_lit (s : list Z) (w : string) : option bool := (λ c, c =? 0) <$> strcmp s (lit w).

(** A literal that ends in a newline. *)
Definition lit_ln (s : string) : list Z :=
  (Z.of_N ∘ Ascii.N_of_ascii <$> String.list_ascii_of_string s) ++ [10; 0].

(** ** Removing a tree

    [rm_rec] only calls the filesystem, so it is a block program. *)

(** The first entry of [ino] but the dots: the inner loop of [rm_rec]. *)
Fixpoint first_child (n : nat) (ino i : Z) : prog (option (list Z)) :=
  match n with
  | O => Fault
  | S n' =>
      r ← sfs_readdir ino i 32;
      if r.1 <? 0 then mret None
      else
        dot ← of_option (is_lit r.2 ".");
        dots ← (if (dot : bool) then mret true else of_option (is_lit r.2 ".."));
        if (dots : bool) then first_child n' ino (i + 1) else mret (Some r.2)
  end.
(** The outer loop; [rm] is the recursive call. *)
Fixpoint empty_dir (n : nat) (rm : list Z → prog Z) (ino : Z) : prog unit :=
  match n with
  | O => Fault
  | S n' =>
      c ← first_child COUNT_FUEL ino 0;
      match c with
      | None => mret tt
      | Some nm => _ ← rm nm; empty_dir n' rm ino
      end
  end.
(** [depth] bounds the recursion. *)
Fixpoint rm_rec (depth : nat) (parent : Z) (name : list Z) : prog Z :=
  match depth with
  | O => Fault
  | S depth' =>
      ino ← sfs_lookup parent name;
      if ino <? 0 then mret (-1)
      else
        ty ← sfs_type ino;
        _ ← (if ty =? SFS_DIR then empty_dir COUNT_FUEL (rm_rec depth' ino) ino else mret tt);
        sfs_unlink parent name
  end.
(** A path goes through each of the 64 inodes at most once. *)
Definition RM_DEPTH : nat := 65.

Section shell.
Context {HW L H : Type} {PW : Ports HW} {BL : BlockLayer L} {AH : Allocator H}.
Abbreviation S := (shell HW L H).

Definition con_lens : lens S (console HW) := Lens con (λ c s, Shell c (fs s) (sheap s) (cwd s)).
Definition fs_lens : lens S L := Lens fs (λ l s, Shell (con s) l (sheap s) (cwd s)).
Definition sheap_lens : lens S H := Lens sheap (λ h s, Shell (con s) (fs s) h (cwd s)).
Definition set_cwd (d : Z) : M S unit := modify (λ s, Shell (con s) (fs s) (sheap s) d).

Definition print (s : list Z) : M S unit := zoom con_lens (kprint s).
Definition say (s : string) : M S unit := print (lit s).
Definition say_ln (s : string) : M S unit := print (lit_ln s).
Definition fs_do {A} (p : prog A) : M S A := zoom fs_lens (run_layer p).
Definition malloc (n : Z) : M S Z := zoom sheap_lens (a_malloc n).
Definition free (p : Z) : M S unit := zoom sheap_lens (a_free p).
Definition compare (s : list Z) (w : string) : M S bool := lift (is_lit s w).

(** ** Paths *)

Fixpoint resolve_loop (p : list Z) (cur : Z) (comp : list Z) : M S Z :=
  match p with
  | [] => fault
  | c :: p' =>
      if (c =? 47) || (c =? 0) then
        match comp with
        | [] => if c =? 0 then mret cur else resolve_loop p' cur []
        | _ =>
            cur ← fs_do (sfs_lookup cur (comp ++ [0]));
            if cur <? 0 then mret (-1)
            else if c =? 0 then mret cur else resolve_loop p' cur []
        end
      else resolve_loop p' cur (if (length comp <? 31)%nat then comp ++ [c] else comp)
  end.
Definition resolve (path : list Z) : M S Z :=
  c ← lift (head path);
  d ← gets cwd;
  resolve_loop path (if c =? 47 then SFS_ROOT else d) [].

(** [for (int i = 0; ; i++)] over the entries of a directory. *)
Fixpoint name_loop (n : nat) (parent child i : Z) : M S (option (list Z)) :=
  match n with
  | O => fault
  | Datatypes.S n' =>
      r ← fs_do (sfs_readdir parent i 32);
      if r.1 <? 0 then mret None
      else if r.1 =? child then
        dot ← compare r.2 ".";
        dots ← (if (dot : bool) then mret true else compare r.2 "..");
        if (dots : bool) then name_loop n' parent child (i + 1) else mret (Some r.2)
      else name_loop n' parent child (i + 1)
  end.
(** The bytes stored at [out], on success. *)
Definition name_of (parent child : Z) : M S (option (list Z)) :=
  r ← name_loop COUNT_FUEL parent child 0;
  match r with
  | Some nm => s ← lift (strcpy nm); mret (Some s)
  | None => mret None
  end.

(** [parts] holds the names found so far, the innermost first. *)
Fixpoint cwd_loop (n : nat) (cur : Z) (parts : list (list Z)) : M S (list (list Z)) :=
  match n with
  | O => mret parts
  | Datatypes.S n' =>
      if cur =? SFS_ROOT then mret parts
      else
        parent ← fs_do (sfs_lookup cur (lit ".."));
        if parent <? 0 then mret parts
        else
          r ← name_of parent cur;
          match r with
          | None => mret parts
          | Some nm => cwd_loop n' parent (parts ++ [nm])
          end
  end.
Fixpoint print_parts (parts : list (list Z)) : M S unit :=
  match parts with
  | [] => mret tt
  | nm :: parts' => _ ← print_parts parts'; _ ← say "/"; print nm
  end.
Definition print_cwd : M S unit :=
  d ← gets cwd;
  if d =? SFS_ROOT then say "/"
  else parts ← cwd_loop 16 d []; print_parts parts.

(** ** Commands *)

Definition grey : M S unit := zoom con_lens (set_color (VGA_COLOR VGA_LIGHT_GREY VGA_BLACK)).

Fixpoint ls_loop (n : nat) (dir i : Z) : M S unit :=
  match n with
  | O => fault
  | Datatypes.S n' =>
      r ← fs_do (sfs_readdir dir i 32);
      if r.1 <? 0 then mret tt
      else
        dot ← compare r.2 ".";
        dots ← (if (dot : bool) then mret true else compare r.2 "..");
        if (dots : bool) then ls_loop n' dir (i + 1)
        else
          ty ← fs_do (sfs_type r.1);
          _ ← (if ty =? SFS_DIR then
                 _ ← zoom con_lens (set_color (VGA_COLOR VGA_LIGHT_BLUE VGA_BLACK));
                 _ ← print r.2; _ ← say "/"; grey
               else print r.2);
          _ ← say_ln "";
          ls_loop n' dir (i + 1)
  end.

(** [path && path[0]] *)
Definition given (path : option (list Z)) : M S (option (list Z)) :=
  match path with
  | None => mret None
  | Some p => c ← lift (head p); mret (if truth c then Some p else None)
  end.

Definition cmd_ls (path : option (list Z)) : M S unit :=
  g ← given path;
  dir ← match g with Some p => resolve p | None => gets cwd end;
  if dir <? 0 then say_ln "ls: no such path"
  else
    ty ← fs_do (sfs_type dir);
    if negb (ty =? SFS_DIR) then say_ln "ls: not a directory"
    else ls_loop COUNT_FUEL dir 0.

Definition cmd_cd (path : option (list Z)) : M S unit :=
  g ← given path;
  match g with
  | None => set_cwd SFS_ROOT
  | Some p =>
      dir ← resolve p;
      if dir <? 0 then say_ln "cd: no such directory"
      else
        ty ← fs_do (sfs_type dir);
        if negb (ty =? SFS_DIR) then say_ln "cd: not a directory" else set_cwd dir
  end.

Definition cmd_cat (name : option (list Z)) : M S unit :=
  g ← given name;
  match g with
  | None => say_ln "cat: need a file"
  | Some p =>
      ino ← resolve p;
      if ino <? 0 then say_ln "cat: no such file"
      else
        ty ← fs_do (sfs_type ino);
        if negb (ty =? SFS_FILE) then say_ln "cat: not a file"
        else
          sz ← fs_do (sfs_size ino);
          buf ← malloc (u32 (sz + 1));
          if negb (truth buf) then say_ln "cat: out of memory"
          else
            data ← fs_do (sfs_read ino sz);
            _ ← print (data ++ [0]);
            _ ← (match last data with
                 | Some c => if negb (c =? 10) then say_ln "" else mret tt
                 | None => mret tt
                 end);
            free buf
  end.

Definition SFS_MAX_FILE : Z := 14 * 512.

Definition cmd_cp (src dst : option (list Z)) : M S unit :=
  gs ← given src;
  gd ← (match gs with Some _ => given dst | None => mret None end);
  match gs, gd with
  | Some src, Some dst =>
      s ← resolve src;
      if s <? 0 then say_ln "cp: no such file"
      else
        ty ← fs_do (sfs_type s);
        if negb (ty =? SFS_FILE) then say_ln "cp: not a file"
        else
          sz ← fs_do (sfs_size s);
          buf ← malloc (if truth sz then sz else 1);
          if negb (truth buf) then say_ln "cp: out of memory"
          else
            data ← fs_do (sfs_read s sz);
            dir ← gets cwd;
            d ← fs_do (sfs_lookup dir dst);
            d ← (if d <? 0 then fs_do (sfs_create dir dst SFS_FILE) else mret d);
            if d <? 0 then _ ← say_ln "cp: cannot create dest"; free buf
            else
              ty ← fs_do (sfs_type d);
              if negb (ty =? SFS_FILE) then _ ← say_ln "cp: dest is not a file"; free buf
              else
                _ ← fs_do (sfs_write d data (Z.of_nat (length data)));
                free buf
  | _, _ => say_ln "cp: usage: cp <src> <dst>"
  end.

Definition cmd_mv (src dst : option (list Z)) : M S unit :=
  gs ← given src;
  gd ← (match gs with Some _ => given dst | None => mret None end);
  match gs, gd with
  | Some src, Some dst =>
      dir ← gets cwd;
      s ← fs_do (sfs_lookup dir src);
      if s <? 0 then say_ln "mv: no such file in current directory"
      else
        ty ← fs_do (sfs_type s);
        if negb (ty =? SFS_FILE) then say_ln "mv: only files are supported"
        else
          _ ← cmd_cp (Some src) (Some dst);
          d ← fs_do (sfs_lookup dir dst);
          if 0 <=? d then _ ← fs_do (sfs_unlink dir src); mret tt else mret tt
  | _, _ => say_ln "mv: usage: mv <src> <dst>"
  end.

(** *** echo *)

(** The text of the words, at most 255 bytes; [i] is the index of the next. *)
Fixpoint echo_text (words : list (list Z)) (first : bool) (text : list Z) : option (list Z) :=
  match words with
  | [] => Some text
  | w :: words' =>
      let text := if first then text else if (length text <? 255)%nat then text ++ [32] else text in
      bs ← strncpy w (255 - length text);
      echo_text words' false (text ++ upto0 bs)
  end.

(** The first word that redirects: its index and whether it appends. *)
Fixpoint find_redir (words : list (list Z)) (i : nat) : option (option (nat * bool)) :=
  match words with
  | [] => Some None
  | w :: words' =>
      g ← is_lit w ">";
      if g : bool then Some (Some (i, false))
      else
        gg ← is_lit w ">>";
        if gg : bool then Some (Some (i, true)) else find_redir words' (Datatypes.S i)
  end.

(** [words] are the arguments after the command. *)
Definition cmd_echo (words : list (list Z)) : M S unit :=
  redir ← lift (find_redir words 0);
  text ← lift (echo_text (match redir with Some (i, _) => take i words | None => words end) true []);
  match redir with
  | None => _ ← print (text ++ [0]); say_ln ""
  | Some (i, append) =>
      match words !! Datatypes.S i with
      | None => say_ln "echo: need a filename after >"
      | Some fname =>
          dir ← gets cwd;
          ino ← fs_do (sfs_lookup dir fname);
          ino ← (if ino <? 0 then fs_do (sfs_create dir fname SFS_FILE) else mret ino);
          if ino <? 0 then say_ln "echo: cannot create file"
          else if negb append then
            _ ← fs_do (sfs_write ino (text ++ [0]) (Z.of_nat (length text))); mret tt
          else
            old ← fs_do (sfs_size ino);
            let add := Z.of_nat (length text) in
            buf ← malloc (u32 (old + add + 1));
            if negb (truth buf) then say_ln "echo: out of memory"
            else
              data ← fs_do (sfs_read ino old);
              _ ← (if SFS_MAX_FILE <? Z.of_nat (length data) + add then say_ln "echo: file capped at 7KB" else mret tt);
              _ ← fs_do (sfs_write ino (data ++ text) (Z.of_nat (length data) + add));
              free buf
      end
  end.
End shell.
