(* ===== verification/ShellRun.v ===== *)
(** * Reasoning about shell commands

    [does c live d w Q]: from every shell state whose heap blocks are [live],
    whose disk is [d] and whose current directory is [w], the command [c]
    returns, and [Q] holds of its result, of the blocks, the disk and the
    directory afterwards, and of what it printed.  One rule per kind of call;
    the rules are stated for a call followed by the rest of the command.
    [does_on h] is the same for the shell states whose heap is [h], for commands
    whose output depends on whether the heap serves a request. *)

From S2P Require Import Prelude Ports Devices CString Serial Screen Block Kheap Alloc Sfs SfsLayout SfsInv SfsFile SfsDir SfsOps SfsTree Shell.

Section rules.
Context {HW L H : Type} {PW : Ports HW} {PC : PcPorts HW} {BL : BlockLayer L} {BS : BlockLayerSpec L}
  {AH : Allocator H} {AS : AllocatorSpec H}.
Abbreviation S := (shell HW L H).

(** The directory [w] is one. *)
Definition is_dir (d : disk) (w : Z) : Prop := inode_no w ∧ type (inode_at d w) = SFS_DIR.

Record shell_ok (live : gmap Z Z) (d : disk) (w : Z) (s : S) : Prop := {
  sk_con : console_inv (con s);
  sk_fs : shows (fs s) d;
  sk_inv : fs_inv d;
  sk_heap : a_inv (sheap s) live;
  sk_cwd : cwd s = w;
  sk_dir : is_dir d w;
}.

(** Everything printed so far, as the serial line has it. *)
Definition printed_by (s : S) : list Z := sent (com1 (pc_of (con s).1)).

Definition does {A} (c : M S A) (live : gmap Z Z) (d : disk) (w : Z)
    (Q : A → gmap Z Z → disk → Z → list Z → Prop) : Prop :=
  ∀ s, shell_ok live d w s → ∃ a s' live' d' w' o, c s = Some (a, s') ∧ shell_ok live' d' w' s' ∧
    printed_by s' = printed_by s ++ o ∧ Q a live' d' w' o.

(** [Q] after [o] has been printed. *)
Definition after_text {A} (Q : A → gmap Z Z → disk → Z → list Z → Prop) (t : list Z) :
    A → gmap Z Z → disk → Z → list Z → Prop := λ a live d w o, Q a live d w (t ++ o).

Lemma does_ret {A} (a : A) live d w (Q : A → gmap Z Z → disk → Z → list Z → Prop) :
  Q a live d w [] → does (mret a) live d w Q.
Proof. intros HQ s Hs. exists a, s, live, d, w, []. rewrite app_nil_r. done. Qed.

Lemma does_weaken {A} (c : M S A) live d w (Q Q' : A → gmap Z Z → disk → Z → list Z → Prop) :
  does c live d w Q → (∀ a live' d' w' o, Q a live' d' w' o → Q' a live' d' w' o) → does c live d w Q'.
Proof. intros Hc HQ s Hs. destruct (Hc s Hs) as (a & s' & live' & d' & w' & o & E & Ho & Ht & Hq). exists a, s', live', d', w', o. auto. Qed.

Lemma does_bind {A B} (c : M S A) (k : A → M S B) live d w Q1 Q :
  does c live d w Q1 → (∀ a live' d' w' o, is_dir d' w' → fs_inv d' → Q1 a live' d' w' o → does (k a) live' d' w' (after_text Q o)) →
  does (c ≫= k) live d w Q.
Proof.
  intros Hc Hk s Hs. destruct (Hc s Hs) as (a & s1 & l1 & d1 & w1 & o1 & E1 & Hs1 & T1 & H1).
  destruct (Hk a l1 d1 w1 o1 (sk_dir _ _ _ _ Hs1) (sk_inv _ _ _ _ Hs1) H1 s1 Hs1) as (b & s2 & l2 & d2 & w2 & o2 & E2 & Hs2 & T2 & H2).
  exists b, s2, l2, d2, w2, (o1 ++ o2). rewrite (M_bind_run _ _ _ _ _ E1). split; [done|]. split; [done|].
  split; [|done]. by rewrite T2, T1, app_assoc.
Qed.

(** A block program. *)
Lemma does_disk {A} (p : prog A) a live d d' w (Q : A → gmap Z Z → disk → Z → list Z → Prop) : run_disk p d = Some (a, d') → fs_inv d' → is_dir d' w →
  Q a live d' w [] → does (fs_do p) live d w Q.
Proof.
  intros Hrun Hinv Hdir HQ s [Hc Hf _ Hh Hw _]. destruct (run_refines p (fs s) d a d' Hf Hrun) as (l' & E & Hl').
  exists a, (Shell (con s) l' (sheap s) (cwd s)), live, d', w, []. split; [|split; [by split|by rewrite app_nil_r]].
  unfold fs_do, zoom. cbn [view fs_lens]. by rewrite E.
Qed.
Lemma does_disk_bind {A B} (p : prog A) a (k : A → M S B) live d d' w Q : run_disk p d = Some (a, d') → fs_inv d' → is_dir d' w →
  does (k a) live d' w Q → does (fs_do p ≫= k) live d w Q.
Proof.
  intros Hrun Hinv Hdir Hk. eapply (does_bind _ _ _ _ _ (λ a' l' d2 w' o, a' = a ∧ l' = live ∧ d2 = d' ∧ w' = w ∧ o = [])).
  - by eapply does_disk.
  - intros ? ? ? ? ? _ _ (-> & -> & -> & -> & ->). exact Hk.
Qed.

(** Printing. *)
Lemma does_con (c : M (console HW) unit) t live d w (Q : unit → gmap Z Z → disk → Z → list Z → Prop) : says c t →
  Q tt live d w t → does (zoom con_lens c) live d w Q.
Proof.
  intros Hc HQ s [Hcon Hf Hi Hh Hw Hd]. destruct (Hc (con s) Hcon) as ([] & c' & E & Hc' & T).
  exists tt, (Shell c' (fs s) (sheap s) (cwd s)), live, d, w, t. split; [|split; [by split|done]].
  unfold zoom. cbn [view con_lens]. by rewrite E.
Qed.
Lemma does_print l t live d w (Q : unit → gmap Z Z → disk → Z → list Z → Prop) : 0 ∈ l → Forall is_byte l → t = cstr l →
  Q tt live d w t → does (print l) live d w Q.
Proof. intros H0 Hb -> HQ. eapply does_con; [by apply says_cstr|done]. Qed.
Lemma does_con_bind {B} (c : M (console HW) unit) t (k : unit → M S B) live d w Q : says c t →
  does (k tt) live d w (after_text Q t) → does (zoom con_lens c ≫= k) live d w Q.
Proof.
  intros Hc Hk. eapply (does_bind _ _ _ _ _ (λ _ l' d2 w' o, l' = live ∧ d2 = d ∧ w' = w ∧ o = t)).
  - by eapply does_con.
  - intros [] ? ? ? ? _ _ (-> & -> & -> & ->). exact Hk.
Qed.
Lemma does_print_bind {B} l t (k : unit → M S B) live d w Q : 0 ∈ l → Forall is_byte l → t = cstr l →
  does (k tt) live d w (after_text Q t) → does (print l ≫= k) live d w Q.
Proof. intros H0 Hb ->. apply does_con_bind. by apply says_cstr. Qed.

(** Values that are there already. *)
Lemma does_lift {A B} (o : option A) a (k : A → M S B) live d w Q : o = Some a → does (k a) live d w Q → does (lift o ≫= k) live d w Q.
Proof. intros -> Hk s Hs. destruct (Hk s Hs) as (b & s' & H'). by exists b, s'. Qed.
Lemma does_ret_bind {A B} (a : A) (k : A → M S B) live d w Q : does (k a) live d w Q → does (mret a ≫= k) live d w Q.
Proof. done. Qed.
Lemma does_cwd {B} (k : Z → M S B) live d w Q : does (k w) live d w Q → does (gets cwd ≫= k) live d w Q.
Proof. intros Hk s Hs. rewrite bind_gets, (sk_cwd _ _ _ _ Hs). by apply Hk. Qed.
Lemma does_get_cwd live d w (Q : Z → gmap Z Z → disk → Z → list Z → Prop) : Q w live d w [] → does (gets cwd) live d w Q.
Proof. intros HQ s Hs. exists w, s, live, d, w, []. rewrite app_nil_r. unfold gets. by rewrite (sk_cwd _ _ _ _ Hs). Qed.
Lemma does_set_cwd v live d w (Q : unit → gmap Z Z → disk → Z → list Z → Prop) : is_dir d v → Q tt live d v [] → does (set_cwd v) live d w Q.
Proof.
  intros Hv HQ s [Hc Hf Hi Hh Hw Hd]. exists tt, (Shell (con s) (fs s) (sheap s) v), live, d, v, []. rewrite app_nil_r. done.
Qed.

(** The heap. *)
Lemma does_malloc {B} n (k : Z → M S B) live d w Q : 0 < n ≤ 4294967288 → does (k 0) live d w Q →
  (∀ p, p ≠ 0 → live !! p = None → does (k p) (<[p := n]> live) d w Q) → does (malloc n ≫= k) live d w Q.
Proof.
  intros Hn Hk0 Hkp.
  eapply (does_bind _ _ _ _ _ (λ p l' d2 w' o, (p = 0 ∧ l' = live ∨ p ≠ 0 ∧ live !! p = None ∧ l' = <[p := n]> live) ∧ d2 = d ∧ w' = w ∧ o = [])).
  - intros s Hs. pose proof Hs as [Hc Hf Hi Hh Hw Hd]. destruct (a_malloc_spec (sheap s) live n Hh Hn) as (p & h & E & Hp).
    assert (malloc n s = Some (p, Shell (con s) (fs s) h (cwd s))) as E' by (unfold malloc, zoom; cbn; by rewrite E).
    destruct Hp as [[-> ->]|(Hp & _ & Hfr & _ & Hi')].
    + exists 0, (Shell (con s) (fs s) (sheap s) (cwd s)), live, d, w, []. rewrite app_nil_r. split; [done|]. split; [by split|]. auto.
    + exists p, (Shell (con s) (fs s) h (cwd s)), (<[p := n]> live), d, w, []. rewrite app_nil_r. split; [done|]. split; [by split|].
      split; [done|]. split; [right|done]. unfold HEAP_START in *. split; [lia|done].
  - intros p ? ? ? ? _ _ ([[-> ->]|(Hp & Hfr & ->)] & -> & -> & ->); [exact Hk0|by apply Hkp].
Qed.
Lemma does_free p n live d w (Q : unit → gmap Z Z → disk → Z → list Z → Prop) : live !! p = Some n →
  Q tt (delete p live) d w [] → does (free p) live d w Q.
Proof.
  intros Hp HQ s [Hc Hf Hi Hh Hw Hd]. destruct (a_free_spec _ _ _ _ Hh Hp) as (h & E & Hh').
  exists tt, (Shell (con s) (fs s) h (cwd s)), (delete p live), d, w, []. rewrite app_nil_r. split; [|by split].
  unfold free, zoom. cbn. by rewrite E.
Qed.

(** ** A given heap *)

(** Whether the next request for [n] bytes gets a block. *)
Definition serves (h : H) (n : Z) : bool := match a_malloc n h with Some (p, _) => truth p | None => false end.

Definition does_on (h : H) {A} (c : M S A) (live : gmap Z Z) (d : disk) (w : Z)
    (Q : A → gmap Z Z → disk → Z → list Z → Prop) : Prop :=
  ∀ s, shell_ok live d w s → sheap s = h → ∃ a s' live' d' w' o, c s = Some (a, s') ∧ shell_ok live' d' w' s' ∧
    printed_by s' = printed_by s ++ o ∧ Q a live' d' w' o.
(** The heap is left alone. *)
Definition quiet {A} (c : M S A) : Prop := ∀ s a s', c s = Some (a, s') → sheap s' = sheap s.

Lemma does_on_any h {A} (c : M S A) live d w Q : does c live d w Q → does_on h c live d w Q.
Proof. intros Hc s Hs _. by apply Hc. Qed.
Lemma on_any_does {A} (c : M S A) live d w Q : (∀ h, does_on h c live d w Q) → does c live d w Q.
Proof. intros Hc s Hs. by apply (Hc (sheap s)). Qed.
Lemma does_on_weaken h {A} (c : M S A) live d w (Q Q' : A → gmap Z Z → disk → Z → list Z → Prop) :
  does_on h c live d w Q → (∀ a live' d' w' o, Q a live' d' w' o → Q' a live' d' w' o) → does_on h c live d w Q'.
Proof. intros Hc HQ s Hs Hh. destruct (Hc s Hs Hh) as (a & s' & live' & d' & w' & o & E & Ho & Ht & Hq). exists a, s', live', d', w', o. auto. Qed.

Lemma does_on_bind h {A B} (c : M S A) (k : A → M S B) live d w Q1 Q : does c live d w Q1 → quiet c →
  (∀ a live' d' w' o, is_dir d' w' → fs_inv d' → Q1 a live' d' w' o → does_on h (k a) live' d' w' (after_text Q o)) →
  does_on h (c ≫= k) live d w Q.
Proof.
  intros Hc Hq Hk s Hs Hh. destruct (Hc s Hs) as (a & s1 & l1 & d1 & w1 & o1 & E1 & Hs1 & T1 & H1).
  destruct (Hk a l1 d1 w1 o1 (sk_dir _ _ _ _ Hs1) (sk_inv _ _ _ _ Hs1) H1 s1 Hs1) as (b & s2 & l2 & d2 & w2 & o2 & E2 & Hs2 & T2 & H2).
  { by rewrite (Hq _ _ _ E1). }
  exists b, s2, l2, d2, w2, (o1 ++ o2). rewrite (M_bind_run _ _ _ _ _ E1). split; [done|]. split; [done|].
  split; [|done]. by rewrite T2, T1, app_assoc.
Qed.
Lemma does_on_then h {A B} (c : M S A) (k : A → M S B) live d w Q1 Q : does_on h c live d w Q1 →
  (∀ a live' d' w' o, is_dir d' w' → fs_inv d' → Q1 a live' d' w' o → does (k a) live' d' w' (after_text Q o)) →
  does_on h (c ≫= k) live d w Q.
Proof.
  intros Hc Hk s Hs Hh. destruct (Hc s Hs Hh) as (a & s1 & l1 & d1 & w1 & o1 & E1 & Hs1 & T1 & H1).
  destruct (Hk a l1 d1 w1 o1 (sk_dir _ _ _ _ Hs1) (sk_inv _ _ _ _ Hs1) H1 s1 Hs1) as (b & s2 & l2 & d2 & w2 & o2 & E2 & Hs2 & T2 & H2).
  exists b, s2, l2, d2, w2, (o1 ++ o2). rewrite (M_bind_run _ _ _ _ _ E1). split; [done|]. split; [done|].
  split; [|done]. by rewrite T2, T1, app_assoc.
Qed.

Lemma quiet_fs {A} (p : prog A) : quiet (fs_do p).
Proof. intros s a s'. unfold fs_do, zoom. cbn. destruct (run_layer p (fs s)) as [[]|]; [|done]. by intros [= _ <-]. Qed.
Lemma quiet_ret {A} (a : A) : quiet (mret a).
Proof. by intros s b s' [= _ <-]. Qed.
Lemma quiet_bind {A B} (c : M S A) (k : A → M S B) : quiet c → (∀ a, quiet (k a)) → quiet (c ≫= k).
Proof. intros Hc Hk s b s' (a & s1 & E1 & E2)%M_bind_Some. by rewrite (Hk _ _ _ _ E2), (Hc _ _ _ E1). Qed.
Lemma quiet_resolve_loop path cur comp : quiet (resolve_loop (HW := HW) (L := L) (H := H) path cur comp).
Proof.
  revert cur comp. induction path as [|c path IH]; intros cur comp; cbn [resolve_loop]; [by intros ? ? ?|].
  destruct (_ || _); [|apply IH]. destruct comp as [|x comp].
  - destruct (c =? 0); [apply quiet_ret|apply IH].
  - apply quiet_bind; [apply quiet_fs|]. intros r. destruct (r <? 0); [apply quiet_ret|].
    destruct (c =? 0); [apply quiet_ret|apply IH].
Qed.
Lemma quiet_resolve path : quiet (resolve (HW := HW) (L := L) (H := H) path).
Proof.
  unfold resolve. apply quiet_bind; [by intros s a s'; unfold lift; destruct (head path); [intros [= _ <-]|]|].
  intros c. apply quiet_bind; [by intros s a s' [= _ <-]|]. intros d. apply quiet_resolve_loop.
Qed.

Lemma does_on_disk_bind h {A B} (p : prog A) a (k : A → M S B) live d d' w Q : run_disk p d = Some (a, d') → fs_inv d' → is_dir d' w →
  does_on h (k a) live d' w Q → does_on h (fs_do p ≫= k) live d w Q.
Proof.
  intros Hrun Hinv Hdir Hk. eapply (does_on_bind _ _ _ _ _ _ (λ a' l' d2 w' o, a' = a ∧ l' = live ∧ d2 = d' ∧ w' = w ∧ o = [])).
  - by eapply does_disk.
  - apply quiet_fs.
  - intros ? ? ? ? ? _ _ (-> & -> & -> & -> & ->). exact Hk.
Qed.
Lemma does_on_lift h {A B} (o : option A) a (k : A → M S B) live d w Q : o = Some a → does_on h (k a) live d w Q → does_on h (lift o ≫= k) live d w Q.
Proof. intros -> Hk s Hs Hh. destruct (Hk s Hs Hh) as (b & s' & H'). by exists b, s'. Qed.
Lemma does_on_cwd h {B} (k : Z → M S B) live d w Q : does_on h (k w) live d w Q → does_on h (gets cwd ≫= k) live d w Q.
Proof. intros Hk s Hs Hh. rewrite bind_gets, (sk_cwd _ _ _ _ Hs). by apply Hk. Qed.

Lemma does_on_malloc h {B} n (k : Z → M S B) live d w Q : 0 < n ≤ 4294967288 →
  (serves h n = false → does (k 0) live d w Q) →
  (serves h n = true → ∀ p, p ≠ 0 → live !! p = None → does (k p) (<[p := n]> live) d w Q) → does_on h (malloc n ≫= k) live d w Q.
Proof.
  intros Hn Hk0 Hkp s Hs Hh. pose proof Hs as [Hc Hf Hi Hhp Hw Hd]. destruct (a_malloc_spec (sheap s) live n Hhp Hn) as (p & h' & E & Hp).
  assert (malloc n s = Some (p, Shell (con s) (fs s) h' (cwd s))) as E' by (unfold malloc, zoom; cbn; by rewrite E).
  rewrite (M_bind_run _ _ _ _ _ E'). unfold serves in *. rewrite <-Hh, E in Hk0, Hkp. destruct Hp as [[-> ->]|(Hp & _ & Hfr & _ & Hi')].
  - destruct (Hk0 eq_refl (Shell (con s) (fs s) (sheap s) (cwd s)) ltac:(by split)) as (b & Hb). by exists b.
  - assert (p ≠ 0) as Hp0 by (unfold HEAP_START in *; lia).
    destruct (Hkp (proj2 (truth_true p) Hp0) p Hp0 Hfr (Shell (con s) (fs s) h' (cwd s)) ltac:(by split)) as (b & Hb). by exists b.
Qed.

(** ** Strings *)

Lemma is_lit_spec s w : 0 ∈ s → is_lit s w = Some (bool_decide (cstr s = cstr (lit w))).
Proof.
  intros H0. unfold is_lit. destruct (strcmp_spec s (lit w) H0 (lit_nul w)) as (r & E & Hr). rewrite E. cbn. f_equal.
  destruct (Z.eqb_spec r 0); case_bool_decide; tauto.
Qed.
End rules.
