(* ===== verification/ShellFs.v ===== *)
(** * What the shell sees of the filesystem

    The calls of sfs.h that do not change the disk as functions of the disk
    ([lookup_at], [type_of], ...), what the others do to it in the cases the
    shell distinguishes, and the walk along a path. *)

From S2P Require Import Prelude Ports Devices CString Serial Screen Block Kheap Alloc Sfs SfsLayout SfsInv SfsFile SfsDir SfsOps SfsTree Shell ShellRun.

Definition lookup_at (d : disk) (cur : Z) (nm : list Z) : Z :=
  if type (inode_at d cur) =? SFS_DIR then default (-1) (find_name nm (dir_slots d cur)) else -1.

Lemma sfs_lookup_run d cur name : fs_ok d → inode_no cur → 0 ∈ name →
  run_disk (sfs_lookup cur name) d = Some (lookup_at d cur (cstr name), d).
Proof.
  intros Hok Hi H0. unfold sfs_lookup, lookup_at. destruct (Z.eqb_spec (type (inode_at d cur)) SFS_DIR) as [E|E].
  - by apply dir_lookup_run.
  - unfold dir_lookup. rewrite (run_bind_Some _ _ _ _ _ (read_inode_run d cur Hi)).
    by rewrite (proj2 (Z.eqb_neq _ _) E).
Qed.

Lemma cstr_nul l : Forall (λ c, c ≠ 0) l → cstr (l ++ [0]) = l.
Proof. intros Hl. by apply upto0_app_0. Qed.

Lemma lookup_at_no d cur nm : fs_ok d → inode_no cur → Forall (λ c, c ≠ 0) nm → 0 ≤ lookup_at d cur nm → inode_no (lookup_at d cur nm).
Proof.
  intros Hok Hi Hnm. unfold lookup_at. destruct (Z.eqb_spec (type (inode_at d cur)) SFS_DIR) as [E|E]; [|lia].
  destruct (find_name nm (dir_slots d cur)) as [r|] eqn:Ef; cbn; [|lia]. intros _.
  apply (find_name_no d cur (nm ++ [0]) Hok Hi E). by rewrite cstr_nul.
Qed.
Lemma lookup_at_neg d cur nm : fs_ok d → inode_no cur → Forall (λ c, c ≠ 0) nm → 0 ≤ lookup_at d cur nm ∨ lookup_at d cur nm = -1.
Proof.
  intros Hok Hi Hnm. unfold lookup_at. destruct (Z.eqb_spec (type (inode_at d cur)) SFS_DIR) as [E|E]; [|by right].
  destruct (find_name nm (dir_slots d cur)) as [r|] eqn:Ef; cbn; [left|by right].
  destruct (find_name_no d cur (nm ++ [0]) Hok Hi E r); [by rewrite cstr_nul|lia].
Qed.

Lemma node_type d i : fs_ok d → inode_no i →
  type (inode_at d i) = SFS_FREE ∨ type (inode_at d i) = SFS_FILE ∨ type (inode_at d i) = SFS_DIR.
Proof. intros Hok Hi. destruct (ok_node d Hok i Hi) as (_ & _ & _ & Hs). unfold size_ok in Hs. tauto. Qed.

Lemma sfs_type_run d i : fs_ok d → inode_no i → run_disk (sfs_type i) d = Some (type (inode_at d i), d).
Proof.
  intros Hok Hi. unfold sfs_type. rewrite (run_bind_Some _ _ _ _ _ (read_inode_run d i Hi)).
  destruct (node_type d i Hok Hi) as [E|[E|E]]; by rewrite E.
Qed.
Lemma sfs_size_run d i : inode_no i → run_disk (sfs_size i) d = Some (size (inode_at d i), d).
Proof. intros Hi. unfold sfs_size. by rewrite (run_bind_Some _ _ _ _ _ (read_inode_run d i Hi)). Qed.

Lemma node_size d i : fs_ok d → inode_no i → 0 ≤ size (inode_at d i) ≤ 7168.
Proof.
  intros Hok Hi. destruct (ok_node d Hok i Hi) as (_ & _ & _ & Hs).
  pose proof (inode_at_wf d i (ok_wf d Hok)) as Hwf. pose proof (length_owned _ Hwf) as Hl. unfold DIRECT in Hl.
  destruct Hwf as (_ & [Hz _] & _). unfold size_ok in Hs. destruct Hs as [(_ & _ & ?)|[(_ & ? & _)|(_ & ?)]]; lia.
Qed.

Lemma file_bytes_ok d i : fs_ok d → Forall is_byte (file_bytes d i).
Proof.
  intros Hok. unfold file_bytes. apply Forall_take, Forall_forall. intros x (b & Hx & _)%list_elem_of_bind.
  destruct (ok_wf d Hok b) as [_ Hb]. rewrite Forall_forall in Hb. by apply Hb.
Qed.

(** ** Entries *)

Lemma entry_name d dir x : fs_ok d → is_dir d dir → x ∈ entries d dir →
  Forall (λ c, 0 < c < 256) x.2 ∧ inode_no (x.1 - 1).
Proof.
  intros Hok [Hno Hty] Hx. split.
  - apply list_elem_of_filter in Hx as [_ Hx]. unfold dir_slots in Hx.
    apply list_elem_of_bind in Hx as (b & Hx & Hb). apply list_elem_of_fmap in Hx as (e & -> & He).
    destruct (ok_wf d Hok b) as [_ Hby]. cbn [snd slot_of]. pose proof (upto0_nonzero (de_name (sector d b) e)) as Hn.
    rewrite Forall_forall in Hn, Hby |- *. intros c Hc. specialize (Hn c Hc). cbn in Hn.
    assert (is_byte c) as Hc'.
    { apply Hby. assert (c ∈ de_name (sector d b) e) as Hin.
      { clear -Hc. unfold cstr in Hc. induction (de_name (sector d b) e) as [|y l IH]; [done|]. cbn [upto0] in Hc.
        destruct (truth y); [|by apply not_elem_of_nil in Hc]. apply elem_of_cons in Hc as [->|Hc]; [left|right; auto]. }
      unfold de_name in Hin. rewrite <-(take_drop (Z.to_nat (32 * e + 4)) (sector d b)). apply elem_of_app. by right. }
    unfold is_byte in Hc'. lia.
  - apply (entry_pos d dir Hok Hno Hty) in Hx. unfold inode_no, MAX_INODES in *. lia.
Qed.

Lemma entries_few d dir : fs_ok d → (length (entries d dir) ≤ 224)%nat.
Proof.
  intros Hok. pose proof (length_filter slot_used (dir_slots d dir)) as Hf. rewrite length_dir_slots in Hf.
  pose proof (length_owned _ (inode_at_wf d dir (ok_wf d Hok))). unfold entries, DIRECT in *. lia.
Qed.

(** ** Walking along a path *)

Fixpoint split_on (sep : Z) (l : list Z) : list (list Z) :=
  match l with
  | [] => [[]]
  | c :: l' =>
      if c =? sep then [] :: split_on sep l'
      else match split_on sep l' with [] => [[c]] | w :: ws => (c :: w) :: ws end
  end.

Lemma split_on_cons sep l : ∃ w ws, split_on sep l = w :: ws.
Proof. destruct l as [|c l]; cbn [split_on]; [eauto|]. destruct (c =? sep); [eauto|]. destruct (split_on sep l); eauto. Qed.

(** The parts of a path, cut to the 31 characters [resolve] has room for. *)
Definition components (path : list Z) : list (list Z) := take 31 <$> filter (λ w, w ≠ []) (split_on 47 path).
Definition walk (d : disk) (start : Z) (parts : list (list Z)) : Z :=
  foldl (λ cur nm, if cur <? 0 then -1 else lookup_at d cur nm) start parts.

Lemma walk_neg d parts : walk d (-1) parts = -1.
Proof. induction parts as [|p parts IH]; [done|]. cbn. apply IH. Qed.

Lemma walk_cons d cur nm parts : 0 ≤ cur → walk d cur (nm :: parts) = walk d (lookup_at d cur nm) parts.
Proof. intros Hc. unfold walk. cbn [foldl]. by rewrite (proj2 (Z.ltb_ge cur 0)). Qed.

(** The parts when [pre] has been read already. *)
Definition parts_from (pre text : list Z) : list (list Z) :=
  match split_on 47 text with [] => [] | w :: ws => take 31 <$> filter (λ w, w ≠ []) ((pre ++ w) :: ws) end.

Lemma parts_slash pre text : parts_from pre (47 :: text) =
  match pre with [] => parts_from [] text | _ => take 31 pre :: parts_from [] text end.
Proof.
  unfold parts_from. cbn [split_on]. change (47 =? 47) with true. cbn iota. rewrite app_nil_r.
  destruct (split_on_cons 47 text) as (w & ws & ->). cbn [app]. destruct pre as [|x pre]; [by rewrite filter_cons_False by tauto|by rewrite filter_cons_True].
Qed.
Lemma parts_char pre c text : c ≠ 47 → parts_from pre (c :: text) = parts_from (pre ++ [c]) text.
Proof.
  intros Hc. unfold parts_from. cbn [split_on]. rewrite (proj2 (Z.eqb_neq c 47) Hc).
  destruct (split_on_cons 47 text) as (w & ws & ->). by rewrite <-app_assoc.
Qed.

Section walks.
Context {HW L H : Type} {PW : Ports HW} {PC : PcPorts HW} {BL : BlockLayer L} {BS : BlockLayerSpec L}
  {AH : Allocator H} {AS : AllocatorSpec H}.
Abbreviation S := (shell HW L H).

(** Nothing but the result: [r] holds of it. *)
Definition just {A} (R : A → Prop) (live : gmap Z Z) (d : disk) (w : Z) : A → gmap Z Z → disk → Z → list Z → Prop :=
  λ a live' d' w' o, R a ∧ live' = live ∧ d' = d ∧ w' = w ∧ o = [].

Lemma resolve_loop_does text rest live d w : Forall (λ c, 0 < c < 256) text → ∀ pre cur,
  fs_inv d → is_dir d w → inode_no cur → Forall (λ c, 0 < c < 256) pre →
  does (HW := HW) (L := L) (H := H) (resolve_loop (text ++ 0 :: rest) cur (take 31 pre)) live d w
    (just (λ r, r = walk d cur (parts_from pre text) ∧ (0 ≤ r → inode_no r)) live d w).
Proof.
  intros Htext. induction Htext as [|c text Hc Htext IH]; intros pre cur Hinv Hdir Hcur Hpre; cbn [app resolve_loop].
  all: assert (Forall (λ c, c ≠ 0) (take 31 pre)) as Hnz by (apply Forall_take; eapply Forall_impl; [done|]; simpl; lia).
  - change (0 =? 47) with false. change (0 =? 0) with true. cbn [orb]. destruct pre as [|x pre].
    + cbn [take]. apply does_ret. unfold parts_from. cbn [split_on app]. rewrite filter_cons_False by tauto. done.
    + change (x :: take 30 pre) with (take 31 (x :: pre)). set (comp := take 31 (x :: pre)) in *.
      eapply does_disk_bind; [apply sfs_lookup_run; [apply Hinv|done|apply elem_of_app; right; left]|done|done|].
      rewrite cstr_nul by done. unfold parts_from. cbn [split_on app]. rewrite app_nil_r, filter_cons_True by done.
      cbn [filter list_filter fmap list_fmap]. fold comp. rewrite walk_cons by apply Hcur. cbn [walk foldl].
      destruct (Z.ltb_spec (lookup_at d cur comp) 0).
      * apply does_ret. destruct (lookup_at_neg d cur comp) as [?|E]; [apply Hinv|done|done|lia|]. rewrite E. split; [|done]. split; [done|lia].
      * apply does_ret. split; [|done]. split; [done|]. intros _. apply lookup_at_no; (done || apply Hinv).
  - destruct (Z.eqb_spec c 47) as [->|Hc47]; cbn [orb].
    + rewrite parts_slash. change (47 =? 0) with false. destruct pre as [|x pre]; cbn [take].
      * apply (IH [] cur); done.
      * change (x :: take 30 pre) with (take 31 (x :: pre)). set (comp := take 31 (x :: pre)) in *.
        eapply does_disk_bind; [apply sfs_lookup_run; [apply Hinv|done|apply elem_of_app; right; left]|done|done|].
        rewrite cstr_nul by done. rewrite walk_cons by apply Hcur.
        destruct (Z.ltb_spec (lookup_at d cur comp) 0).
        -- apply does_ret. destruct (lookup_at_neg d cur comp) as [?|E]; [apply Hinv|done|done|lia|]. rewrite E, walk_neg. split; [|done]. split; [done|lia].
        -- apply (IH []); try done. apply lookup_at_no; (done || apply Hinv).
    + rewrite (proj2 (Z.eqb_neq c 0)) by lia. rewrite parts_char by done.
      assert ((if (length (take 31 pre) <? 31)%nat then take 31 pre ++ [c] else take 31 pre) = take 31 (pre ++ [c])) as ->.
      { rewrite length_take. destruct (Nat.ltb_spec (31 `min` length pre) 31).
        - rewrite !take_ge by (rewrite ?length_app; simpl; lia). done.
        - rewrite take_app_le by lia. done. }
      apply IH; try done. apply Forall_app. split; [done|by constructor].
Qed.

(** A string argument. *)
Definition cstring (p : list Z) : Prop := 0 ∈ p ∧ Forall is_byte p.
Definition start_of (w : Z) (path : list Z) : Z := if default 0 (head path) =? 47 then SFS_ROOT else w.

Lemma cstring_text p : cstring p → ∃ rest, p = cstr p ++ 0 :: rest ∧ Forall (λ c, 0 < c < 256) (cstr p).
Proof.
  intros [H0 Hb]. destruct (cstr_spec p H0) as [rest E]. exists rest. split; [done|]. rewrite E in Hb.
  apply Forall_app in Hb as [Hb _]. pose proof (upto0_nonzero p) as Hn. rewrite Forall_forall in Hb, Hn |- *.
  intros c Hc. specialize (Hb c Hc). specialize (Hn c Hc). unfold is_byte in Hb. simpl in Hn. lia.
Qed.

Lemma root_no : inode_no SFS_ROOT.
Proof. unfold inode_no, SFS_ROOT, MAX_INODES. lia. Qed.

Lemma resolve_does path live d w : cstring path → fs_inv d → is_dir d w →
  does (HW := HW) (L := L) (H := H) (resolve path) live d w
    (just (λ r, r = walk d (start_of w path) (components (cstr path)) ∧ (0 ≤ r → inode_no r)) live d w).
Proof.
  intros Hp Hinv Hdir. destruct (cstring_text path Hp) as (rest & E & Ht). unfold resolve.
  destruct path as [|c path']; [destruct Hp as [?%not_elem_of_nil _]; done|]. set (path := c :: path') in *.
  eapply does_lift; [reflexivity|]. apply does_cwd. unfold start_of. cbn [head path default]. change (Datatypes.id c) with c.
  assert (components (cstr path) = parts_from [] (cstr path)) as ->.
  { unfold components, parts_from. by destruct (split_on_cons 47 (cstr path)) as (x & xs & ->). }
  rewrite E at 1. apply (resolve_loop_does (cstr path) rest live d w Ht []); try done.
  destruct (c =? 47); [apply root_no|apply Hdir].
Qed.
End walks.

(** ** Calls that change the disk, for a caller whose directory is [w] *)

Definition written (d : disk) (i : Z) (data : list Z) (d' : disk) : Prop :=
  type (inode_at d' i) = SFS_FILE ∧ file_bytes d' i = take (Z.to_nat MAX_BYTES) data ∧ ∀ j, inode_no j → j ≠ i → same_object d d' j.

(** The first [length data] bytes of a buffer. *)
Lemma write_cases d w i data rest : fs_inv d → is_dir d w → inode_no i → Forall is_byte (data ++ rest) →
  ∃ r d', run_disk (sfs_write i (data ++ rest) (Z.of_nat (length data))) d = Some (r, d') ∧ fs_inv d' ∧ is_dir d' w ∧
    (if decide (type (inode_at d i) = SFS_FILE) then written d i data d' else d' = d).
Proof.
  intros Hinv [Hw Hwt] Hi Hb. case_decide as Hty.
  - destruct (sfs_write_run d i (data ++ rest) (Z.of_nat (length data)) (proj1 Hinv) Hi Hty Hb) as (r & d' & E & Hok' & Hty' & _ & Hby & Hr & Hsame).
    { rewrite length_app. lia. }
    exists r, d'. split; [done|]. split; [by eapply write_inv|]. split.
    + split; [done|]. assert (w ≠ i) as Hne by (intros ->; by rewrite Hwt in Hty). by rewrite (proj1 (Hsame w Hw Hne)).
    + split; [done|]. split; [|done]. rewrite Hby, Hr. unfold MAX_BYTES.
      destruct (Z.min_spec (Z.of_nat (length data)) 7168) as [[? ->]|[? ->]].
      * rewrite Nat2Z.id, (take_ge data) by lia. apply take_app_length.
      * rewrite take_app_le by lia. done.
  - exists (-1), d. split; [by apply sfs_write_not_file|]. done.
Qed.

Lemma create_file_cases d w name : fs_inv d → is_dir d w → cstring name → lookup_at d w (cstr name) < 0 →
  ∃ r d', run_disk (sfs_create w name SFS_FILE) d = Some (r, d') ∧ fs_inv d' ∧ is_dir d' w ∧
    ((r = -1 ∧ d' = d ∧ ∀ i, inode_no i → type (inode_at d i) ≠ SFS_FREE) ∨
     (inode_no r ∧ created d w SFS_FILE r d' ∧ find_name (cstr name) (dir_slots d w) = None ∧
      added (dir_slots d w) (r + 1, take 27 (cstr name)) (dir_slots d' w))).
Proof.
  intros Hinv [Hw Hwt] [H0 Hb] Hl.
  destruct (sfs_create_full d w name SFS_FILE Hinv Hw Hwt H0 Hb (or_introl eq_refl)) as [[E Hwhy]|(ino & d' & E & Hinv' & Hf & Hcr & Hadd)].
  - exists (-1), d. split; [done|]. split; [done|]. split; [done|]. left. split; [done|]. split; [done|].
    destruct Hwhy as [[r Hr]|?]; [|done]. unfold lookup_at in Hl. rewrite Hwt, Hr in Hl. cbn in Hl.
    pose proof (find_name_no d w name (proj1 Hinv) Hw Hwt r Hr) as [? _]. lia.
  - exists ino, d'. split; [done|]. split; [done|]. split; [split; [done|apply Hcr]|]. right. split; [apply Hcr|done].
Qed.

Lemma unlink_keeps d w name : fs_inv d → is_dir d w → 0 ∈ name →
  ∃ r d', run_disk (sfs_unlink w name) d = Some (r, d') ∧ fs_inv d' ∧ is_dir d' w.
Proof.
  intros Hinv [Hw Hwt] H0. destruct (sfs_unlink_run d w name Hinv Hw Hwt H0) as [[E _]|(ino & pre & x & post & d' & E & H)].
  - by exists (-1), d.
  - destruct H as (_ & _ & _ & _ & _ & _ & _ & _ & Hinv' & _ & Hi & _). exists 0, d'. split; [done|]. split; [done|].
    split; [done|]. by rewrite Hi.
Qed.
