(* ===== verification/ShellRm.v ===== *)
(** * Removing a tree: [rm_rec] (kernel/shell.c)

    [rm -r] empties a directory by removing its first entry again and again,
    and calls itself for each.  On a disk that satisfies the invariant it
    always ends, and frees exactly the inodes below the name it is given. *)

From S2P Require Import Prelude CString Block Kheap Sfs SfsLayout SfsInv SfsFile SfsDir SfsOps SfsTree Shell ShellRun ShellFs.

(** ** The tree *)

(** Directory [i] names inode [j]. *)
Definition child (d : disk) (i j : Z) : Prop := inode_no i ∧ j + 1 ∈ targets d i.
(** [below d i j]: there is a path of names from [i] to [j]. *)
Definition below (d : disk) : Z → Z → Prop := rtc (child d).
Definition ranked (rank : Z → nat) (d : disk) : Prop := ∀ i j, child d i j → (rank i < rank j)%nat.

Section tree.
Context (d : disk) (Htree : fs_tree d).

Lemma tree_ranked : ∃ rank, ranked rank d.
Proof.
  destruct (tr_rank d Htree) as [rank Hr]. exists rank. intros i j [Hi Hj]. specialize (Hr i (j + 1) Hi Hj).
  by replace (j + 1 - 1) with j in Hr by lia.
Qed.

Lemma below_rank rank i j : ranked rank d → below d i j → (rank i ≤ rank j)%nat.
Proof. intros Hr Hb. induction Hb as [|i k j Hk _ IH]; [done|]. specialize (Hr i k Hk). lia. Qed.

Lemma child_facts i j : child d i j → inode_no j ∧ j ≠ SFS_ROOT ∧ j ≠ i ∧ type (inode_at d j) ≠ SFS_FREE.
Proof. intros [Hi Hj]. pose proof (tr_target d Htree i _ Hi Hj) as H. by replace (j + 1 - 1) with j in H by lia. Qed.

Lemma child_dir i j : child d i j → type (inode_at d i) = SFS_DIR.
Proof.
  intros [_ Hj]. destruct (decide (type (inode_at d i) = SFS_DIR)) as [E|E]; [done|].
  rewrite targets_other in Hj by done. by apply not_elem_of_nil in Hj.
Qed.

(** No cycles, and one parent each. *)
Lemma not_below_up i j : child d i j → ¬ below d j i.
Proof. intros Hc Hb. destruct tree_ranked as [rank Hr]. pose proof (Hr i j Hc). pose proof (below_rank rank j i Hr Hb). lia. Qed.

Lemma one_parent i k j : child d i j → child d k j → i = k.
Proof. intros [Hi H1] [Hk H2]. by eapply (tr_excl d Htree). Qed.

Lemma below_parent c i j : below d c j → child d i j → j = c ∨ below d c i.
Proof.
  intros Hb Hc. apply rtc_inv_r in Hb as [->|(k & Hk & Hkj)]; [by left|right]. by rewrite (one_parent i k j).
Qed.

Lemma below_no i j : inode_no i → below d i j → inode_no j.
Proof. intros Hi Hb. apply rtc_inv_r in Hb as [<-|(k & _ & Hk)]; [done|by apply (child_facts k)]. Qed.
End tree.

Lemma tc_below d i j : tc (child d) i j ↔ ∃ k, child d i k ∧ below d k j.
Proof.
  split.
  - intros [i' j' H|i' k j' Hk H]; [exists j'|exists k]; (split; [done|]); [apply rtc_refl|by apply tc_rtc].
  - intros (k & Hk & Hb). eapply tc_rtc_r; [by apply tc_once|done].
Qed.

Lemma below_mono d d' i j : (∀ k, inode_no k → targets d' k ⊆ targets d k) → below d' i j → below d i j.
Proof. intros Hs Hb. induction Hb as [|i k j [Hi Hk] _ IH]; [by apply rtc_refl|]. eapply rtc_l; [split; [done|by apply Hs]|done]. Qed.

Lemma ranked_mono rank d d' : (∀ k, inode_no k → targets d' k ⊆ targets d k) → ranked rank d → ranked rank d'.
Proof. intros Hs Hr i j [Hi Hj]. apply Hr. split; [done|by apply Hs]. Qed.

(** The dot entries. *)
Lemma find_dots nm l : nm = dot ∨ nm = dotdot → find_name nm l = find_name nm (filter isdot l).
Proof.
  intros Hnm. induction l as [|x l IH]; [done|]. rewrite filter_cons, find_name_cons. destruct (decide (isdot x)) as [Hx|Hx].
  - rewrite find_name_cons. by rewrite IH.
  - rewrite decide_False; [done|]. intros [Hu Hn]. apply Hx. split; [done|]. by rewrite Hn.
Qed.

Lemma dots_lookup d dir : fs_inv d → is_dir d dir → lookup_at d dir dot = dir ∧ is_dir d (lookup_at d dir dotdot) ∧
  (if decide (dir = SFS_ROOT) then lookup_at d dir dotdot = SFS_ROOT else child d (lookup_at d dir dotdot) dir).
Proof.
  intros (Hok & Htree & Hdots) [Hno Hty]. destruct (Hdots dir Hno Hty) as (p & Hp & Hpn & Hpt & Hpar).
  assert (lookup_at d dir dot = dir) as ->.
  { unfold lookup_at. rewrite Hty, find_dots, Hp by auto. cbn [Z.eqb SFS_DIR Pos.eqb].
    rewrite find_name_cons, decide_True; [cbn; lia|]. split; [destruct Hno; unfold slot_used; simpl; lia|done]. }
  assert (lookup_at d dir dotdot = p) as ->.
  { unfold lookup_at. rewrite Hty, find_dots, Hp by auto. cbn [Z.eqb SFS_DIR Pos.eqb].
    rewrite find_name_cons, decide_False, find_name_cons, decide_True; [cbn; lia| |by intros [_ ?]].
    split; [destruct Hpn; unfold slot_used; simpl; lia|done]. }
  split; [done|]. split; [done|]. case_decide; [done|]. by split.
Qed.

(** ** Freed trees *)

(** [freed d i gone d']: [d'] is [d] with the inodes that satisfy [gone] freed
    and every other one as it was, but for [i]. *)
Record freed (d : disk) (i : Z) (gone : Z → Prop) (d' : disk) : Prop := {
  fr_inv : fs_inv d';
  fr_free : ∀ j, gone j → type (inode_at d' j) = SFS_FREE;
  fr_same : ∀ j, inode_no j → ¬ gone j → j ≠ i → same_object d d' j;
  fr_node : inode_at d' i = inode_at d i;
  fr_stay : ∀ j, inode_no j → type (inode_at d j) = SFS_FREE → type (inode_at d' j) = SFS_FREE;
  fr_sub : ∀ j, inode_no j → targets d' j ⊆ targets d j;
}.

(** Everything in directory [i] is gone. *)
Definition emptied (d : disk) (i : Z) (d' : disk) : Prop :=
  freed d i (tc (child d) i) d' ∧ targets d' i = [].

(** The name for [ino] in [dir] is gone, with everything below [ino]. *)
Definition pruned (d : disk) (dir : Z) (nm : list Z) (ino : Z) (d' : disk) : Prop :=
  freed d dir (below d ino) d' ∧
  ∃ pre x post, dir_slots d dir = pre ++ x :: post ∧ Forall (λ y, ¬ slot_named nm y) pre ∧ slot_named nm x ∧
    x.1 = ino + 1 ∧ dir_slots d' dir = pre ++ (0, x.2) :: post.

Lemma cleared_targets d d' dir pre x post nm ino : type (inode_at d dir) = SFS_DIR → inode_at d' dir = inode_at d dir →
  dir_slots d dir = pre ++ x :: post → dir_slots d' dir = pre ++ (0, x.2) :: post → slot_named nm x → nm ≠ dot → nm ≠ dotdot →
  x.1 = ino + 1 → targets d dir ≡ₚ (ino + 1) :: targets d' dir.
Proof.
  intros Hty Hno Hsl Hsl' [Hu Hn] H1 H2 Hx. rewrite !targets_dir, Hsl, Hsl' by (by rewrite ?Hno). rewrite !live_targets_app, !live_targets_cons.
  rewrite (decide_True (P := live x)) by (unfold live; by rewrite Hn). rewrite decide_False by (intros [E _]; by apply E).
  rewrite Hx. cbn [app]. symmetry. apply Permutation_middle.
Qed.

Lemma pruned_targets d dir nm ino d' : type (inode_at d dir) = SFS_DIR → nm ≠ dot → nm ≠ dotdot →
  pruned d dir nm ino d' → targets d dir ≡ₚ (ino + 1) :: targets d' dir.
Proof. intros Hty H1 H2 [Hf (pre & x & post & Hsl & _ & Hx & Hx1 & Hsl')]. exact (cleared_targets d d' dir pre x post nm ino Hty (fr_node _ _ _ _ Hf) Hsl Hsl' Hx H1 H2 Hx1). Qed.

Lemma emptied_nothing d i : fs_inv d → targets d i = [] → emptied d i d.
Proof.
  intros Hinv Hnone. split; [|done]. split; try done.
  intros j Hj. exfalso. destruct Hj as [i j [_ Hc]|i k j [_ Hc] _]; rewrite Hnone in Hc; by apply not_elem_of_nil in Hc.
Qed.

(** Removing one entry and then the rest. *)
Lemma emptied_cons d i nm c d1 d2 : fs_inv d → inode_no i → type (inode_at d i) = SFS_DIR → nm ≠ dot → nm ≠ dotdot →
  pruned d i nm c d1 → emptied d1 i d2 → emptied d i d2.
Proof.
  intros (_ & Htree & _) Hi Hty H1 H2 Hp [He Hnone]. pose proof (pruned_targets d i nm c d1 Hty H1 H2 Hp) as Hperm.
  destruct Hp as [Hp _]. assert (child d i c) as Hc by (split; [done|]; rewrite Hperm; left).
  assert (∀ k j, below d k j → ¬ below d c k → k ≠ i → ¬ below d k i → below d1 k j) as Hkeep.
  { intros k j Hb. induction Hb as [k|k m j Hkm _ IH]; intros Hk Hki Hkb; [by apply rtc_refl|].
    destruct (child_facts d Htree k m Hkm) as (Hm & _). pose proof Hkm as [Hkn Hin].
    assert (m ≠ i) as Hmi by (intros ->; apply Hkb; by apply rtc_once).
    eapply rtc_l; [split; [done|]|apply IH].
    - by rewrite (same_object_targets _ _ _ (fr_same _ _ _ _ Hp k Hkn Hk Hki)).
    - intros Hcm. destruct (below_parent d Htree c k m Hcm Hkm) as [->|?]; [|done]. by rewrite (one_parent d Htree k i c Hkm Hc) in Hki.
    - done.
    - intros Hmi'. apply Hkb. by eapply rtc_l. }
  split; [|done]. split.
  - apply He.
  - intros j (k & Hk & Hb)%tc_below. destruct (decide (k = c)) as [->|Hkc].
    + apply (fr_stay _ _ _ _ He); [|by apply (fr_free _ _ _ _ Hp)]. eapply (below_no d Htree c); [by eapply child_facts|done].
    + apply (fr_free _ _ _ _ He), tc_below. exists k. split.
      * split; [done|]. destruct Hk as [_ Hk]. rewrite Hperm in Hk. apply elem_of_cons in Hk as [?|?]; [lia|done].
      * apply Hkeep; [done| |by eapply child_facts|by apply not_below_up].
        intros Hck. destruct (below_parent d Htree c i k Hck Hk) as [->|?]; [done|]. by apply (not_below_up d Htree i c Hc).
  - intros j Hj Hng Hji. eapply same_object_trans.
    + apply (fr_same _ _ _ _ Hp); [done| |done]. intros Hb. apply Hng, tc_below. eauto.
    + apply (fr_same _ _ _ _ He); [done| |done]. intros (k & [_ Hk] & Hb)%tc_below. apply Hng, tc_below.
      exists k. split; [split; [done|by apply (fr_sub _ _ _ _ Hp)]|]. eapply below_mono; [apply Hp|done].
  - by rewrite (fr_node _ _ _ _ He), (fr_node _ _ _ _ Hp).
  - intros j Hj Hf. by apply (fr_stay _ _ _ _ He), (fr_stay _ _ _ _ Hp).
  - intros j Hj. etrans; [by apply (fr_sub _ _ _ _ He)|by apply (fr_sub _ _ _ _ Hp)].
Qed.

(** ** The program *)

Lemma first_child_run d ino n i : fs_ok d → is_dir d ino → 0 ≤ i → (length (drop (Z.to_nat i) (entries d ino)) < n)%nat →
  run_disk (first_child n ino i) d =
    Some ((λ x, x.2 ++ [0]) <$> head (filter live (drop (Z.to_nat i) (entries d ino))), d).
Proof.
  intros Hok Hdir. revert i. induction n as [|n IH]; intros i Hi Hn; [lia|]. cbn [first_child]. pose proof Hdir as [Hno Hty].
  rewrite (run_bind_Some _ _ _ _ _ (sfs_readdir_run d ino Hok Hno Hty i 32 Hi ltac:(lia))).
  destruct (entries d ino !! Z.to_nat i) as [x|] eqn:Ex; cbn [from_option fst snd].
  2: { rewrite (drop_ge (entries d ino)) by (by apply lookup_ge_None). done. }
  destruct (entry_name d ino x Hok Hdir) as [Hby Hx]; [by eapply list_elem_of_lookup_2|].
  rewrite (drop_S _ _ _ Ex) in Hn |- *. cbn [length] in Hn.
  assert (slot_used x) as Hu by (apply list_elem_of_lookup_2 in Ex; by apply list_elem_of_filter in Ex as [? _]).
  assert (Forall (λ c, c ≠ 0) x.2) as Hnz by (eapply Forall_impl; [exact Hby|]; simpl; lia).
  cbn [entry_result fst snd]. rewrite (proj2 (Z.ltb_ge (x.1 - 1) 0)) by apply Hx.
  assert (0 ∈ x.2 ++ [0]) as H0 by (apply elem_of_app; right; left).
  rewrite is_lit_spec, cstr_nul by done. cbn [of_option from_option]. change (cstr (lit ".")) with dot.
  rewrite is_lit_spec, cstr_nul by done. cbn [of_option from_option]. change (cstr (lit "..")) with dotdot.
  replace (Datatypes.S (Z.to_nat i)) with (Z.to_nat (i + 1)) in * by lia. rewrite filter_cons.
  destruct (decide (x.2 = dot)) as [E|E]; [|destruct (decide (x.2 = dotdot)) as [E2|E2]].
  - rewrite (bool_decide_eq_true_2 (x.2 = dot)) by done. rewrite decide_False by (intros (_ & ? & _); done). apply IH; lia.
  - rewrite (bool_decide_eq_false_2 (x.2 = dot)), (bool_decide_eq_true_2 (x.2 = dotdot)) by done.
    rewrite decide_False by (intros (_ & _ & ?); done). apply IH; lia.
  - rewrite (bool_decide_eq_false_2 (x.2 = dot)), (bool_decide_eq_false_2 (x.2 = dotdot)) by done. by rewrite decide_True by done.
Qed.

Lemma live_entries d ino : filter live (entries d ino) = filter live (dir_slots d ino).
Proof. unfold entries. rewrite list_filter_filter. apply list_filter_iff. unfold live. tauto. Qed.

Lemma few_targets d ino : fs_ok d → (length (targets d ino) < COUNT_FUEL)%nat.
Proof.
  intros Hok. unfold targets, COUNT_FUEL. case_match; [|simpl; lia]. unfold live_targets. rewrite length_fmap, <-live_entries.
  pose proof (length_filter live (entries d ino)). pose proof (entries_few d ino Hok). lia.
Qed.

(** What the loop needs of the recursive call. *)
Definition prunes (rank : Z → nat) (ino : Z) (rm : list Z → prog Z) : Prop := ∀ d nm c,
  fs_inv d → ranked rank d → is_dir d ino → 0 ∈ nm → cstr nm ≠ dot → cstr nm ≠ dotdot →
  find_name (cstr nm) (dir_slots d ino) = Some c → ∃ d', run_disk (rm nm) d = Some (0, d') ∧ pruned d ino (cstr nm) c d'.

Lemma empty_dir_run rank rm ino n d : prunes rank ino rm → fs_inv d → ranked rank d → is_dir d ino →
  (length (targets d ino) < n)%nat → ∃ d', run_disk (empty_dir n rm ino) d = Some (tt, d') ∧ emptied d ino d'.
Proof.
  intros Hrm. revert d. induction n as [|n IH]; intros d Hinv Hr Hdir Hn; [lia|]. cbn [empty_dir].
  pose proof Hinv as (Hok & Htree & _). pose proof Hdir as [Hno Hty].
  rewrite (run_bind_Some _ _ _ _ _ (first_child_run d ino COUNT_FUEL 0 Hok Hdir ltac:(done)
    ltac:(pose proof (entries_few d ino Hok); rewrite drop_0; unfold COUNT_FUEL; lia))).
  rewrite drop_0, live_entries. destruct (filter live (dir_slots d ino)) as [|x l] eqn:Ef; cbn [head fmap option_fmap option_map].
  { exists d. split; [done|]. apply emptied_nothing; [done|]. rewrite targets_dir by done. unfold live_targets. by rewrite Ef. }
  assert (x ∈ filter live (dir_slots d ino)) as ((Hu & Hd1 & Hd2) & Hx)%list_elem_of_filter by (rewrite Ef; left).
  destruct (entry_name d ino x Hok Hdir) as [Hby _]; [by apply list_elem_of_filter|].
  assert (cstr (x.2 ++ [0]) = x.2) as Hcs by (apply cstr_nul; eapply Forall_impl; [exact Hby|]; simpl; lia).
  destruct (find_name x.2 (dir_slots d ino)) as [c|] eqn:Ec.
  2: { apply find_name_None in Ec. rewrite Forall_forall in Ec. by destruct (Ec x Hx). }
  destruct (Hrm d (x.2 ++ [0]) c) as (d1 & E1 & Hp); [done|done|done|apply elem_of_app; right; left|by rewrite Hcs|by rewrite Hcs|by rewrite Hcs|].
  rewrite Hcs in Hp. rewrite (run_bind_Some _ _ _ _ _ E1). pose proof (pruned_targets d ino x.2 c d1 Hty Hd1 Hd2 Hp) as Hperm.
  destruct (IH d1) as (d2 & E2 & He).
  - apply Hp.
  - eapply ranked_mono; [apply Hp|done].
  - split; [done|]. by rewrite (fr_node _ _ _ _ (proj1 Hp)).
  - apply Permutation_length in Hperm. simpl in Hperm. lia.
  - exists d2. split; [done|]. by eapply emptied_cons.
Qed.

(** Inode numbers, each once. *)
Lemma few_inodes l : NoDup l → Forall inode_no l → (length l ≤ 64)%nat.
Proof.
  intros Hnd Hl. assert (l ⊆+ seqZ 0 64) as Hs.
  { apply NoDup_submseteq; [done|]. intros i Hi. rewrite Forall_forall in Hl. specialize (Hl i Hi). apply elem_of_seqZ. exact Hl. }
  apply submseteq_length in Hs. by rewrite length_seqZ in Hs.
Qed.

(** The last step: [sfs_unlink] of an object that is empty by now. *)
Lemma unlink_pruned d dir name ino d1 : fs_inv d → is_dir d dir → 0 ∈ name → cstr name ≠ dot → cstr name ≠ dotdot →
  find_name (cstr name) (dir_slots d dir) = Some ino → emptied d ino d1 →
  ∃ d', run_disk (sfs_unlink dir name) d1 = Some (0, d') ∧ pruned d dir (cstr name) ino d'.
Proof.
  intros (Hok & Htree & _) [Hno Hty] H0 H1 H2 Hf [He Hnone].
  assert (child d dir ino) as Hc by (split; [done|by eapply find_target]).
  destruct (child_facts d Htree dir ino Hc) as (Hin & _ & Hne & _). pose proof (not_below_up d Htree dir ino Hc) as Hnb.
  assert (same_object d d1 dir) as Hsd. { apply (fr_same _ _ _ _ He); [done| |done]. intros Hb. by apply Hnb, tc_rtc. }
  destruct (sfs_unlink_run d1 dir name (fr_inv _ _ _ _ He) Hno ltac:(by rewrite (proj1 Hsd)) H0)
    as [[E Hwhy]|(ino' & pre & x & post & d' & E & Hf' & Hemp & Hi & Hne' & Hsl & Hpre & Hx & Hsl' & Hinv' & Hz & Hty' & Hframe)].
  { rewrite (same_object_slots _ _ _ Hsd), Hf in Hwhy. destruct Hwhy as [?|[?|[?|(ino' & E' & He')]]]; [done..|]. injection E' as <-.
    rewrite not_empty_targets in He' by (done || apply He). by rewrite Hnone, bool_decide_eq_false_2 in He' by auto. }
  rewrite (same_object_slots _ _ _ Hsd) in Hf', Hsl. rewrite Hf in Hf'. injection Hf' as <-.
  assert (x.1 = ino + 1) as Hx1.
  { rewrite Hsl, (find_name_split _ _ _ _ Hpre Hx) in Hf. injection Hf as <-. lia. }
  assert (inode_at d' dir = inode_at d dir) as Hnode by (by rewrite Hty', (proj1 Hsd)).
  pose proof (cleared_targets d d' dir pre x post (cstr name) ino Hty Hnode Hsl Hsl' Hx H1 H2 Hx1) as Hperm.
  exists d'. split; [done|]. split; [|by exists pre, x, post]. split; [done|..].
  - intros j Hj. apply rtc_tc in Hj as [<-|Hj]; [by rewrite Hz|].
    assert (j ≠ ino ∧ j ≠ dir) as [? ?].
    { split; intros ->; [|by apply Hnb, tc_rtc]. apply tc_below in Hj as (k & Hk & Hb). by apply (not_below_up d Htree ino k Hk). }
    rewrite (proj1 (Hframe j ltac:(eapply (below_no d Htree ino); [done|by apply tc_rtc]) ltac:(done) ltac:(done))).
    by apply (fr_free _ _ _ _ He).
  - intros j Hj Hnb' Hjd. assert (j ≠ ino) by (intros ->; by apply Hnb', rtc_refl).
    eapply same_object_trans; [apply (fr_same _ _ _ _ He)|by apply Hframe]; [done| |done].
    intros Hb. by apply Hnb', tc_rtc.
  - done.
  - intros j Hj Hfr. destruct (decide (j = ino)) as [->|Hji]; [by rewrite Hz|].
    destruct (decide (j = dir)) as [->|Hjd]; [by rewrite Hnode|].
    rewrite (proj1 (Hframe j Hj Hji Hjd)). by apply (fr_stay _ _ _ _ He).
  - intros j Hj. destruct (decide (j = ino)) as [->|Hji]; [rewrite (targets_other d' ino) by (by rewrite Hz); set_solver|].
    destruct (decide (j = dir)) as [->|Hjd]; [intros t Ht; rewrite Hperm; by right|].
    rewrite (same_object_targets _ _ _ (Hframe j Hj Hji Hjd)). by apply (fr_sub _ _ _ _ He).
Qed.

(** [path]: the directories the recursion came through. *)
Lemma rm_rec_prunes rank n dir path : NoDup path → Forall inode_no path → Forall (λ p, (rank p ≤ rank dir)%nat) path →
  (65 ≤ length path + n)%nat → prunes rank dir (rm_rec n dir).
Proof.
  revert dir path. induction n as [|n IH]; intros dir path Hnd Hno Hrk Hn.
  { pose proof (few_inodes path Hnd Hno). lia. }
  intros d nm ino Hinv Hr Hdir H0 H1 H2 Hf. pose proof Hinv as (Hok & Htree & _). pose proof Hdir as [Hdn Hdt].
  assert (child d dir ino) as Hc by (split; [done|by eapply find_target]).
  destruct (child_facts d Htree dir ino Hc) as (Hin & _). pose proof (Hr dir ino Hc) as Hlt.
  cbn [rm_rec]. rewrite (run_bind_Some _ _ _ _ _ (sfs_lookup_run d dir nm Hok Hdn H0)).
  assert (lookup_at d dir (cstr nm) = ino) as -> by (unfold lookup_at; by rewrite Hdt, Hf).
  rewrite (proj2 (Z.ltb_ge ino 0)) by apply Hin. rewrite (run_bind_Some _ _ _ _ _ (sfs_type_run d ino Hok Hin)).
  destruct (Z.eqb_spec (type (inode_at d ino)) SFS_DIR) as [E|E].
  - destruct (empty_dir_run rank (rm_rec n ino) ino COUNT_FUEL d) as (d1 & E1 & He); [|done|done|done|by apply few_targets|].
    + apply (IH ino (ino :: path)).
      * apply NoDup_cons. split; [|done]. intros Hp. rewrite Forall_forall in Hrk. specialize (Hrk ino Hp). lia.
      * by constructor.
      * constructor; [done|]. eapply Forall_impl; [exact Hrk|]. simpl. lia.
      * cbn [length]. lia.
    + rewrite (run_bind_Some _ _ _ _ _ E1). by apply unlink_pruned.
  - change (∃ d', run_disk (sfs_unlink dir nm) d = Some (0, d') ∧ pruned d dir (cstr nm) ino d'). apply unlink_pruned; [done..|]. apply emptied_nothing; [done|by apply targets_other].
Qed.

Lemma rm_rec_missing n d dir name : fs_ok d → inode_no dir → 0 ∈ name → lookup_at d dir (cstr name) = -1 →
  run_disk (rm_rec (S n) dir name) d = Some (-1, d).
Proof. intros Hok Hdn H0 Hl. cbn [rm_rec]. by rewrite (run_bind_Some _ _ _ _ _ (sfs_lookup_run d dir name Hok Hdn H0)), Hl. Qed.

Lemma rm_rec_dots n d d1 dir name : let ino := lookup_at d dir (cstr name) in
  fs_ok d → inode_no dir → 0 ∈ name → cstr name = dot ∨ cstr name = dotdot → inode_no ino → type (inode_at d ino) = SFS_DIR →
  run_disk (empty_dir COUNT_FUEL (rm_rec n ino) ino) d = Some (tt, d1) → run_disk (rm_rec (S n) dir name) d = Some (-1, d1).
Proof.
  intros ino Hok Hdn H0 Hd Hin Hit E1. cbn [rm_rec].
  rewrite (run_bind_Some _ _ _ _ _ (sfs_lookup_run d dir name Hok Hdn H0)). fold ino.
  rewrite (proj2 (Z.ltb_ge ino 0)) by apply Hin. rewrite (run_bind_Some _ _ _ _ _ (sfs_type_run d ino Hok Hin)), Hit.
  change (SFS_DIR =? SFS_DIR) with true. cbn iota. rewrite (run_bind_Some _ _ _ _ _ E1). by apply sfs_unlink_dots.
Qed.

(** [rm_rec] in full. *)
Lemma rm_rec_run d dir name (Hinv : fs_inv d) (Hdir : is_dir d dir) (Hnul : 0 ∈ name) :
  let ino := lookup_at d dir (cstr name) in
  ∃ r d', run_disk (rm_rec RM_DEPTH dir name) d = Some (r, d') ∧ fs_inv d' ∧
    ((ino < 0 ∧ r = -1 ∧ d' = d) ∨
     (inode_no ino ∧ r = 0 ∧ cstr name ≠ dot ∧ cstr name ≠ dotdot ∧ pruned d dir (cstr name) ino d') ∨
     (inode_no ino ∧ r = -1 ∧ (cstr name = dot ∨ cstr name = dotdot) ∧ emptied d ino d')).
Proof.
  intros ino. pose proof Hinv as (Hok & Htree & Hdots). pose proof Hdir as [Hdn Hdt]. destruct (tree_ranked d Htree) as [rank Hr].
  destruct (lookup_at_neg d dir (cstr name) Hok Hdn (upto0_nonzero name)) as [Hl|Hl]; fold ino in Hl.
  2: { exists (-1), d. split; [by apply (rm_rec_missing 64)|]. split; [done|]. left. split; [lia|done]. }
  pose proof (lookup_at_no d dir (cstr name) Hok Hdn (upto0_nonzero name) Hl) as Hin. fold ino in Hin.
  destruct (decide (cstr name = dot ∨ cstr name = dotdot)) as [Hd|Hd].
  - assert (type (inode_at d ino) = SFS_DIR) as Hit.
    { unfold ino. destruct (dots_lookup d dir Hinv Hdir) as (E1 & [_ E2] & _). by destruct Hd as [->| ->]; [rewrite E1|]. }
    destruct (empty_dir_run rank (rm_rec 64 ino) ino COUNT_FUEL d) as (d1 & E1 & He); [|done|done|done|by apply few_targets|].
    + apply (rm_rec_prunes rank 64 ino [ino]); [apply NoDup_singleton|by apply Forall_singleton..|simpl; lia].
    + exists (-1), d1. split; [by apply (rm_rec_dots 64 d d1)|]. split; [apply He|by right; right].
  - assert (find_name (cstr name) (dir_slots d dir) = Some ino) as Hf.
    { revert Hl. unfold ino, lookup_at. rewrite Hdt. cbn [Z.eqb SFS_DIR Pos.eqb]. destruct (find_name (cstr name) (dir_slots d dir)) as [r|]; [done|]. cbn. lia. }
    destruct (rm_rec_prunes rank RM_DEPTH dir [dir]) with (d := d) (nm := name) (c := ino) as (d' & E & Hp);
      [apply NoDup_singleton|by apply Forall_singleton|by apply Forall_singleton|simpl; unfold RM_DEPTH; lia|done|done|done|done|tauto|tauto|done|].
    exists 0, d'. split; [done|]. split; [apply Hp|]. right. left. tauto.
Qed.
