(* ===== verification/ShellSpec.v ===== *)
(** * What the shell commands do

    Each file command returns in every case, gives back the memory it took,
    and does to the filesystem what its name says. *)

From S2P Require Import Prelude Ports Devices CString Serial Screen Block Kheap Alloc Sfs SfsLayout SfsInv SfsFile SfsDir SfsOps SfsTree Shell ShellRun ShellFs.

(** A file as [cat] shows it: up to a terminator, with a newline at the end. *)
Definition shown (bytes : list Z) : list Z :=
  cstr (bytes ++ [0]) ++ match last bytes with Some c => if c =? 10 then [] else [10] | None => [] end.

Lemma lit_ln_cstring s : cstring (lit_ln s).
Proof.
  unfold lit_ln. split; [apply elem_of_app; right; right; left|]. apply Forall_app. split; [|by repeat constructor].
  pose proof (lit_bytes s) as H. unfold lit in H. by apply Forall_app in H as [H _].
Qed.
Lemma lit_cstring s : cstring (lit s).
Proof. split; [apply lit_nul|apply lit_bytes]. Qed.
#[export] Hint Resolve lit_cstring lit_ln_cstring : os.

(** The arguments a command can get. *)
Definition is_arg (a : option (list Z)) : Prop := match a with None => True | Some p => cstring p end.
(** [path && path[0]]: the text of the argument, if there is any. *)
Definition text_of (a : option (list Z)) : option (list Z) :=
  match a with Some p => if decide (cstr p = []) then None else Some p | None => None end.

(** Only [d'] and [w'] may differ, as [R] says, and [o] was printed. *)
Definition leaves (live : gmap Z Z) (R : disk → Z → list Z → Prop) :
    unit → gmap Z Z → disk → Z → list Z → Prop := λ _ live' d w o, live' = live ∧ R d w o.

(** The end of a branch. *)
Ltac ends := unfold leaves, after_text; cbv beta; split_and!; auto.

Section commands.
Context {HW L H : Type} {PW : Ports HW} {PC : PcPorts HW} {BL : BlockLayer L} {BS : BlockLayerSpec L}
  {AH : Allocator H} {AS : AllocatorSpec H}.
Abbreviation S := (shell HW L H).
Abbreviation post A := (A → gmap Z Z → disk → Z → list Z → Prop).

Lemma does_say_ln s live d w (Q : post unit) : Q tt live d w (cstr (lit_ln s)) → does (HW := HW) (L := L) (H := H) (say_ln s) live d w Q.
Proof. intros HQ. destruct (lit_ln_cstring s). by eapply does_print. Qed.
Lemma does_say_ln_bind {B} s (k : unit → M S B) live d w Q : does (k tt) live d w (after_text Q (cstr (lit_ln s))) →
  does (say_ln s ≫= k) live d w Q.
Proof. intros HQ. destruct (lit_ln_cstring s). by eapply does_print_bind. Qed.

Lemma given_on h {B} a (k : option (list Z) → M S B) live d w Q : is_arg a →
  does_on h (k (text_of a)) live d w Q → does_on h (given a ≫= k) live d w Q.
Proof.
  intros Ha Hk s Hs Hh. destruct (Hk s Hs Hh) as (b & s' & Hb). exists b, s'. destruct a as [p|]; [|done]. unfold given, text_of in *.
  destruct p as [|c p]; [destruct Ha as [?%not_elem_of_nil _]; done|]. cbn [head].
  rewrite bind_assoc. unfold lift at 1. cbn [fmap option_fmap option_map]. unfold mbind at 1, M_bind at 1. rewrite bind_ret.
  unfold cstr in Hb. cbn [upto0] in Hb. destruct (truth c); [by rewrite decide_False in Hb by done|by rewrite decide_True in Hb by done].
Qed.
Lemma given_does {B} a (k : option (list Z) → M S B) live d w Q : is_arg a → does (k (text_of a)) live d w Q → does (given a ≫= k) live d w Q.
Proof. intros Ha Hk. apply on_any_does. intros h. by apply given_on, does_on_any. Qed.

Lemma resolve_on h {B} p (k : Z → M S B) live d w Q : cstring p → fs_inv d → is_dir d w →
  let r := walk d (start_of w p) (components (cstr p)) in
  ((0 ≤ r → inode_no r) → does_on h (k r) live d w Q) → does_on h (resolve p ≫= k) live d w Q.
Proof.
  intros Hp Hinv Hdir r Hk. eapply does_on_bind; [by apply (resolve_does p live d w)|apply quiet_resolve|].
  intros r' l' d' w' o _ _ ((-> & Hno) & -> & -> & -> & ->). by apply Hk.
Qed.

(** What [cd] prints. *)
Definition cd_text (d : disk) (w : Z) (a : option (list Z)) : list Z :=
  match text_of a with
  | None => []
  | Some p =>
      let r := walk d (start_of w p) (components (cstr p)) in
      if r <? 0 then cstr (lit_ln "cd: no such directory")
      else if type (inode_at d r) =? SFS_DIR then [] else cstr (lit_ln "cd: not a directory")
  end.

Lemma cmd_cd_does a live d w : is_arg a → fs_inv d → is_dir d w →
  does (HW := HW) (L := L) (H := H) (cmd_cd a) live d w (leaves live (λ d' w' o, d' = d ∧ is_dir d' w' ∧
    w' = match text_of a with
         | None => SFS_ROOT
         | Some p => let r := walk d (start_of w p) (components (cstr p)) in
             if (0 <=? r) && (type (inode_at d r) =? SFS_DIR) then r else w
         end ∧ o = cd_text d w a)).
Proof.
  intros Ha Hinv Hdir. unfold cmd_cd, cd_text. apply given_does; [done|]. destruct (text_of a) as [p|] eqn:Ep.
  - assert (cstring p) as Hp. { destruct a as [q|]; [|done]. cbn in Ep. by case_decide; simplify_eq. }
    eapply does_bind; [by apply (resolve_does p live d w)|]. intros r l' d' w' o _ _ ((-> & Hno) & -> & -> & -> & ->). cbv zeta.
    set (r := walk d (start_of w p) (components (cstr p))) in *. destruct (Z.ltb_spec r 0).
    + apply does_say_ln. rewrite (proj2 (Z.leb_gt 0 r)) by lia. done.
    + rewrite (proj2 (Z.leb_le 0 r)) by lia. eapply does_disk_bind; [apply sfs_type_run; [apply Hinv|auto]|done|done|].
      destruct (Z.eqb_spec (type (inode_at d r)) SFS_DIR) as [E|E]; cbn [negb andb].
      * apply does_set_cwd; [split; auto|]. split; [done|]. split; [done|]. split; [split; auto|done].
      * apply does_say_ln. done.
  - apply does_set_cwd; [split; [apply root_no|apply (proj1 Hinv)]|]. split; [done|]. split; [done|].
    split; [split; [apply root_no|apply (proj1 Hinv)]|done].
Qed.

(** What [cat] prints; [mem n] tells whether the heap serves [n] bytes. *)
Definition cat_text (mem : Z → bool) (d : disk) (w : Z) (a : option (list Z)) : list Z :=
  match text_of a with
  | None => cstr (lit_ln "cat: need a file")
  | Some p =>
      let r := walk d (start_of w p) (components (cstr p)) in
      if r <? 0 then cstr (lit_ln "cat: no such file")
      else if type (inode_at d r) =? SFS_FILE then
        if mem (Z.of_nat (length (file_bytes d r)) + 1) then shown (file_bytes d r) else cstr (lit_ln "cat: out of memory")
      else cstr (lit_ln "cat: not a file")
  end.

(** After the last call the block is freed. *)
Lemma does_free_last p n t live d w (Q : post unit) : live !! p = None → Q tt live d w t →
  does (HW := HW) (L := L) (H := H) (free p) (<[p := n]> live) d w (after_text Q t).
Proof.
  intros Hp HQ. eapply does_free; [apply lookup_insert_eq|]. rewrite delete_insert_id by done.
  unfold after_text. by rewrite app_nil_r.
Qed.

Lemma cmd_cat_does h a live d w : is_arg a → fs_inv d → is_dir d w →
  does_on (HW := HW) (L := L) h (cmd_cat a) live d w (leaves live (λ d' w' o, d' = d ∧ w' = w ∧ o = cat_text (serves h) d w a)).
Proof.
  intros Ha Hinv Hdir. unfold cmd_cat. apply given_on; [done|]. unfold cat_text. destruct (text_of a) as [p|] eqn:Ep.
  2: { apply does_on_any, does_say_ln. ends. }
  assert (cstring p) as Hp. { destruct a as [q|]; [|done]. cbn in Ep. case_decide; by simplify_eq. }
  apply resolve_on; [done..|]. intros Hno.
  set (r := walk d (start_of w p) (components (cstr p))) in *. cbv zeta. destruct (Z.ltb_spec r 0).
  { apply does_on_any, does_say_ln. ends. }
  eapply does_on_disk_bind; [apply sfs_type_run; [apply Hinv|auto]|done|done|].
  destruct (Z.eqb_spec (type (inode_at d r)) SFS_FILE) as [E|E]; cbn [negb].
  2: { apply does_on_any, does_say_ln. ends. }
  specialize (Hno ltac:(done)). pose proof (node_size d r (proj1 Hinv) Hno) as Hsz. pose proof (length_file_bytes d r (proj1 Hinv) Hno) as Hlen.
  eapply does_on_disk_bind; [by apply sfs_size_run|done|done|]. rewrite (u32_small (size (inode_at d r) + 1)) by lia.
  replace (Z.of_nat (length (file_bytes d r)) + 1) with (size (inode_at d r) + 1) by lia.
  apply does_on_malloc; [lia|intros ->|intros ->].
  { change (truth 0) with false. cbn [negb]. apply does_say_ln. ends. }
  intros buf Hbuf Hfresh. rewrite (proj2 (truth_true buf) Hbuf). cbn [negb].
  eapply does_disk_bind; [apply sfs_read_run; [apply Hinv|done|lia]|done|done|].
  rewrite take_ge by lia. pose proof (file_bytes_ok d r (proj1 Hinv)) as Hby.
  eapply does_print_bind; [apply elem_of_app; right; left|by apply Forall_app; split; [|repeat constructor]|reflexivity|].
  unfold shown. destruct (last (file_bytes d r)) as [c|]; [destruct (Z.eqb_spec c 10) as [->|Hc]|]; cbn [negb].
  1, 3: apply does_ret_bind; apply does_free_last; [done|]; rewrite app_nil_r; ends.
  apply does_say_ln_bind, does_free_last; [done|]. ends.
Qed.

(** *** Writing a file by name *)

(** [d'] is [d] with [bytes] in the file called [nm] in directory [w]: one that
    was there, or a new one. *)
Definition stored (d : disk) (w : Z) (nm bytes : list Z) (d' : disk) : Prop :=
  ∃ i, inode_no i ∧ type (inode_at d' i) = SFS_FILE ∧ file_bytes d' i = take (Z.to_nat MAX_BYTES) bytes ∧
    (i = lookup_at d w nm ∧ type (inode_at d i) = SFS_FILE ∧ dir_slots d' w = dir_slots d w ∨
     lookup_at d w nm = -1 ∧ type (inode_at d i) = SFS_FREE ∧ added (dir_slots d w) (i + 1, take 27 nm) (dir_slots d' w)) ∧
    ∀ j, inode_no j → j ≠ i → j ≠ w → same_object d d' j.

(** A name that fits can be looked up afterwards. *)
Lemma stored_found d w nm bytes d' : stored d w nm bytes d' → fs_ok d → is_dir d w → is_dir d' w →
  Forall (λ c, c ≠ 0) nm → (length nm ≤ 27)%nat →
  ∃ i, lookup_at d' w nm = i ∧ inode_no i ∧ type (inode_at d' i) = SFS_FILE ∧ file_bytes d' i = take (Z.to_nat MAX_BYTES) bytes ∧
    ∀ j, inode_no j → j ≠ i → j ≠ w → same_object d d' j.
Proof.
  intros (i & Hi & Ht & Hb & Hcase & Hsame) Hok [Hw Hwt] [_ Hwt'] Hnm Hlen. exists i. split; [|done].
  unfold lookup_at in *. rewrite Hwt' in *. rewrite Hwt in *. cbn [Z.eqb SFS_DIR Pos.eqb] in *.
  destruct Hcase as [(-> & _ & ->)|(Hno & _ & Hadd)]; [done|]. rewrite take_ge in Hadd by done.
  destruct (find_name nm (dir_slots d w)) as [r|] eqn:E; cbn in Hno.
  - destruct (find_name_no d w (nm ++ [0]) Hok Hw Hwt r); [by rewrite cstr_nul|lia].
  - pose proof (added_find _ _ _ Hadd) as Hf. cbn [fst snd] in Hf. rewrite Hf; [cbn; lia| |done]. unfold slot_used. cbn. destruct Hi. lia.
Qed.
Lemma stored_lookup d w nm bytes d' : stored d w nm bytes d' → fs_ok d → is_dir d w → is_dir d' w →
  Forall (λ c, c ≠ 0) nm → (length nm ≤ 27)%nat →
  inode_no (lookup_at d' w nm) ∧ type (inode_at d' (lookup_at d' w nm)) = SFS_FILE ∧
  file_bytes d' (lookup_at d' w nm) = take (Z.to_nat MAX_BYTES) bytes.
Proof.
  intros H1 H2 H3 H4 H5 H6. destruct (stored_found d w nm bytes d' H1 H2 H3 H4 H5 H6) as (i & -> & Hi & Ht & Hb & _). done.
Qed.

(** Look up or create, then write: the end of [cp] and of [echo]. *)
Lemma find_or_create_on h {B} nm (k : Z → M S B) live d w Q : cstring nm → fs_inv d → is_dir d w →
  ((∀ i, inode_no i → type (inode_at d i) ≠ SFS_FREE) → lookup_at d w (cstr nm) < 0 → does_on h (k (-1)) live d w Q) →
  (∀ i d', inode_no i → fs_inv d' → is_dir d' w →
     (i = lookup_at d w (cstr nm) ∧ d' = d ∨
      lookup_at d w (cstr nm) = -1 ∧ type (inode_at d i) = SFS_FREE ∧ type (inode_at d' i) = SFS_FILE ∧ file_bytes d' i = [] ∧
        added (dir_slots d w) (i + 1, take 27 (cstr nm)) (dir_slots d' w) ∧
        ∀ j, inode_no j → j ≠ i → j ≠ w → same_object d d' j) →
     does_on h (k i) live d' w Q) →
  does_on h (i ← fs_do (sfs_lookup w nm); i ← (if i <? 0 then fs_do (sfs_create w nm SFS_FILE) else mret i); k i) live d w Q.
Proof.
  intros Hnm Hinv Hdir Hk1 Hk. pose proof (proj1 Hinv) as Hok. pose proof Hdir as [Hw _].
  destruct (cstring_text nm Hnm) as (rest & _ & Ht).
  assert (Forall (λ c, c ≠ 0) (cstr nm)) as Hnz by (eapply Forall_impl; [exact Ht|]; simpl; lia).
  eapply does_on_disk_bind; [apply sfs_lookup_run; [done|done|apply Hnm]|done|done|].
  destruct (Z.ltb_spec (lookup_at d w (cstr nm)) 0) as [Hl|Hl].
  - destruct (create_file_cases d w nm Hinv Hdir Hnm Hl) as (r & d' & E & Hinv' & Hdir' & Hc).
    eapply does_on_disk_bind; [exact E|done|done|]. destruct Hc as [(-> & -> & Hfull)|(Hr & Hcr & Hf & Hadd)]; [by apply Hk1|].
    apply Hk; [done..|]. right. destruct (lookup_at_neg d w (cstr nm) Hok Hw Hnz) as [?|?]; [lia|].
    split_and!; [done|apply Hcr|apply Hcr|by apply Hcr|done|apply Hcr].
  - apply Hk; [|done..|by left]. by apply lookup_at_no.
Qed.
Lemma find_or_create {B} nm (k : Z → M S B) live d w Q : cstring nm → fs_inv d → is_dir d w →
  ((∀ i, inode_no i → type (inode_at d i) ≠ SFS_FREE) → lookup_at d w (cstr nm) < 0 → does (k (-1)) live d w Q) →
  (∀ i d', inode_no i → fs_inv d' → is_dir d' w →
     (i = lookup_at d w (cstr nm) ∧ d' = d ∨
      lookup_at d w (cstr nm) = -1 ∧ type (inode_at d i) = SFS_FREE ∧ type (inode_at d' i) = SFS_FILE ∧ file_bytes d' i = [] ∧
        added (dir_slots d w) (i + 1, take 27 (cstr nm)) (dir_slots d' w) ∧
        ∀ j, inode_no j → j ≠ i → j ≠ w → same_object d d' j) →
     does (k i) live d' w Q) →
  does (i ← fs_do (sfs_lookup w nm); i ← (if i <? 0 then fs_do (sfs_create w nm SFS_FILE) else mret i); k i) live d w Q.
Proof.
  intros Hnm Hinv Hdir Hk1 Hk. apply on_any_does. intros h.
  apply find_or_create_on; [done..|intros; by apply does_on_any, Hk1|intros; by apply does_on_any, Hk].
Qed.

(** The write that follows. *)
Lemma stored_write d d1 w nm i data rest : fs_inv d → is_dir d w → inode_no i → fs_inv d1 → is_dir d1 w → Forall is_byte (data ++ rest) →
  (i = lookup_at d w nm ∧ d1 = d ∨
   lookup_at d w nm = -1 ∧ type (inode_at d i) = SFS_FREE ∧ type (inode_at d1 i) = SFS_FILE ∧ file_bytes d1 i = [] ∧
     added (dir_slots d w) (i + 1, take 27 nm) (dir_slots d1 w) ∧ ∀ j, inode_no j → j ≠ i → j ≠ w → same_object d d1 j) →
  ∃ r d', run_disk (sfs_write i (data ++ rest) (Z.of_nat (length data))) d1 = Some (r, d') ∧ fs_inv d' ∧ is_dir d' w ∧
    (type (inode_at d1 i) = SFS_FILE → stored d w nm data d') ∧ (type (inode_at d1 i) ≠ SFS_FILE → d' = d).
Proof.
  intros Hinv [Hw Hwt] Hi Hinv1 Hdir1 Hb Hcase. pose proof Hdir1 as [_ Hwt1].
  destruct (write_cases d1 w i data rest Hinv1 Hdir1 Hi Hb) as (r & d' & E & Hinv' & Hdir' & Hwr).
  exists r, d'. split; [done|]. split; [done|]. split; [done|]. case_decide as Hty.
  - split; [intros _|done]. destruct Hwr as (Ht' & Hby & Hsame). exists i.
    assert (w ≠ i) as Hne by (intros ->; by rewrite Hwt1 in Hty).
    split; [done|]. split; [done|]. split; [done|]. split.
    + rewrite (same_object_slots _ _ _ (Hsame w Hw Hne)). destruct Hcase as [[-> ->]|(? & ? & _ & _ & ? & _)]; [by left|by right].
    + intros j Hj Hji Hjw. destruct Hcase as [[_ ->]|(_ & _ & _ & _ & _ & Hfr)]; [by apply Hsame|].
      eapply same_object_trans; [by apply Hfr|by apply Hsame].
  - split; [done|]. intros _. destruct Hcase as [[_ ->]|(_ & _ & ? & _)]; [done|congruence].
Qed.

(** Whether an inode is free. *)
Definition some_free (d : disk) : Prop := ∃ i, inode_no i ∧ type (inode_at d i) = SFS_FREE.
Definition none_free (d : disk) : Prop := ∀ i, inode_no i → type (inode_at d i) ≠ SFS_FREE.

(** [cp] copies one file to a name in the current directory and says nothing, or
    says what is wrong and does nothing. *)
Definition copied (mem : Z → bool) (d : disk) (w : Z) (src dst : list Z) (d' : disk) (o : list Z) : Prop :=
  let s := walk d (start_of w src) (components (cstr src)) in
  let t := lookup_at d w (cstr dst) in
  if bool_decide (cstr src = [] ∨ cstr dst = []) then d' = d ∧ o = cstr (lit_ln "cp: usage: cp <src> <dst>")
  else if s <? 0 then d' = d ∧ o = cstr (lit_ln "cp: no such file")
  else if negb (type (inode_at d s) =? SFS_FILE) then d' = d ∧ o = cstr (lit_ln "cp: not a file")
  else if negb (mem (Z.max 1 (size (inode_at d s)))) then d' = d ∧ o = cstr (lit_ln "cp: out of memory")
  else if t <? 0 then
    none_free d ∧ d' = d ∧ o = cstr (lit_ln "cp: cannot create dest") ∨
    some_free d ∧ o = [] ∧ stored d w (cstr dst) (file_bytes d s) d'
  else if negb (type (inode_at d t) =? SFS_FILE) then d' = d ∧ o = cstr (lit_ln "cp: dest is not a file")
  else o = [] ∧ stored d w (cstr dst) (file_bytes d s) d'.

Lemma copied_cases mem d w src dst d' o : copied mem d w src dst d' o →
  let s := walk d (start_of w src) (components (cstr src)) in
  d' = d ∧ o ≠ [] ∨ o = [] ∧ 0 ≤ s ∧ type (inode_at d s) = SFS_FILE ∧ stored d w (cstr dst) (file_bytes d s) d'.
Proof.
  unfold copied. cbv zeta. set (s := walk _ _ _). case_bool_decide; [by intros [-> ->]; left|].
  destruct (Z.ltb_spec s 0); [by intros [-> ->]; left|]. destruct (Z.eqb_spec (type (inode_at d s)) SFS_FILE); cbn [negb]; [|by intros [-> ->]; left].
  destruct (mem _); cbn [negb]; [|by intros [-> ->]; left].
  destruct (lookup_at d w (cstr dst) <? 0); [intros [(_ & -> & ->)|(_ & -> & ?)]; [by left|by right]|].
  destruct (type (inode_at d (lookup_at d w (cstr dst))) =? SFS_FILE); cbn [negb]; [intros [-> ?]; by right|by intros [-> ->]; left].
Qed.

Lemma cmd_cp_does h src dst live d w : cstring src → cstring dst → fs_inv d → is_dir d w →
  does_on (HW := HW) (L := L) h (cmd_cp (Some src) (Some dst)) live d w (leaves live (λ d' w' o, w' = w ∧ copied (serves h) d w src dst d' o)).
Proof.
  intros Hs Hd Hinv Hdir. unfold cmd_cp, copied. cbv zeta. apply given_on; [done|]. unfold text_of. case_decide as Es.
  { apply does_on_any, does_ret_bind, does_say_ln. rewrite bool_decide_eq_true_2 by auto. ends. }
  apply given_on; [done|]. unfold text_of. case_decide as Ed.
  { apply does_on_any, does_say_ln. rewrite bool_decide_eq_true_2 by auto. ends. }
  rewrite (bool_decide_eq_false_2 (cstr src = [] ∨ cstr dst = [])) by tauto.
  apply resolve_on; [done..|]. intros Hno.
  set (r := walk d (start_of w src) (components (cstr src))) in *. cbv zeta. destruct (Z.ltb_spec r 0).
  { apply does_on_any, does_say_ln. ends. }
  specialize (Hno ltac:(done)). eapply does_on_disk_bind; [by apply sfs_type_run; [apply Hinv|]|done|done|].
  destruct (Z.eqb_spec (type (inode_at d r)) SFS_FILE) as [E|E]; cbn [negb].
  2: { apply does_on_any, does_say_ln. ends. }
  pose proof (node_size d r (proj1 Hinv) Hno) as Hsz. pose proof (length_file_bytes d r (proj1 Hinv) Hno) as Hlen.
  eapply does_on_disk_bind; [by apply sfs_size_run|done|done|].
  assert ((if truth (size (inode_at d r)) then size (inode_at d r) else 1) = Z.max 1 (size (inode_at d r))) as ->.
  { destruct (truth (size (inode_at d r))) eqn:Et; [apply truth_true in Et; lia|].
    unfold truth in Et. apply negb_false_iff, Z.eqb_eq in Et. lia. }
  apply does_on_malloc; [lia|intros ->|intros ->]; cbn [negb].
  { change (truth 0) with false. cbn [negb]. apply does_say_ln. ends. }
  intros buf Hbuf Hfresh. rewrite (proj2 (truth_true buf) Hbuf). cbn [negb].
  eapply does_disk_bind; [apply sfs_read_run; [apply Hinv|done|lia]|done|done|].
  rewrite take_ge by lia. pose proof (file_bytes_ok d r (proj1 Hinv)) as Hby. apply does_cwd, find_or_create; [done..| |].
  { intros Hfull Hneg. change (-1 <? 0) with true. cbn iota. apply does_say_ln_bind, does_free_last; [done|].
    rewrite (proj2 (Z.ltb_lt _ 0) Hneg). split; [done|]. split; [done|]. by left. }
  intros i d1 Hi Hinv1 Hdir1 Hcase. rewrite (proj2 (Z.ltb_ge i 0)) by apply Hi.
  eapply does_disk_bind; [by apply sfs_type_run; [apply Hinv1|]|done|done|].
  destruct (Z.eqb_spec (type (inode_at d1 i)) SFS_FILE) as [Ei|Ei]; cbn [negb].
  2: { apply does_say_ln_bind, does_free_last; [done|]. destruct Hcase as [[-> ->]|(_ & _ & ? & _)]; [|congruence].
       rewrite (proj2 (Z.ltb_ge _ 0)), (proj2 (Z.eqb_neq _ _) Ei) by apply Hi. cbn [negb]. ends. }
  destruct (stored_write d d1 w (cstr dst) i (file_bytes d r) [] Hinv Hdir Hi Hinv1 Hdir1) as (x & d2 & Ew & Hinv2 & Hdir2 & Hst & _);
    [by rewrite app_nil_r|done|]. rewrite app_nil_r in Ew.
  eapply does_disk_bind; [exact Ew|done|done|]. eapply does_free; [apply lookup_insert_eq|]. rewrite delete_insert_id by done.
  split; [done|]. split; [done|]. specialize (Hst Ei). destruct Hcase as [[Ei' Ed1]|(En & Ef & _)].
  - rewrite <-Ei', (proj2 (Z.ltb_ge i 0)) by apply Hi. subst d1. rewrite Ei. done.
  - rewrite (proj2 (Z.ltb_lt (lookup_at d w (cstr dst)) 0)) by lia. right. split; [by exists i|done].
Qed.

(** [mv]: a copy, whatever comes of it, and the removal of [src] when [dst] is there. *)
Definition moved (mem : Z → bool) (d : disk) (w : Z) (src dst : list Z) (d' : disk) (o : list Z) : Prop :=
  let s := lookup_at d w (cstr src) in
  if bool_decide (cstr src = [] ∨ cstr dst = []) then d' = d ∧ o = cstr (lit_ln "mv: usage: mv <src> <dst>")
  else if s <? 0 then d' = d ∧ o = cstr (lit_ln "mv: no such file in current directory")
  else if negb (type (inode_at d s) =? SFS_FILE) then d' = d ∧ o = cstr (lit_ln "mv: only files are supported")
  else ∃ d1, copied mem d w src dst d1 o ∧ fs_inv d1 ∧ is_dir d1 w ∧
    if 0 <=? lookup_at d1 w (cstr dst) then ∃ r, run_disk (sfs_unlink w src) d1 = Some (r, d') else d' = d1.

Lemma cmd_mv_does h src dst live d w : cstring src → cstring dst → fs_inv d → is_dir d w →
  does_on (HW := HW) (L := L) h (cmd_mv (Some src) (Some dst)) live d w (leaves live (λ d' w' o, w' = w ∧ moved (serves h) d w src dst d' o)).
Proof.
  intros Hs Hd Hinv Hdir. pose proof Hdir as [Hw Hwt]. unfold cmd_mv, moved. cbv zeta. apply given_on; [done|]. unfold text_of. case_decide as Es.
  { apply does_on_any, does_ret_bind, does_say_ln. rewrite bool_decide_eq_true_2 by auto. ends. }
  apply given_on; [done|]. unfold text_of. case_decide as Ed.
  { apply does_on_any, does_say_ln. rewrite bool_decide_eq_true_2 by auto. ends. }
  rewrite (bool_decide_eq_false_2 (cstr src = [] ∨ cstr dst = [])) by tauto.
  apply does_on_cwd. eapply does_on_disk_bind; [apply sfs_lookup_run; [apply Hinv|done|apply Hs]|done|done|].
  set (i := lookup_at d w (cstr src)). destruct (Z.ltb_spec i 0) as [Hi|Hi]; [apply does_on_any, does_say_ln; ends|].
  assert (inode_no i) as Hino.
  { apply lookup_at_no; [apply Hinv|done| |done]. apply upto0_nonzero. }
  eapply does_on_disk_bind; [by apply sfs_type_run; [apply Hinv|]|done|done|].
  destruct (Z.eqb_spec (type (inode_at d i)) SFS_FILE) as [Et|Et]; cbn [negb]; [|apply does_on_any, does_say_ln; ends].
  eapply does_on_then; [by apply cmd_cp_does|]. intros [] l' d1 w' o Hdir1 Hinv1 (-> & -> & Hcp).
  eapply does_disk_bind; [apply sfs_lookup_run; [apply Hinv1|done|apply Hd]|done|done|].
  destruct (Z.leb_spec 0 (lookup_at d1 w (cstr dst))) as [Hl|Hl].
  - destruct (unlink_keeps d1 w src Hinv1 Hdir1 (proj1 Hs)) as (r & d2 & E & Hinv2 & Hdir2).
    eapply does_disk_bind; [exact E|done|done|]. apply does_ret. unfold after_text. rewrite app_nil_r. split; [done|]. split; [done|]. exists d1.
    rewrite (proj2 (Z.leb_le 0 _) Hl). split_and!; eauto.
  - apply does_ret. unfold after_text. rewrite app_nil_r. split; [done|]. split; [done|]. exists d1. rewrite (proj2 (Z.leb_gt 0 _) Hl). split_and!; auto.
Qed.

(** *** Listing *)

Definition ls_line (d : disk) (x : Z * list Z) : list Z :=
  if decide (x.2 = dot ∨ x.2 = dotdot) then []
  else x.2 ++ (if type (inode_at d (x.1 - 1)) =? SFS_DIR then [47; 10] else [10]).

Lemma compare_does {B} nm (x : string) (k : bool → M S B) live d w Q : Forall (λ c, c ≠ 0) nm →
  does (k (bool_decide (nm = cstr (lit x)))) live d w Q → does (compare (nm ++ [0]) x ≫= k) live d w Q.
Proof.
  intros Hn Hk. unfold compare. eapply does_lift; [|exact Hk].
  rewrite is_lit_spec by (apply elem_of_app; right; left). by rewrite cstr_nul.
Qed.

(** The dots are skipped. *)
Lemma dots_does {B} nm (k : bool → M S B) live d w Q : Forall (λ c, c ≠ 0) nm →
  does (k (bool_decide (nm = dot ∨ nm = dotdot))) live d w Q →
  does (d1 ← compare (nm ++ [0]) "."; dd ← (if (d1 : bool) then mret true else compare (nm ++ [0]) ".."); k dd) live d w Q.
Proof.
  intros Hn Hk. apply compare_does; [done|]. change (cstr (lit ".")) with dot.
  destruct (decide (nm = dot)) as [E|E].
  - rewrite bool_decide_eq_true_2 by done. apply does_ret_bind. by rewrite bool_decide_eq_true_2 in Hk by auto.
  - rewrite bool_decide_eq_false_2 by done. apply compare_does; [done|]. change (cstr (lit "..")) with dotdot.
    replace (bool_decide (nm = dotdot)) with (bool_decide (nm = dot ∨ nm = dotdot)); [done|]. apply bool_decide_ext. tauto.
Qed.

Lemma readdir_does {B} dir i (k : Z * list Z → M S B) live d w Q : fs_inv d → is_dir d w → is_dir d dir → 0 ≤ i →
  does (k (from_option entry_result (-1, []) (entries d dir !! Z.to_nat i))) live d w Q →
  does (fs_do (sfs_readdir dir i 32) ≫= k) live d w Q.
Proof.
  intros Hinv Hdir [Hno Hty] Hi. eapply does_disk_bind; [|done|done].
  apply (sfs_readdir_run d dir (proj1 Hinv) Hno Hty i 32 Hi). lia.
Qed.

(** Loops over the entries of a directory: at index [i], [todo] is left. *)
Lemma entry_cases d dir i todo : drop (Z.to_nat i) (entries d dir) = todo → 0 ≤ i →
  match todo with
  | [] => entries d dir !! Z.to_nat i = None
  | x :: todo' => entries d dir !! Z.to_nat i = Some x ∧ drop (Z.to_nat (i + 1)) (entries d dir) = todo' ∧ x ∈ entries d dir
  end.
Proof.
  intros <- Hi. destruct (entries d dir !! Z.to_nat i) as [x|] eqn:E.
  - rewrite (drop_S _ _ _ E). replace (Z.to_nat (i + 1)) with (Datatypes.S (Z.to_nat i)) by lia. eauto using list_elem_of_lookup_2.
  - rewrite drop_ge by (by apply lookup_ge_None). done.
Qed.

Lemma ls_loop_does n dir i live d w todo : fs_inv d → is_dir d w → is_dir d dir → 0 ≤ i →
  drop (Z.to_nat i) (entries d dir) = todo → (length todo < n)%nat →
  does (HW := HW) (L := L) (H := H) (ls_loop n dir i) live d w (leaves live (λ d' w' o, d' = d ∧ w' = w ∧ o = todo ≫= ls_line d)).
Proof.
  intros Hinv Hdir Hd. revert i todo. induction n as [|n IH]; intros i todo Hi Htodo Hn; [lia|]. cbn [ls_loop].
  apply readdir_does; [done..|]. pose proof (entry_cases d dir i todo Htodo Hi) as Hx. destruct todo as [|x todo].
  { rewrite Hx. cbn [from_option fst]. change (-1 <? 0) with true. cbn iota. apply does_ret. ends. }
  destruct Hx as (-> & Htodo' & Hin). destruct (entry_name d dir x (proj1 Hinv) Hd Hin) as [Hby Hno].
  assert (Forall (λ c, c ≠ 0) x.2) as Hnz by (eapply Forall_impl; [exact Hby|]; simpl; lia).
  cbn [from_option entry_result fst snd]. rewrite (proj2 (Z.ltb_ge (x.1 - 1) 0)) by apply Hno.
  assert (∀ t, does (HW := HW) (L := L) (H := H) (ls_loop n dir (i + 1)) live d w
    (after_text (leaves live (λ d' w' o, d' = d ∧ w' = w ∧ o = t ++ (todo ≫= ls_line d))) t)) as Hrest.
  { intros t. eapply does_weaken; [apply (IH (i + 1) todo); [lia|done|simpl in Hn; lia]|].
    intros [] l' d' w' o (-> & -> & -> & ->). ends. }
  apply dots_does; [done|]. rewrite bind_cons. unfold ls_line at 1. destruct (decide (x.2 = dot ∨ x.2 = dotdot)) as [E|E].
  { rewrite bool_decide_eq_true_2 by done. exact (Hrest []). }
  rewrite bool_decide_eq_false_2 by done. eapply does_disk_bind; [by apply sfs_type_run; [apply Hinv|]|done|done|].
  assert (0 ∈ x.2 ++ [0] ∧ Forall is_byte (x.2 ++ [0]) ∧ x.2 = cstr (x.2 ++ [0])) as (Hc0 & Hcb & Hct).
  { split; [apply elem_of_app; right; left|]. split; [|by rewrite cstr_nul]. apply Forall_app. split; [|by repeat constructor].
    eapply Forall_impl; [exact Hby|]. unfold is_byte. simpl. lia. }
  destruct (type (inode_at d (x.1 - 1)) =? SFS_DIR).
  - rewrite <-app_assoc. eapply does_bind with (Q1 := leaves live (λ d' w' o, d' = d ∧ w' = w ∧ o = x.2 ++ [47])).
    + eapply does_con_bind; [apply says_set_color|]. eapply does_print_bind; [exact Hc0|exact Hcb|exact Hct|].
      destruct (lit_cstring "/"). eapply does_print_bind; [done|done|reflexivity|]. eapply does_con; [apply says_set_color|].
      ends.
    + intros [] l' d' w' o _ _ (-> & -> & -> & ->). apply does_say_ln_bind.
      eapply does_weaken; [apply (Hrest (x.2 ++ [47; 10]))|]. intros [] l' d' w' o (-> & -> & -> & Ho). unfold after_text, leaves.
      split_and!; try done. rewrite <-!app_assoc in *. exact Ho.
  - eapply does_print_bind; [exact Hc0|exact Hcb|exact Hct|]. apply does_say_ln_bind.
    eapply does_weaken; [apply (Hrest (x.2 ++ [10]))|]. intros [] l' d' w' o (-> & -> & -> & Ho). unfold after_text, leaves.
    split_and!; try done. rewrite <-!app_assoc in *. exact Ho.
Qed.

Definition ls_text (d : disk) (w : Z) (a : option (list Z)) : list Z :=
  let dir := match text_of a with Some p => walk d (start_of w p) (components (cstr p)) | None => w end in
  if dir <? 0 then cstr (lit_ln "ls: no such path")
  else if type (inode_at d dir) =? SFS_DIR then entries d dir ≫= ls_line d
  else cstr (lit_ln "ls: not a directory").

Lemma cmd_ls_does a live d w : is_arg a → fs_inv d → is_dir d w →
  does (HW := HW) (L := L) (H := H) (cmd_ls a) live d w (leaves live (λ d' w' o, d' = d ∧ w' = w ∧ o = ls_text d w a)).
Proof.
  intros Ha Hinv Hdir. unfold cmd_ls, ls_text. apply given_does; [done|].
  set (dir := match text_of a with Some p => walk d (start_of w p) (components (cstr p)) | None => w end).
  eapply does_bind with (Q1 := just (λ r, r = dir ∧ (0 ≤ r → inode_no r)) live d w).
  - unfold dir. destruct (text_of a) as [p|] eqn:Ep.
    + apply resolve_does; [|done|done]. destruct a as [q|]; [|done]. cbn in Ep. case_decide; by simplify_eq.
    + apply does_get_cwd. split; [|done]. split; [done|]. intros _. apply Hdir.
  - intros r l' d' w' o _ _ ((-> & Hno) & -> & -> & -> & ->). cbv zeta. clearbody dir. destruct (Z.ltb_spec dir 0) as [Hl|Hl]; [apply does_say_ln; ends|].
    eapply does_disk_bind; [apply sfs_type_run; [apply Hinv|auto]|done|done|].
    destruct (Z.eqb_spec (type (inode_at d dir)) SFS_DIR) as [E|E]; cbn [negb]; [|apply does_say_ln; ends].
    apply (ls_loop_does COUNT_FUEL dir 0 live d w (entries d dir)); [done|done|split; auto|lia|by rewrite drop_0|].
    pose proof (entries_few d dir (proj1 Hinv)). unfold COUNT_FUEL. lia.
Qed.

(** *** echo *)

Definition join (ws : list (list Z)) : list Z :=
  match ws with [] => [] | w :: ws => cstr w ++ (ws ≫= λ v, 32 :: cstr v) end.
(** The text of the words before the redirection: 255 bytes at most. *)
Definition echoed (ws : list (list Z)) : list Z := take 255 (join ws).

Lemma strncpy_text v n : cstring v → upto0 <$> strncpy v n = Some (take n (cstr v)).
Proof.
  intros Hv. destruct (cstring_text v Hv) as (rest & _ & Ht). rewrite strncpy_spec by apply Hv. cbn. f_equal.
  apply upto0_pad, Forall_take. eapply Forall_impl; [exact Ht|]. simpl. lia.
Qed.

Lemma take_take_app {A} n (l k : list A) : take n (take n l ++ k) = take n (l ++ k).
Proof.
  destruct (decide (length l ≤ n)%nat); [by rewrite (take_ge l n)|].
  rewrite take_app_le by (rewrite length_take; lia). by rewrite take_take, Nat.min_id, take_app_le by lia.
Qed.

Lemma echo_text_more ws t : Forall cstring ws → (length t ≤ 255)%nat →
  echo_text ws false t = Some (take 255 (t ++ (ws ≫= λ v, 32 :: cstr v))).
Proof.
  intros Hws. revert t. induction Hws as [|v ws Hv Hws IH]; intros t Ht; cbn [echo_text].
  { cbn. by rewrite app_nil_r, take_ge. }
  set (t1 := if (length t <? 255)%nat then t ++ [32] else t).
  assert (t1 = take 255 (t ++ [32]) ∧ (length t1 ≤ 255)%nat) as [Et1 Hl1].
  { unfold t1. destruct (Nat.ltb_spec (length t) 255).
    - rewrite take_ge by (rewrite length_app; simpl; lia). split; [done|]. rewrite length_app. simpl. lia.
    - rewrite take_app_le, take_ge by lia. done. }
  pose proof (strncpy_text v (255 - length t1) Hv) as Hs. destruct (strncpy v (255 - length t1)) as [bs|]; [|done].
  cbn in Hs. injection Hs as Hs. cbn [mbind option_bind]. rewrite Hs. rewrite IH by (rewrite length_app, length_take; lia). f_equal.
  rewrite bind_cons. replace (t ++ (32 :: cstr v) ++ (ws ≫= λ v, 32 :: cstr v)) with (((t ++ [32]) ++ cstr v) ++ (ws ≫= λ v, 32 :: cstr v)) by (by rewrite <-!app_assoc).
  assert (t1 ++ take (255 - length t1) (cstr v) = take 255 ((t ++ [32]) ++ cstr v)) as ->.
  { rewrite Et1. destruct (decide (length (t ++ [32%Z]) ≤ 255)%nat).
    - rewrite (take_ge (t ++ [32])) by done. by rewrite take_app, (take_ge (t ++ [32])) by lia.
    - rewrite (take_app_le _ (cstr v)) by lia. rewrite length_take. replace (255 - _)%nat with 0%nat by lia. by rewrite take_0, app_nil_r. }
  apply take_take_app.
Qed.

Lemma echo_text_spec ws : Forall cstring ws → echo_text ws true [] = Some (echoed ws).
Proof.
  intros Hws. destruct Hws as [|v ws Hv Hws]; [done|]. cbn [echo_text length]. rewrite Nat.sub_0_r.
  pose proof (strncpy_text v 255 Hv) as Hs. destruct (strncpy v 255) as [bs|]; [|done]. cbn in Hs. injection Hs as Hs.
  cbn [mbind option_bind]. rewrite Hs. cbn [app]. rewrite echo_text_more by (done || rewrite length_take; lia). f_equal.
  apply take_take_app.
Qed.

(** The first word that redirects, [>] or [>>]. *)
Definition appends (v : list Z) : bool := bool_decide (cstr v = [62; 62]).
Definition is_redir (v : list Z) : Prop := cstr v = [62] ∨ cstr v = [62; 62].
#[global] Instance is_redir_dec v : Decision (is_redir v).
Proof. unfold is_redir. apply _. Defined.

Lemma find_redir_spec ws k : Forall cstring ws →
  find_redir ws k = Some ((λ '(i, v), ((k + i)%nat, appends v)) <$> list_find is_redir ws).
Proof.
  intros Hws. revert k. induction Hws as [|v ws Hv Hws IH]; intros k; [done|]. cbn [find_redir list_find].
  rewrite is_lit_spec by apply Hv. cbn [mbind option_bind]. change (cstr (lit ">")) with [62].
  rewrite is_lit_spec by apply Hv. cbn [mbind option_bind]. change (cstr (lit ">>")) with [62; 62].
  destruct (decide (is_redir v)) as [Hr|Hr].
  - cbn [fmap option_fmap option_map]. rewrite Nat.add_0_r. unfold appends. destruct Hr as [E|E]; rewrite E; done.
  - unfold is_redir in Hr. rewrite !bool_decide_eq_false_2, IH by tauto. f_equal.
    destruct (list_find is_redir ws) as [[i x]|]; [|done]. cbn. by replace (k + Datatypes.S i)%nat with (Datatypes.S (k + i)) by lia.
Qed.

(** Said when the text is too long to be stored. *)
Definition cap_note (text : list Z) : list Z :=
  if SFS_MAX_FILE <? Z.of_nat (length text) then cstr (lit_ln "echo: file capped at 7KB") else [].
(** What [echo] leaves and prints when its output goes to the file [f]: what is
    appended to needs memory for the whole text; what is no file stays. *)
Definition echo_file (mem : Z → bool) (d : disk) (w : Z) (f text : list Z) (append : bool) (d' : disk) (o : list Z) : Prop :=
  let t := lookup_at d w f in
  let old := if append && (0 <=? t) then file_bytes d t else [] in
  let oom := append && negb (mem (Z.of_nat (length (old ++ text)) + 1)) in
  if t <? 0 then
    none_free d ∧ d' = d ∧ o = cstr (lit_ln "echo: cannot create file") ∨
    some_free d ∧ (if oom then stored d w f [] d' ∧ o = cstr (lit_ln "echo: out of memory")
                   else stored d w f text d' ∧ o = if append then cap_note text else [])
  else if oom then d' = d ∧ o = cstr (lit_ln "echo: out of memory")
  else (if type (inode_at d t) =? SFS_FILE then stored d w f (old ++ text) d' else d' = d) ∧
       o = if append then cap_note (old ++ text) else [].
Definition echoes (mem : Z → bool) (d : disk) (w : Z) (ws : list (list Z)) (d' : disk) (o : list Z) : Prop :=
  match list_find is_redir ws with
  | None => d' = d ∧ o = echoed ws ++ [10]
  | Some (i, v) =>
      match ws !! Datatypes.S i with
      | None => d' = d ∧ o = cstr (lit_ln "echo: need a filename after >")
      | Some f => echo_file mem d w (cstr f) (echoed (take i ws)) (appends v) d' o
      end
  end.

Lemma echoed_text ws : Forall cstring ws → Forall (λ c, 0 < c < 256) (echoed ws) ∧ (length (echoed ws) ≤ 255)%nat.
Proof.
  intros Hws. split; [|unfold echoed; rewrite length_take; lia]. apply Forall_take.
  assert (∀ v, v ∈ ws → Forall (λ c, 0 < c < 256) (cstr v)) as Hall.
  { intros v Hv. rewrite Forall_forall in Hws. by destruct (cstring_text v (Hws v Hv)) as (_ & _ & ?). }
  destruct ws as [|v ws]; [constructor|]. cbn [join]. apply Forall_app. split; [apply Hall; left|].
  apply Forall_forall. intros c (u & Hc & Hu)%list_elem_of_bind. apply elem_of_cons in Hc as [->|Hc]; [lia|].
  specialize (Hall u ltac:(by right)). rewrite Forall_forall in Hall. auto.
Qed.

(** The file was there, or is new. *)
Definition opened (d : disk) (w : Z) (f : list Z) (i : Z) (d1 : disk) : Prop :=
  i = lookup_at d w f ∧ d1 = d ∨
  lookup_at d w f = -1 ∧ type (inode_at d i) = SFS_FREE ∧ type (inode_at d1 i) = SFS_FILE ∧ file_bytes d1 i = [] ∧
    added (dir_slots d w) (i + 1, take 27 f) (dir_slots d1 w) ∧ ∀ j, inode_no j → j ≠ i → j ≠ w → same_object d d1 j.

(** What was in it. *)
Lemma opened_old d w f i d1 : inode_no i → opened d w f i d1 → file_bytes d1 i = if 0 <=? lookup_at d w f then file_bytes d (lookup_at d w f) else [].
Proof.
  intros Hi [[-> ->]|(-> & _ & _ & -> & _)]; [|done]. by rewrite (proj2 (Z.leb_le 0 _)) by apply Hi.
Qed.

(** Writing [old ++ text] to it, or failing to for lack of memory. *)
Lemma echo_written mem (append : bool) text f d d1 w i data rest : fs_inv d → is_dir d w → inode_no i → fs_inv d1 → is_dir d1 w →
  Forall is_byte (data ++ rest) → opened d w f i d1 →
  data = (if append then file_bytes d1 i else []) ++ text → (append = true → mem (Z.of_nat (length data) + 1) = true) →
  ∃ r d', run_disk (sfs_write i (data ++ rest) (Z.of_nat (length data))) d1 = Some (r, d') ∧ fs_inv d' ∧ is_dir d' w ∧
    echo_file mem d w f text append d' (if append then cap_note data else []).
Proof.
  intros Hinv Hdir Hi Hinv1 Hdir1 Hb Hop Hdata Hmem.
  destruct (stored_write d d1 w f i data rest Hinv Hdir Hi Hinv1 Hdir1 Hb Hop) as (r & d' & E & Hinv' & Hdir' & Hst & Hno).
  exists r, d'. split_and!; [done..|]. unfold echo_file. cbv zeta.
  assert ((if append && (0 <=? lookup_at d w f) then file_bytes d (lookup_at d w f) else []) ++ text = data) as ->.
  { rewrite Hdata, (opened_old d w f i d1 Hi Hop). by destruct append, (0 <=? _). }
  assert (append && negb (mem (Z.of_nat (length data) + 1)) = false) as -> by (destruct append; [by rewrite Hmem|done]).
  destruct Hop as [[Ei Ed]|(En & Ef & Et & Eb & _)].
  - rewrite <-Ei, (proj2 (Z.ltb_ge i 0)) by apply Hi. subst d1. split; [|done].
    destruct (Z.eqb_spec (type (inode_at d i)) SFS_FILE); auto.
  - rewrite En. change (-1 <? 0) with true. right. split; [by exists i|].
    assert (data = text) as -> by (rewrite Hdata, Eb; by destruct append). auto.
Qed.

(** The end of [echo ... > f] and [echo ... >> f], when [f] is open as [i]. *)
Lemma echo_store_does h (append : bool) text f live d d1 w i : Forall (λ c, 0 < c < 256) text → (length text ≤ 255)%nat →
  fs_inv d → is_dir d w → inode_no i → fs_inv d1 → is_dir d1 w → opened d w f i d1 →
  does_on (HW := HW) (L := L) h
    (if negb append then _ ← fs_do (sfs_write i (text ++ [0]) (Z.of_nat (length text))); mret tt
     else
       old ← fs_do (sfs_size i);
       let add := Z.of_nat (length text) in
       buf ← malloc (u32 (old + add + 1));
       if negb (truth buf) then say_ln "echo: out of memory"
       else
         data ← fs_do (sfs_read i old);
         _ ← (if SFS_MAX_FILE <? Z.of_nat (length data) + add then say_ln "echo: file capped at 7KB" else mret tt);
         _ ← fs_do (sfs_write i (data ++ text) (Z.of_nat (length data) + add));
         free buf) live d1 w (leaves live (λ d' w' o, w' = w ∧ echo_file (serves h) d w f text append d' o)).
Proof.
  intros Ht Hl Hinv Hdir Hi Hinv1 Hdir1 Hop.
  assert (Forall is_byte text) as Htb by (eapply Forall_impl; [exact Ht|]; unfold is_byte; simpl; lia).
  destruct append; cbn [negb].
  2: { destruct (echo_written (serves h) false text f d d1 w i text [0] Hinv Hdir Hi Hinv1 Hdir1) as (r & d' & E & Hinv' & Hdir' & He);
         [apply Forall_app; split; [done|by repeat constructor]|done..|].
       eapply does_on_disk_bind; [exact E|done|done|]. apply does_on_any, does_ret. ends. }
  pose proof (node_size d1 i (proj1 Hinv1) Hi) as Hsz. pose proof (length_file_bytes d1 i (proj1 Hinv1) Hi) as Hlen.
  eapply does_on_disk_bind; [by apply sfs_size_run|done|done|]. cbv zeta. rewrite u32_small by lia.
  assert (size (inode_at d1 i) + Z.of_nat (length text) + 1 = Z.of_nat (length (file_bytes d1 i ++ text)) + 1) as Hn by (rewrite length_app; lia).
  apply does_on_malloc; [lia|intros Hm|intros Hm].
  - change (truth 0) with false. cbn [negb]. apply does_say_ln. split; [done|]. split; [done|]. unfold echo_file. cbv zeta. cbn [andb].
    rewrite <-(opened_old d w f i d1 Hi Hop), <-Hn, Hm. cbn [negb].
    destruct Hop as [[Ei Ed]|(En & Ef & Et & Eb & Ea & Es)].
    + rewrite <-Ei, (proj2 (Z.ltb_ge i 0)) by apply Hi. done.
    + rewrite En. change (-1 <? 0) with true. right. split; [by exists i|]. split; [|done].
      exists i. split; [done|]. split; [done|]. split; [by rewrite Eb, take_nil|]. split; [by right|done].
  - intros buf Hbuf Hfresh. rewrite (proj2 (truth_true buf) Hbuf). cbn [negb].
    eapply does_disk_bind; [apply sfs_read_run; [apply Hinv1|done|lia]|done|done|]. rewrite take_ge by lia.
    destruct (echo_written (serves h) true text f d d1 w i (file_bytes d1 i ++ text) [] Hinv Hdir Hi Hinv1 Hdir1) as (r & d' & E & Hinv' & Hdir' & He).
    { rewrite app_nil_r. apply Forall_app. split; [apply file_bytes_ok, Hinv1|done]. }
    { done. }
    { done. }
    { intros _. by rewrite <-Hn. }
    rewrite app_nil_r, length_app, Nat2Z.inj_add in E. clear Hn.
    assert (∀ t, t = cap_note (file_bytes d1 i ++ text) → does (HW := HW) (L := L) (H := H)
      (_ ← fs_do (sfs_write i (file_bytes d1 i ++ text) (Z.of_nat (length (file_bytes d1 i)) + Z.of_nat (length text))); free buf)
      (<[buf:=size (inode_at d1 i) + Z.of_nat (length text) + 1]> live) d1 w
      (after_text (leaves live (λ d' w' o, w' = w ∧ echo_file (serves h) d w f text true d' o)) t)) as Hend.
    { intros t ->. eapply does_disk_bind; [exact E|done|done|]. apply does_free_last; [done|]. ends. }
    unfold cap_note in Hend. rewrite length_app, Nat2Z.inj_add in Hend. destruct (SFS_MAX_FILE <? _).
    + apply does_say_ln_bind, Hend. done.
    + apply does_ret_bind. exact (Hend [] eq_refl).
Qed.

Lemma cmd_echo_does h ws live d w : Forall cstring ws → fs_inv d → is_dir d w →
  does_on (HW := HW) (L := L) h (cmd_echo ws) live d w (leaves live (λ d' w' o, w' = w ∧ echoes (serves h) d w ws d' o)).
Proof.
  intros Hws Hinv Hdir. unfold cmd_echo, echoes. eapply does_on_lift; [by apply find_redir_spec|].
  destruct (list_find is_redir ws) as [[i v]|] eqn:Ef; cbn [fmap option_fmap option_map].
  - rewrite Nat.add_0_l. assert (Forall cstring (take i ws)) as Hti by by apply Forall_take.
    destruct (echoed_text (take i ws) Hti) as [Hb Hl]. eapply does_on_lift; [by apply echo_text_spec|].
    destruct (ws !! Datatypes.S i) as [f|] eqn:El; [|apply does_on_any, does_say_ln; ends].
    assert (cstring f) as Hf by exact (Forall_lookup_1 _ _ _ _ Hws El). apply does_on_cwd, find_or_create_on; [done..| |].
    + intros Hfull Hneg. change (-1 <? 0) with true. cbn iota. apply does_on_any, does_say_ln. split; [done|]. split; [done|].
      unfold echo_file. cbv zeta. rewrite (proj2 (Z.ltb_lt _ 0) Hneg). by left.
    + intros j d1 Hj Hinv1 Hdir1 Hcase. rewrite (proj2 (Z.ltb_ge j 0)) by apply Hj. by apply echo_store_does.
  - destruct (echoed_text ws Hws) as [Hb Hl]. eapply does_on_lift; [by apply echo_text_spec|]. apply does_on_any.
    eapply does_print_bind with (t := echoed ws); [apply elem_of_app; right; left| | |].
    + apply Forall_app. split; [|by repeat constructor]. eapply Forall_impl; [exact Hb|]. unfold is_byte. simpl. lia.
    + rewrite cstr_nul; [done|]. eapply Forall_impl; [exact Hb|]. simpl. lia.
    + apply does_say_ln. ends.
Qed.
End commands.
