(* ===== verification/ShellPwd.v ===== *)
(** * Printing the current directory: [print_cwd] (kernel/shell.c)

    The path is found by going up: the parent through "..", the name by
    searching the parent for the inode.  The path that is printed leads back
    to the directory, where names allow it. *)

From S2P Require Import Prelude Ports Devices CString Serial Screen Block Kheap Alloc Sfs SfsLayout SfsInv SfsFile SfsDir SfsOps SfsTree Shell ShellRun ShellFs ShellRm ShellSpec SfsSpec.

(** The name [parent] has for [child]. *)
Definition known_as (child : Z) (x : Z * list Z) : Prop := live x ∧ x.1 = child + 1.
#[global] Instance known_as_dec child x : Decision (known_as child x).
Proof. unfold known_as. apply _. Defined.
Definition entry_of (d : disk) (parent child : Z) : option (list Z) :=
  snd <$> head (filter (known_as child) (entries d parent)).

(** The names on the way up, at most [n]. *)
Fixpoint trail (n : nat) (d : disk) (cur : Z) : list (list Z) :=
  match n with
  | O => []
  | S n' =>
      if cur =? SFS_ROOT then []
      else
        match entry_of d (lookup_at d cur dotdot) cur with
        | None => []
        | Some nm => nm :: trail n' d (lookup_at d cur dotdot)
        end
  end.
Definition path_text (parts : list (list Z)) : list Z := rev parts ≫= λ nm, 47 :: nm.
Definition cwd_text (d : disk) (w : Z) : list Z := if w =? SFS_ROOT then [47] else path_text (trail 16 d w).

Section pwd.
Context {HW L H : Type} {PW : Ports HW} {PC : PcPorts HW} {BL : BlockLayer L} {BS : BlockLayerSpec L}
  {AH : Allocator H} {AS : AllocatorSpec H}.
Abbreviation S := (shell HW L H).
Abbreviation terminated nm := (nm ++ [0]).

Lemma name_loop_does n parent child i live d w todo : fs_inv d → is_dir d w → is_dir d parent → 0 ≤ i →
  drop (Z.to_nat i) (entries d parent) = todo → (length todo < n)%nat →
  does (HW := HW) (L := L) (H := H) (name_loop n parent child i) live d w
    (just (λ r, r = (λ x, x.2 ++ [0]) <$> head (filter (known_as child) todo)) live d w).
Proof.
  intros Hinv Hdir Hd. revert i todo. induction n as [|n IH]; intros i todo Hi Htodo Hn; [lia|]. cbn [name_loop].
  apply readdir_does; [done..|]. pose proof (entry_cases d parent i todo Htodo Hi) as Hx. destruct todo as [|x todo].
  { rewrite Hx. cbn [from_option fst]. change (-1 <? 0) with true. cbn iota. by apply does_ret. }
  destruct Hx as (-> & Htodo' & Hin). destruct (entry_name d parent x (proj1 Hinv) Hd Hin) as [Hby Hno].
  assert (slot_used x) as Hu by (by apply list_elem_of_filter in Hin as [? _]).
  assert (Forall (λ c, c ≠ 0) x.2) as Hnz by (eapply Forall_impl; [exact Hby|]; simpl; lia).
  cbn [from_option entry_result fst snd]. rewrite (proj2 (Z.ltb_ge (x.1 - 1) 0)) by apply Hno.
  cbn [length] in Hn. rewrite filter_cons. destruct (Z.eqb_spec (x.1 - 1) child) as [E|E].
  - apply dots_does; [done|]. destruct (decide (x.2 = dot ∨ x.2 = dotdot)) as [Ed|Ed].
    + rewrite bool_decide_eq_true_2 by done. rewrite decide_False by (intros [(_ & ? & ?) _]; tauto). apply IH; [lia|done|lia].
    + rewrite bool_decide_eq_false_2 by done. rewrite decide_True by (split; [split; tauto|lia]). by apply does_ret.
  - rewrite decide_False by (intros [_ ?]; lia). apply IH; [lia|done|lia].
Qed.

Lemma name_of_does parent child live d w : fs_inv d → is_dir d w → is_dir d parent →
  does (HW := HW) (L := L) (H := H) (name_of parent child) live d w
    (just (λ r, r = (λ nm, nm ++ [0]) <$> entry_of d parent child) live d w).
Proof.
  intros Hinv Hdir Hd. unfold name_of. eapply does_bind.
  { apply (name_loop_does COUNT_FUEL parent child 0 live d w (entries d parent)); [done..|by rewrite drop_0|].
    pose proof (entries_few d parent (proj1 Hinv)). unfold COUNT_FUEL. lia. }
  intros r l' d' w' o _ _ (-> & -> & -> & -> & ->). unfold entry_of.
  destruct (head (filter (known_as child) (entries d parent))) as [x|] eqn:Ex; cbn [fmap option_fmap option_map]; [|by apply does_ret].
  assert (x ∈ entries d parent) as Hin.
  { destruct (filter (known_as child) (entries d parent)) as [|y l] eqn:Ef; [done|]. injection Ex as ->.
    assert (x ∈ filter (known_as child) (entries d parent)) as [_ ?]%list_elem_of_filter by (rewrite Ef; left). done. }
  destruct (entry_name d parent x (proj1 Hinv) Hd Hin) as [Hby _].
  eapply does_lift; [apply strcpy_spec, elem_of_app; right; left|]. rewrite cstr_nul; [by apply does_ret|].
  eapply Forall_impl; [exact Hby|]. simpl. lia.
Qed.

Lemma entry_of_text d parent child nm : fs_ok d → is_dir d parent → entry_of d parent child = Some nm →
  Forall (λ c, 0 < c < 256) nm ∧ (child + 1, nm) ∈ entries d parent ∧ nm ≠ dot ∧ nm ≠ dotdot.
Proof.
  intros Hok Hd. unfold entry_of. destruct (filter (known_as child) (entries d parent)) as [|x l] eqn:Ef; [done|]. intros [= <-].
  assert (x ∈ filter (known_as child) (entries d parent)) as (((_ & H1 & H2) & Hc) & Hin)%list_elem_of_filter by (rewrite Ef; left).
  destruct (entry_name d parent x Hok Hd Hin) as [Hby _]. rewrite <-Hc. destruct x; done.
Qed.

Lemma parent_dir d cur : fs_inv d → is_dir d cur → is_dir d (lookup_at d cur dotdot).
Proof. intros Hinv Hd. by apply dots_lookup. Qed.

Lemma cwd_loop_does n cur parts live d w : fs_inv d → is_dir d w → is_dir d cur →
  does (HW := HW) (L := L) (H := H) (cwd_loop n cur parts) live d w
    (just (λ r, r = parts ++ ((λ nm, nm ++ [0]) <$> trail n d cur)) live d w).
Proof.
  intros Hinv Hdir. revert cur parts. induction n as [|n IH]; intros cur parts Hcur; cbn [cwd_loop trail].
  { apply does_ret. by rewrite app_nil_r. }
  destruct (cur =? SFS_ROOT); [apply does_ret; by rewrite app_nil_r|].
  eapply does_disk_bind; [apply sfs_lookup_run; [apply Hinv|apply Hcur|apply lit_nul]|done|done|]. change (cstr (lit "..")) with dotdot.
  pose proof (parent_dir d cur Hinv Hcur) as Hp. rewrite (proj2 (Z.ltb_ge _ 0)) by apply Hp.
  eapply does_bind; [by apply name_of_does|]. intros r l' d' w' o _ _ (-> & -> & -> & -> & ->).
  destruct (entry_of d (lookup_at d cur dotdot) cur) as [nm|]; cbn [fmap option_fmap option_map]; [|apply does_ret; by rewrite app_nil_r].
  eapply does_weaken; [by apply IH|]. intros r l' d' w' o (-> & -> & -> & -> & ->). split; [|done]. by rewrite <-app_assoc.
Qed.

Lemma trail_text n d cur : fs_inv d → is_dir d cur → Forall (Forall (λ c, 0 < c < 256)) (trail n d cur).
Proof.
  intros Hinv. revert cur. induction n as [|n IH]; intros cur Hcur; cbn [trail]; [constructor|].
  destruct (cur =? SFS_ROOT); [constructor|]. pose proof (parent_dir d cur Hinv Hcur) as Hp.
  destruct (entry_of d (lookup_at d cur dotdot) cur) as [nm|] eqn:E; [|constructor].
  constructor; [by eapply entry_of_text; [apply Hinv|..]|by apply IH].
Qed.

Lemma print_parts_does parts live d w : Forall (Forall (λ c, 0 < c < 256)) parts →
  does (HW := HW) (L := L) (H := H) (print_parts ((λ nm, nm ++ [0]) <$> parts)) live d w
    (leaves live (λ d' w' o, d' = d ∧ w' = w ∧ o = path_text parts)).
Proof.
  induction parts as [|nm parts IH]; intros Hp; cbn [print_parts fmap list_fmap].
  { apply does_ret. ends. }
  apply Forall_cons in Hp as [Hnm Hp]. eapply does_bind; [by apply IH|]. intros [] l' d' w' o _ _ (-> & -> & -> & ->).
  destruct (lit_cstring "/"). eapply does_print_bind; [done|done|reflexivity|].
  eapply does_print with (t := nm); [apply elem_of_app; right; left| | |].
  - apply Forall_app. split; [|by repeat constructor]. eapply Forall_impl; [exact Hnm|]. unfold is_byte. simpl. lia.
  - rewrite cstr_nul; [done|]. eapply Forall_impl; [exact Hnm|]. simpl. lia.
  - unfold leaves, after_text. split_and!; try done. unfold path_text. cbn [rev]. rewrite bind_app. cbn [mbind list_bind]. by rewrite app_nil_r.
Qed.

Lemma print_cwd_does live d w : fs_inv d → is_dir d w →
  does (HW := HW) (L := L) (H := H) print_cwd live d w (leaves live (λ d' w' o, d' = d ∧ w' = w ∧ o = cwd_text d w)).
Proof.
  intros Hinv Hdir. unfold print_cwd, cwd_text. apply does_cwd. destruct (w =? SFS_ROOT).
  - destruct (lit_cstring "/"). eapply does_print; [done|done|reflexivity|]. ends.
  - eapply does_bind; [by apply cwd_loop_does|]. intros r l' d' w' o _ _ (-> & -> & -> & -> & ->). cbn [app].
    eapply does_weaken; [apply print_parts_does; by apply trail_text|]. intros [] l' d' w' o (-> & -> & -> & ->). ends.
Qed.
End pwd.

(** ** The path leads back *)

(** Names that a path can be made of: distinct in their directory, not empty,
    without a slash. *)
Definition plain_names (d : disk) : Prop := ∀ i, is_dir d i →
  NoDup (snd <$> entries d i) ∧ ∀ x, x ∈ entries d i → x.2 ≠ [] ∧ (47 ∉ x.2).
(** The directory is at most [n] names below the root. *)
Definition within (n : nat) (d : disk) (w : Z) : Prop := Nat.iter n (λ c, lookup_at d c dotdot) w = SFS_ROOT.

Lemma find_unique d dir c nm : fs_ok d → is_dir d dir → NoDup (snd <$> entries d dir) → (c + 1, nm) ∈ entries d dir →
  find_name nm (dir_slots d dir) = Some c.
Proof.
  intros Hok Hd Hnd Hin. assert (find_name nm (dir_slots d dir) = find_name nm (entries d dir)) as ->.
  { unfold entries. induction (dir_slots d dir) as [|x l IH]; [done|]. rewrite filter_cons, find_name_cons.
    destruct (decide (slot_used x)) as [Hu|Hu]; [rewrite find_name_cons; by rewrite IH|].
    rewrite decide_False; [done|]. by intros [? _]. }
  apply list_elem_of_filter in Hin as Hin'. destruct Hin' as [Hu _]. revert Hnd Hin. induction (entries d dir) as [|x l IH]; intros Hnd Hin.
  { by apply not_elem_of_nil in Hin. }
  rewrite find_name_cons. cbn in Hnd. apply NoDup_cons in Hnd as [Hnx Hnd]. apply elem_of_cons in Hin as [<-|Hin].
  - rewrite decide_True by done. cbn. f_equal. lia.
  - rewrite decide_False; [by apply IH|]. intros [_ E]. apply Hnx. rewrite E. apply list_elem_of_fmap. by exists (c + 1, nm).
Qed.

(** The child entry exists for the parent. *)
Lemma entry_of_child d p c : fs_inv d → is_dir d p → child d p c → is_Some (entry_of d p c).
Proof.
  intros Hinv [Hp Hpt] [_ Hc]. rewrite targets_dir in Hc by done. unfold live_targets in Hc. rewrite <-live_entries in Hc.
  apply list_elem_of_fmap in Hc as (x & Hx & Hin). apply list_elem_of_filter in Hin as [Hl Hin]. unfold entry_of.
  destruct (filter (known_as c) (entries d p)) as [|y l] eqn:Ef; [|done].
  assert (x ∈ filter (known_as c) (entries d p)) as Hf by (apply list_elem_of_filter; split; [split; [done|lia]|done]).
  rewrite Ef in Hf. by apply not_elem_of_nil in Hf.
Qed.

Lemma walk_app d i l k : walk d i (l ++ k) = walk d (walk d i l) k.
Proof. unfold walk. by rewrite foldl_app. Qed.

(** Going down the names found on the way up. *)
Lemma walk_trail n d w : fs_inv d → plain_names d → is_dir d w → within n d w → walk d SFS_ROOT (rev (trail n d w)) = w.
Proof.
  intros Hinv Hpl. revert w. induction n as [|n IH]; intros w Hdir Hw; cbn [trail]; [by rewrite Hw|].
  destruct (Z.eqb_spec w SFS_ROOT) as [->|Hr]; [done|]. pose proof (parent_dir d w Hinv Hdir) as Hp.
  destruct (dots_lookup d w Hinv Hdir) as (_ & _ & Hc). rewrite decide_False in Hc by done.
  destruct (entry_of_child d _ w Hinv Hp Hc) as [nm En]. rewrite En. cbn [rev]. rewrite walk_app, IH; [|done|unfold within in *; by rewrite Nat.iter_succ_r in Hw].
  destruct (entry_of_text d _ w nm (proj1 Hinv) Hp En) as (_ & Hin & _). destruct (Hpl _ Hp) as [Hnd _].
  unfold walk. cbn [foldl]. rewrite (proj2 (Z.ltb_ge _ 0)) by apply Hp. unfold lookup_at at 1. rewrite (proj2 Hp).
  by rewrite (find_unique d _ w nm (proj1 Hinv) Hp Hnd Hin).
Qed.

(** The components of the text are the names. *)
Lemma split_on_none c l : c ∉ l → split_on c l = [l].
Proof.
  induction l as [|x l IH]; intros Hc; [done|]. cbn [split_on]. apply not_elem_of_cons in Hc as [Hx Hc].
  rewrite (proj2 (Z.eqb_neq x c)) by done. by rewrite IH.
Qed.
Lemma split_on_app c l k : c ∉ l → split_on c (l ++ c :: k) = l :: split_on c k.
Proof.
  induction l as [|x l IH]; intros Hc; cbn [app split_on]; [by rewrite Z.eqb_refl|].
  apply not_elem_of_cons in Hc as [Hx Hc]. rewrite (proj2 (Z.eqb_neq x c)) by done. by rewrite IH.
Qed.

Lemma split_path names : Forall (λ nm, (47 ∉ nm)) names → names ≠ [] → split_on 47 (names ≫= λ nm, 47 :: nm) = [] :: names.
Proof.
  intros Hn. induction Hn as [|nm names Hnm Hn IH]; [done|]. intros _. rewrite bind_cons. cbn [app split_on]. change (47 =? 47) with true.
  cbn iota. f_equal. destruct names as [|nm' names]; [cbn; rewrite app_nil_r; by rewrite split_on_none|].
  specialize (IH ltac:(done)). rewrite bind_cons in IH |- *. cbn [app split_on] in IH |- *. change (47 =? 47) with true in IH. cbn iota in IH.
  injection IH as IH. rewrite split_on_app by done. by rewrite IH.
Qed.

Lemma components_path names : Forall (λ nm, nm ≠ [] ∧ (47 ∉ nm) ∧ (length nm ≤ 27)%nat) names →
  components (names ≫= λ nm, 47 :: nm) = names.
Proof.
  intros Hn. destruct (decide (names = [])) as [->|Hne]; [done|]. unfold components.
  rewrite split_path; [|eapply Forall_impl; [exact Hn|]; simpl; tauto|done]. rewrite filter_cons_False by auto.
  clear Hne. induction Hn as [|nm names (H1 & H2 & H3) Hn IH]; [done|]. rewrite filter_cons_True by done. cbn [fmap list_fmap].
  rewrite IH, take_ge by lia. done.
Qed.

Lemma trail_plain n d w : fs_inv d → plain_names d → is_dir d w → Forall (λ nm, nm ≠ [] ∧ (47 ∉ nm) ∧ (length nm ≤ 27)%nat) (trail n d w).
Proof.
  intros Hinv Hpl. revert w. induction n as [|n IH]; intros w Hdir; cbn [trail]; [constructor|].
  destruct (w =? SFS_ROOT); [constructor|]. pose proof (parent_dir d w Hinv Hdir) as Hp.
  destruct (entry_of d (lookup_at d w dotdot) w) as [nm|] eqn:E; [|constructor].
  destruct (entry_of_text d _ w nm (proj1 Hinv) Hp E) as (_ & Hin & _). constructor; [|by apply IH].
  destruct (proj2 (Hpl _ Hp) _ Hin) as [? ?]. split; [done|]. split; [done|].
  apply list_elem_of_filter in Hin as [_ Hin]. by apply (slot_name_short d _ _ (proj1 Hinv) (proj1 Hp) (proj2 Hp) Hin).
Qed.

Lemma cwd_text_walk d w : fs_inv d → plain_names d → is_dir d w → within 16 d w →
  walk d SFS_ROOT (components (cwd_text d w)) = w ∧ Forall (λ c, 0 < c < 256) (cwd_text d w) ∧ head (cwd_text d w) = Some 47.
Proof.
  intros Hinv Hpl Hdir Hw. unfold cwd_text. destruct (Z.eqb_spec w SFS_ROOT) as [->|Hr]; [by repeat constructor|].
  unfold path_text. rewrite components_path by (apply Forall_rev, trail_plain; done). split; [by apply walk_trail|]. split.
  - apply Forall_bind, Forall_rev. eapply Forall_impl; [by apply trail_text|]. intros nm Hnm. constructor; [lia|done].
  - pose proof (walk_trail 16 d w Hinv Hpl Hdir Hw) as Hwalk. destruct (rev (trail 16 d w)) as [|nm l]; [|done].
    cbn in Hwalk. by symmetry in Hwalk.
Qed.
