(* ===== verification/ShellWords.v ===== *)
(** * Splitting a line into words: [tokenize] (kernel/shell.c)

    The specification splits a text at its spaces; the code writes terminators
    into the line and stores pointers.  The last of the words asked for keeps
    the rest of the line. *)

From S2P Require Import Prelude CString Kheap Shell.

Fixpoint drop_spaces (t : list Z) : list Z :=
  match t with c :: t' => if c =? 32 then drop_spaces t' else t | [] => [] end.
Fixpoint first_word (t : list Z) : list Z :=
  match t with c :: t' => if c =? 32 then [] else c :: first_word t' | [] => [] end.
Fixpoint after_word (t : list Z) : list Z :=
  match t with c :: t' => if c =? 32 then t else after_word t' | [] => [] end.

(** At most [m] words; the last one is not cut. *)
Fixpoint words_of (m : nat) (t : list Z) : list (list Z) :=
  match m with
  | O => []
  | S m' =>
      match drop_spaces t with
      | [] => []
      | u => match m' with O => [u] | S _ => first_word u :: words_of m' (after_word u) end
      end
  end.

Lemma drop_spaces_split t : ∃ k, t = replicate k 32 ++ drop_spaces t ∧ head (drop_spaces t) ≠ Some 32.
Proof.
  induction t as [|c t (k & E & Hh)]; [by exists 0%nat|]. cbn [drop_spaces]. destruct (Z.eqb_spec c 32) as [->|Hc].
  - exists (S k). split; [cbn; by rewrite <-E|done].
  - exists 0%nat. split; [done|]. by intros [= ?].
Qed.
Lemma word_split u : u = first_word u ++ after_word u.
Proof. induction u as [|c u IH]; [done|]. cbn [first_word after_word]. destruct (c =? 32); [done|]. cbn. by rewrite <-IH. Qed.
Lemma after_word_head u : after_word u = [] ∨ head (after_word u) = Some 32.
Proof. induction u as [|c u IH]; [by left|]. cbn [after_word]. destruct (Z.eqb_spec c 32) as [->|]; [by right|done]. Qed.
Lemma first_word_plain u : Forall (λ c, c ≠ 32) (first_word u).
Proof. induction u as [|c u IH]; [constructor|]. cbn [first_word]. destruct (Z.eqb_spec c 32); by constructor. Qed.

Lemma lookup_at_end {A} (pre rest : list A) : (pre ++ rest) !! length pre = head rest.
Proof. rewrite lookup_app_r, Nat.sub_diag by lia. by destruct rest. Qed.

Lemma skip_spaces_run k pre u n : head u ≠ Some 32 → u ≠ [] → (k < n)%nat →
  skip_spaces n (pre ++ replicate k 32 ++ u) (length pre) = Some (pre ++ replicate k 0 ++ u, (length pre + k)%nat).
Proof.
  intros Hh Hu. revert pre n. induction k as [|k IH]; intros pre n Hn; (destruct n as [|n]; [lia|]); cbn [skip_spaces].
  - cbn [replicate app]. rewrite lookup_at_end. destruct u as [|c u]; [done|]. cbn [head] in *. cbn [mbind option_bind].
    rewrite (proj2 (Z.eqb_neq c 32)) by congruence. by rewrite Nat.add_0_r.
  - rewrite lookup_at_end. cbn [replicate app head mbind option_bind]. change (32 =? 32) with true. cbn iota.
    rewrite insert_app_r_alt, Nat.sub_diag by lia. cbn [insert list_insert].
    specialize (IH (pre ++ [0]) n ltac:(lia)). rewrite length_app, <-!app_assoc in IH. cbn [length app] in IH.
    replace (length pre + 1)%nat with (S (length pre)) in IH by lia. rewrite IH. do 2 f_equal. lia.
Qed.

Lemma skip_word_run wd pre v n : Forall (λ c, c ≠ 0 ∧ c ≠ 32) wd → head v = Some 0 ∨ head v = Some 32 → (length wd < n)%nat →
  skip_word n (pre ++ wd ++ v) (length pre) = Some (length pre + length wd)%nat.
Proof.
  intros Hw Hv. revert pre n. induction Hw as [|c wd [H0 H32] Hw IH]; intros pre n Hn; (destruct n as [|n]; [simpl in Hn; lia|]); cbn [skip_word].
  - cbn [app]. rewrite lookup_at_end. destruct Hv as [-> | ->]; cbn; by rewrite Nat.add_0_r.
  - rewrite lookup_at_end. cbn [app head mbind option_bind]. rewrite (proj2 (truth_true c) H0), (proj2 (Z.eqb_neq c 32) H32). cbn [negb andb].
    cbn [length] in Hn |- *. specialize (IH (pre ++ [c]) n ltac:(lia)). rewrite length_app, <-!app_assoc in IH. cbn [length app] in IH.
    replace (length pre + 1)%nat with (S (length pre)) in IH by lia. rewrite IH. f_equal. lia.
Qed.

(** What the arguments point to. *)
Definition strings (line : list Z) (argv : list nat) : list (list Z) := (λ q, cstr (drop q line)) <$> argv.

Lemma tokenize_loop_run n pre t tail argv max : Forall (λ c, c ≠ 0) t → (length t < n)%nat → ∃ new t',
  tokenize_loop n (pre ++ t ++ 0 :: tail) (length pre) argv max = Some (argv ++ new, pre ++ t' ++ 0 :: tail) ∧
  length t' = length t ∧ strings (pre ++ t' ++ 0 :: tail) new = words_of (max - length argv) t ∧
  ((length argv < max)%nat → t = [] ∨ head t = Some 32 → head (t' ++ 0 :: tail) = Some 0) ∧ ((max ≤ length argv)%nat → t' = t).
Proof.
  revert pre t argv. induction n as [|n IH]; intros pre t argv Ht Hn; [lia|]. cbn [tokenize_loop].
  rewrite lookup_at_end. destruct (decide (t = [] ∨ (max ≤ length argv)%nat)) as [Hstop|Hgo].
  { exists [], t. rewrite app_nil_r. split; [|split; [done|]].
    - destruct t as [|c t]; cbn [app head mbind option_bind]; [done|]. destruct Hstop as [?|Hm]; [done|].
      rewrite (proj2 (Nat.ltb_ge _ _) Hm), andb_false_r. done.
    - destruct Hstop as [->|Hm]; [destruct (max - length argv)%nat; done|]. replace (max - length argv)%nat with 0%nat by lia.
      split; [done|]. split; [lia|done]. }
  assert (t ≠ [] ∧ (length argv < max)%nat) as [Hne Hm] by (split; [tauto|lia]).
  assert (∃ c, head (t ++ 0 :: tail) = Some c ∧ truth c = true) as (c & Eh & Etr).
  { destruct t as [|c t]; [done|]. exists c. split; [done|]. apply truth_true. by apply Forall_cons in Ht as [? _]. }
  rewrite Eh. cbn [mbind option_bind]. rewrite Etr, (proj2 (Nat.ltb_lt _ _) Hm). cbn [andb].
  destruct (drop_spaces_split t) as (k & Et & Hh). set (u := drop_spaces t) in *.
  assert (Forall (λ c, c ≠ 0) u) as Hu by (rewrite Et in Ht; by apply Forall_app in Ht as [_ ?]).
  assert (length t = k + length u)%nat as Hlen by (rewrite Et at 1; by rewrite length_app, length_replicate).
  assert (words_of (max - length argv) t = match u with [] => [] | _ => match (max - length argv - 1)%nat with O => [u]
    | S _ => first_word u :: words_of (max - length argv - 1) (after_word u) end end) as ->.
  { destruct (max - length argv)%nat as [|m] eqn:Emx; [lia|]. cbn [words_of]. fold u. replace (S m - 1)%nat with m by lia. by destruct u. }
  clearbody u. assert (pre ++ t ++ 0 :: tail = pre ++ replicate k 32 ++ (u ++ 0 :: tail)) as -> by (by rewrite Et, <-app_assoc).
  rewrite skip_spaces_run; [|by destruct u|by destruct u|rewrite !length_app, length_replicate; lia]. cbn [mbind option_bind].
  assert (length (pre ++ replicate k 0%Z) = length pre + k)%nat as Hp by (by rewrite length_app, length_replicate).
  destruct u as [|c' u'] eqn:Eu.
  { exists [], (replicate k 0). cbn [app]. rewrite app_assoc, <-Hp, lookup_at_end. cbn [head mbind option_bind]. rewrite app_nil_r.
    split; [done|]. split; [rewrite length_replicate, Hlen; simpl; lia|]. split; [done|].
    split; [by destruct k|lia]. }
  rewrite <-Eu in *. set (wd := first_word u) in *. set (v := after_word u) in *.
  assert (u = wd ++ v) as Euv by apply word_split.
  assert (Forall (λ c, c ≠ 0 ∧ c ≠ 32) wd) as Hwd.
  { apply Forall_and. split; [|apply first_word_plain]. rewrite Euv in Hu. by apply Forall_app in Hu as [? _]. }
  assert (Forall (λ c, c ≠ 0) v) as Hv by (rewrite Euv in Hu; by apply Forall_app in Hu as [_ ?]).
  assert (wd ≠ []) as Hwne.
  { unfold wd. rewrite Eu in Hh |- *. cbn [first_word]. destruct (Z.eqb_spec c' 32) as [->|]; [by destruct Hh|done]. }
  rewrite app_assoc, <-Hp, lookup_at_end. assert (∃ c, head (u ++ 0 :: tail) = Some c ∧ truth c = true) as (e & Eh' & Etr').
  { rewrite Eu in Hu |- *. exists c'. split; [done|]. apply truth_true. by apply Forall_cons in Hu as [? _]. }
  rewrite Eh'. cbn [mbind option_bind]. rewrite Etr'. cbn [negb]. rewrite Euv, <-(app_assoc wd). rewrite skip_word_run;
    [|done|destruct (after_word_head u) as [E|E]; fold v in E; [left; by rewrite E|right; by destruct v]|rewrite !length_app; lia].
  cbn [mbind option_bind]. set (pre' := (pre ++ replicate k 0) ++ wd).
  assert (length (pre ++ replicate k 0%Z) + length wd = length pre')%nat as -> by (unfold pre'; by rewrite (length_app _ wd)).
  rewrite (app_assoc (pre ++ replicate k 0)). fold pre'.
  assert (length u = length wd + length v)%nat as Hlu by (by rewrite Euv, length_app).
  assert (0 < length wd)%nat by (destruct wd; [done|simpl; lia]).
  destruct (IH pre' v (argv ++ [length (pre ++ replicate k 0)]) Hv ltac:(lia)) as (new & v' & E & Hl' & Hs & Hcl & Hkeep).
  rewrite length_app in Hs, Hcl, Hkeep. cbn [length] in Hs, Hcl, Hkeep.
  exists (length (pre ++ replicate k 0) :: new), (replicate k 0 ++ wd ++ v').
  assert (pre ++ (replicate k 0 ++ wd ++ v') ++ 0 :: tail = pre' ++ v' ++ 0 :: tail) as Eline by (unfold pre'; by rewrite <-!app_assoc).
  rewrite Eline. split; [rewrite E; by rewrite <-app_assoc|]. split; [rewrite !length_app, length_replicate; lia|].
  assert (cstr (drop (length (pre ++ replicate k 0)) (pre' ++ v' ++ 0 :: tail)) = cstr (wd ++ v' ++ 0 :: tail)) as Edrop.
  { unfold pre'. rewrite <-(app_assoc (pre ++ _)), drop_app_length. done. }
  assert (Forall (λ c, c ≠ 0) wd) as Hwd0 by (eapply Forall_impl; [exact Hwd|]; simpl; tauto).
  split; [|split; [|lia]].
  - unfold strings in *. cbn [fmap list_fmap]. rewrite Edrop, Hs. replace (max - (length argv + 1))%nat with (max - length argv - 1)%nat by lia.
    rewrite <-Euv. destruct (max - length argv - 1)%nat as [|m] eqn:Em.
    + rewrite Hkeep by lia. cbn [words_of]. rewrite app_assoc, <-Euv. unfold cstr. by rewrite upto0_app_0.
    + f_equal. assert (head (v' ++ 0 :: tail) = Some 0) as Hz by (apply Hcl; [lia|apply after_word_head]).
      destruct (v' ++ 0 :: tail) as [|z l]; [done|]. injection Hz as ->. unfold cstr. by rewrite upto0_app_0.
  - intros _ Ht0. destruct k as [|k]; [|done]. exfalso. destruct Ht0 as [?|Ht0]; [done|]. rewrite Et in Ht0. cbn [replicate app] in Ht0. done.
Qed.

Lemma tokenize_run t tail max : Forall (λ c, c ≠ 0) t → ∃ argv t',
  tokenize (t ++ 0 :: tail) max = Some (argv, t' ++ 0 :: tail) ∧ length t' = length t ∧
  strings (t' ++ 0 :: tail) argv = words_of max t.
Proof.
  intros Ht. destruct (tokenize_loop_run (S (length (t ++ 0 :: tail))) [] t tail [] max Ht) as (argv & t' & E & Hl & Hs & _).
  { rewrite length_app. lia. }
  exists argv, t'. rewrite Nat.sub_0_r in Hs. done.
Qed.

(** ** The pointers stay in the line *)

(** A terminator at [N], bytes everywhere. *)
Definition closed_line (N : nat) (line : list Z) : Prop := line !! N = Some 0 ∧ Forall is_byte line.

Lemma skip_spaces_closed n N line p line' p' : closed_line N line → (p ≤ N)%nat → skip_spaces n line p = Some (line', p') →
  closed_line N line' ∧ (p' ≤ N)%nat.
Proof.
  revert line p. induction n as [|n IH]; intros line p [HN Hb] Hp E; cbn [skip_spaces] in E; [done|].
  destruct (line !! p) as [c|] eqn:Ec; [|done]. cbn [mbind option_bind] in E. destruct (Z.eqb_spec c 32) as [->|].
  - assert (p ≠ N) as Hne by (intros ->; by rewrite HN in Ec). apply (IH _ _) in E; [done| |lia].
    split; [by rewrite list_lookup_insert_ne|]. apply Forall_insert; [done|]. split; [apply Z.le_refl|reflexivity].
  - by injection E as <- <-.
Qed.
Lemma skip_word_closed n N line p p' : closed_line N line → (p ≤ N)%nat → skip_word n line p = Some p' → (p' ≤ N)%nat.
Proof.
  revert p. induction n as [|n IH]; intros p [HN Hb] Hp E; cbn [skip_word] in E; [done|].
  destruct (line !! p) as [c|] eqn:Ec; [|done]. cbn [mbind option_bind] in E. destruct (truth c && negb (c =? 32)) eqn:Et.
  - assert (p ≠ N) as Hne by (intros ->; rewrite HN in Ec; injection Ec as <-; done). apply (IH (S p)); [done|lia|done].
  - by injection E as <-.
Qed.
Lemma tokenize_closed n N line p argv max argv' line' : closed_line N line → (p ≤ N)%nat → Forall (λ q, q ≤ N)%nat argv →
  tokenize_loop n line p argv max = Some (argv', line') → closed_line N line' ∧ Forall (λ q, q ≤ N)%nat argv'.
Proof.
  revert line p argv. induction n as [|n IH]; intros line p argv Hl Hp Ha E; cbn [tokenize_loop] in E; [done|].
  destruct (line !! p) as [c|]; [|done]. cbn [mbind option_bind] in E.
  destruct (truth c && _); [|by injection E as <- <-].
  destruct (skip_spaces _ line p) as [[line1 p1]|] eqn:Es; [|done]. cbn [mbind option_bind] in E.
  destruct (skip_spaces_closed _ N _ _ _ _ Hl Hp Es) as [Hl1 Hp1].
  destruct (line1 !! p1) as [c1|]; [|done]. cbn [mbind option_bind] in E.
  destruct (negb (truth c1)); [by injection E as <- <-|].
  destruct (skip_word _ line1 p1) as [p2|] eqn:Ew; [|done]. cbn [mbind option_bind] in E.
  apply (IH line1 p2 (argv ++ [p1])) in E; [done|done|by eapply skip_word_closed|].
  apply Forall_app. split; [done|]. by constructor.
Qed.

(** The arguments are strings. *)
Lemma tokenize_args t tail max argv line' : Forall (λ c, 0 < c < 256) t → Forall is_byte tail →
  tokenize (t ++ 0 :: tail) max = Some (argv, line') →
  Forall (λ s, 0 ∈ s ∧ Forall is_byte s) ((λ p, drop p line') <$> argv) ∧ Forall is_byte line'.
Proof.
  intros Ht Htail E. assert (closed_line (length t) (t ++ 0 :: tail)) as Hc.
  { split; [by rewrite list_lookup_middle|]. apply Forall_app. split; [eapply Forall_impl; [exact Ht|]; unfold is_byte; simpl; lia|].
    constructor; [split; [apply Z.le_refl|reflexivity]|done]. }
  destruct (tokenize_closed _ (length t) _ _ _ _ _ _ Hc (Nat.le_0_l _) (Forall_nil_2 _) E) as [[HN Hb] Hq].
  split; [|done]. apply Forall_fmap. eapply Forall_impl; [exact Hq|]. intros q Hle. cbn in Hle |- *. split; [|by apply Forall_drop].
  apply list_elem_of_lookup. exists (length t - q)%nat. rewrite lookup_drop. by replace (q + (length t - q))%nat with (length t) by lia.
Qed.
