(* ===== verification/ShellProps.v ===== *)
(** * Properties of the shell's file commands (kernel/shell.c)

    Each is stated for a shell at rest: the console is up, the block layer
    shows a consistent disk, the heap is in order and the current directory is
    one ([shell_ok]). *)

From S2P Require Import Prelude Ports Devices CString Serial Screen Block Bcache Kheap Alloc Sfs SfsLayout SfsInv SfsFile SfsDir SfsOps SfsTree SfsSpec Shell ShellRun ShellFs ShellRm ShellSpec ShellPwd ShellWords.

Section props.
Context {HW L H : Type} {PW : Ports HW} {PC : PcPorts HW} {BL : BlockLayer L} {BS : BlockLayerSpec L}
  {AH : Allocator H} {AS : AllocatorSpec H}.
Abbreviation S := (shell HW L H).

(** [does] at a state. *)
Lemma does_at {A} (c : M S A) live d w Q s : does c live d w Q → shell_ok live d w s →
  ∃ a s' live' d' w' o, c s = Some (a, s') ∧ shell_ok live' d' w' s' ∧ printed_by s' = printed_by s ++ o ∧ Q a live' d' w' o.
Proof. intros Hc. apply Hc. Qed.
Lemma on_at {A} (c : M S A) live d w Q s : does_on (sheap s) c live d w Q → shell_ok live d w s →
  ∃ a s' live' d' w' o, c s = Some (a, s') ∧ shell_ok live' d' w' s' ∧ printed_by s' = printed_by s ++ o ∧ Q a live' d' w' o.
Proof. intros Hc Hs. by apply Hc. Qed.

(** C23. [resolve] is the walk along the components of the path, each cut to 31
    characters, from the root or from the current directory; it prints nothing
    and leaves the shell as it was. *)
Theorem resolve_walks path live d w (s : S) (Hs : shell_ok live d w s) (Hp : cstring path) :
  ∃ s', resolve path s = Some (walk d (start_of w path) (components (cstr path)), s') ∧
    shell_ok live d w s' ∧ printed_by s' = printed_by s.
Proof.
  destruct (does_at _ _ _ _ _ s (resolve_does path live d w Hp (sk_inv _ _ _ _ Hs) (sk_dir _ _ _ _ Hs)) Hs)
    as (a & s' & live' & d' & w' & o & E & Hs' & Ho & ((-> & _) & -> & -> & -> & ->)).
  exists s'. rewrite app_nil_r in Ho. done.
Qed.

(** Where a name in a directory can be written. *)
Definition writable (d : disk) (w : Z) (nm : list Z) : Prop :=
  0 ≤ lookup_at d w nm ∧ type (inode_at d (lookup_at d w nm)) = SFS_FILE ∨
  lookup_at d w nm < 0 ∧ ∃ i, inode_no i ∧ type (inode_at d i) = SFS_FREE.
(** A name that can be stored and used as a path. *)
Definition plain_name (f : list Z) : Prop := cstring f ∧ cstr f ≠ [] ∧ (47 ∉ cstr f) ∧ (length (cstr f) ≤ 27)%nat.

Lemma plain_walk d w f : is_dir d w → plain_name f → text_of (Some f) = Some f ∧
  walk d (start_of w f) (components (cstr f)) = lookup_at d w (cstr f).
Proof.
  intros [Hw _] ([H0 Hb] & Hne & Hsl & Hlen). split; [unfold text_of; by rewrite decide_False|].
  assert (start_of w f = w) as ->.
  { unfold start_of. destruct f as [|c f]; [by apply not_elem_of_nil in H0|]. cbn [head default]. change (Datatypes.id c) with c.
    destruct (Z.eqb_spec c 47) as [->|]; [|done]. destruct Hsl. unfold cstr. cbn. left. }
  unfold components. rewrite split_on_none, filter_cons_True by done. cbn [filter list_filter fmap list_fmap].
  rewrite take_ge by lia. unfold walk. cbn [foldl]. by rewrite (proj2 (Z.ltb_ge w 0)) by apply Hw.
Qed.

(** The file that was stored, as [cat] shows it. *)
Lemma stored_shown d d' w f bytes : stored d w (cstr f) bytes d' → fs_ok d → is_dir d w → is_dir d' w → plain_name f →
  ∀ mem, cat_text mem d' w (Some f) =
    let b := take (Z.to_nat MAX_BYTES) bytes in
    if mem (Z.of_nat (length b) + 1) then shown b else cstr (lit_ln "cat: out of memory").
Proof.
  intros Hst Hok Hd Hd' Hf mem. destruct (plain_walk d' w f Hd' Hf) as [Ht Hw]. pose proof Hf as (Hc & _ & _ & Hlen).
  destruct (stored_lookup d w (cstr f) bytes d' Hst Hok Hd Hd' (upto0_nonzero f) Hlen) as (Hno & Hty & Hby).
  unfold cat_text. rewrite Ht, Hw. rewrite (proj2 (Z.ltb_ge _ 0)) by apply Hno. by rewrite Hty, Hby.
Qed.

Lemma find_after ws v r : Forall (λ v, ¬ is_redir v) ws → is_redir v → list_find is_redir (ws ++ v :: r) = Some (length ws, v).
Proof.
  intros Hws Hv. induction Hws as [|u ws Hu _ IH]; cbn [app list_find length]; [by rewrite decide_True|].
  rewrite decide_False by done. by rewrite IH.
Qed.

(** C24. What [echo words > file] writes, [cat file] shows: the words joined by
    single spaces, 255 characters at most, and a newline; when [kmalloc] refuses
    [cat] a buffer for them, it says so instead.  The name of the file is at most
    27 characters long and without a slash (it names an entry of the current
    directory), and it can be written: it is the name of a file, or it is free
    and so is an inode. *)
Theorem echo_then_cat ws f live d w (s : S) (Hs : shell_ok live d w s) (Hws : Forall cstring ws)
    (Hplain : Forall (λ v, ¬ is_redir v) ws) (Hf : plain_name f) (Hroom : writable d w (cstr f)) :
  ∃ s1 s' d' o, cmd_echo (ws ++ [lit ">"; f]) s = Some (tt, s1) ∧ cmd_cat (Some f) s1 = Some (tt, s') ∧ shell_ok live d' w s' ∧
    printed_by s' = printed_by s ++ o ∧
    o = if serves (sheap s1) (Z.of_nat (length (echoed ws)) + 1) then shown (echoed ws) else cstr (lit_ln "cat: out of memory").
Proof.
  pose proof (sk_inv _ _ _ _ Hs) as Hinv. pose proof (sk_dir _ _ _ _ Hs) as Hdir.
  assert (Forall cstring (ws ++ [lit ">"; f])) as Hall.
  { apply Forall_app. split; [done|]. constructor; [apply lit_cstring|]. constructor; [apply Hf|constructor]. }
  assert (take (Z.to_nat MAX_BYTES) (echoed ws) = echoed ws) as Hshort.
  { apply take_ge. destruct (echoed_text ws Hws) as [_ ?]. unfold MAX_BYTES. lia. }
  destruct (on_at _ _ _ _ _ s (cmd_echo_does (sheap s) (ws ++ [lit ">"; f]) live d w Hall Hinv Hdir) Hs)
    as ([] & s1 & l1 & d1 & w1 & o1 & E1 & Hs1 & P1 & -> & -> & He).
  assert (stored d w (cstr f) (echoed ws) d1 ∧ o1 = []) as [Hst ->].
  { unfold echoes in He. rewrite find_after in He by (done || by left). rewrite lookup_app_r in He by lia.
    replace (Datatypes.S (length ws) - length ws)%nat with 1%nat in He by lia. cbn [lookup list_lookup] in He. rewrite take_app_length in He.
    change (appends (lit ">")) with false in He. unfold echo_file in He. cbn [andb app] in He. destruct Hroom as [[H0 Hty]|[H0 Hfree]].
    - rewrite (proj2 (Z.ltb_ge _ 0) H0), Hty in He. exact He.
    - rewrite (proj2 (Z.ltb_lt _ 0) H0) in He. destruct He as [(Hfull & _)|(_ & He)]; [|exact He].
      destruct Hfree as (i & Hi & Hi'). by destruct (Hfull i Hi). }
  destruct (on_at _ _ _ _ _ s1 (cmd_cat_does (sheap s1) (Some f) live d1 w (proj1 Hf) (sk_inv _ _ _ _ Hs1) (sk_dir _ _ _ _ Hs1)) Hs1)
    as ([] & s2 & l2 & d2 & w2 & o2 & E2 & Hs2 & P2 & -> & -> & -> & ->).
  exists s1, s2, d1. eexists. split; [exact E1|]. split; [exact E2|]. split; [exact Hs2|]. split; [rewrite P2, P1, app_nil_r; reflexivity|].
  rewrite (stored_shown d d1 w f _ Hst (proj1 Hinv) Hdir (sk_dir _ _ _ _ Hs1) Hf). cbv zeta. by rewrite Hshort.
Qed.

(** [cp src dst] puts a copy of the file under the name [dst] in the current
    directory, over the file of that name or as a new one, and then [cat dst]
    shows it; or else it says what is wrong and changes nothing. *)
Theorem cp_copies src dst live d w (s : S) (Hs : shell_ok live d w s) (Hsrc : cstring src) (Hdst : plain_name dst) :
  let i := walk d (start_of w src) (components (cstr src)) in
  ∃ s' d' o, cmd_cp (Some src) (Some dst) s = Some (tt, s') ∧ shell_ok live d' w s' ∧ printed_by s' = printed_by s ++ o ∧
    (o ≠ [] ∧ d' = d ∨
     o = [] ∧ type (inode_at d i) = SFS_FILE ∧ stored d w (cstr dst) (file_bytes d i) d' ∧
       cat_text (λ _, true) d' w (Some dst) = shown (file_bytes d i)).
Proof.
  pose proof (sk_inv _ _ _ _ Hs) as Hinv. pose proof (sk_dir _ _ _ _ Hs) as Hdir. intros i.
  destruct (on_at _ _ _ _ _ s (cmd_cp_does (sheap s) src dst live d w Hsrc (proj1 Hdst) Hinv Hdir) Hs)
    as ([] & s' & l' & d' & w' & o & E & Hs' & Ho & -> & -> & Hc%copied_cases). exists s', d', o. split; [done|]. split; [done|]. split; [done|].
  destruct Hc as [[-> ?]|(-> & Hi & Hty & Hst)]; [by left|right]. fold i in Hi, Hty, Hst. split; [done|]. split; [done|]. split; [done|].
  rewrite (stored_shown d d' w dst _ Hst (proj1 Hinv) Hdir (sk_dir _ _ _ _ Hs') Hdst). cbv zeta. f_equal. apply take_ge.
  unfold MAX_BYTES. assert (inode_no i) as Hno.
  { destruct (does_at _ _ _ _ _ s (resolve_does src live d w Hsrc Hinv Hdir) Hs) as (a & ? & ? & ? & ? & ? & _ & _ & _ & (-> & Hno) & _). auto. }
  pose proof (node_size d i (proj1 Hinv) Hno). pose proof (length_file_bytes d i (proj1 Hinv) Hno). lia.
Qed.

(** C26. [mv] of a file onto itself, or onto a name that is a directory, deletes the
    file: nothing was copied, and the name is unlinked all the same. *)
Theorem mv_loses_file src dst live d w (s : S) (Hs : shell_ok live d w s) (Hsrc : plain_name src) (Hdst : cstring dst)
    (Hne : cstr dst ≠ []) (Hfound : 0 ≤ lookup_at d w (cstr src)) (Hfile : type (inode_at d (lookup_at d w (cstr src))) = SFS_FILE)
    (Hbad : cstr dst = cstr src ∨ 0 ≤ lookup_at d w (cstr dst) ∧ type (inode_at d (lookup_at d w (cstr dst))) = SFS_DIR) :
  let i := lookup_at d w (cstr src) in
  ∃ s' d', cmd_mv (Some src) (Some dst) s = Some (tt, s') ∧ shell_ok live d' w s' ∧
    type (inode_at d' i) = SFS_FREE ∧ ∀ j, inode_no j → j ≠ i → j ≠ w → same_object d d' j.
Proof.
  pose proof (sk_inv _ _ _ _ Hs) as Hinv. pose proof (sk_dir _ _ _ _ Hs) as Hdir. pose proof Hdir as [Hw Hwt]. intros i.
  pose proof Hsrc as (Hsc & Hsne & _). pose proof (lookup_at_no d w (cstr src) (proj1 Hinv) Hw (upto0_nonzero src) Hfound) as Hi.
  destruct (on_at _ _ _ _ _ s (cmd_mv_does (sheap s) src dst live d w Hsc Hdst Hinv Hdir) Hs)
    as ([] & s' & l' & d' & w' & o & E & Hs' & Ho & -> & -> & Hm). exists s', d'. split; [done|]. split; [done|].
  unfold moved in Hm. rewrite bool_decide_eq_false_2, (proj2 (Z.ltb_ge _ 0)), Hfile in Hm by tauto. cbn [Z.eqb SFS_FILE Pos.eqb negb] in Hm.
  destruct Hm as (d1 & Hcp%copied_cases & Hinv1 & Hdir1 & Hm).
  assert (dir_slots d1 w = dir_slots d w ∧ type (inode_at d1 i) = SFS_FILE ∧ ∀ j, inode_no j → j ≠ i → j ≠ w → same_object d d1 j) as (Hsl & Hty1 & Hsame).
  { destruct Hcp as [[-> _]|(_ & _ & _ & k & Hk & Hkt & _ & [(-> & Hkf & Hsl)|(Hno & _)] & Hfr)]; [done| |].
    - destruct Hbad as [E'|[_ Hd]]; [|by rewrite Hkf in Hd]. rewrite E' in *. fold i in Hfr, Hkt. done.
    - destruct Hbad as [E'|[? _]]; [|lia]. rewrite E' in Hno. lia. }
  assert (∀ nm, lookup_at d1 w nm = lookup_at d w nm) as Hlk.
  { intros nm. unfold lookup_at. by rewrite (proj2 Hdir1), Hwt, Hsl. }
  rewrite Hlk, (proj2 (Z.leb_le 0 _)) in Hm by (destruct Hbad as [->|[? _]]; done). destruct Hm as [r Hun].
  destruct (sfs_unlink_run d1 w src Hinv1 Hw (proj2 Hdir1) (proj1 Hsc)) as [[Eu Hwhy]|(ino & pre & x & post & d2 & Eu & Hf & _ & _ & _ & _ & _ & _ & _ & _ & Hz & _ & Hfr)].
  - exfalso. assert (find_name (cstr src) (dir_slots d1 w) = Some i) as Hf.
    { specialize (Hlk (cstr src)). unfold lookup_at at 1 in Hlk. rewrite (proj2 Hdir1) in Hlk. cbn [Z.eqb SFS_DIR Pos.eqb] in Hlk.
      destruct (find_name (cstr src) (dir_slots d1 w)) as [k|]; cbn in Hlk; [by rewrite Hlk|]. fold i in Hlk. lia. }
    rewrite Hf in Hwhy. destruct Hwhy as [Ed|[Ed|[?|(k & [= <-] & Hne')]]]; [| |done|].
    1: destruct (dots_lookup d w Hinv Hdir) as (E1 & _); by rewrite Ed, E1, Hwt in Hfile.
    1: destruct (dots_lookup d w Hinv Hdir) as (_ & [_ E2] & _); by rewrite Ed, E2 in Hfile.
    rewrite not_empty_targets, targets_other in Hne' by (apply Hinv1 || done || by rewrite Hty1). done.
  - rewrite Eu in Hun. injection Hun as _ ->. rewrite Hsl in Hf. assert (ino = i) as ->.
    { unfold i, lookup_at. by rewrite Hwt, Hf. }
    split; [by rewrite Hz|]. intros j Hj Hji Hjw. eapply same_object_trans; [by apply Hsame|by apply Hfr].
Qed.

(** C25. The path [print_cwd] prints leads back: [cd] to it, from any directory,
    makes the same directory current again, when the directory is at most 16
    names deep and names are distinct, not empty and without a slash. *)
Theorem pwd_then_cd live d w (s : S) (Hs : shell_ok live d w s) (Hnames : plain_names d) (Hdeep : within 16 d w) :
  ∃ s' o, print_cwd s = Some (tt, s') ∧ shell_ok live d w s' ∧ printed_by s' = printed_by s ++ o ∧
    ∀ (s2 : S) w2, shell_ok live d w2 s2 → ∃ s3, cmd_cd (Some (o ++ [0])) s2 = Some (tt, s3) ∧ shell_ok live d w s3.
Proof.
  pose proof (sk_inv _ _ _ _ Hs) as Hinv. pose proof (sk_dir _ _ _ _ Hs) as Hdir.
  destruct (does_at _ _ _ _ _ s (print_cwd_does live d w Hinv Hdir) Hs) as ([] & s' & l' & d' & w' & o & E & Hs' & Ho & -> & -> & -> & ->).
  exists s', (cwd_text d w). split; [done|]. split; [done|]. split; [done|]. intros s2 w2 Hs2.
  destruct (cwd_text_walk d w Hinv Hnames Hdir Hdeep) as (Hwalk & Hby & Hhd). set (t := cwd_text d w) in *.
  assert (Forall (λ c, c ≠ 0) t) as Hnz by (eapply Forall_impl; [exact Hby|]; simpl; lia).
  assert (cstring (t ++ [0])) as Hc.
  { split; [apply elem_of_app; right; left|]. apply Forall_app. split; [|by repeat constructor].
    eapply Forall_impl; [exact Hby|]. unfold is_byte. simpl. lia. }
  destruct (does_at _ _ _ _ _ s2 (cmd_cd_does (Some (t ++ [0])) live d w2 Hc Hinv (sk_dir _ _ _ _ Hs2)) Hs2)
    as ([] & s3 & l3 & d3 & w3 & o3 & E3 & Hs3 & _ & -> & -> & _ & -> & _). exists s3. split; [done|].
  unfold text_of in Hs3. rewrite cstr_nul in Hs3 by done. rewrite decide_False in Hs3 by (by destruct t). cbv zeta in Hs3. rewrite cstr_nul in Hs3 by done.
  assert (start_of w2 (t ++ [0]) = SFS_ROOT) as Est by (unfold start_of; destruct t as [|c t]; [done|]; cbn in Hhd; injection Hhd as ->; done).
  rewrite Est, Hwalk, (proj2 Hdir), (proj2 (Z.leb_le 0 w)) in Hs3 by apply Hdir. done.
Qed.
End props.

(** C22. [rm_rec] always ends and keeps the filesystem consistent.  A name that is
    not there is refused.  For an ordinary name, exactly the inodes below it
    are freed, its entry is cleared, and everything else stays as it was; for
    "." and ".." the directory meant is emptied in the same way before the
    call fails. *)
Theorem rm_rec_effect d dir name (Hinv : fs_inv d) (Hdir : is_dir d dir) (Hnul : 0 ∈ name) :
  let ino := lookup_at d dir (cstr name) in
  ∃ r d', run_disk (rm_rec RM_DEPTH dir name) d = Some (r, d') ∧ fs_inv d' ∧
    ((ino < 0 ∧ r = -1 ∧ d' = d) ∨
     (inode_no ino ∧ r = 0 ∧ cstr name ≠ dot ∧ cstr name ≠ dotdot ∧ pruned d dir (cstr name) ino d') ∨
     (inode_no ino ∧ r = -1 ∧ (cstr name = dot ∨ cstr name = dotdot) ∧ emptied d ino d')).
Proof. exact (rm_rec_run d dir name Hinv Hdir Hnul). Qed.

(** C27. [rm -r ..] anywhere but in the root frees the current directory itself: the
    shell goes on with an inode that is no directory any more. *)
Theorem rm_parent_frees_cwd d w (Hinv : fs_inv d) (Hdir : is_dir d w) (Hroot : w ≠ SFS_ROOT) :
  ∃ d', run_disk (rm_rec RM_DEPTH w (lit "..")) d = Some (-1, d') ∧ type (inode_at d' w) = SFS_FREE.
Proof.
  destruct (rm_rec_run d w (lit "..") Hinv Hdir (lit_nul "..")) as (r & d' & E & Hinv' & Hc). change (cstr (lit "..")) with dotdot in Hc.
  destruct (dots_lookup d w Hinv Hdir) as (_ & [Hp _] & Hch). rewrite decide_False in Hch by done.
  destruct Hc as [(Hl & _)|[(_ & _ & _ & ? & _)|(_ & -> & _ & He)]]; [destruct Hp; lia|done|].
  exists d'. split; [done|]. apply (fr_free _ _ _ _ (proj1 He)). by apply tc_once.
Qed.

(** [tokenize] splits a line at its spaces: the pointers it stores are strings
    in the line, and these are the words of the text, at most [max]; the last
    one it has room for keeps the rest of the line. *)
Theorem tokenize_words t tail max (Ht : Forall (λ c, c ≠ 0) t) :
  ∃ argv line, tokenize (t ++ 0 :: tail) max = Some (argv, line) ∧ length line = length (t ++ 0 :: tail) ∧
    strings line argv = words_of max t.
Proof.
  destruct (tokenize_run t tail max Ht) as (argv & t' & E & Hl & Hs). exists argv, (t' ++ 0 :: tail).
  split; [done|]. split; [|done]. by rewrite !length_app, Hl.
Qed.

(** ** Examples *)

(** A directory and a file in the root. *)
Definition tree_disk : disk := after (sfs_create SFS_ROOT (lit "a") SFS_DIR) file_disk.
Lemma tree_disk_run : run_disk (sfs_create SFS_ROOT (lit "a") SFS_DIR) file_disk = Some (2, tree_disk).
Proof. vm_compute. reflexivity. Qed.
Lemma tree_disk_inv : fs_inv tree_disk.
Proof.
  apply (fs_step_inv file_disk); [exact file_disk_inv|].
  apply (step_create file_disk tree_disk SFS_ROOT (lit "a") SFS_DIR 2 root_no (ok_root _ file_disk_ok) (lit_nul _) (lit_bytes _));
    [by right|exact tree_disk_run].
Qed.
Lemma tree_root : is_dir tree_disk SFS_ROOT.
Proof. split; [done|]. apply tree_disk_inv. Qed.
Lemma tree_a : is_dir tree_disk 2.
Proof. split; [done|]. vm_compute. reflexivity. Qed.

(** A shell on it, with the cache of file Bcache over a plain disk. *)
#[local] Existing Instance plain_ata.
#[local] Existing Instance plain_ata_spec.
Definition sim_shell (w : Z) : shell sim_pc (bcache disk) kheap := Shell low_console (fresh_cache tree_disk) heap_booted w.
Lemma empty_heap_ok : a_inv heap_booted ∅.
Proof. exists [(HEAP_SIZE - HDR, true)]. split; [exact heap_booted_ok|]. split; [set_solver|]. done. Qed.
Lemma sim_shell_ok w : is_dir tree_disk w → shell_ok ∅ tree_disk w (sim_shell w).
Proof.
  intros Hw. constructor.
  - exact low_console_inv.
  - exact (fresh_shows tree_disk (ok_wf _ (proj1 tree_disk_inv))).
  - exact tree_disk_inv.
  - exact empty_heap_ok.
  - reflexivity.
  - exact Hw.
Qed.

Lemma root_shell_ok : shell_ok ∅ tree_disk SFS_ROOT (sim_shell SFS_ROOT).
Proof. apply sim_shell_ok, tree_root. Qed.
Lemma a_shell_ok : shell_ok ∅ tree_disk 2 (sim_shell 2).
Proof. apply sim_shell_ok, tree_a. Qed.

Lemma resolve_walks_witness :
  ∃ s', resolve (lit "/a/..//log") (sim_shell 2) = Some (1, s') ∧ shell_ok ∅ tree_disk 2 s' ∧ printed_by s' = printed_by (sim_shell 2).
Proof.
  destruct (resolve_walks (lit "/a/..//log") ∅ tree_disk 2 (sim_shell 2) a_shell_ok (lit_cstring _)) as (s' & E & Hs & Ho).
  assert (walk tree_disk (start_of 2 (lit "/a/..//log")) (components (cstr (lit "/a/..//log"))) = 1) as Hw by (vm_compute; reflexivity).
  rewrite Hw in E. exists s'. split; [exact E|]. split; [exact Hs|exact Ho].
Defined.

Lemma log_name : plain_name (lit "log").
Proof. split; [apply lit_cstring|]. split; [discriminate|]. split; [|vm_compute; lia]. apply (bool_decide_unpack _). reflexivity. Qed.

Lemma echo_then_cat_witness :
  ∃ s1 s' d' o, cmd_echo ([lit "hi"; lit "there"] ++ [lit ">"; lit "log"]) (sim_shell SFS_ROOT) = Some (tt, s1) ∧
    cmd_cat (Some (lit "log")) s1 = Some (tt, s') ∧ shell_ok ∅ d' SFS_ROOT s' ∧ printed_by s' = printed_by (sim_shell SFS_ROOT) ++ o ∧
    o = if serves (sheap s1) 9 then cstr (lit_ln "hi there") else cstr (lit_ln "cat: out of memory").
Proof.
  apply (echo_then_cat [lit "hi"; lit "there"] (lit "log") ∅ tree_disk SFS_ROOT (sim_shell SFS_ROOT)).
  - exact root_shell_ok.
  - apply Forall_cons. split; [apply lit_cstring|]. apply Forall_singleton, lit_cstring.
  - apply Forall_cons. split; [intros [E|E]; discriminate E|]. apply Forall_singleton. intros [E|E]; discriminate E.
  - exact log_name.
  - left. split; vm_compute; [discriminate|reflexivity].
Defined.

Lemma b_name : plain_name (lit "b").
Proof. split; [apply lit_cstring|]. split; [discriminate|]. split; [|vm_compute; lia]. apply (bool_decide_unpack _). reflexivity. Qed.

Lemma cp_copies_witness :
  ∃ s' d' o, cmd_cp (Some (lit "log")) (Some (lit "b")) (sim_shell SFS_ROOT) = Some (tt, s') ∧ shell_ok ∅ d' SFS_ROOT s' ∧
    printed_by s' = printed_by (sim_shell SFS_ROOT) ++ o.
Proof.
  destruct (cp_copies (lit "log") (lit "b") ∅ tree_disk SFS_ROOT (sim_shell SFS_ROOT) root_shell_ok (lit_cstring _) b_name)
    as (s' & d' & o & E & Hs & Ho & _). exists s', d', o. split; [exact E|]. split; [exact Hs|exact Ho].
Defined.

Lemma mv_loses_file_witness :
  ∃ s' d', cmd_mv (Some (lit "log")) (Some (lit "a")) (sim_shell SFS_ROOT) = Some (tt, s') ∧ shell_ok ∅ d' SFS_ROOT s' ∧
    type (inode_at d' (lookup_at tree_disk SFS_ROOT (cstr (lit "log")))) = SFS_FREE.
Proof.
  destruct (mv_loses_file (lit "log") (lit "a") ∅ tree_disk SFS_ROOT (sim_shell SFS_ROOT)) as (s' & d' & E & Hs & Hf & _).
  - exact root_shell_ok.
  - exact log_name.
  - apply lit_cstring.
  - discriminate.
  - vm_compute. discriminate.
  - vm_compute. reflexivity.
  - right. split; vm_compute; [discriminate|reflexivity].
  - exists s', d'. split; [exact E|]. split; [exact Hs|exact Hf].
Defined.

Lemma tree_names : plain_names tree_disk.
Proof.
  intros i [Hi Ht]. assert (i = SFS_ROOT ∨ i = 2) as Hcase.
  { assert (Forall (λ i, type (inode_at tree_disk i) = SFS_DIR → i = SFS_ROOT ∨ i = 2) (seqZ 0 64)) as Hall.
    { apply (bool_decide_unpack _). vm_compute. reflexivity. }
    rewrite Forall_forall in Hall. apply Hall; [|done]. apply elem_of_seqZ. exact Hi. }
  clear Hi Ht. assert (Forall (λ i, NoDup (snd <$> entries tree_disk i) ∧ Forall (λ x, x.2 ≠ [] ∧ (47 ∉ x.2)) (entries tree_disk i)) [SFS_ROOT; 2]) as Hall.
  { apply (bool_decide_unpack _). vm_compute. reflexivity. }
  rewrite Forall_forall in Hall. destruct (Hall i) as [H1 H2]; [destruct Hcase as [->| ->]; [left|right; left]|].
  split; [done|]. by rewrite Forall_forall in H2.
Qed.

Lemma pwd_then_cd_witness :
  ∃ (s' : shell sim_pc (bcache disk) kheap) o, print_cwd (sim_shell 2) = Some (tt, s') ∧ shell_ok ∅ tree_disk 2 s' ∧
    printed_by s' = printed_by (sim_shell 2) ++ o ∧
    ∃ s3, cmd_cd (Some (o ++ [0])) (sim_shell SFS_ROOT) = Some (tt, s3) ∧ shell_ok ∅ tree_disk 2 s3.
Proof.
  destruct (pwd_then_cd ∅ tree_disk 2 (sim_shell 2) a_shell_ok tree_names) as (s' & o & E & Hs & Ho & Hcd).
  - vm_compute. reflexivity.
  - exists s', o. split; [exact E|]. split; [exact Hs|]. split; [exact Ho|]. exact (Hcd (sim_shell SFS_ROOT) SFS_ROOT root_shell_ok).
Defined.

Lemma rm_rec_effect_witness :
  ∃ r d', run_disk (rm_rec RM_DEPTH SFS_ROOT (lit "a")) tree_disk = Some (r, d') ∧ fs_inv d'.
Proof.
  destruct (rm_rec_effect tree_disk SFS_ROOT (lit "a") tree_disk_inv tree_root (lit_nul _)) as (r & d' & E & Hinv & _).
  exists r, d'. split; [exact E|exact Hinv].
Defined.

Lemma rm_parent_frees_cwd_witness :
  ∃ d', run_disk (rm_rec RM_DEPTH 2 (lit "..")) tree_disk = Some (-1, d') ∧ type (inode_at d' 2) = SFS_FREE.
Proof. apply (rm_parent_frees_cwd tree_disk 2 tree_disk_inv tree_a). discriminate. Defined.

Lemma tokenize_words_witness :
  ∃ argv line, tokenize ([32; 99; 100; 32; 32; 97] ++ 0 :: [7]) 16 = Some (argv, line) ∧ length line = 8%nat ∧
    strings line argv = [[99; 100]; [97]].
Proof.
  destruct (tokenize_words [32; 99; 100; 32; 32; 97] [7] 16) as (argv & line & E & Hl & Hs).
  - repeat constructor; discriminate.
  - exists argv, line. split; [exact E|]. split; [exact Hl|exact Hs].
Defined.
