(* ===== verification/Os.v ===== *)
(** * The kernel's state as a whole

    One record of what the components keep, for the parts that work on several
    of them: program execution, system calls, the shell's dispatch and the boot
    sequence.  The heap and the stacks are in the scheduler's part; a component
    that shares them sees them through its lens.  The disk is behind the cache,
    the other devices behind the console's machine. *)

From S2P Require Import Prelude Pmm Kheap CString Block Bcache Ports Sfs Devices Serial Screen Keyboard Alloc Cpu Task Elf Paging Segments Interrupts Green Shell.

(** The variables of green.c, with what the fibers go on with, and the shell's
    [gt_counter]. *)
Record fibers (HW : Type) := Fibers {
  o_threads : gmap Z gthread_t; o_ring : Z; o_gcurrent : Z; o_gsched_esp : Z;
  o_conts : gmap Z (fiber (Z * console HW)); o_counter : Z }.
Arguments Fibers {HW}. Arguments o_threads {HW}. Arguments o_ring {HW}. Arguments o_gcurrent {HW}.
Arguments o_gsched_esp {HW}. Arguments o_conts {HW}. Arguments o_counter {HW}.

(** The variables of exec.c. *)
Record exec_vars := ExecVars { g_kreturn_esp : Z; g_exit_code : Z; g_user_running : Z }.

Record os (HW D : Type) := Os {
  o_con : console HW; o_cache : bcache D; o_sched : sched kheap; o_fibers : fibers HW;
  o_exec : exec_vars; o_pmm : pmm; o_mmu : mmu; o_ram : mem; o_segs : segs; o_intr : intr; o_kbd : kbd;
  o_ticks : Z; o_cwd : Z; o_worker_ticks : Z }.
Arguments Os {HW D}. Arguments o_con {HW D}. Arguments o_cache {HW D}. Arguments o_sched {HW D}. Arguments o_fibers {HW D}.
Arguments o_exec {HW D}. Arguments o_pmm {HW D}. Arguments o_mmu {HW D}. Arguments o_ram {HW D}. Arguments o_segs {HW D}.
Arguments o_intr {HW D}. Arguments o_kbd {HW D}. Arguments o_ticks {HW D}. Arguments o_cwd {HW D}. Arguments o_worker_ticks {HW D}.

Definition with_heap {H} (h : H) (s : sched H) : sched H :=
  Sched h (tasks s) (words s) (regs s) (tss_esp0 s) (current s) (head s) (next_id s) (scheduling_on s).

Section os.
Context {HW D : Type}.
Abbreviation O := (os HW D).

Definition os_con : lens O (console HW) := Lens o_con (λ c s,
  Os c (o_cache s) (o_sched s) (o_fibers s) (o_exec s) (o_pmm s) (o_mmu s) (o_ram s) (o_segs s) (o_intr s) (o_kbd s) (o_ticks s) (o_cwd s) (o_worker_ticks s)).
Definition os_cache : lens O (bcache D) := Lens o_cache (λ c s,
  Os (o_con s) c (o_sched s) (o_fibers s) (o_exec s) (o_pmm s) (o_mmu s) (o_ram s) (o_segs s) (o_intr s) (o_kbd s) (o_ticks s) (o_cwd s) (o_worker_ticks s)).
Definition os_sched : lens O (sched kheap) := Lens o_sched (λ c s,
  Os (o_con s) (o_cache s) c (o_fibers s) (o_exec s) (o_pmm s) (o_mmu s) (o_ram s) (o_segs s) (o_intr s) (o_kbd s) (o_ticks s) (o_cwd s) (o_worker_ticks s)).
Definition os_exec : lens O exec_vars := Lens o_exec (λ c s,
  Os (o_con s) (o_cache s) (o_sched s) (o_fibers s) c (o_pmm s) (o_mmu s) (o_ram s) (o_segs s) (o_intr s) (o_kbd s) (o_ticks s) (o_cwd s) (o_worker_ticks s)).
Definition os_pmm : lens O pmm := Lens o_pmm (λ c s,
  Os (o_con s) (o_cache s) (o_sched s) (o_fibers s) (o_exec s) c (o_mmu s) (o_ram s) (o_segs s) (o_intr s) (o_kbd s) (o_ticks s) (o_cwd s) (o_worker_ticks s)).
Definition os_mmu : lens O mmu := Lens o_mmu (λ c s,
  Os (o_con s) (o_cache s) (o_sched s) (o_fibers s) (o_exec s) (o_pmm s) c (o_ram s) (o_segs s) (o_intr s) (o_kbd s) (o_ticks s) (o_cwd s) (o_worker_ticks s)).
Definition os_ram : lens O mem := Lens o_ram (λ c s,
  Os (o_con s) (o_cache s) (o_sched s) (o_fibers s) (o_exec s) (o_pmm s) (o_mmu s) c (o_segs s) (o_intr s) (o_kbd s) (o_ticks s) (o_cwd s) (o_worker_ticks s)).
Definition os_segs : lens O segs := Lens o_segs (λ c s,
  Os (o_con s) (o_cache s) (o_sched s) (o_fibers s) (o_exec s) (o_pmm s) (o_mmu s) (o_ram s) c (o_intr s) (o_kbd s) (o_ticks s) (o_cwd s) (o_worker_ticks s)).

(** The heap inside the scheduler's part. *)
Definition os_heap : lens O kheap := Lens (λ s, heap (o_sched s)) (λ h s, update os_sched (with_heap h (o_sched s)) s).
(** The stacks and the registers. *)
Definition os_cpu : lens O machine := Lens (λ s, (words (o_sched s), regs (o_sched s)))
  (λ m s, update os_sched (update cpu_lens m (o_sched s)) s).

(** The ports and the interrupt tables. *)
Definition os_irq : lens O (HW * intr) := Lens (λ s, ((o_con s).1, o_intr s)) (λ p s,
  Os (p.1, (o_con s).2) (o_cache s) (o_sched s) (o_fibers s) (o_exec s) (o_pmm s) (o_mmu s) (o_ram s) (o_segs s) p.2 (o_kbd s) (o_ticks s) (o_cwd s) (o_worker_ticks s)).
(** The keyboard's variables, beside everything. *)
Definition os_keys : lens O (O * kbd) := Lens (λ s, (s, o_kbd s)) (λ p _, let s := p.1 in
  Os (o_con s) (o_cache s) (o_sched s) (o_fibers s) (o_exec s) (o_pmm s) (o_mmu s) (o_ram s) (o_segs s) (o_intr s) p.2 (o_ticks s) (o_cwd s) (o_worker_ticks s)).
(** What the shell's file commands work on. *)
Definition os_shell : lens O (shell HW (bcache D) kheap) := Lens (λ s, Shell (o_con s) (o_cache s) (heap (o_sched s)) (o_cwd s)) (λ c s,
  Os (con c) (fs c) (with_heap (sheap c) (o_sched s)) (o_fibers s) (o_exec s) (o_pmm s) (o_mmu s) (o_ram s) (o_segs s) (o_intr s) (o_kbd s) (o_ticks s) (cwd c) (o_worker_ticks s)).
(** What the fibers of the shell's demonstration work on. *)
Definition os_green : lens O (green kheap (Z * console HW)) := Lens
  (λ s, let f := o_fibers s in
     Green (heap (o_sched s)) (o_threads f) (words (o_sched s), regs (o_sched s)) (o_ring f) (o_gcurrent f) (o_gsched_esp f) (o_conts f) (o_counter f, o_con s))
  (λ g s, Os (g_world g).2 (o_cache s)
     (update cpu_lens (g_mach g) (with_heap (g_heap g) (o_sched s)))
     (Fibers (threads g) (g_ring g) (g_current g) (g_sched_esp g) (g_conts g) (g_world g).1)
     (o_exec s) (o_pmm s) (o_mmu s) (o_ram s) (o_segs s) (o_intr s) (o_kbd s) (o_ticks s) (o_cwd s) (o_worker_ticks s)).

#[export] Instance os_con_laws : LensLaws os_con.
Proof. split; [done..|]. by intros []. Qed.
#[export] Instance os_cache_laws : LensLaws os_cache.
Proof. split; [done..|]. by intros []. Qed.
#[export] Instance os_sched_laws : LensLaws os_sched.
Proof. split; [done..|]. by intros []. Qed.
#[export] Instance os_ram_laws : LensLaws os_ram.
Proof. split; [done..|]. by intros []. Qed.
#[export] Instance os_shell_laws : LensLaws os_shell.
Proof. split; [by intros [] ?|done|]. by intros [? ? [] ? ? ? ? ? ? ? ? ? ? ?]. Qed.
#[export] Instance os_green_laws : LensLaws os_green.
Proof. split; [by intros [? ? [] ? ? ? ? []] ?|by intros [] []|]. by intros [? ? [] [] ? ? ? ? ? ? ? ? ? ?]. Qed.
End os.
