(* ===== verification/Exec.v ===== *)
(** * Running a user program (kernel/exec.c, kernel/usermode.asm, cpu/syscall.c)

    The program is not code of the kernel: [u_run] is what it does on the user
    window up to its next [int 0x80], the registers it has there, and how it
    goes on when the call returns a value.  The processor and the stub of
    interrupt.asm put a [registers_t] on the ring-0 stack the TSS names; a call
    ends by returning to the program, by unwinding into [exec_user], or by
    giving the processor to another task. *)

From S2P Require Import Prelude Pmm Kheap CString Block Bcache Ports Sfs Devices Serial Screen Keyboard Alloc Cpu Task Elf Paging Segments Interrupts Shell Os.

Definition USER_STACK_TOP : Z := 12582912.
Definition MAX_USER_FILE : Z := 14 * 512.
Definition SYS_WRITE : Z := 1.
Definition SYS_EXIT : Z := 2.
Definition SYS_YIELD : Z := 3.
Definition USER_CS : Z := 27.
Definition USER_SS : Z := 35.

Definition set_eax (r : registers_t) (v : Z) : registers_t :=
  Registers (f_ds r) (f_edi r) (f_esi r) (f_ebp r) (f_esp r) (f_ebx r) (f_edx r) (f_ecx r) v (f_int_no r) (f_err_code r)
    (f_eip r) (f_cs r) (f_eflags r) (f_useresp r) (f_ss r).
(** The words of a [registers_t], lowest address first. *)
Definition frame_words (r : registers_t) : list Z :=
  [f_ds r; f_edi r; f_esi r; f_ebp r; f_esp r; f_ebx r; f_edx r; f_ecx r; f_eax r; f_int_no r; f_err_code r;
   f_eip r; f_cs r; f_eflags r; f_useresp r; f_ss r].

(** Bytes stored from address [a] on. *)
Fixpoint put_bytes (a : Z) (bs : list Z) (m : mem) : option mem :=
  match bs with [] => Some m | b :: bs' => m ← mstore a b m; put_bytes (a + 1) bs' m end.

(** How a system call ends. *)
Inductive handled := Resumed (r : registers_t) | Unwound | Switched.
(** How [exec_user] ends, or does not end yet. *)
Inductive ran := Finished (rc : Z) | Suspended.

(** ** usermode.asm *)

(** Of EFLAGS, the interrupt flag and the bit that is always set. *)
Definition eflags (b : bool) : Z := if b then 514 else 2.

(** The interrupt flag, from a value of EFLAGS. *)
Definition set_flag (fl : Z) : M machine unit := modify (λ m,
  (m.1, Cpu (r_ebx m.2) (r_esi m.2) (r_edi m.2) (r_ebp m.2) (r_esp m.2) (r_eip m.2) (Z.testbit fl 9))).

(** The state in which the program starts. *)
Record user_start := UserStart { us_eip : Z; us_eflags : Z; us_esp : Z; us_sel : selectors }.

(** The call of [enter_user] and its code up to the store through [save_kesp]:
    the address stored to. *)
Definition enter_save (a_back entry user_esp save_kesp : Z) : M machine Z :=
  _ ← push save_kesp;
  _ ← push user_esp;
  _ ← push entry;
  _ ← push a_back;
  r ← gets snd;
  _ ← push (r_ebx r);
  _ ← push (r_esi r);
  _ ← push (r_edi r);
  _ ← push (r_ebp r);
  p ← get_sp;
  ld_word (u32 (p + 28)).
(** [entry] and [user_esp], for ecx and edx. *)
Definition enter_args : M machine (Z * Z) :=
  p ← get_sp;
  ecx ← ld_word (u32 (p + 20));
  edx ← ld_word (u32 (p + 24));
  mret (ecx, edx).
(** What [iret] to another ring takes from the stack. *)
Record iret_t := Iret { i_eip : Z; i_cs : Z; i_eflags : Z; i_esp : Z; i_ss : Z }.
Definition user_iret (ecx edx : Z) : M machine iret_t :=
  _ ← push USER_SS;
  _ ← push edx;
  r ← gets snd;
  _ ← push (eflags (r_if r));
  ebx ← pop;
  _ ← push (Z.lor ebx 512);
  _ ← push USER_CS;
  _ ← push ecx;
  ip ← pop;
  cs ← pop;
  fl ← pop;
  usp ← pop;
  ss ← pop;
  _ ← set_flag fl;
  mret (Iret ip cs fl usp ss).

(** Execution goes on after the call of [enter_user]. *)
Definition leave_user (saved_kesp : Z) : M machine unit :=
  _ ← set_sp saved_kesp;
  pop_context.

Section exec.
Context {HW D : Type} {PW : Ports HW} {AD : AtaDisk D}.
Abbreviation K := (os HW D).

(** Code addresses: after the call of [enter_user], after the call of
    [context_switch] in [schedule], after the call in the stub; and the address
    of [g_kreturn_esp]. *)
Variables a_back a_resume a_stub a_kreturn : Z.
(** The program. *)
Context {U : Type} (u_start : user_start → U) (u_run : U → M mem (registers_t * (Z → U))).

(** [enter_user] after the store: the data segments of the program, the frame for
    [iret], and what [iret] loads from it. *)
Definition enter_iret : M K user_start :=
  a ← zoom os_cpu enter_args;
  _ ← zoom os_segs (load_data USER_SS);
  i ← zoom os_cpu (user_iret a.1 a.2);
  _ ← zoom os_segs (load_cs (u16 (i_cs i)));
  _ ← zoom os_segs (load_ss (u16 (i_ss i)));
  x ← gets (λ s : K, sel (o_segs s));
  mret (UserStart (i_eip i) (i_eflags i) (i_esp i) x).

Definition set_kreturn (v : Z) : M K unit := zoom os_exec (modify (λ e, ExecVars v (g_exit_code e) (g_user_running e))).
Definition set_exit_code (v : Z) : M K unit := zoom os_exec (modify (λ e, ExecVars (g_kreturn_esp e) v (g_user_running e))).
Definition set_running (v : Z) : M K unit := zoom os_exec (modify (λ e, ExecVars (g_kreturn_esp e) (g_exit_code e) v)).

Definition exec_on_exit (code : Z) : M K unit :=
  _ ← set_exit_code code;
  _ ← set_running 0;
  k ← gets (λ s : K, g_kreturn_esp (o_exec s));
  zoom os_cpu (leave_user k).

(** ** syscall.c *)

Fixpoint write_chars (n : nat) (buf i : Z) : M K unit :=
  match n with
  | O => mret tt
  | S n' =>
      c ← zoom os_ram (rd8 (buf + i));
      _ ← zoom os_con (kputc c);
      write_chars n' buf (i + 1)
  end.
Definition sys_write (buf len : Z) : M K Z :=
  if (buf <? USER_BASE) || (USER_TOP <? u32 (buf + len)) then mret (-1)
  else _ ← write_chars (Z.to_nat len) buf 0; mret (i32_of len).

Definition syscall_handler (r : registers_t) : M K handled :=
  if f_eax r =? SYS_WRITE then n ← sys_write (f_ebx r) (f_ecx r); mret (Resumed (set_eax r (u32 n)))
  else if f_eax r =? SYS_EXIT then _ ← exec_on_exit (i32_of (f_ebx r)); mret Unwound
  else if f_eax r =? SYS_YIELD then
    b ← zoom os_sched (yield a_resume);
    mret (if (b : bool) then Switched else Resumed (set_eax r 0))
  else mret (Resumed (set_eax r (u32 (-1)))).

(** ** The trap *)

(** The processor loads cs from the gate and ss from the TSS. *)
Definition gate_segs : M segs unit :=
  ss0 ← (λ s, (λ v, (v, s)) <$> (tss s !! 2%nat));
  _ ← load_ss ss0;
  load_cs GDT_KERNEL_CODE.
(** The processor switches to the ring-0 stack of the TSS, pushes and clears the
    interrupt flag; the stub pushes the rest, loads the kernel's data segments
    and calls the handler with a pointer to the frame.  The registers are still
    those of the program. *)
Definition trap_in (r : registers_t) : M K unit :=
  top ← gets (λ s : K, tss_esp0 (o_sched s));
  _ ← zoom os_segs gate_segs;
  _ ← zoom os_cpu (modify (λ m,
        (poke (top - 64) (frame_words r) m.1, Cpu (f_ebx r) (f_esi r) (f_edi r) (f_ebp r) (top - 64) (r_eip m.2) false)));
  _ ← zoom os_segs (load_data GDT_KERNEL_DATA);
  _ ← zoom os_cpu (push (top - 64));
  zoom os_cpu (push a_stub).
(** The handler has changed the frame; the stub pops it, loading the data
    segments with the ds it saved, and returns. *)
Definition trap_out (r : registers_t) : M K unit :=
  top ← gets (λ s : K, tss_esp0 (o_sched s));
  _ ← zoom os_cpu (modify (λ m, (poke (top - 64) (frame_words r) m.1, m.2)));
  _ ← zoom os_segs (load_data (u16 (f_ds r)));
  _ ← zoom os_cpu (set_flag (f_eflags r));
  _ ← zoom os_segs (load_cs (u16 (f_cs r)));
  zoom os_segs (load_ss (u16 (f_ss r))).

Definition trap80 (r : registers_t) : M K handled :=
  _ ← trap_in r;
  h ← syscall_handler r;
  match h with
  | Resumed r' => _ ← trap_out r'; mret h
  | _ => mret h
  end.

(** The program from one call to the next; [n] bounds the number of calls. *)
Fixpoint run_user (n : nat) (u : U) : M K ran :=
  match n with
  | O => fault
  | S n' =>
      r ← zoom os_ram (u_run u);
      h ← trap80 r.1;
      match h with
      | Resumed r' => run_user n' (r.2 (f_eax r'))
      | Unwound => mret (Finished 0)
      | Switched => mret Suspended
      end
  end.

(** ** exec.c *)

(** The caller removes the three arguments. *)
Definition drop_enter_args : M machine unit := e ← get_sp; set_sp (u32 (e + 12)).

Definition enter_user (n : nat) (entry user_esp : Z) : M K ran :=
  eax ← zoom os_cpu (enter_save a_back entry user_esp a_kreturn);
  if negb (eax =? a_kreturn) then fault
  else
    p ← zoom os_cpu get_sp;
    _ ← set_kreturn p;
    u ← enter_iret;
    e ← run_user n (u_start u);
    match e with
    | Suspended => mret Suspended
    | Finished _ =>
        ip ← zoom os_cpu (gets (λ m, r_eip m.2));
        if negb (ip =? a_back) then fault else _ ← zoom os_cpu drop_enter_args; mret e
    end.

(** The end of [exec_user], for a loaded program. *)
Definition exec_start (n : nat) (top entry : Z) : M K ran :=
  _ ← zoom os_mmu (paging_set_user USER_BASE);
  _ ← zoom os_sched (tss_set_kernel_stack top);
  _ ← set_exit_code (-1);
  _ ← set_running 1;
  e ← enter_user n entry USER_STACK_TOP;
  match e with
  | Suspended => mret Suspended
  | Finished _ =>
      _ ← set_running 0;
      code ← gets (λ s : K, g_exit_code (o_exec s));
      mret (Finished code)
  end.

Definition exec_user (n : nat) (inode : Z) : M K ran :=
  running ← gets (λ s : K, g_user_running (o_exec s));
  if truth running then mret (Finished (-1))
  else
    t ← zoom os_sched task_current;
    tk ← zoom os_sched (ld_task t);
    if negb (truth (kstack_top tk)) then mret (Finished (-1))
    else
      ty ← zoom os_cache (run_layer (sfs_type inode));
      if negb (ty =? SFS_FILE) then mret (Finished (-1))
      else
        sz ← zoom os_cache (run_layer (sfs_size inode));
        if (sz =? 0) || (MAX_USER_FILE <? sz) then mret (Finished (-1))
        else
          buf ← zoom os_heap (kmalloc sz);
          if negb (truth buf) then mret (Finished (-1))
          else
            data ← zoom os_cache (run_layer (sfs_read inode sz));
            _ ← zoom os_ram (on_mem (put_bytes buf data));
            rc ← zoom os_ram (elf_load buf (Z.of_nat (length data)));
            _ ← zoom os_heap (kfree buf);
            if negb (rc.1 =? 0) then mret (Finished (-1))
            else
              entry ← lift rc.2;
              exec_start n (kstack_top tk) entry.
End exec.
