(* ===== verification/ExecSpec.v ===== *)
(** * What system calls and program execution promise

    [sys_write] prints what lies in the user window and refuses the rest,
    except for requests that wrap around; a program that exits comes back into
    [exec_user] with the registers of its caller. *)

From S2P Require Import Prelude Pmm Kheap CString Block Bcache Ports Sfs Devices Serial Screen Keyboard Alloc Cpu Task Elf Paging Segments Interrupts Shell Os Exec.

(** Bytes of memory from [a] on. *)
Definition bytes_at (m : mem) (a : Z) (n : nat) : list Z := (λ i, by8 m (a + i)) <$> seqZ 0 (Z.of_nat n).
(** Memory holds bytes. *)
Definition ram_ok (m : mem) : Prop := ∀ a, is_byte (by8 m a).

Lemma bytes_at_cons m a n : bytes_at m a (S n) = by8 m a :: bytes_at m (a + 1) n.
Proof.
  unfold bytes_at. rewrite seqZ_cons by lia. cbn [fmap list_fmap]. rewrite Z.add_0_r. f_equal.
  apply list_eq. intros i. rewrite !list_lookup_fmap.
  destruct (decide (i < n)%nat).
  - rewrite !lookup_seqZ_lt by lia. cbn. do 2 f_equal. lia.
  - rewrite !lookup_seqZ_ge by lia. done.
Qed.

Section write.
Context {HW D : Type} {PW : Ports HW} {PC : PcPorts HW} {AD : AtaDisk D}.
Abbreviation K := (os HW D).

(** Everything but the console. *)
Definition con_only (s s' : K) : Prop := s' = update os_con (o_con s') s.

Lemma write_chars_run n buf i (s : K) : 0 ≤ buf + i → buf + i + Z.of_nat n ≤ RAM_TOP → ram_ok (o_ram s) → console_inv (o_con s) →
  ∃ s', write_chars n buf i s = Some (tt, s') ∧ con_only s s' ∧ printed (bytes_at (o_ram s) (buf + i) n) (o_con s) (o_con s').
Proof.
  revert i s. induction n as [|n IH]; intros i s H0 H1 Hram Hcon; cbn [write_chars].
  { exists s. split; [done|]. split; [by destruct s|]. apply printed_nil. done. }
  rewrite (M_bind_run _ _ _ _ _ (zoom_run os_ram _ s _ _ (rd8_run (o_ram s) (buf + i) ltac:(lia)))).
  replace (update os_ram (o_ram s) s) with s by (by destruct s).
  destruct (kputc_printed (o_con s) (by8 (o_ram s) (buf + i)) Hcon (Hram _)) as (c & E & P).
  rewrite (M_bind_run _ _ _ _ _ (zoom_run os_con _ s _ _ E)). set (s1 := update os_con c s).
  destruct (IH (i + 1) s1) as (s' & E' & Hs & P'); [lia|lia|done|apply P|].
  exists s'. split; [done|]. split; [unfold con_only in *; by rewrite Hs|]. rewrite bytes_at_cons.
  replace (buf + i + 1) with (buf + (i + 1)) by lia. change (by8 (o_ram s) (buf + i) :: ?l) with ([by8 (o_ram s) (buf + i)] ++ l).
  eapply printed_app; [exact P|exact P'].
Qed.

(** A loop that goes on past the end of memory. *)
Lemma write_chars_faults n buf i (s : K) : 0 ≤ buf + i < 4294967296 → RAM_TOP < buf + i + Z.of_nat n → (0 < n)%nat →
  write_chars n buf i s = None.
Proof.
  revert i s. induction n as [|n IH]; intros i s H0 H1 Hn; [lia|]. cbn [write_chars].
  destruct (decide (buf + i < RAM_TOP)) as [Hlt|Hge].
  - rewrite (M_bind_run _ _ _ _ _ (zoom_run os_ram _ s _ _ (rd8_run (o_ram s) (buf + i) ltac:(lia)))).
    unfold mbind at 1, M_bind at 1. destruct (zoom os_con (kputc _) _) as [[[] s1]|]; [|done]. apply IH; unfold RAM_TOP in *; lia.
  - unfold mbind at 1, M_bind at 1, zoom at 1. unfold rd8. rewrite u32_small by lia. cbn [view os_ram].
    unfold mload. rewrite (proj2 (Z.ltb_ge _ _)) by lia. by rewrite andb_false_r.
Qed.

Lemma sys_write_run (s : K) buf len : 0 ≤ buf → 0 ≤ len → buf + len < 4294967296 → console_inv (o_con s) → ram_ok (o_ram s) →
  if decide (USER_BASE ≤ buf ∧ buf + len ≤ USER_TOP)
  then ∃ s', sys_write buf len s = Some (len, s') ∧ con_only s s' ∧
         printed (bytes_at (o_ram s) buf (Z.to_nat len)) (o_con s) (o_con s')
  else sys_write buf len s = Some (-1, s).
Proof.
  intros Hbuf Hlen Hwrap Hcon Hram. unfold sys_write. rewrite u32_small by lia. case_decide as Hin.
  - rewrite (proj2 (Z.ltb_ge buf _)), (proj2 (Z.ltb_ge USER_TOP _)) by lia. cbn [orb]. unfold USER_TOP, USER_BASE in Hin.
    destruct (write_chars_run (Z.to_nat len) buf 0 s) as (s' & E & Hs & P); [lia|unfold RAM_TOP; lia|done|done|].
    exists s'. rewrite (M_bind_run _ _ _ _ _ E). rewrite Z.add_0_r in P. split; [|done].
    assert (i32_of len = len) as -> by (unfold i32_of; rewrite Z.mod_small; lia). done.
  - destruct (Z.ltb_spec buf USER_BASE), (Z.ltb_spec USER_TOP (buf + len)); done || lia.
Qed.
End write.


(** ** A program that exits *)

(** The words [enter_user] leaves on the stack of its caller, and those of the
    [iret] that follow. *)
Definition eframe (R : cpu) (a_back entry user_esp save : Z) : list Z :=
  [r_ebp R; r_edi R; r_esi R; r_ebx R; a_back; entry; user_esp; save].
Definition iframe (b : bool) (entry user_esp : Z) : list Z :=
  [entry; USER_CS; Z.lor (eflags b) 512; user_esp; USER_SS].

Lemma enter_save_run W R a_back entry user_esp save : let E := r_esp R in 32 ≤ E < 4294967296 →
  enter_save a_back entry user_esp save (W, R) =
    Some (save, (poke (E - 32) (eframe R a_back entry user_esp save) W, sp R (E - 32))).
Proof.
  intros E HE. pose proof (poke_lookup (E - 32) (eframe R a_back entry user_esp save) W 7 save eq_refl) as Hf.
  replace (W, R) with (W, sp R E) by (by destruct R). clearbody E.
  assert (poke (E - 32) (eframe R a_back entry user_esp save) W =
    <[E - 32 := r_ebp R]> (<[E - 28 := r_edi R]> (<[E - 24 := r_esi R]> (<[E - 20 := r_ebx R]>
    (<[E - 16 := a_back]> (<[E - 12 := entry]> (<[E - 8 := user_esp]> (<[E - 4 := save]> W)))))))) as HP.
  { unfold eframe. cbn [poke].
    replace (E - 32 + 4) with (E - 28) by lia. replace (E - 28 + 4) with (E - 24) by lia.
    replace (E - 24 + 4) with (E - 20) by lia. replace (E - 20 + 4) with (E - 16) by lia.
    replace (E - 16 + 4) with (E - 12) by lia. replace (E - 12 + 4) with (E - 8) by lia.
    replace (E - 8 + 4) with (E - 4) by lia. done. }
  unfold enter_save.
  rewrite (M_bind_run _ _ _ _ _ (push_run _ R _ E (E - 4) ltac:(lia) ltac:(lia))).
  rewrite (M_bind_run _ _ _ _ _ (push_run _ R _ (E - 4) (E - 8) ltac:(lia) ltac:(lia))).
  rewrite (M_bind_run _ _ _ _ _ (push_run _ R _ (E - 8) (E - 12) ltac:(lia) ltac:(lia))).
  rewrite (M_bind_run _ _ _ _ _ (push_run _ R _ (E - 12) (E - 16) ltac:(lia) ltac:(lia))).
  rewrite bind_gets. cbn [snd r_ebx r_esi r_edi r_ebp sp].
  rewrite (M_bind_run _ _ _ _ _ (push_run _ R _ (E - 16) (E - 20) ltac:(lia) ltac:(lia))).
  rewrite (M_bind_run _ _ _ _ _ (push_run _ R _ (E - 20) (E - 24) ltac:(lia) ltac:(lia))).
  rewrite (M_bind_run _ _ _ _ _ (push_run _ R _ (E - 24) (E - 28) ltac:(lia) ltac:(lia))).
  rewrite (M_bind_run _ _ _ _ _ (push_run _ R _ (E - 28) (E - 32) ltac:(lia) ltac:(lia))).
  rewrite <-HP. unfold get_sp. rewrite bind_gets. cbn [snd r_esp sp]. rewrite (u32_small (E - 32 + 28)) by lia.
  by rewrite (ld_word_run _ _ _ _ Hf).
Qed.

Definition with_if (R : cpu) (b : bool) : cpu := Cpu (r_ebx R) (r_esi R) (r_edi R) (r_ebp R) (r_esp R) (r_eip R) b.

Lemma enter_args_run W R e entry user_esp : 20 ≤ e < 4294967268 →
  W !! (e + 20) = Some entry → W !! (e + 24) = Some user_esp →
  enter_args (W, sp R e) = Some ((entry, user_esp), (W, sp R e)).
Proof.
  intros He Hentry Husp. unfold enter_args, get_sp. rewrite bind_gets. cbn [snd r_esp sp].
  rewrite (u32_small (e + 20)), (u32_small (e + 24)) by lia.
  by rewrite (M_bind_run _ _ _ _ _ (ld_word_run W _ _ _ Hentry)), (M_bind_run _ _ _ _ _ (ld_word_run W _ _ _ Husp)).
Qed.

Lemma user_iret_run W R e entry user_esp : 20 ≤ e < 4294967268 →
  user_iret entry user_esp (W, sp R e) =
    Some (Iret entry USER_CS (Z.lor (eflags (r_if R)) 512) user_esp USER_SS,
          (poke (e - 20) (iframe (r_if R) entry user_esp) W, sp (with_if R true) e)).
Proof.
  intros He.
  pose proof (λ i v, poke_lookup (e - 20) (iframe (r_if R) entry user_esp) W i v) as Hf.
  assert (poke (e - 20) (iframe (r_if R) entry user_esp) W =
    <[e - 20 := entry]> (<[e - 16 := USER_CS]> (<[e - 12 := Z.lor (eflags (r_if R)) 512]> (<[e - 8 := user_esp]> (<[e - 4 := USER_SS]> W))))) as HP.
  { unfold iframe. cbn [poke].
    replace (e - 20 + 4) with (e - 16) by lia. replace (e - 16 + 4) with (e - 12) by lia.
    replace (e - 12 + 4) with (e - 8) by lia. replace (e - 8 + 4) with (e - 4) by lia. done. }
  unfold user_iret.
  rewrite (M_bind_run _ _ _ _ _ (push_run _ R _ e (e - 4) ltac:(lia) ltac:(lia))).
  rewrite (M_bind_run _ _ _ _ _ (push_run _ R _ (e - 4) (e - 8) ltac:(lia) ltac:(lia))).
  rewrite bind_gets. cbn [snd r_if sp].
  rewrite (M_bind_run _ _ _ _ _ (push_run _ R _ (e - 8) (e - 12) ltac:(lia) ltac:(lia))).
  rewrite (M_bind_run _ _ _ _ _ (pop_run _ R _ (e - 12) (e - 8) ltac:(lia) ltac:(lia) (lookup_insert_eq _ _ _))).
  rewrite (M_bind_run _ _ _ _ _ (push_run _ R _ (e - 8) (e - 12) ltac:(lia) ltac:(lia))), insert_insert_eq.
  rewrite (M_bind_run _ _ _ _ _ (push_run _ R _ (e - 12) (e - 16) ltac:(lia) ltac:(lia))).
  rewrite (M_bind_run _ _ _ _ _ (push_run _ R _ (e - 16) (e - 20) ltac:(lia) ltac:(lia))).
  rewrite <-HP. set (W' := poke _ _ W) in *. clearbody W'. clear HP.
  pose proof (Hf 0%nat _ eq_refl) as H0. rewrite Z.mul_0_r, Z.add_0_r in H0.
  rewrite (M_bind_run _ _ _ _ _ (pop_run W' R _ (e - 20) (e - 20 + 4) ltac:(lia) ltac:(lia) H0)).
  rewrite (M_bind_run _ _ _ _ _ (pop_run W' R _ (e - 20 + 4) (e - 20 + 8) ltac:(lia) ltac:(lia) (Hf 1%nat _ eq_refl))).
  rewrite (M_bind_run _ _ _ _ _ (pop_run W' R _ (e - 20 + 8) (e - 20 + 12) ltac:(lia) ltac:(lia) (Hf 2%nat _ eq_refl))).
  rewrite (M_bind_run _ _ _ _ _ (pop_run W' R _ (e - 20 + 12) (e - 20 + 16) ltac:(lia) ltac:(lia) (Hf 3%nat _ eq_refl))).
  rewrite (M_bind_run _ _ _ _ _ (pop_run W' R _ (e - 20 + 16) e ltac:(lia) ltac:(lia) (Hf 4%nat _ eq_refl))).
  unfold set_flag. rewrite bind_modify. cbn [fst snd]. rewrite Z.lor_spec. change (Z.testbit 512 9) with true. by rewrite orb_true_r.
Qed.

(** What a call that returns to the program does: the bytes printed and the
    value returned.  A request to print that wraps around, an exit and a yield
    do not return. *)
Definition call_returns (m : mem) (r : registers_t) : option (list Z * Z) :=
  if f_eax r =? SYS_WRITE then
    if 4294967296 <=? f_ebx r + f_ecx r then None
    else if (USER_BASE <=? f_ebx r) && (f_ebx r + f_ecx r <=? USER_TOP)
    then Some (bytes_at m (f_ebx r) (Z.to_nat (f_ecx r)), f_ecx r)
    else Some ([], u32 (-1))
  else if (f_eax r =? SYS_EXIT) || (f_eax r =? SYS_YIELD) then None
  else Some ([], u32 (-1)).

Definition args_ok (r : registers_t) : Prop := 0 ≤ f_ebx r < 4294967296 ∧ 0 ≤ f_ecx r < 4294967296.

Section program.
Context {U : Type} (u_run : U → M mem (registers_t * (Z → U))).

(** [exits n u m out code m']: from memory [m] the program [u] makes [n] calls,
    prints [out] and exits with [code], leaving [m']. *)
Inductive exits : nat → U → mem → list Z → Z → mem → Prop :=
| exits_exit u m r k m' :
    u_run u m = Some ((r, k), m') → ram_ok m' → f_eax r = SYS_EXIT →
    exits 1 u m [] (i32_of (f_ebx r)) m'
| exits_call n u m r k m1 out v outs code m' :
    u_run u m = Some ((r, k), m1) → ram_ok m1 → args_ok r → call_returns m1 r = Some (out, v) →
    exits n (k v) m1 outs code m' → exits (S n) u m (out ++ outs) code m'.
End program.

Section run.
Context {HW D : Type} {PW : Ports HW} {PC : PcPorts HW} {AD : AtaDisk D}.
Abbreviation K := (os HW D).
Variables a_back a_resume a_stub a_kreturn : Z.
Context {U : Type} (u_start : user_start → U) (u_run : U → M mem (registers_t * (Z → U))).

Abbreviation mach s := (words (o_sched s), regs (o_sched s)).

(** The words of a trap, lowest address first. *)
Definition tframe (r : registers_t) (top : Z) : list Z := a_stub :: (top - 64) :: frame_words r.

(** The kernel's selectors, and those the program comes back with. *)
Definition in_kernel (s : K) : K := update os_segs (with_sel kernel_sel (o_segs s)) s.
Definition in_program (r : registers_t) (s : K) : K :=
  let ds := u16 (f_ds r) in update os_segs (with_sel (Sel (u16 (f_cs r)) ds ds ds ds (u16 (f_ss r))) (o_segs s)) s.
(** The TSS names the kernel's data segment for ring 0. *)
Definition tss_ss0 (s : K) : Prop := tss (o_segs s) !! 2%nat = Some GDT_KERNEL_DATA.

Lemma trap_in_run r (s : K) top : tss_ss0 s → tss_esp0 (o_sched s) = top → 72 ≤ top < 4294967296 →
  trap_in a_stub r s = Some (tt, update os_cpu (poke (top - 72) (tframe r top) (words (o_sched s)),
    Cpu (f_ebx r) (f_esi r) (f_edi r) (f_ebp r) (top - 72) (r_eip (regs (o_sched s))) false) (in_kernel s)).
Proof.
  intros Hss Htop Hr. unfold trap_in. rewrite bind_gets, Htop.
  set (R := Cpu (f_ebx r) (f_esi r) (f_edi r) (f_ebp r) (top - 64) (r_eip (regs (o_sched s))) false).
  set (W := poke (top - 64) (frame_words r) (words (o_sched s))).
  assert (∃ x, gate_segs (o_segs s) = Some (tt, with_sel x (o_segs s)) ∧ sel_cs x = 8 ∧ sel_ss x = 16) as (x & E0 & Hcs & Hxs).
  { unfold gate_segs, mbind, M_bind. rewrite Hss. cbn. eexists. split; [reflexivity|]. done. }
  rewrite (zoom_bind os_segs _ _ s _ _ E0). set (s0 := update os_segs _ s).
  assert (zoom os_cpu (modify (λ m : machine, (poke (top - 64) (frame_words r) m.1,
     Cpu (f_ebx r) (f_esi r) (f_edi r) (f_ebp r) (top - 64) (r_eip m.2) false))) s0 = Some (tt, update os_cpu (W, R) s0)) as E1 by (by apply zoom_run).
  rewrite (M_bind_run _ _ _ _ _ E1).
  assert (zoom os_segs (load_data GDT_KERNEL_DATA) (update os_cpu (W, R) s0) = Some (tt, update os_cpu (W, R) (in_kernel s))) as E2.
  { destruct x as [c0 ? ? ? ? s1]. cbn in Hcs, Hxs. subst c0 s1. by destruct s. }
  rewrite (M_bind_run _ _ _ _ _ E2). clear E1 E2 E0. clearbody s0. set (s1 := in_kernel s).
  rewrite (M_bind_run _ _ _ _ _ (zoom_run os_cpu _ (update os_cpu (W, R) s1) _ _ (push_run W R (top - 64) (top - 64) (top - 68) ltac:(lia) ltac:(lia)))).
  set (W1 := <[_ := _]> W). set (s2 := update os_cpu (W1, _) _).
  rewrite (zoom_run os_cpu _ s2 _ _ (push_run W1 R a_stub (top - 68) (top - 72) ltac:(lia) ltac:(lia))). subst W1 W s2 s1.
  unfold tframe. cbn [poke]. replace (top - 72 + 4) with (top - 68) by lia. replace (top - 68 + 4) with (top - 64) by lia. by destruct s.
Qed.

(** Outside the words of a trap. *)
Definition off_trap (top : Z) (W W' : gmap Z Z) : Prop := ∀ p, p < top - 72 ∨ top ≤ p → W' !! p = W !! p.

Lemma con_self (s : K) : update os_con (o_con s) s = s.
Proof. by destruct s. Qed.

Lemma handler_returns r (s : K) out v : args_ok r → ram_ok (o_ram s) → console_inv (o_con s) →
  call_returns (o_ram s) r = Some (out, v) →
  ∃ c, syscall_handler a_resume r s = Some (Resumed (set_eax r v), update os_con c s) ∧ printed out (o_con s) c.
Proof.
  intros [Hb Hc] Hram Hcon Hcall. unfold syscall_handler. unfold call_returns in Hcall.
  destruct (f_eax r =? SYS_WRITE).
  - destruct (Z.leb_spec 4294967296 (f_ebx r + f_ecx r)); [done|].
    pose proof (sys_write_run s (f_ebx r) (f_ecx r) ltac:(lia) ltac:(lia) ltac:(lia) Hcon Hram) as Hw.
    case_decide as Hin.
    + rewrite (proj2 (Z.leb_le USER_BASE _)), (proj2 (Z.leb_le _ USER_TOP)) in Hcall by lia. injection Hcall as <- <-.
      destruct Hw as (s' & E & Hs & P). exists (o_con s'). rewrite (M_bind_run _ _ _ _ _ E), u32_small by lia. split; [by rewrite <-Hs|done].
    + exists (o_con s). rewrite (M_bind_run _ _ _ _ _ Hw), con_self.
      destruct (Z.leb_spec USER_BASE (f_ebx r)), (Z.leb_spec (f_ebx r + f_ecx r) USER_TOP); cbn [andb] in Hcall; try lia;
        injection Hcall as <- <-; (split; [done|by apply printed_nil]).
  - destruct (f_eax r =? SYS_EXIT), (f_eax r =? SYS_YIELD); try done. injection Hcall as <- <-.
    exists (o_con s). rewrite con_self. split; [done|by apply printed_nil].
Qed.

Lemma off_trap_poke top l W : Z.of_nat (length l) ≤ 18 → off_trap top W (poke (top - 72) l W).
Proof. intros Hl p Hp. apply poke_lookup_other. lia. Qed.

(** A call that returns: the console, and the words and registers of the trap. *)
Lemma trap_returns r (s : K) out v : args_ok r → ram_ok (o_ram s) → console_inv (o_con s) →
  tss_ss0 s → 72 ≤ tss_esp0 (o_sched s) < 4294967296 → call_returns (o_ram s) r = Some (out, v) →
  ∃ c W R, trap80 a_resume a_stub r s = Some (Resumed (set_eax r v), update os_con c (update os_cpu (W, R) (in_program r s))) ∧
    printed out (o_con s) c ∧ off_trap (tss_esp0 (o_sched s)) (words (o_sched s)) W.
Proof.
  intros Ha Hram Hcon Hss Htop Hcall. set (top := tss_esp0 (o_sched s)) in *. unfold trap80.
  rewrite (M_bind_run _ _ _ _ _ (trap_in_run r s top Hss eq_refl Htop)). set (W1 := poke _ _ _). set (R1 := Cpu _ _ _ _ _ _ _).
  destruct (handler_returns r (update os_cpu (W1, R1) (in_kernel s)) out v Ha Hram Hcon Hcall) as (c & E & P).
  rewrite (M_bind_run _ _ _ _ _ E). unfold trap_out. exists c, (poke (top - 64) (frame_words (set_eax r v)) W1). eexists. split; [reflexivity|]. split; [done|].
  intros p Hp. subst W1. rewrite (poke_lookup_other (top - 64)) by (cbn [length frame_words]; lia).
  apply poke_lookup_other. cbn [length tframe frame_words]. lia.
Qed.

(** The state in which [exec_user] goes on. *)
Definition left (s : K) (c : console HW) (m : mem) (e : exec_vars) (W : gmap Z Z) (R : cpu) : K :=
  update os_con c (update os_ram m (update os_exec e (update os_cpu (W, R) (in_kernel s)))).

Lemma resumes_off top W W' e bp di si bx ip : off_trap top W W' → e + 20 ≤ top - 72 ∨ top ≤ e →
  resumes W e bp di si bx ip → resumes W' e bp di si bx ip.
Proof.
  intros Ho He Hw i v Hi. pose proof (lookup_lt_Some _ _ _ Hi) as Hlt. cbn [length] in Hlt.
  rewrite Ho by lia. by apply Hw.
Qed.

Lemma exec_on_exit_run code (s s' : K) : let k := g_kreturn_esp (o_exec s) in
  zoom os_cpu (leave_user k) (update os_exec (ExecVars k code 0) s) = Some (tt, s') → exec_on_exit code s = Some (tt, s').
Proof. destruct s. intros k Hk. exact Hk. Qed.

Lemma trap_exits r (s : K) bp di si bx ip : let top := tss_esp0 (o_sched s) in let k := g_kreturn_esp (o_exec s) in
  f_eax r = SYS_EXIT → tss_ss0 s → 72 ≤ top < 4294967296 → 0 ≤ k < 4294967276 → k + 20 ≤ top - 72 ∨ top ≤ k →
  resumes (words (o_sched s)) k bp di si bx ip →
  ∃ W, trap80 a_resume a_stub r s = Some (Unwound,
      left s (o_con s) (o_ram s) (ExecVars k (i32_of (f_ebx r)) 0) W (Cpu bx si di bp (k + 20) ip false)) ∧
    off_trap top (words (o_sched s)) W.
Proof.
  intros top k Heax Hss Htop Hk Hdis Hw. unfold trap80.
  rewrite (M_bind_run _ _ _ _ _ (trap_in_run r s top Hss eq_refl Htop)).
  set (W1 := poke _ _ _). set (R1 := Cpu _ _ _ _ _ _ _). exists W1.
  assert (off_trap top (words (o_sched s)) W1) as Ho by (apply off_trap_poke; cbn [length tframe frame_words]; lia).
  split; [|done]. unfold syscall_handler. rewrite Heax. cbn [Z.eqb SYS_WRITE SYS_EXIT Pos.eqb].
  pose proof (pop_context_run W1 R1 k bp di si bx ip Hk (resumes_off _ _ _ _ _ _ _ _ _ Ho Hdis Hw)) as Ep.
  rewrite bind_assoc, (M_bind_run _ _ _ tt (left s (o_con s) (o_ram s) (ExecVars k (i32_of (f_ebx r)) 0) W1 (Cpu bx si di bp (k + 20) ip false))); [done|].
  apply exec_on_exit_run.
  etransitivity; [exact (zoom_run os_cpu (leave_user k) (update os_exec _ (update os_cpu (W1, R1) (in_kernel s))) _ _ Ep)|by destruct s].
Qed.

Lemma run_user_exits n u m out code m' : exits u_run n u m out code m' → ∀ fuel (s : K) bp di si bx ip,
  let top := tss_esp0 (o_sched s) in let k := g_kreturn_esp (o_exec s) in
  o_ram s = m → (n ≤ fuel)%nat → console_inv (o_con s) → tss_ss0 s → 72 ≤ top < 4294967296 → 0 ≤ k < 4294967276 →
  k + 20 ≤ top - 72 ∨ top ≤ k → resumes (words (o_sched s)) k bp di si bx ip →
  ∃ c W, run_user a_resume a_stub u_run fuel u s = Some (Finished 0,
      left s c m' (ExecVars k code 0) W (Cpu bx si di bp (k + 20) ip false)) ∧
    printed out (o_con s) c ∧ off_trap top (words (o_sched s)) W.
Proof.
  induction 1 as [u m r k0 m' Hrun Hram Heax|n u m r k0 m1 out v outs code m' Hrun Hram Ha Hcall Hex IH];
    intros fuel s bp di si bx ip top k Hm Hn Hcon Hss Htop Hk Hdis Hw; (destruct fuel as [|fuel]; [lia|]); cbn [run_user]; subst m.
  - rewrite (M_bind_run _ _ _ _ _ (zoom_run os_ram (u_run u) s _ _ Hrun)). set (s1 := update os_ram m' s).
    destruct (trap_exits r s1 bp di si bx ip Heax Hss Htop Hk Hdis Hw) as (W & E & Ho). cbn [fst].
    rewrite (M_bind_run _ _ _ _ _ E). exists (o_con s), W. split; [by destruct s|]. split; [by apply printed_nil|exact Ho].
  - rewrite (M_bind_run _ _ _ _ _ (zoom_run os_ram (u_run u) s _ _ Hrun)). set (s1 := update os_ram m1 s). cbn [fst snd].
    destruct (trap_returns r s1 out v Ha Hram Hcon Hss Htop Hcall) as (c & W1 & R1 & E & P & Ho).
    rewrite (M_bind_run _ _ _ _ _ E). change (f_eax (set_eax r v)) with v.
    destruct (IH fuel (update os_con c (update os_cpu (W1, R1) (in_program r s1))) bp di si bx ip) as (c' & W & E' & P' & Ho');
      [done|lia|apply P|done..|by apply (resumes_off _ _ _ _ _ _ _ _ _ Ho)|].
    exists c', W. split; [rewrite E'; by destruct s|]. split; [by eapply printed_app|].
    intros p Hp. rewrite (Ho' p Hp). by apply Ho.
Qed.

(** The program starts at its entry point with its own stack, interrupts on, on
    the user segments. *)
Definition user_sel : selectors := Sel USER_CS USER_SS USER_SS USER_SS USER_SS USER_SS.
Definition start_of (R : cpu) (entry user_esp : Z) : user_start :=
  UserStart entry (Z.lor (eflags (r_if R)) 512) user_esp user_sel.

Lemma enter_iret_run (s : K) W R e entry user_esp : (words (o_sched s), regs (o_sched s)) = (W, sp R e) → 20 ≤ e < 4294967268 →
  W !! (e + 20) = Some entry → W !! (e + 24) = Some user_esp →
  enter_iret s = Some (start_of R entry user_esp,
    update os_cpu (poke (e - 20) (iframe (r_if R) entry user_esp) W, sp (with_if R true) e)
      (update os_segs (with_sel user_sel (o_segs s)) s)).
Proof.
  intros Hm He Hentry Husp. unfold enter_iret.
  pose proof (enter_args_run W R e entry user_esp He Hentry Husp) as E1. rewrite <-Hm in E1.
  rewrite (zoom_bind os_cpu _ _ s _ _ E1). set (s1 := update os_cpu _ s).
  rewrite (zoom_bind os_segs _ _ s1 tt _ eq_refl). set (s2 := update os_segs _ s1). cbn [fst snd].
  pose proof (user_iret_run W R e entry user_esp He) as E2. rewrite <-Hm in E2.
  rewrite (zoom_bind os_cpu _ _ s2 _ _ E2). by destruct s as [? ? [] ? ? ? ? ? ? ? ? ? ? ?].
Qed.

Lemma enter_user_run n fuel (s : K) entry user_esp out code m' :
  let R := regs (o_sched s) in let E := r_esp R in let top := tss_esp0 (o_sched s) in
  exits u_run n (u_start (start_of R entry user_esp)) (o_ram s) out code m' → (n ≤ fuel)%nat →
  console_inv (o_con s) → tss_ss0 s → 72 ≤ top < 4294967296 → 52 ≤ E < 4294967296 → E - 12 ≤ top - 72 ∨ top ≤ E - 32 →
  ∃ c W, enter_user a_back a_resume a_stub a_kreturn u_start u_run fuel entry user_esp s = Some (Finished 0,
      left s c m' (ExecVars (E - 32) code 0) W (Cpu (r_ebx R) (r_esi R) (r_edi R) (r_ebp R) E a_back false)) ∧
    printed out (o_con s) c ∧
    ∀ p, p < E - 52 ∨ E ≤ p → p < top - 72 ∨ top ≤ p → W !! p = words (o_sched s) !! p.
Proof.
  intros R E top Hex Hn Hcon Hss Htop HE Hdis. unfold enter_user.
  set (W1 := poke (E - 32) (eframe R a_back entry user_esp a_kreturn) (words (o_sched s))).
  pose proof (enter_save_run (words (o_sched s)) R a_back entry user_esp a_kreturn ltac:(fold E; lia)) as E1.
  rewrite (M_bind_run _ _ _ _ _ (zoom_run os_cpu _ s _ _ E1)). fold E W1. rewrite Z.eqb_refl. cbn [negb].
  set (s1 := update os_cpu (W1, sp R (E - 32)) s).
  assert (zoom os_cpu get_sp s1 = Some (E - 32, s1)) as E2 by (subst s1; by destruct s).
  rewrite (M_bind_run _ _ _ _ _ E2).
  set (s2 := update os_exec (ExecVars (E - 32) (g_exit_code (o_exec s)) (g_user_running (o_exec s))) s1).
  assert (set_kreturn (E - 32) s1 = Some (tt, s2)) as E3 by (subst s1 s2; by destruct s). rewrite (M_bind_run _ _ _ _ _ E3).
  assert (∀ i v, eframe R a_back entry user_esp a_kreturn !! i = Some v → W1 !! (E - 32 + 4 * Z.of_nat i) = Some v) as Hf
    by (intros; by apply poke_lookup).
  pose proof (enter_iret_run s2 W1 R (E - 32) entry user_esp eq_refl ltac:(lia) (Hf 5%nat _ eq_refl) (Hf 6%nat _ eq_refl)) as E4.
  rewrite (M_bind_run _ _ _ _ _ E4).
  set (W2 := poke (E - 32 - 20) _ W1). set (s3 := update os_cpu _ _).
  destruct (run_user_exits n _ _ out code m' Hex fuel s3 (r_ebp R) (r_edi R) (r_esi R) (r_ebx R) a_back)
    as (c & W & E5 & P & Ho); [done|done|done|done|done|cbn; lia|cbn; lia| |].
  { apply resumes_poke; [|cbn [length iframe]; change (g_kreturn_esp (o_exec s3)) with (E - 32); lia]. intros i v Hi. apply Hf.
    do 5 (destruct i as [|i]; [done|]). done. }
  rewrite (M_bind_run _ _ _ _ _ E5). exists c, W. split; [|split; [done|]].
  - cbn [g_kreturn_esp o_exec s3 s2]. unfold drop_enter_args.
    change (g_kreturn_esp (o_exec s3)) with (E - 32). set (R' := Cpu _ _ _ _ (E - 32 + 20) _ _). set (e' := ExecVars _ _ _).
    assert (zoom os_cpu (gets (λ m : machine, r_eip m.2)) (left s3 c m' e' W R') = Some (a_back, left s3 c m' e' W R')) as E6 by (by destruct s).
    rewrite (M_bind_run _ _ _ _ _ E6), Z.eqb_refl. cbn [negb].
    assert (zoom os_cpu (e ← get_sp; set_sp (u32 (e + 12))) (left s3 c m' e' W R') = Some (tt, left s c m' e' W (sp R' E))) as E7.
    { assert ((e ← get_sp; set_sp (u32 (e + 12))) (W, R') = Some (tt, (W, sp R' E))) as E8.
      { unfold get_sp, set_sp. rewrite bind_gets. cbn [snd r_esp R']. by replace (u32 (E - 32 + 20 + 12)) with E by (rewrite u32_small; lia). }
      exact (zoom_run os_cpu _ (left s3 c m' e' W R') _ _ E8). }
    rewrite (M_bind_run _ _ _ _ _ E7). done.
  - intros p Hp1 Hp2. rewrite (Ho p Hp2). change (words (o_sched s3)) with W2. subst W2 W1.
    rewrite !poke_lookup_other by (cbn [length iframe eframe]; lia). done.
Qed.
End run.
