(* ===== verification/ExecUser.v ===== *)
(** * Running a program from the disk

    [exec_user] from the file to the exit code: what it refuses, and that a
    program that exits leaves its caller's registers, the heap and the disk as
    they were. *)

From S2P Require Import Prelude Pmm Kheap CString Block Bcache Ports Sfs SfsLayout SfsInv SfsFile Devices Serial Screen Keyboard Alloc Cpu Task Elf Paging Segments Interrupts Shell ShellFs Os Exec ExecSpec.

(** Memory holds [bs] at [a]. *)
Definition holds (m : mem) (a : Z) (bs : list Z) : Prop := ∀ i b, bs !! i = Some b → mload (a + Z.of_nat i) m = Some b.

Lemma put_bytes_run a bs m : 0 ≤ a → a + Z.of_nat (length bs) ≤ RAM_TOP → ∃ m', put_bytes a bs m = Some m' ∧ holds m' a bs ∧
  ∀ x, x < a ∨ a + Z.of_nat (length bs) ≤ x → mload x m' = mload x m.
Proof.
  revert a m. induction bs as [|b bs IH]; intros a m Ha Hb; cbn [put_bytes length] in *; [by exists m|].
  unfold mstore. destruct (Z.leb_spec 0 a), (Z.ltb_spec a RAM_TOP); try lia. cbn [andb].
  destruct (IH (a + 1) (<[a := b]> m)) as (m' & E & Hh & Ho); [lia|lia|]. exists m'. split; [done|].
  assert (∀ x, x ≠ a → mload x (<[a := b]> m) = mload x m) as Hne.
  { intros x Hx. unfold mload. by rewrite lookup_insert_ne. }
  split.
  - intros [|i] v Hi; cbn in Hi.
    + injection Hi as ->. rewrite Z.add_0_r, Ho by lia. unfold mload.
      destruct (Z.leb_spec 0 a), (Z.ltb_spec a RAM_TOP); try lia. cbn [andb]. by rewrite lookup_insert_eq.
    + rewrite <-(Hh i v Hi). f_equal. lia.
  - intros x Hx. rewrite Ho, Hne by lia. done.
Qed.

Lemma holds_ram m m' a bs : ram_ok m → Forall is_byte bs → holds m' a bs →
  (∀ x, x < a ∨ a + Z.of_nat (length bs) ≤ x → mload x m' = mload x m) → ram_ok m'.
Proof.
  intros Hm Hbs Hh Ho x. unfold by8. destruct (decide (a ≤ x < a + Z.of_nat (length bs))) as [Hx|Hx].
  - destruct (lookup_lt_is_Some_2 bs (Z.to_nat (x - a))) as [b Hb]; [lia|].
    pose proof (Hh _ _ Hb) as H1. replace (a + Z.of_nat (Z.to_nat (x - a))) with x in H1 by lia. rewrite H1.
    rewrite Forall_forall in Hbs. by eapply Hbs, list_elem_of_lookup_2.
  - rewrite Ho by lia. apply Hm.
Qed.

Lemma ram_ok_empty : ram_ok ∅.
Proof. intros x. unfold by8, mload. destruct (_ && _); [rewrite lookup_empty|]; (split; [apply Z.le_refl|reflexivity]). Qed.

Section exec.
Context {HW D : Type} {PW : Ports HW} {PC : PcPorts HW} {AD : AtaDisk D} {AS : AtaDiskSpec D}.
Abbreviation K := (os HW D).
Variables a_back a_resume a_stub a_kreturn a_pd : Z.
Context {U : Type} (u_start : user_start → U) (u_run : U → M mem (registers_t * (Z → U))).
Abbreviation exec := (exec_user a_back a_resume a_stub a_kreturn u_start u_run).

(** [bs] is a program that prints [out] and exits with [code], making [n]
    calls, wherever in the heap it was loaded from. *)
Definition program (bs : list Z) (n : nat) (out : list Z) (code : Z) : Prop :=
  ∀ m buf R, ram_ok m → HEAP_START < buf → buf + Z.of_nat (length bs) ≤ HEAP_END → holds m buf bs →
    ∃ entry m1 m2, elf_load buf (Z.of_nat (length bs)) m = Some ((0, Some entry), m1) ∧
      exits u_run n (u_start (start_of R entry USER_STACK_TOP)) m1 out code m2.

(** A kernel that can run programs: the current task has a ring-0 stack that does
    not overlap the stack in use, memory is paged, and the kernel runs on its
    own segments. *)
Record exec_ready (live : gmap Z Z) (d : disk) (us : list Z) (tk : task_t) (s : K) : Prop := {
  er_con : console_inv (o_con s);
  er_fs : shows (o_cache s) d;
  er_ok : fs_ok d;
  er_heap : a_inv (heap (o_sched s)) live;
  er_ram : ram_ok (o_ram s);
  er_task : tasks (o_sched s) !! current (o_sched s) = Some tk;
  er_top : 72 ≤ kstack_top tk < 4294967296;
  er_esp : 52 ≤ r_esp (regs (o_sched s)) < 4294967296;
  er_stacks : r_esp (regs (o_sched s)) ≤ kstack_top tk - 72 ∨ kstack_top tk ≤ r_esp (regs (o_sched s)) - 52;
  er_pages : paged a_pd us (o_mmu s);
  er_segs : sel (o_segs s) = kernel_sel ∧ tss_ss0 s;
}.

(** What a refused program leaves: the cache still shows the disk, the heap has
    the same blocks in use, and everything else is as it was. *)
Record refused (live : gmap Z Z) (d : disk) (s s' : K) : Prop := {
  rf_fs : shows (o_cache s') d;
  rf_heap : a_inv (heap (o_sched s')) live;
  rf_rest : s' = update os_cache (o_cache s') (update os_heap (heap (o_sched s')) s);
}.
(** The blocks as before after [kmalloc] and [kfree]. *)
Lemma fs_step {A} (p : prog A) a (s : K) d : shows (o_cache s) d → run_disk p d = Some (a, d) →
  ∃ c, (∀ B (k : A → M K B), (zoom os_cache (run_layer p) ≫= k) s = k a (update os_cache c s)) ∧ shows c d.
Proof.
  intros Hs Hr. destruct (run_refines p (o_cache s) d a d Hs Hr) as (c & E & Hc). exists c. split; [|done].
  intros B k. by apply zoom_bind.
Qed.

Lemma current_run (s : K) : zoom os_sched task_current s = Some (current (o_sched s), s).
Proof. by destruct s. Qed.
Lemma ld_current_run (s : K) tk : tasks (o_sched s) !! current (o_sched s) = Some tk →
  zoom os_sched (ld_task (current (o_sched s))) s = Some (tk, s).
Proof. intros Htask. unfold zoom, ld_task. cbn. rewrite Htask. cbn. by destruct s. Qed.

Lemma exec_user_early n live d us tk (s : K) i : exec_ready live d us tk s → g_user_running (o_exec s) = 0 → inode_no i →
  type (inode_at d i) ≠ SFS_FILE ∨ size (inode_at d i) = 0 →
  ∃ s', exec n i s = Some (Finished (-1), s') ∧ refused live d s s'.
Proof.
  intros [Hcon Hfs Hok Hheap Hram Htask Htop Hesp Hst Hpg Hseg] Hidle Hi Hbad.
  destruct (fs_step (sfs_type i) _ s d Hfs (sfs_type_run d i Hok Hi)) as (c1 & E1 & Hc1). set (s1 := update os_cache c1 s).
  destruct (fs_step (sfs_size i) _ s1 d Hc1 (sfs_size_run d i Hi)) as (c2 & E2 & Hc2).
  unfold exec_user. rewrite bind_gets, Hidle. change (truth 0) with false. cbv iota.
  rewrite (M_bind_run _ _ _ _ _ (current_run s)), (M_bind_run _ _ _ _ _ (ld_current_run s tk Htask)).
  rewrite (proj2 (truth_true (kstack_top tk))) by lia. cbn [negb]. rewrite E1.
  destruct (Z.eqb_spec (type (inode_at d i)) SFS_FILE) as [Hty|Hty]; cbn [negb].
  2: { exists s1. split; [done|]. by destruct s as [? ? [] ? ? ? ? ? ? ? ? ? ? ?]. }
  destruct Hbad as [|Hz]; [done|]. fold s1. rewrite E2, Hz. change (0 =? 0) with true. cbn [orb].
  exists (update os_cache c2 s1). split; [done|]. by destruct s as [? ? [] ? ? ? ? ? ? ? ? ? ? ?].
Qed.

(** Up to the loader: there is no memory, or the file lies in a block of the
    heap when the loader runs. *)
Lemma exec_user_loads n live d us tk (s : K) i : exec_ready live d us tk s → g_user_running (o_exec s) = 0 → inode_no i →
  type (inode_at d i) = SFS_FILE → 0 < size (inode_at d i) →
  let bs := file_bytes d i in
  (∃ s', exec n i s = Some (Finished (-1), s') ∧ refused live d s s' ∧ kmalloc (size (inode_at d i)) (heap (o_sched s)) = Some (0, heap (o_sched s))) ∨
  (∃ c h buf m, shows c d ∧ a_inv h live ∧ HEAP_START < buf ∧ buf + Z.of_nat (length bs) ≤ HEAP_END ∧
     apart live buf (Z.of_nat (length bs)) ∧
     ram_ok m ∧ holds m buf bs ∧ (∀ x, x < buf ∨ buf + Z.of_nat (length bs) ≤ x → mload x m = mload x (o_ram s)) ∧
     ∀ rc m1, elf_load buf (Z.of_nat (length bs)) m = Some (rc, m1) →
       let s1 := update os_ram m1 (update os_cache c (update os_heap h s)) in
       exec n i s = (if negb (rc.1 =? 0) then mret (Finished (-1)) else
         entry ← lift rc.2; exec_start a_back a_resume a_stub a_kreturn u_start u_run n (kstack_top tk) entry) s1).
Proof.
  intros [Hcon Hfs Hok Hheap Hram Htask Htop Hesp Hst Hpg Hseg] Hidle Hi Hty Hsz bs.
  pose proof (node_size d i Hok Hi) as Hmax. pose proof (length_file_bytes d i Hok Hi) as Hlen.
  assert (Z.of_nat (length bs) = size (inode_at d i)) as Hl by (subst bs; lia).
  assert (∀ k : Z → M K ran, (gets (λ s0 : K, g_user_running (o_exec s0)) ≫= k) s = k 0 s) as E0 by (intros; rewrite bind_gets, Hidle; done).
  destruct (fs_step (sfs_type i) _ s d Hfs (sfs_type_run d i Hok Hi)) as (c1 & E1 & Hc1).
  set (s1 := update os_cache c1 s).
  destruct (fs_step (sfs_size i) _ s1 d Hc1 (sfs_size_run d i Hi)) as (c2 & E2 & Hc2).
  set (s2 := update os_cache c2 s1).
  destruct (a_malloc_spec (heap (o_sched s)) live (size (inode_at d i)) Hheap ltac:(lia)) as (buf & h1 & E3 & Hbuf).
  set (s3 := update os_heap h1 s2).
  assert (exec n i s = (if negb (truth buf) then mret (Finished (-1)) else
    data ← zoom os_cache (run_layer (sfs_read i (size (inode_at d i))));
    _ ← zoom os_ram (on_mem (put_bytes buf data));
    rc ← zoom os_ram (elf_load buf (Z.of_nat (length data)));
    _ ← zoom os_heap (kfree buf);
    if negb (rc.1 =? 0) then mret (Finished (-1))
    else entry ← lift rc.2; exec_start a_back a_resume a_stub a_kreturn u_start u_run n (kstack_top tk) entry) s3) as EA.
  { unfold exec_user. rewrite E0. change (truth 0) with false. cbv iota.
    rewrite (M_bind_run _ _ _ _ _ (current_run s)), (M_bind_run _ _ _ _ _ (ld_current_run s tk Htask)), (proj2 (truth_true (kstack_top tk))) by lia. cbn [negb].
    rewrite E1, Hty. change (SFS_FILE =? SFS_FILE) with true. cbn [negb]. fold s1. rewrite E2.
    rewrite (proj2 (Z.eqb_neq _ 0)), (proj2 (Z.ltb_ge MAX_USER_FILE _)) by (unfold MAX_USER_FILE; lia). cbn [orb]. fold s2.
    by rewrite (zoom_bind os_heap _ _ s2 _ _ E3). }
  destruct Hbuf as [[-> ->]|(Hb1 & Hb2 & Hfresh & Hapart & Hinv)].
  { left. exists s3. rewrite EA. change (truth 0) with false. split; [done|]. subst s3 s2 s1. destruct s as [? ? [] ? ? ? ? ? ? ? ? ? ? ?]. by split; [split|exact E3]. }
  right. rewrite (proj2 (truth_true buf)) in EA by (unfold HEAP_START in *; lia). cbn [negb] in EA.
  destruct (fs_step (sfs_read i (size (inode_at d i))) (take (Z.to_nat (size (inode_at d i))) bs) s3 d Hc2 (sfs_read_run d i (size (inode_at d i)) Hok Hi ltac:(lia))) as (c4 & E4 & Hc4).
  rewrite E4 in EA. rewrite take_ge in EA by lia. fold bs in EA.
  destruct (put_bytes_run buf bs (o_ram s)) as (m & E5 & Hh & Ho);
    [unfold HEAP_START in *; lia|unfold HEAP_END, HEAP_SIZE, HEAP_START, RAM_TOP in *; lia|].
  destruct (a_free_spec h1 _ buf _ Hinv (lookup_insert_eq _ _ _)) as (h2 & E6 & Hinv2).
  rewrite delete_insert_id in Hinv2 by done.
  exists c4, h2, buf, m. split; [done|]. split; [done|]. split; [done|]. split; [by rewrite Hl|]. split; [by rewrite Hl|].
  split; [by apply (holds_ram (o_ram s) m buf bs Hram (file_bytes_ok d i Hok))|]. split; [done|]. split; [done|].
  intros rc m1 Eload. rewrite EA.
  rewrite (zoom_bind os_ram _ _ (update os_cache c4 s3) tt m (on_mem_run _ _ _ E5)).
  rewrite (zoom_bind os_ram (elf_load _ _) _ (update os_ram m (update os_cache c4 s3)) _ _ Eload).
  rewrite (zoom_bind os_heap (kfree buf) _ (update os_ram m1 (update os_ram m (update os_cache c4 s3))) _ _ E6). subst s3 s2 s1. by destruct s as [? ? [] ? ? ? ? ? ? ? ? ? ? ?].
Qed.

Definition set_top {H} (v : Z) (s : sched H) : sched H :=
  Sched (heap s) (tasks s) (words s) (regs s) v (current s) (head s) (next_id s) (scheduling_on s).

(** What is left when a program that printed [out] has exited with [code]:
    the caller goes on after the call, with its registers, segments and stack,
    interrupts off; the ring-0 stack stays installed and the user window accessible. *)
Record came_back (live : gmap Z Z) (d : disk) (us : list Z) (top : Z) (out : list Z) (code : Z) (s s' : K) : Prop := {
  cb_con : printed out (o_con s) (o_con s');
  cb_fs : shows (o_cache s') d;
  cb_heap : a_inv (heap (o_sched s')) live;
  cb_regs : let R := regs (o_sched s) in
    regs (o_sched s') = Cpu (r_ebx R) (r_esi R) (r_edi R) (r_ebp R) (r_esp R) a_back false;
  cb_stack : ∀ p, r_esp (regs (o_sched s)) ≤ p → p < top - 72 ∨ top ≤ p → words (o_sched s') !! p = words (o_sched s) !! p;
  cb_tasks : tasks (o_sched s') = tasks (o_sched s) ∧ current (o_sched s') = current (o_sched s);
  cb_top : tss_esp0 (o_sched s') = top;
  cb_idle : g_user_running (o_exec s') = 0;
  cb_pages : paged a_pd (2 :: us) (o_mmu s');
  cb_segs : o_segs s' = o_segs s;
  cb_rest : s' = Os (o_con s') (o_cache s') (o_sched s') (o_fibers s) (o_exec s') (o_pmm s) (o_mmu s') (o_ram s') (o_segs s')
    (o_intr s) (o_kbd s) (o_ticks s) (o_cwd s) (o_worker_ticks s);
}.

Lemma exec_start_run n fuel live d us top (s : K) entry out code m' :
  let R := regs (o_sched s) in let E := r_esp R in
  exits u_run n (u_start (start_of R entry USER_STACK_TOP)) (o_ram s) out code m' → (n ≤ fuel)%nat →
  console_inv (o_con s) → shows (o_cache s) d → a_inv (heap (o_sched s)) live →
  72 ≤ top < 4294967296 → 52 ≤ E < 4294967296 → E ≤ top - 72 ∨ top ≤ E - 52 →
  paged a_pd us (o_mmu s) → sel (o_segs s) = kernel_sel → tss_ss0 s →
  ∃ s', exec_start a_back a_resume a_stub a_kreturn u_start u_run fuel top entry s = Some (Finished code, s') ∧
    came_back live d us top out code s s'.
Proof.
  intros R E Hex Hn Hcon Hfs Hh Htop HE Hdis Hpd Hsel Hss. unfold exec_start.
  destruct (paging_set_user_run a_pd (o_mmu s) us USER_BASE Hpd ltac:(unfold USER_BASE; lia)) as (mm & E1 & Hpd').
  rewrite (zoom_bind os_mmu _ _ s _ _ E1).
  rewrite (zoom_bind os_sched _ _ (update os_mmu mm s) tt (set_top top (o_sched s)) eq_refl).
  set (s2 := update os_sched _ _). set (x := o_exec s).
  unfold set_exit_code, set_running.
  rewrite (zoom_bind os_exec _ _ s2 tt (ExecVars (g_kreturn_esp x) (-1) (g_user_running x)) eq_refl).
  set (s2' := update os_exec (ExecVars _ (-1) _) s2).
  rewrite (zoom_bind os_exec _ _ s2' tt (ExecVars (g_kreturn_esp x) (-1) 1) eq_refl).
  set (s3 := update os_exec (ExecVars (g_kreturn_esp x) (-1) 1) _).
  destruct (enter_user_run a_back a_resume a_stub a_kreturn u_start u_run n fuel s3 entry USER_STACK_TOP out code m')
    as (c & W & E4 & P & Ho); [exact Hex|done|done|exact Hss|done|done|cbn; fold R E; lia|].
  rewrite (M_bind_run _ _ _ _ _ E4). set (s4 := left _ _ _ _ _ _).
  eexists. split; [reflexivity|].
  assert (with_sel kernel_sel (o_segs s) = o_segs s) as Hsegs by (rewrite <-Hsel; by destruct (o_segs s)).
  split; cbn; try done. intros p Hp1 Hp2. apply Ho; [right; exact Hp1|exact Hp2].
Qed.
End exec.
