(* ===== verification/Hello.v ===== *)
(** * The demonstration program (user/hello.c) and ELF images as byte lists

    [hello_run] is the program between its calls.  The image the build embeds in
    the kernel is not source: it is any byte list whose segments put the message
    where the program looks for it. *)

From S2P Require Import Prelude Pmm Kheap CString Block Bcache Ports Sfs SfsLayout SfsInv SfsFile Devices Serial Screen Keyboard Alloc Cpu Task Elf Paging Interrupts Shell ShellFs Os Exec ExecSpec ExecUser.

(** ** hello.c *)

Fixpoint slen (fuel : nat) (s n : Z) : M mem Z :=
  match fuel with
  | O => fault
  | S fuel' => c ← rd8 (s + n); if truth c then slen fuel' s (u32 (n + 1)) else mret n
  end.

(** Where the program is: at the start, after the first call, after the second. *)
Inductive hello_pc := at_start | at_exit | at_spin.

Section hello.
(** The address of the message, and the registers a call leaves as they are. *)
Variables (a_msg : Z) (g : registers_t).

(** The registers at [int 0x80]. *)
Definition call_regs (eax ebx ecx : Z) : registers_t :=
  Registers (f_ds g) (f_edi g) (f_esi g) (f_ebp g) (f_esp g) ebx (f_edx g) ecx eax 128 0
    (f_eip g) (f_cs g) (f_eflags g) (f_useresp g) (f_ss g).

(** [_start]: the last loop never ends. *)
Definition hello_run (u : hello_pc) : M mem (registers_t * (Z → hello_pc)) :=
  match u with
  | at_start => n ← slen 64 a_msg 0; mret (call_regs SYS_WRITE a_msg (u32 (i32_of n)), λ _, at_exit)
  | at_exit => mret (call_regs SYS_EXIT 0 (f_ecx g), λ _, at_spin)
  | at_spin => fault
  end.
End hello.

Definition hello_text : list Z := cstr (lit_ln "hello from ring 3").

(** ** ELF images as byte lists *)

(** The image at address 0. *)
Definition image0 (bs : list Z) : mem := list_to_map (zip (seqZ 0 (Z.of_nat (length bs))) bs).

Lemma image0_holds bs : Z.of_nat (length bs) ≤ RAM_TOP → holds (image0 bs) 0 bs.
Proof.
  intros Hl i b Hi. unfold mload. pose proof (lookup_lt_Some _ _ _ Hi).
  destruct (Z.leb_spec 0 (0 + Z.of_nat i)), (Z.ltb_spec (0 + Z.of_nat i) RAM_TOP); try lia. cbn [andb]. do 2 f_equal.
  assert (image0 bs !! (0 + Z.of_nat i) = Some b) as ->; [|done].
  apply elem_of_list_to_map_1.
  - rewrite fst_zip by (rewrite length_seqZ; lia). apply NoDup_seqZ.
  - apply list_elem_of_lookup. exists i. rewrite lookup_zip_with, lookup_seqZ_lt by lia. cbn. by rewrite Hi.
Qed.

(** Two images of the same bytes. *)
Section moved.
Context (bs : list Z) (m m' : mem) (a a' : Z) (H : holds m a bs) (H' : holds m' a' bs).
Abbreviation len := (Z.of_nat (length bs)).

Lemma moved_byte k : 0 ≤ k < len → mload (a + k) m = mload (a' + k) m'.
Proof using H H'.
  intros Hk. destruct (lookup_lt_is_Some_2 bs (Z.to_nat k)) as [b Hb]; [lia|].
  pose proof (H _ _ Hb) as E. pose proof (H' _ _ Hb) as E'. rewrite Z2Nat.id in E, E' by lia. by rewrite E, E'.
Qed.
Lemma moved_by8 k : 0 ≤ k < len → by8 m (a + k) = by8 m' (a' + k).
Proof using H H'. intros Hk. unfold by8. by rewrite moved_byte. Qed.
Lemma moved_w16 k : 0 ≤ k → k + 2 ≤ len → w16 m (a + k) = w16 m' (a' + k).
Proof using H H'. intros. unfold w16. by rewrite <-!Z.add_assoc, !moved_by8 by lia. Qed.
Lemma moved_w32 k : 0 ≤ k → k + 4 ≤ len → w32 m (a + k) = w32 m' (a' + k).
Proof using H H'. intros. unfold w32. rewrite <-!Z.add_assoc, !moved_w16 by lia. done. Qed.

Lemma moved_header : header_ok m a len = header_ok m' a' len.
Proof using H H'.
  unfold header_ok. destruct (Z.leb_spec SIZEOF_EHDR len) as [Hl|]; [|done]. unfold SIZEOF_EHDR in Hl. cbn [andb].
  pose proof (moved_by8 0 ltac:(lia)) as E0. rewrite !Z.add_0_r in E0.
  by rewrite E0, !moved_by8, !moved_w16, !moved_w32 by lia.
Qed.

Lemma omap_same {A B} (f h : A → option B) (l : list A) : (∀ x, x ∈ l → f x = h x) → omap f l = omap h l.
Proof.
  induction l as [|x l IH]; intros E; [done|]. cbn [omap list_omap]. rewrite (E x) by left.
  rewrite IH; [done|]. intros y Hy. apply E. by right.
Qed.
Lemma moved_segments : SIZEOF_EHDR ≤ len → 0 ≤ w32 m' (a' + 28) → w32 m' (a' + 28) + w16 m' (a' + 44) * 32 ≤ len →
  segments m a 0 = segments m' a' 0.
Proof using H H'.
  intros Hl H0 Ht. unfold SIZEOF_EHDR in Hl. unfold segments. rewrite !moved_w32, !moved_w16 by lia.
  apply omap_same. intros j Hj%elem_of_seqZ. unfold seg_at.
  set (o := w32 m' (a' + 28)) in *. replace (a + o + j * 32) with (a + (o + j * 32)) by lia.
  replace (a' + o + j * 32) with (a' + (o + j * 32)) by lia. rewrite <-!Z.add_assoc, !moved_w32 by lia. done.
Qed.
End moved.

(** The byte the segments of an image put at [x]. *)
Definition placed (bs : list Z) (x : Z) : option Z :=
  foldl (λ acc sg, default acc (seg_byte (image0 bs) 0 sg x)) None (segments (image0 bs) 0 0).

(** An image the loader accepts. *)
Record valid_elf (bs : list Z) : Prop := {
  ve_bytes : Forall is_byte bs;
  ve_len : Z.of_nat (length bs) ≤ 7168;
  ve_header : header_ok (image0 bs) 0 (Z.of_nat (length bs)) = true;
  ve_sane : elf_sane (image0 bs) 0;
  ve_fits : forallb (fits (Z.of_nat (length bs))) (segments (image0 bs) 0 0) = true;
  ve_entry : entry_ok (image0 bs) 0 = true;
}.

Lemma image0_ok bs : Forall is_byte bs → Z.of_nat (length bs) ≤ 7168 → image_ok (image0 bs) 0 (Z.of_nat (length bs)).
Proof.
  intros Hb Hl. split; [unfold USER_BASE; lia|]. intros x Hx. unfold by8.
  destruct (lookup_lt_is_Some_2 bs (Z.to_nat x)) as [b E]; [lia|].
  pose proof (image0_holds bs ltac:(unfold RAM_TOP; lia) _ _ E) as H3. replace (0 + Z.of_nat (Z.to_nat x)) with x in H3 by lia. rewrite H3.
  rewrite Forall_forall in Hb. by eapply Hb, list_elem_of_lookup_2.
Qed.

Lemma holds_image m buf bs : Forall is_byte bs → holds m buf bs → HEAP_START < buf → buf + Z.of_nat (length bs) ≤ HEAP_END →
  image_ok m buf (Z.of_nat (length bs)).
Proof.
  intros Hb Hh H1 H2. unfold HEAP_END, HEAP_SIZE, HEAP_START in *. split; [unfold USER_BASE; lia|]. intros x Hx. unfold by8.
  destruct (lookup_lt_is_Some_2 bs (Z.to_nat (x - buf))) as [b E]; [lia|].
  pose proof (Hh _ _ E) as H3. replace (buf + Z.of_nat (Z.to_nat (x - buf))) with x in H3 by lia. rewrite H3.
  rewrite Forall_forall in Hb. by eapply Hb, list_elem_of_lookup_2.
Qed.

Lemma fitting_all size l : forallb (fits size) l = true → fitting size l = l.
Proof. induction l as [|sg l IH]; cbn; [done|]. destruct (fits size sg); [|done]. cbn. intros E. by rewrite IH. Qed.

Lemma foldl_some {A B} (f : B → option (option A)) l x y v : foldl (λ acc b, default acc (f b)) None l = Some v →
  foldl (λ acc b, default acc (f b)) x l = y → y = Some v.
Proof.
  revert x. induction l as [|b l IH] using rev_ind; intros x; [done|]. rewrite !foldl_app. cbn.
  destruct (f b) as [o|]; cbn; [by intros -> ->|]. apply IH.
Qed.

Lemma foldl_same {A B} (f h : B → option (option A)) l x : (∀ b, b ∈ l → f b = h b) →
  foldl (λ acc b, default acc (f b)) x l = foldl (λ acc b, default acc (h b)) x l.
Proof.
  revert x. induction l as [|b l IH]; intros x E; [done|]. cbn [foldl]. rewrite (E b) by left. apply IH. intros b' Hb. apply E. by right.
Qed.

(** Loading puts bytes into memory. *)
Lemma loaded_ram m img l x : ram_ok m → is_byte (default 0 (loaded m img l x)).
Proof.
  intros Hm. unfold loaded. assert (is_byte (default 0 (mload x m))) as Hb by apply Hm. revert Hb. generalize (mload x m).
  induction l as [|sg l IH]; intros o Hb; [done|]. cbn [foldl]. apply IH. unfold seg_byte.
  destruct (decide _); [apply Hm|]. destruct (decide _); [split; [apply Z.le_refl|reflexivity]|exact Hb].
Qed.

Lemma seg_off_nonneg (bs : list Z) m a sg : image_ok m a (Z.of_nat (length bs)) → header_ok m a (Z.of_nat (length bs)) = true →
  elf_sane m a → sg ∈ segments m a 0 → 0 ≤ s_off sg.
Proof.
  intros Himg Hh (_ & Hw & _) (j & Hj & Hat)%list_elem_of_omap. apply elem_of_seqZ in Hj.
  destruct (header_table m a _ Himg Hh Hw) as [Hsz Htab]. unfold SIZEOF_EHDR in Hsz.
  assert (same_image a (Z.of_nat (length bs)) m m) as Hs by done.
  pose proof (proj2 (image_w32 m a _ Himg m (a + 28) Hs ltac:(lia) ltac:(lia))).
  unfold seg_at in Hat. destruct (_ =? PT_LOAD); [|done]. injection Hat as <-. cbn [s_off].
  apply (image_w32 m a _ Himg m _ Hs); lia.
Qed.

(** What the loader finds in a copy of the image in the heap. *)
Lemma copy_sane bs m buf : Forall is_byte bs → Z.of_nat (length bs) ≤ 7168 → holds m buf bs →
  header_ok (image0 bs) 0 (Z.of_nat (length bs)) = true → elf_sane (image0 bs) 0 →
  elf_sane m buf ∧ segments m buf 0 = segments (image0 bs) 0 0 ∧ entry_ok m buf = entry_ok (image0 bs) 0 ∧
  w32 m (buf + 24) = w32 (image0 bs) 24.
Proof.
  intros Hb Hl Hm Hh (Hent & Htab & Hsegs).
  pose proof (image0_holds bs ltac:(unfold RAM_TOP; lia)) as H0. pose proof (image0_ok bs Hb Hl) as Himg0.
  destruct (header_table (image0 bs) 0 _ Himg0 Hh Htab) as [Hsz Htab']. unfold SIZEOF_EHDR in Hsz.
  pose proof (proj2 (image_w32 (image0 bs) 0 _ Himg0 (image0 bs) (0 + 28) ltac:(done) ltac:(lia) ltac:(lia))) as Hoff.
  pose proof (moved_segments bs m (image0 bs) buf 0 Hm H0 ltac:(unfold SIZEOF_EHDR; lia) ltac:(lia) Htab') as Eseg.
  pose proof (λ k, moved_w32 bs m (image0 bs) buf 0 Hm H0 k) as E32. pose proof (λ k, moved_w16 bs m (image0 bs) buf 0 Hm H0 k) as E16.
  split; [|split; [exact Eseg|]].
  - split; [rewrite <-Hent; apply E16; lia|]. rewrite Eseg. split; [|done]. by rewrite E32, E16 by lia.
  - unfold entry_ok. rewrite !E32 by lia. done.
Qed.

Lemma valid_elf_loads bs m buf : valid_elf bs → ram_ok m → HEAP_START < buf → buf + Z.of_nat (length bs) ≤ HEAP_END → holds m buf bs →
  ∃ m1, elf_load buf (Z.of_nat (length bs)) m = Some ((0, Some (w32 (image0 bs) 24)), m1) ∧ ram_ok m1 ∧
    ∀ x v, placed bs x = Some v → mload x m1 = Some v.
Proof.
  intros [Hb Hl Hh Hs0 Hf He] Hram H1 H2 Hm.
  pose proof (image0_holds bs ltac:(unfold RAM_TOP; lia)) as H0.
  pose proof (holds_image m buf bs Hb Hm H1 H2) as Himg. pose proof (image0_ok bs Hb Hl) as Himg0.
  pose proof (moved_header bs m (image0 bs) buf 0 Hm H0) as Ehd. rewrite Hh in Ehd.
  destruct (copy_sane bs m buf Hb Hl Hm Hh Hs0) as (Hsane & Eseg & Een & E24).
  destruct (elf_load_run m buf _ Himg (λ _, Hsane)) as (m1 & E & L & _). rewrite Ehd, Eseg, Hf, Een, He, E24 in E. rewrite Ehd, Eseg in L.
  rewrite (fitting_all _ _ Hf) in L. exists m1. split; [exact E|].
  split; [intros x; unfold by8; rewrite L; by apply loaded_ram|]. intros x v Hp. eapply foldl_some; [exact Hp|].
  rewrite L. unfold loaded. symmetry. apply foldl_same. intros sg Hsg. unfold seg_byte.
  pose proof (seg_off_nonneg bs _ _ sg Himg0 Hh Hs0 Hsg). rewrite forallb_forall in Hf.
  specialize (Hf sg (proj1 (list_elem_of_In _ _) Hsg)). unfold fits in Hf. rewrite !andb_true_iff, !Z.leb_le in Hf.
  case_decide; [|done]. f_equal. replace (buf + s_off sg + (x - s_va sg)) with (buf + (s_off sg + (x - s_va sg))) by lia.
  replace (0 + s_off sg + (x - s_va sg)) with (0 + (s_off sg + (x - s_va sg))) by lia.
  apply (moved_byte bs m (image0 bs) buf 0 Hm H0). lia.
Qed.

(** An image the loader rejects: its header fails the checks, or it is one the
    loader can be trusted with ([elf_sane]) that has a segment that does not fit
    or an entry point outside the window. *)
Definition rejected (bs : list Z) : Prop :=
  let m := image0 bs in let n := Z.of_nat (length bs) in
  header_ok m 0 n = false ∨ elf_sane m 0 ∧ forallb (fits n) (segments m 0 0) && entry_ok m 0 = false.

Lemma rejected_loads bs m buf : rejected bs → Forall is_byte bs → Z.of_nat (length bs) ≤ 7168 →
  HEAP_START < buf → buf + Z.of_nat (length bs) ≤ HEAP_END → holds m buf bs →
  ∃ m1, elf_load buf (Z.of_nat (length bs)) m = Some ((-1, None), m1) ∧
    ∀ x, x < USER_BASE ∨ USER_TOP ≤ x → mload x m1 = mload x m.
Proof.
  intros Hrej Hb Hl H1 H2 Hm. pose proof (image0_holds bs ltac:(unfold RAM_TOP; lia)) as H0.
  pose proof (holds_image m buf bs Hb Hm H1 H2) as Himg. pose proof (moved_header bs m (image0 bs) buf 0 Hm H0) as Ehd.
  destruct (header_ok (image0 bs) 0 (Z.of_nat (length bs))) eqn:Hh.
  - destruct Hrej as [Hf|[Hs0 Hbad]]; [congruence|].
    destruct (copy_sane bs m buf Hb Hl Hm Hh Hs0) as (Hsane & Eseg & Een & _).
    destruct (elf_load_run m buf _ Himg (λ _, Hsane)) as (m1 & E & _ & L). rewrite Ehd, Eseg, Een in E. cbn [andb] in E.
    rewrite Hbad in E. by exists m1.
  - destruct (elf_load_run m buf _ Himg) as (m1 & E & _ & L); [by rewrite Ehd|]. rewrite Ehd in E. by exists m1.
Qed.

(** ** What the program does *)

Lemma slen_run fuel s txt n m : holds m s (txt ++ [0]) → Forall (λ c, c ≠ 0) txt → 0 ≤ s → s + Z.of_nat (length txt) < RAM_TOP →
  (length txt < n + fuel)%nat → (n ≤ length txt)%nat → slen fuel s (Z.of_nat n) m = Some (Z.of_nat (length txt), m).
Proof.
  intros Hh Hn Hs Ht. revert n. induction fuel as [|fuel IH]; intros n Hf Hle; [lia|]. cbn [slen].
  destruct (decide (n = length txt)) as [->|Hne].
  - pose proof (Hh (length txt) 0 (list_lookup_middle _ [] _ _ eq_refl)) as E0.
    rewrite (M_bind_run _ _ _ _ _ (rd8_run m (s + Z.of_nat (length txt)) ltac:(lia))). unfold by8. by rewrite E0.
  - destruct (lookup_lt_is_Some_2 txt n) as [c Hc]; [lia|].
    pose proof (Hh n c (lookup_app_l_Some _ _ _ _ Hc)) as E0.
    rewrite (M_bind_run _ _ _ _ _ (rd8_run m (s + Z.of_nat n) ltac:(lia))). unfold by8. rewrite E0. change (default 0 (Some c)) with c.
    rewrite (proj2 (truth_true c)) by (rewrite Forall_forall in Hn; by eapply Hn, list_elem_of_lookup_2).
    unfold RAM_TOP in Ht. rewrite u32_small by lia. replace (Z.of_nat n + 1) with (Z.of_nat (S n)) by lia. apply IH; lia.
Qed.

Lemma holds_bytes m a txt l : holds m a (txt ++ l) → bytes_at m a (length txt) = txt.
Proof.
  intros Hh. apply list_eq. intros i. unfold bytes_at. rewrite list_lookup_fmap.
  destruct (decide (i < length txt)%nat) as [Hi|Hi].
  - destruct (lookup_lt_is_Some_2 txt i Hi) as [c Hc]. rewrite lookup_seqZ_lt, Hc by lia. cbn [fmap option_fmap option_map]. unfold by8.
    rewrite Z.add_0_l, (Hh i c (lookup_app_l_Some _ _ _ _ Hc)). done.
  - rewrite lookup_seqZ_ge, lookup_ge_None_2 by lia. done.
Qed.

Lemma hello_exits a_msg g m : USER_BASE ≤ a_msg → a_msg + 19 ≤ USER_TOP → ram_ok m → holds m a_msg (hello_text ++ [0]) →
  exits (hello_run a_msg g) 2 at_start m hello_text 0 m.
Proof.
  intros H1 H2 Hram Hh. unfold USER_BASE, USER_TOP in *.
  assert (length hello_text = 18%nat) as Hlen by reflexivity.
  assert (Forall (λ c, c ≠ 0) hello_text) as Hnz by (apply (bool_decide_unpack _); vm_compute; exact I).
  rewrite <-(app_nil_r hello_text). eapply exits_call with (v := 18).
  - cbn [hello_run]. pose proof (slen_run 64 a_msg hello_text 0 m Hh Hnz ltac:(lia) ltac:(unfold RAM_TOP; lia) ltac:(lia) ltac:(lia)) as E.
    change (Z.of_nat 0) with 0 in E. by rewrite (M_bind_run _ _ _ _ _ E).
  - done.
  - rewrite Hlen. unfold args_ok. change (u32 (i32_of (Z.of_nat 18))) with 18. cbn. lia.
  - rewrite Hlen. unfold call_returns. change (u32 (i32_of (Z.of_nat 18))) with 18. cbn [call_regs f_eax f_ebx f_ecx].
    change (SYS_WRITE =? SYS_WRITE) with true. cbv iota. unfold USER_BASE, USER_TOP.
    rewrite (proj2 (Z.leb_gt _ _)), !(proj2 (Z.leb_le _ _)) by lia. cbn [andb]. do 2 f_equal.
    change (Z.to_nat 18) with (length hello_text). by eapply holds_bytes.
  - by apply (exits_exit _ at_exit m (call_regs g SYS_EXIT 0 (f_ecx g)) (λ _, at_spin)).
Qed.

(** The image puts the message at [a_msg], inside the user window. *)
Record hello_image (bs : list Z) (a_msg : Z) : Prop := {
  hi_elf : valid_elf bs;
  hi_window : USER_BASE ≤ a_msg ∧ a_msg + 19 ≤ USER_TOP;
  hi_text : ∀ i c, (hello_text ++ [0]) !! i = Some c → placed bs (a_msg + Z.of_nat i) = Some c;
}.

Lemma hello_program_run bs a_msg g : hello_image bs a_msg → program (λ _, at_start) (hello_run a_msg g) bs 2 hello_text 0.
Proof.
  intros [Helf [H1 H2] Htxt] m buf R Hram Hb1 Hb2 Hm.
  destruct (valid_elf_loads bs m buf Helf Hram Hb1 Hb2 Hm) as (m1 & E & Hram1 & Hp).
  exists (w32 (image0 bs) 24), m1, m1. split; [exact E|]. apply hello_exits; [done..|]. intros i c Hi. by apply Hp, Htxt.
Qed.
