(* ===== verification/ExecProps.v ===== *)
(** * Properties of program execution and system calls *)

From S2P Require Import Prelude Pmm Kheap CString Block Bcache Ports Sfs SfsLayout SfsInv SfsFile SfsOps SfsTree SfsSpec Devices Serial Screen Keyboard Alloc Cpu Task Elf Paging Segments Interrupts Green Shell ShellFs Os Exec ExecSpec ExecUser Hello.

(** A refusal before the loader leaves memory alone. *)
Lemma refused_ram {HW D} {AD : AtaDisk D} {AS : AtaDiskSpec D} live d (s s' : os HW D) {P} :
  refused live d s s' → refused live d s (update os_ram (o_ram s) s') ∧ (o_ram s' = o_ram s ∨ P).
Proof.
  intros Hr. assert (o_ram s' = o_ram s) as E by (by rewrite (rf_rest _ _ _ _ Hr)). rewrite <-E.
  replace (update os_ram (o_ram s') s') with s' by (by destruct s'). split; [exact Hr|by left].
Qed.

(** C15. Running a program: when the file is a program that prints [out] and exits
    with [code], [exec_user] either has no memory for the image, returns -1 and
    has changed nothing, or it returns [code] after [out] has been printed; the
    caller's registers and stack are as they were, the heap and the disk too, no
    program is marked running, and the user window is the page the program may
    access. *)
Theorem exec_user_program {HW D} {PW : Ports HW} {PC : PcPorts HW} {AD : AtaDisk D} {AS : AtaDiskSpec D}
    a_back a_resume a_stub a_kreturn a_pd {U} (u_start : user_start → U) u_run
    live d us tk (s : os HW D) i n fuel out code
    (Hready : exec_ready a_pd live d us tk s) (Hidle : g_user_running (o_exec s) = 0)
    (Hi : inode_no i) (Hfile : type (inode_at d i) = SFS_FILE)
    (Hprog : program u_start u_run (file_bytes d i) n out code) (Hfuel : (n ≤ fuel)%nat) :
  ∃ rc s', exec_user a_back a_resume a_stub a_kreturn u_start u_run fuel i s = Some (Finished rc, s') ∧
    (rc = -1 ∧ refused live d s s' ∧ kmalloc (size (inode_at d i)) (heap (o_sched s)) = Some (0, heap (o_sched s)) ∨
     rc = code ∧ came_back a_back a_pd live d us (kstack_top tk) out code s s').
Proof.
  assert (0 < size (inode_at d i)) as Hsz.
  { pose proof (length_file_bytes d i (er_ok _ _ _ _ _ _ Hready) Hi) as Hl.
    destruct (file_bytes d i) as [|b bs]; [|cbn [length] in Hl; lia].
    destruct (Hprog ∅ (HEAP_START + 1) (regs (o_sched s))) as (e & m1 & m2 & E & _);
      [exact ram_ok_empty|lia|unfold HEAP_END, HEAP_SIZE; cbn [length]; lia|by intros ? ? ?|].
    discriminate E. }
  destruct (exec_user_loads a_back a_resume a_stub a_kreturn a_pd u_start u_run fuel live d us tk s i Hready Hidle Hi Hfile Hsz)
    as [(s' & E & Hr & Hm)|(c & h & buf & m & Hc & Hh & Hb1 & Hb2 & _ & Hram & Hhold & _ & Hrun)].
  { exists (-1), s'. auto. }
  destruct (Hprog m buf (regs (o_sched s)) Hram Hb1 Hb2 Hhold) as (entry & m1 & m2 & Eload & Hex).
  rewrite (Hrun _ _ Eload). cbn [fst snd]. change (negb (0 =? 0)) with false. cbv iota.
  set (s1 := update os_ram m1 _). destruct Hready as [Hcon Hfs Hok Hheap _ Htask Htop Hesp Hst Hpg [Hsel Hss]].
  destruct (exec_start_run a_back a_resume a_stub a_kreturn a_pd u_start u_run n fuel live d us (kstack_top tk) s1 entry out code m2)
    as (s' & E & Hback); [done..|].
  exists code, s'. split; [exact E|]. right. split; [done|]. destruct Hback. by split.
Qed.

(** C16. What [exec_user] refuses, with -1: a second program while one is running,
    anything but a file, an empty file, and an image the loader rejects.  The
    console, the blocks in use, the contents of the disk, the tasks, the page
    tables, the segments and all variables are as they were.  Memory is as it was
    too, except that an image that got as far as the loader may leave its first
    segments in the user window and a copy of the file in a heap block that
    overlaps none in use and has been freed again. *)
Theorem exec_user_refuses {HW D} {PW : Ports HW} {PC : PcPorts HW} {AD : AtaDisk D} {AS : AtaDiskSpec D}
    a_back a_resume a_stub a_kreturn a_pd {U} (u_start : user_start → U) u_run
    live d us tk (s : os HW D) i fuel
    (Hready : exec_ready a_pd live d us tk s) (Hi : inode_no i)
    (Hbad : g_user_running (o_exec s) ≠ 0 ∨ type (inode_at d i) ≠ SFS_FILE ∨ size (inode_at d i) = 0 ∨ rejected (file_bytes d i)) :
  ∃ s', exec_user a_back a_resume a_stub a_kreturn u_start u_run fuel i s = Some (Finished (-1), s') ∧
    refused live d s (update os_ram (o_ram s) s') ∧
    (o_ram s' = o_ram s ∨
     g_user_running (o_exec s) = 0 ∧ type (inode_at d i) = SFS_FILE ∧ size (inode_at d i) ≠ 0 ∧
     ∃ buf, HEAP_START < buf ∧ buf + size (inode_at d i) ≤ HEAP_END ∧ apart live buf (size (inode_at d i)) ∧
       ∀ x, x < USER_BASE ∨ USER_TOP ≤ x → x < buf ∨ buf + size (inode_at d i) ≤ x → mload x (o_ram s') = mload x (o_ram s)).
Proof.
  destruct (decide (g_user_running (o_exec s) = 0)) as [Hidle|Hrun].
  2: { exists s. unfold exec_user. rewrite bind_gets, (proj2 (truth_true _) Hrun). split; [done|]. split; [|by left].
       replace (update os_ram (o_ram s) s) with s by (by destruct s). destruct Hready. split; [done..|]. by destruct s as [? ? [] ? ? ? ? ? ? ? ? ? ? ?]. }
  destruct Hbad as [|Hbad]; [done|]. pose proof (er_ok _ _ _ _ _ _ Hready) as Hok.
  destruct (decide (type (inode_at d i) = SFS_FILE ∧ size (inode_at d i) ≠ 0)) as [[Hty Hsz]|Hbad'].
  2: { destruct (exec_user_early a_back a_resume a_stub a_kreturn a_pd u_start u_run fuel live d us tk s i Hready Hidle Hi) as (s' & E & Hr).
       { destruct (decide (size (inode_at d i) = 0)); [by right|left]. tauto. }
       exists s'. split; [exact E|]. exact (refused_ram live d s s' Hr). }
  destruct Hbad as [|[|Hrej]]; [done..|]. pose proof (node_size d i Hok Hi) as Hmax. pose proof (length_file_bytes d i Hok Hi) as Hlen.
  destruct (exec_user_loads a_back a_resume a_stub a_kreturn a_pd u_start u_run fuel live d us tk s i Hready Hidle Hi Hty ltac:(lia))
    as [(s' & E & Hr & Hm)|(c & h & buf & m & Hc & Hh & Hb1 & Hb2 & Hapart & Hram & Hhold & Hout & Hrun)].
  { exists s'. split; [exact E|]. exact (refused_ram live d s s' Hr). }
  destruct (rejected_loads _ m buf Hrej (file_bytes_ok d i Hok) ltac:(lia) Hb1 Hb2 Hhold) as (m1 & Eload & Hwin).
  eexists. rewrite (Hrun _ _ Eload). split; [reflexivity|].
  replace (Z.of_nat (length (file_bytes d i))) with (size (inode_at d i)) in * by lia. split.
  - destruct s as [? ? [] ? ? ? ? ? ? ? ? ? ? ?]. by split.
  - right. split; [done|]. split; [done|]. split; [done|]. exists buf. split; [done|]. split; [done|]. split; [done|].
    intros x Hx1 Hx2. etransitivity; [exact (Hwin x Hx1)|exact (Hout x Hx2)].
Qed.

(** C17. For a request that does not wrap around, [sys_write] checks the window: a
    buffer outside it is refused with -1 and nothing happens, one inside it is
    printed byte by byte, its length returned, and nothing but the console
    changes. *)
Theorem sys_write_window {HW D} {PW : Ports HW} {PC : PcPorts HW} (s : os HW D) buf len
    (Hbuf : 0 ≤ buf < 4294967296) (Hlen : 0 ≤ len < 4294967296) (Hwrap : buf + len < 4294967296)
    (Hcon : console_inv (o_con s)) (Hram : ram_ok (o_ram s)) :
  if decide (USER_BASE ≤ buf ∧ buf + len ≤ USER_TOP)
  then ∃ s', sys_write buf len s = Some (len, s') ∧ con_only s s' ∧
         printed (bytes_at (o_ram s) buf (Z.to_nat len)) (o_con s) (o_con s')
  else sys_write buf len s = Some (-1, s).
Proof. apply sys_write_run; lia || done. Qed.

(** C33. The check adds 32-bit numbers without looking for overflow: a program that
    passes a length that wraps around past the end of the address space gets
    through, and the kernel reads on from the window through its own memory
    until it faults. *)
Theorem sys_write_wraps {HW D} {PW : Ports HW} {PC : PcPorts HW} (s : os HW D) buf len
    (Hbuf : USER_BASE ≤ buf < 4294967296) (Hlen : 0 ≤ len < 4294967296)
    (Hwrap : 4294967296 ≤ buf + len) (Hsum : buf + len - 4294967296 ≤ USER_TOP) :
  sys_write buf len s = None.
Proof.
  unfold sys_write. assert (u32 (buf + len) = buf + len - 4294967296) as ->.
  { unfold u32. rewrite <-(Z.mod_add _ (-1)) by lia. apply Z.mod_small. unfold USER_TOP in Hsum. lia. }
  rewrite (proj2 (Z.ltb_ge buf _)), (proj2 (Z.ltb_ge USER_TOP _)) by lia. cbn [orb].
  unfold mbind, M_bind. rewrite write_chars_faults; [done|unfold USER_BASE in *; lia|unfold RAM_TOP, USER_BASE in *; lia|].
  unfold USER_BASE in *. lia.
Qed.

(** ** A kernel to run them on *)

#[local] Existing Instance plain_ata.
#[local] Existing Instance plain_ata_spec.

(** A single task, with its ring-0 stack at the start of the heap. *)
Definition sim_task : task_t := Task 0 0 4194316 4202496 0 (lit "kernel") TASK_RUNNING 0 4300000.
Definition sim_os (d : disk) : os sim_pc disk :=
  Os low_console (fresh_cache d) (Sched heap_booted {[4300000 := sim_task]} ∅ (Cpu 1 2 3 4 585728 99 false) 0 4300000 4300000 1 1)
    (Fibers ∅ 0 0 0 ∅ 0) (ExecVars 0 0 0) pmm_boot (Mmu (directory []) 2147483648 36864 16 (directory [])) ∅
    (Segs [] (GdtPtr 0 0) [0; 0; 16] (GdtPtr 0 0) 0 kernel_sel) (Intr [] (IdtReg 0 0) (IdtReg 0 0) []) (Kbd [] 0 0 0 0) 0 0 0.

Lemma sim_ready d : fs_ok d → exec_ready 36864 ∅ d [] sim_task (sim_os d).
Proof.
  intros Hok. split.
  - exact low_console_inv.
  - exact (fresh_shows d (ok_wf _ Hok)).
  - exact Hok.
  - exists [(HEAP_SIZE - HDR, true)]. split; [exact heap_booted_ok|]. split; [set_solver|]. done.
  - exact ram_ok_empty.
  - apply lookup_singleton_eq.
  - cbn. lia.
  - cbn. lia.
  - cbn. lia.
  - split; [reflexivity|]. split; reflexivity.
  - split; reflexivity.
Qed.

(** An image of one segment, with four bytes of code before the message. *)
Definition hello_elf : list Z :=
  [127; 69; 76; 70; 1; 1; 1; 0; 0; 0; 0; 0; 0; 0; 0; 0] ++ [2; 0; 3; 0] ++ le32 1 ++ le32 8388608 ++ le32 52 ++
  le32 0 ++ le32 0 ++ [52; 0; 32; 0; 1; 0; 0; 0; 0; 0; 0; 0] ++
  le32 1 ++ le32 84 ++ le32 8388608 ++ le32 8388608 ++ le32 23 ++ le32 32 ++ le32 5 ++ le32 4096 ++
  [144; 144; 235; 254] ++ hello_text ++ [0].

Lemma hello_elf_image : hello_image hello_elf 8388612.
Proof.
  split.
  - split.
    + apply (bool_decide_unpack _). vm_compute. exact I.
    + vm_compute. discriminate.
    + vm_compute. reflexivity.
    + split; [vm_compute; reflexivity|]. split; [vm_compute; reflexivity|].
      assert (segments (image0 hello_elf) 0 0 = [Seg 8388608 32 84 23]) as -> by (vm_compute; reflexivity).
      intros sg ->%list_elem_of_singleton. vm_compute. split; [discriminate|reflexivity].
    + vm_compute. reflexivity.
    + vm_compute. reflexivity.
  - unfold USER_BASE, USER_TOP. lia.
  - assert (Forall (λ p : nat * Z, placed hello_elf (8388612 + Z.of_nat p.1) = Some p.2) (imap pair (hello_text ++ [0]))) as HF
      by (apply (bool_decide_unpack _); vm_compute; exact I).
    intros i c Hi. rewrite Forall_forall in HF. apply (HF (i, c)). apply list_elem_of_lookup. exists i. by rewrite list_lookup_imap, Hi.
Qed.

(** The registers of a program nobody looks at. *)
Definition no_regs : registers_t := Registers 35 0 0 0 0 0 0 0 0 0 0 8388608 27 514 12582912 35.

(** It is the file [log] of a small disk. *)
Lemma hello_disk : ∃ d, fs_ok d ∧ type (inode_at d 1) = SFS_FILE ∧ file_bytes d 1 = hello_elf.
Proof.
  destruct (sfs_write_run file_disk 1 hello_elf 107 file_disk_ok) as (w & d & _ & Hok & Hty & _ & Hby & Hw & _).
  - done.
  - exact file_disk_type.
  - apply (bool_decide_unpack _). vm_compute. exact I.
  - vm_compute. split; discriminate.
  - exists d. split; [exact Hok|]. split; [exact Hty|]. rewrite Hby, Hw. vm_compute. reflexivity.
Qed.

Lemma exec_user_program_witness :
  ∃ d rc s', fs_ok d ∧
    exec_user 5 6 7 8 (λ _, at_start) (hello_run 8388612 no_regs) 10 1 (sim_os d) = Some (Finished rc, s') ∧
    (rc = -1 ∨ rc = 0 ∧ printed hello_text low_console (o_con s') ∧ regs (o_sched s') = Cpu 1 2 3 4 585728 5 false).
Proof.
  destruct hello_disk as (d & Hok & Hty & Hby).
  destruct (exec_user_program 5 6 7 8 36864 (λ _, at_start) (hello_run 8388612 no_regs) ∅ d [] sim_task (sim_os d) 1 2 10 hello_text 0)
    as (rc & s' & E & H).
  - exact (sim_ready d Hok).
  - reflexivity.
  - done.
  - exact Hty.
  - rewrite Hby. apply hello_program_run, hello_elf_image.
  - lia.
  - exists d, rc, s'. split; [exact Hok|]. split; [exact E|]. destruct H as [(-> & _)|(-> & Hb)]; [left; reflexivity|right].
    split; [reflexivity|]. split; [apply Hb|apply Hb].
Defined.

Lemma exec_user_refuses_witness :
  ∃ s', exec_user 5 6 7 8 (λ _, at_start) (hello_run 8388612 no_regs) 10 0 (sim_os file_disk) = Some (Finished (-1), s') ∧
    o_con s' = low_console ∧ o_sched s' = with_heap (heap (o_sched s')) (o_sched (sim_os file_disk)).
Proof.
  destruct (exec_user_refuses 5 6 7 8 36864 (λ _, at_start) (hello_run 8388612 no_regs) ∅ file_disk [] sim_task (sim_os file_disk) 0 10)
    as (s' & E & H & _).
  - exact (sim_ready file_disk file_disk_ok).
  - done.
  - right. left. change 0 with SFS_ROOT. rewrite (ok_root _ file_disk_ok). discriminate.
  - exists s'. split; [exact E|]. destruct s'. apply rf_rest in H. cbn in H. injection H as -> ->. split; reflexivity.
Defined.

Lemma sys_write_window_witness :
  (∃ s', sys_write 8388608 3 (sim_os ∅) = Some (3, s') ∧ printed [0; 0; 0] low_console (o_con s')) ∧
  sys_write 4096 3 (sim_os ∅) = Some (-1, sim_os ∅).
Proof.
  split.
  - destruct (sys_write_window (sim_os ∅) 8388608 3 ltac:(lia) ltac:(lia) ltac:(lia) low_console_inv ram_ok_empty) as (s' & E & _ & P).
    exists s'. split; [exact E|exact P].
  - exact (sys_write_window (sim_os ∅) 4096 3 ltac:(lia) ltac:(lia) ltac:(lia) low_console_inv ram_ok_empty).
Defined.

Lemma sys_write_wraps_witness : sys_write 8388608 4286578688 (sim_os ∅) = None.
Proof. apply (sys_write_wraps (sim_os ∅) 8388608 4286578688); unfold USER_BASE, USER_TOP; lia. Defined.
