(* ===== verification/ShellMain.v ===== *)
(** * The shell on the whole kernel (kernel/shell.c)

    The commands that reach beyond the filesystem, the dispatch of a line, the
    prompt and the worker tasks, over the state of file Os.  The file commands
    are those of file Shell, run on the shell's part of it.  A command that
    starts a program may give the processor away before it ends; then the line
    is not finished. *)

From S2P Require Import Prelude Pmm Kheap CString Block Bcache Ports Sfs Devices Serial Screen Keyboard Alloc Cpu Task Elf Paging Segments Interrupts Green Shell Os Exec.

(** Addresses of code and of variables whose address is taken. *)
Record addrs := Addrs {
  a_task_exit : Z; a_task_bootstrap : Z; a_sched_resume : Z;
  a_trampoline : Z; a_yielded : Z; a_gt_back : Z; a_sched_esp : Z; a_gt_body : Z;
  a_shell_worker : Z; a_handle_line : Z;
  a_exec_back : Z; a_stub : Z; a_kreturn : Z }.

Definition os_timer {HW D} : lens (os HW D) (unit * Z) := Lens (λ s, (tt, o_ticks s)) (λ p s,
  Os (o_con s) (o_cache s) (o_sched s) (o_fibers s) (o_exec s) (o_pmm s) (o_mmu s) (o_ram s) (o_segs s) (o_intr s) (o_kbd s) p.2 (o_cwd s) (o_worker_ticks s)).
Definition os_counter {HW D} : lens (os HW D) Z := Lens (λ s, o_counter (o_fibers s)) (λ c s,
  Os (o_con s) (o_cache s) (o_sched s)
    (Fibers (o_threads (o_fibers s)) (o_ring (o_fibers s)) (o_gcurrent (o_fibers s)) (o_gsched_esp (o_fibers s)) (o_conts (o_fibers s)) c)
    (o_exec s) (o_pmm s) (o_mmu s) (o_ram s) (o_segs s) (o_intr s) (o_kbd s) (o_ticks s) (o_cwd s) (o_worker_ticks s)).
Definition os_worker {HW D} : lens (os HW D) Z := Lens o_worker_ticks (λ w s,
  Os (o_con s) (o_cache s) (o_sched s) (o_fibers s) (o_exec s) (o_pmm s) (o_mmu s) (o_ram s) (o_segs s) (o_intr s) (o_kbd s) (o_ticks s) (o_cwd s) w).

Definition help_lines : list string :=
  ["commands:";
   "  help            this list";
   "  clear           clear the screen";
   "  pwd             print working directory";
   "  ls [path]       list a directory";
   "  cd <dir>        change directory";
   "  mkdir <name>    create a directory";
   "  touch <name>    create an empty file";
   "  cat <file>      print a file";
   "  cp <src> <dst>  copy a file";
   "  mv <src> <dst>  rename/move a file";
   "  echo <txt> > f  write text to file f (>> appends)";
   "  rm [-r] <name>  remove a file or (with -r) a dir tree";
   "  ps              list running tasks";
   "  spawn           start a background task";
   "  exec <prog>     run an ELF program in user mode (try 'exec hello')";
   "  gt              run a cooperative green-thread demo";
   "  stress          hammer the heap";
   "  meminfo         memory + cache stats";
   "  uptime          seconds since boot"]%string.

(** ** The fibers of [gt] *)

Section fibers.
Context {HW : Type} {PW : Ports HW}.
(** The registers and the stack of a fiber at its calls of [gt_yield]. *)
Variable gt_use : nat → use.

(** [gt_counter++] overflows without a defined result. *)
Definition count_up : M (Z * console HW) unit :=
  c ← gets fst; if in_int (c + 1) then modify (λ w, (c + 1, w.2)) else fault.
(** [gt_body] with [n] rounds to go. *)
Fixpoint gt_body (n : nat) : fiber (Z * console HW) :=
  match n with
  | O => Slice (mret (gt_use 0, Exit))
  | S n' =>
      Slice (_ ← count_up;
             _ ← zoom snd_lens (kprint (lit "."));
             mret (gt_use (S n'), gt_body n'))
  end.
End fibers.

Section main.
Context {HW D : Type} {PW : Ports HW} {AD : AtaDisk D}.
Abbreviation K := (os HW D).
Variable A : addrs.
Variable gt_use : nat → use.
Context {U : Type} (u_start : user_start → U) (u_run : U → M mem (registers_t * (Z → U))) (n_calls : nat).

Definition out (s : list Z) : M K unit := zoom os_con (kprint s).
Definition out_lit (s : string) : M K unit := out (lit s).
Definition out_ln (s : string) : M K unit := out (lit_ln s).
Definition out_dec (v : Z) : M K unit := zoom os_con (kprint_dec v).
Definition file_cmd {B} (c : M (shell HW (bcache D) kheap) B) : M K B := zoom os_shell c.

Fixpoint out_lines (l : list string) : M K unit :=
  match l with [] => mret tt | s :: l' => _ ← out_ln s; out_lines l' end.
Definition cmd_help : M K unit := out_lines help_lines.

Definition cmd_meminfo : M K unit :=
  _ ← out_lit "frames: ";
  v ← zoom os_pmm pmm_used_frames; _ ← out_dec (i32_of v);
  _ ← out_lit " / ";
  v ← zoom os_pmm pmm_total_frames; _ ← out_dec (i32_of v);
  _ ← out_lit "   heap: ";
  v ← zoom os_heap kheap_used; _ ← out_dec (i32_of v);
  _ ← out_lit "B used, ";
  v ← zoom os_heap kheap_free; _ ← out_dec (i32_of v);
  _ ← out_ln "B free";
  _ ← out_lit "cache:  ";
  v ← zoom os_cache bcache_hits; _ ← out_dec (i32_of v);
  _ ← out_lit " hits / ";
  v ← zoom os_cache bcache_misses; _ ← out_dec (i32_of v);
  out_ln " miss".

(** The functions fibers are started with. *)
Definition gt_text (fn : Z) : option (fiber (Z * console HW)) := if fn =? a_gt_body A then Some (gt_body gt_use 5) else None.
Fixpoint spawn_loop (k : nat) (n : Z) : M K Z :=
  match k with
  | O => mret n
  | S k' =>
      r ← zoom os_green (gt_spawn (a_trampoline A) (a_gt_body A));
      spawn_loop k' (if r =? 0 then n + 1 else n)
  end.
(** Four fibers of six turns each, and the turn that finds nobody. *)
Definition GT_FUEL : nat := 25.
Definition cmd_gt : M K unit :=
  _ ← zoom os_counter (modify (λ _, 0));
  _ ← zoom os_green gt_init;
  n ← spawn_loop 4 0;
  _ ← out_lit "running "; _ ← out_dec n; _ ← out_lit " green threads: ";
  _ ← zoom os_green (gt_run (a_trampoline A) (a_yielded A) (a_gt_back A) (a_sched_esp A) gt_text GT_FUEL);
  _ ← out (nl_lit "gt done, counter = ");
  c ← zoom os_counter get; _ ← out_dec c; out_ln "".

Fixpoint stress_alloc (k : nat) (p : list Z) (ok : Z) : M K (list Z * Z) :=
  match k with
  | O => mret (p, ok)
  | S k' => q ← zoom os_heap (kmalloc 512); stress_alloc k' (p ++ [q]) (if truth q then ok + 1 else ok)
  end.
Fixpoint stress_free (p : list Z) : M K unit :=
  match p with [] => mret tt | q :: p' => _ ← zoom os_heap (kfree q); stress_free p' end.
Definition cmd_stress : M K unit :=
  _ ← out_lit "allocating 128 blocks... ";
  r ← stress_alloc 128 [] 0;
  _ ← out_dec r.2; _ ← out_lit " ok, freeing... ";
  _ ← stress_free r.1;
  _ ← out_lit "heap used now ";
  v ← zoom os_heap kheap_used; _ ← out_dec (i32_of v);
  out_ln "B".

Definition ps_print (t : Z) : M K unit :=
  tk ← zoom os_sched (ld_task t);
  _ ← out_lit "  #"; _ ← out_dec (i32_of (id tk));
  _ ← out_lit " "; _ ← out (name tk);
  _ ← out_lit (if state tk =? TASK_RUNNING then " (running)" else if state tk =? TASK_DEAD then " (dead)" else " (ready)");
  out_ln "".
Definition cmd_ps : M K unit :=
  _ ← out_lit "tasks ("; n ← zoom os_sched task_count; _ ← out_dec n; _ ← out_ln "):";
  _ ← task_foreach os_sched ps_print;
  _ ← out_lit "background work counter: ";
  w ← zoom os_worker get; _ ← out_dec (i32_of w); out_ln "".

(** ** The branches of [run_command] *)

Definition cmd_mkdir (arg : option (list Z)) : M K unit :=
  match arg with
  | None => out_ln "mkdir: need a name"
  | Some nm =>
      d ← gets o_cwd;
      r ← zoom os_cache (run_layer (sfs_create d nm SFS_DIR));
      if r <? 0 then out_ln "mkdir: failed" else mret tt
  end.
Definition cmd_touch (arg : option (list Z)) : M K unit :=
  match arg with
  | None => out_ln "touch: need a name"
  | Some nm =>
      d ← gets o_cwd;
      r ← zoom os_cache (run_layer (sfs_lookup d nm));
      if negb (r <? 0) then mret tt
      else
        r ← zoom os_cache (run_layer (sfs_create d nm SFS_FILE));
        if r <? 0 then out_ln "touch: failed" else mret tt
  end.
Definition cmd_rm (arg arg2 : option (list Z)) : M K unit :=
  match arg with
  | None => out_ln "rm: need a name"
  | Some nm =>
      b ← lift (is_lit nm "-r");
      if (b : bool) then
        match arg2 with
        | None => out_ln "rm: -r needs a name"
        | Some nm2 =>
            d ← gets o_cwd;
            r ← zoom os_cache (run_layer (rm_rec RM_DEPTH d nm2));
            if r <? 0 then out_ln "rm: failed" else mret tt
        end
      else
        d ← gets o_cwd;
        r ← zoom os_cache (run_layer (sfs_unlink d nm));
        if r <? 0 then out_ln "rm: failed (missing or non-empty dir)" else mret tt
  end.
Definition cmd_spawn : M K unit :=
  t ← zoom os_sched (task_create (a_task_exit A) (a_task_bootstrap A) (lit "worker") (a_shell_worker A));
  if truth t then
    tk ← zoom os_sched (ld_task t);
    _ ← out_lit "spawned task #"; _ ← out_dec (i32_of (id tk)); out_ln ""
  else out_ln "spawn: failed".
(** Whether the command is over. *)
Definition cmd_exec (arg : option (list Z)) : M K bool :=
  match arg with
  | None => _ ← out_ln "exec: need a program"; mret true
  | Some p =>
      ino ← file_cmd (resolve p);
      ty ← (if ino <? 0 then mret (-1) else zoom os_cache (run_layer (sfs_type ino)));
      if (ino <? 0) || negb (ty =? SFS_FILE) then _ ← out_ln "exec: no such program"; mret true
      else
        r ← exec_user (a_exec_back A) (a_sched_resume A) (a_stub A) (a_kreturn A) u_start u_run n_calls ino;
        match r with
        | Suspended => mret false
        | Finished rc => _ ← out_lit "[exit "; _ ← out_dec rc; _ ← out_ln "]"; mret true
        end
  end.
Definition cmd_uptime : M K unit :=
  v ← zoom os_timer timer_ticks; _ ← out_dec (i32_of (v / 100)); _ ← out_lit " s (";
  v ← zoom os_timer timer_ticks; _ ← out_dec (i32_of v); out_ln " ticks)".
Definition cmd_unknown (cmd : list Z) : M K unit :=
  _ ← out_lit "unknown command: "; _ ← out cmd; out_ln "  (try 'help')".

(** [if (strcmp(cmd, w) == 0) c else k] *)
Definition on_word (cmd : list Z) (w : string) (c k : M K bool) : M K bool :=
  b ← lift (is_lit cmd w); if (b : bool) then c else k.
Definition over (c : M K unit) : M K bool := _ ← c; mret true.

(** [words]: the command and its arguments, each up to its terminator and on. *)
Definition dispatch (cmd : list Z) (args : list (list Z)) : M K bool :=
  on_word cmd "help" (over cmd_help) (
  on_word cmd "clear" (over (zoom os_con clear_screen)) (
  on_word cmd "pwd" (over (_ ← file_cmd print_cwd; out_ln "")) (
  on_word cmd "ls" (over (file_cmd (cmd_ls (args !! 0%nat)))) (
  on_word cmd "cd" (over (file_cmd (cmd_cd (args !! 0%nat)))) (
  on_word cmd "mkdir" (over (cmd_mkdir (args !! 0%nat))) (
  on_word cmd "touch" (over (cmd_touch (args !! 0%nat))) (
  on_word cmd "cat" (over (file_cmd (cmd_cat (args !! 0%nat)))) (
  on_word cmd "echo" (over (file_cmd (cmd_echo args))) (
  on_word cmd "cp" (over (file_cmd (cmd_cp (args !! 0%nat) (args !! 1%nat)))) (
  on_word cmd "mv" (over (file_cmd (cmd_mv (args !! 0%nat) (args !! 1%nat)))) (
  on_word cmd "rm" (over (cmd_rm (args !! 0%nat) (args !! 1%nat))) (
  on_word cmd "ps" (over cmd_ps) (
  on_word cmd "spawn" (over cmd_spawn) (
  on_word cmd "exec" (cmd_exec (args !! 0%nat)) (
  on_word cmd "gt" (over cmd_gt) (
  on_word cmd "stress" (over cmd_stress) (
  on_word cmd "meminfo" (over cmd_meminfo) (
  on_word cmd "uptime" (over cmd_uptime) (
  over (cmd_unknown cmd)))))))))))))))))))).

(** The line afterwards, and whether the command is over. *)
Definition run_command (line : list Z) : M K (list Z * bool) :=
  r ← lift (tokenize line 16);
  match (λ p : nat, drop p r.2) <$> r.1 with
  | [] => mret (r.2, true)
  | cmd :: args =>
      b ← dispatch cmd args;
      if (b : bool) then _ ← zoom os_cache bcache_sync; mret (r.2, true) else mret (r.2, false)
  end.

(** ** Entry points *)

Definition prompt : M K unit :=
  _ ← zoom os_con (set_color (VGA_COLOR VGA_LIGHT_GREEN VGA_BLACK));
  _ ← file_cmd print_cwd;
  _ ← out_lit " $ ";
  zoom os_con (set_color (VGA_COLOR VGA_LIGHT_GREY VGA_BLACK)).

Definition shell_handle_line (line : list Z) : M K (list Z * bool) :=
  r ← run_command line;
  if (r.2 : bool) then _ ← prompt; mret r else mret r.

Definition shell_init : M K unit :=
  _ ← zoom os_keys (keyboard_set_line_handler (a_handle_line A));
  _ ← out (10 :: lit_ln "type 'help' for commands.");
  prompt.

(** One round of the worker, up to [hlt]. *)
Definition shell_worker : M K unit := zoom os_worker (modify (λ w, u32 (w + 1))).
End main.
