(* ===== verification/ShellGt.v ===== *)
(** * The shell's fiber demonstration

    [cmd_gt] composed with the green threads of file GreenSpec: what is printed,
    and that nothing is left of the fibers afterwards. *)

From S2P Require Import Prelude Pmm Kheap CString Block Bcache Ports Sfs Devices Serial Screen Keyboard Alloc Cpu Task Elf Paging Segments Interrupts Green GreenSpec Shell ShellFs ShellSpec Os Exec ExecSpec ExecUser ShellMain.

Lemma sum_list_app l k : sum_list (l ++ [k]) = (sum_list l + k)%nat.
Proof. induction l; simpl; lia. Qed.

Lemma sum_list_cons k l : sum_list (k :: l) = (k + sum_list l)%nat.
Proof. done. Qed.

Section blocks.
Context {H W : Type} {AH : Allocator H}.

(** What a spawn asks of the heap: a structure and a stack, or nothing. *)
Definition spawn_blocks : M H bool :=
  t ← a_malloc SIZEOF_GTHREAD;
  if negb (truth t) then mret false
  else sb ← a_malloc GT_STACK_SIZE; if negb (truth sb) then _ ← a_free t; mret false else mret true.
(** How many of [k] spawns in a row the heap serves. *)
Fixpoint spawns (k : nat) : M H nat :=
  match k with
  | O => mret O
  | Datatypes.S k' => b ← spawn_blocks; n ← spawns k'; mret (if (b : bool) then Datatypes.S n else n)
  end.

Lemma zoom_heap {A} (c : M H A) (s s1 : green H W) a : zoom heap_lens c s = Some (a, s1) → c (g_heap s) = Some (a, g_heap s1).
Proof. unfold zoom. cbn. destruct (c (g_heap s)) as [[a0 h]|]; [|done]. by intros [= -> <-]. Qed.
Lemma zoom_mach {A} (c : M machine A) (s s1 : green H W) a : zoom mach_lens c s = Some (a, s1) → g_heap s1 = g_heap s.
Proof. unfold zoom. cbn. destruct (c (g_mach s)) as [[a0 h]|]; [|done]. by intros [= _ <-]. Qed.

Lemma gt_spawn_blocks tr fn (s s' : green H W) r : gt_spawn tr fn s = Some (r, s') →
  spawn_blocks (g_heap s) = Some (r =? 0, g_heap s').
Proof.
  unfold gt_spawn, spawn_blocks. intros (t & s1 & E1%zoom_heap & E)%M_bind_Some. rewrite (M_bind_run _ _ _ _ _ E1).
  destruct (negb (truth t)); [by injection E as <- <-|].
  apply M_bind_Some in E as (sb & s2 & E2%zoom_heap & E). rewrite (M_bind_run _ _ _ _ _ E2).
  destruct (negb (truth sb)).
  { apply M_bind_Some in E as ([] & s3 & E3%zoom_heap & [= <- <-]). by rewrite (M_bind_run _ _ _ _ _ E3). }
  do 5 (apply M_bind_Some in E as ([] & ? & <-%zoom_mach & E)). apply M_bind_Some in E as (ring & ? & [= _ <-] & E).
  destruct (negb (truth ring)); [by injection E as <- <-|].
  apply M_bind_Some in E as (th & w1 & El & E). unfold ld_thread in El. destruct (threads _ !! ring) eqn:Et; [|done]. injection El as _ <-.
  unfold upd_thread, set_threads in E. rewrite bind_modify, bind_assoc in E.
  apply M_bind_Some in E as (tr' & w2 & El & E). unfold ld_thread in El. cbn [threads] in El.
  destruct (_ !! ring) in El; [|done]. injection El as _ <-. by injection E as <- <-.
Qed.
End blocks.

Section bodies.
Context {HW : Type} {PW : Ports HW} {PC : PcPorts HW}.
Context (gt_use : nat → use) (Huse : ∀ n, GreenSpec.fits (gt_use n)).
Abbreviation W := (Z * console HW)%type.

Lemma dot_printed (c : console HW) : console_inv c → ∃ c', kprint (lit ".") c = Some (tt, c') ∧ printed [46] c c'.
Proof. intros Hc. apply (kprint_printed [46] [] c); [by repeat constructor|done]. Qed.

(** One round of a fiber. *)
Lemma gt_round c (t : console HW) : console_inv t → 0 ≤ c < 2147483647 →
  ∃ t', (_ ← count_up; zoom snd_lens (kprint (lit "."))) (c, t) = Some (tt, (c + 1, t')) ∧ printed [46] t t'.
Proof.
  intros Ht Hc. destruct (dot_printed t Ht) as (t' & E & P). exists t'. split; [|done].
  assert (count_up (c, t) = Some (tt, (c + 1, t))) as Eu.
  { unfold count_up. rewrite bind_gets. cbn [fst]. unfold in_int.
    destruct (Z.leb_spec (-2147483648) (c + 1)), (Z.ltb_spec (c + 1) 2147483648); (done || lia). }
  rewrite (M_bind_run _ _ _ _ _ Eu). by rewrite (zoom_run snd_lens _ (c + 1, t) _ _ E).
Qed.

Lemma bodies_run N ns c (t : console HW) : (sum_list (Datatypes.S <$> ns) ≤ N)%nat → console_inv t → 0 ≤ c →
  c + Z.of_nat (sum_list ns) < 2147483648 →
  ∃ t', round_robin N (gt_body gt_use <$> ns) (c, t) = Some (tt, (c + Z.of_nat (sum_list ns), t')) ∧
    printed (replicate (sum_list ns) 46) t t'.
Proof using Huse.
  revert ns c t. induction N as [|N IH]; intros [|n ns] c t HN Ht Hc Hb.
  1, 3: exists t; cbn; rewrite Z.add_0_r; split; [done|by apply printed_nil].
  { rewrite fmap_cons, sum_list_cons in HN. lia. }
  rewrite fmap_cons, sum_list_cons in HN. rewrite sum_list_cons in Hb |- *. rewrite fmap_cons.
  destruct n as [|n]; cbn [gt_body round_robin].
  - rewrite bind_ret. cbn [fst snd]. rewrite decide_True by apply Huse. apply IH; (done || lia).
  - destruct (gt_round c t Ht ltac:(lia)) as (t1 & E1 & P1).
    assert ((_ ← count_up; _ ← zoom snd_lens (kprint (lit ".")); mret (gt_use (Datatypes.S n), gt_body gt_use n)) (c, t)
      = Some ((gt_use (Datatypes.S n), gt_body gt_use n), (c + 1, t1))) as E2.
    { revert E1. unfold mbind, M_bind. destruct (count_up (c, t)) as [[[] w]|]; [|done]. by intros ->. }
    rewrite (M_bind_run _ _ _ _ _ E2). cbn [fst snd]. rewrite decide_True by apply Huse.
    assert ((match gt_body gt_use n with Exit => gt_body gt_use <$> ns | k => (gt_body gt_use <$> ns) ++ [k] end)
      = gt_body gt_use <$> (ns ++ [n])) as -> by (rewrite fmap_app; by destruct n).
    destruct (IH (ns ++ [n]) (c + 1) t1) as (t2 & E3 & P2).
    { rewrite fmap_app, (sum_list_app _ (Datatypes.S n)). lia. }
    { apply P1. }
    { lia. }
    { rewrite sum_list_app. lia. }
    rewrite sum_list_app in E3, P2. exists t2. split.
    + rewrite E3. do 3 f_equal. lia.
    + replace (Datatypes.S n + sum_list ns)%nat with (Datatypes.S (sum_list ns + n)) by lia.
      by apply (printed_app [46] _ t t1 t2).
Qed.
End bodies.

Section gt.
Context {HW D : Type} {PW : Ports HW} {PC : PcPorts HW} {AD : AtaDisk D}.
Abbreviation K := (os HW D).
Context (A : addrs) (gt_use : nat → use).
Context (Huse : ∀ n, GreenSpec.fits (gt_use n)) (Hvar : a_sched_esp A ≤ HEAP_START) (Hcode : a_trampoline A ≠ a_yielded A).

Abbreviation text := (gt_text (HW := HW) A gt_use).
Abbreviation gview s := (Prelude.view (os_green (HW := HW) (D := D)) s).
Abbreviation fibers_ok s l live := (green_ok (a_trampoline A) (a_yielded A) text s l live).
Abbreviation fqueue s l := (queue (a_trampoline A) (a_yielded A) text s l).
Abbreviation body := (gt_body (HW := HW) gt_use 5).

(** Everything but the fibers, the stacks, the heap and the console. *)
Definition green_only (s s' : K) : Prop := s' = update os_green (gview s') s.

Lemma fibers_heap g l live h : fibers_ok g l live → a_inv h live → fibers_ok (with_gheap g h) l live.
Proof. intros [] Hh. by split. Qed.

Lemma replicate_insert m (q1 q2 : list (fiber (Z * console HW))) : q1 ++ q2 = replicate m body → q1 ++ body :: q2 = replicate (Datatypes.S m) body.
Proof.
  intros E. symmetry in E. apply replicate_as_Forall in E as [Hl HF]. symmetry. apply replicate_as_Forall. split.
  - rewrite length_app in *. cbn. lia.
  - apply Forall_app in HF as [H1 H2]. apply Forall_app. split; [done|by constructor].
Qed.

Lemma spawn_loop_run k n (s : K) l live m : fibers_ok (gview s) l live → fqueue (gview s) l = replicate m body →
  ∃ j s' l' live', (j ≤ k)%nat ∧ spawns k (g_heap (gview s)) = Some (j, g_heap (gview s')) ∧ spawn_loop A k n s = Some (n + Z.of_nat j, s') ∧ fibers_ok (gview s') l' live' ∧
    fqueue (gview s') l' = replicate (m + j) body ∧ released (gview s') l' live' = released (gview s) l live ∧
    g_world (gview s') = g_world (gview s) ∧ (g_mach (gview s')).2 = (g_mach (gview s)).2 ∧ green_only s s'.
Proof.
  revert n s l live m. induction k as [|k IH]; intros n s l live m Hok Hq; cbn [spawn_loop].
  { exists 0%nat, s, l, live. rewrite Z.add_0_r, Nat.add_0_r. unfold green_only. rewrite update_view. done. }
  destruct (gt_spawn_run (a_trampoline A) (a_yielded A) text (gview s) l live (a_gt_body A) Hok) as (r & g & E & Hr).
  pose proof (gt_spawn_blocks _ _ _ _ _ E) as Eb. cbn [spawns]. rewrite (M_bind_run _ _ _ _ _ Eb).
  rewrite (zoom_bind os_green _ _ s _ _ E). set (s1 := update os_green g s).
  assert (gview s1 = g) as V1 by apply view_update.
  destruct Hr as [(-> & h & -> & Hh)|(-> & t & sb & h & -> & Hfr & Hh)].
  - change (-1 =? 0) with false. cbv iota.
    destruct (IH n s1 l live m) as (j & s' & l' & live' & Hj & Esp & E' & Hok' & Hq' & Hrel & Hw & Hm & Hs).
    { rewrite V1. by apply fibers_heap. }
    { rewrite V1. exact Hq. }
    exists j, s', l', live'. split; [lia|]. rewrite V1 in *. split; [by rewrite (M_bind_run _ _ _ _ _ Esp)|]. split_and!; try done.
  - change (0 =? 0) with true. cbv iota.
    assert (text (a_gt_body A) = Some body) as Htext by (unfold gt_text; by rewrite Z.eqb_refl).
    destruct (spawned_rest (a_trampoline A) (gview s) h t sb (a_gt_body A)) as (_ & _ & Hw1 & Hm1 & _).
    destruct (IH (n + 1) s1 (second t l) (with_fiber live t sb) (Datatypes.S m)) as (j & s' & l' & live' & Hj & Esp & E' & Hok' & Hq' & Hrel & Hw & Hm & Hs).
    { rewrite V1. by apply (spawned_ok _ _ _ (gview s) l live h t sb _ body). }
    { rewrite V1, (spawned_queue _ _ _ (gview s) l live h t sb _ body) by done. apply replicate_insert.
      rewrite <-Hq. unfold queue. rewrite <-omap_app, take_drop. done. }
    exists (Datatypes.S j), s', l', live'. rewrite V1 in *. split; [lia|].
    split; [by rewrite (M_bind_run _ _ _ _ _ Esp)|]. split; [rewrite E'; do 2 f_equal; lia|].
    split; [done|]. split; [rewrite Hq'; f_equal; lia|]. split; [by rewrite Hrel, (spawned_released (a_trampoline A) (a_yielded A) text (gview s) l live h t sb)|].
    split; [by rewrite Hw|]. split; [by rewrite Hm|]. unfold green_only in *. rewrite Hs. unfold s1. by rewrite update_update.
Qed.

Lemma out_run l (s : K) : cstring l → console_inv (o_con s) →
  ∃ c, (∀ B (k : unit → M K B), (out l ≫= k) s = k tt (update os_con c s)) ∧ out l s = Some (tt, update os_con c s) ∧ printed (cstr l) (o_con s) c.
Proof.
  intros Hl Hc. destruct (cstring_text l Hl) as (rest & E & Ht). destruct (kprint_printed (cstr l) rest (o_con s) Ht Hc) as (c & Er & P).
  rewrite <-E in Er. exists c. split; [intros; by apply zoom_bind|]. split; [by apply (zoom_run os_con)|done].
Qed.
Lemma out_dec_run v (s : K) : -2147483648 ≤ v < 2147483648 → console_inv (o_con s) →
  ∃ x c, itoa v = Some (x ++ [0]) ∧ (∀ B (k : unit → M K B), (out_dec v ≫= k) s = k tt (update os_con c s)) ∧ printed x (o_con s) c.
Proof.
  intros Hv Hc. destruct (kprint_dec_printed v (o_con s) Hv Hc) as (x & c & Ex & Er & P).
  exists x, c. split; [done|]. split; [intros; by apply zoom_bind|done].
Qed.

Definition with_world {H W} (g : green H W) (w : W) : green H W :=
  Green (g_heap g) (threads g) (g_mach g) (g_ring g) (g_current g) (g_sched_esp g) (g_conts g) w.
Lemma fibers_world g l live w : fibers_ok g l live → fibers_ok (with_world g w) l live.
Proof. intros []. by split. Qed.

(** What [cmd_gt] prints for [n] fibers. *)
Definition gt_text_out (n : nat) (x y : list Z) : list Z :=
  cstr (lit "running ") ++ x ++ cstr (lit " green threads: ") ++ replicate (n * 5) 46 ++
  cstr (nl_lit "gt done, counter = ") ++ y ++ [10].

Lemma sum_replicate m k : sum_list (replicate m k) = (m * k)%nat.
Proof. induction m as [|m IH]; [done|]. cbn [replicate]. rewrite sum_list_cons, IH. lia. Qed.

Lemma released_nil {H W} (g : green H W) live : released g [] live = live.
Proof.
  unfold released. apply map_filter_id. intros p v _. unfold stacks. cbn. split; apply not_elem_of_nil.
Qed.

Lemma cmd_gt_run (s : K) live : o_threads (o_fibers s) = ∅ → a_inv (heap (o_sched s)) live → console_inv (o_con s) →
  28 ≤ r_esp (regs (o_sched s)) ≤ HEAP_START →
  ∃ n h x y s', (n ≤ 4)%nat ∧ spawns 4 (heap (o_sched s)) = Some (n, h) ∧ itoa (Z.of_nat n) = Some (x ++ [0]) ∧ itoa (Z.of_nat (n * 5)) = Some (y ++ [0]) ∧
    cmd_gt A gt_use s = Some (tt, s') ∧ printed (gt_text_out n x y) (o_con s) (o_con s') ∧
    o_counter (o_fibers s') = Z.of_nat (n * 5) ∧ o_threads (o_fibers s') = ∅ ∧ a_inv (heap (o_sched s')) live ∧
    same_carrier (gview s) (gview s') ∧ green_only s s'.
Proof using Huse Hvar Hcode.
  intros Hth Hh Hcon Hesp. unfold cmd_gt.
  rewrite (zoom_bind os_counter _ _ s tt 0 eq_refl). set (s1 := update os_counter 0 s).
  set (g1 := Green (heap (o_sched s)) ∅ (words (o_sched s), regs (o_sched s)) 0 0 (o_gsched_esp (o_fibers s)) (o_conts (o_fibers s)) (0, o_con s)).
  assert (gt_init (gview s1) = Some (tt, g1)) as E1 by (unfold g1; by rewrite <-Hth).
  rewrite (zoom_bind os_green _ _ s1 _ _ E1). set (s2 := update os_green g1 s1).
  assert (gview s2 = g1) as V2 by apply view_update.
  assert (fibers_ok g1 [] live) as Hok1.
  { split; try done; [constructor|]. intros a. cbn [threads g1]. rewrite lookup_empty. split; [by intros [? ?]|by intros ?%not_elem_of_nil]. }
  destruct (spawn_loop_run 4 0 s2 [] live 0) as (n & s3 & l & live3 & Hn & Esp & E3 & Hok3 & Hq3 & Hrel3 & Hw3 & Hm3 & Hs3); [by rewrite V2|by rewrite V2|].
  rewrite V2 in Hw3, Hm3, Hrel3, Esp. rewrite (M_bind_run _ _ _ _ _ E3), Z.add_0_l.
  assert (console_inv (o_con s3)) as Hc3 by (by injection Hw3 as _ ->).
  destruct (out_run (lit "running ") s3 (lit_cstring _) Hc3) as (c4 & E4 & _ & P4). unfold out_lit. rewrite E4.
  destruct (out_dec_run (Z.of_nat n) (update os_con c4 s3) ltac:(lia) ltac:(apply P4)) as (x & c5 & Ex & E5 & P5). rewrite E5.
  destruct (out_run (lit " green threads: ") (update os_con c5 (update os_con c4 s3)) (lit_cstring _) ltac:(apply P5)) as (c6 & E6 & _ & P6). rewrite E6.
  set (s6 := update os_con c6 _).
  assert (gview s6 = with_world (gview s3) (0, c6)) as V6.
  { unfold s6, with_world. injection Hw3 as Hw _. cbn. by rewrite Hw. }
  destruct (bodies_run gt_use Huse 24 (replicate n 5%nat) 0 c6) as (c7 & Hrr & P7).
  { rewrite fmap_replicate, sum_replicate. lia. }
  { apply P6. }
  { lia. }
  { rewrite sum_replicate. lia. }
  rewrite fmap_replicate, sum_replicate, Z.add_0_l in *.
  destruct (gt_run_run (a_trampoline A) (a_yielded A) (a_gt_back A) (a_sched_esp A) text Hvar Hcode 24 (gview s6) l live3 (Z.of_nat (n * 5), c7))
    as (g7 & E7 & Hw7 & Hc7 & Ht7 & Hr7 & Hi7).
  { rewrite V6. by apply fibers_world. }
  { rewrite V6. unfold carrier_ok. cbn [g_mach with_world]. by rewrite Hm3. }
  { rewrite V6. cbn [g_world with_world]. change (fqueue (with_world (gview s3) (0, c6)) l) with (fqueue (gview s3) l). by rewrite Hq3. }
  rewrite (zoom_bind os_green _ _ s6 _ _ E7). set (s7 := update os_green g7 s6).
  assert (o_con s7 = c7) as Hcon7 by (cbn; by rewrite Hw7).
  destruct (out_run (nl_lit "gt done, counter = ") s7) as (c8 & E8 & _ & P8).
  { split; [right; apply lit_nul|constructor; [done|apply lit_bytes]]. }
  { rewrite Hcon7. apply P7. }
  rewrite E8. set (s8 := update os_con c8 s7).
  assert (zoom os_counter get s8 = Some (Z.of_nat (n * 5), s8)) as E9.
  { unfold zoom, get. cbn. rewrite Hw7. cbn. done. }
  rewrite (M_bind_run _ _ _ _ _ E9).
  destruct (out_dec_run (Z.of_nat (n * 5)) s8 ltac:(lia) ltac:(apply P8)) as (y & c10 & Ey & E10 & P10). rewrite E10.
  destruct (out_run (lit_ln "") (update os_con c10 s8) (lit_ln_cstring _) ltac:(apply P10)) as (c11 & _ & E11 & P11).
  exists n. eexists. exists x, y, (update os_con c11 (update os_con c10 s8)). split; [done|]. split; [exact Esp|]. split_and!; try done.
  - rewrite Hcon7 in P8. injection Hw3 as _ Hw3. rewrite Hw3 in P4. unfold gt_text_out.
    do 6 (eapply printed_app; [eassumption|]). exact P11.
  - cbn. by rewrite Hw7.
  - rewrite <-(released_nil g1 live), <-Hrel3. exact Hi7.
  - unfold same_carrier in *. rewrite V6 in Hc7. cbn [g_mach with_world] in Hc7. rewrite Hm3 in Hc7. exact Hc7.
  - unfold green_only, s8, s7, s6. rewrite Hs3. generalize (gview s3). intros g3. by destruct s as [? ? [] [] ? ? ? ? ? ? ? ? ? ?].
Qed.
End gt.
