(* ===== verification/ShellLine.v ===== *)
(** * What a command line does

    [kdoes] lifts the reasoning of file ShellRun to the whole kernel: nothing
    but the shell's part changes; [kdoes_at] is the same for one state, for the
    commands that print what they read from it.  Then the commands outside file Shell, and the
    dispatch of a line. *)

From S2P Require Import Prelude Pmm Kheap CString Block Bcache Ports Sfs SfsLayout SfsInv SfsFile SfsDir SfsOps SfsTree Devices Serial Screen Keyboard Alloc Cpu Task Elf Paging Segments Interrupts Green Shell ShellRun ShellFs ShellRm ShellSpec ShellPwd ShellWords Os Exec ExecUser ShellMain.

Section line.
Context {HW D : Type} {PW : Ports HW} {PC : PcPorts HW} {AD : AtaDisk D} {AS : AtaDiskSpec D}.
Abbreviation K := (os HW D).
Abbreviation shell_of s := (Prelude.view (os_shell (HW := HW) (D := D)) s).

(** The shell's part of the kernel is in order. *)
Definition os_ok (live : gmap Z Z) (d : disk) (w : Z) (s : K) : Prop := shell_ok live d w (shell_of s).
(** Everything printed so far, as the serial line has it. *)
Definition os_printed (s : K) : list Z := printed_by (shell_of s).
(** Only the shell's part has changed. *)
Definition shell_only (s s' : K) : Prop := s' = update os_shell (shell_of s') s.

Definition kdoes {B} (c : M K B) (live : gmap Z Z) (d : disk) (w : Z) (Q : B → gmap Z Z → disk → Z → list Z → Prop) : Prop :=
  ∀ s, os_ok live d w s → ∃ b s' live' d' w' o, c s = Some (b, s') ∧ os_ok live' d' w' s' ∧
    os_printed s' = os_printed s ++ o ∧ shell_only s s' ∧ Q b live' d' w' o.

Lemma kdoes_file {B} (c : M (shell HW (bcache D) kheap) B) live d w Q : does c live d w Q → kdoes (file_cmd c) live d w Q.
Proof.
  intros Hc s Hs. destruct (Hc _ Hs) as (b & t & live' & d' & w' & o & E & Ht & Hp & HQ).
  exists b, (update os_shell t s), live', d', w', o. split; [by apply zoom_run|]. unfold os_ok, os_printed, shell_only. rewrite view_update. done.
Qed.
Lemma kdoes_ext {B} (c c' : M K B) live d w Q : (∀ s, c s = c' s) → kdoes c' live d w Q → kdoes c live d w Q.
Proof. intros E Hc s Hs. destruct (Hc s Hs) as (b & H). exists b. by rewrite E. Qed.
Lemma kdoes_ret {B} (b : B) live d w (Q : B → gmap Z Z → disk → Z → list Z → Prop) : Q b live d w [] → kdoes (mret b) live d w Q.
Proof.
  intros HQ s Hs. exists b, s, live, d, w, []. rewrite app_nil_r. split_and!; try done. unfold shell_only. by rewrite update_view.
Qed.
Lemma shell_only_trans s1 s2 s3 : shell_only s1 s2 → shell_only s2 s3 → shell_only s1 s3.
Proof. unfold shell_only. intros H12 H23. transitivity (update os_shell (shell_of s3) s2); [exact H23|]. rewrite H12. by rewrite update_update. Qed.
Lemma kdoes_bind {B C} (c : M K B) (k : B → M K C) live d w Q1 Q :
  kdoes c live d w Q1 → (∀ b live' d' w' o, is_dir d' w' → fs_inv d' → Q1 b live' d' w' o → kdoes (k b) live' d' w' (after_text Q o)) →
  kdoes (c ≫= k) live d w Q.
Proof.
  intros Hc Hk s Hs. destruct (Hc s Hs) as (b & s1 & l1 & d1 & w1 & o1 & E1 & Hs1 & P1 & F1 & H1).
  destruct (Hk b l1 d1 w1 o1 (sk_dir _ _ _ _ Hs1) (sk_inv _ _ _ _ Hs1) H1 s1 Hs1) as (x & s2 & l2 & d2 & w2 & o2 & E2 & Hs2 & P2 & F2 & H2).
  exists x, s2, l2, d2, w2, (o1 ++ o2). rewrite (M_bind_run _ _ _ _ _ E1). split; [done|]. split; [done|].
  split; [by rewrite P2, P1, app_assoc|]. split; [by eapply shell_only_trans|done].
Qed.
Lemma kdoes_weaken {B} (c : M K B) live d w (Q Q' : B → gmap Z Z → disk → Z → list Z → Prop) :
  kdoes c live d w Q → (∀ b live' d' w' o, Q b live' d' w' o → Q' b live' d' w' o) → kdoes c live d w Q'.
Proof. intros Hc HQ s Hs. destruct (Hc s Hs) as (b & s' & l' & d' & w' & o & E & Ho & Hp & Hf & H). exists b, s', l', d', w', o. split_and!; auto. Qed.

(** ** Steps *)

Lemma out_file l (s : K) : out l s = file_cmd (print l) s.
Proof. unfold out, file_cmd, print, zoom. cbn. by destruct (kprint l (o_con s)) as [[[] ?]|], s as [? ? [] ? ? ? ? ? ? ? ? ? ? ?]. Qed.
Lemma cache_file {B} (p : prog B) (s : K) : zoom os_cache (run_layer p) s = file_cmd (fs_do p) s.
Proof. unfold file_cmd, fs_do, zoom. cbn. by destruct (run_layer p (o_cache s)) as [[]|], s as [? ? [] ? ? ? ? ? ? ? ? ? ? ?]. Qed.
Lemma con_file {B} (c : M (console HW) B) (s : K) : zoom os_con c s = file_cmd (zoom con_lens c) s.
Proof. unfold file_cmd, zoom. cbn. by destruct (c (o_con s)) as [[]|], s as [? ? [] ? ? ? ? ? ? ? ? ? ? ?]. Qed.
Lemma cwd_file (s : K) : gets o_cwd s = file_cmd (gets cwd) s.
Proof. unfold file_cmd, zoom. cbn. by destruct s as [? ? [] ? ? ? ? ? ? ? ? ? ? ?]. Qed.

(** The rest of a command after something has been printed. *)
Lemma kdoes_says {B} (c : M (console HW) unit) t (k : unit → M K B) live d w Q : says c t →
  kdoes (k tt) live d w (after_text Q t) → kdoes (zoom os_con c ≫= k) live d w Q.
Proof.
  intros Hc Hk. apply kdoes_bind with (Q1 := λ _ l' d' w' o, l' = live ∧ d' = d ∧ w' = w ∧ o = t).
  - eapply kdoes_ext; [apply con_file|]. apply kdoes_file. by eapply does_con.
  - intros [] ? ? ? ? _ _ (-> & -> & -> & ->). exact Hk.
Qed.
Lemma kdoes_out {B} l (k : unit → M K B) live d w Q : cstring l →
  kdoes (k tt) live d w (after_text Q (cstr l)) → kdoes (out l ≫= k) live d w Q.
Proof. intros [H0 Hb]. apply kdoes_says. by apply says_cstr. Qed.
Lemma kdoes_last l live d w (Q : unit → gmap Z Z → disk → Z → list Z → Prop) : cstring l →
  Q tt live d w (cstr l) → kdoes (out l) live d w Q.
Proof.
  intros [H0 Hb] HQ. eapply kdoes_ext; [apply out_file|]. apply kdoes_file. by eapply does_print.
Qed.
Lemma kdoes_dec {B} v (k : unit → M K B) live d w Q : -2147483648 ≤ v < 2147483648 →
  (∀ x, itoa v = Some (x ++ [0]) → kdoes (k tt) live d w (after_text Q x)) → kdoes (out_dec v ≫= k) live d w Q.
Proof.
  intros Hv Hk. destruct (itoa_text v Hv) as (x & E & _). eapply kdoes_says; [by apply says_dec|]. by apply Hk.
Qed.
Lemma kdoes_cwd {B} (k : Z → M K B) live d w Q : kdoes (k w) live d w Q → kdoes (gets o_cwd ≫= k) live d w Q.
Proof.
  intros Hk s Hs. rewrite bind_gets. change (o_cwd s) with (cwd (shell_of s)). rewrite (sk_cwd _ _ _ _ Hs). by apply Hk.
Qed.
Lemma kdoes_disk {B C} (p : prog B) b (k : B → M K C) live d d' w Q : run_disk p d = Some (b, d') → fs_inv d' → is_dir d' w →
  kdoes (k b) live d' w Q → kdoes (zoom os_cache (run_layer p) ≫= k) live d w Q.
Proof.
  intros Hr Hi Hd Hk. apply kdoes_bind with (Q1 := λ b' l' d2 w' o, b' = b ∧ l' = live ∧ d2 = d' ∧ w' = w ∧ o = []).
  - eapply kdoes_ext; [apply cache_file|]. apply kdoes_file. by eapply does_disk.
  - intros ? ? ? ? ? _ _ (-> & -> & -> & -> & ->). exact Hk.
Qed.
(** Reading a variable. *)
Lemma kdoes_read {B C} (c : M K B) (k : B → M K C) live d w Q :
  (∀ s, os_ok live d w s → ∃ v, c s = Some (v, s) ∧ kdoes (k v) live d w Q) → kdoes (c ≫= k) live d w Q.
Proof. intros Hk s Hs. destruct (Hk s Hs) as (v & E & H). rewrite (M_bind_run _ _ _ _ _ E). by apply H. Qed.

Lemma kdoes_lift {B C} (o : option B) b (k : B → M K C) live d w Q : o = Some b → kdoes (k b) live d w Q → kdoes (lift o ≫= k) live d w Q.
Proof. intros -> Hk s Hs. destruct (Hk s Hs) as (c & s' & H'). by exists c, s'. Qed.

(** ** The commands outside file Shell *)

Definition help_text : list Z := help_lines ≫= λ s, cstr (lit_ln s).

Lemma out_lines_does l live d w : kdoes (out_lines l) live d w (leaves live (λ d' w' o, d' = d ∧ w' = w ∧ o = l ≫= λ s, cstr (lit_ln s))).
Proof.
  induction l as [|x l IH]; cbn [out_lines]; [by apply kdoes_ret; ends|].
  apply kdoes_out; [apply lit_ln_cstring|]. eapply kdoes_weaken; [exact IH|]. intros [] l' d' w' o (-> & -> & -> & ->). ends.
Qed.

Lemma clear_says : says (clear_screen (HW := HW)) [].
Proof.
  intros [h s] (Hs & Hr & Hc). destruct (clear_screen_run h s) as (t' & E & Hi & _ & Hd); [by left|done|].
  exists tt, t'. split; [done|]. split; [done|]. by rewrite Hd, app_nil_r.
Qed.

Lemma mkdir_cases d w name ty : fs_inv d → is_dir d w → cstring name → ty = SFS_FILE ∨ ty = SFS_DIR →
  ∃ r d', run_disk (sfs_create w name ty) d = Some (r, d') ∧ fs_inv d' ∧ is_dir d' w.
Proof.
  intros Hinv [Hw Hwt] [H0 Hb] Hty. destruct (sfs_create_full d w name ty Hinv Hw Hwt H0 Hb Hty) as [[E _]|(ino & d' & E & Hinv' & _ & Hcr & _)].
  - by exists (-1), d.
  - exists ino, d'. split; [done|]. split; [done|]. split; [done|]. apply Hcr.
Qed.

(** What creating the object [a] of kind [ty] leaves and prints. *)
Definition makes (ty : Z) (none failed : string) (a : option (list Z)) (d : disk) (w : Z) (d' : disk) (o : list Z) : Prop :=
  match a with
  | None => d' = d ∧ o = cstr (lit_ln none)
  | Some nm => ∃ r, run_disk (sfs_create w nm ty) d = Some (r, d') ∧ o = if r <? 0 then cstr (lit_ln failed) else []
  end.
(** What removing leaves and prints. *)
Definition removes (a a2 : option (list Z)) (d : disk) (w : Z) (d' : disk) (o : list Z) : Prop :=
  match a with
  | None => d' = d ∧ o = cstr (lit_ln "rm: need a name")
  | Some nm =>
      if decide (cstr nm = cstr (lit "-r")) then
        match a2 with
        | None => d' = d ∧ o = cstr (lit_ln "rm: -r needs a name")
        | Some nm2 => ∃ r, run_disk (rm_rec RM_DEPTH w nm2) d = Some (r, d') ∧ o = if r <? 0 then cstr (lit_ln "rm: failed") else []
        end
      else ∃ r, run_disk (sfs_unlink w nm) d = Some (r, d') ∧
             o = if r <? 0 then cstr (lit_ln "rm: failed (missing or non-empty dir)") else []
  end.
(** No dot directory is removed with its contents. *)
Definition ordinary_rm (a a2 : option (list Z)) : Prop :=
  ∀ nm nm2, a = Some nm → a2 = Some nm2 → cstr nm = cstr (lit "-r") → cstr nm2 ≠ dot ∧ cstr nm2 ≠ dotdot.

Lemma cmd_mkdir_does a live d w : is_arg a → fs_inv d → is_dir d w →
  kdoes (cmd_mkdir a) live d w (leaves live (λ d' w' o, w' = w ∧ makes SFS_DIR "mkdir: need a name" "mkdir: failed" a d w d' o)).
Proof.
  intros Ha Hinv Hdir. unfold cmd_mkdir, makes. destruct a as [nm|]; [|apply kdoes_last; [apply lit_ln_cstring|ends]].
  apply kdoes_cwd. destruct (mkdir_cases d w nm SFS_DIR Hinv Hdir Ha) as (r & d' & E & Hi & Hd); [by right|].
  eapply kdoes_disk; [exact E|done|done|]. destruct (r <? 0) eqn:Er.
  - apply kdoes_last; [apply lit_ln_cstring|]. ends. exists r. by rewrite Er.
  - apply kdoes_ret. ends. exists r. by rewrite Er.
Qed.

Lemma cmd_touch_does a live d w : is_arg a → fs_inv d → is_dir d w →
  kdoes (cmd_touch a) live d w (leaves live (λ d' w' o, w' = w ∧
    match a with
    | Some nm => if 0 <=? lookup_at d w (cstr nm) then d' = d ∧ o = [] else makes SFS_FILE "" "touch: failed" a d w d' o
    | None => d' = d ∧ o = cstr (lit_ln "touch: need a name")
    end)).
Proof.
  intros Ha Hinv Hdir. unfold cmd_touch. destruct a as [nm|]; [|apply kdoes_last; [apply lit_ln_cstring|ends]].
  apply kdoes_cwd. eapply kdoes_disk; [apply sfs_lookup_run; [apply Hinv|apply Hdir|apply Ha]|done|done|].
  destruct (Z.ltb_spec (lookup_at d w (cstr nm)) 0) as [Hl|Hl]; cbn [negb].
  - rewrite (proj2 (Z.leb_gt _ _)) by done.
    destruct (mkdir_cases d w nm SFS_FILE Hinv Hdir Ha) as (r & d' & E & Hi & Hd); [by left|].
    eapply kdoes_disk; [exact E|done|done|]. unfold makes. destruct (r <? 0) eqn:Er.
    + apply kdoes_last; [apply lit_ln_cstring|]. ends. exists r. by rewrite Er.
    + apply kdoes_ret. ends. exists r. by rewrite Er.
  - rewrite (proj2 (Z.leb_le _ _)) by done. apply kdoes_ret. ends.
Qed.

Lemma cmd_rm_does a a2 live d w : is_arg a → is_arg a2 → fs_inv d → is_dir d w → ordinary_rm a a2 →
  kdoes (cmd_rm a a2) live d w (leaves live (λ d' w' o, w' = w ∧ removes a a2 d w d' o)).
Proof.
  intros Ha Ha2 Hinv Hdir Hord. unfold cmd_rm, removes. destruct a as [nm|]; [|apply kdoes_last; [apply lit_ln_cstring|ends]].
  eapply kdoes_lift; [apply is_lit_spec, Ha|]. case_decide as Er; [rewrite (bool_decide_eq_true_2 _ Er)|rewrite (bool_decide_eq_false_2 _ Er)].
  - destruct a2 as [nm2|]; [|apply kdoes_last; [apply lit_ln_cstring|ends]]. apply kdoes_cwd.
    destruct (rm_rec_run d w nm2 Hinv Hdir (proj1 Ha2)) as (r & d' & E & Hi & Hc). destruct (Hord nm nm2 eq_refl eq_refl Er) as [H1 H2].
    assert (is_dir d' w) as Hd.
    { destruct Hc as [(_ & _ & ->)|[(_ & _ & _ & _ & [Hf _])|(_ & _ & [?|?] & _)]]; [done| |done..].
      split; [apply Hdir|]. rewrite (fr_node _ _ _ _ Hf). apply Hdir. }
    eapply kdoes_disk; [exact E|done|done|]. destruct (r <? 0) eqn:Ez.
    + apply kdoes_last; [apply lit_ln_cstring|]. ends. exists r. by rewrite Ez.
    + apply kdoes_ret. ends. exists r. by rewrite Ez.
  - apply kdoes_cwd. destruct (unlink_keeps d w nm Hinv Hdir (proj1 Ha)) as (r & d' & E & Hi & Hd).
    eapply kdoes_disk; [exact E|done|done|]. destruct (r <? 0) eqn:Ez.
    + apply kdoes_last; [apply lit_ln_cstring|]. ends. exists r. by rewrite Ez.
    + apply kdoes_ret. ends. exists r. by rewrite Ez.
Qed.

(** Reading the kernel's counters. *)
Lemma i32_range v : -2147483648 ≤ i32_of v < 2147483648.
Proof. unfold i32_of. pose proof (Z.mod_pos_bound (v + 2147483648) 4294967296 ltac:(lia)). lia. Qed.

(** *** Commands that read the state: from a given state *)

Definition kdoes_at {B} (s : K) (c : M K B) (live : gmap Z Z) (d : disk) (w : Z) (Q : B → gmap Z Z → disk → Z → list Z → Prop) : Prop :=
  os_ok live d w s → ∃ b s' live' d' w' o, c s = Some (b, s') ∧ os_ok live' d' w' s' ∧
    os_printed s' = os_printed s ++ o ∧ shell_only s s' ∧ Q b live' d' w' o.

Lemma kat_any {B} (s : K) (c : M K B) live d w Q : kdoes c live d w Q → kdoes_at s c live d w Q.
Proof. intros Hc. exact (Hc s). Qed.
Lemma kat_file {B} (s : K) (c : M (shell HW (bcache D) kheap) B) live d w Q :
  does_on (heap (o_sched s)) c live d w Q → kdoes_at s (file_cmd c) live d w Q.
Proof.
  intros Hc Hs. destruct (Hc _ Hs eq_refl) as (b & t & live' & d' & w' & o & E & Ht & Hp & HQ).
  exists b, (update os_shell t s), live', d', w', o. split; [by apply zoom_run|]. unfold os_ok, os_printed, shell_only. rewrite view_update. done.
Qed.
Lemma kat_bind {B C} (s : K) (c : M K B) (k : B → M K C) live d w Q1 Q : kdoes_at s c live d w Q1 →
  (∀ b live' d' w' o, is_dir d' w' → fs_inv d' → Q1 b live' d' w' o → kdoes (k b) live' d' w' (after_text Q o)) →
  kdoes_at s (c ≫= k) live d w Q.
Proof.
  intros Hc Hk Hs. destruct (Hc Hs) as (b & s1 & l1 & d1 & w1 & o1 & E1 & Hs1 & P1 & F1 & H1).
  destruct (Hk b l1 d1 w1 o1 (sk_dir _ _ _ _ Hs1) (sk_inv _ _ _ _ Hs1) H1 s1 Hs1) as (x & s2 & l2 & d2 & w2 & o2 & E2 & Hs2 & P2 & F2 & H2).
  exists x, s2, l2, d2, w2, (o1 ++ o2). rewrite (M_bind_run _ _ _ _ _ E1). split; [done|]. split; [done|].
  split; [by rewrite P2, P1, app_assoc|]. split; [by eapply shell_only_trans|done].
Qed.
(** One step, to a state that is known. *)
Lemma kat_step {B C} (s s1 : K) (c : M K B) (k : B → M K C) b live live1 d w t Q : c s = Some (b, s1) →
  (os_ok live d w s → os_ok live1 d w s1 ∧ os_printed s1 = os_printed s ++ t ∧ shell_only s s1) →
  kdoes_at s1 (k b) live1 d w (after_text Q t) → kdoes_at s (c ≫= k) live d w Q.
Proof.
  intros E Hstep Hk Hs. destruct (Hstep Hs) as (Hs1 & P1 & F1). destruct (Hk Hs1) as (x & s2 & l2 & d2 & w2 & o2 & E2 & Hs2 & P2 & F2 & H2).
  exists x, s2, l2, d2, w2, (t ++ o2). rewrite (M_bind_run _ _ _ _ _ E). split; [done|]. split; [done|].
  split; [by rewrite P2, P1, app_assoc|]. split; [by eapply shell_only_trans|done].
Qed.
Lemma kat_says {B} (s : K) (c : M (console HW) unit) t (k : unit → M K B) live d w Q : says c t →
  (∀ x, kdoes_at (update os_con x s) (k tt) live d w (after_text Q t)) → kdoes_at s (zoom os_con c ≫= k) live d w Q.
Proof.
  intros Hc Hk Hs. destruct (Hc (o_con s) (sk_con _ _ _ _ Hs)) as ([] & x & E & Hx & P).
  refine (kat_step s (update os_con x s) _ k tt live live d w t Q (zoom_run os_con _ s _ _ E) _ (Hk x) Hs).
  intros [Hc0 ? ? ? ? ?]. split; [by split|]. split; [exact P|]. by destruct s as [? ? [] ? ? ? ? ? ? ? ? ? ? ?].
Qed.
Lemma kat_out {B} (s : K) l (k : unit → M K B) live d w Q : cstring l →
  (∀ x, kdoes_at (update os_con x s) (k tt) live d w (after_text Q (cstr l))) → kdoes_at s (out l ≫= k) live d w Q.
Proof. intros [H0 Hb]. apply kat_says. by apply says_cstr. Qed.
(** The digits of a number. *)
Definition numeral (v : Z) : list Z := cstr (default [0] (itoa v)).
Lemma numeral_itoa v : -2147483648 ≤ v < 2147483648 → itoa v = Some (numeral v ++ [0]).
Proof.
  intros Hv. destruct (itoa_text v Hv) as (x & E & Hx). unfold numeral. rewrite E. cbn [default]. change (Datatypes.id (x ++ [0])) with (x ++ [0]).
  rewrite cstr_nul; [done|]. eapply Forall_impl; [exact Hx|]. simpl. lia.
Qed.
Lemma kat_dec {B} (s : K) v (k : unit → M K B) live d w Q :
  (∀ x, kdoes_at (update os_con x s) (k tt) live d w (after_text Q (numeral (i32_of v)))) → kdoes_at s (out_dec (i32_of v) ≫= k) live d w Q.
Proof. intros Hk. eapply kat_says; [|exact Hk]. apply says_dec; [apply i32_range|]. apply numeral_itoa, i32_range. Qed.
Lemma kat_read {B C} (s : K) (c : M K B) v (k : B → M K C) live d w Q : c s = Some (v, s) → kdoes_at s (k v) live d w Q → kdoes_at s (c ≫= k) live d w Q.
Proof. intros E Hk Hs. destruct (Hk Hs) as (x & H). exists x. by rewrite (M_bind_run _ _ _ _ _ E). Qed.

(** What a reading shows. *)
Definition shown_by {T} (c : M T Z) (x : T) : Z := default 0 (fst <$> c x).

Definition uptime_text (ticks : Z) : list Z :=
  numeral (i32_of (ticks / 100)) ++ cstr (lit " s (") ++ numeral (i32_of ticks) ++ cstr (lit_ln " ticks)").

Lemma cmd_uptime_does (s : K) live d w : kdoes_at s cmd_uptime live d w (leaves live (λ d' w' o, d' = d ∧ w' = w ∧ o = uptime_text (o_ticks s))).
Proof.
  unfold cmd_uptime, out_lit, out_ln. eapply kat_read; [by destruct s|]. apply kat_dec. intros x1.
  apply kat_out; [apply lit_cstring|]. intros x2. eapply kat_read; [by destruct s|]. apply kat_dec. intros x3.
  apply kat_any, kdoes_last; [apply lit_ln_cstring|]. ends.
Qed.

Definition meminfo_text (p : pmm) (h : kheap) (c : bcache D) : list Z :=
  cstr (lit "frames: ") ++ numeral (i32_of (shown_by pmm_used_frames p)) ++ cstr (lit " / ") ++
  numeral (i32_of (shown_by pmm_total_frames p)) ++ cstr (lit "   heap: ") ++ numeral (i32_of (shown_by kheap_used h)) ++ cstr (lit "B used, ") ++
  numeral (i32_of (shown_by kheap_free h)) ++ cstr (lit_ln "B free") ++
  cstr (lit "cache:  ") ++ numeral (i32_of (shown_by bcache_hits c)) ++ cstr (lit " hits / ") ++
  numeral (i32_of (shown_by bcache_misses c)) ++ cstr (lit_ln " miss").

(** Reading the sizes of the heap. *)
Lemma heap_reads (s : K) live d w : os_ok live d w s →
  zoom os_heap kheap_used s = Some (shown_by kheap_used (heap (o_sched s)), s) ∧
  zoom os_heap kheap_free s = Some (shown_by kheap_free (heap (o_sched s)), s).
Proof.
  intros Hs. destruct (sk_heap _ _ _ _ Hs) as (segs & Hok & _). cbn [sheap Prelude.view os_shell] in Hok.
  destruct (kheap_sum_run _ segs Hok) as [Hu Hf]. cbn [fst] in Hu, Hf. unfold shown_by. rewrite Hu, Hf. cbn [fmap option_fmap option_map fst default].
  split; [rewrite (zoom_run os_heap _ s _ _ Hu)|rewrite (zoom_run os_heap _ s _ _ Hf)]; by destruct s as [? ? [] ? ? ? ? ? ? ? ? ? ? ?].
Qed.
Lemma kat_heap_read {C} (s : K) (want : bool) (k : Z → M K C) live d w Q :
  kdoes_at s (k (shown_by (if want then kheap_free else kheap_used) (heap (o_sched s)))) live d w Q →
  kdoes_at s (zoom os_heap (if want then kheap_free else kheap_used) ≫= k) live d w Q.
Proof. intros Hk Hs. destruct (heap_reads s live d w Hs) as [Eu Ef]. destruct want; [exact (kat_read s _ _ k live d w Q Ef Hk Hs)|exact (kat_read s _ _ k live d w Q Eu Hk Hs)]. Qed.

Lemma cmd_meminfo_does (s : K) live d w :
  kdoes_at s cmd_meminfo live d w (leaves live (λ d' w' o, d' = d ∧ w' = w ∧ o = meminfo_text (o_pmm s) (heap (o_sched s)) (o_cache s))).
Proof.
  unfold cmd_meminfo, out_lit, out_ln.
  apply kat_out; [apply lit_cstring|]. intros x1. eapply kat_read; [by destruct s|]. apply kat_dec. intros x2.
  apply kat_out; [apply lit_cstring|]. intros x3. eapply kat_read; [by destruct s|]. apply kat_dec. intros x4.
  apply kat_out; [apply lit_cstring|]. intros x5. apply (kat_heap_read _ false). apply kat_dec. intros x6.
  apply kat_out; [apply lit_cstring|]. intros x7. apply (kat_heap_read _ true). apply kat_dec. intros x8.
  apply kat_out; [apply lit_ln_cstring|]. intros x9. apply kat_out; [apply lit_cstring|]. intros x10.
  eapply kat_read; [by destruct s|]. apply kat_dec. intros x11.
  apply kat_out; [apply lit_cstring|]. intros x12. eapply kat_read; [by destruct s|]. apply kat_dec. intros x13.
  apply kat_any, kdoes_last; [apply lit_ln_cstring|]. split; [done|]. split; [done|]. split; [done|]. reflexivity.
Qed.

(** *** stress *)

(** The requests of [stress], on the heap alone: how many were served, and what is
    in use after all blocks have been freed. *)
Fixpoint stress_blocks (k : nat) (p : list Z) (ok : Z) : M kheap (list Z * Z) :=
  match k with
  | O => mret (p, ok)
  | S k' => q ← kmalloc 512; stress_blocks k' (p ++ [q]) (if truth q then ok + 1 else ok)
  end.
Fixpoint stress_release (p : list Z) : M kheap unit :=
  match p with [] => mret tt | q :: p' => _ ← kfree q; stress_release p' end.
Definition stress_heap : M kheap (Z * Z) :=
  r ← stress_blocks 128 [] 0; _ ← stress_release r.1; v ← kheap_used; mret (r.2, v).
Definition stress_text (h : kheap) : list Z :=
  match stress_heap h with
  | Some ((ok, v), _) =>
      cstr (lit "allocating 128 blocks... ") ++ numeral ok ++ cstr (lit " ok, freeing... ") ++
      cstr (lit "heap used now ") ++ numeral (i32_of v) ++ cstr (lit_ln "B")
  | None => []
  end.

(** [live] is [live0] and the blocks of [p]; a failed allocation left 0. *)
Inductive held (live0 : gmap Z Z) : list Z → gmap Z Z → Prop :=
| held_nil : held live0 [] live0
| held_zero p live : held live0 p live → held live0 (0 :: p) live
| held_cons q p live : q ≠ 0 → live !! q = None → held live0 p live → held live0 (q :: p) (<[q := 512]> live).

Lemma held_snoc_zero live0 p live : held live0 p live → held live0 (p ++ [0]) live.
Proof. induction 1; cbn; by repeat constructor. Qed.
Lemma held_snoc live0 p live q : held live0 p live → q ≠ 0 → live !! q = None → held live0 (p ++ [q]) (<[q := 512]> live).
Proof.
  induction 1 as [|p live _ IH|r p live Hr Hf _ IH]; intros Hq Hn; cbn [app].
  - constructor; [done|done|constructor].
  - constructor. by apply IH.
  - apply lookup_insert_None in Hn as [Hn Hne]. rewrite insert_insert_ne by done. constructor; [done| |by apply IH].
    by rewrite lookup_insert_ne.
Qed.

Lemma stress_blocks_run k p ok h live0 live : held live0 p live → a_inv h live → 0 ≤ ok →
  ∃ p' ok' h' live', stress_blocks k p ok h = Some ((p', ok'), h') ∧ held live0 p' live' ∧ a_inv h' live' ∧ 0 ≤ ok' ≤ ok + Z.of_nat k.
Proof.
  revert p ok h live. induction k as [|k IH]; intros p ok h live Hh Hi Hok; cbn [stress_blocks].
  { exists p, ok, h, live. split; [done|]. split; [done|]. split; [done|]. lia. }
  destruct (a_malloc_spec h live 512 Hi ltac:(lia)) as (q & h1 & E & Hq). change (kmalloc 512 h = Some (q, h1)) in E.
  rewrite (M_bind_run _ _ _ _ _ E). destruct Hq as [[-> ->]|(Hq & _ & Hf & _ & Hi1)].
  - change (truth 0) with false. destruct (IH (p ++ [0]) ok h live) as (p' & ok' & h' & live' & E' & ? & ? & ?); [by apply held_snoc_zero|done|done|].
    exists p', ok', h', live'. split; [done|]. split; [done|]. split; [done|]. lia.
  - assert (q ≠ 0) as Hq0 by (unfold HEAP_START in *; lia). rewrite (proj2 (truth_true q) Hq0).
    destruct (IH (p ++ [q]) (ok + 1) h1 (<[q := 512]> live)) as (p' & ok' & h' & live' & E' & ? & ? & ?); [by apply held_snoc|done|lia|].
    exists p', ok', h', live'. split; [done|]. split; [done|]. split; [done|]. lia.
Qed.
Lemma stress_release_run p h live0 live : held live0 p live → a_inv h live → ∃ h', stress_release p h = Some (tt, h') ∧ a_inv h' live0.
Proof.
  intros Hh. revert h. induction Hh as [|p live Hh IH|q p live Hq Hf Hh IH]; intros h Hi; cbn [stress_release].
  - by exists h.
  - assert (kfree 0 h = Some (tt, h)) as E by done. rewrite (M_bind_run _ _ _ _ _ E). by apply IH.
  - destruct (a_free_spec h _ q 512 Hi (lookup_insert_eq _ _ _)) as (h1 & E & Hi1). change (kfree q h = Some (tt, h1)) in E.
    rewrite (M_bind_run _ _ _ _ _ E). rewrite delete_insert_id in Hi1 by done. by apply IH.
Qed.

(** The shell's loops are those on the heap. *)
Lemma with_heap_twice h h' (s : K) : update os_heap h' (update os_heap h s) = update os_heap h' s.
Proof. by destruct s. Qed.
Lemma stress_alloc_heap k p ok (s : K) : stress_alloc k p ok s = zoom os_heap (stress_blocks k p ok) s.
Proof.
  revert p ok s. induction k as [|k IH]; intros p ok s; cbn [stress_alloc stress_blocks].
  { unfold zoom. cbn. by destruct s as [? ? [] ? ? ? ? ? ? ? ? ? ? ?]. }
  unfold zoom at 2, mbind at 2, M_bind at 2. cbn [Prelude.view os_heap]. unfold mbind at 1, M_bind at 1, zoom at 1. cbn [Prelude.view os_heap].
  destruct (kmalloc 512 (heap (o_sched s))) as [[q h1]|]; [|done]. rewrite IH. unfold zoom. cbn [Prelude.view os_heap].
  change (heap (o_sched (update os_heap h1 s))) with h1. destruct (stress_blocks k _ _ h1) as [[]|]; [|done]. by rewrite with_heap_twice.
Qed.
Lemma stress_free_heap p (s : K) : stress_free p s = zoom os_heap (stress_release p) s.
Proof.
  revert s. induction p as [|q p IH]; intros s; cbn [stress_free stress_release].
  { unfold zoom. cbn. by destruct s as [? ? [] ? ? ? ? ? ? ? ? ? ? ?]. }
  unfold zoom at 2, mbind at 2, M_bind at 2. cbn [Prelude.view os_heap]. unfold mbind at 1, M_bind at 1, zoom at 1. cbn [Prelude.view os_heap].
  destruct (kfree q (heap (o_sched s))) as [[[] h1]|]; [|done]. rewrite IH. unfold zoom. cbn [Prelude.view os_heap].
  change (heap (o_sched (update os_heap h1 s))) with h1. destruct (stress_release p h1) as [[]|]; [|done]. by rewrite with_heap_twice.
Qed.
Lemma kat_heap {B C} (s : K) (c : M K B) (m : M kheap B) b h1 (k : B → M K C) live live1 d w Q : c s = zoom os_heap m s →
  m (heap (o_sched s)) = Some (b, h1) → a_inv h1 live1 → kdoes_at (update os_heap h1 s) (k b) live1 d w Q → kdoes_at s (c ≫= k) live d w Q.
Proof.
  intros Ec E Hi Hk. refine (kat_step s (update os_heap h1 s) c k b live live1 d w [] Q _ _ Hk).
  - rewrite Ec. exact (zoom_run os_heap m s b h1 E).
  - intros [? ? ? _ ? ?]. split; [by split|]. split; [by rewrite app_nil_r|]. by destruct s as [? ? [] ? ? ? ? ? ? ? ? ? ? ?].
Qed.

Lemma cmd_stress_does (s : K) live d w : kdoes_at s cmd_stress live d w (leaves live (λ d' w' o, d' = d ∧ w' = w ∧ o = stress_text (heap (o_sched s)))).
Proof.
  intros Hs. set (h := heap (o_sched s)). pose proof (sk_heap _ _ _ _ Hs) as Hi. cbn [sheap Prelude.view os_shell] in Hi.
  destruct (stress_blocks_run 128 [] 0 h live live) as (p & ok & h1 & live1 & E1 & Hh & Hi1 & Hok); [constructor|exact Hi|lia|].
  destruct (stress_release_run p h1 live live1 Hh Hi1) as (h2 & E2 & Hi2).
  assert (∃ v, kheap_used h2 = Some (v, h2)) as [v E3].
  { destruct Hi2 as (segs & Hok2 & _). eexists. exact (proj1 (kheap_sum_run h2 segs Hok2)). }
  assert (stress_heap h = Some ((ok, v), h2)) as E.
  { unfold stress_heap. rewrite (M_bind_run _ _ _ _ _ E1). cbn [fst snd]. by rewrite (M_bind_run _ _ _ _ _ E2), (M_bind_run _ _ _ _ _ E3). }
  revert Hs. unfold cmd_stress, out_lit, out_ln, stress_text. rewrite E.
  apply kat_out; [apply lit_cstring|]. intros x1.
  refine (kat_heap _ _ (stress_blocks 128 [] 0) (p, ok) h1 _ _ live1 _ _ _ _ _ _ _); [apply stress_alloc_heap|exact E1|exact Hi1|]. cbn [fst snd].
  assert (i32_of ok = ok) as Hk by (unfold i32_of; rewrite Z.mod_small; lia). rewrite <-Hk. apply kat_dec. intros x2. rewrite Hk.
  apply kat_out; [apply lit_cstring|]. intros x3.
  refine (kat_heap _ _ (stress_release p) tt h2 _ _ live _ _ _ _ _ _ _); [apply stress_free_heap|exact E2|exact Hi2|].
  apply kat_out; [apply lit_cstring|]. intros x4.
  match goal with |- kdoes_at ?s1 _ _ _ _ _ => refine (kat_read s1 _ v _ _ _ _ _ (eq_trans (zoom_run os_heap kheap_used s1 v h2 E3) _) _) end.
  { by destruct s as [? ? [] ? ? ? ? ? ? ? ? ? ? ?]. }
  apply kat_dec. intros x5. apply kat_any, kdoes_last; [apply lit_ln_cstring|]. ends.
Qed.

(** *** Missing arguments *)

Lemma cmd_cp_usage a b live d w : is_arg a → a = None ∨ b = None →
  does (HW := HW) (L := bcache D) (H := kheap) (cmd_cp a b) live d w (leaves live (λ d' w' o, d' = d ∧ w' = w ∧ o = cstr (lit_ln "cp: usage: cp <src> <dst>"))).
Proof.
  intros Ha Hn. unfold cmd_cp. apply given_does; [done|]. destruct (text_of a) as [p|] eqn:Ep; [|apply does_ret_bind, does_say_ln; ends].
  destruct Hn as [->| ->]; [done|]. apply given_does; [done|]. cbn [text_of]. apply does_say_ln. ends.
Qed.
Lemma cmd_mv_usage a b live d w : is_arg a → a = None ∨ b = None →
  does (HW := HW) (L := bcache D) (H := kheap) (cmd_mv a b) live d w (leaves live (λ d' w' o, d' = d ∧ w' = w ∧ o = cstr (lit_ln "mv: usage: mv <src> <dst>"))).
Proof.
  intros Ha Hn. unfold cmd_mv. apply given_does; [done|]. destruct (text_of a) as [p|] eqn:Ep; [|apply does_ret_bind, does_say_ln; ends].
  destruct Hn as [->| ->]; [done|]. apply given_does; [done|]. cbn [text_of]. apply does_say_ln. ends.
Qed.
End line.

(** ** The specification of a command *)

Definition named (cmd : list Z) (s : string) : Prop := cstr cmd = cstr (lit s).
#[export] Instance named_dec cmd s : Decision (named cmd s).
Proof. unfold named. apply _. Defined.

(** Commands that leave the shell's part of the kernel. *)
Definition beyond : list string := ["ps"; "spawn"; "exec"; "gt"]%string.
Definition known : list string :=
  ["help"; "clear"; "pwd"; "ls"; "cd"; "mkdir"; "touch"; "cat"; "echo"; "cp"; "mv"; "rm"; "stress"; "meminfo"; "uptime"]%string.

(** [command s cmd args d w d' w' o]: in the state [s] the disk and the directory
    go from [d] and [w] to [d'] and [w'], and [o] is printed.  Of [s], the heap
    decides whether a request for memory is served, and [stress], [meminfo] and
    [uptime] show what they read there. *)
Section command.
Context {HW D : Type} (s : os HW D).
Abbreviation mem := (serves (heap (o_sched s))).

Inductive command (cmd : list Z) (args : list (list Z)) (d : disk) (w : Z) : disk → Z → list Z → Prop :=
| did_help : named cmd "help" → command cmd args d w d w help_text
| did_clear : named cmd "clear" → command cmd args d w d w []
| did_pwd : named cmd "pwd" → command cmd args d w d w (cwd_text d w ++ [10])
| did_ls : named cmd "ls" → command cmd args d w d w (ls_text d w (args !! 0%nat))
| did_cd w' : named cmd "cd" →
    w' = match text_of (args !! 0%nat) with
         | None => SFS_ROOT
         | Some p => let r := walk d (start_of w p) (components (cstr p)) in
             if (0 <=? r) && (type (inode_at d r) =? SFS_DIR) then r else w
         end → command cmd args d w d w' (cd_text d w (args !! 0%nat))
| did_mkdir d' o : named cmd "mkdir" → makes SFS_DIR "mkdir: need a name" "mkdir: failed" (args !! 0%nat) d w d' o →
    command cmd args d w d' w o
| did_touch d' o : named cmd "touch" →
    match args !! 0%nat with
    | Some nm => if 0 <=? lookup_at d w (cstr nm) then d' = d ∧ o = [] else makes SFS_FILE "" "touch: failed" (args !! 0%nat) d w d' o
    | None => d' = d ∧ o = cstr (lit_ln "touch: need a name")
    end → command cmd args d w d' w o
| did_cat : named cmd "cat" → command cmd args d w d w (cat_text mem d w (args !! 0%nat))
| did_echo d' o : named cmd "echo" → echoes mem d w args d' o → command cmd args d w d' w o
| did_cp src dst d' o : named cmd "cp" → args !! 0%nat = Some src → args !! 1%nat = Some dst → copied mem d w src dst d' o →
    command cmd args d w d' w o
| did_no_cp : named cmd "cp" → args !! 1%nat = None → command cmd args d w d w (cstr (lit_ln "cp: usage: cp <src> <dst>"))
| did_mv src dst d' o : named cmd "mv" → args !! 0%nat = Some src → args !! 1%nat = Some dst → moved mem d w src dst d' o →
    command cmd args d w d' w o
| did_no_mv : named cmd "mv" → args !! 1%nat = None → command cmd args d w d w (cstr (lit_ln "mv: usage: mv <src> <dst>"))
| did_rm d' o : named cmd "rm" → removes (args !! 0%nat) (args !! 1%nat) d w d' o → command cmd args d w d' w o
| did_stress : named cmd "stress" → command cmd args d w d w (stress_text (heap (o_sched s)))
| did_meminfo : named cmd "meminfo" → command cmd args d w d w (meminfo_text (o_pmm s) (heap (o_sched s)) (o_cache s))
| did_uptime : named cmd "uptime" → command cmd args d w d w (uptime_text (o_ticks s))
| did_nothing : Forall (λ s, ¬ named cmd s) known →
    command cmd args d w d w (cstr (lit "unknown command: ") ++ cstr cmd ++ cstr (lit_ln "  (try 'help')")).

(** What a line does: nothing when there is no word on it. *)
Definition line_does (ws : list (list Z)) (d : disk) (w : Z) (d' : disk) (w' : Z) (o : list Z) : Prop :=
  match ws with [] => d' = d ∧ w' = w ∧ o = [] | cmd :: args => command cmd args d w d' w' o end.
End command.

(** Nothing else of the state plays a part in it. *)
Lemma command_same {HW D} (s s2 : os HW D) cmd args d w d' w' o : heap (o_sched s) = heap (o_sched s2) → o_pmm s = o_pmm s2 →
  o_cache s = o_cache s2 → o_ticks s = o_ticks s2 → command s cmd args d w d' w' o → command s2 cmd args d w d' w' o.
Proof.
  intros Eh Ep Ec Et H. destruct H; rewrite ?Eh, ?Ep, ?Ec, ?Et in *;
    [eapply did_help|eapply did_clear|eapply did_pwd|eapply did_ls|eapply did_cd|eapply did_mkdir|eapply did_touch|eapply did_cat|eapply did_echo
    |eapply did_cp|eapply did_no_cp|eapply did_mv|eapply did_no_mv|eapply did_rm|eapply did_stress|eapply did_meminfo|eapply did_uptime|eapply did_nothing]; eassumption.
Qed.
Lemma line_does_con {HW D} c (s : os HW D) ws d w d' w' o : line_does (update os_con c s) ws d w d' w' o → line_does s ws d w d' w' o.
Proof. destruct ws as [|cmd args]; [done|]. by apply command_same. Qed.

Section dispatch.
Context {HW D : Type} {PW : Ports HW} {PC : PcPorts HW} {AD : AtaDisk D} {AS : AtaDiskSpec D}.
Abbreviation K := (os HW D).
Context (A : addrs) (gt_use : nat → use) {U : Type} (u_start : user_start → U) (u_run : U → M mem (registers_t * (Z → U))) (n_calls : nat).

Lemma on_word_does (s : K) cmd x (c k : M K bool) live d w Q : cstring cmd →
  (named cmd x → kdoes_at s c live d w Q) → (¬ named cmd x → kdoes_at s k live d w Q) → kdoes_at s (on_word cmd x c k) live d w Q.
Proof.
  intros [H0 _] Hc Hk. unfold on_word. eapply kat_read; [unfold lift; by rewrite is_lit_spec by done|]. case_bool_decide; [by apply Hc|by apply Hk].
Qed.
Lemma over_does (s : K) (c : M K unit) cmd args live d w (R : disk → Z → list Z → Prop) : kdoes_at s c live d w (leaves live R) →
  (∀ d' w' o, R d' w' o → command s cmd args d w d' w' o) →
  kdoes_at s (over c) live d w (λ b live' d' w' o, b = true ∧ live' = live ∧ command s cmd args d w d' w' o).
Proof.
  intros Hc HR. eapply kat_bind; [exact Hc|]. intros [] l' d' w' o _ _ [-> Hr]. apply kdoes_ret. unfold after_text.
  rewrite app_nil_r. auto.
Qed.

Lemma dispatch_does (s : K) cmd args live d w : cstring cmd → Forall cstring args → fs_inv d → is_dir d w →
  Forall (λ s, ¬ named cmd s) beyond → (named cmd "rm" → ordinary_rm (args !! 0%nat) (args !! 1%nat)) →
  kdoes_at s (dispatch A gt_use u_start u_run n_calls cmd args) live d w
    (λ b live' d' w' o, b = true ∧ live' = live ∧ command s cmd args d w d' w' o).
Proof.
  intros Hcmd Hargs Hinv Hdir Hbey Hrm.
  assert (∀ i, is_arg (args !! i)) as Harg.
  { intros i. destruct (args !! i) as [a|] eqn:E; [|done]. exact (Forall_lookup_1 _ _ _ _ Hargs E). }
  unfold beyond in Hbey. rewrite !Forall_cons in Hbey. destruct Hbey as (Hps & Hspawn & Hexec & Hgt & _). unfold dispatch.
  apply on_word_does; [done|intros Hn|intros N1].
  { eapply over_does; [apply kat_any, out_lines_does|]. intros d' w' o (-> & -> & ->). by apply did_help. }
  apply on_word_does; [done|intros Hn|intros N2].
  { eapply over_does; [apply kat_any; eapply kdoes_ext; [apply con_file|]; apply kdoes_file; eapply does_con; [apply clear_says|]|].
    - instantiate (1 := λ d' w' o, d' = d ∧ w' = w ∧ o = []). ends.
    - intros d' w' o (-> & -> & ->). by apply did_clear. }
  apply on_word_does; [done|intros Hn|intros N3].
  { eapply over_does.
    - apply kat_any. eapply kdoes_bind; [apply kdoes_file; by apply print_cwd_does|]. intros [] l' d' w' o _ _ (-> & -> & -> & ->).
      apply kdoes_last; [apply lit_ln_cstring|]. unfold after_text. instantiate (1 := λ d' w' o, d' = d ∧ w' = w ∧ o = cwd_text d w ++ [10]). ends.
    - intros d' w' o (-> & -> & ->). by apply did_pwd. }
  apply on_word_does; [done|intros Hn|intros N4].
  { eapply over_does; [apply kat_any, kdoes_file; by apply cmd_ls_does|]. intros d' w' o (-> & -> & ->). by apply did_ls. }
  apply on_word_does; [done|intros Hn|intros N5].
  { eapply over_does; [apply kat_any, kdoes_file; by apply cmd_cd_does|]. intros d' w' o (-> & _ & -> & ->). by apply did_cd. }
  apply on_word_does; [done|intros Hn|intros N6].
  { eapply over_does; [apply kat_any; by apply cmd_mkdir_does|]. intros d' w' o (-> & H). by apply did_mkdir. }
  apply on_word_does; [done|intros Hn|intros N7].
  { eapply over_does; [apply kat_any; by apply cmd_touch_does|]. intros d' w' o (-> & H). by apply did_touch. }
  apply on_word_does; [done|intros Hn|intros N8].
  { eapply over_does; [apply kat_file; by apply cmd_cat_does|]. intros d' w' o (-> & -> & ->). by apply did_cat. }
  apply on_word_does; [done|intros Hn|intros N9].
  { eapply over_does; [apply kat_file; by apply cmd_echo_does|]. intros d' w' o (-> & H). by apply did_echo. }
  apply on_word_does; [done|intros Hn|intros N10].
  { pose proof (Harg 0%nat) as Ha. pose proof (Harg 1%nat) as Hb.
    destruct (args !! 1%nat) as [dst|] eqn:E1.
    - destruct (args !! 0%nat) as [src|] eqn:E0; [|by apply lookup_ge_None_1 in E0; apply lookup_lt_Some in E1; lia].
      eapply over_does; [apply kat_file; by apply cmd_cp_does|]. intros d' w' o (-> & H). by eapply did_cp.
    - eapply over_does; [apply kat_any, kdoes_file, cmd_cp_usage; [done|by right]|]. intros d' w' o (-> & -> & ->). by apply did_no_cp. }
  apply on_word_does; [done|intros Hn|intros N11].
  { pose proof (Harg 0%nat) as Ha. pose proof (Harg 1%nat) as Hb.
    destruct (args !! 1%nat) as [dst|] eqn:E1.
    - destruct (args !! 0%nat) as [src|] eqn:E0; [|by apply lookup_ge_None_1 in E0; apply lookup_lt_Some in E1; lia].
      eapply over_does; [apply kat_file; by apply cmd_mv_does|]. intros d' w' o (-> & H). by eapply did_mv.
    - eapply over_does; [apply kat_any, kdoes_file, cmd_mv_usage; [done|by right]|]. intros d' w' o (-> & -> & ->). by apply did_no_mv. }
  apply on_word_does; [done|intros Hn|intros N12].
  { eapply over_does; [apply kat_any, cmd_rm_does; auto|]. intros d' w' o (-> & H). by apply did_rm. }
  do 4 (apply on_word_does; [done|by intros ?|intros _]).
  apply on_word_does; [done|intros Hn|intros N13].
  { eapply over_does; [apply cmd_stress_does|]. intros d' w' o (-> & -> & ->). by apply did_stress. }
  apply on_word_does; [done|intros Hn|intros N14].
  { eapply over_does; [apply cmd_meminfo_does|]. intros d' w' o (-> & -> & ->). by apply did_meminfo. }
  apply on_word_does; [done|intros Hn|intros N15].
  { eapply over_does; [apply cmd_uptime_does|]. intros d' w' o (-> & -> & ->). by apply did_uptime. }
  eapply over_does.
  - apply kat_any. unfold cmd_unknown, out_lit, out_ln. apply kdoes_out; [apply lit_cstring|]. apply kdoes_out; [done|]. apply kdoes_last; [apply lit_ln_cstring|].
    instantiate (1 := λ d' w' o, d' = d ∧ w' = w ∧ o = cstr (lit "unknown command: ") ++ cstr cmd ++ cstr (lit_ln "  (try 'help')")). ends.
  - intros d' w' o (-> & -> & ->). apply did_nothing. unfold known. rewrite !Forall_cons. by split_and!.
Qed.

Lemma prompt_does live d w : fs_inv d → is_dir d w →
  kdoes (HW := HW) prompt live d w (leaves live (λ d' w' o, d' = d ∧ w' = w ∧ o = cwd_text d w ++ cstr (lit " $ "))).
Proof.
  intros Hinv Hdir. unfold prompt, out_lit. eapply kdoes_says; [apply says_set_color|].
  eapply kdoes_bind; [apply kdoes_file; by apply print_cwd_does|]. intros [] l' d' w' o _ _ (-> & -> & -> & ->).
  apply kdoes_out; [apply lit_cstring|]. eapply kdoes_ext; [apply con_file|]. apply kdoes_file. eapply does_con; [apply says_set_color|].
  unfold after_text. rewrite app_nil_r. ends.
Qed.

(** The device itself holds [d]. *)
Definition durable (d : disk) (s : K) : Prop := ∀ b, on_disk b → disk_sector (dev (o_cache s)) b = sector d b.

Lemma sync_run live d w (s : K) : os_ok live d w s →
  ∃ s', zoom os_cache bcache_sync s = Some (tt, s') ∧ os_ok live d w s' ∧ durable d s' ∧ shell_only s s' ∧ os_printed s' = os_printed s.
Proof.
  intros [Hc [Hf Hv] Hi Hh Hw Hd]. destruct (bcache_sync_ok (o_cache s) Hf) as (c & E & Hok & _ & Hview & Hdisk).
  exists (update os_cache c s). split; [by apply zoom_run|]. split; [|split; [|split]].
  - split; [done| |done..]. split; [done|]. intros b Hb. change (layer_view (fs (Prelude.view os_shell (update os_cache c s))) b) with (view c b).
    rewrite Hview by done. by apply Hv.
  - intros b Hb. change (o_cache (update os_cache c s)) with c. rewrite Hdisk by done. by apply Hv.
  - unfold shell_only. by destruct s as [? ? [] ? ? ? ? ? ? ? ? ? ? ?].
  - done.
Qed.

(** A line of text whose command stays inside the shell and does not remove a
    dot directory. *)
Definition allowed (ws : list (list Z)) : Prop :=
  match ws with
  | [] => True
  | c :: args => Forall (λ s, c ≠ cstr (lit s)) beyond ∧
      (c = cstr (lit "rm") → args !! 0%nat = Some (cstr (lit "-r")) → args !! 1%nat ≠ Some dot ∧ args !! 1%nat ≠ Some dotdot)
  end.

Lemma run_command_run live d w (s : K) t tail : os_ok live d w s → Forall (λ c, 0 < c < 256) t → Forall is_byte tail → allowed (words_of 16 t) →
  ∃ ws line' s' d' w' o, cstr <$> ws = words_of 16 t ∧ run_command A gt_use u_start u_run n_calls (t ++ 0 :: tail) s = Some ((line', true), s') ∧
    length line' = length (t ++ 0 :: tail) ∧ Forall is_byte line' ∧ os_ok live d' w' s' ∧ (ws ≠ [] → durable d' s') ∧ shell_only s s' ∧
    os_printed s' = os_printed s ++ o ∧ line_does s ws d w d' w' o.
Proof.
  intros Hs Ht Htail Hall. destruct (tokenize_run t tail 16) as (argv & t' & E & Hl & Hstr).
  { eapply Forall_impl; [exact Ht|]. simpl. lia. }
  destruct (tokenize_args t tail 16 argv _ Ht Htail E) as [Hargs Hlb]. unfold run_command. rewrite E, (M_bind_run _ _ _ _ _ (lift_run _ _)). cbn [fst snd].
  set (line' := t' ++ 0 :: tail) in *. assert (length line' = length (t ++ 0 :: tail)) as Hll by (unfold line'; by rewrite !length_app, Hl).
  assert (cstr <$> ((λ p : nat, drop p line') <$> argv) = words_of 16 t) as Hws by (rewrite <-Hstr; unfold strings; by rewrite <-list_fmap_compose).
  destruct ((λ p : nat, drop p line') <$> argv) as [|cmd args].
  { exists [], line', s, d, w, []. split_and!; try done; [unfold shell_only; by rewrite update_view|by rewrite app_nil_r]. }
  rewrite <-Hws, fmap_cons in Hall. destruct Hall as [Hbey Hrm]. apply Forall_cons in Hargs as [Hcmd Hargs].
  destruct (dispatch_does s cmd args live d w Hcmd Hargs (sk_inv _ _ _ _ Hs) (sk_dir _ _ _ _ Hs) Hbey)
    as (b & s1 & l1 & d1 & w1 & o & E1 & Hs1 & P1 & F1 & -> & -> & Hc); [|done|].
  { intros Hn nm nm2 E0 E2 Enm. rewrite !list_lookup_fmap in Hrm. rewrite E0, E2 in Hrm. cbn in Hrm.
    destruct (Hrm Hn) as [H1 H2]; [by rewrite Enm|]. split; congruence. }
  rewrite (M_bind_run _ _ _ _ _ E1). destruct (sync_run live d1 w1 s1 Hs1) as (s2 & E2 & Hs2 & Hd2 & F2 & P2).
  rewrite (M_bind_run _ _ _ _ _ E2). exists (cmd :: args), line', s2, d1, w1, o. split_and!; try done.
  - by eapply shell_only_trans.
  - by rewrite P2.
Qed.

Lemma handle_line_run live d w (s : K) t tail : os_ok live d w s → Forall (λ c, 0 < c < 256) t → Forall is_byte tail → allowed (words_of 16 t) →
  ∃ ws line' s1 s2 d' w' o, cstr <$> ws = words_of 16 t ∧
    run_command A gt_use u_start u_run n_calls (t ++ 0 :: tail) s = Some ((line', true), s1) ∧
    shell_handle_line A gt_use u_start u_run n_calls (t ++ 0 :: tail) s = Some ((line', true), s2) ∧
    length line' = length (t ++ 0 :: tail) ∧ Forall is_byte line' ∧
    line_does s ws d w d' w' o ∧ os_ok live d' w' s2 ∧ shell_only s s2 ∧ (ws ≠ [] → durable d' s1) ∧
    os_printed s2 = os_printed s ++ o ++ cwd_text d' w' ++ cstr (lit " $ ").
Proof.
  intros Hok Ht Htail Hall. destruct (run_command_run live d w s t tail Hok Ht Htail Hall)
    as (ws & line' & s1 & d' & w' & o & Hws & E1 & Hl & Hb & Hok1 & Hdur & F1 & P1 & Hd).
  destruct (prompt_does live d' w' (sk_inv _ _ _ _ Hok1) (sk_dir _ _ _ _ Hok1) s1 Hok1)
    as ([] & s2 & l2 & d2 & w2 & o2 & E2 & Hok2 & P2 & F2 & -> & -> & -> & ->).
  exists ws, line', s1, s2, d', w', o. split; [done|]. split; [done|]. split.
  { unfold shell_handle_line. rewrite (M_bind_run _ _ _ _ _ E1). cbn [snd]. by rewrite (M_bind_run _ _ _ _ _ E2). }
  do 4 (split; [done|]). split; [by eapply shell_only_trans|]. split; [done|]. by rewrite P2, P1, <-app_assoc.
Qed.
End dispatch.
