(* ===== verification/ShellTop.v ===== *)
(** * Properties of the shell on the whole kernel *)

From S2P Require Import Prelude Pmm Kheap CString Block Bcache Ports Sfs SfsLayout SfsInv SfsFile SfsDir SfsOps SfsTree SfsSpec Devices Serial Screen Keyboard Alloc Cpu Task Elf Paging Segments Interrupts Green GreenSpec Shell ShellRun ShellFs ShellRm ShellSpec ShellPwd ShellWords ShellProps Os Exec ExecSpec ExecUser Hello ExecProps ShellMain ShellGt ShellLine.

(** C14. A line at the prompt: for every line whose command is not one of [ps],
    [spawn], [exec] and [gt] and does not remove "." or ".." with its contents,
    the shell returns.  The words of the line select the command; the disk, the
    directory and every character printed are as that command specifies, in
    error cases too: a command is out of memory exactly when the heap of the state
    it started in serves no request of that size, and the numbers of [stress],
    [meminfo] and [uptime] are those read in that state.  Everything is on
    the disk itself when the command ends, the heap blocks in use are the same,
    nothing but the shell's part of the kernel has changed, and the prompt
    shows the current directory. *)
Theorem shell_line_effect {HW D} {PW : Ports HW} {PC : PcPorts HW} {AD : AtaDisk D} {AS : AtaDiskSpec D}
    A gt_use {U} (u_start : user_start → U) u_run n_calls live d w (s : os HW D) t tail
    (Hok : os_ok live d w s) (Htext : Forall (λ c, 0 < c < 256) t) (Htail : Forall is_byte tail)
    (Hallowed : allowed (words_of 16 t)) :
  ∃ ws line' s1 s2 d' w' o, cstr <$> ws = words_of 16 t ∧
    run_command A gt_use u_start u_run n_calls (t ++ 0 :: tail) s = Some ((line', true), s1) ∧
    shell_handle_line A gt_use u_start u_run n_calls (t ++ 0 :: tail) s = Some ((line', true), s2) ∧
    line_does s ws d w d' w' o ∧ os_ok live d' w' s2 ∧ shell_only s s2 ∧ (ws ≠ [] → durable d' s1) ∧
    os_printed s2 = os_printed s ++ o ++ cwd_text d' w' ++ cstr (lit " $ ").
Proof.
  destruct (handle_line_run A gt_use u_start u_run n_calls live d w s t tail Hok Htext Htail Hallowed)
    as (ws & line' & s1 & s2 & d' & w' & o & Hws & E1 & E2 & _ & _ & Hrest).
  by exists ws, line', s1, s2, d', w', o.
Qed.

(** ** A kernel to run it on *)

#[local] Existing Instance plain_ata.
#[local] Existing Instance plain_ata_spec.
Definition sim_addrs : addrs := Addrs 1 2 3 60 61 62 50 70 9 10 11 12 13.
Definition sim_use (_ : nat) : use := Use 9 8 7 6 [5; 4; 3].
Definition sim_kernel : os sim_pc disk := sim_os tree_disk.
Lemma sim_kernel_ok : os_ok ∅ tree_disk SFS_ROOT sim_kernel.
Proof. exact root_shell_ok. Qed.

(** Only [help] is called help. *)
Lemma help_command {HW D} (s : os HW D) cmd args d w d' w' o : cstr cmd = cstr (lit "help") → command s cmd args d w d' w' o → d' = d ∧ w' = w ∧ o = help_text.
Proof.
  intros Hc H. destruct H as [| | | | | | | | | | | | | | | | |HF]; unfold named in *; rewrite Hc in *; try discriminate; [done|].
  rewrite Forall_forall in HF. destruct (HF "help"%string); [left|reflexivity].
Qed.

Lemma shell_line_effect_witness :
  ∃ line' s2, shell_handle_line sim_addrs sim_use (λ _, at_start) (hello_run 8388612 no_regs) 10 (lit " help") sim_kernel = Some ((line', true), s2) ∧
    os_printed s2 = os_printed sim_kernel ++ help_text ++ cstr (lit "/ $ ") ∧ os_ok ∅ tree_disk SFS_ROOT s2.
Proof.
  destruct (shell_line_effect sim_addrs sim_use (λ _, at_start) (hello_run 8388612 no_regs) 10 ∅ tree_disk SFS_ROOT sim_kernel [32; 104; 101; 108; 112] [])
    as (ws & line' & s1 & s2 & d' & w' & o & Hws & _ & E & Hd & Hok & _ & _ & P).
  - exact sim_kernel_ok.
  - apply (bool_decide_unpack _). vm_compute. exact I.
  - constructor.
  - vm_compute. split; [repeat constructor; discriminate|discriminate].
  - assert (words_of 16 [32; 104; 101; 108; 112] = [cstr (lit "help")]) as Hw by (vm_compute; reflexivity). rewrite Hw in Hws.
    destruct ws as [|cmd [|? ?]]; [discriminate Hws| |discriminate Hws]. injection Hws as Hc.
    destruct (help_command sim_kernel cmd [] _ _ _ _ _ Hc Hd) as (-> & -> & ->).
    exists line', s2. split; [exact E|]. split; [exact P|exact Hok].
Defined.

(** C20. The green-thread demonstration, for a caller with no fibers left over whose
    stack pointer is at least 28 and not above the start of the heap: [gt] tries
    four times to start a fiber, and as many are started as the heap has a
    structure and a stack for; it announces their number, prints five dots for
    each of them and then the counter, with five counts for each; the fibers and
    their stacks are gone, the heap blocks in use are the same, and the caller
    goes on with its registers. *)
Theorem gt_demo {HW D} {PW : Ports HW} {PC : PcPorts HW} {AD : AtaDisk D} A gt_use (s : os HW D) live
    (Huse : ∀ n, GreenSpec.fits (gt_use n)) (Hvar : a_sched_esp A ≤ HEAP_START) (Hcode : a_trampoline A ≠ a_yielded A)
    (Hnone : o_threads (o_fibers s) = ∅) (Hheap : a_inv (heap (o_sched s)) live) (Hcon : console_inv (o_con s))
    (Hstack : 28 ≤ r_esp (regs (o_sched s)) ≤ HEAP_START) :
  ∃ n h x y s', spawns 4 (heap (o_sched s)) = Some (n, h) ∧
    itoa (Z.of_nat n) = Some (x ++ [0]) ∧ itoa (Z.of_nat (n * 5)) = Some (y ++ [0]) ∧
    cmd_gt A gt_use s = Some (tt, s') ∧ printed (gt_text_out n x y) (o_con s) (o_con s') ∧
    o_threads (o_fibers s') = ∅ ∧ a_inv (heap (o_sched s')) live ∧
    same_carrier (Prelude.view os_green s) (Prelude.view os_green s') ∧ green_only s s'.
Proof.
  destruct (cmd_gt_run A gt_use Huse Hvar Hcode s live Hnone Hheap Hcon Hstack)
    as (n & h & x & y & s' & _ & Hn & Hx & Hy & E & P & _ & Ht & Hi & Hc & Hg).
  exists n, h, x, y, s'. split_and!; done.
Qed.

Lemma numeral_unique v x y : itoa v = Some (x ++ [0]) → itoa v = Some (y ++ [0]) → x = y.
Proof. intros E1 E2. rewrite E1 in E2. injection E2 as E2. exact (app_inv_tail _ _ _ E2). Qed.

Lemma gt_demo_witness :
  ∃ s', cmd_gt sim_addrs sim_use sim_kernel = Some (tt, s') ∧
    printed (cstr (lit_ln "running 4 green threads: ....................") ++ cstr (lit_ln "gt done, counter = 20")) low_console (o_con s') ∧
    o_threads (o_fibers s') = ∅ ∧ a_inv (heap (o_sched s')) ∅.
Proof.
  destruct (gt_demo sim_addrs sim_use sim_kernel ∅) as (n & h & x & y & s' & H1 & H2 & H3 & H4 & H5 & H6 & H7 & _).
  - intros n. unfold GreenSpec.fits. cbn. lia.
  - cbn. unfold HEAP_START. lia.
  - discriminate.
  - reflexivity.
  - exact empty_heap_ok.
  - exact low_console_inv.
  - cbn. unfold HEAP_START. lia.
  - exists s'. split; [exact H4|]. split; [|split; [exact H6|exact H7]].
    assert (fst <$> spawns 4 (heap (o_sched sim_kernel)) = Some 4%nat) as Hn by (vm_compute; reflexivity).
    rewrite H1 in Hn. injection Hn as ->.
    rewrite (numeral_unique _ x [52] H2 eq_refl), (numeral_unique _ y [50; 48] H3 eq_refl) in H5.
    exact H5.
Defined.
