(* ===== verification/KernelTasks.v ===== *)
(** * Starting the tasks

    On the heap as [kheap_init] leaves it there is room for the first task and
    the two workers, so that the scheduler starts with three tasks. *)

From S2P Require Import Prelude Kheap CString Alloc Cpu Task TaskSwitch TaskInv TaskSpec.

(** The heap after the three allocations of [task_create]. *)
Definition fits_task (l : list seg) : option (Z * Z * Z * list seg) :=
  r1 ← first_fit (ALIGN8 SIZEOF_TASK) HEAP_START l;
  r2 ← first_fit (ALIGN8 STACK_SIZE) HEAP_START r1.2;
  r3 ← first_fit (ALIGN8 KSTACK_SIZE) HEAP_START r2.2;
  Some (r1.1, r2.1, r3.1, r3.2).

Lemma malloc_fits (s : sched kheap) l n r l' : heap_ok (heap s) l → 0 < n ≤ 4294967288 → first_fit (ALIGN8 n) HEAP_START l = Some (r, l') →
  ∃ h, on_heap (a_malloc n) s = Some (r, with_heap s h) ∧ heap_ok h l'.
Proof.
  intros Hl Hn E. pose proof (kmalloc_run (heap s) l n Hl (proj1 Hn) (small_u32 n Hn)) as Hk. rewrite E in Hk. destruct Hk as (h & Ek & Hh).
  exists h. split; [by apply on_heap_run|done].
Qed.

(** Nobody has ended. *)
Definition all_live (s : sched kheap) : Prop := ∀ a t, tasks s !! a = Some t → state t ≠ TASK_DEAD.

Section start.
Variables (a_task_exit a_task_bootstrap : Z) (blo bhi : Z) (raw : task_t).
Hypothesis Hboot : boot_ok blo bhi.

(** What starting a task leaves alone. *)
Record started (s s' : sched kheap) : Prop := {
  st_regs : regs s' = regs s;
  st_current : current s' = current s;
  st_size : base.size (tasks s') = S (base.size (tasks s));
  st_live : all_live s → all_live s';
}.

Lemma create_fits st (s : sched kheap) live l t sb kb l' nm bs fn : sched_ok blo bhi st s live → heap_ok (heap s) l →
  fits_task l = Some (t, sb, kb, l') → t ≠ 0 → kb ≠ 0 → HEAP_START < sb → sb + STACK_SIZE ≤ HEAP_END →
  strncpy nm (TASK_NAME_MAX - 1) = Some bs →
  ∃ s' live', task_create a_task_exit a_task_bootstrap nm fn s = Some (t, s') ∧ sched_ok blo bhi st s' live' ∧
    heap_ok (heap s') l' ∧ started s s'.
Proof.
  intros Hok Hl Hf Ht0 Hk0 Hs1 Hs2 Hnm. destruct (so_ring _ _ _ _ _ Hok) as (r & (_ & _ & Hdom) & Hin). apply Hdom in Hin as [th Hth].
  unfold fits_task in Hf. destruct (first_fit _ _ l) as [[t1 l1]|] eqn:F1; [|done]. cbn [mbind option_bind fst snd] in Hf.
  destruct (first_fit _ _ l1) as [[t2 l2]|] eqn:F2; [|done]. cbn [mbind option_bind fst snd] in Hf.
  destruct (first_fit _ _ l2) as [[t3 l3]|] eqn:F3; [|done]. injection Hf as -> -> -> ->.
  destruct (malloc_fits s l SIZEOF_TASK t l1 Hl ltac:(done) F1) as (h1 & E1 & Hl1).
  destruct (malloc_fits (with_heap s h1) l1 STACK_SIZE sb l2 Hl1 ltac:(done) F2) as (h2 & E2 & Hl2).
  destruct (malloc_fits (with_heap s h2) l2 KSTACK_SIZE kb l' Hl2 ltac:(done) F3) as (h3 & E3 & Hl3).
  assert (head s ≠ t) as Hne.
  { destruct (malloc_run s live SIZEOF_TASK (so_heap _ _ _ _ _ Hok) ltac:(done)) as (r0 & h0 & E0 & Hr). rewrite E1 in E0. injection E0 as <- _.
    destruct Hr as [[? _]|(_ & _ & Hfree & _)]; [done|]. intros Heq. rewrite Heq in Hth. destruct (so_owns _ _ _ _ _ Hok _ _ Hth) as [Ho _]. congruence. }
  pose proof (task_create_fits a_task_exit a_task_bootstrap s nm bs fn th t sb kb h1 h2 h3 E1 E2 E3 Ht0 Hk0 Hs1 Hs2 Hne Hnm Hth) as Hc.
  destruct (task_create_run a_task_exit a_task_bootstrap blo bhi st s live nm bs fn th Hok Hnm Hth) as [(h & E & _)|(t' & sb' & kb' & h & E & Hfr & Hh)].
  { rewrite Hc in E. by injection E as ->. }
  pose proof (created_ok a_task_exit a_task_bootstrap blo bhi Hboot st s live h t' sb' kb' (bs ++ [0]) fn th Hok Hth Hfr Hh) as Hok'.
  destruct (fresh_not_task blo bhi _ _ _ _ _ _ _ Hok Hth Hfr) as [Hnew _].
  pose proof E as Et. rewrite Hc in Et. injection Et as <- Hh3 _ _. rewrite Hh3 in Hl3.
  eexists _, _. split; [exact E|]. split; [exact Hok'|].
  split; [exact Hl3|]. split; [done|done| |].
  - cbn [tasks created]. rewrite map_size_insert_Some by (rewrite lookup_insert_ne by done; by exists th). by rewrite map_size_insert_None.
  - intros Hall a x. cbn [tasks created]. rewrite lookup_insert_Some, lookup_insert_Some.
    intros [[<- <-]|[_ [[<- <-]|[_ Hx]]]]; [exact (Hall _ _ Hth)|done|by eapply Hall].
Qed.

(** The heap with the blocks of the first task. *)
Definition first_blocks : list seg := [(64, false); (8192, false); (4186012, true)].

(** The first task, on an empty heap. *)
Lemma tasking_init_fits (s : sched kheap) : tasks s = ∅ → heap_ok (heap s) [(HEAP_SIZE - HDR, true)] →
  blo ≤ r_esp (regs s) ≤ bhi →
  ∃ s1 live, tasking_init raw s = Some (tt, s1) ∧ sched_ok blo bhi TASK_RUNNING s1 live ∧ regs s1 = regs s ∧
    base.size (tasks s1) = 1%nat ∧ all_live s1 ∧ heap_ok (heap s1) first_blocks.
Proof.
  intros Hnone Hl Hsp. assert (a_inv (heap s) ∅) as Hinv by (eexists; split; [exact Hl|]; split; [set_solver|done]).
  destruct (malloc_fits s _ SIZEOF_TASK 4194316 [(64, false); (4194216, true)] Hl ltac:(done) ltac:(vm_compute; reflexivity)) as (h1 & E1 & Hl1).
  assert (∃ s1, tasking_init raw s = Some (tt, s1) ∧ regs s1 = regs s ∧ heap_ok (heap s1) first_blocks ∧
    ∃ t, tasks s1 = {[4194316 := t]} ∧ state t = TASK_RUNNING) as (s1 & E & Hr & Hh & t & Ht & Hst).
  { unfold tasking_init. rewrite (M_bind_run _ _ _ _ _ E1). cbn [truth negb Z.eqb].
    unfold set_current, new_id, set_next_id, copy_name. rewrite bind_modify, bind_assoc, bind_gets, bind_assoc, bind_modify, bind_ret, bind_assoc.
    change (strncpy (lit "kernel") (TASK_NAME_MAX - 1)) with (Some (take 6 (lit "kernel") ++ replicate 25 0)). rewrite bind_lift, bind_ret.
    match goal with |- context [(on_heap _ ≫= _) ?x] => destruct (malloc_fits x _ KSTACK_SIZE 4194392 first_blocks Hl1 ltac:(done) ltac:(vm_compute; reflexivity)) as (h2 & E2 & Hl2) end.
    rewrite (M_bind_run _ _ _ _ _ E2). unfold set_tasks, set_head, set_scheduling, tss_set_kernel_stack. rewrite !bind_modify. unfold modify.
    cbn [tasks heap words regs tss_esp0 current head next_id scheduling_on with_heap]. eexists. split; [reflexivity|]. split; [done|]. split; [exact Hl2|]. eexists.
    cbn [tasks]. rewrite Hnone, insert_empty. split; reflexivity. }
  destruct (tasking_init_ok blo bhi raw Hboot s ∅ s1 Hnone Hinv Hsp E) as [live Hok].
  exists s1, live. split; [exact E|]. split; [exact Hok|]. split; [exact Hr|]. split; [rewrite Ht; apply map_size_singleton|]. split; [|exact Hh].
  intros a x Hx. rewrite Ht in Hx. apply lookup_singleton_Some in Hx as [_ <-]. by rewrite Hst.
Qed.

(** Everybody counts. *)
Lemma count_started st (s : sched kheap) live : sched_ok blo bhi st s live → all_live s →
  task_count s = Some (Z.of_nat (base.size (tasks s)), s).
Proof.
  intros Hok Hall. destruct (so_ring _ _ _ _ _ Hok) as (r & Hr & _). rewrite (task_count_alive blo bhi st s live r Hok Hr).
  rewrite (ring_size _ _ _ Hr). unfold alive_in. do 3 f_equal. destruct Hr as (_ & _ & Hdom).
  assert (∀ a, a ∈ current s :: r → alive (tasks s) a = true) as Hal.
  { intros a Ha. apply Hdom in Ha as [t Ht]. unfold alive. rewrite Ht. apply negb_true_iff, Z.eqb_neq. by eapply Hall. }
  change (S (length r)) with (length (current s :: r)). clear Hdom. induction (current s :: r) as [|a l IH]; [done|].
  cbn [List.filter]. rewrite Hal by left. cbn [length]. f_equal. apply IH. intros b Hb. apply Hal. by right.
Qed.

(** The kernel's own task and two workers. *)
Lemma three_tasks fn (s : sched kheap) : tasks s = ∅ → heap_ok (heap s) [(HEAP_SIZE - HDR, true)] → blo ≤ r_esp (regs s) ≤ bhi →
  ∃ s1 t2 s2 t3 s3 live, tasking_init raw s = Some (tt, s1) ∧
    task_create a_task_exit a_task_bootstrap (lit "worker") fn s1 = Some (t2, s2) ∧
    task_create a_task_exit a_task_bootstrap (lit "worker") fn s2 = Some (t3, s3) ∧
    sched_ok blo bhi TASK_RUNNING s3 live ∧ regs s3 = regs s ∧ all_live s3 ∧ base.size (tasks s3) = 3%nat.
Proof.
  intros Hnone Hl Hsp. destruct (tasking_init_fits s Hnone Hl Hsp) as (s1 & live1 & E1 & Hok1 & Hr1 & Hz1 & Ha1 & Hl1).
  edestruct (create_fits TASK_RUNNING s1 live1 first_blocks) with (nm := lit "worker") (fn := fn)
    as (s2 & live2 & E2 & Hok2 & Hl2 & [Hr2 _ Hz2 Ha2]); [done|done|vm_compute; reflexivity|done|done|done|done|vm_compute; reflexivity|].
  edestruct (create_fits TASK_RUNNING s2 live2) with (nm := lit "worker") (fn := fn)
    as (s3 & live3 & E3 & Hok3 & Hl3 & [Hr3 _ Hz3 Ha3]); [done|exact Hl2|vm_compute; reflexivity|done|done|done|done|vm_compute; reflexivity|].
  do 6 eexists. split; [exact E1|]. split; [exact E2|]. split; [exact E3|]. split; [exact Hok3|]. split; [congruence|]. split; [by auto|]. by rewrite Hz3, Hz2, Hz1.
Qed.
End start.
