(* ===== verification/Kernel.v ===== *)
(** * The boot sequence (kernel/kernel.c)

    [main] up to its idle loop, over the state of file Os.  The image of the
    demonstration program is a parameter ([hello_elf], the bytes the build
    links in). *)

From S2P Require Import Prelude Pmm Kheap CString Block Bcache Ports Sfs Devices Serial Screen Keyboard Alloc Cpu Task Elf Paging Segments Interrupts Green Shell Os Exec ShellMain.

(** Addresses of tables and interrupt code. *)
Record tables := Tables {
  a_tss : Z; a_gdt : Z; a_idt : Z; a_isr : Z → Z; a_irq : Z → Z; a_isr128 : Z; a_directory : Z;
  a_timer_callback : Z; a_keyboard_callback : Z }.

Section kernel.
Context {HW D : Type} {PW : Ports HW} {AD : AtaDisk D}.
Abbreviation K := (os HW D).
Variables (A : addrs) (T : tables).
(** What fresh memory holds; the linked image. *)
Variables (raw : task_t) (hello_elf : list Z).

Definition fs_call {B} (p : prog B) : M K B := zoom os_cache (run_layer p).

(** The first block, the boot counter: the inode of its file and the count found
    there, then the count stored and announced. *)
Definition boot_find : M K (Z * Z) :=
  f ← fs_call (sfs_lookup SFS_ROOT (lit "bootcount"));
  if f <? 0 then f ← fs_call (sfs_create SFS_ROOT (lit "bootcount") SFS_FILE); mret (f, 0)
  else data ← fs_call (sfs_read f 15); count ← lift (atoi (data ++ [0])); mret (f, count).
Definition boot_store (r : Z * Z) : M K unit :=
  if negb (in_int (r.2 + 1)) then fault
  else
    b ← lift (itoa (r.2 + 1));
    n ← lift (strlen b);
    _ ← fs_call (sfs_write r.1 b n);
    _ ← zoom os_cache bcache_sync;
    _ ← out_lit "[ok] filesystem mounted (boot #";
    _ ← out b;
    out_ln ")".
Definition boot_counter : M K unit := r ← boot_find; boot_store r.

(** The second block: the demonstration program. *)
Definition install_hello : M K unit :=
  f ← fs_call (sfs_lookup SFS_ROOT (lit "hello"));
  f ← (if f <? 0 then fs_call (sfs_create SFS_ROOT (lit "hello") SFS_FILE) else mret f);
  _ ← (if 0 <=? f then fs_call (sfs_write f hello_elf (Z.of_nat (length hello_elf))) else mret 0);
  zoom os_cache bcache_sync.

Definition banner : M K unit :=
  _ ← zoom os_con (set_color (VGA_COLOR VGA_LIGHT_CYAN VGA_BLACK));
  _ ← out_ln "============================";
  _ ← out_ln "   Welcome to JacobOS";
  _ ← out_ln "============================";
  zoom os_con (set_color (VGA_COLOR VGA_LIGHT_GREY VGA_BLACK)).

Definition start_tasks : M K unit :=
  _ ← zoom os_sched (tasking_init raw);
  _ ← zoom os_sched (task_create (a_task_exit A) (a_task_bootstrap A) (lit "worker") (a_shell_worker A));
  _ ← zoom os_sched (task_create (a_task_exit A) (a_task_bootstrap A) (lit "worker") (a_shell_worker A));
  _ ← zoom os_irq (init_timer (a_timer_callback T) 100);
  _ ← out_lit "[ok] scheduler + ";
  n ← zoom os_sched task_count; _ ← out_dec n;
  out_ln " tasks".

(** [main] up to the line that announces the memory. *)
Definition start_machine : M K unit :=
  _ ← zoom os_con screen_init;
  _ ← banner;
  _ ← zoom os_segs (gdt_install (a_tss T) (a_gdt T));
  _ ← zoom os_irq (isr_install (a_idt T) (a_isr T) (a_irq T) (a_isr128 T));
  _ ← zoom os_pmm pmm_init;
  _ ← zoom os_mmu (paging_init (a_directory T));
  _ ← zoom os_heap kheap_init;
  out_ln "[ok] paging + heap".

Definition mount : M K unit :=
  _ ← zoom os_cache (on_dev ata_init);
  _ ← zoom os_cache bcache_init;
  fs_call sfs_init.

Definition main : M K unit :=
  _ ← start_machine;
  _ ← mount;
  _ ← boot_counter;
  _ ← install_hello;
  _ ← zoom os_irq (init_keyboard (a_keyboard_callback T));
  _ ← start_tasks;
  _ ← zoom os_sched (set_if true);
  shell_init A.
End kernel.
