(* ===== verification/KernelSpec.v ===== *)
(** * What booting does to the disk

    The boot counter counts the boots, across reboots; the demonstration program
    is a file afterwards. *)

From S2P Require Import Prelude Pmm Kheap CString Block Bcache Ports Sfs SfsLayout SfsInv SfsFile SfsDir SfsOps SfsTree Devices Serial Screen Keyboard Alloc Cpu Task Elf Paging Segments Interrupts Green Shell ShellRun ShellFs ShellSpec ShellPwd Os Exec ExecUser ShellMain ShellGt ShellLine Kernel.

(** The file [bootcount] holds the decimal numeral of [c]. *)
Definition counts (d : disk) (c : Z) : Prop :=
  let i := lookup_at d SFS_ROOT (cstr (lit "bootcount")) in
  inode_no i ∧ type (inode_at d i) = SFS_FILE ∧ itoa c = Some (file_bytes d i ++ [0]).

(** [n] is the number of the next boot: there is no counter yet but room for
    one, or the counter is one less. *)
Definition next_boot (d : disk) (n : Z) : Prop :=
  lookup_at d SFS_ROOT (cstr (lit "bootcount")) < 0 ∧ (∃ i, inode_no i ∧ type (inode_at d i) = SFS_FREE) ∧ n = 1 ∨
  ∃ c, counts d c ∧ 0 ≤ c < 2147483647 ∧ n = c + 1.

(** Two names of a directory lead to two inodes. *)
Lemma names_apart d w nm nm' i : fs_inv d → is_dir d w → nm ≠ dot → nm ≠ dotdot → nm' ≠ dot → nm' ≠ dotdot →
  find_name nm (dir_slots d w) = Some i → find_name nm' (dir_slots d w) = Some i → nm = nm'.
Proof.
  intros (_ & Htree & _) [Hw Hwt] H1 H2 H3 H4 (p1 & x & q1 & Hx & _ & [Ux <-] & ->)%find_name_inv (p2 & y & q2 & Hy & _ & [Uy <-] & Hxy)%find_name_inv.
  pose proof (tr_nodup d Htree w Hw) as Hnd. rewrite targets_dir in Hnd by done. unfold live_targets in Hnd.
  assert (∀ z : Z * list Z, z ∈ dir_slots d w → z.1 ≠ 0 → z.2 ≠ dot → z.2 ≠ dotdot →
    (list_to_map (filter live (dir_slots d w)) : gmap Z (list Z)) !! z.1 = Some z.2) as Hm.
  { intros [a b] Hz Hu Hd Hdd. apply elem_of_list_to_map_1; [done|]. by apply list_elem_of_filter. }
  pose proof (Hm x ltac:(rewrite Hx; set_solver) Ux H1 H2) as Mx.
  pose proof (Hm y ltac:(rewrite Hy; set_solver) Uy H3 H4) as My.
  replace y.1 with x.1 in My by lia. congruence.
Qed.

(** Storing a file leaves a file of another name alone. *)
Lemma stored_other d w nm bytes d' nm' : stored d w nm bytes d' → fs_inv d → is_dir d w → is_dir d' w →
  (length nm ≤ 27)%nat → nm ≠ nm' → nm ≠ dot → nm ≠ dotdot → nm' ≠ dot → nm' ≠ dotdot →
  inode_no (lookup_at d w nm') → type (inode_at d (lookup_at d w nm')) = SFS_FILE →
  lookup_at d' w nm' = lookup_at d w nm' ∧ same_object d d' (lookup_at d w nm').
Proof.
  intros (i & Hi & Ht & _ & Hcase & Hsame) Hinv Hdir [_ Hwt'] Hlen Hne H1 H2 H3 H4 Hj Hjt. pose proof Hdir as [_ Hwt].
  assert (lookup_at d w nm' ≠ w) as Hw by (intros E; by rewrite E, Hwt in Hjt).
  assert (∃ j, find_name nm' (dir_slots d w) = Some j ∧ lookup_at d w nm' = j) as (j & Hfj & Ej).
  { unfold lookup_at in *. rewrite Hwt in *. cbn [Z.eqb SFS_DIR Pos.eqb] in *. destruct (find_name nm' _) as [j|]; [by exists j|].
    cbn in Hj. destruct Hj. lia. }
  assert (∀ k, find_name nm (dir_slots d w) = Some k → k ≠ j) as Hap.
  { intros k Hk ->. by destruct Hne; eapply (names_apart d w nm nm' j). }
  rewrite Ej in *. clear Ej. unfold lookup_at in Hcase |- *. rewrite Hwt' in *. rewrite Hwt in Hcase. cbn [Z.eqb SFS_DIR Pos.eqb] in *.
  destruct Hcase as [(Ei & _ & ->)|(Hno & Hfree & Hadd)].
  - rewrite Hfj. split; [done|]. apply Hsame; [done| |done]. subst i. destruct (find_name nm (dir_slots d w)) as [k|] eqn:Ek; cbn in *; [by apply not_eq_sym, Hap|].
    destruct Hi. lia.
  - rewrite take_ge in Hadd by done. rewrite (added_find_other _ _ _ nm' Hadd) by (cbn; congruence). rewrite Hfj. split; [done|].
    apply Hsame; [done| |done]. intros ->. by rewrite Hfree in Hjt.
Qed.

Section boot.
Context {HW D : Type} {PW : Ports HW} {PC : PcPorts HW} {AD : AtaDisk D} {AS : AtaDiskSpec D}.
Abbreviation K := (os HW D).

Lemma fs_call_run {B} (p : prog B) b d d' (s : K) : shows (o_cache s) d → run_disk p d = Some (b, d') →
  ∃ c, (∀ C (k : B → M K C), (fs_call p ≫= k) s = k b (update os_cache c s)) ∧ shows c d'.
Proof.
  intros Hs Hr. destruct (run_refines p (o_cache s) d b d' Hs Hr) as (c & E & Hc). exists c. split; [|done].
  intros C k. by apply zoom_bind.
Qed.

Lemma root_dir d : fs_inv d → is_dir d SFS_ROOT.
Proof. intros Hinv. split; [done|]. apply Hinv. Qed.

Lemma strlen_text x : Forall (λ c, c ≠ 0) x → strlen (x ++ [0]) = Some (Z.of_nat (length x)).
Proof.
  induction 1 as [|c x Hc _ IH]; [done|]. cbn [app strlen length]. rewrite (proj2 (truth_true c) Hc), IH. cbn. f_equal. lia.
Qed.

(** Where the counter is found, and what it says. *)
Lemma counter_found d n : fs_inv d → next_boot d n →
  ∃ i d1, inode_no i ∧ fs_inv d1 ∧ is_dir d1 SFS_ROOT ∧ type (inode_at d1 i) = SFS_FILE ∧ 0 < n < 2147483648 ∧
    (∀ (s : K) B (k : Z * Z → M K B), shows (o_cache s) d → ∃ c, shows c d1 ∧
      (boot_find ≫= k) s = k (i, n - 1) (update os_cache c s)) ∧
    (i = lookup_at d SFS_ROOT (cstr (lit "bootcount")) ∧ d1 = d ∨
     lookup_at d SFS_ROOT (cstr (lit "bootcount")) = -1 ∧ type (inode_at d i) = SFS_FREE ∧ type (inode_at d1 i) = SFS_FILE ∧ file_bytes d1 i = [] ∧
       added (dir_slots d SFS_ROOT) (i + 1, take 27 (cstr (lit "bootcount"))) (dir_slots d1 SFS_ROOT) ∧
       ∀ j, inode_no j → j ≠ i → j ≠ SFS_ROOT → same_object d d1 j).
Proof.
  intros Hinv Hn. pose proof (root_dir d Hinv) as Hroot. set (nm := lit "bootcount") in *.
  pose proof (sfs_lookup_run d SFS_ROOT nm (proj1 Hinv) ltac:(done) (lit_nul _)) as El. set (f := lookup_at d SFS_ROOT (cstr nm)) in *.
  destruct Hn as [(Hneg & (j & Hj & Hfree) & ->)|(c & (Hf & Hty & Hc) & Hr & ->)]; fold nm in Hneg || fold nm f in Hf, Hty, Hc.
  - fold f in Hneg. destruct (create_file_cases d SFS_ROOT nm Hinv Hroot (lit_cstring _) Hneg) as (r & d1 & E & Hinv1 & Hdir1 & Hc).
    destruct Hc as [(_ & _ & Hfull)|(Hr & Hcr & Hfn & Hadd)]; [by destruct (Hfull j Hj)|].
    exists r, d1. split_and!; [done|done|done|apply Hcr|lia|lia| |].
    + intros s B k Hs. unfold boot_find. rewrite bind_assoc. destruct (fs_call_run _ _ _ _ s Hs El) as (c1 & E1 & Hc1). rewrite E1, (proj2 (Z.ltb_lt _ _)) by done.
      destruct (fs_call_run _ _ _ _ (update os_cache c1 s) Hc1 E) as (c2 & E2 & Hc2). exists c2. split; [done|].
      rewrite bind_assoc, E2. by destruct s.
    + right. split_and!; [|apply Hcr|apply Hcr|by apply Hcr|done|apply Hcr].
      destruct (lookup_at_neg d SFS_ROOT (cstr nm) (proj1 Hinv) ltac:(done) (upto0_nonzero nm)) as [?|?]; fold f in H; lia.
  - exists f, d. split_and!; [done..|lia|lia| |by left].
    intros s B k Hs. unfold boot_find. rewrite bind_assoc. destruct (fs_call_run _ _ _ _ s Hs El) as (c1 & E1 & Hc1). rewrite E1, (proj2 (Z.ltb_ge _ _)) by (destruct Hf; lia).
    pose proof (sfs_read_run d f 15 (proj1 Hinv) Hf ltac:(lia)) as Er.
    pose proof (itoa_short c _ ltac:(lia) Hc) as Hshort. rewrite take_ge in Er by (change (Z.to_nat 15) with 15%nat; lia).
    destruct (fs_call_run _ _ _ _ (update os_cache c1 s) Hc1 Er) as (c2 & E2 & Hc2). exists c2. split; [done|].
    rewrite bind_assoc, E2, bind_assoc. destruct (itoa_atoi_run c ltac:(lia)) as (x & Ex & _ & Ea).
    rewrite Hc in Ex. injection Ex as <-. rewrite Ea, (M_bind_run _ _ _ _ _ (lift_run _ _)). replace (c + 1 - 1) with c by lia. by destruct s.
Qed.

(** The cache and the console are all that has changed; the first shows [d]. *)
Record fs_only (d : disk) (s s' : K) : Prop := {
  fo_rest : s' = update os_cache (o_cache s') (update os_con (o_con s') s);
  fo_fs : shows (o_cache s') d;
  fo_inv : fs_inv d;
  fo_durable : durable d s';
}.

Lemma sync_cache (s : K) d : shows (o_cache s) d → ∃ c, (∀ B (k : unit → M K B), (zoom os_cache bcache_sync ≫= k) s = k tt (update os_cache c s)) ∧
  zoom os_cache bcache_sync s = Some (tt, update os_cache c s) ∧ shows c d ∧ ∀ b, on_disk b → disk_sector (dev c) b = sector d b.
Proof.
  intros [Hf Hv]. destruct (bcache_sync_ok (o_cache s) Hf) as (c & E & Hok & _ & Hview & Hdisk).
  exists c. split; [intros; by apply zoom_bind|]. split; [by apply (zoom_run os_cache)|]. split.
  - split; [done|]. intros b Hb. change (layer_view c b) with (view c b). rewrite Hview by done. by apply Hv.
  - intros b Hb. rewrite Hdisk by done. by apply Hv.
Qed.

(** What is printed. *)
Definition mounted_text (x : list Z) : list Z := cstr (lit "[ok] filesystem mounted (boot #") ++ x ++ cstr (lit_ln ")").

Lemma boot_counter_run (s : K) d n : console_inv (o_con s) → shows (o_cache s) d → fs_inv d → next_boot d n →
  ∃ x d' s', boot_counter s = Some (tt, s') ∧ itoa n = Some (x ++ [0]) ∧ printed (mounted_text x) (o_con s) (o_con s') ∧
    counts d' n ∧ fs_only d' s s' ∧ stored d SFS_ROOT (cstr (lit "bootcount")) x d'.
Proof.
  intros Hcon Hs Hinv Hn. destruct (counter_found d n Hinv Hn) as (i & d1 & Hi & Hinv1 & Hdir1 & Hty & Hnr & Hfind & Hcase).
  unfold boot_counter. destruct (Hfind s _ (λ r, boot_store r) Hs) as (c1 & Hc1 & ->). unfold boot_store. cbn [fst snd].
  replace (n - 1 + 1) with n by lia. rewrite in_int_true by lia. cbn [negb].
  destruct (itoa_text n ltac:(lia)) as (x & Ex & Hx). rewrite Ex, (M_bind_run _ _ _ _ _ (lift_run _ _)).
  rewrite strlen_text by (eapply Forall_impl; [exact Hx|]; simpl; lia). rewrite (M_bind_run _ _ _ _ _ (lift_run _ _)).
  assert (Forall is_byte (x ++ [0])) as Hb.
  { apply Forall_app. split; [eapply Forall_impl; [exact Hx|]; unfold is_byte; simpl; lia|by repeat constructor]. }
  destruct (stored_write d d1 SFS_ROOT (cstr (lit "bootcount")) i x [0] Hinv (root_dir d Hinv) Hi Hinv1 Hdir1 Hb Hcase)
    as (r & d2 & Ew & Hinv2 & Hdir2 & Hst & _). specialize (Hst Hty).
  destruct (fs_call_run _ _ _ _ (update os_cache c1 s) Hc1 Ew) as (c2 & E2 & Hc2). rewrite E2.
  destruct (sync_cache (update os_cache c2 (update os_cache c1 s)) d2 Hc2) as (c3 & E3 & _ & Hc3 & Hdur). rewrite E3.
  set (s3 := update os_cache c3 _). unfold out_lit, out_ln.
  destruct (out_run (lit "[ok] filesystem mounted (boot #") s3 (lit_cstring _) Hcon) as (t4 & E4 & _ & P4). rewrite E4.
  assert (cstring (x ++ [0])) as Hcx by (split; [apply elem_of_app; right; left|done]).
  destruct (out_run (x ++ [0]) (update os_con t4 s3) Hcx ltac:(apply P4)) as (t5 & E5 & _ & P5). rewrite E5.
  destruct (out_run (lit_ln ")") (update os_con t5 (update os_con t4 s3)) (lit_ln_cstring _) ltac:(apply P5)) as (t6 & _ & E6 & P6).
  exists x, d2, (update os_con t6 (update os_con t5 (update os_con t4 s3))). split; [exact E6|]. split; [done|]. split; [|split; [|split; [|done]]].
  - unfold mounted_text. rewrite cstr_nul in P5 by (eapply Forall_impl; [exact Hx|]; simpl; lia).
    eapply printed_app; [exact P4|]. eapply printed_app; [exact P5|exact P6].
  - destruct (stored_lookup d SFS_ROOT _ x d2 Hst (proj1 Hinv) (root_dir d Hinv) Hdir2) as (H1 & H2 & H3).
    { apply (upto0_nonzero (lit "bootcount")). }
    { by apply Nat.leb_le. }
    split; [done|]. split; [done|]. rewrite H3, take_ge; [done|].
    pose proof (itoa_short n x ltac:(lia) Ex). change (Z.to_nat MAX_BYTES) with (Z.to_nat 7168). lia.
  - split; [by destruct s|done|done|exact Hdur].
Qed.

(** Inode -1 lies in front of the block it is read from. *)
Lemma inode_nowhere {B} (c : bcache D) (k : inode_t → prog B) : layer_ok c → run_layer (read_inode (-1) ≫= k) c = None.
Proof.
  intros Hc. destruct (layer_read_spec c INODE_TABLE_START Hc ltac:(done)) as (c' & E & _).
  unfold read_inode. change (u32 (INODE_TABLE_START + Z.quot (-1) INODES_PER_BLOCK)) with INODE_TABLE_START.
  unfold mbind, prog_bind, read_block. cbn [prog_bind_def run_layer]. change (M_bind _ _ ?k (layer_read INODE_TABLE_START)) with (layer_read INODE_TABLE_START ≫= k).
  rewrite (M_bind_run _ _ _ _ _ E). reflexivity.
Qed.

Lemma fs_call_fault {B C} (p : prog B) (k : B → M K C) (s : K) : run_layer p (o_cache s) = None → (fs_call p ≫= k) s = None.
Proof. intros E. unfold fs_call, zoom, mbind, M_bind. cbn [Prelude.view os_cache]. by rewrite E. Qed.

(** No counter and no free inode. *)
Lemma boot_find_full (s : K) d : shows (o_cache s) d → fs_inv d → lookup_at d SFS_ROOT (cstr (lit "bootcount")) < 0 →
  (∀ i, inode_no i → type (inode_at d i) ≠ SFS_FREE) →
  ∃ c, shows c d ∧ boot_find s = Some ((-1, 0), update os_cache c s).
Proof.
  intros Hs Hinv Hneg Hfull. unfold boot_find.
  pose proof (sfs_lookup_run d SFS_ROOT (lit "bootcount") (proj1 Hinv) ltac:(done) (lit_nul _)) as El.
  destruct (fs_call_run _ _ _ _ s Hs El) as (c1 & E1 & Hc1). rewrite E1, (proj2 (Z.ltb_lt _ _)) by done.
  destruct (create_file_cases d SFS_ROOT (lit "bootcount") Hinv (root_dir d Hinv) (lit_cstring _) Hneg) as (r & d1 & E & _ & _ & Hc).
  destruct Hc as [(-> & -> & _)|(Hr & Hcr & _)]; [|by destruct (Hfull r Hr); apply Hcr].
  destruct (fs_call_run _ _ _ _ (update os_cache c1 s) Hc1 E) as (c2 & E2 & Hc2). exists c2. split; [done|]. rewrite E2. by destruct s.
Qed.

Lemma boot_store_nowhere (s : K) d : shows (o_cache s) d →
  fs_call (read_inode (-1)) s = None ∧ fs_call (sfs_write (-1) [49; 0] 1) s = None ∧ boot_store (-1, 0) s = None.
Proof.
  intros [Hc _].
  assert (∀ B (k : inode_t → prog B) C (q : B → M K C), (fs_call (read_inode (-1) ≫= k) ≫= q) s = None) as Hn
    by (intros; apply fs_call_fault, inode_nowhere, Hc).
  assert (∀ B (k : inode_t → prog B), fs_call (read_inode (-1) ≫= k) s = None) as Hn1.
  { intros B k. unfold fs_call, zoom. cbn [Prelude.view os_cache]. by rewrite inode_nowhere. }
  split; [|split; [exact (Hn1 _ _)|]].
  - unfold fs_call, zoom. cbn [Prelude.view os_cache]. destruct (layer_read_spec (o_cache s) INODE_TABLE_START Hc ltac:(done)) as (c' & E & _).
    unfold read_inode. change (u32 (INODE_TABLE_START + Z.quot (-1) INODES_PER_BLOCK)) with INODE_TABLE_START.
    unfold mbind, prog_bind, read_block. cbn [prog_bind_def run_layer]. change (M_bind _ _ ?k (layer_read INODE_TABLE_START)) with (layer_read INODE_TABLE_START ≫= k).
    by rewrite (M_bind_run _ _ _ _ _ E).
  - unfold boot_store. cbn [fst snd].
    change (negb (in_int (0 + 1))) with false. cbv iota. change (itoa (0 + 1)) with (Some [49; 0]).
    rewrite (M_bind_run _ _ _ _ _ (lift_run _ _)). change (strlen [49; 0]) with (Some 1). rewrite (M_bind_run _ _ _ _ _ (lift_run _ _)).
    exact (Hn _ _ _ _).
Qed.

(** No room for the program, or its name is taken by a directory. *)
Definition no_place (d : disk) : Prop :=
  let f := lookup_at d SFS_ROOT (cstr (lit "hello")) in
  f < 0 ∧ (∀ i, inode_no i → type (inode_at d i) ≠ SFS_FREE) ∨ 0 ≤ f ∧ type (inode_at d f) ≠ SFS_FILE.
Lemma install_hello_run hello (s : K) d : shows (o_cache s) d → fs_inv d → Forall is_byte hello →
  ∃ d' s', install_hello hello s = Some (tt, s') ∧ o_con s' = o_con s ∧ fs_only d' s s' ∧
    (stored d SFS_ROOT (cstr (lit "hello")) hello d' ∨ d' = d ∧ no_place d).
Proof.
  intros Hs Hinv Hb. unfold install_hello. pose proof (root_dir d Hinv) as Hroot. set (nm := lit "hello") in *.
  pose proof (sfs_lookup_run d SFS_ROOT nm (proj1 Hinv) ltac:(done) (lit_nul _)) as El.
  destruct (fs_call_run _ _ _ _ s Hs El) as (c1 & E1 & Hc1). rewrite E1. set (f := lookup_at d SFS_ROOT (cstr nm)) in *.
  assert (∃ i d1 c, shows c d1 ∧ fs_inv d1 ∧ is_dir d1 SFS_ROOT ∧
    (∀ B (k : Z → M K B), ((if f <? 0 then fs_call (sfs_create SFS_ROOT nm SFS_FILE) else mret f) ≫= k) (update os_cache c1 s) = k i (update os_cache c s)) ∧
    (i < 0 ∧ d1 = d ∧ no_place d ∨ inode_no i ∧ (i = f ∧ d1 = d ∨
     f = -1 ∧ type (inode_at d i) = SFS_FREE ∧ type (inode_at d1 i) = SFS_FILE ∧ file_bytes d1 i = [] ∧
       added (dir_slots d SFS_ROOT) (i + 1, take 27 (cstr nm)) (dir_slots d1 SFS_ROOT) ∧ ∀ j, inode_no j → j ≠ i → j ≠ SFS_ROOT → same_object d d1 j)))
    as (i & d1 & c & Hc & Hinv1 & Hdir1 & E2 & Hcase).
  { destruct (Z.ltb_spec f 0) as [Hneg|Hpos].
    - destruct (create_file_cases d SFS_ROOT nm Hinv Hroot (lit_cstring _) Hneg) as (r & d1 & E & Hinv1 & Hdir1 & Hr).
      destruct (fs_call_run _ _ _ _ (update os_cache c1 s) Hc1 E) as (c2 & E2 & Hc2).
      exists r, d1, c2. split_and!; [done..|intros; rewrite E2; by destruct s|].
      destruct Hr as [(-> & -> & Hfull)|(Hr & Hcr & _ & Hadd)]; [left; split; [lia|]; split; [done|by left]|right]. split; [done|]. right.
      destruct (lookup_at_neg d SFS_ROOT (cstr nm) (proj1 Hinv) ltac:(done) (upto0_nonzero nm)) as [H|H]; fold f in H; [lia|].
      split_and!; [done|apply Hcr|apply Hcr|by apply Hcr|done|apply Hcr].
    - exists f, d, c1. split_and!; [done..|]. right. split; [apply lookup_at_no; [apply Hinv|done|apply upto0_nonzero|done]|by left]. }
  rewrite E2. destruct Hcase as [(Hneg & -> & Hno)|(Hi & Hcase)].
  - rewrite (proj2 (Z.leb_gt _ _)) by done. rewrite bind_ret.
    destruct (sync_cache (update os_cache c s) d Hc) as (c3 & _ & E3 & Hc3 & Hdur). exists d, (update os_cache c3 (update os_cache c s)).
    split; [done|]. split; [done|]. split; [split; [by destruct s|done|done|exact Hdur]|by right].
  - rewrite (proj2 (Z.leb_le _ _)) by (destruct Hi; lia).
    destruct (stored_write d d1 SFS_ROOT (cstr nm) i hello [] Hinv Hroot Hi Hinv1 Hdir1) as (r & d2 & Ew & Hinv2 & _ & Hst & Hnot);
      [by rewrite app_nil_r|done|]. rewrite app_nil_r in Ew.
    destruct (fs_call_run _ _ _ _ (update os_cache c s) Hc Ew) as (c2 & E3 & Hc2). rewrite E3.
    destruct (sync_cache (update os_cache c2 (update os_cache c s)) d2 Hc2) as (c3 & _ & E4 & Hc3 & Hdur).
    eexists d2, _. split; [exact E4|]. split; [done|]. split; [split; [by destruct s|done|done|exact Hdur]|].
    destruct (decide (type (inode_at d1 i) = SFS_FILE)) as [Hf|Hf]; [left; by apply Hst|right]. split; [by apply Hnot|].
    destruct Hcase as [[Ei ->]|(_ & _ & ? & _)]; [|congruence]. right. fold nm f. rewrite <-Ei. destruct Hi. split; [lia|done].
Qed.
End boot.
