(* ===== verification/KernelBoot.v ===== *)
(** * What the boot sequence establishes

    From the machine as the loader leaves it, [main] reaches its idle loop; the
    phases in the order of kernel/kernel.c. *)

From S2P Require Import Prelude Pmm Kheap CString Block Bcache Ports Sfs SfsLayout SfsInv SfsFile SfsDir SfsOps SfsTree SfsSpec Devices Serial Screen Keyboard Alloc Cpu Task TaskSwitch TaskInv TaskSpec Elf Paging Segments Interrupts Green Shell ShellRun ShellFs ShellSpec ShellPwd Os Exec ExecUser ShellMain ShellGt ShellLine KernelTasks Kernel KernelSpec.

Section boot.
Context {HW D : Type} {PW : Ports HW} {PC : PcPorts HW} {AD : AtaDisk D} {AS : AtaDiskSpec D}.
Abbreviation K := (os HW D).
Variables (A : addrs) (T : tables) (blo bhi : Z) (raw : task_t) (hello : list Z).

(** ** Text, in whatever colour *)

Definition dev_of (c : console HW) : pc := pc_of c.1.
(** The console has told [txt]; the other devices are as before. *)
Definition tells (txt : list Z) (c c' : console HW) : Prop :=
  console_inv c' ∧ sent (com1 (dev_of c')) = sent (com1 (dev_of c)) ++ txt ∧
  pic1 (dev_of c') = pic1 (dev_of c) ∧ pic2 (dev_of c') = pic2 (dev_of c) ∧ timer0 (dev_of c') = timer0 (dev_of c).

Lemma tells_printed txt c c' : printed txt c c' → tells txt c c'.
Proof. intros (H & _ & _ & S & P1 & P2 & T0). by split_and!. Qed.
Lemma tells_app t1 t2 c1 c2 c3 : tells t1 c1 c2 → tells t2 c2 c3 → tells (t1 ++ t2) c1 c3.
Proof.
  intros (_ & S1 & P1 & Q1 & T1) (H & S2 & P2 & Q2 & T2). split; [done|]. rewrite S2, S1, app_assoc. split_and!; congruence.
Qed.

(** A step that only tells something. *)
Definition telling (c : M K unit) (txt : list Z) : Prop := ∀ s, console_inv (o_con s) →
  ∃ t, c s = Some (tt, update os_con t s) ∧ tells txt (o_con s) t.
Lemma telling_bind c1 c2 t1 t2 : telling c1 t1 → telling c2 t2 → telling (_ ← c1; c2) (t1 ++ t2).
Proof.
  intros H1 H2 s Hs. destruct (H1 s Hs) as (u & E1 & P1). destruct (H2 (update os_con u s) ltac:(apply P1)) as (v & E2 & P2).
  exists v. rewrite (M_bind_run _ _ _ _ _ E1), E2. split; [done|]. by eapply tells_app.
Qed.
Lemma telling_out l : cstring l → telling (out l) (cstr l).
Proof. intros Hl s Hs. destruct (out_run l s Hl Hs) as (t & _ & E & P). exists t. split; [done|]. by apply tells_printed. Qed.
Lemma telling_dec v x : -2147483648 ≤ v < 2147483648 → itoa v = Some (x ++ [0]) → telling (out_dec v) x.
Proof.
  intros Hv Hx s Hs. destruct (kprint_dec_printed v (o_con s) Hv Hs) as (y & t & Ey & E & P). rewrite Hx in Ey. injection Ey as Ey.
  apply app_inj_2 in Ey as [<- _]; [|done]. exists t. split; [by apply (zoom_run os_con)|]. by apply tells_printed.
Qed.
Lemma telling_color col : telling (zoom os_con (set_color col)) [].
Proof.
  intros s Hs. eexists. split; [by apply (zoom_run os_con)|]. unfold tells. rewrite app_nil_r. split_and!; try done.
Qed.
Lemma telling_root (s : K) : o_cwd s = SFS_ROOT → file_cmd print_cwd s = out (lit "/") s.
Proof. intros Hw. rewrite out_file. unfold file_cmd, zoom, print_cwd. rewrite bind_gets. cbn [Prelude.view os_shell cwd]. by rewrite Hw. Qed.

(** ** The machine *)

Definition banner_text : list Z :=
  cstr (lit_ln "============================") ++ cstr (lit_ln "   Welcome to JacobOS") ++ cstr (lit_ln "============================").
Lemma telling_eq c t t' : telling c t → t = t' → telling c t'.
Proof. by intros ? <-. Qed.

Lemma banner_tells : telling banner banner_text.
Proof.
  eapply telling_eq.
  - repeat first [eapply telling_bind | apply telling_color | apply telling_out; auto with os].
  - cbn [app]. by rewrite app_nil_r.
Qed.

(** The addresses the linker gives are 32 bits wide. *)
Record linked : Prop := {
  li_tss : 0 ≤ a_tss T < 4294967296;
  li_isr : ∀ k, 0 ≤ a_isr T k < 4294967296;
  li_irq : ∀ k, 0 ≤ a_irq T k < 4294967296;
  li_128 : 0 ≤ a_isr128 T < 4294967296;
}.

(** The keyboard before the first key. *)
Definition at_rest (k : kbd) : Prop := kbd_ok k ∧ editor_of k = Editor [] false false.

(** The kernel as the loader leaves it, over a drive at rest that holds [d]: the
    static arrays have their sizes, the variables that start at zero are zero,
    and the stack is the one the loader set up. *)
Record power_on (d : disk) (s : K) : Prop := {
  po_page : length (vga (o_con s).2) = Z.to_nat CELLS;
  po_gdt : length (gdt (o_segs s)) = GDT_ENTRIES;
  po_idt : length (idt (o_intr s)) = IDT_ENTRIES;
  po_handlers : length (interrupt_handlers (o_intr s)) = 256%nat;
  po_bitmap : length (bitmap (o_pmm s)) = 256%nat;
  po_directory : length (page_directory (o_mmu s)) = 1024%nat;
  po_slots : length (slots (o_cache s)) = SLOTS;
  po_data : Forall (λ x, length (data x) = BLOCK_SIZE) (slots (o_cache s));
  po_rest : disk_rest (dev (o_cache s));
  po_disk : ∀ b, on_disk b → disk_sector (dev (o_cache s)) b = sector d b;
  po_tasks : tasks (o_sched s) = ∅;
  po_stack : blo ≤ r_esp (regs (o_sched s)) ≤ bhi;
  po_cwd : o_cwd s = SFS_ROOT;
  po_keys : at_rest (o_kbd s);
}.

(** After the first phase. *)
Record machine_up (s s' : K) : Prop := {
  mu_rest : s' = Os (o_con s') (o_cache s) (Os.with_heap (heap (o_sched s')) (o_sched s)) (o_fibers s) (o_exec s) (o_pmm s') (o_mmu s')
    (o_ram s) (o_segs s') (o_intr s') (o_kbd s) (o_ticks s) (o_cwd s) (o_worker_ticks s);
  mu_con : console_inv (o_con s');
  mu_text : sent (com1 (dev_of (o_con s'))) = sent (com1 (dev_of (o_con s))) ++ banner_text ++ cstr (lit_ln "[ok] paging + heap");
  mu_pic1 : ∃ n, pic1 (dev_of (o_con s')) = Pic 0 32 4 1 0 n;
  mu_pic2 : ∃ n, pic2 (dev_of (o_con s')) = Pic 0 40 2 1 0 n;
  mu_frames : pmm_ok (o_pmm s') ∧ frames (o_pmm s') = reserved;
  mu_paging : paged (a_directory T) [] (o_mmu s');
  mu_heap : heap_ok (heap (o_sched s')) [(HEAP_SIZE - HDR, true)];
  mu_segs : segments_ready (a_tss T) (a_gdt T) (o_segs s');
  mu_vectors : vectors_ready (a_idt T) (a_isr T) (a_irq T) (a_isr128 T) (o_intr s');
  mu_handlers : interrupt_handlers (o_intr s') = interrupt_handlers (o_intr s);
}.

Lemma start_machine_run d (s : K) : linked → power_on d s → ∃ s', start_machine T s = Some (tt, s') ∧ machine_up s s'.
Proof.
  intros [Ltss Lisr Lirq L128] Hp. unfold start_machine.
  destruct (screen_init_ready (o_con s).1 (o_con s).2 (po_page _ _ Hp)) as (c1 & E1 & I1 & _ & _ & S1).
  rewrite <-surjective_pairing in E1. rewrite (zoom_bind os_con _ _ s _ _ E1). set (s1 := update os_con c1 s).
  destruct (banner_tells s1 I1) as (c2 & E2 & T2). rewrite (M_bind_run _ _ _ _ _ E2). set (s2 := update os_con c2 s1).
  destruct (gdt_install_run (a_tss T) (a_gdt T) (o_segs s2) (po_gdt _ _ Hp) Ltss) as (sg & E3 & Hsg).
  rewrite (zoom_bind os_segs _ _ s2 _ _ E3). set (s3 := update os_segs sg s2).
  destruct (isr_install_ready (a_idt T) (a_isr T) (a_irq T) (a_isr128 T) c2.1 (o_intr s3) (po_idt _ _ Hp) Lisr Lirq L128) as (h4 & it & E4 & D4 & Hh & Hv).
  rewrite (zoom_bind os_irq _ _ s3 _ _ E4). set (s4 := update os_irq (h4, it) s3).
  destruct (pmm_init_run (o_pmm s4) (po_bitmap _ _ Hp)) as (pm & E5 & Hpm & Hfr).
  rewrite (zoom_bind os_pmm _ _ s4 _ _ E5). set (s5 := update os_pmm pm s4).
  destruct (paging_init_run (a_directory T) (o_mmu s5) (po_directory _ _ Hp)) as (mm & E6 & Hpg).
  rewrite (zoom_bind os_mmu _ _ s5 _ _ E6). set (s6 := update os_mmu mm s5).
  destruct (kheap_init_run (heap (o_sched s6))) as (h & E7 & Hheap).
  rewrite (zoom_bind os_heap _ _ s6 _ _ E7). set (s7 := update os_heap h s6).
  destruct T2 as (I2 & S2 & _).
  assert (console_inv (o_con s7)) as I7.
  { destruct I2 as (H1 & H2 & H3). unfold console_inv, serial_ready in *. cbn [o_con fst snd s7 s6 s5 s4 update os_heap os_mmu os_pmm os_irq os_sched] in *.
    by rewrite D4. }
  destruct (telling_out (lit_ln "[ok] paging + heap") ltac:(auto with os) s7 I7) as (c8 & E8 & I8 & S8 & P8 & Q8 & _).
  exists (update os_con c8 s7). split; [exact E8|]. split; try done.
  - cbn [o_con update os_con]. rewrite S8. unfold dev_of in *. change (o_con s7) with (h4, c2.2). cbn [fst]. rewrite D4. cbn [com1 remapped].
    rewrite S2. change (o_con s1) with c1. by rewrite S1, <-app_assoc.
  - cbn [o_con update os_con]. rewrite P8. change (dev_of (o_con s7)) with (pc_of h4). rewrite D4. by eexists.
  - cbn [o_con update os_con]. rewrite Q8. change (dev_of (o_con s7)) with (pc_of h4). rewrite D4. by eexists.
Qed.

(** ** The disk *)

Lemma mount_run (s : K) d d1 : length (slots (o_cache s)) = SLOTS → Forall (λ x, length (data x) = BLOCK_SIZE) (slots (o_cache s)) →
  disk_rest (dev (o_cache s)) → (∀ b, on_disk b → disk_sector (dev (o_cache s)) b = sector d b) → run_disk sfs_init d = Some (tt, d1) →
  ∃ c, mount s = Some (tt, update os_cache c s) ∧ shows c d1.
Proof.
  intros Hl Hdata Hrest Hdisk Hrun. unfold mount. destruct (disk_init_spec _ Hrest) as (v & Ev & Hv & Hsame).
  set (c1 := Bcache (slots (o_cache s)) (hand (o_cache s)) (hits (o_cache s)) (misses (o_cache s)) v).
  assert (on_dev ata_init (o_cache s) = Some (tt, c1)) as E1 by (unfold on_dev; by rewrite Ev).
  rewrite (zoom_bind os_cache _ _ s _ _ E1). destruct (bcache_init_ok c1 Hl Hdata Hv) as (c2 & E2 & Hok2 & _ & Hview).
  rewrite (zoom_bind os_cache _ _ (update os_cache c1 s) _ _ E2).
  assert (shows c2 d) as Hs2.
  { split; [done|]. intros b Hb. change (layer_view c2 b) with (view c2 b). rewrite Hview. change (dev c1) with v. rewrite Hsame by done. by apply Hdisk. }
  destruct (run_refines sfs_init c2 d tt d1 Hs2 Hrun) as (c3 & E3 & Hc3). exists c3. split; [|done].
  by apply (zoom_run os_cache _ (update os_cache c2 (update os_cache c1 s))).
Qed.

(** ** The tasks *)

Definition tasks_text : list Z := cstr (lit "[ok] scheduler + ") ++ [51] ++ cstr (lit_ln " tasks").

(** After the start of the tasks. *)
Record tasks_up (s s' : K) : Prop := {
  tu_rest : s' = Os (o_con s') (o_cache s) (o_sched s') (o_fibers s) (o_exec s) (o_pmm s) (o_mmu s)
    (o_ram s) (o_segs s) (o_intr s') (o_kbd s) (o_ticks s) (o_cwd s) (o_worker_ticks s);
  tu_con : console_inv (o_con s');
  tu_text : sent (com1 (dev_of (o_con s'))) = sent (com1 (dev_of (o_con s))) ++ tasks_text;
  tu_pics : pic1 (dev_of (o_con s')) = pic1 (dev_of (o_con s)) ∧ pic2 (dev_of (o_con s')) = pic2 (dev_of (o_con s));
  tu_timer : pit_mode (timer0 (dev_of (o_con s'))) = 3 ∧ reload (timer0 (dev_of (o_con s'))) = 11931;
  tu_idt : idt (o_intr s') = idt (o_intr s) ∧ idtr (o_intr s') = idtr (o_intr s);
  tu_handlers : interrupt_handlers (o_intr s') = <[32%nat := a_timer_callback T]> (interrupt_handlers (o_intr s));
  tu_sched : ∃ live, sched_ok blo bhi TASK_RUNNING (o_sched s') live;
  tu_regs : regs (o_sched s') = regs (o_sched s);
  tu_live : all_live (o_sched s') ∧ base.size (tasks (o_sched s')) = 3%nat;
}.

Lemma start_tasks_run (s : K) : boot_ok blo bhi → console_inv (o_con s) → tasks (o_sched s) = ∅ →
  heap_ok (heap (o_sched s)) [(HEAP_SIZE - HDR, true)] → blo ≤ r_esp (regs (o_sched s)) ≤ bhi → length (interrupt_handlers (o_intr s)) = 256%nat →
  ∃ s', start_tasks A T raw s = Some (tt, s') ∧ tasks_up s s'.
Proof.
  intros Hboot Hcon Hnone Hheap Hsp Hlen. unfold start_tasks.
  destruct (three_tasks (a_task_exit A) (a_task_bootstrap A) blo bhi raw Hboot (a_shell_worker A) (o_sched s) Hnone Hheap Hsp)
    as (s1 & t2 & s2 & t3 & s3 & live & E1 & E2 & E3 & Hok & Hregs & Hall & Hsize).
  pose proof (count_started blo bhi TASK_RUNNING s3 live Hok Hall) as Hcount. rewrite Hsize in Hcount. change (Z.of_nat 3) with 3 in Hcount.
  rewrite (zoom_bind os_sched _ _ s _ _ E1). rewrite (zoom_bind os_sched _ _ (update os_sched s1 s) _ _ E2).
  rewrite (zoom_bind os_sched _ _ (update os_sched s2 (update os_sched s1 s)) _ _ E3).
  set (u3 := update os_sched s3 _).
  destruct (init_timer_run (a_timer_callback T) (o_con u3).1 (o_intr u3) 100 ltac:(lia) Hlen) as (h4 & t4 & E4 & D4 & Hm & Hr).
  rewrite (zoom_bind os_irq _ _ u3 _ _ E4). set (u4 := update os_irq _ u3).
  assert (console_inv (o_con u4)) as I4.
  { destruct Hcon as (H1 & H2 & H3). unfold console_inv, serial_ready in *. cbn [o_con fst snd u4 u3 update os_irq os_sched] in *. by rewrite D4. }
  unfold out_lit. destruct (telling_out (lit "[ok] scheduler + ") ltac:(auto with os) u4 I4) as (c5 & E5 & T5).
  rewrite (M_bind_run _ _ _ _ _ E5). rewrite (zoom_bind os_sched _ _ (update os_con c5 u4) _ _ Hcount). set (u5 := update os_sched s3 _).
  destruct (telling_bind _ _ _ _ (telling_dec 3 [51] ltac:(lia) eq_refl) (telling_out (lit_ln " tasks") ltac:(auto with os)) u5 ltac:(apply T5)) as (c6 & E6 & T6).
  pose proof (tells_app _ _ _ _ _ T5 T6) as (I & S & P & Q & R).
  eexists. split; [exact E6|].
  assert (pc_of (o_con u4).1 = Pc (com1 (dev_of (o_con s))) (vga_ctl (dev_of (o_con s))) (pic1 (dev_of (o_con s))) (pic2 (dev_of (o_con s))) t4) as D5 by exact D4.
  unfold dev_of in P, Q, R, S. rewrite D5 in P, Q, R, S. split; cbn [o_con update os_con]; unfold dev_of; try done.
  - rewrite R. by split.
  - by exists live.
Qed.

(** ** The shell *)

Lemma prompt_root (s : K) : console_inv (o_con s) → o_cwd s = SFS_ROOT →
  ∃ t, prompt s = Some (tt, update os_con t s) ∧ tells (cstr (lit "/ $ ")) (o_con s) t.
Proof.
  intros Hs Hw. unfold prompt. destruct (telling_color (VGA_COLOR VGA_LIGHT_GREEN VGA_BLACK) s Hs) as (t1 & E1 & T1).
  rewrite (M_bind_run _ _ _ _ _ E1). destruct (telling_out (lit "/") ltac:(auto with os) (update os_con t1 s) ltac:(apply T1)) as (t2 & E2 & T2).
  rewrite <-telling_root in E2 by done. rewrite (M_bind_run _ _ _ _ _ E2).
  destruct (telling_bind _ _ _ _ (telling_out (lit " $ ") ltac:(auto with os)) (telling_color (VGA_COLOR VGA_LIGHT_GREY VGA_BLACK))
    (update os_con t2 (update os_con t1 s)) ltac:(apply T2)) as (t3 & E3 & T3).
  exists t3. split; [exact E3|]. exact (tells_app _ _ _ _ _ T1 (tells_app _ _ _ _ _ T2 T3)).
Qed.

Definition shell_text : list Z := cstr (10 :: lit_ln "type 'help' for commands.") ++ cstr (lit "/ $ ").
Lemma shell_init_run (s : K) : console_inv (o_con s) → o_cwd s = SFS_ROOT →
  ∃ k t, shell_init A s = Some (tt, update os_con t (update os_keys (s, k) s)) ∧ line_handler k = a_handle_line A ∧
    (at_rest (o_kbd s) → at_rest k) ∧ tells shell_text (o_con s) t.
Proof.
  intros Hs Hw. unfold shell_init. set (k := Kbd (line_buf (o_kbd s)) (line_len (o_kbd s)) (shift (o_kbd s)) (caps (o_kbd s)) (a_handle_line A)).
  assert (keyboard_set_line_handler (a_handle_line A) (s, o_kbd s) = Some (tt, (s, k))) as E by done.
  rewrite (zoom_bind os_keys _ _ s _ _ E). set (s1 := update os_keys (s, k) s).
  assert (cstring (10 :: lit_ln "type 'help' for commands.")) as Hc.
  { destruct (lit_ln_cstring "type 'help' for commands.") as [H0 Hb]. split; [by right|by constructor]. }
  destruct (telling_out _ Hc s1 Hs) as (t1 & E1 & T1). rewrite (M_bind_run _ _ _ _ _ E1).
  destruct (prompt_root (update os_con t1 s1) ltac:(apply T1) Hw) as (t2 & E2 & T2).
  exists k, t2. split; [exact E2|]. split; [done|]. split; [done|]. exact (tells_app _ _ _ _ _ T1 T2).
Qed.

(** ** The whole *)

(** Everything [main] prints, with the numeral of the boot in it. *)
Definition boot_text (x : list Z) : list Z :=
  banner_text ++ cstr (lit_ln "[ok] paging + heap") ++ mounted_text x ++ tasks_text ++ shell_text.

(** The system after boot number [n] over a disk that shows [d], in the root
    directory, having printed [txt]. *)
Record running (n : Z) (d : disk) (txt : list Z) (s s' : K) : Prop := {
  ru_ready : ∃ live, os_ok live d SFS_ROOT s' ∧ sched_ok blo bhi TASK_RUNNING (o_sched s') live;
  ru_durable : durable d s';
  ru_counts : counts d n;
  ru_text : os_printed s' = os_printed s ++ txt;
  ru_tasks : all_live (o_sched s') ∧ base.size (tasks (o_sched s')) = 3%nat;
  ru_frames : pmm_ok (o_pmm s') ∧ frames (o_pmm s') = reserved;
  ru_paging : paged (a_directory T) [] (o_mmu s');
  ru_segments : segments_ready (a_tss T) (a_gdt T) (o_segs s');
  ru_vectors : vectors_ready (a_idt T) (a_isr T) (a_irq T) (a_isr128 T) (o_intr s');
  ru_pics : (∃ k, pic1 (dev_of (o_con s')) = Pic 0 32 4 1 0 k) ∧ (∃ k, pic2 (dev_of (o_con s')) = Pic 0 40 2 1 0 k);
  ru_timer : pit_mode (timer0 (dev_of (o_con s'))) = 3 ∧ reload (timer0 (dev_of (o_con s'))) = 11931;
  ru_handlers : interrupt_handlers (o_intr s') !! 32%nat = Some (a_timer_callback T) ∧
    interrupt_handlers (o_intr s') !! 33%nat = Some (a_keyboard_callback T);
  ru_keys : at_rest (o_kbd s');
}.

Lemma sti_running n d txt s (s1 : K) : running n d txt s s1 →
  ∃ s2, zoom os_sched (set_if true) s1 = Some (tt, s2) ∧ running n d txt s s2 ∧ r_if (regs (o_sched s2)) = true.
Proof.
  intros [(live & [] & Sc) ? ? ? ? ? ? ? ? ? ? ? ?]. eexists. split; [by apply (zoom_run os_sched)|]. split; [|done].
  split; try done. exists live. split; [by split|]. destruct Sc. by split.
Qed.

Lemma shell_running n d txt s (s1 : K) : running n d txt s s1 →
  ∃ s2, shell_init A s1 = Some (tt, s2) ∧ running n d (txt ++ shell_text) s s2 ∧
    line_handler (o_kbd s2) = a_handle_line A ∧ o_sched s2 = o_sched s1.
Proof.
  intros [(live & [] & Sc) ? ? X ? ? ? ? ? Pics Tm ? Hkr].
  destruct (shell_init_run s1) as (k & t & E & Hk & Hrest & (C & X2 & Pa & Pb & Ti)); [done..|]. eexists. split; [exact E|]. split; [|done].
  split; try done.
  - by exists live.
  - rewrite app_assoc, <-X. exact X2.
  - cbn [o_con update os_con os_keys fst]. by rewrite Pa, Pb.
  - cbn [o_con update os_con os_keys fst]. by rewrite Ti.
  - by apply Hrest.
Qed.

(** The program is in its file, unless there is no place for it. *)
Definition installed (d d' : disk) : Prop :=
  let i := lookup_at d' SFS_ROOT (cstr (lit "hello")) in
  no_place d ∨ inode_no i ∧ type (inode_at d' i) = SFS_FILE ∧ file_bytes d' i = take (Z.to_nat MAX_BYTES) hello.

(** The disk after both blocks of [main] that write to it. *)
Lemma boot_files (s : K) d n : console_inv (o_con s) → shows (o_cache s) d → fs_inv d → next_boot d n → Forall is_byte hello →
  ∃ x d1 d2 s1 s2, boot_counter s = Some (tt, s1) ∧ install_hello hello s1 = Some (tt, s2) ∧ itoa n = Some (x ++ [0]) ∧
    tells (mounted_text x) (o_con s) (o_con s2) ∧ counts d2 n ∧ installed d1 d2 ∧ fs_only d2 s s2.
Proof.
  intros Hcon Hs Hinv Hn Hby. destruct (boot_counter_run s d n Hcon Hs Hinv Hn) as (x & d1 & s1 & E1 & Ex & P1 & Hc1 & [R1 F1 I1 _] & _).
  destruct (install_hello_run hello s1 d1 F1 I1 Hby) as (d2 & s2 & E2 & Hc & [R2 F2 I2 Hdur] & Hst).
  exists x, d1, d2, s1, s2. split; [done|]. split; [done|]. split; [done|]. split; [rewrite Hc; by apply tells_printed|].
  pose proof (root_dir d1 I1) as Hr1. pose proof (root_dir d2 I2) as Hr2.
  split; [|split; [|split; [rewrite R2, R1; by destruct s|done..]]].
  - destruct Hst as [Hst|[-> _]]; [|done]. destruct Hc1 as (Hi & Hty & Hx). unfold counts.
    destruct (stored_other d1 SFS_ROOT _ hello d2 (cstr (lit "bootcount")) Hst I1 Hr1 Hr2) as [-> Hsame]; try done; [by apply Nat.leb_le|].
    rewrite (proj1 Hsame), (same_object_bytes _ _ _ Hsame). done.
  - destruct Hst as [Hst|[-> Hno]]; [right|by left]. apply (stored_lookup d1 SFS_ROOT _ hello d2 Hst (proj1 I1) Hr1 Hr2); [apply upto0_nonzero|by apply Nat.leb_le].
Qed.

(** The disk and the tasks, on the machine as the first phase leaves it. *)
Lemma tasks_running (s s1 : K) d d1 n : boot_ok blo bhi → power_on d s → machine_up s s1 → run_disk sfs_init d = Some (tt, d1) → fs_inv d1 →
  next_boot d1 n → Forall is_byte hello →
  ∃ x d2 d3 s6, itoa n = Some (x ++ [0]) ∧ installed d2 d3 ∧
    running n d3 (banner_text ++ cstr (lit_ln "[ok] paging + heap") ++ mounted_text x ++ tasks_text) s s6 ∧
    ∀ B (k : unit → M K B), (_ ← mount; _ ← boot_counter; _ ← install_hello hello; _ ← zoom os_irq (init_keyboard (a_keyboard_callback T));
      _ ← start_tasks A T raw; k tt) s1 = k tt s6.
Proof.
  intros Hboot Hp [R1 C1 X1 Pa1 Pb1 Fr1 Pg1 Hp1 Sg1 V1 Hd1] Hmount Hinv Hnext Hby.
  destruct (mount_run s1 d d1) as (c2 & E2 & Hc2); [rewrite R1; apply Hp..|done|]. set (s2 := update os_cache c2 s1).
  destruct (boot_files s2 d1 n C1 Hc2 Hinv Hnext Hby) as (x & d2 & d3 & s3 & s4 & E3 & E4 & Ex & (C4 & X4 & Pa4 & Pb4 & _) & Hcnt & Hin & [R4 F4 I4 Hdur]).
  assert (length (interrupt_handlers (o_intr s4)) = 256%nat) as Hl4 by (rewrite R4; cbn [o_intr update os_cache os_con s2]; rewrite Hd1; apply Hp).
  set (i5 := Intr (idt (o_intr s4)) (idt_reg (o_intr s4)) (idtr (o_intr s4)) (<[33%nat := a_keyboard_callback T]> (interrupt_handlers (o_intr s4)))).
  assert (init_keyboard (a_keyboard_callback T) ((o_con s4).1, o_intr s4) = Some (tt, ((o_con s4).1, i5))) as E5
    by (apply (zoom_run snd_lens _ ((o_con s4).1, o_intr s4)), register_run; [by apply Nat.ltb_lt|done]).
  set (s5 := update os_irq ((o_con s4).1, i5) s4).
  assert (o_sched s5 = Os.with_heap (heap (o_sched s1)) (o_sched s)) as Hs5 by (cbn [o_sched update os_irq s5]; rewrite R4; cbn [o_sched update os_cache os_con s2]; by rewrite R1 at 1).
  destruct (start_tasks_run s5 Hboot C4) as (s6 & E6 & [R6 C6 X6 [Pa6 Pb6] Ti6 [Id6 Ir6] Hd6 [live Sc6] Rg6 Tk6]);
    [rewrite Hs5; apply Hp|rewrite Hs5; exact Hp1|rewrite Hs5; apply Hp|cbn [o_intr snd interrupt_handlers update os_irq s5 i5]; by rewrite length_insert|].
  exists x, d2, d3, s6. split; [done|]. split; [done|]. split.
  2: { intros B k. by rewrite (M_bind_run _ _ _ _ _ E2), (M_bind_run _ _ _ _ _ E3), (M_bind_run _ _ _ _ _ E4), (zoom_bind os_irq _ _ s4 _ _ E5), (M_bind_run _ _ _ _ _ E6). }
  change (dev_of (o_con s5)) with (dev_of (o_con s4)) in X6, Pa6, Pb6.
  assert (s6 = Os (o_con s6) (o_cache s4) (o_sched s6) (o_fibers s) (o_exec s) (o_pmm s1) (o_mmu s1) (o_ram s) (o_segs s1) (o_intr s6) (o_kbd s) (o_ticks s) SFS_ROOT (o_worker_ticks s)) as R.
  { rewrite R6 at 1. unfold s5. rewrite R4. unfold s2. rewrite R1. cbn. by rewrite (po_cwd _ _ Hp). }
  assert (idt (o_intr s6) = idt (o_intr s1) ∧ idtr (o_intr s6) = idtr (o_intr s1)) as [Qi Qr].
  { rewrite Id6, Ir6. cbn [o_intr snd idt idtr update os_irq s5 i5]. by rewrite R4. }
  clear R6 E6. rewrite R. split; cbn [o_con o_cache o_sched o_pmm o_mmu o_segs o_intr]; try done.
  - exists live. split; [|done]. split; [done..|exact (so_heap _ _ _ _ _ Sc6)|done|by apply root_dir].
  - change (sent (com1 (dev_of (o_con s6))) = sent (com1 (dev_of (o_con s))) ++ banner_text ++ cstr (lit_ln "[ok] paging + heap") ++ mounted_text x ++ tasks_text).
    rewrite X6, X4. change (o_con s2) with (o_con s1). rewrite X1. by rewrite <-!app_assoc.
  - unfold vectors_ready, leads_to in *. by rewrite Qi, Qr.
  - by rewrite Pa6, Pb6, Pa4, Pb4.
  - rewrite Hd6. cbn [o_intr snd interrupt_handlers update os_irq s5 i5].
    rewrite list_lookup_insert_eq by (rewrite length_insert, Hl4; by apply Nat.ltb_lt). rewrite list_lookup_insert_ne by done.
    by rewrite list_lookup_insert_eq by (rewrite Hl4; by apply Nat.ltb_lt).
  - apply Hp.
Qed.

Lemma main_run (s : K) d d1 n : linked → boot_ok blo bhi → power_on d s → run_disk sfs_init d = Some (tt, d1) → fs_inv d1 → next_boot d1 n →
  Forall is_byte hello →
  ∃ x d2 d3 s', main A T raw hello s = Some (tt, s') ∧ itoa n = Some (x ++ [0]) ∧ running n d3 (boot_text x) s s' ∧ installed d2 d3 ∧
    line_handler (o_kbd s') = a_handle_line A ∧ r_if (regs (o_sched s')) = true.
Proof.
  intros Hlink Hboot Hp Hmount Hinv Hnext Hby. unfold main.
  destruct (start_machine_run d s Hlink Hp) as (s1 & E1 & Hup). rewrite (M_bind_run _ _ _ _ _ E1).
  destruct (tasks_running s s1 d d1 n Hboot Hp Hup Hmount Hinv Hnext Hby) as (x & d2 & d3 & s6 & Ex & Hin & Hr6 & E6).
  rewrite (E6 _ (λ _, _ ← zoom os_sched (set_if true); shell_init A)).
  destruct (sti_running _ _ _ _ _ Hr6) as (s7 & E7 & Hr7 & Hif). rewrite (M_bind_run _ _ _ _ _ E7).
  destruct (shell_running _ _ _ _ _ Hr7) as (s8 & E8 & Hr8 & Hk & Hs8).
  exists x, d2, d3, s8. rewrite Hs8. rewrite <-!app_assoc in Hr8. split_and!; done.
Qed.
End boot.
