(* ===== verification/KernelProps.v ===== *)
(** * Properties of the boot sequence *)

From S2P Require Import Prelude Pmm Kheap CString Block Bcache Ports Sfs SfsLayout SfsInv SfsFile SfsDir SfsOps SfsTree SfsSpec Devices Serial Screen Keyboard Alloc Cpu Task TaskSwitch TaskInv TaskSpec Elf Paging Segments Interrupts Green Shell ShellRun ShellFs ShellSpec ShellProps Os Exec ExecUser Hello ExecProps ShellMain ShellLine ShellTop KernelTasks Kernel KernelSpec KernelBoot.

(** C18. The system boots: from the state the loader leaves, over a drive at rest
    whose contents mount as [d1] and whose next boot is number [n], [main]
    reaches its idle loop.  Then the descriptor, page and interrupt tables are in
    place and loaded, the interrupt controllers and the timer are programmed and
    their handlers registered, the heap and the frames are as the allocators
    need them, three tasks are in the ring under the scheduler's invariant, the
    shell waits for lines in the root directory of a consistent disk, interrupts
    are on, and the screen and the serial line show the whole start-up text.
    The program image is in its file unless there is no place for it, and the
    drive itself holds a disk from which the next boot is number [n + 1]. *)
Theorem kernel_boots {HW D} {PW : Ports HW} {PC : PcPorts HW} {AD : AtaDisk D} {AS : AtaDiskSpec D}
    A T blo bhi raw hello (s : os HW D) d d1 n
    (Hlinked : linked T) (Hstack : boot_ok blo bhi) (Hpower : power_on blo bhi d s)
    (Hmount : run_disk sfs_init d = Some (tt, d1)) (Hfs : fs_inv d1) (Hnext : next_boot d1 n) (Hhello : Forall is_byte hello) :
  ∃ x d2 d3 s', main A T raw hello s = Some (tt, s') ∧ itoa n = Some (x ++ [0]) ∧ running T blo bhi n d3 (boot_text x) s s' ∧
    task_count (o_sched s') = Some (3, o_sched s') ∧ installed hello d2 d3 ∧
    line_handler (o_kbd s') = a_handle_line A ∧ r_if (regs (o_sched s')) = true ∧
    run_disk sfs_init d3 = Some (tt, d3) ∧ fs_inv d3 ∧ (n < 2147483647 → next_boot d3 (n + 1)).
Proof.
  destruct (main_run A T blo bhi raw hello s d d1 n Hlinked Hstack Hpower Hmount Hfs Hnext Hhello) as (x & d2 & d3 & s' & E & Hx & Hr & Hin & Hk & Hi).
  exists x, d2, d3, s'. do 3 (split; [done|]). destruct Hr as [(live & Hok & Hsc) _ Hc _ [Hall Hsz] _].
  split; [by rewrite (count_started blo bhi TASK_RUNNING _ live Hsc Hall), Hsz|]. do 3 (split; [done|]).
  pose proof (sk_inv _ _ _ _ Hok) as Hinv. split; [rewrite sfs_init_run, decide_True by apply Hinv; done|]. split; [done|].
  intros Hn. right. exists n. split; [done|]. destruct Hnext as [(_ & _ & ->)|(c & _ & Hrg & ->)]; lia.
Qed.

(** C19. The boot counter counts the boots: on a disk whose counter says [n - 1], or
    that has none yet and [n] is 1, booting stores the numeral of [n] in the
    file [bootcount] and announces boot number [n]; the number is on the disk
    itself, so that the next boot finds it, and no other file has changed. *)
Theorem boot_counts {HW D} {PW : Ports HW} {PC : PcPorts HW} {AD : AtaDisk D} {AS : AtaDiskSpec D} (s : os HW D) d n
    (Hcon : console_inv (o_con s)) (Hfs : shows (o_cache s) d) (Hinv : fs_inv d) (Hnext : next_boot d n) :
  ∃ x d' s', boot_counter s = Some (tt, s') ∧ itoa n = Some (x ++ [0]) ∧ printed (mounted_text x) (o_con s) (o_con s') ∧
    counts d' n ∧ fs_only d' s s' ∧ (n < 2147483647 → next_boot d' (n + 1)) ∧
    ∀ j, inode_no j → j ≠ SFS_ROOT → j ≠ lookup_at d' SFS_ROOT (cstr (lit "bootcount")) → same_object d d' j.
Proof.
  destruct (boot_counter_run s d n Hcon Hfs Hinv Hnext) as (x & d' & s' & E & Hx & P & Hc & Ho & Hst).
  exists x, d', s'. split_and!; [done..| |].
  - intros Hn. right. exists n. split; [done|]. destruct Hnext as [(_ & _ & ->)|(c & _ & Hr & ->)]; lia.
  - destruct (stored_found d SFS_ROOT _ x d' Hst) as (i & -> & _ & _ & _ & Hsame); [apply Hinv|by apply root_dir|by apply root_dir, Ho|apply upto0_nonzero|by apply Nat.leb_le|].
    intros j Hj Hr Hi. by apply Hsame.
Qed.

(** C34. The result of creating the counter file is not checked.  On a disk without
    it and without a free inode, [main] goes on with inode -1 and count 0 and
    calls [sfs_write] with that inode; there the record of inode -1 is fetched
    from 64 bytes in front of the buffer the block was read into, so the boot has
    no defined outcome. *)
Theorem boot_full_disk {HW D} {PW : Ports HW} {AD : AtaDisk D} {AS : AtaDiskSpec D} (s : os HW D) d
    (Hfs : shows (o_cache s) d) (Hinv : fs_inv d) (Hnone : lookup_at d SFS_ROOT (cstr (lit "bootcount")) < 0)
    (Hfull : ∀ i, inode_no i → type (inode_at d i) ≠ SFS_FREE) :
  ∃ s1, boot_find s = Some ((-1, 0), s1) ∧ shows (o_cache s1) d ∧
    fs_call (read_inode (-1)) s1 = None ∧ fs_call (sfs_write (-1) [49; 0] 1) s1 = None ∧
    boot_store (-1, 0) s1 = None ∧ boot_counter s = None.
Proof.
  destruct (boot_find_full s d Hfs Hinv Hnone Hfull) as (c & Hc & E). exists (update os_cache c s). split; [exact E|]. split; [exact Hc|].
  destruct (boot_store_nowhere (update os_cache c s) d Hc) as (Hr & Hw & Hb). split; [exact Hr|]. split; [exact Hw|]. split; [exact Hb|].
  unfold boot_counter. rewrite (M_bind_run _ _ _ _ _ E). exact Hb.
Qed.

(** ** Examples *)

#[local] Existing Instance plain_ata.
#[local] Existing Instance plain_ata_spec.

(** The machine of the loader, with a blank drive. *)
Definition sim_tables : tables := Tables 50000 60000 70000 (λ k, 5000 + k `mod` 256) (λ k, 9000 + k `mod` 16) 12000 36864 55 56.
Definition sim_power : os sim_pc disk :=
  Os (SimPc pc_reset [], Screen (replicate 2000 0) 7 0 0) (fresh_cache ∅)
    (Sched heap_empty ∅ ∅ (Cpu 1 2 3 4 585728 99 false) 0 0 0 0 0) (Fibers ∅ 0 0 0 ∅ 0) (ExecVars 0 0 0) (Pmm (replicate 256 0) 0)
    (Mmu (replicate 1024 0) 17 0 0 []) ∅ (Segs (replicate 6 (Gdt 0 0 0 0 0 0)) (GdtPtr 0 0) [] (GdtPtr 0 0) 0 kernel_sel) sim_intr (Kbd (replicate 128 0) 0 0 0 0) 0 0 0.

Lemma sim_power_on : power_on 520192 589824 ∅ sim_power.
Proof.
  split.
  - apply length_replicate.
  - reflexivity.
  - apply length_replicate.
  - apply length_replicate.
  - apply length_replicate.
  - apply length_replicate.
  - reflexivity.
  - by apply Forall_replicate.
  - exact disk_wf_empty.
  - intros b _. reflexivity.
  - reflexivity.
  - cbn. lia.
  - reflexivity.
  - split; [|reflexivity]. split; [apply length_replicate|]. split; [by apply Forall_replicate|]. split; [cbn; unfold LINE_MAX; lia|constructor].
Qed.

Lemma sim_linked : linked sim_tables.
Proof. split; cbn; intros; try lia; pose proof (Z.mod_pos_bound k 256); pose proof (Z.mod_pos_bound k 16); lia. Qed.
Lemma sim_mount : run_disk sfs_init ∅ = Some (tt, boot_disk).
Proof. rewrite sfs_init_run by exact disk_wf_empty. exact (proj1 boot_disk_spec). Qed.
Lemma sim_next : next_boot boot_disk 1.
Proof. left. split; [vm_compute; reflexivity|]. split; [|reflexivity]. exists 2. split; [done|]. vm_compute. reflexivity. Qed.
Lemma numeral_1 x : itoa 1 = Some (x ++ [0]) → [49] = x.
Proof.
  intros Hx. change (itoa 1) with (Some ([49] ++ [0])) in Hx. injection Hx as Hx. change [49; 0] with ([49] ++ [0]) in Hx.
  by apply app_inj_2 in Hx as [? _].
Qed.

Lemma kernel_boots_witness :
  ∃ d s', main sim_addrs sim_tables sim_raw hello_elf sim_power = Some (tt, s') ∧
    os_printed s' = boot_text [49] ∧ counts d 1 ∧ durable d s' ∧ task_count (o_sched s') = Some (3, o_sched s') ∧ next_boot d 2.
Proof.
  destruct (kernel_boots sim_addrs sim_tables 520192 589824 sim_raw hello_elf sim_power ∅ boot_disk 1)
    as (x & d2 & d3 & s' & E & Hx & [_ Hd Hc Ht _ _ _ _ _ _ _ _ _] & Hn & _ & _ & _ & _ & _ & Hnext).
  - exact sim_linked.
  - exact sim_boot_ok.
  - exact sim_power_on.
  - exact sim_mount.
  - exact (proj2 boot_disk_spec).
  - exact sim_next.
  - exact (ve_bytes _ (hi_elf _ _ hello_elf_image)).
  - exists d3, s'. split; [exact E|]. destruct (numeral_1 x Hx).
    split; [exact Ht|]. split; [exact Hc|]. split; [exact Hd|]. split; [exact Hn|]. apply Hnext. lia.
Defined.

(** The first boot of a disk with one file. *)
Lemma boot_counts_witness :
  ∃ d' s', boot_counter (sim_os file_disk) = Some (tt, s') ∧ printed (cstr (lit_ln "[ok] filesystem mounted (boot #1)")) low_console (o_con s') ∧
    counts d' 1 ∧ durable d' s' ∧ next_boot d' 2.
Proof.
  destruct (boot_counts (sim_os file_disk) file_disk 1) as (x & d' & s' & E & Hx & P & Hc & Ho & Hn & _).
  - exact low_console_inv.
  - exact (fresh_shows file_disk (ok_wf _ file_disk_ok)).
  - exact file_disk_inv.
  - left. split; [vm_compute; reflexivity|]. split; [|reflexivity]. exists 2. split; [done|]. vm_compute. reflexivity.
  - exists d', s'. split; [exact E|]. destruct (numeral_1 x Hx).
    split; [exact P|]. split; [exact Hc|]. split; [apply Ho|apply Hn; lia].
Defined.

(** A disk with 63 empty files. *)
Definition nth_name (i : nat) : list Z := [102; 48 + Z.of_nat (i / 10); 48 + Z.of_nat (i mod 10); 0].
Fixpoint fill_disk (n : nat) (d : disk) : option disk :=
  match n with
  | O => Some d
  | S n' => r ← run_disk (sfs_create SFS_ROOT (nth_name n') SFS_FILE) d; fill_disk n' r.2
  end.
Lemma fill_inv n d d' : (n ≤ 90)%nat → fs_inv d → fill_disk n d = Some d' → fs_inv d'.
Proof.
  revert d. induction n as [|n IH]; intros d Hn Hinv E; cbn [fill_disk] in E; [by injection E as <-|].
  destruct (run_disk _ d) as [[r d1]|] eqn:E1; [|done]. cbn [mbind option_bind snd] in E. apply (IH d1); [lia| |done].
  eapply (fs_step_inv d d1 Hinv). eapply SfsSpec.step_create; [done|apply Hinv| | |by left|exact E1].
  - do 3 right. left.
  - pose proof (Nat.mod_upper_bound n 10 ltac:(lia)). pose proof (Nat.Div0.div_lt_upper_bound n 10 10 ltac:(lia)).
    unfold nth_name. repeat constructor; unfold is_byte; lia.
Qed.
Definition full_disk : disk := default ∅ (fill_disk 63 boot_disk).
Lemma full_disk_run : fill_disk 63 boot_disk = Some full_disk.
Proof. vm_compute. reflexivity. Qed.

Lemma boot_full_disk_witness : ∃ s1, boot_find (sim_os full_disk) = Some ((-1, 0), s1) ∧ boot_store (-1, 0) s1 = None.
Proof.
  pose proof (fill_inv 63 boot_disk full_disk ltac:(lia) (proj2 boot_disk_spec) full_disk_run) as Hinv.
  destruct (boot_full_disk (sim_os full_disk) full_disk) as (s1 & E & _ & _ & _ & N & _).
  - exact (fresh_shows full_disk (ok_wf _ (proj1 Hinv))).
  - exact Hinv.
  - vm_compute. reflexivity.
  - assert (Forall (λ i, type (inode_at full_disk i) ≠ SFS_FREE) (seqZ 0 64)) as HF by (apply (bool_decide_unpack _); vm_compute; exact I).
    intros i Hi. rewrite Forall_forall in HF. apply HF, elem_of_seqZ. exact Hi.
  - exists s1. split; [exact E|exact N].
Defined.
