(* ===== verification/Session.v ===== *)
(** * The running system (cpu/isr.c with the handlers of the timer and the keyboard)

    After the boot the kernel is driven by interrupts: a tick switches tasks, a
    key is edited into the line, and Enter runs the line as a command, all inside
    the handler.  Between interrupts the idle loop or a worker runs on its own
    stack.  [happens] is that behaviour, [typed] what the user is promised. *)

From S2P Require Import Prelude Pmm Kheap CString Block Bcache Ports Sfs SfsLayout SfsInv SfsFile SfsDir SfsOps SfsTree SfsSpec Devices Serial Screen Keyboard Alloc Cpu Task TaskSwitch TaskInv TaskSpec Elf Paging Segments Interrupts Green Shell ShellRun ShellFs ShellSpec ShellPwd ShellWords ShellProps Os Exec ExecUser Hello ExecProps ShellMain ShellLine ShellTop KernelTasks Kernel KernelSpec KernelBoot KernelProps.

(** The tick counter, beside everything. *)
Definition os_ticks {HW D} : lens (os HW D) (os HW D * Z) := Lens (λ s, (s, o_ticks s)) (λ p _, let s := p.1 in
  Os (o_con s) (o_cache s) (o_sched s) (o_fibers s) (o_exec s) (o_pmm s) (o_mmu s) (o_ram s) (o_segs s) (o_intr s) (o_kbd s) p.2 (o_cwd s) (o_worker_ticks s)).

Section system.
Context {HW D : Type} {PW : Ports HW} {AD : AtaDisk D}.
Abbreviation K := (os HW D).
Variables (A : addrs) (T : tables) (gt_use : nat → use).
Context {U : Type} (u_start : user_start → U) (u_run : U → M mem (registers_t * (Z → U))) (n_calls : nat).

(** The call of the registered line handler; a line whose program has not ended
    does not return. *)
Definition on_line (h : Z) (buf : list Z) : M K (list Z) :=
  if h =? a_handle_line A then
    r ← shell_handle_line A gt_use u_start u_run n_calls buf;
    if (r.2 : bool) then mret r.1 else fault
  else fault.

Definition on_key : M K unit := zoom os_keys (keyboard_callback os_con on_line).
Definition on_tick : M K unit := _ ← zoom os_ticks (timer_callback (zoom os_sched (schedule (a_sched_resume A)))); mret tt.

(** A hardware interrupt with the call through the table of handlers. *)
Definition interrupt (r : registers_t) : M K unit :=
  h ← zoom os_irq (irq_handler r);
  match h with
  | None => mret tt
  | Some a =>
      if a =? a_timer_callback T then on_tick
      else if a =? a_keyboard_callback T then on_key else fault
  end.
End system.

(** ** What the user is promised *)

(** The line being typed, the disk and the current directory. *)
Record user := User { u_editor : editor; u_disk : disk; u_dir : Z }.

(** A key in the hands of the editor: what becomes of the line, what is echoed,
    and the line that is submitted. *)
Definition press (e : editor) (sc : Z) : editor * list Z * option (list Z) := edit e (meaning (sh_on e) (caps_on e) sc).

Section promise.
Context {HW D : Type}.
Abbreviation K := (os HW D).

(** One key, pressed in the state [s]: it is edited and echoed, and a submitted
    line is run as the command it names and answered with the prompt. *)
Inductive user_key (s : K) (u : user) (sc : Z) : user → list Z → Prop :=
| user_edits e o : press (u_editor u) sc = (e, o, None) → user_key s u sc (User e (u_disk u) (u_dir u)) o
| user_runs e o l ws d w o1 : press (u_editor u) sc = (e, o, Some l) →
    cstr <$> ws = words_of 16 l → line_does s ws (u_disk u) (u_dir u) d w o1 →
    user_key s u sc (User e d w) (o ++ o1 ++ cwd_text d w ++ cstr (lit " $ ")).

(** The keys so far, each with the state it was pressed in. *)
Inductive typed (u : user) : list (K * Z) → user → list Z → Prop :=
| typed_none : typed u [] u []
| typed_key ks u1 o s sc u2 o1 : typed u ks u1 o → user_key s u1 sc u2 o1 → typed u (ks ++ [(s, sc)]) u2 (o ++ o1).
End promise.

(** ** The system between two events *)

Section running.
Context {HW D : Type} {PW : Ports HW} {PC : PcPorts HW} {AD : AtaDisk D} {AS : AtaDiskSpec D}.
Abbreviation K := (os HW D).
Variables (A : addrs) (T : tables) (gt_use : nat → use).
Context {U : Type} (u_start : user_start → U) (u_run : U → M mem (registers_t * (Z → U))) (n_calls : nat).
Variables (blo bhi : Z).

(** The entry points that are called through pointers. *)
Record callbacks : Prop := {
  cb_timer : a_timer_callback T ≠ 0;
  cb_keyboard : a_keyboard_callback T ≠ 0 ∧ a_keyboard_callback T ≠ a_timer_callback T;
  cb_line : a_handle_line A ≠ 0;
}.

Record system_ok (live : gmap Z Z) (u : user) (s : K) : Prop := {
  sy_shell : os_ok live (u_disk u) (u_dir u) s;
  sy_sched : sched_ok blo bhi TASK_RUNNING (o_sched s) live;
  sy_keys : kbd_ok (o_kbd s) ∧ editor_of (o_kbd s) = u_editor u;
  sy_line : line_handler (o_kbd s) = a_handle_line A;
  sy_timer : interrupt_handlers (o_intr s) !! 32%nat = Some (a_timer_callback T);
  sy_keyboard : interrupt_handlers (o_intr s) !! 33%nat = Some (a_keyboard_callback T);
}.

Abbreviation irq := (interrupt (HW := HW) (D := D) A T gt_use u_start u_run n_calls).

(** The byte the keyboard has ready for the interrupt [r]. *)
Definition next_byte (r : registers_t) (s : K) (sc : Z) : Prop :=
  ∃ a s1 h, zoom os_irq (irq_handler r) s = Some (a, s1) ∧ inb KBD_DATA_PORT (o_con s1).1 = Some (sc, h).

(** The key does not submit a line beyond those of [allowed]. *)
Definition modest (e : editor) (sc : Z) : Prop := ∀ l, (press e sc).2 = Some l → allowed (words_of 16 l).

(** What happens after [s]: the current task runs on its own stack, a tick
    arrives while there is room on that stack, or a key.  The list records the
    keys, each with the state it arrived in. *)
Inductive happens (s : K) : list (K * Z) → K → Prop :=
| hap_none : happens s [] s
| hap_task scs s1 t W R n : happens s scs s1 → tasks (o_sched s1) !! current (o_sched s1) = Some t →
    (let lo := stack_lo blo (head (o_sched s1)) (current (o_sched s1)) t in
     let hi := stack_hi bhi (head (o_sched s1)) (current (o_sched s1)) t in
     (∀ p, p < lo ∨ hi ≤ p → W !! p = words (o_sched s1) !! p) ∧ lo ≤ r_esp R ≤ hi) →
    happens s scs (update os_worker n (update os_cpu (W, R) s1))
| hap_tick scs s1 r s2 : happens s scs s1 → f_int_no r = 32 → has_room blo (o_sched s1) →
    irq r s1 = Some (tt, s2) → happens s scs s2
| hap_key scs s1 r sc s2 : happens s scs s1 → f_int_no r = 33 → next_byte r s1 sc →
    modest (editor_of (o_kbd s1)) sc → irq r s1 = Some (tt, s2) → happens s (scs ++ [(s1, sc)]) s2.

Hypothesis Hcb : callbacks.
Hypothesis Hboot : boot_ok blo bhi.

(** Up to the call of the handler. *)
Lemma irq_entry (s : K) r a : interrupt_handlers (o_intr s) !! Z.to_nat (f_int_no r) = Some a → a ≠ 0 →
  ∃ h, zoom os_irq (irq_handler r) s = Some (Some a, update os_con (h, (o_con s).2) s) ∧
    com1 (pc_of h) = com1 (dev_of (o_con s)) ∧ vga_ctl (pc_of h) = vga_ctl (dev_of (o_con s)).
Proof.
  intros Ha H0. destruct (irq_handler_run (o_con s).1 (o_intr s) r a Ha) as (h & E & Dh). rewrite (proj2 (truth_true a) H0) in E.
  exists h. split; [|by rewrite Dh]. rewrite (zoom_run os_irq _ s _ _ E). by destruct s.
Qed.

Lemma same_console h (s : K) : console_inv (o_con s) → com1 (pc_of h) = com1 (dev_of (o_con s)) → vga_ctl (pc_of h) = vga_ctl (dev_of (o_con s)) →
  console_inv (h, (o_con s).2).
Proof. intros (H1 & H2 & H3) Hc Hv. unfold console_inv, serial_ready, dev_of in *. cbn [fst snd]. rewrite Hc, ?Hv. done. Qed.

Lemma acknowledged live u (s : K) h : system_ok live u s → com1 (pc_of h) = com1 (dev_of (o_con s)) → vga_ctl (pc_of h) = vga_ctl (dev_of (o_con s)) →
  system_ok live u (update os_con (h, (o_con s).2) s) ∧ os_printed (update os_con (h, (o_con s).2) s) = os_printed s.
Proof.
  intros [[Hc ? ? ? ? ?] ? ? ? ? ?] Hcom Hv. split.
  - split; try done. split; try done. by apply same_console.
  - unfold os_printed, printed_by. cbn. by rewrite Hcom.
Qed.

(** The shell as the line handler. *)
Lemma line_call live u (s : K) l rest : system_ok live u s → Forall (λ c, 0 < c < 128) l → Forall is_byte rest → allowed (words_of 16 l) →
  ∃ ws buf' s' d w o, on_line A gt_use u_start u_run n_calls (a_handle_line A) (l ++ 0 :: rest) s = Some (buf', s') ∧
    length buf' = length (l ++ 0 :: rest) ∧ Forall is_byte buf' ∧ cstr <$> ws = words_of 16 l ∧ line_does s ws (u_disk u) (u_dir u) d w o ∧
    os_ok live d w s' ∧ shell_only s s' ∧ os_printed s' = os_printed s ++ o ++ cwd_text d w ++ cstr (lit " $ ").
Proof.
  intros Hs Hl Hrest Hall. destruct (handle_line_run A gt_use u_start u_run n_calls live (u_disk u) (u_dir u) s l rest (sy_shell _ _ _ Hs))
    as (ws & buf' & s1 & s' & d & w & o & Hws & _ & E & Hlen & Hby & Hd & Hok & Hs' & _ & P); [|done|done|].
  { eapply Forall_impl; [exact Hl|]. intros c Hc. cbn in *. lia. }
  exists ws, buf', s', d, w, o. split_and!; try done. unfold on_line. rewrite Z.eqb_refl. by rewrite (M_bind_run _ _ _ _ _ E).
Qed.

(** A command leaves the scheduler's state but for the heap. *)
Lemma shell_keeps live d w (s s' : K) : sched_ok blo bhi TASK_RUNNING (o_sched s) live → os_ok live d w s' → shell_only s s' →
  sched_ok blo bhi TASK_RUNNING (o_sched s') live ∧ o_intr s' = o_intr s ∧ o_kbd s' = o_kbd s.
Proof.
  intros Hsc Hok Ho. pose proof (sk_heap _ _ _ _ Hok) as Hh. cbn [sheap Prelude.view os_shell] in Hh.
  unfold shell_only in Ho. rewrite Ho. cbn [o_sched o_intr o_kbd update os_shell]. split; [|done]. destruct Hsc. by split.
Qed.

Lemma key_handles live u (s : K) : system_ok live u s → allowed (words_of 16 (line (u_editor u))) →
  handles os_con (on_line A gt_use u_start u_run n_calls) s (o_kbd s).
Proof.
  intros Hs Hall c1 rest P _ buf Hlen Hb. subst buf. destruct (sy_keys _ _ _ Hs) as [(_ & _ & _ & Hch) He].
  rewrite (sy_line _ _ _ Hs). rewrite He in *.
  assert (system_ok live u (update os_con c1 s)) as Hs1.
  { destruct Hs as [[] ? ? ? ? ?]. split; try done. split; try done. apply P. }
  destruct (line_call live u (update os_con c1 s) (line (u_editor u)) rest Hs1) as (ws & buf' & s' & d & w & o & E & Hl' & Hb' & _ & _ & Hok & _); [|..|done|].
  - rewrite <-He. exact Hch.
  - apply Forall_app in Hb as [_ Hb]. by inversion Hb.
  - exists buf', s'. split; [exact E|]. split; [by rewrite Hl'|]. split; [done|]. exact (sk_con _ _ _ _ Hok).
Qed.

(** What the editor did, on the whole system. *)
Lemma edited_system live u (s : K) k e o sub (w : K) b : system_ok live u s → edit (u_editor u) k = (e, o, sub) →
  edited os_con (on_line A gt_use u_start u_run n_calls) k (s, o_kbd s) (w, b) →
  (∀ l, sub = Some l → allowed (words_of 16 l) ∧ l = line (u_editor u)) →
  ∃ d dir o', system_ok live (User e d dir) (update os_keys (w, b) s) ∧ os_printed (update os_keys (w, b) s) = os_printed s ++ o ++ o' ∧
    match sub with
    | None => d = u_disk u ∧ dir = u_dir u ∧ o' = []
    | Some l => ∃ ws o1, cstr <$> ws = words_of 16 l ∧ line_does s ws (u_disk u) (u_dir u) d dir o1 ∧ o' = o1 ++ cwd_text d dir ++ cstr (lit " $ ")
    end.
Proof.
  intros Hs He Hed Hsub. unfold edited in Hed. cbn [fst snd] in Hed. rewrite (proj2 (sy_keys _ _ _ Hs)), He in Hed.
  destruct Hed as ([Hkb Hc] & Hed & Hln & c1 & P & Hw). cbn [fst snd] in *. rewrite (sy_line _ _ _ Hs) in *. rewrite (proj2 (truth_true _) (cb_line Hcb)) in Hw.
  assert (system_ok live u (update os_con c1 s) ∧ os_printed (update os_con c1 s) = os_printed s ++ o) as [Hs1 P1].
  { split; [|apply P]. destruct Hs as [[] ? ? ? ? ?]. split; try done. split; try done. apply P. }
  destruct sub as [l|].
  - destruct Hw as (rest & buf' & Hrest & Ew). destruct (Hsub l eq_refl) as [Hall ->].
    destruct (line_call live u _ (line (u_editor u)) rest Hs1) as (ws & buf2 & w2 & d & dir & o1 & E & _ & _ & Hws & Hd & Hok & Ho & Po); [|done..|].
    { rewrite <-(proj2 (sy_keys _ _ _ Hs)). apply (sy_keys _ _ _ Hs). }
    rewrite E in Ew. injection Ew as -> ->. destruct (shell_keeps live d dir _ _ (sy_sched _ _ _ Hs1) Hok Ho) as (Hsc & Hi & _).
    exists d, dir, (o1 ++ cwd_text d dir ++ cstr (lit " $ ")). split; [|split; [|by exists ws, o1; split; [|split; [apply line_does_con in Hd|]]]].
    + split; try done; cbn [o_intr update os_keys fst]; rewrite Hi; apply Hs.
    + change (os_printed w = os_printed s ++ o ++ o1 ++ cwd_text d dir ++ cstr (lit " $ ")). by rewrite Po, P1, <-app_assoc.
  - subst w. exists (u_disk u), (u_dir u), []. split; [|split; [by rewrite app_nil_r|done]]. destruct Hs1. by split.
Qed.

(** A keyboard interrupt. *)
Lemma key_run live u (s : K) r : system_ok live u s → f_int_no r = 33 → ∃ sc, next_byte r s sc ∧
  (modest (u_editor u) sc → ∃ s' u' o, irq r s = Some (tt, s') ∧ system_ok live u' s' ∧ user_key s u sc u' o ∧ os_printed s' = os_printed s ++ o).
Proof.
  intros Hs Hr. destruct (irq_entry s r (a_keyboard_callback T)) as (h1 & E1 & Hc1 & Hv1); [rewrite Hr; apply Hs|apply Hcb|].
  destruct (acknowledged live u s h1 Hs Hc1 Hv1) as [Hs1 P1]. set (s1 := update os_con (h1, (o_con s).2) s) in *.
  destruct (keyboard_callback_run os_con (on_line A gt_use u_start u_run n_calls) (s1, o_kbd s1)) as (sc & h2 & E2 & Hd2 & Hrun).
  { split; [apply Hs1|]. exact (sk_con _ _ _ _ (sy_shell _ _ _ Hs1)). }
  cbn [fst snd Prelude.view os_con] in *. exists sc. split; [by exists (Some (a_keyboard_callback T)), s1, h2|]. intros Hm.
  destruct (acknowledged live u s1 h2 Hs1) as [Hs2 P2]; [unfold dev_of; by rewrite Hd2..|]. set (s2 := update os_con (h2, (o_con s1).2) s1) in *.
  pose proof (proj2 (sy_keys _ _ _ Hs1)) as He. unfold modest in Hm.
  assert (meaning (sh_on (u_editor u)) (caps_on (u_editor u)) sc = meaning (truth (shift (o_kbd s1))) (truth (caps (o_kbd s1))) sc) as Hk by (by rewrite <-He).
  unfold press in Hm. rewrite Hk in Hm. destruct Hrun as ([w b] & E3 & Hed).
  { intros Hent. rewrite Hent in Hm. apply (key_handles live u s2 Hs2). by apply (Hm (line (u_editor u))). }
  destruct (edit (u_editor u) (meaning (truth (shift (o_kbd s1))) (truth (caps (o_kbd s1))) sc)) as [[e o] sub] eqn:Eed. cbn [snd] in Hm.
  destruct (edited_system live u s2 _ e o sub w b Hs2 Eed Hed) as (d & dir & o' & Hs3 & P3 & Hsub).
  { intros l ->. split; [by apply Hm|]. clear -Eed. destruct (meaning _ _ _); cbn in Eed; try case_decide; by injection Eed. }
  exists (update os_keys (w, b) s2), (User e d dir), (o ++ o'). split; [|split; [done|split; [|by rewrite P3, P2, P1]]].
  - unfold interrupt. rewrite (M_bind_run _ _ _ _ _ E1). cbn iota. rewrite (proj2 (Z.eqb_neq _ _) (proj2 (cb_keyboard Hcb))), Z.eqb_refl.
    unfold on_key. by rewrite (zoom_run os_keys _ s1 _ _ E3).
  - destruct sub as [l|].
    + destruct Hsub as (ws & o1 & Hws & Hd & ->). eapply user_runs; [unfold press; by rewrite Hk|done|]. by do 2 apply line_does_con in Hd.
    + destruct Hsub as (-> & -> & ->). rewrite app_nil_r. apply user_edits. unfold press. by rewrite Hk.
Qed.

(** A tick. *)
Lemma tick_run live u (s : K) r : system_ok live u s → f_int_no r = 32 → has_room blo (o_sched s) →
  ∃ s', irq r s = Some (tt, s') ∧ system_ok live u s' ∧ os_printed s' = os_printed s.
Proof.
  intros Hs Hr Hroom. destruct (irq_entry s r (a_timer_callback T)) as (h1 & E1 & Hc1 & Hv1); [rewrite Hr; apply Hs|apply Hcb|].
  destruct (acknowledged live u s h1 Hs Hc1 Hv1) as [Hs1 P1]. set (s1 := update os_con (h1, (o_con s).2) s) in *.
  destruct (so_ring _ _ _ _ _ (sy_sched _ _ _ Hs)) as (ring & Hring & _).
  assert (∃ b sc, schedule (a_sched_resume A) (o_sched s) = Some (b, sc) ∧ sched_ok blo bhi TASK_RUNNING sc live) as (b & sc & E & Hsc).
  { pose proof (schedule_run (a_sched_resume A) blo bhi Hboot _ (o_sched s) live ring (sy_sched _ _ _ Hs) Hroom Hring) as Hrun.
    destruct (first_alive _ ring); [destruct Hrun as (? & ? & _ & _ & _ & _ & Hrun)|].
    all: eexists _, _; split; [exact Hrun|].
    - exact (schedule_ok _ blo bhi Hboot _ _ _ _ _ (sy_sched _ _ _ Hs) (or_introl eq_refl) Hroom Hrun).
    - apply Hs. }
  exists (update os_ticks (update os_sched sc s1, u32 (o_ticks s1 + 1)) s1). split; [|split; [|done]].
  - unfold interrupt. rewrite (M_bind_run _ _ _ _ _ E1). cbn iota. rewrite Z.eqb_refl. unfold on_tick.
    assert (timer_callback (zoom os_sched (schedule (a_sched_resume A))) (s1, o_ticks s1) = Some (b, (update os_sched sc s1, u32 (o_ticks s1 + 1)))) as Et.
    { unfold timer_callback. rewrite bind_modify. cbn [fst snd]. apply (zoom_run fst_lens _ (s1, u32 (o_ticks s1 + 1))), (zoom_run os_sched _ s1). exact E. }
    by rewrite (zoom_bind os_ticks _ _ s1 _ _ Et).
  - destruct Hs1 as [[] ? ? ? ? ?]. split; try done. split; try done. exact (so_heap _ _ _ _ _ Hsc).
Qed.

(** The current task, on its own stack. *)
Lemma task_run live u (s : K) t W R n : system_ok live u s → tasks (o_sched s) !! current (o_sched s) = Some t →
  (let lo := stack_lo blo (head (o_sched s)) (current (o_sched s)) t in
   let hi := stack_hi bhi (head (o_sched s)) (current (o_sched s)) t in
   (∀ p, p < lo ∨ hi ≤ p → W !! p = words (o_sched s) !! p) ∧ lo ≤ r_esp R ≤ hi) →
  system_ok live u (update os_worker n (update os_cpu (W, R) s)).
Proof.
  intros [[] Hsc ? ? ? ?] Ht [Hw Hr]. split; try done. cbn [o_sched update os_worker os_cpu os_sched].
  exact (step_ok 0 0 0 blo bhi Hboot (o_sched s, live) (with_cpu (o_sched s) (tasks (o_sched s)) W R, live) (step_run _ _ _ _ _ (o_sched s) live t W R Ht Hw Hr) Hsc).
Qed.

Lemma happens_ok live u (s : K) scs s' : system_ok live u s → happens s scs s' →
  ∃ u' o, typed u scs u' o ∧ system_ok live u' s' ∧ os_printed s' = os_printed s ++ o.
Proof.
  intros Hs Hh. induction Hh as [|scs s1 t W R n _ IH Ht Hst|scs s1 r s2 _ IH Hr Hroom E|scs s1 r sc s2 _ IH Hr Hsc Hm E].
  - exists u, []. split; [constructor|]. split; [done|]. by rewrite app_nil_r.
  - destruct IH as (u1 & o & Hu & Hs1 & P). exists u1, o. split; [done|]. split; [by eapply task_run|done].
  - destruct IH as (u1 & o & Hu & Hs1 & P). destruct (tick_run live u1 s1 r Hs1 Hr Hroom) as (s2' & E' & Hs2 & P2).
    rewrite E in E'. injection E' as <-. exists u1, o. split; [done|]. split; [done|]. by rewrite P2.
  - destruct IH as (u1 & o & Hu & Hs1 & P). destruct (key_run live u1 s1 r Hs1 Hr) as (sc' & Hsc' & Hrun).
    assert (sc' = sc) as -> by (destruct Hsc as (? & ? & ? & E1 & E2), Hsc' as (? & ? & ? & E3 & E4); congruence).
    rewrite (proj2 (sy_keys _ _ _ Hs1)) in Hm. destruct (Hrun Hm) as (s2' & u2 & o2 & E' & Hs2 & Hk & P2).
    rewrite E in E'. injection E' as <-. exists u2, (o ++ o2). split; [by eapply typed_key|]. split; [done|]. by rewrite P2, P, app_assoc.
Qed.
End running.

(** C1. The system does what its user is promised: once [main] has booted it, take
    any interleaving of the tasks' own work, ticks that find room on the current
    stack, and keys, as long as no key submits one of the commands [ps], [spawn],
    [exec] and [gt] or the removal of a dot entry with its contents.  The text
    printed is then exactly the start-up text followed by what these keys call
    for: every key edited and echoed, every line run as the command it names, in
    the state it was submitted in, on the disk and in the directory the earlier
    lines left, every prompt.  The disk is consistent, the tasks keep their ring
    and their stacks, and the next tick that finds room, and the next key of this
    kind, is handled to its end as well. *)
Theorem system_session {HW D} {PW : Ports HW} {PC : PcPorts HW} {AD : AtaDisk D} {AS : AtaDiskSpec D}
    A T gt_use {U} (u_start : user_start → U) u_run n_calls blo bhi raw hello (s : os HW D) d d1 n
    (Hlinked : linked T) (Hcallbacks : callbacks A T) (Hstack : boot_ok blo bhi) (Hpower : power_on blo bhi d s)
    (Hmount : run_disk sfs_init d = Some (tt, d1)) (Hfs : fs_inv d1) (Hnext : next_boot d1 n) (Hhello : Forall is_byte hello) :
  ∃ x d2 s0, main A T raw hello s = Some (tt, s0) ∧ itoa n = Some (x ++ [0]) ∧ counts d2 n ∧
    ∀ keys s', happens A T gt_use u_start u_run n_calls blo bhi s0 keys s' →
      ∃ live u o, typed (User (Editor [] false false) d2 SFS_ROOT) keys u o ∧ system_ok A T blo bhi live u s' ∧
        os_printed s' = os_printed s ++ boot_text x ++ o ∧
        (∀ r, f_int_no r = 32 → has_room blo (o_sched s') → is_Some (interrupt A T gt_use u_start u_run n_calls r s')) ∧
        (∀ r, f_int_no r = 33 → ∃ sc, next_byte r s' sc ∧
           (modest (u_editor u) sc → is_Some (interrupt A T gt_use u_start u_run n_calls r s'))).
Proof.
  destruct (main_run A T blo bhi raw hello s d d1 n Hlinked Hstack Hpower Hmount Hfs Hnext Hhello) as (x & _ & d2 & s0 & E & Hx & Hr & _ & Hk & _).
  exists x, d2, s0. split; [done|]. split; [done|]. destruct Hr as [(live & Hok & Hsc) _ Hc Ht _ _ _ _ _ _ _ [H32 H33] [Hkb Hed]]. split; [done|].
  intros keys s' Hh. assert (system_ok A T blo bhi live (User (Editor [] false false) d2 SFS_ROOT) s0) as Hs0 by (by split).
  destruct (happens_ok A T gt_use u_start u_run n_calls blo bhi Hcallbacks Hstack live _ s0 keys s' Hs0 Hh) as (u & o & Hu & Hs' & P).
  exists live, u, o. split; [done|]. split; [done|]. split; [by rewrite P, Ht, <-app_assoc|]. split.
  - intros r Hr Hroom. destruct (tick_run A T gt_use u_start u_run n_calls blo bhi Hcallbacks Hstack live u s' r Hs' Hr Hroom) as (s2 & E2 & _). by eexists.
  - intros r Hr. destruct (key_run A T gt_use u_start u_run n_calls blo bhi Hcallbacks live u s' r Hs' Hr) as (sc & Hsc' & Hrun).
    exists sc. split; [done|]. intros Hm. destruct (Hrun Hm) as (s2 & _ & _ & E2 & _). by eexists.
Qed.

(** ** The first key after a first boot *)

#[local] Existing Instance plain_ata.
#[local] Existing Instance plain_ata_spec.

Lemma first_key_modest sc : modest (Editor [] false false) sc.
Proof. intros l Hl. unfold press in Hl. destruct (meaning _ _ sc); cbn in Hl; try discriminate. injection Hl as <-. exact I. Qed.

Lemma typed_nothing {HW D} u u' o : typed (HW := HW) (D := D) u [] u' o → u' = u.
Proof. inversion 1 as [|ks u1 o1 s sc u2 o2 _ _ Hks]; [done|]. by destruct ks. Qed.

Lemma system_session_witness :
  ∃ s0 s1 sc d u o, main sim_addrs sim_tables sim_raw hello_elf sim_power = Some (tt, s0) ∧ counts d 1 ∧ next_byte (trap 33 0 0) s0 sc ∧
    interrupt sim_addrs sim_tables sim_use (λ _, at_start) (hello_run 8388612 no_regs) 10 (trap 33 0 0) s0 = Some (tt, s1) ∧
    typed (User (Editor [] false false) d SFS_ROOT) [(s0, sc)] u o ∧ os_printed s1 = boot_text [49] ++ o.
Proof.
  destruct (system_session sim_addrs sim_tables sim_use (λ _, at_start) (hello_run 8388612 no_regs) 10 520192 589824 sim_raw hello_elf sim_power ∅ boot_disk 1)
    as (x & d & s0 & E & Hx & Hc & Hall).
  - exact sim_linked.
  - split; [discriminate|split; discriminate|discriminate].
  - exact sim_boot_ok.
  - exact sim_power_on.
  - exact sim_mount.
  - exact (proj2 boot_disk_spec).
  - exact sim_next.
  - exact (ve_bytes _ (hi_elf _ _ hello_elf_image)).
  - rewrite <-(numeral_1 x Hx) in *. destruct (Hall [] s0) as (live & u0 & o0 & Hu0 & Hs0 & _ & _ & Hkey); [constructor|].
    apply typed_nothing in Hu0 as ->. destruct (Hkey (trap 33 0 0) eq_refl) as (sc & Hsc & Hrun).
    destruct (Hrun (first_key_modest sc)) as [[[] s1] E1]. destruct (Hall [(s0, sc)] s1) as (_ & u & o & Hu & _ & P & _).
    { apply (hap_key _ _ _ _ _ _ _ _ _ [] s0 (trap 33 0 0)); [constructor|reflexivity|exact Hsc| |exact E1].
      rewrite (proj2 (sy_keys _ _ _ _ _ _ _ Hs0)). apply first_key_modest. }
    exists s0, s1, sc, d, u, o. split_and!; [exact E|exact Hc|exact Hsc|exact E1|exact Hu|exact P].
Defined.
